(* ===== verification/_CoqProject ===== *)
-Q . S2P
Prelude.v
PyStr.v
Utils.v
TestReport.v
TestConfig.v
TestJobs.v
TestRun.v
LinkRun.v
LinkSummary.v
CheckStyle.v
ShellCmd.v
CFlags.v
WUtils.v
Ns3Check.v
Ns3Module.v
WafNode.v
Misc.v
CmdOutput.v
Command.v
BuildTools.v
ModuleScan.v
ModularScan.v
GenBinds.v
Customizations.v
ModuleGen.v
Pybindgen.v
DceModule.v
ApiTypes.v
ApiMethods1.v
ApiMethods2.v
ApiMethods3.v
ApiMethods4.v
ApiMethods5.v
ApiTable.v
ApiCheck.v
ApiGenerate.v
ApiScripts.v
OptParse.v
TestMain.v
WafScript.v
WafBindings.v
WafConfigure.v
WafOptions.v
WafContexts.v
RepoExamples.v
