(* ===== verification/Prelude.v ===== *)
(** * The Python tooling of ns-3-dce: a verification library

    The repository is a simulator library in C++ with tooling in Python around it: the test driver
    [test.py], the readers of configuration files [utils.py], the checker of coding style
    [utils/check-style.py], the tools for the build tool waf in [waf-tools] (pipelines, compiler
    flags, copying and substitution, commands as tasks, the compilation database, relocation), the
    helpers that run a program of the build [wutils.py], the package that checks and builds ns-3
    modules [ns3waf], the scanner and the generator of the Python bindings in [bindings/python], and
    two scripts that run a sweep of simulations and summarize its reports (directory
    [myscripts/pamptcp-link-characteristics]).  This library models these programs and proves what
    makes them correct.

    ** Conventions

    A Python function becomes a Coq function of its arguments.  A function that can raise returns
    [result], one that also changes state is an action of the monad [py] over a record of the
    state ([Prelude]); an exception does not undo the state, as in Python.  [exn] has one
    constructor for each class of exception that the code raises or catches.  A [dict] is an
    association list in insertion order ([dict_get], [dict_set]).  Texts are byte strings and
    [str] methods, [os.path], formatting and parsing of numbers are modelled in [PyStr] with the
    ASCII classes of characters.  Floating-point numbers that are only compared or printed are
    rationals.

    ** The files

    - [Prelude]: exceptions, [result], [py], dictionaries, the tactic [bindsteps] that opens a
      successful run, the hint database [pydb].
    - [PyStr]: strings and paths of the language library.
    - [Utils] ([src/utils.py]): [Reader] has the three readers; [eval] is a parameter.
    - [TestReport] ([read_test], [node_to_text], [translate_to_text], [translate_to_html] of
      [src/test.py]): [Report] writes to the text produced so far, so that a missing element
      leaves a partial report behind, as in the code.
    - [TestConfig] ([read_waf_config], [make_paths], [parse_examples_to_run_file] of
      [src/test.py]): [Driver.world] is the state of the driver, what was printed, the environment,
      the files and directories, and the commands that were run; [Config] has the options and the
      globals; [WafConfig], [Paths] and [Examples] have one definition for each function.
    - [TestJobs] ([Job], [run_job_synchronously], [worker_thread], [sigint_hook]): [Jobs] and
      [RunJob] are the job and how it is run.  [Queues] is the protocol of the main thread, the
      signal handler and n worker threads over the input and the output queue, as a step relation:
      a step is one blocking operation of one thread, so that its runs are all the interleavings.
      [Queues.run_queue] is the sequential run.
    - [TestRun] ([run_tests]): [Run] chooses and queues suites and examples and collects results,
      [Main.run_tests] is the whole function in the order of the code.
    - [LinkRun] and [LinkSummary] (the sweep of simulations and its summary): [Sweep] and
      [Summary], on the state [Driver.world].
    - [CheckStyle] ([src/utils/check-style.py]): [Patches] is the parser and the writer of patches
      over a store of shared chunks, [Indent] the indenting of files with the external tools.
    - [ShellCmd] ([src/waf-tools/shellcmd.py]): [Shlex] is the lexer, [Parse] the six-state parser,
      [Run] the running of a pipeline over a log of system calls.
    - [CFlags] ([src/waf-tools/cflags.py]): the interface [ConfigSet] with its laws stands for
      waf's configuration set; [Configure.configure] is proved against it.
    - [WUtils] ([src/wutils.py]): [Template], [Programs], [ProcEnv] and [RunCmd].
    - [Ns3Check] and [Ns3Module] ([src/ns3waf/__init__.py]): the interface [WafEnv] with its laws
      stands for waf's environment; [Check] has the configuration checks, [Build] what a module asks
      of the build as a log of events, [Modules] the class [Module].

    - [WafNode]: the interface of the nodes of the build tree, which the tools of [waf-tools] share.
    - [Misc] and [CmdOutput] ([src/waf-tools/misc.py]): [Copy], [Subst] with the dictionaries that
      tasks and generators share in a store, [TaskGen] with [apply_cmd], [apply_copy] and
      [apply_subst]; [Args], [RunTask] and [Apply] for commands whose arguments are files.
    - [Command] ([src/waf-tools/command.py]): substitution in a pipeline and its running, on top of
      [ShellCmd].
    - [BuildTools] ([src/waf-tools/clang_compilation_database.py], [relocation.py]): [ClangDb], and
      [Relocation] over a store of nodes.
    - [ModuleScan] ([src/bindings/python/ns3modulescan.py]): [Decl] has the declarations and
      annotations, [Scan] the table, the hook, the sections and the scan.
    - [ModularScan] ([ns3modulescan-modular.py]) and [GenBinds] ([genbinds.py]): the other two
      scanners, over the same declarations; what their text shares with the first is shared here.
    - [Customizations] ([ns3modulegen_core_customizations.py]): [SmartPtr], [Callbacks], [Custom].
    - [ModuleGen] ([ns3modulegen-modular.py]): the error handler, the sinks and [main].
    - [Pybindgen]: the calls of pybindgen that the tables of the bindings make.  A table is a list of
      steps, [Tables.run] makes them, and the interface [Registry] with its laws says what pybindgen
      knows of the classes that were added; [LeastRegistry] is the instance that knows just these.
      [placed] is the condition under which a table runs to its end, on every instance ([run_placed]),
      and on the least one under no other ([least_run_iff]).
    - [DceModule] ([ns3_module_dce.py]): the table of the module dce that was written by hand.
    - [ApiTypes], [ApiMethods1] to [ApiMethods5] and [ApiTable] ([src/bindings/modulegen__gcc_ILP32.py],
      whose text is also that of [modulegen__gcc_LP64.py]): the table that the scan of the library
      wrote, with one definition for each function of the file; [register_types] is cut into parts.
    - [ApiCheck]: [CallbacksList] ([src/bindings/callbacks_list.py]), and how the table, this list, the
      customizations and the table written by hand agree.
    - [ApiGenerate]: the composition of [ModuleGen], [Customizations] and the table: [interpret] says
      what an event of the generator does to the module.
    - [ApiScripts] ([src/example/dce-udp-perf.py], [src/myscripts/sleep/dce-sleep.py]): the examples in
      Python, whose calls are resolved in the table.

    - [OptParse]: the option parser of the language library, as [test.py] and waf use it.
      [CommandLine] is the grammar of the command lines it accepts, [OptTyping] the types of the
      parsed values.
    - [TestMain] (the options and [main] of [src/test.py]): [Cli.main] runs [Main.run_tests].
    - [WafScript] ([build] and [shutdown] of [src/wscript], [src/utils/wscript] and all descriptions
      below [src/myscripts]): [Rules] has [build_a_script], the scripts and [add_myscripts], [Dce] the
      module dce with its tests, examples and libraries, [Top] the whole build and the status file.
    - [WafBindings] ([src/bindings/python/wscript]): [Conf] is the state of a configuration,
      [BindConf] the configuration with the checks that enable the bindings and those that enable the
      scan, [BindBuild] the tasks of the scan and the generation.
    - [WafConfigure] ([configure] of [src/wscript] and of the scripts).
    - [WafOptions]: the options that the three descriptions declare, and the records of options that
      the configuration and the runs read.
    - [WafContexts]: the commands of [src/wscript] that build the documentation and start a shell.
    - [RepoExamples] ([src/example/examples-to-run.py]): the list of examples, and the composition of
      the build, its status file and the driver on it.

    Each component is followed by the module of its facts.

    ** What is shown

    - The test driver: the two-queue protocol is deadlock free, loses no job and always ends
      ([queue_progress], [queue_conservation], [queue_terminates]); with the one worker thread the
      driver starts, every interleaving collects in order what the sequential run gives, up to the
      point where an interrupt is seen ([single_worker_in_order], for the jobs of the driver
      [queued_jobs_run_in_order]).  What running one job does, also when its process cannot be started or its output
      cannot be read ([work_runs_job]), what collecting
      the results adds to the results file and to the counters ([results_file_content],
      [summary_counts]), which suites become jobs, and that the exit status is 0 exactly when every
      job passed or was skipped ([exit_status_zero_iff]).
    - The reports: the recursive text report is the flat preorder of the results; the HTML tags are
      properly nested only for some results.
    - Configuration: the search paths variable by variable, the selection of examples, the readers
      on every branch.
    - The sweep: its jobs, the removal of temporary directories on every path, its status for every
      order of completion, and the round trip between the names that the sweep writes and the
      names that the summary reads; the summary writes one line for each report in a stable order.
    - The style checker: parsing a written patch gives the patch back; what the removal of trailing
      blanks can change.
    - Pipelines: the grammar of accepted pipelines, the round trip of the parser, agreement of the
      status with the left-to-right evaluation, and that every opened file is closed.
    - Modules of a build: which modules a search finds, that modules are built in the order of
      their dependencies, and when an example or a test is given to the build.
    - Build helpers: the flags of a profile, the program found, the words of a command template,
      the environment of a process, the outcome of a command.
    - Tools of the build: what a substitution task writes against a reference substitution
      ([subst_func_spec]) and what the shared dictionary does to a second file; that the task of a
      command generator can be run and with which words ([applied_task_runs]); which commands a
      command task starts and that its status is that of the pipeline as written ([task_status]), where
      [status] and [started] are the specification of [ShellCmd]; that a compile command in the database reads back as its words
      ([command_reads_back]); what relocation moves.
    - Bindings: when the search for the directory ns3 ends, and that the two versions of it agree;
      that the annotations of parameters are given once; a typing invariant of the annotations
      ([hook_well_typed]); which classes are imported ([class_import]); the bounds of the precedence
      of a section; the round trip of smart pointer types; which callback classes are generated and
      how they are named; the order of the generation; both tables of the bindings register every
      class before it is used, on every registry ([table_registered], [registration_in_order]).
    - The scanned table: its classes form a hierarchy, each with one function for its methods
      ([class_hierarchy]); the types of its wrappers are known but for a list of classes
      ([table_types_known]); its overloads can be told apart ([overloads_distinct]); the list of
      callbacks fits it ([callbacks_fit_table]); what the customizations take out of the module leaves
      nothing behind that depends on it ([kernel_removal_closed]); a run of the generator on it
      succeeds at every event, the customizations of attributes included ([generation_completes]); the examples in Python use what it has, or
      stop at a name that is not there ([scripts_against_table]).
    - Command lines: on a model of the parser of the language library, which accepts just the command
      lines of a grammar ([parse_args_grammar]), [main] of the driver runs the tests with complete options or exits without a trace
      ([main_outcomes]), and every record of options can be written, with positional arguments
      anywhere ([options_command_line]).
    - The build descriptions: the driver reads back what the status file says
      ([status_file_read_back]); no script below myscripts is ever run by the driver
      ([script_never_a_job], on the repository as a whole [repository_examples_queued]); what a
      configuration that returned has found ([configure_preconditions]), when it enables the bindings
      and the scan of the API, and what it reports of them ([bindings_configured]), and what a command
      line without the option for the C
      library does ([configuration_command_line]).

    Some theorems state where the code departs from its intent (the names say how): the valgrind
    results missing from the results file, the tags of the HTML report, the pairing of lines in
    [remove_trailing_whitespace_changes], the short circuits of mixed operators, the sweep outside
    the repository.

    ** Bounds and fuel

    Recursion is structural everywhere but in four places.  The printing of a number
    ([PyStr.show_go]) has a fuel of one more than the binary logarithm, which is enough for the
    decimal digits ([show_go_spec]).  The search of ns3modulescan.py for the directory ns3 takes its
    fuel as an argument and gives None while it still runs: [relative_path_spec] says how much is
    enough, and that none is on an absolute path without ns3.  The one of ns3modulescan-modular.py
    has the length of the path as its fuel, which is always enough ([relative_path_ends]).
    The ancestors of a class are looked for eight steps up, and no chain of the table is longer
    ([lineage_complete]).
    The queue protocol is a relation, and [queue_terminates] bounds its runs by six steps for each
    job and each thread and one for the signal.

    ** What is not modelled

    Outside code is a parameter: [eval] and [exec] of Python text, the XML and the JSON parser,
    [float] of a text and [repr] of a float, processes and their output, [uncrustify] and [patch],
    [glob] on a real file system and the order in which parallel runs complete.  Files are whole
    texts and an ordinary write always succeeds; file names are not resolved through symbolic links;
    encodings other than ASCII are left out, but for the check of UTF-8 in [maybe_decode].  The runs of a parallel sweep are executed in the order
    in which they are submitted: different jobs write different files.  Command templates know the
    conversions s, r and %.  The keyword arguments of [ns3waf] are values: that [add_example] extends
    a list of its caller in place is not seen.  The build tool waf is an interface ([WafEnv]) with
    its checks as parameters, and what a description asks of it is a log of events; descriptions of
    submodules are parameters.

    The bindings drive pygccxml and pybindgen: their objects are records of what the code reads of
    them, what they know of types is a parameter and the calls on them are events in order.

    A table of the bindings is the list of its calls; what pybindgen makes of a call, which wrapper
    and in which C++, is not modelled, only which classes it knows and by which names.  An object of a
    module of ns-3 that is not built here is unknown to [ApiScripts].  Of the description of the
    bindings the functions that only text that is commented out calls are left out.

    Not modelled at all: the settings of the documentation ([src/doc/source/conf.py]), a plot of an
    experiment ([src/example/matplotlib-mptcp-lte-wifi-v6.py]), the self test at the end of
    [shellcmd.py], the options of [cflags.py], a tool that no description loads, and the simulator
    itself with its helpers, tests and experiments, which are in C and C++. *)
From Stdlib Require Import ZArith Lia Ascii String.
From stdpp Require Export base list strings gmap relations.

(** ** Python exceptions

    One constructor per exception class that the modelled code raises or
    catches; a payload is kept where the code or a message uses it. *)
Inductive exn : Type :=
  | AssertionError
  | IndexError
  | KeyError
  | AttributeError
  | TypeError
  | RuntimeError
  | UnboundLocalError
  | ValueError (msg : string)
  | OSError (path : string)
  | FileNotFoundError (path : string)
  | TimeoutExpired
  | WafError (msg : string)
  | ConfigurationError (msg : string)      (* of waf; a subclass of WafError *)
  | PyException (msg : string)
  | SystemExit (code : Z).

(** ** Results of fallible code: a value or a raised exception. *)
Inductive result (A : Type) : Type :=
  | Ok (a : A)
  | Raise (e : exn).
Arguments Ok {A} a.
Arguments Raise {A} e.

#[export] Instance exn_eq_dec : EqDecision exn.
Proof. solve_decision. Defined.

#[export] Instance result_eq_dec {A} `{EqDecision A} : EqDecision (result A).
Proof. solve_decision. Defined.

#[export] Instance result_ret : MRet result := λ A a, Ok a.

#[export] Instance result_bind : MBind result := λ A B f m,
  match m with
  | Ok a => f a
  | Raise e => Raise e
  end.

#[export] Instance result_fmap : FMap result := λ A B f m,
  match m with
  | Ok a => Ok (f a)
  | Raise e => Raise e
  end.

(** Python's [assert b]. *)
Definition py_assert (b : bool) : result unit :=
  if b then Ok () else Raise AssertionError.

Definition is_ok {A} (r : result A) : bool :=
  match r with Ok _ => true | Raise _ => false end.

(** ** Stateful code: a state monad whose actions may raise

    An exception does not roll the state back, as in Python. *)
Definition py (S A : Type) : Type := S → result A * S.

#[export] Instance py_ret {S} : MRet (py S) := λ A a s, (Ok a, s).

#[export] Instance py_bind {S} : MBind (py S) := λ A B f m s,
  match m s with
  | (Ok a, s') => f a s'
  | (Raise e, s') => (Raise e, s')
  end.

Definition py_get {S} : py S S := λ s, (Ok s, s).
Definition py_modify {S} (f : S → S) : py S unit := λ s, (Ok (), f s).
Definition py_raise {S A} (e : exn) : py S A := λ s, (Raise e, s).
Definition py_lift {S A} (r : result A) : py S A := λ s, (r, s).

(** [for x in l: f(x)] *)
Fixpoint py_for {S A} (l : list A) (f : A → py S unit) : py S unit :=
  match l with
  | [] => mret ()
  | x :: l' => f x ;; py_for l' f
  end.

Section monad_laws.
  Context {S A B C : Type}.

Lemma py_ret_bind (a : A) (f : A → py S B) s : (mret a ≫= f) s = f a s.
  Proof. reflexivity. Qed.

Lemma py_bind_ret (m : py S A) s : (m ≫= mret) s = m s.
  Proof. unfold mbind, py_bind. by destruct (m s) as [[a|e] s']. Qed.

Lemma py_bind_assoc (m : py S A) (f : A → py S B) (g : B → py S C) s :
    ((m ≫= f) ≫= g) s = (m ≫= (λ a, f a ≫= g)) s.
  Proof. unfold mbind, py_bind. by destruct (m s) as [[a|e] s']. Qed.

Lemma result_bind_Ok (m : result A) (f : A → result B) b :
    m ≫= f = Ok b ↔ ∃ a, m = Ok a ∧ f a = Ok b.
  Proof.
    destruct m as [a|e]; simpl; split; intros H.
    - by exists a.
    - destruct H as (a' & [= <-] & H). done.
    - done.
    - by destruct H as (? & ? & ?).
  Qed.

Lemma py_bind_Ok (m : py S A) (f : A → py S B) s b s' :
    (m ≫= f) s = (Ok b, s') ↔
    ∃ a s1, m s = (Ok a, s1) ∧ f a s1 = (Ok b, s').
  Proof.
    unfold mbind, py_bind. destruct (m s) as [[a|e] s1] eqn:E; split.
    - eauto.
    - intros (? & ? & [= <- <-] & H). done.
    - done.
    - by intros (? & ? & ? & ?).
  Qed.
End monad_laws.

Lemma py_for_app {S A} (l1 l2 : list A) (f : A → py S unit) s :
  py_for (l1 ++ l2) f s = (py_for l1 f ;; py_for l2 f) s.
Proof.
  revert s. induction l1 as [|x l1 IH]; intros s; [done|].
  simpl. unfold mbind, py_bind in *.
  destruct (f x s) as [[u|e] s1]; [|done]. apply IH.
Qed.

(** ** Insertion-ordered dictionaries

    A Python [dict] keeps the order in which its keys were first inserted;
    assigning to a present key keeps its position. *)
Section dict.
  Context {K V : Type} `{EqDecision K}.

Fixpoint dict_get (d : list (K * V)) (k : K) : option V :=
    match d with
    | [] => None
    | (k', v) :: d' => if decide (k = k') then Some v else dict_get d' k
    end.

Fixpoint dict_set (d : list (K * V)) (k : K) (v : V) : list (K * V) :=
    match d with
    | [] => [(k, v)]
    | (k', v') :: d' =>
        if decide (k = k') then (k', v) :: d' else (k', v') :: dict_set d' k v
    end.

Definition dict_update (d d' : list (K * V)) : list (K * V) :=
    foldl (λ acc kv, dict_set acc kv.1 kv.2) d d'.

Lemma dict_get_set d k k' v :
    dict_get (dict_set d k v) k' = if decide (k' = k) then Some v else dict_get d k'.
  Proof.
    induction d as [|[k0 v0] d IH]; simpl; [done|].
    destruct (decide (k = k0)) as [->|Hk]; simpl.
    - by destruct (decide (k' = k0)).
    - destruct (decide (k' = k0)) as [->|Hk']; [|done].
      by destruct (decide (k0 = k)) as [->|].
  Qed.

Lemma dict_get_set_eq d k v : dict_get (dict_set d k v) k = Some v.
  Proof. rewrite dict_get_set. by destruct (decide (k = k)). Qed.

Lemma dict_get_set_ne d k k' v : k' ≠ k → dict_get (dict_set d k v) k' = dict_get d k'.
  Proof. intros H. rewrite dict_get_set. by destruct (decide (k' = k)). Qed.

Lemma dict_get_elem d k v : dict_get d k = Some v → (k, v) ∈ d.
  Proof.
    induction d as [|[k' v'] d IH]; simpl; [done|]. case_decide; [intros [= ->]; subst; by left|].
    right. auto.
  Qed.

Lemma dict_set_keys_in d k v :
    k ∈ d.*1 → (dict_set d k v).*1 = d.*1.
  Proof.
    induction d as [|[k0 v0] d IH]; simpl; [set_solver|].
    intros Hin. destruct (decide (k = k0)) as [->|Hne]; simpl; [done|].
    f_equal. apply IH. set_solver.
  Qed.

Lemma dict_set_fresh d k v :
    k ∉ d.*1 → dict_set d k v = d ++ [(k, v)].
  Proof.
    induction d as [|[k0 v0] d IH]; simpl; [done|].
    intros Hin. destruct (decide (k = k0)) as [->|Hne]; [set_solver|].
    f_equal. apply IH. set_solver.
  Qed.
End dict.

(** ** Lists *)

(** a list split at one of its elements, and what an update at that index does *)
Lemma lookup_split {A} (l : list A) (i : nat) (x : A) :
  l !! i = Some x → ∃ l1 l2, l = l1 ++ x :: l2 ∧ ∀ y, <[i:=y]> l = l1 ++ y :: l2.
Proof.
  revert i. induction l as [|a l IH]; intros [|i] H; simplify_eq/=.
  - by exists [], l.
  - destruct (IH _ H) as (l1 & l2 & -> & Hy). exists (a :: l1), l2. split; [done|].
    intros y. cbn. by rewrite Hy.
Qed.

(** a property of the first state that every step keeps holds of every reachable state *)
Lemma rtc_invariant {A} (R : A → A → Prop) (I : A → Prop) (x y : A) :
  I x → (∀ a b, I a → R a b → I b) → rtc R x y → I y.
Proof. intros Hx Hstep H. induction H as [|a b c Hab _ IH]; eauto. Qed.

(** ** Hint databases of the development *)
Create HintDb pydb.
Create Rewrite HintDb pydb.
#[export] Hint Rewrite @dict_get_set_eq : pydb.
#[export] Hint Resolve dict_get_set_ne : pydb.

(** ** Tactics

    [bindsteps] opens the successful runs of monadic code in the hypotheses;
    [case_bools] splits the conditions of the goal. *)
Ltac bindstep :=
  match goal with
  | H : (_ ≫= _) = Ok _ |- _ =>
      apply result_bind_Ok in H; destruct H as (? & ? & ?)
  | H : (_ ≫= _) _ = (Ok _, _) |- _ =>
      apply py_bind_Ok in H; destruct H as (? & ? & ? & ?)
  | H : mret _ _ = (Ok _, _) |- _ => cbv in H; injection H as H; subst
  end.
Ltac bindsteps := repeat (bindstep; simplify_eq/=).
Ltac case_bools := repeat (case_match; simplify_eq/=).
