(* ===== verification/PyStr.v ===== *)
(** * The Python string and path operations the modelled code uses

    Strings are byte strings ([String.string]); the whitespace and digit classes
    are the ASCII ones.  [os.path] is [posixpath].  Every function here models a
    part of Python's standard library, for the components to share, and the
    lemmas after each group are the facts their proofs need. *)
From Stdlib Require Import ZArith Lia Ascii String QArith.
From stdpp Require Import base list strings.
From S2P Require Import Prelude.

#[local] Open Scope Z_scope.

(** ** Characters *)
Definition ord (c : ascii) : Z := Z.of_N (N_of_ascii c).
Definition chr (z : Z) : ascii := ascii_of_N (Z.to_N z).

(** [str.isspace] on one ASCII character, also the regular expression [\s]. *)
Definition is_space (c : ascii) : bool :=
  let n := ord c in
  ((9 <=? n) && (n <=? 13)) || ((28 <=? n) && (n <=? 32)).

Definition is_digit (c : ascii) : bool := (48 <=? ord c) && (ord c <=? 57).

Definition is_alpha (c : ascii) : bool :=
  ((65 <=? ord c) && (ord c <=? 90)) || ((97 <=? ord c) && (ord c <=? 122)).

(** [\w], the class [[a-zA-Z0-9_]] *)
Definition is_word (c : ascii) : bool :=
  is_alpha c || is_digit c || (ord c =? 95).

Definition to_upper (c : ascii) : ascii :=
  if (97 <=? ord c) && (ord c <=? 122) then chr (ord c - 32) else c.

Definition to_lower (c : ascii) : ascii :=
  if (65 <=? ord c) && (ord c <=? 90) then chr (ord c + 32) else c.

Definition newline : ascii := "010"%char.
Definition nl : string := String newline EmptyString.

(** ** Strings as sequences *)
Fixpoint str_all (p : ascii → bool) (s : string) : bool :=
  match s with
  | EmptyString => true
  | String a s' => p a && str_all p s'
  end.

Fixpoint str_map (f : ascii → ascii) (s : string) : string :=
  match s with
  | EmptyString => EmptyString
  | String a s' => String (f a) (str_map f s')
  end.

Definition upper : string → string := str_map to_upper.
Definition lower : string → string := str_map to_lower.

Definition str_len (s : string) : Z := Z.of_nat (String.length s).

(** A string is true in a condition when it is not empty. *)
Definition truthy (s : string) : bool :=
  match s with EmptyString => false | _ => true end.

(** [s.startswith(p)] *)
Fixpoint startswith (s p : string) : bool :=
  match p, s with
  | EmptyString, _ => true
  | String _ _, EmptyString => false
  | String a p', String b s' => Ascii.eqb a b && startswith s' p'
  end.

(** [sub in s] *)
Fixpoint py_in (sub s : string) : bool :=
  startswith s sub ||
  match s with
  | EmptyString => false
  | String _ s' => py_in sub s'
  end.

(** [c in s] for a single character *)
Definition has_char (c : ascii) (s : string) : bool :=
  negb (str_all (λ a, negb (Ascii.eqb a c)) s).

(** [s[n:]] for a non-negative [n] *)
Fixpoint str_drop (n : nat) (s : string) : string :=
  match n, s with
  | O, _ => s
  | S n', String _ s' => str_drop n' s'
  | S _, EmptyString => EmptyString
  end.

Fixpoint str_take (n : nat) (s : string) : string :=
  match n, s with
  | O, _ => EmptyString
  | S n', String a s' => String a (str_take n' s')
  | S _, EmptyString => EmptyString
  end.

(** [s.find(sub)]: the first index, [None] for Python's -1 *)
Fixpoint py_find (sub s : string) : option nat :=
  if startswith s sub then Some O
  else match s with
       | EmptyString => None
       | String _ s' => S <$> py_find sub s'
       end.

(** [s.endswith(p)] *)
Fixpoint endswith (s p : string) : bool :=
  (s =? p)%string ||
  match s with
  | EmptyString => false
  | String _ s' => endswith s' p
  end.

(** [s.split(c)] for a one-character separator *)
Fixpoint split_char (c : ascii) (s : string) : list string :=
  match s with
  | EmptyString => [EmptyString]
  | String a s' =>
      if Ascii.eqb a c then EmptyString :: split_char c s'
      else match split_char c s' with
           | w :: ws => String a w :: ws
           | [] => [String a EmptyString]
           end
  end.

(** [s.split(c, 1)]: [None] when the separator does not occur *)
Fixpoint split_once (c : ascii) (s : string) : option (string * string) :=
  match s with
  | EmptyString => None
  | String a s' =>
      if Ascii.eqb a c then Some (EmptyString, s')
      else match split_once c s' with
           | Some (x, y) => Some (String a x, y)
           | None => None
           end
  end.

(** the split at the last occurrence of [c] *)
Fixpoint split_last (c : ascii) (s : string) : option (string * string) :=
  match s with
  | EmptyString => None
  | String a s' =>
      match split_last c s' with
      | Some (x, y) => Some (String a x, y)
      | None => if Ascii.eqb a c then Some (EmptyString, s') else None
      end
  end.

(** [sep.join(l)] *)
Fixpoint join (sep : string) (l : list string) : string :=
  match l with
  | [] => EmptyString
  | [x] => x
  | x :: l' => x +:+ sep +:+ join sep l'
  end.

(** [str.lstrip], [str.rstrip] and [str.strip] for a set of characters *)
Fixpoint lstrip_by (p : ascii → bool) (s : string) : string :=
  match s with
  | EmptyString => EmptyString
  | String a s' => if p a then lstrip_by p s' else s
  end.

Fixpoint rstrip_by (p : ascii → bool) (s : string) : string :=
  match s with
  | EmptyString => EmptyString
  | String a s' =>
      match rstrip_by p s' with
      | EmptyString => if p a then EmptyString else String a EmptyString
      | r => String a r
      end
  end.

Definition strip (s : string) : string := rstrip_by is_space (lstrip_by is_space s).

(** [s.replace(old, new)] for a non-empty [old] *)
Fixpoint replace_go (old new : string) (skip : nat) (s : string) : string :=
  match s with
  | EmptyString => EmptyString
  | String a s' =>
      match skip with
      | S k => replace_go old new k s'
      | O => if startswith s old
             then new +:+ replace_go old new (String.length old - 1)%nat s'
             else String a (replace_go old new O s')
      end
  end.
Definition py_replace (old new s : string) : string := replace_go old new O s.

(** the lines of a text, each with its newline, as iteration over a file gives *)
Fixpoint lines_keep (s : string) : list string :=
  match s with
  | EmptyString => []
  | String a s' =>
      if Ascii.eqb a newline then nl :: lines_keep s'
      else match lines_keep s' with
           | w :: ws => String a w :: ws
           | [] => [String a EmptyString]
           end
  end.

(** ** Decimal numbers *)
Definition digit_char (d : Z) : ascii := chr (48 + d).
Definition digit_val (c : ascii) : Z := ord c - 48.

Fixpoint show_go (fuel : nat) (n : Z) (acc : string) : string :=
  match fuel with
  | O => acc
  | S f =>
      let acc' := String (digit_char (n mod 10)) acc in
      if n <? 10 then acc' else show_go f (n / 10) acc'
  end.

(** [str(n)] for [n >= 0]: [log2 n + 1] steps are enough, each divides by ten *)
Definition show_nonneg (n : Z) : string := show_go (S (Z.to_nat (Z.log2 n))) n EmptyString.

Definition show_Z (n : Z) : string :=
  if n <? 0 then "-" +:+ show_nonneg (- n) else show_nonneg n.

(** the value of a run of digits, most significant first *)
Fixpoint digits_val (acc : Z) (s : string) : Z :=
  match s with
  | EmptyString => acc
  | String a s' => digits_val (10 * acc + digit_val a) s'
  end.

(** [%0kd] for a non-negative number *)
Fixpoint zeros (n : nat) : string :=
  match n with O => EmptyString | S n' => String "0"%char (zeros n') end.
Definition pad_zeros (k : nat) (s : string) : string :=
  zeros (k - String.length s) +:+ s.

(** the longest prefix of digits and the rest *)
Fixpoint span_digits (s : string) : string * string :=
  match s with
  | EmptyString => (EmptyString, EmptyString)
  | String a s' =>
      if is_digit a then let '(d, r) := span_digits s' in (String a d, r)
      else (EmptyString, s)
  end.

(** digits with single underscores between them, as [int()] accepts; the second
    argument says whether a digit must come next *)
Fixpoint int_digits (need : bool) (acc : Z) (s : string) : option Z :=
  match s with
  | EmptyString => if need then None else Some acc
  | String a s' =>
      if is_digit a then int_digits false (10 * acc + digit_val a) s'
      else if Ascii.eqb a "_"%char && negb need then int_digits true acc s'
      else None
  end.

(** [int(s)] *)
Definition py_int (s : string) : result Z :=
  let body := strip s in
  let '(neg, ds) :=
    match body with
    | String "-"%char r => (true, r)
    | String "+"%char r => (false, r)
    | _ => (false, body)
    end in
  match int_digits true 0 ds with
  | Some v => Ok (if neg then - v else v)
  | None => Raise (ValueError "invalid literal for int()")
  end.

(** Rounding to the nearest integer, ties to even, as float formatting does. *)
Definition round_half_even (n d : Z) : Z :=
  let q := n / d in
  let r := n mod d in
  if 2 * r <? d then q
  else if d <? 2 * r then q + 1
  else if Z.even q then q else q + 1.

(** ["%.kf" % x] for the rational value [x] of a finite float *)
Definition fmt_fixed (k : nat) (x : Q) : string :=
  let scale := 10 ^ Z.of_nat k in
  let n := round_half_even (Z.abs (Qnum x) * scale) (Z.pos (Qden x)) in
  (if Qnum x <? 0 then "-" else EmptyString) +:+ show_nonneg (n / scale) +:+
  (match k with O => EmptyString | _ => "." +:+ pad_zeros k (show_nonneg (n mod scale)) end).

(** ** Paths *)
Definition is_slash (c : ascii) : bool := Ascii.eqb c "/"%char.

(** [os.path.split] *)
Definition path_split (p : string) : string * string :=
  match split_last "/"%char p with
  | None => (EmptyString, p)
  | Some (h, t) =>
      let head := h +:+ "/" in
      (if str_all is_slash head then head else rstrip_by is_slash head, t)
  end.

Definition basename (p : string) : string := (path_split p).2.
Definition dirname (p : string) : string := (path_split p).1.

(** [os.path.join(a, b)] *)
Definition path_join (a b : string) : string :=
  if startswith b "/" then b
  else if negb (truthy a) || endswith a "/" then a +:+ b
  else a +:+ "/" +:+ b.

(** [os.path.join] of several components *)
Definition path_joins (a : string) (l : list string) : string := foldl path_join a l.

(** [os.path.normpath]: empty and [.] components go, [..] removes the component before it *)
Definition norm_step (absolute : bool) (acc : list string) (comp : string) : list string :=
  if (comp =? EmptyString)%string || (comp =? ".")%string then acc
  else if negb (comp =? "..")%string then comp :: acc
  else match acc with
       | [] => if absolute then [] else [comp]
       | c :: acc' => if (c =? "..")%string then comp :: acc else acc'
       end.

Definition leading_slashes (p : string) : string :=
  if startswith p "///" then "/"
  else if startswith p "//" then "//"
  else if startswith p "/" then "/" else EmptyString.

Definition normpath (p : string) : string :=
  let slashes := leading_slashes p in
  let comps := foldl (norm_step (truthy slashes)) [] (split_char "/"%char p) in
  let q := slashes +:+ join "/" (rev comps) in
  if truthy q then q else ".".

(** [os.path.abspath(p)] in the working directory [cwd] *)
Definition abspath (cwd p : string) : string := normpath (path_join cwd p).

(** [s.split(sep)] for a non-empty separator, and for two parts the unpacking
    [a, b = s.split(sep)] *)
Fixpoint split_str_go (sep : string) (skip : nat) (s : string) : list string :=
  match s with
  | EmptyString => [EmptyString]
  | String c s' =>
      match skip with
      | S k => split_str_go sep k s'
      | O =>
          if startswith s sep then
            EmptyString :: split_str_go sep (String.length sep - 1) s'
          else match split_str_go sep O s' with
               | p :: ps => String c p :: ps
               | [] => [String c EmptyString]
               end
      end
  end.
Definition split_str (sep s : string) : list string := split_str_go sep O s.

Definition unpack2 (l : list string) : result (string * string) :=
  match l with
  | [a; b] => Ok (a, b)
  | [] | [_] => Raise (ValueError "not enough values to unpack")
  | _ => Raise (ValueError "too many values to unpack")
  end.

(** the order that sorts lists of texts *)
Definition string_le (a b : string) : Prop := String.leb a b = true.
#[export] Instance string_le_dec : RelDecision string_le.
Proof. intros a b. unfold string_le. apply _. Defined.

(** ** Lemmas: concatenation, prefixes, lines *)
Definition no_char (c : ascii) (s : string) : Prop :=
  str_all (λ a, negb (Ascii.eqb a c)) s = true.

Lemma sapp_cons a s t : String a s +:+ t = String a (s +:+ t).
Proof. reflexivity. Qed.

Lemma sapp_nil_l t : EmptyString +:+ t = t.
Proof. reflexivity. Qed.

Lemma sapp_nil_r s : s +:+ EmptyString = s.
Proof. induction s as [|a s IH]; [done|]. by rewrite sapp_cons, IH. Qed.

Lemma sapp_assoc (s t u : string) : (s +:+ t) +:+ u = s +:+ (t +:+ u).
Proof. induction s as [|a s IH]; [done|]. by rewrite !sapp_cons, IH. Qed.

Lemma sapp_inj_l (s t u : string) : s +:+ t = s +:+ u → t = u.
Proof. induction s as [|a s IH]; [done|]. rewrite !sapp_cons. intros [= H]. auto. Qed.

Lemma slength_app s t : String.length (s +:+ t) = (String.length s + String.length t)%nat.
Proof. induction s as [|a s IH]; [done|]. rewrite sapp_cons. simpl. by rewrite IH. Qed.

Lemma str_all_app p s t : str_all p (s +:+ t) = str_all p s && str_all p t.
Proof.
  induction s as [|a s IH]; [done|]. rewrite sapp_cons. simpl. rewrite IH.
  by rewrite andb_assoc.
Qed.

Lemma str_all_impl (p q : ascii → bool) s :
  (∀ a, p a = true → q a = true) → str_all p s = true → str_all q s = true.
Proof.
  intros H. induction s as [|a s IH]; [done|]. simpl.
  rewrite !andb_true_iff. naive_solver.
Qed.

Lemma has_char_no_char c s : has_char c s = false ↔ no_char c s.
Proof. unfold has_char, no_char. by rewrite negb_false_iff. Qed.

Lemma no_char_app c s t : no_char c (s +:+ t) ↔ no_char c s ∧ no_char c t.
Proof. unfold no_char. by rewrite str_all_app, andb_true_iff. Qed.

Lemma no_char_cons c a s : no_char c (String a s) ↔ a ≠ c ∧ no_char c s.
Proof.
  unfold no_char. simpl. rewrite andb_true_iff, negb_true_iff.
  by rewrite Ascii.eqb_neq.
Qed.

Lemma startswith_app p s : startswith (p +:+ s) p = true.
Proof.
  induction p as [|a p IH]; [by destruct s|].
  rewrite sapp_cons. simpl. by rewrite Ascii.eqb_refl, IH.
Qed.

Lemma startswith_spec s p : startswith s p = true ↔ ∃ r, s = p +:+ r.
Proof.
  split.
  - revert s. induction p as [|a p IH]; intros s H.
    + by exists s.
    + destruct s as [|b s]; [done|]. simpl in H.
      apply andb_true_iff in H as [Ha Hs]. apply Ascii.eqb_eq in Ha as ->.
      destruct (IH _ Hs) as [r ->]. by exists r.
  - intros [r ->]. apply startswith_app.
Qed.

Lemma str_drop_app p s : str_drop (String.length p) (p +:+ s) = s.
Proof. induction p as [|a p IH]; [by destruct s|]. rewrite sapp_cons. simpl. done. Qed.

Lemma startswith_nl s p : no_char newline p → startswith (s +:+ nl) p = startswith s p.
Proof.
  revert s. induction p as [|a p IH]; intros s Hp.
  - by destruct s.
  - apply no_char_cons in Hp as [Ha Hp]. destruct s as [|b s].
    + simpl. replace (Ascii.eqb a newline) with false; [done|].
      symmetry. by apply Ascii.eqb_neq.
    + rewrite sapp_cons. simpl. by rewrite IH.
Qed.

(** ** Lemmas: [strip] *)

(** a text that begins and ends with something else than a space *)
Definition tight (s : string) : Prop :=
  ∃ a m b, (s = String a EmptyString ∧ a = b ∨ s = String a (m +:+ String b EmptyString)) ∧
    is_space a = false ∧ is_space b = false.

Lemma lstrip_pad p s x :
  str_all p s = true → match x with String a _ => p a = false | _ => True end →
  lstrip_by p (s +:+ x) = x.
Proof.
  intros Hs Hx. induction s as [|c s IH].
  - rewrite sapp_nil_l. destruct x as [|a x]; [done|]. cbn. by rewrite Hx.
  - cbn in Hs. apply andb_true_iff in Hs as [Hc Hs]. rewrite sapp_cons. cbn. by rewrite Hc, IH.
Qed.

Lemma rstrip_all p s : str_all p s = true → rstrip_by p s = EmptyString.
Proof.
  induction s as [|c s IH]; [done|]. cbn. intros [Hc Hs]%andb_true_iff. by rewrite IH, Hc.
Qed.

Lemma rstrip_pad p x b s :
  str_all p s = true → p b = false →
  rstrip_by p ((x +:+ String b EmptyString) +:+ s) = x +:+ String b EmptyString.
Proof.
  intros Hs Hb. induction x as [|c x IH].
  - rewrite sapp_nil_l, sapp_cons, sapp_nil_l. cbn [rstrip_by]. by rewrite rstrip_all, Hb.
  - rewrite !sapp_cons. cbn [rstrip_by]. rewrite IH. by destruct x.
Qed.

Lemma strip_pad s1 x s2 :
  str_all is_space s1 = true → str_all is_space s2 = true → tight x → strip (s1 +:+ x +:+ s2) = x.
Proof.
  intros H1 H2 (a & m & b & Hx & Ha & Hb). unfold strip.
  rewrite lstrip_pad; [|done|by destruct Hx as [[-> _]| ->]].
  destruct Hx as [[-> ->]| ->].
  - by apply (rstrip_pad is_space EmptyString).
  - rewrite <- sapp_cons. by apply rstrip_pad.
Qed.

(** ** Lemmas: [split_once] *)
Lemma split_once_app c a b : no_char c a → split_once c (a +:+ String c b) = Some (a, b).
Proof.
  induction a as [|x a IH].
  - rewrite sapp_nil_l. cbn [split_once]. by rewrite Ascii.eqb_refl.
  - intros [Hx Ha]%no_char_cons. rewrite sapp_cons. cbn [split_once].
    apply Ascii.eqb_neq in Hx as ->. by rewrite IH.
Qed.

Lemma split_once_None c s : no_char c s → split_once c s = None.
Proof.
  induction s as [|x s IH]; [done|]. intros [Hx Hs]%no_char_cons. cbn [split_once].
  apply Ascii.eqb_neq in Hx as ->. by rewrite IH.
Qed.

Lemma split_once_inv c s p q :
  split_once c s = Some (p, q) → s = p +:+ String c q ∧ no_char c p.
Proof.
  revert p. induction s as [|a s IH]; intros p; [done|]. cbn [split_once].
  destruct (Ascii.eqb_spec a c) as [->|Hne].
  - by intros [= <- <-].
  - destruct (split_once c s) as [[p' q']|]; [|done]. intros [= <- <-].
    destruct (IH p' eq_refl) as [-> Hno]. by rewrite sapp_cons, no_char_cons.
Qed.

Lemma split_once_none_inv c s : split_once c s = None → no_char c s.
Proof.
  induction s as [|a s IH]; [done|]. cbn [split_once]. rewrite no_char_cons.
  destruct (Ascii.eqb_spec a c) as [->|Hne]; [done|].
  destruct (split_once c s) as [[p' q']|]; [done|]. auto.
Qed.

Lemma split_last_None c s : no_char c s → split_last c s = None.
Proof.
  induction s as [|a s IH]; [done|]. intros [Ha Hs]%no_char_cons.
  simpl. rewrite IH by done. by apply Ascii.eqb_neq in Ha as ->.
Qed.

Lemma split_last_app c s t :
  no_char c t → split_last c (s +:+ String c t) = Some (s, t).
Proof.
  intros Ht. induction s as [|a s IH].
  - rewrite sapp_nil_l. simpl. rewrite split_last_None by done.
    by rewrite Ascii.eqb_refl.
  - rewrite sapp_cons. simpl. by rewrite IH.
Qed.

Lemma lines_keep_line s t :
  no_char newline s → lines_keep (s +:+ nl +:+ t) = (s +:+ nl) :: lines_keep t.
Proof.
  induction s as [|a s IH].
  - intros _. unfold nl. rewrite !sapp_nil_l, sapp_cons, sapp_nil_l. simpl. done.
  - intros [Ha Hs]%no_char_cons. rewrite !sapp_cons. simpl.
    apply Ascii.eqb_neq in Ha as ->. by rewrite IH.
Qed.

(** ** Lemmas: decimal numerals *)
Lemma ord_inj a b : ord a = ord b → a = b.
Proof.
  unfold ord. intros H. apply N2Z.inj in H.
  by rewrite <- (ascii_N_embedding a), <- (ascii_N_embedding b), H.
Qed.

Lemma ord_chr z : 0 ≤ z < 256 → ord (chr z) = z.
Proof. intros H. unfold ord, chr. rewrite N_ascii_embedding; lia. Qed.

Lemma digit_char_digit d : 0 ≤ d < 10 → is_digit (digit_char d) = true.
Proof.
  intros H. unfold is_digit, digit_char. rewrite ord_chr by lia. lia.
Qed.

Lemma digit_val_char d : 0 ≤ d < 10 → digit_val (digit_char d) = d.
Proof. intros H. unfold digit_val, digit_char. rewrite ord_chr by lia. lia. Qed.

Lemma digits_val_app acc s t : digits_val acc (s +:+ t) = digits_val (digits_val acc s) t.
Proof. revert acc. induction s as [|a s IH]; intros acc; [done|]. rewrite sapp_cons. simpl. apply IH. Qed.

(** [show_go] writes the digits of [n] in front of [acc]. *)
Lemma show_go_spec fuel n acc :
  0 ≤ n → n < 2 ^ Z.of_nat fuel →
  ∃ ds, show_go fuel n acc = ds +:+ acc ∧ str_all is_digit ds = true ∧
        digits_val 0 ds = n ∧ (fuel ≠ O → ds ≠ EmptyString).
Proof.
  revert n acc. induction fuel as [|f IH]; intros n acc Hn Hlt.
  - exists EmptyString. simpl in *. split; [done|]. split; [done|]. split; [lia|done].
  - simpl. pose proof (Z.mod_pos_bound n 10 ltac:(lia)) as Hm.
    destruct (n <? 10) eqn:E.
    + exists (String (digit_char (n mod 10)) EmptyString).
      rewrite sapp_cons, sapp_nil_l. simpl.
      rewrite digit_char_digit, digit_val_char by lia.
      rewrite Z.mod_small by lia. split; [done|]. split; [lia|done].
    + assert (n / 10 < 2 ^ Z.of_nat f) as Hdiv.
      { rewrite Nat2Z.inj_succ, Z.pow_succ_r in Hlt by lia.
        apply Z.div_lt_upper_bound; lia. }
      destruct (IH (n / 10) (String (digit_char (n mod 10)) acc)) as (ds & -> & Hd & Hv & _);
        [apply Z.div_pos; lia|done|].
      exists (ds +:+ String (digit_char (n mod 10)) EmptyString).
      rewrite sapp_assoc, sapp_cons, sapp_nil_l, str_all_app, Hd. simpl.
      rewrite digit_char_digit by lia. split; [done|]. split; [done|].
      split; [|by destruct ds].
      rewrite digits_val_app, Hv. simpl. rewrite digit_val_char by lia.
      pose proof (Z.div_mod n 10). lia.
Qed.

Lemma show_nonneg_spec n :
  0 ≤ n → str_all is_digit (show_nonneg n) = true ∧ digits_val 0 (show_nonneg n) = n ∧
          show_nonneg n ≠ EmptyString.
Proof.
  intros Hn. unfold show_nonneg.
  destruct (show_go_spec (S (Z.to_nat (Z.log2 n))) n EmptyString) as (ds & -> & Hd & Hv & Hne).
  - done.
  - pose proof (Z.log2_nonneg n). rewrite Nat2Z.inj_succ, Z2Nat.id by lia.
    destruct (decide (n = 0)) as [->|]; [done|]. apply Z.log2_spec. lia.
  - rewrite sapp_nil_r. auto.
Qed.

Lemma show_Z_nonneg n : 0 ≤ n → show_Z n = show_nonneg n.
Proof. intros H. unfold show_Z. by rewrite (proj2 (Z.ltb_ge n 0)). Qed.

Lemma span_digits_app ds r :
  str_all is_digit ds = true →
  match r with String a _ => is_digit a = false | EmptyString => True end →
  span_digits (ds +:+ r) = (ds, r).
Proof.
  intros Hd Hr. induction ds as [|a ds IH].
  - rewrite sapp_nil_l. destruct r as [|a r]; simpl; [done|]. by rewrite Hr.
  - simpl in Hd. apply andb_true_iff in Hd as [Ha Hd].
    rewrite sapp_cons. simpl. by rewrite Ha, IH.
Qed.

Lemma digit_not a c : is_digit a = true → is_digit c = false → a ≠ c.
Proof. intros H1 H2 ->. congruence. Qed.

Lemma digits_no_char c s :
  is_digit c = false → str_all is_digit s = true → no_char c s.
Proof.
  intros Hc. apply str_all_impl. intros a Ha. apply negb_true_iff, Ascii.eqb_neq.
  by apply digit_not.
Qed.

Lemma show_nonneg_no_char c n : 0 ≤ n → is_digit c = false → no_char c (show_nonneg n).
Proof. intros Hn Hc. apply digits_no_char; [done|]. by apply show_nonneg_spec. Qed.

#[export] Hint Resolve startswith_app show_nonneg_no_char : pydb.

(** ** Concatenation of a list of strings *)
Fixpoint sconcat (l : list string) : string :=
  match l with [] => EmptyString | s :: l => s +:+ sconcat l end.

Lemma sconcat_app l l' : sconcat (l ++ l') = sconcat l +:+ sconcat l'.
Proof. induction l as [|s l IH]; [done|]. cbn [sconcat app]. by rewrite IH, sapp_assoc. Qed.

(** ** Directories and names *)
Lemma startswith_slash b : no_char "/" b → startswith b "/" = false.
Proof.
  destruct b as [|a b]; [done|]. intros [Ha _]%no_char_cons. cbn [startswith].
  by destruct (Ascii.eqb_spec "/" a) as [<-|].
Qed.

Lemma endswith_slash a : endswith a "/" = true → ∃ r, a = r +:+ "/".
Proof.
  induction a as [|x a IH]; [done|]. cbn [endswith]. intros [Heq|H]%orb_true_iff.
  - apply String.eqb_eq in Heq. rewrite Heq. by exists EmptyString.
  - destruct (IH H) as [r ->]. by exists (String x r).
Qed.

Lemma basename_join d b : no_char "/" b → basename (path_join d b) = b.
Proof.
  intros Hb. unfold basename, path_split, path_join. rewrite startswith_slash by done.
  destruct (negb (truthy d) || endswith d "/") eqn:E.
  - apply orb_true_iff in E as [E|[r ->]%endswith_slash].
    + destruct d; [|done]. by rewrite sapp_nil_l, split_last_None.
    + rewrite sapp_assoc. change ("/" +:+ b) with (String "/" b). by rewrite split_last_app.
  - change (d +:+ "/" +:+ b) with (d +:+ String "/" b). by rewrite split_last_app.
Qed.

Lemma rstrip_slash d a :
  a ≠ "/"%char →
  rstrip_by is_slash ((d +:+ String a EmptyString) +:+ "/") = d +:+ String a EmptyString ∧
  str_all is_slash ((d +:+ String a EmptyString) +:+ "/") = false.
Proof.
  intros Ha. assert (E : is_slash a = false) by by apply Ascii.eqb_neq.
  induction d as [|x d [IH1 IH2]].
  - rewrite sapp_nil_l. change (String a EmptyString +:+ "/") with (String a "/").
    cbn [rstrip_by str_all]. by rewrite E.
  - rewrite !sapp_cons. cbn [str_all rstrip_by]. rewrite IH1, IH2, andb_false_r.
    split; [|done]. by destruct d.
Qed.

Lemma endswith_not_slash d a : a ≠ "/"%char → endswith (d +:+ String a EmptyString) "/" = false.
Proof.
  intros Ha. assert (E : Ascii.eqb a "/" = false) by by apply Ascii.eqb_neq.
  induction d as [|x d IH].
  { rewrite sapp_nil_l. cbn [endswith String.eqb]. by rewrite E. }
  rewrite sapp_cons. cbn [endswith]. rewrite IH, orb_false_r. cbn [String.eqb].
  destruct (Ascii.eqb x "/"); [by destruct d|done].
Qed.

Lemma path_split_snoc d a b :
  a ≠ "/"%char → no_char "/" b →
  path_split ((d +:+ String a EmptyString) +:+ String "/" b) = (d +:+ String a EmptyString, b).
Proof.
  intros Ha Hb. unfold path_split. rewrite split_last_app by done.
  destruct (rstrip_slash d a Ha) as [H1 H2]. by rewrite H2, H1.
Qed.

Lemma dirname_join d a b :
  a ≠ "/"%char → no_char "/" b →
  dirname (path_join (d +:+ String a EmptyString) b) = d +:+ String a EmptyString.
Proof.
  intros Ha Hb. set (p := d +:+ String a EmptyString).
  assert (Hp : endswith p "/" = false) by by apply endswith_not_slash.
  unfold dirname, path_join. rewrite startswith_slash by done.
  assert (truthy p = true) as -> by (unfold p; by destruct d). rewrite Hp. cbn [negb orb].
  change (p +:+ "/" +:+ b) with (p +:+ String "/" b). unfold p. by rewrite path_split_snoc.
Qed.

(** *** Paths by their components *)

(** an absolute or relative path of these components *)
Definition path_of (absolute : bool) (cs : list string) : string :=
  (if absolute then "/" else EmptyString) +:+ join "/" cs.

(** the name of a file or directory *)
Definition component (c : string) : Prop := c ≠ EmptyString ∧ no_char "/" c.

Lemma join_snoc sep cs c :
  join sep (cs ++ [c]) = match cs with [] => c | _ => join sep cs +:+ sep +:+ c end.
Proof.
  induction cs as [|x cs IH]; [done|]. destruct cs as [|y cs]; [done|].
  change (join sep ((x :: y :: cs) ++ [c])) with (x +:+ sep +:+ join sep ((y :: cs) ++ [c])).
  rewrite IH. change (join sep (x :: y :: cs)) with (x +:+ sep +:+ join sep (y :: cs)).
  by rewrite !sapp_assoc.
Qed.

Lemma string_snoc s : s ≠ EmptyString → ∃ d a, s = d +:+ String a EmptyString.
Proof.
  induction s as [|x s IH]; [done|]. intros _. destruct s as [|y s]; [by exists EmptyString, x|].
  destruct IH as (d & a & ->); [done|]. by exists (String x d), a.
Qed.

Lemma path_of_snoc absolute cs c :
  component c → ∃ d a, path_of absolute (cs ++ [c]) = d +:+ String a EmptyString ∧ a ≠ "/"%char.
Proof.
  intros [Hne Hno]. destruct (string_snoc c Hne) as (d & a & ->).
  apply no_char_app in Hno as [_ [Ha _]%no_char_cons]. unfold path_of. rewrite join_snoc.
  destruct cs as [|y cs]; eexists _, a; (split; [|done]); by rewrite <- !sapp_assoc.
Qed.

Lemma path_split_of absolute cs c :
  Forall component cs → component c →
  path_split (path_of absolute (cs ++ [c])) = (path_of absolute cs, c).
Proof.
  intros Hcs Hc. destruct (decide (cs = [])) as [->|Hne].
  - destruct Hc as [_ Hno]. unfold path_of, path_split. destruct absolute.
    + change ("/" +:+ join "/" ([] ++ [c])) with (EmptyString +:+ String "/" c).
      by rewrite split_last_app.
    + change (EmptyString +:+ join "/" ([] ++ [c])) with c. by rewrite split_last_None.
  - destruct (exists_last Hne) as (cs' & c' & ->).
    apply Forall_app in Hcs as [_ Hc']. apply Forall_cons in Hc' as [Hc' _].
    destruct (path_of_snoc absolute cs' c' Hc') as (d & a & E & Ha).
    assert (path_of absolute ((cs' ++ [c']) ++ [c]) =
            path_of absolute (cs' ++ [c']) +:+ String "/" c) as ->.
    { unfold path_of. rewrite (join_snoc _ (cs' ++ [c'])).
      destruct (cs' ++ [c']) eqn:Ec; [by destruct cs'|]. by rewrite !sapp_assoc. }
    rewrite E. by apply path_split_snoc, Hc.
Qed.

Lemma path_of_truthy absolute cs : cs ≠ [] → Forall component cs → truthy (path_of absolute cs) = true.
Proof.
  intros Hne Hcs. destruct (exists_last Hne) as (cs' & c' & ->).
  apply Forall_app in Hcs as [_ Hc']. apply Forall_cons in Hc' as [Hc' _].
  destruct (path_of_snoc absolute cs' c' Hc') as (d & a & -> & _). by destruct d.
Qed.

Lemma path_joins_of x l : component x → Forall component l → path_joins x l = join "/" (x :: l).
Proof.
  intros Hx. induction l as [|c l IH] using rev_ind; intros Hl; [done|].
  apply Forall_app in Hl as [Hl Hc]. apply Forall_cons in Hc as [[Hc Hno] _].
  unfold path_joins. rewrite foldl_app. cbn [foldl]. fold (path_joins x l). rewrite IH by done.
  change (x :: l ++ [c]) with ((x :: l) ++ [c]). rewrite join_snoc.
  assert (He : ∃ d a, join "/" (x :: l) = d +:+ String a EmptyString ∧ a ≠ "/"%char).
  { destruct (exists_last (l := x :: l)) as (l' & y & E); [done|]. rewrite E.
    assert (Hy : component y).
    { assert (Hf : Forall component (x :: l)) by by constructor.
      rewrite E in Hf. apply Forall_app in Hf as [_ Hf]. by apply Forall_cons in Hf as [Hf _]. }
    by destruct (path_of_snoc false l' y Hy) as (d & a & Hp & Ha); exists d, a. }
  destruct He as (d & a & -> & Ha). unfold path_join. rewrite startswith_slash by done.
  rewrite endswith_not_slash by done. by destruct d.
Qed.
