(* ===== verification/Utils.v ===== *)
(** * utils.py: reading lists and flags out of Python-syntax configuration files

    [get_list_from_file], [get_bool_from_file] and [read_config_file] of src/utils.py.  A file is
    [option string]: [None] when [os.path.exists] fails, otherwise its text after newline
    translation.  The interpreter's [eval] on the right-hand side is a parameter. *)
From Stdlib Require Import ZArith Lia Ascii String.
From stdpp Require Import base list strings.
From S2P Require Import Prelude PyStr.

(** ** The readers *)
Module Reader.
Definition hash : ascii := "#"%char.
Definition equals : ascii := "="%char.
Definition bracket : ascii := "]"%char.

(** [if '#' in line: (line, comment) = line.split('#', 1)] *)
Definition remove_comment (line : string) : string :=
  match split_once hash line with
  | Some (before, _) => before
  | None => line
  end.

(** [s.split('=', 1)[1].strip()] *)
Definition right_hand_side (s : string) : result string :=
  match split_once equals s with
  | Some (_, rhs) => Ok (strip rhs)
  | None => Raise IndexError
  end.

Section list_reader.
  Context {A : Type}.
  Variable eval : string → result (list A).

(** the loop over the lines; [list_string] and [multi] are the two loop variables, and the
    initial empty list is what is left when the loop ends without [break] *)
Fixpoint read_lines (list_name : string) (ls : list string) (list_string : string) (multi : bool)
    : result (list A) :=
  match ls with
  | [] => Ok []
  | l :: ls =>
      let line := remove_comment l in
      if py_in list_name line || multi then
        let list_string := list_string +:+ line in
        if has_char bracket list_string then
          rhs ← right_hand_side list_string; eval rhs
        else read_lines list_name ls list_string true
      else read_lines list_name ls list_string multi
  end.

Definition get_list_from_file (file : option string) (list_name : string) : result (list A) :=
  match file with
  | None => Ok []
  | Some text => read_lines list_name (lines_keep text) EmptyString false
  end.
End list_reader.

Section bool_reader.
  Variable eval : string → result bool.

(** the value found, if any *)
Fixpoint find_bool (bool_name : string) (ls : list string) : result (option bool) :=
  match ls with
  | [] => Ok None
  | l :: ls =>
      let line := remove_comment l in
      if py_in bool_name line then
        rhs ← right_hand_side line; b ← eval rhs; Ok (Some b)
      else find_bool bool_name ls
  end.

(** [bool_found] is assigned only when the file exists *)
Definition get_bool_from_file (file : option string) (bool_name : string)
    (value_if_missing : bool) : result bool :=
  match file with
  | None => Raise UnboundLocalError
  | Some text =>
      found ← find_bool bool_name (lines_keep text);
      Ok (match found with Some b => b | None => value_if_missing end)
  end.
End bool_reader.

(** The result of [read_config_file], a 4-tuple in the code. *)
Record config := mk_config {
  config_file_exists : bool;
  modules_enabled : list string;
  examples_enabled : bool;
  tests_enabled : bool
}.

Definition default_config : config :=
  {| config_file_exists := false; modules_enabled := ["all_modules"];
     examples_enabled := false; tests_enabled := false |}.

Section config_reader.
  Variables (eval_list : string → result (list string)) (eval_bool : string → result bool).
  Variable fs : string → option string.
  (** [os.path.expanduser('~/')] *)
  Variable home : string.

Definition dot_ns3rc_name : string := ".ns3rc".

(** the current directory first, then the home directory *)
Definition dot_ns3rc_path : option string :=
  match fs dot_ns3rc_name with
  | Some _ => Some dot_ns3rc_name
  | None =>
      let p := home +:+ dot_ns3rc_name in
      match fs p with Some _ => Some p | None => None end
  end.

Definition read_config_file : result config :=
  match dot_ns3rc_path with
  | None => Ok default_config
  | Some p =>
      modules ← get_list_from_file eval_list (fs p) "modules_enabled";
      let modules := match modules with [] => ["all_modules"] | _ => modules end in
      examples ← get_bool_from_file eval_bool (fs p) "examples_enabled" false;
      tests ← get_bool_from_file eval_bool (fs p) "tests_enabled" false;
      Ok {| config_file_exists := true; modules_enabled := modules;
            examples_enabled := examples; tests_enabled := tests |}
  end.
End config_reader.
End Reader.

(** ** What the readers guarantee *)
Module ReaderFacts.
Import Reader.

(** The text of an assignment spread over lines: the comments removed and the lines joined. *)
Fixpoint joined (ls : list string) : string :=
  match ls with
  | [] => EmptyString
  | l :: ls => remove_comment l +:+ joined ls
  end.

Lemma has_char_app c s t : has_char c (s +:+ t) = has_char c s || has_char c t.
Proof. unfold has_char. now rewrite str_all_app, negb_andb. Qed.

Section facts.
  Context {A : Type} (eval : string → result (list A)) (list_name : string).

Lemma read_lines_skip pre ls :
  Forall (λ l, py_in list_name (remove_comment l) = false) pre →
  read_lines eval list_name (pre ++ ls) EmptyString false
  = read_lines eval list_name ls EmptyString false.
Proof. induction 1 as [|l pre Hl _ IH]; [done|]. cbn. by rewrite Hl, IH. Qed.

Lemma read_lines_multi ls l rest s :
  has_char bracket (s +:+ joined ls) = false →
  has_char bracket (remove_comment l) = true →
  read_lines eval list_name (ls ++ l :: rest) s true
  = (rhs ← right_hand_side (s +:+ joined (ls ++ [l])); eval rhs).
Proof.
  revert s. induction ls as [|l' ls IH]; intros s Hno Hl; cbn -[has_char].
  - rewrite orb_true_r, has_char_app, Hl, orb_true_r, sapp_nil_r. done.
  - cbn in Hno. rewrite orb_true_r. rewrite <- sapp_assoc in Hno |- *.
    replace (has_char bracket (s +:+ remove_comment l')) with false.
    + by apply IH.
    + rewrite has_char_app in Hno. by apply orb_false_iff in Hno as [-> _].
Qed.

(** [get_list_from_file] evaluates the right-hand side of the first assignment whose line
    contains the name, continued over the following lines up to the first closing bracket, with
    the comments of all these lines removed; nothing after that line is looked at. *)
Theorem get_list_first_match (text : string) (pre cont post : list string) (l : string)
    (Htext : lines_keep text = pre ++ cont ++ l :: post)
    (Hpre : Forall (λ l, py_in list_name (remove_comment l) = false) pre)
    (Hname : py_in list_name (remove_comment (hd l cont)) = true)
    (Hopen : has_char bracket (joined cont) = false)
    (Hclose : has_char bracket (remove_comment l) = true) :
  get_list_from_file eval (Some text) list_name
  = (rhs ← right_hand_side (joined (cont ++ [l])); eval rhs).
Proof.
  unfold get_list_from_file. rewrite Htext, read_lines_skip by done.
  destruct cont as [|c cont]; cbn -[has_char] in *.
  - by rewrite Hname, sapp_nil_l, Hclose, sapp_nil_r.
  - rewrite Hname, sapp_nil_l. rewrite has_char_app in Hopen.
    pose proof Hopen as [-> _]%orb_false_iff.
    apply read_lines_multi; [by rewrite has_char_app|done].
Qed.

(** A list that is never closed is read as the empty list. *)
Lemma read_lines_open ls s multi :
  has_char bracket (s +:+ joined ls) = false → read_lines eval list_name ls s multi = Ok [].
Proof.
  revert s multi. induction ls as [|l ls IH]; intros s multi H; [done|]. cbn -[has_char] in *.
  rewrite <- sapp_assoc in H. destruct (_ || _).
  - pose proof H as H'. rewrite has_char_app in H'. apply orb_false_iff in H' as [-> _]. by apply IH.
  - apply IH. rewrite has_char_app in H. apply orb_false_iff in H as [H1 H2].
    rewrite has_char_app in H1. apply orb_false_iff in H1 as [H1 _].
    by rewrite has_char_app, H1, H2.
Qed.
End facts.

(** the names of a list of quoted strings, enough of [eval] for examples *)
Definition sample_eval (s : string) : result (list string) := Ok [s].

Lemma get_list_first_match_witness :
  get_list_from_file sample_eval
    (Some ("# modules_enabled = ['x']" +:+ nl +:+ "modules_enabled = ['a', # one ]" +:+ nl +:+
           " 'b']" +:+ nl +:+ "modules_enabled = []" +:+ nl)) "modules_enabled"
  = Ok ["['a',  'b']"].
Proof.
  rewrite (get_list_first_match sample_eval "modules_enabled" _
             ["# modules_enabled = ['x']" +:+ nl] ["modules_enabled = ['a', # one ]" +:+ nl]
             ["modules_enabled = []" +:+ nl] (" 'b']" +:+ nl));
    try vm_compute; repeat constructor.
Defined.

(** [get_bool_from_file] raises for a file that does not exist, although its documentation
    promises [value_if_missing]; for a file that exists and does not mention the name outside
    comments it returns [value_if_missing]. *)
Theorem get_bool_missing (eval : string → result bool) (name : string) (v : bool) (text : string)
    (Hno : Forall (λ l, py_in name (remove_comment l) = false) (lines_keep text)) :
  get_bool_from_file eval None name v = Raise UnboundLocalError ∧
  get_bool_from_file eval (Some text) name v = Ok v.
Proof.
  split; [done|]. unfold get_bool_from_file.
  replace (find_bool eval name (lines_keep text)) with (Ok (A:=option bool) None); [done|].
  induction Hno as [|l ls Hl _ IH]; [done|]. cbn. by rewrite Hl.
Qed.

Lemma get_bool_missing_witness :
  get_bool_from_file (λ _, Ok true) (Some ("# tests_enabled = True" +:+ nl)) "tests_enabled" false
  = Ok false.
Proof.
  apply (get_bool_missing (λ _, Ok true) "tests_enabled" false ("# tests_enabled = True" +:+ nl)).
  vm_compute. repeat constructor.
Defined.

(** [read_config_file] never fails because of a missing file: whatever files exist, when the
    interpreter evaluates every right-hand side the only possible error is a line that mentions
    a name without an assignment ([IndexError]). *)
Theorem read_config_file_errors (eval_list : string → result (list string))
    (eval_bool : string → result bool) (fs : string → option string) (home : string) (e : exn)
    (Hlist : ∀ s, is_ok (eval_list s)) (Hbool : ∀ s, is_ok (eval_bool s))
    (He : read_config_file eval_list eval_bool fs home = Raise e) :
  e = IndexError.
Proof.
  assert (Hrhs : ∀ s e, right_hand_side s = Raise e → e = IndexError).
  { intros s e'. unfold right_hand_side. by destruct (split_once _ _) as [[]|]; intros [=]. }
  assert (Hls : ∀ n ls s m e, read_lines eval_list n ls s m = Raise e → e = IndexError).
  { intros n ls. induction ls as [|l ls IH]; intros s m e'; [done|]. cbn.
    case_match; [|apply IH]. case_match; [|apply IH].
    destruct (right_hand_side _) as [r|] eqn:Hr; cbn; [|intros [= <-]; eauto].
    specialize (Hlist r). destruct (eval_list r); done. }
  assert (Hb : ∀ n f v e, f ≠ None →
    get_bool_from_file eval_bool f n v = Raise e → e = IndexError).
  { intros n [text|] v e' Hf; [|done]. cbn. clear Hf.
    induction (lines_keep text) as [|l ls IH]; cbn; [done|]. case_match; [|done].
    destruct (right_hand_side _) as [r|] eqn:Hr; cbn; [|intros [= <-]; eauto].
    specialize (Hbool r). destruct (eval_bool r); done. }
  unfold read_config_file in He. destruct (dot_ns3rc_path fs home) as [p|] eqn:Hp; [|done].
  assert (fs p ≠ None) as Hex.
  { unfold dot_ns3rc_path in Hp. repeat case_match; simplify_eq; congruence. }
  destruct (get_list_from_file _ _ _) as [ms|] eqn:H1; cbn in He.
  2: { simplify_eq. destruct (fs p); [|done]. eapply Hls, H1. }
  destruct (get_bool_from_file _ _ "examples_enabled" _) eqn:H2; cbn in He; [|simplify_eq; eauto].
  destruct (get_bool_from_file _ _ "tests_enabled" _) eqn:H3; cbn in He; simplify_eq; eauto.
Qed.

Lemma read_config_file_errors_witness :
  read_config_file sample_eval (λ _, Ok true)
    (λ p, if (p =? ".ns3rc")%string then Some "modules_enabled" else None) "/home/u/"
  = Ok {| config_file_exists := true; modules_enabled := ["all_modules"];
          examples_enabled := false; tests_enabled := false |} ∧
  IndexError = IndexError.
Proof.
  split; [by vm_compute|].
  refine (read_config_file_errors sample_eval (λ _, Ok true)
           (λ p, if (p =? ".ns3rc")%string then Some "tests_enabled" else None) "/home/u/" _ _ _ _);
    [done..|by vm_compute].
Defined.
End ReaderFacts.
