(* ===== verification/TestReport.v ===== *)
(** * test.py, reports: from the XML results to the text and the HTML report

    [read_test], [node_to_text], [translate_to_text] and [translate_to_html] of src/test.py.
    The results file has been parsed into ElementTree elements; writing to the report file is
    a state of the text written so far, so that an exception leaves a partial report behind. *)
From Stdlib Require Import ZArith Lia Ascii String.
From stdpp Require Import base list strings.
From S2P Require Import Prelude PyStr.

(** ** ElementTree elements *)
Module Etree.
(** An element: its tag, its attributes, its text ([None] when there is none), its children. *)
Inductive element :=
  Elem (tag : string) (attrs : list (string * string)) (text : option string)
       (children : list element).

Definition tag (e : element) : string := let 'Elem t _ _ _ := e in t.
Definition attrs (e : element) : list (string * string) := let 'Elem _ a _ _ := e in a.
Definition text (e : element) : option string := let 'Elem _ _ t _ := e in t.
Definition children (e : element) : list element := let 'Elem _ _ _ c := e in c.

Definition is_tag (t : string) (e : element) : bool := (tag e =? t)%string.
Definition findall (t : string) (e : element) : list element :=
  List.filter (is_tag t) (children e).
Definition find (t : string) (e : element) : option element := List.find (is_tag t) (children e).

(** [e.find(t).text], where [find] may give [None] *)
Definition find_text (t : string) (e : element) : result (option string) :=
  match find t e with Some c => Ok (text c) | None => Raise AttributeError end.

(** [e.get(a)] *)
Definition get (a : string) (e : element) : option string := dict_get (attrs e) a.
End Etree.

(** ** Writing the reports *)
Module Report.
Import Etree.

(** [f.write(s)] *)
Definition write (s : string) : py string unit := py_modify (λ t, t +:+ s).

(** ["%s" % x] for a text or attribute that may be [None] *)
Definition fmt (o : option string) : string :=
  match o with Some s => s | None => "None" end.

Definition quote (s : string) : string :=
  String "034" (s +:+ String "034" EmptyString).

(** the value that [read_test] returns *)
Record test_info := mk_info {
  i_result : option string; i_name : option string; i_time : option string
}.

Definition read_test (test : element) : result test_info :=
  result ← find_text "Result" test;
  name ← find_text "Name" test;
  Ok {| i_result := result; i_name := name;
        i_time := match find "Time" test with
                  | Some t => get "real" t
                  | None => Some EmptyString
                  end |}.

(** one line of the details of a failure *)
Definition write_field (label field : string) (details : element) : py string unit :=
  t ← py_lift (find_text field details);
  write ("      " +:+ label +:+ fmt t +:+ nl).

Definition write_details (details : element) : py string unit :=
  write ("    Details:" +:+ nl) ;;
  write_field "Message:   " "Message" details ;;
  write_field "Condition: " "Condition" details ;;
  write_field "Actual:    " "Actual" details ;;
  write_field "Limit:     " "Limit" details ;;
  write_field "File:      " "File" details ;;
  write_field "Line:      " "Line" details.

Definition suite_line (i : test_info) : string :=
  fmt (i_result i) +:+ ": Test Suite " +:+ quote (fmt (i_name i)) +:+ " (" +:+
  fmt (i_time i) +:+ ")" +:+ nl.

(** [node_to_text]: the recursion is over [findall('Test')] of the children *)
Fixpoint node_to_text (test : element) : py string unit :=
  info ← py_lift (read_test test);
  write (suite_line info) ;;
  py_for (findall "FailureDetails" test) write_details ;;
  (fix go (cs : list element) : py string unit :=
     match cs with
     | [] => mret ()
     | c :: cs => if is_tag "Test" c then node_to_text c ;; go cs else go cs
     end) (children test).

Definition example_line (i : test_info) : string :=
  fmt (i_result i) +:+ ": Example " +:+ quote (fmt (i_name i)) +:+ " (" +:+
  fmt (i_time i) +:+ ")" +:+ nl.

(** the report for the root element of the results file, [None] when it does not parse *)
Definition translate_to_text (et : option element) : py string unit :=
  match et with
  | None => py_raise (PyException "ParseError")
  | Some et =>
      py_for (findall "Test" et) node_to_text ;;
      py_for (findall "Example" et) (λ e,
        info ← py_lift (read_test e);
        write (example_line info))
  end.

(** *** HTML *)
Definition style (color : string) : string := " style=" +:+ quote ("color:" +:+ color).

Definition cell (s : string) : string := "<td>" +:+ s +:+ "</td>" +:+ nl.
Definition colored_cell (color s : string) : string :=
  "<td" +:+ style color +:+ ">" +:+ s +:+ "</td>" +:+ nl.

Definition is_result (r : string) (i : test_info) : bool := bool_decide (i_result i = Some r).

Definition heading (color : string) (i : test_info) : string :=
  "<h3" +:+ style color +:+ ">" +:+ fmt (i_result i) +:+ ": " +:+ fmt (i_name i) +:+ " (" +:+
  fmt (i_time i) +:+ ")</h3>" +:+ nl.

Definition suite_heading (i : test_info) : py string unit :=
  if is_result "PASS" i then write (heading "green" i)
  else if is_result "SKIP" i then write (heading "#ff6600" i)
  else write (heading "red" i).

(** one failure detail of a row, with the text that follows it *)
Definition html_field (label field sep : string) (details : element) : py string unit :=
  t ← py_lift (find_text field details);
  write ("<b>" +:+ label +:+ ": </b>" +:+ fmt t +:+ sep).

Definition failure_row (i : test_info) (first_row : bool) (details : element) : py string unit :=
  write ("<tr>" +:+ nl) ;;
  (if first_row then
     write (colored_cell "red" (fmt (i_result i))) ;;
     write (cell (fmt (i_name i))) ;;
     write (cell (fmt (i_time i)))
   else
     write (cell EmptyString) ;; write (cell EmptyString) ;; write (cell EmptyString)) ;;
  write "<td>" ;;
  html_field "Message" "Message" ", " details ;;
  html_field "Condition" "Condition" ", " details ;;
  html_field "Actual" "Actual" ", " details ;;
  html_field "Limit" "Limit" ", " details ;;
  html_field "File" "File" ", " details ;;
  html_field "Line" "Line" EmptyString details ;;
  write ("</td>" +:+ nl) ;;
  write ("</td>" +:+ nl).

(** the loop over the details, with [first_row] as its state *)
Fixpoint failure_rows (i : test_info) (first_row : bool) (ds : list element) : py string unit :=
  match ds with
  | [] => mret ()
  | d :: ds => failure_row i first_row d ;; failure_rows i false ds
  end.

Definition passed_row (i : test_info) : py string unit :=
  write ("<tr>" +:+ nl) ;;
  write (colored_cell "green" (fmt (i_result i))) ;;
  write (cell (fmt (i_name i))) ;;
  write (cell (fmt (i_time i))) ;;
  write (cell EmptyString) ;;
  write ("</tr>" +:+ nl).

Definition html_case (case : element) : py string unit :=
  i ← py_lift (read_test case);
  if is_result "FAIL" i then failure_rows i true (findall "FailureDetails" case)
  else passed_row i.

Definition no_details (i : test_info) : bool :=
  is_result "CRASH" i || is_result "SKIP" i || is_result "VALGR" i.

(** the single row of a suite without details, which ends the iteration *)
Definition crashed_row (i : test_info) : py string unit :=
  write ("<tr>" +:+ nl) ;;
  (if is_result "SKIP" i then write (colored_cell "#ff6600" (fmt (i_result i)))
   else write (colored_cell "red" (fmt (i_result i)))) ;;
  write ("</tr>" +:+ nl) ;;
  write ("</table>" +:+ nl).

Definition open_table : py string unit := write ("<table border=" +:+ quote "1" +:+ ">" +:+ nl).

Definition html_suite (suite : element) : py string unit :=
  i ← py_lift (read_test suite);
  suite_heading i ;;
  open_table ;;
  write ("<th> Result </th>" +:+ nl) ;;
  if no_details i then crashed_row i
  else
    write ("<th>Test Case Name</th>" +:+ nl) ;;
    write ("<th> Time </th>" +:+ nl) ;;
    (if is_result "FAIL" i then write ("<th>Failure Details</th>" +:+ nl) else mret ()) ;;
    py_for (findall "Test" suite) html_case ;;
    write ("</table>" +:+ nl).

Definition html_example (example : element) : py string unit :=
  write ("<tr>" +:+ nl) ;;
  i ← py_lift (read_test example);
  (if is_result "PASS" i then write (colored_cell "green" (fmt (i_result i)))
   else if is_result "SKIP" i then
     write ("<td" +:+ style "#ff6600" +:+ ">" +:+ fmt (i_result i) +:+ "</fd>" +:+ nl)
   else write (colored_cell "red" (fmt (i_result i)))) ;;
  write (cell (fmt (i_name i))) ;;
  write (cell (fmt (i_time i))) ;;
  write ("</tr>" +:+ nl).

Definition html_examples (et : element) : py string unit :=
  write ("<h2>Examples</h2>" +:+ nl) ;;
  open_table ;;
  write ("<th> Result </th>" +:+ nl) ;;
  write ("<th>Example Name</th>" +:+ nl) ;;
  write ("<th>Elapsed Time</th>" +:+ nl) ;;
  py_for (findall "Example" et) html_example ;;
  write ("</table>" +:+ nl).

Definition html_head : py string unit :=
  write ("<html>" +:+ nl) ;;
  write ("<body>" +:+ nl) ;;
  write ("<center><h1>ns-3 Test Results</h1></center>" +:+ nl).

Definition html_foot : py string unit :=
  write ("</body>" +:+ nl) ;;
  write ("</html>" +:+ nl).

Definition translate_to_html (et : option element) : py string unit :=
  html_head ;;
  match et with
  | None => py_raise (PyException "ParseError")
  | Some et =>
      write ("<h2>Test Suites</h2>" +:+ nl) ;;
      py_for (findall "Test" et) html_suite ;;
      html_examples et ;;
      html_foot
  end.
End Report.

(** ** The text report lists the tree in document order *)
Module TextFacts.
Import Etree Report.

(** An action that succeeds and appends [o], whatever was written before. *)
Definition emits (m : py string unit) (o : string) : Prop := ∀ t, m t = (Ok (), t +:+ o).

Lemma emits_write o : emits (write o) o.
Proof. done. Qed.

Lemma emits_ret : emits (mret ()) EmptyString.
Proof. intros t. by rewrite sapp_nil_r. Qed.

Lemma emits_seq (m m' : py string unit) o o' :
  emits m o → emits m' o' → emits (m ;; m') (o +:+ o').
Proof. intros H H' t. cbv [mbind py_bind]. by rewrite H, H', sapp_assoc. Qed.

Lemma emits_lift {A} (r : result A) a (f : A → py string unit) o :
  r = Ok a → emits (f a) o → emits (py_lift r ≫= f) o.
Proof. intros -> H t. apply H. Qed.

Lemma emits_for {A} (l : list A) (f : A → py string unit) (o : A → string) :
  (∀ a, a ∈ l → emits (f a) (o a)) → emits (py_for l f) (sconcat (o <$> l)).
Proof.
  induction l as [|a l IH]; intros H; [apply emits_ret|].
  change (emits (f a ;; py_for l f) (o a +:+ sconcat (o <$> l))).
  apply emits_seq; [apply H; left|]. apply IH. intros b Hb. apply H. by right.
Qed.

(** The nodes of a test tree, parents first, children in document order. *)
Fixpoint preorder (test : element) : list element :=
  test :: (fix go (cs : list element) : list element :=
             match cs with
             | [] => []
             | c :: cs => if is_tag "Test" c then preorder c ++ go cs else go cs
             end) (children test).

Definition failure_fields : list string :=
  ["Message"; "Condition"; "Actual"; "Limit"; "File"; "Line"].

Definition has_child (e : element) (t : string) : bool :=
  match find t e with Some _ => true | None => false end.

(** what the report code needs of a test or example element *)
Definition has_info (e : element) : bool := has_child e "Result" && has_child e "Name".
Definition has_fields (d : element) : bool := forallb (has_child d) failure_fields.
Definition has_entry (e : element) : bool :=
  has_info e && forallb has_fields (findall "FailureDetails" e).

(** the text of a child, where it is known to exist *)
Definition child_text (t : string) (e : element) : option string := find t e ≫= text.

Definition info (e : element) : test_info :=
  {| i_result := child_text "Result" e; i_name := child_text "Name" e;
     i_time := match find "Time" e with Some t => get "real" t | None => Some EmptyString end |}.

Definition field_line (label field : string) (d : element) : string :=
  "      " +:+ label +:+ fmt (child_text field d) +:+ nl.

Definition details_text (d : element) : string :=
  sconcat ["    Details:" +:+ nl; field_line "Message:   " "Message" d;
           field_line "Condition: " "Condition" d; field_line "Actual:    " "Actual" d;
           field_line "Limit:     " "Limit" d; field_line "File:      " "File" d;
           field_line "Line:      " "Line" d].

Definition entry_text (e : element) : string :=
  suite_line (info e) +:+ sconcat (details_text <$> findall "FailureDetails" e).

Lemma find_text_ok t e : has_child e t = true → find_text t e = Ok (child_text t e).
Proof. unfold has_child, find_text, child_text. by destruct (find t e). Qed.

Lemma read_test_ok e : has_info e = true → read_test e = Ok (info e).
Proof.
  intros [H1 H2]%andb_true_iff. unfold read_test. by rewrite !find_text_ok.
Qed.

Lemma emits_field label field d :
  has_child d field = true → emits (write_field label field d) (field_line label field d).
Proof. intros H. eapply emits_lift; [by apply find_text_ok|apply emits_write]. Qed.

Lemma emits_details d : has_fields d = true → emits (write_details d) (details_text d).
Proof.
  intros H. unfold has_fields, failure_fields in H. cbn [forallb] in H.
  repeat (apply andb_true_iff in H as [? H]).
  unfold write_details, details_text. cbn [sconcat]. rewrite sapp_nil_r.
  repeat (apply emits_seq; [first [apply emits_write | by apply emits_field]|]).
  by apply emits_field.
Qed.

Lemma element_ind' (P : element → Prop) :
  (∀ t a x cs, Forall P cs → P (Elem t a x cs)) → ∀ e, P e.
Proof.
  intros H. fix IH 1. intros [t a x cs]. apply H.
  induction cs as [|c cs IHcs]; constructor; [apply IH|apply IHcs].
Qed.

Lemma emits_node e :
  Forall (λ n, has_entry n = true) (preorder e) →
  emits (node_to_text e) (sconcat (entry_text <$> preorder e)).
Proof.
  induction e as [t a x cs IH] using element_ind'. intros Hwf.
  cbn [preorder children] in Hwf |- *. apply Forall_cons in Hwf as [Hhere Hwf].
  apply andb_true_iff in Hhere as [Hinfo Hdet].
  cbn [node_to_text fmap list_fmap sconcat].
  eapply emits_lift; [by apply read_test_ok|].
  unfold entry_text at 1. rewrite sapp_assoc.
  apply emits_seq; [apply emits_write|]. apply emits_seq.
  { apply emits_for. intros d Hd. apply emits_details.
    rewrite forallb_forall in Hdet. apply Hdet. by apply list_elem_of_In. }
  cbn [children]. clear Hinfo Hdet. induction IH as [|c cs Hc _ IHcs]; [apply emits_ret|].
  cbn [forallb] in Hwf |- *. destruct (is_tag "Test" c); [|by apply IHcs].
  apply Forall_app in Hwf as [Hw1 Hw2]. rewrite fmap_app, sconcat_app.
  apply emits_seq; [by apply Hc|by apply IHcs].
Qed.

(** C38. When every test node has a result, a name and complete failure details, the recursive
    text report is the flat list of the nodes in document order (a node before its children),
    one summary line each followed by seven lines for each of its failures, and then one line
    for each example. *)
Theorem text_report_preorder (et : element)
    (Htests : Forall (λ n, has_entry n = true) (findall "Test" et ≫= preorder))
    (Hexamples : Forall (λ e, has_info e = true) (findall "Example" et)) :
  translate_to_text (Some et) EmptyString
  = (Ok (), sconcat (entry_text <$> (findall "Test" et ≫= preorder)) +:+
            sconcat ((λ e, example_line (info e)) <$> findall "Example" et)).
Proof.
  refine (emits_seq _ _ _ _ _ _ EmptyString).
  - induction (findall "Test" et) as [|e l IH]; [apply emits_ret|].
    cbn [mbind list_bind] in Htests |- *.
    apply Forall_app in Htests as [H1 H2]. rewrite fmap_app, sconcat_app.
    apply emits_seq; [by apply emits_node|by apply IH].
  - apply emits_for. intros e He. rewrite Forall_forall in Hexamples.
    eapply emits_lift; [apply read_test_ok, Hexamples, He|apply emits_write].
Qed.

(** a leaf element with a text *)
Definition leaf (t x : string) : element := Elem t [] (Some x) [].
Definition sample_test (r n : string) (cs : list element) : element :=
  Elem "Test" [] None (leaf "Result" r :: leaf "Name" n :: cs).
Definition sample_details : element :=
  Elem "FailureDetails" [] None ((λ f, leaf f (lower f)) <$> failure_fields).
Definition sample_results : element :=
  Elem "Results" [] None
    [sample_test "FAIL" "suite"
       [Elem "Time" [("real", "0.1")] None []; sample_test "PASS" "one" [];
        sample_test "FAIL" "two" [sample_details]];
     Elem "Example" [] None [leaf "Result" "PASS"; leaf "Name" "ex"]].

Lemma text_report_preorder_witness :
  length (findall "Test" sample_results ≫= preorder) = 3%nat ∧
  (translate_to_text (Some sample_results) EmptyString).1 = Ok ().
Proof.
  split; [done|].
  rewrite (text_report_preorder sample_results); [done|vm_compute; repeat constructor..].
Defined.
End TextFacts.

(** ** Which HTML reports are well nested *)
Module HtmlFacts.
Import Etree Report TextFacts.

(** A scanner for tags: between tags, in a tag name, in the attributes after the name. *)
Inductive tag_token := Open (n : string) | Close (n : string).
Inductive mode := MText | MName (closing : bool) (acc : string) | MAttr (closing : bool) (n : string).

Definition token (closing : bool) (n : string) : tag_token :=
  if closing then Close n else Open n.

Fixpoint lex (m : mode) (s : string) : list tag_token * mode :=
  match s with
  | EmptyString => ([], m)
  | String c s =>
      match m with
      | MText => if Ascii.eqb c "<" then lex (MName false EmptyString) s else lex MText s
      | MName cl acc =>
          if Ascii.eqb c ">" then let '(ts, m) := lex MText s in (token cl acc :: ts, m)
          else if Ascii.eqb c "/" then lex (MName true acc) s
          else if Ascii.eqb c " " then lex (MAttr cl acc) s
          else lex (MName cl (acc +:+ String c EmptyString)) s
      | MAttr cl n =>
          if Ascii.eqb c ">" then let '(ts, m) := lex MText s in (token cl n :: ts, m)
          else lex (MAttr cl n) s
      end
  end.

(** every closing tag closes the innermost open one *)
Fixpoint check (ts : list tag_token) (stack : list string) : option (list string) :=
  match ts with
  | [] => Some stack
  | Open n :: ts => check ts (n :: stack)
  | Close n :: ts =>
      match stack with
      | m :: stack => if (n =? m)%string then check ts stack else None
      | [] => None
      end
  end.

Definition well_nested (html : string) : bool :=
  match lex MText html with
  | (ts, MText) => bool_decide (check ts [] = Some [])
  | _ => false
  end.

Lemma lex_app m s t :
  lex m (s +:+ t) = let '(ts, m') := lex m s in let '(us, m'') := lex m' t in (ts ++ us, m'').
Proof.
  revert m. induction s as [|c s IH]; intros m.
  - rewrite sapp_nil_l. cbn [lex]. by destruct (lex m t).
  - rewrite sapp_cons. destruct m; cbn [lex]; repeat destruct (Ascii.eqb c _);
      rewrite IH; destruct (lex _ s) as [ts m1]; by destruct (lex m1 t).
Qed.

Definition plain (s : string) : Prop := no_char "<" s.

Lemma lex_plain s : plain s → lex MText s = ([], MText).
Proof.
  induction s as [|c s IH]; intros H; [done|]. apply no_char_cons in H as [Hc Hs].
  cbn [lex]. apply Ascii.eqb_neq in Hc. rewrite Hc. by apply IH.
Qed.

Lemma check_app ts us stack : check (ts ++ us) stack = check ts stack ≫= check us.
Proof.
  revert stack. induction ts as [|[n|n] ts IH]; intros stack; cbn; [done|apply IH|].
  destruct stack; [done|]. case_match; [apply IH|done].
Qed.

(** The action writes text in which the scanner finds the tags [ts]. *)
Definition renders (m : py string unit) (ts : list tag_token) : Prop :=
  ∃ o, emits m o ∧ lex MText o = (ts, MText).

(** The tags leave the open ones as they are if [b] holds, and break the nesting otherwise. *)
Definition balances (ts : list tag_token) (b : bool) : Prop :=
  ∀ stack, check ts stack = if b then Some stack else None.

Definition shows (m : py string unit) (b : bool) : Prop :=
  ∃ ts, renders m ts ∧ balances ts b.

Lemma renders_seq (m m' : py string unit) ts ts' :
  renders m ts → renders m' ts' → renders (m ;; m') (ts ++ ts').
Proof.
  intros (o & H & L) (o' & H' & L'). exists (o +:+ o'). split; [by apply emits_seq|].
  by rewrite lex_app, L, L'.
Qed.

Lemma renders_write o ts : lex MText o = (ts, MText) → renders (write o) ts.
Proof. intros H. exists o. split; [apply emits_write|done]. Qed.

Lemma renders_lift {A} (r : result A) a (f : A → py string unit) ts :
  r = Ok a → renders (f a) ts → renders (py_lift r ≫= f) ts.
Proof. intros H (o & E & L). exists o. split; [by eapply emits_lift|done]. Qed.

Lemma renders_ret : renders (mret ()) [].
Proof. exists EmptyString. split; [apply emits_ret|done]. Qed.

Lemma shows_for {A} (l : list A) (f : A → py string unit) (b : A → bool) :
  (∀ a, a ∈ l → shows (f a) (b a)) → shows (py_for l f) (forallb b l).
Proof.
  induction l as [|a l IH]; intros H.
  - exists []. split; [apply renders_ret|done].
  - destruct (H a) as (ts & R & B); [left|]. destruct IH as (us & R' & B').
    { intros x Hx. apply H. by right. }
    exists (ts ++ us). split; [by apply (renders_seq (f a) (py_for l f))|].
    intros stack. rewrite check_app, B. cbn. destruct (b a); [apply B'|done].
Qed.

(** *** The pieces of the report *)
Ltac lex_pieces :=
  repeat (first [rewrite lex_app | rewrite lex_plain by done]; cbn); try reflexivity.

Definition plain_field (o : option string) : Prop := plain (fmt o).
Definition plain_info (i : test_info) : Prop :=
  plain_field (i_result i) ∧ plain_field (i_name i) ∧ plain_field (i_time i).

Lemma renders_cell s : plain s → renders (write (cell s)) [Open "td"; Close "td"].
Proof. intros H. apply renders_write. unfold cell. cbn. lex_pieces. Qed.

Definition colors : list string := ["green"; "red"; "#ff6600"].

Lemma renders_colored color s :
  color ∈ colors → plain s → renders (write (colored_cell color s)) [Open "td"; Close "td"].
Proof.
  intros Hc H. apply renders_write. unfold colored_cell, style, quote.
  repeat (apply elem_of_cons in Hc as [->|Hc]; [cbn; lex_pieces|]). by apply elem_of_nil in Hc.
Qed.

Lemma renders_heading color i :
  color ∈ colors → plain_info i → renders (write (heading color i)) [Open "h3"; Close "h3"].
Proof.
  intros Hc (H1 & H2 & H3). apply renders_write. unfold heading, style, quote.
  repeat (apply elem_of_cons in Hc as [->|Hc]; [cbn; lex_pieces|]). by apply elem_of_nil in Hc.
Qed.

(** what the report needs of the elements, and that no text contains a [<] *)
Definition good_info (e : element) : Prop := has_info e = true ∧ plain_info (info e).
Definition good_details (d : element) : Prop :=
  Forall (λ f, has_child d f = true ∧ plain_field (child_text f d)) failure_fields.
Definition good_case (c : element) : Prop :=
  good_info c ∧ Forall good_details (findall "FailureDetails" c).
Definition good_suite (s : element) : Prop := good_info s ∧ Forall good_case (findall "Test" s).
Definition good_results (et : element) : Prop :=
  Forall good_suite (findall "Test" et) ∧ Forall good_info (findall "Example" et).

(** the rows that break the nesting: each detail of a failed case, each skipped example *)
Definition case_nested (c : element) : bool :=
  negb (is_result "FAIL" (info c)) || bool_decide (findall "FailureDetails" c = []).
Definition suite_nested (s : element) : bool :=
  no_details (info s) || forallb case_nested (findall "Test" s).
Definition example_nested (e : element) : bool := negb (is_result "SKIP" (info e)).

Lemma color_elem c : c = "green" ∨ c = "red" ∨ c = "#ff6600" → c ∈ colors.
Proof. intros [->|[->| ->]]; repeat (left || right). Qed.

Lemma renders_html_field label field sep d :
  lex MText ("<b>" +:+ label +:+ ": </b>") = ([Open "b"; Close "b"], MText) →
  has_child d field = true → plain_field (child_text field d) → plain sep →
  renders (html_field label field sep d) [Open "b"; Close "b"].
Proof.
  intros Hl Hc Hp Hs. eapply renders_lift; [by apply find_text_ok|]. apply renders_write.
  replace ("<b>" +:+ label +:+ ": </b>" +:+ fmt (child_text field d) +:+ sep)
    with (("<b>" +:+ label +:+ ": </b>") +:+ fmt (child_text field d) +:+ sep)
    by now rewrite !sapp_assoc.
  by rewrite lex_app, Hl, lex_app, !lex_plain.
Qed.

Lemma shows_failure_row i first d :
  plain_info i → good_details d → shows (failure_row i first d) false.
Proof.
  intros (H1 & H2 & H3) Hd. unfold good_details, failure_fields in Hd.
  repeat (apply Forall_cons in Hd as [[? ?] Hd]). eexists. split.
  { unfold failure_row. apply renders_seq; [by apply renders_write|]. apply renders_seq.
    { instantiate (1 := [Open "td"; Close "td"; Open "td"; Close "td"; Open "td"; Close "td"]).
      destruct first.
      - apply (renders_seq _ _ [Open "td"; Close "td"] [Open "td"; Close "td"; Open "td"; Close "td"]).
        { apply renders_colored; [apply color_elem; auto|done]. }
        apply (renders_seq _ _ [Open "td"; Close "td"] [Open "td"; Close "td"]);
          by apply renders_cell.
      - apply (renders_seq _ _ [Open "td"; Close "td"] [Open "td"; Close "td"; Open "td"; Close "td"]);
          [by apply renders_cell|].
        apply (renders_seq _ _ [Open "td"; Close "td"] [Open "td"; Close "td"]);
          by apply renders_cell. }
    apply renders_seq; [by apply renders_write|].
    do 6 (apply renders_seq; [by apply renders_html_field|]).
    apply renders_seq; by apply renders_write. }
  intros stack. reflexivity.
Qed.

Lemma shows_failure_rows i first ds :
  plain_info i → Forall good_details ds →
  shows (failure_rows i first ds) (bool_decide (ds = [])).
Proof.
  intros Hi [|d ds' Hd Hds]; [exists []; split; [apply renders_ret|done]|].
  destruct (shows_failure_row i first d Hi Hd) as (ts & R & B).
  assert (∃ us, renders (failure_rows i false ds') us) as [us R'].
  { clear -Hi Hds. induction Hds as [|d ds Hd _ [us IH]]; [exists []; apply renders_ret|].
    destruct (shows_failure_row i false d Hi Hd) as (ts & R & _).
    exists (ts ++ us). by apply (renders_seq (failure_row i false d)). }
  exists (ts ++ us). split; [by apply (renders_seq (failure_row i first d))|].
  intros stack. by rewrite check_app, B.
Qed.

Lemma shows_passed_row i : plain_info i → shows (passed_row i) true.
Proof.
  intros (H1 & H2 & H3). eexists. split.
  { unfold passed_row. apply renders_seq; [by apply renders_write|].
    apply renders_seq; [apply renders_colored; [apply color_elem; auto|done]|].
    do 3 (apply renders_seq; [by apply renders_cell|]). by apply renders_write. }
  done.
Qed.

Lemma shows_case c : good_case c → shows (html_case c) (case_nested c).
Proof.
  intros [[Hc Hp] Hds]. unfold html_case, case_nested.
  enough (shows (if is_result "FAIL" (info c)
                 then failure_rows (info c) true (findall "FailureDetails" c)
                 else passed_row (info c))
            (negb (is_result "FAIL" (info c)) || bool_decide (findall "FailureDetails" c = [])))
    as (ts & R & B).
  { exists ts. split; [|done]. eapply renders_lift; [by apply read_test_ok|done]. }
  destruct (is_result "FAIL" (info c)); [by apply shows_failure_rows|by apply shows_passed_row].
Qed.

Lemma renders_suite_heading i : plain_info i → renders (suite_heading i) [Open "h3"; Close "h3"].
Proof.
  intros Hi. unfold suite_heading.
  repeat case_match; (apply renders_heading; [apply color_elem; auto|done]).
Qed.

Lemma shows_suite s : good_suite s → shows (html_suite s) (suite_nested s).
Proof.
  intros [[Hs Hp] Hcs]. unfold suite_nested.
  destruct (shows_for (findall "Test" s) html_case case_nested) as (cs & Rcs & Bcs).
  { intros c Hc. apply shows_case. rewrite Forall_forall in Hcs. by apply Hcs. }
  assert (Hth : renders (if is_result "FAIL" (info s)
                         then write ("<th>Failure Details</th>" +:+ nl) else mret ())
                  (if is_result "FAIL" (info s) then [Open "th"; Close "th"] else [])).
  { destruct (is_result _ _); [by apply renders_write|apply renders_ret]. }
  eexists. split.
  { unfold html_suite. eapply renders_lift; [by apply read_test_ok|].
    apply renders_seq; [by apply renders_suite_heading|].
    do 2 (apply renders_seq; [by apply renders_write|]).
    instantiate (1 := if no_details (info s) then
        [Open "tr"] ++ [Open "td"; Close "td"] ++ [Close "tr"] ++ [Close "table"]
      else [Open "th"; Close "th"] ++ [Open "th"; Close "th"] ++
           (if is_result "FAIL" (info s) then [Open "th"; Close "th"] else []) ++
           cs ++ [Close "table"]).
    destruct (no_details (info s)).
    - unfold crashed_row. apply renders_seq; [by apply renders_write|].
      destruct Hp as (H1 & _). apply renders_seq.
      { destruct (is_result "SKIP" _); (apply renders_colored; [apply color_elem; auto|done]). }
      apply renders_seq; by apply renders_write.
    - do 2 (apply renders_seq; [by apply renders_write|]). apply renders_seq; [done|].
      apply renders_seq; [done|by apply renders_write]. }
  intros stack. destruct (no_details (info s)); [done|].
  cbn. destruct (is_result "FAIL" (info s)); cbn;
    rewrite check_app, Bcs; by destruct (forallb _ _).
Qed.

Lemma renders_skipped_cell s :
  plain s →
  renders (write ("<td" +:+ style "#ff6600" +:+ ">" +:+ s +:+ "</fd>" +:+ nl))
    [Open "td"; Close "fd"].
Proof. intros H. apply renders_write. unfold style, quote. cbn. lex_pieces. Qed.

Lemma shows_example e : good_info e → shows (html_example e) (example_nested e).
Proof.
  intros [He (H1 & H2 & H3)]. unfold example_nested. eexists. split.
  { unfold html_example. apply renders_seq; [by apply renders_write|].
    eapply renders_lift; [by apply read_test_ok|]. apply renders_seq.
    { instantiate (1 := if is_result "SKIP" (info e) then [Open "td"; Close "fd"]
                        else [Open "td"; Close "td"]).
      destruct (is_result "PASS" (info e)) eqn:Hpass.
      - replace (is_result "SKIP" (info e)) with false.
        + apply renders_colored; [apply color_elem; auto|done].
        + unfold is_result in *. apply bool_decide_eq_true in Hpass. by rewrite Hpass.
      - destruct (is_result "SKIP" (info e)); [by apply renders_skipped_cell|].
        apply renders_colored; [apply color_elem; auto|done]. }
    do 2 (apply renders_seq; [by apply renders_cell|]). by apply renders_write. }
  intros stack. by destruct (is_result "SKIP" (info e)).
Qed.

(** C39. For results whose elements are complete and contain no [<] in their texts, the HTML
    report is written without an error, and its tags are properly nested exactly when no suite
    with details has a failed test case with failure details and no example was skipped. *)
Theorem html_nested_iff (et : element) (Het : good_results et) :
  ∃ html, translate_to_html (Some et) EmptyString = (Ok (), html) ∧
    well_nested html = forallb suite_nested (findall "Test" et) &&
                       forallb example_nested (findall "Example" et).
Proof.
  destruct Het as [Hsuites Hexs]. rewrite Forall_forall in Hsuites, Hexs.
  destruct (shows_for (findall "Test" et) html_suite suite_nested) as (ss & Rss & Bss).
  { intros s Hs. by apply shows_suite, Hsuites. }
  destruct (shows_for (findall "Example" et) html_example example_nested) as (es & Res & Bes).
  { intros e He. by apply shows_example, Hexs. }
  eassert (Hall : renders (translate_to_html (Some et)) _).
  { unfold translate_to_html. apply renders_seq.
    { unfold html_head. do 2 (apply renders_seq; [by apply renders_write|]).
      by apply renders_write. }
    apply renders_seq; [by apply renders_write|]. apply renders_seq; [exact Rss|].
    apply renders_seq.
    { unfold html_examples. do 5 (apply renders_seq; [by apply renders_write|]).
      apply renders_seq; [exact Res|]. by apply renders_write. }
    unfold html_foot. apply renders_seq; by apply renders_write. }
  destruct Hall as (o & E & L). exists o. split; [apply (E EmptyString)|].
  unfold well_nested. rewrite L. cbn. rewrite check_app, Bss.
  destruct (forallb suite_nested _); [|done]. cbn. rewrite <- app_assoc.
  rewrite check_app, Bes. by destruct (forallb example_nested _).
Qed.

Lemma html_nested_iff_witness :
  well_nested (translate_to_html (Some sample_results) EmptyString).2 = false.
Proof.
  destruct (html_nested_iff sample_results) as (html & -> & H); [|exact H].
  unfold good_results, good_suite, good_case, good_details, good_info, plain_info, plain_field.
  repeat first [split | constructor]; by vm_compute.
Defined.

(** The failure rows are closed with a second [</td>] instead of [</tr>], and the cell of a
    skipped example with [</fd>]: the report of one failed case, and that of one skipped
    example, are not well nested, while that of a passed case and a passed example is. *)
Theorem html_report_examples :
  well_nested (translate_to_html (Some (Elem "Results" [] None
    [sample_test "PASS" "s" [sample_test "PASS" "c" []];
     Elem "Example" [] None [leaf "Result" "PASS"; leaf "Name" "e"]])) EmptyString).2 = true ∧
  well_nested (translate_to_html (Some (Elem "Results" [] None
    [sample_test "FAIL" "s" [sample_test "FAIL" "c" [sample_details]]])) EmptyString).2 = false ∧
  well_nested (translate_to_html (Some (Elem "Results" [] None
    [Elem "Example" [] None [leaf "Result" "SKIP"; leaf "Name" "e"]])) EmptyString).2 = false.
Proof. by vm_compute. Qed.
End HtmlFacts.
