(* ===== verification/TestConfig.v ===== *)
(** * test.py, configuration: options, waf's configuration, search paths, lists of examples

    The options of [main], the globals that [read_waf_config] fills in, [make_paths] and
    [parse_examples_to_run_file] of src/test.py.  The world of the test driver is the record
    [world]: what was printed, the environment, the files.  [eval] and [exec] of Python text
    are parameters. *)
From Stdlib Require Import ZArith Lia Ascii String QArith.
From stdpp Require Import base list strings.
From S2P Require Import Prelude PyStr Utils.
#[local] Open Scope Z_scope.

(** ** The world of the driver *)
Module Driver.
Record world := mk_world {
  stdout : list string;               (* the lines printed, oldest first *)
  stderr : list string;
  environ : list (string * string);
  files : list (string * string);     (* text files *)
  dirs : list string;
  commands : list (string * string)   (* shell commands run, with their directories *)
}.

Definition print (s : string) : py world unit := py_modify (λ w,
  {| stdout := stdout w ++ [s]; stderr := stderr w; environ := environ w; files := files w;
     dirs := dirs w; commands := commands w |}).
Definition eprint (s : string) : py world unit := py_modify (λ w,
  {| stdout := stdout w; stderr := stderr w ++ [s]; environ := environ w; files := files w;
     dirs := dirs w; commands := commands w |}).
Definition set_environ (e : list (string * string)) (w : world) : world :=
  {| stdout := stdout w; stderr := stderr w; environ := e; files := files w;
     dirs := dirs w; commands := commands w |}.
Definition set_files (f : list (string * string)) (w : world) : world :=
  {| stdout := stdout w; stderr := stderr w; environ := environ w; files := f;
     dirs := dirs w; commands := commands w |}.
Definition set_dirs (d : list string) (w : world) : world :=
  {| stdout := stdout w; stderr := stderr w; environ := environ w; files := files w;
     dirs := d; commands := commands w |}.
Definition add_command (c : string * string) (w : world) : world :=
  {| stdout := stdout w; stderr := stderr w; environ := environ w; files := files w;
     dirs := dirs w; commands := commands w ++ [c] |}.

Definition when (b : bool) (m : py world unit) : py world unit := if b then m else mret ().

(** [os.path.exists], [os.makedirs] of one level *)
Definition exists_path (w : world) (p : string) : bool :=
  match dict_get (files w) p with Some _ => true | None => bool_decide (p ∈ dirs w) end.
Definition makedirs (p : string) : py world unit := py_modify (λ w, set_dirs (dirs w ++ [p]) w).

(** reading, truncating and appending to a text file *)
Definition read_file (p : string) : py world string := λ w,
  match dict_get (files w) p with
  | Some t => (Ok t, w)
  | None => (Raise (FileNotFoundError p), w)
  end.
Definition write_file (p t : string) : py world unit :=
  py_modify (λ w, set_files (dict_set (files w) p t) w).
Definition append_file (p t : string) : py world unit :=
  py_modify (λ w, set_files (dict_set (files w) p (default EmptyString (dict_get (files w) p) +:+ t)) w).

(** [shutil.rmtree(d)] *)
Definition below (d p : string) : bool := startswith p (d +:+ "/").
Definition rmtree (d : string) : py world unit := py_modify (λ w,
  set_dirs (List.filter (λ p, negb ((p =? d)%string || below d p)) (dirs w))
    (set_files (List.filter (λ f, negb (below d f.1)) (files w)) w)).

(** [glob.glob] for patterns whose components are names or a single star; the order is that of
    the directory *)
Definition glob_component (pat name : string) : bool :=
  if (pat =? "*")%string then negb (startswith name ".") else (pat =? name)%string.
Fixpoint glob_components (pats names : list string) : bool :=
  match pats, names with
  | [], [] => true
  | p :: ps, n :: ns => glob_component p n && glob_components ps ns
  | _, _ => false
  end.
Definition glob (w : world) (pattern : string) : list string :=
  List.filter (λ p, glob_components (split_char "/"%char pattern) (split_char "/"%char p))
    (dirs w ++ (files w).*1).
End Driver.

(** ** Command line options and configuration globals *)
Module Config.
Record options := mk_options {
  buildpath : string; constrain : string; duration : bool; example : string;
  update_data : bool; fullness : string; valgrind : bool; valgrind_xml : bool;
  kinds : bool; list_tests : bool; multiple : bool; nowaf : bool; pyexample : string;
  retain : bool; suite : string; text : string; verbose : bool; html : string;
  xml : string; dlm_test_runner : bool
}.

Definition default_options : options :=
  {| buildpath := EmptyString; constrain := EmptyString; duration := false; example := EmptyString;
     update_data := false; fullness := "QUICK"; valgrind := false; valgrind_xml := false;
     kinds := false; list_tests := false; multiple := false; nowaf := false; pyexample := EmptyString;
     retain := false; suite := EmptyString; text := EmptyString; verbose := false; html := EmptyString;
     xml := EmptyString; dlm_test_runner := false |}.

Definition interesting_config_items : list string :=
  ["NS3_ENABLED_MODULES"; "NS3_MODULE_PATH"; "NSC_ENABLED"; "ENABLE_REAL_TIME";
   "ENABLE_THREADING"; "ENABLE_EXAMPLES"; "ENABLE_TESTS"; "EXAMPLE_DIRECTORIES";
   "ENABLE_PYTHON_BINDINGS"; "ENABLE_CLICK"; "ENABLE_OPENFLOW"; "APPNAME"; "BUILD_PROFILE";
   "VERSION"; "PYTHON"; "VALGRIND_FOUND"].

(** The module's globals.  A name that only waf's cache assigns is an [option]. *)
Record globals := mk_globals {
  NS3_ENABLED_MODULES : option (list string);
  NS3_MODULE_PATH : option (list string);
  NSC_ENABLED : bool;
  ENABLE_REAL_TIME : bool;
  ENABLE_THREADING : bool;
  ENABLE_EXAMPLES : bool;
  ENABLE_TESTS : bool;
  ENABLE_PYTHON_BINDINGS : option bool;
  ENABLE_CLICK : bool;
  ENABLE_OPENFLOW : bool;
  EXAMPLE_DIRECTORIES : list string;
  APPNAME : string;
  BUILD_PROFILE : string;
  VERSION : string;
  PYTHON : list string;
  VALGRIND_FOUND : bool;
  NS3_BASEDIR : string;
  NS3_BUILDDIR : string;
  NS3_INSTALL_DIR : string
}.

Definition initial_globals : globals :=
  {| NS3_ENABLED_MODULES := None; NS3_MODULE_PATH := None; NSC_ENABLED := false;
     ENABLE_REAL_TIME := false; ENABLE_THREADING := false;
     ENABLE_EXAMPLES := true; ENABLE_TESTS := true; ENABLE_PYTHON_BINDINGS := None;
     ENABLE_CLICK := false; ENABLE_OPENFLOW := false; EXAMPLE_DIRECTORIES := [];
     APPNAME := EmptyString; BUILD_PROFILE := EmptyString; VERSION := EmptyString; PYTHON := []; VALGRIND_FOUND := true;
     NS3_BASEDIR := EmptyString; NS3_BUILDDIR := EmptyString; NS3_INSTALL_DIR := EmptyString |}.

Definition set_dirs_of (base build install : string) (g : globals) : globals :=
  {| NS3_ENABLED_MODULES := NS3_ENABLED_MODULES g; NS3_MODULE_PATH := NS3_MODULE_PATH g;
     NSC_ENABLED := NSC_ENABLED g; ENABLE_REAL_TIME := ENABLE_REAL_TIME g;
     ENABLE_THREADING := ENABLE_THREADING g; ENABLE_EXAMPLES := ENABLE_EXAMPLES g;
     ENABLE_TESTS := ENABLE_TESTS g; ENABLE_PYTHON_BINDINGS := ENABLE_PYTHON_BINDINGS g;
     ENABLE_CLICK := ENABLE_CLICK g; ENABLE_OPENFLOW := ENABLE_OPENFLOW g;
     EXAMPLE_DIRECTORIES := EXAMPLE_DIRECTORIES g; APPNAME := APPNAME g;
     BUILD_PROFILE := BUILD_PROFILE g; VERSION := VERSION g; PYTHON := PYTHON g; VALGRIND_FOUND := VALGRIND_FOUND g;
     NS3_BASEDIR := base; NS3_BUILDDIR := build; NS3_INSTALL_DIR := install |}.

Definition core_kinds : list string := ["bvt"; "core"; "performance"; "system"; "unit"].
Definition core_valgrind_skip_tests : list string :=
  ["ns3-tcp-cwnd"; "nsc-tcp-loss"; "ns3-tcp-interoperability"; "routing-click"].
Definition core_nsc_missing_skip_tests : list string :=
  ["ns3-tcp-cwnd"; "nsc-tcp-loss"; "ns3-tcp-interoperability"].
Definition TMP_OUTPUT_DIR : string := "testpy-output".
Definition VALGRIND_SUPPRESSIONS_FILE : string := "testpy.supp".

(** reading a name that nothing has assigned raises *)
Definition global {A} (o : option A) : result A :=
  match o with Some a => Ok a | None => Raise (PyException "NameError") end.
End Config.

(** ** read_waf_config *)
Module WafConfig.
Import Driver Config.

Section waf_config.
  (** [sys.platform], the working directory, [eval] of a string literal, the entry [with_ns3] of
      the evaluated options table, [exec] of one line of the cache, the text of [print] for the
      value of a configuration item *)
  Variables (platform cwd : string).
  Variables (eval_str with_ns3 : string → result string).
  Variable exec_line : string → globals → result globals.
  Variable show_item : globals → string → result string.

Definition open_lock_file : py world string := λ w,
  let p := ".lock-waf_" +:+ platform +:+ "_build" in
  match dict_get (files w) p with
  | Some t => (Ok t, w)
  | None =>
      match dict_get (files w) ".lock-waf_linux2_build" with
      | Some t => (Ok t, w)
      | None =>
          (eprint "The .lock-waf ... directory was not found.  You must do waf build before running test.py." ;;
           py_raise (SystemExit 2)) w
      end
  end.

(** the local variables of the loop over the lock file *)
Record lock := mk_lock {
  top_dir : option string; out_dir : option string; ns3_dir : option string
}.

Definition lock_line (l : lock) (line : string) : result lock :=
  l ← (if startswith line "top_dir =" then
         '(_, val) ← unpack2 (split_char "="%char line);
         v ← eval_str (strip val);
         Ok {| top_dir := Some v; out_dir := out_dir l; ns3_dir := ns3_dir l |}
       else Ok l);
  l ← (if startswith line "out_dir =" then
         '(_, val) ← unpack2 (split_char "="%char line);
         v ← eval_str (strip val);
         Ok {| top_dir := top_dir l; out_dir := Some v; ns3_dir := ns3_dir l |}
       else Ok l);
  if startswith line "options =" then
    '(_, table) ← unpack2 (split_str "= " line);
    v ← with_ns3 table;
    Ok {| top_dir := top_dir l; out_dir := out_dir l; ns3_dir := Some v |}
  else Ok l.

Fixpoint lock_lines (ls : list string) (l : lock) : result lock :=
  match ls with
  | [] => Ok l
  | x :: ls => l ← lock_line l x; lock_lines ls l
  end.

Definition local {A} (o : option A) : result A :=
  match o with Some a => Ok a | None => Raise UnboundLocalError end.

(** every item that is a prefix of the line executes the line once *)
Fixpoint cache_line (items : list string) (line : string) (g : globals) : result globals :=
  match items with
  | [] => Ok g
  | i :: items =>
      g ← (if startswith line i then exec_line line g else Ok g);
      cache_line items line g
  end.

Fixpoint cache_lines (ls : list string) (g : globals) : result globals :=
  match ls with
  | [] => Ok g
  | l :: ls => g ← cache_line interesting_config_items l g; cache_lines ls g
  end.

Definition read_waf_config (o : options) (g : globals) : py world globals :=
  text ← open_lock_file;
  l ← py_lift (lock_lines (lines_keep text)
                 {| top_dir := None; out_dir := None; ns3_dir := None |});
  top ← py_lift (local (top_dir l));
  out ← py_lift (local (out_dir l));
  ns3 ← py_lift (local (ns3_dir l));
  let g := set_dirs_of top out (abspath cwd ns3) g in
  cache ← read_file (out +:+ "/c4che/_cache.py");
  g ← py_lift (cache_lines (lines_keep cache) g);
  when (verbose o)
    (py_for interesting_config_items (λ item,
       v ← py_lift (show_item g item); print (item +:+ " == " +:+ v))) ;;
  mret g.
End waf_config.
End WafConfig.

(** ** make_paths *)
Module Paths.
Import Driver Config.

Definition dce_ldlibpath (g : globals) : string :=
  join ":" [path_join (NS3_BUILDDIR g) "lib"; path_join (NS3_BUILDDIR g) "bin";
            path_join (NS3_BUILDDIR g) "bin_dce"; path_join (NS3_INSTALL_DIR g) "lib";
            path_join (NS3_INSTALL_DIR g) "lib64"; path_join (NS3_INSTALL_DIR g) "sbin";
            path_join (NS3_INSTALL_DIR g) "bin_dce"; path_join (NS3_INSTALL_DIR g) "bin"].

Definition pypath (g : globals) : string :=
  path_joins (NS3_BUILDDIR g) ["bindings"; "python"].

Definition has_key (env : list (string * string)) (k : string) : bool :=
  match dict_get env k with Some _ => true | None => false end.

(** [os.environ[k] += s]; every use follows an assignment or a test of the key *)
Definition append_env (k s : string) (env : list (string * string)) : list (string * string) :=
  dict_set env k (default EmptyString (dict_get env k) +:+ s).

(** [if not have_k: os.environ[k] = ''] and the loop over the module paths *)
Definition extend_path (have : bool) (k sep : string) (paths : list string)
    (env : list (string * string)) : list (string * string) :=
  let env := if have then env else dict_set env k EmptyString in
  foldl (λ env p, append_env k (sep +:+ p) env) env paths.

(** [os.pathsep.join([_f for _f in l if _f])] *)
Definition join_true (l : list (option string)) : string :=
  join ":" (List.filter truthy (omap id l)).

Definition set_pythonpath (g : globals) (env : list (string * string))
    : list (string * string) :=
  let have_PYTHONPATH := has_key env "PYTHONPATH" in
  let env := dict_set env "PYTHONPATH" (pypath g) in
  if negb have_PYTHONPATH then dict_set env "PYTHONPATH" (pypath g)
  else append_env "PYTHONPATH" (":" +:+ pypath g) env.

Definition set_dce_paths (g : globals) (env : list (string * string)) : list (string * string) :=
  let env := dict_set env "DCE_PATH"
               (join_true [dict_get env "DCE_PATH"; dict_get env "LD_LIBRARY_PATH"]) in
  dict_set env "DCE_ROOT"
    (join_true [dict_get env "DCE_ROOT"; Some (NS3_BUILDDIR g); Some (NS3_INSTALL_DIR g)]).

(** the variable that holds the library search path of the platform *)
Definition library_path_key (platform : string) : string :=
  if (platform =? "darwin")%string then "DYLD_LIBRARY_PATH"
  else if (platform =? "win32")%string then "PATH"
  else if (platform =? "cygwin")%string then "PATH"
  else "LD_LIBRARY_PATH".

Definition on_linux (platform : string) : bool :=
  negb ((platform =? "darwin")%string || (platform =? "win32")%string ||
        (platform =? "cygwin")%string).

Definition set_library_path (platform : string) (g : globals) (paths : list string)
    (have : bool) (env : list (string * string)) : list (string * string) :=
  let k := library_path_key platform in
  let sep := if (platform =? "win32")%string then ";" else ":" in
  let env := extend_path have k sep paths env in
  if on_linux platform then append_env k (":" +:+ dce_ldlibpath g) env else env.

Definition show_env (o : options) (k : string) : py world unit :=
  env ← (λ w, (Ok (environ w), w));
  when (verbose o)
    (print ("os.environ[" +:+ String "034" (k +:+ String "034" "] == ") +:+
            default EmptyString (dict_get env k))).

Definition make_paths (platform : string) (o : options) (g : globals) : py world unit :=
  w ← py_get;
  let have := has_key (environ w) (library_path_key platform) in
  py_modify (λ w, set_environ (set_pythonpath g (environ w)) w) ;;
  show_env o "PYTHONPATH" ;;
  paths ← py_lift (global (NS3_MODULE_PATH g));
  py_modify (λ w, set_environ (set_library_path platform g paths have (environ w)) w) ;;
  show_env o (library_path_key platform) ;;
  if on_linux platform then
    py_modify (λ w, set_environ (set_dce_paths g (environ w)) w)
  else mret ().
End Paths.

(** ** parse_examples_to_run_file *)
Module Examples.
Import Driver Config.

(** (command, condition to run it, condition to run it under valgrind) *)
Definition cpp_example : Type := string * string * string.
(** (command, condition to run it) *)
Definition python_example : Type := string * string.

(** the three lists the function extends *)
Record examples := mk_examples {
  example_tests : list cpp_example;
  example_names_original : list cpp_example;
  python_tests : list python_example
}.

Definition no_examples : examples :=
  {| example_tests := []; example_names_original := []; python_tests := [] |}.

Definition space : ascii := " "%char.

(** the name and, if there are any, the arguments of an example *)
Definition split_command (s : string) : string * option string :=
  match split_once space s with
  | Some (name, args) => (name, Some args)
  | None => (s, None)
  end.

(** the full command when the program exists *)
Definition example_command (exists_file : string → bool) (dir s : string) : option string :=
  let '(name, args) := split_command s in
  let path := path_join dir name in
  if exists_file path then
    Some (match args with Some a => path +:+ " " +:+ a | None => path end)
  else None.

Section parse.
  Variable exists_file : string → bool.
  Variables (cpp_executable_dir python_script_dir : string).

Fixpoint add_cpp (l : list cpp_example) (e : examples) : examples :=
  match l with
  | [] => e
  | (name, do_run, do_valgrind_run) :: l =>
      add_cpp l
        match example_command exists_file cpp_executable_dir name with
        | Some path =>
            {| example_tests := example_tests e ++ [(path, do_run, do_valgrind_run)];
               example_names_original :=
                 example_names_original e ++ [(name, do_run, do_valgrind_run)];
               python_tests := python_tests e |}
        | None => e
        end
  end.

Fixpoint add_python (l : list python_example) (e : examples) : examples :=
  match l with
  | [] => e
  | (name, do_run) :: l =>
      add_python l
        match example_command exists_file python_script_dir name with
        | Some path =>
            {| example_tests := example_tests e;
               example_names_original := example_names_original e;
               python_tests := python_tests e ++ [(path, do_run)] |}
        | None => e
        end
  end.

  Variable eval_cpp : string → result (list cpp_example).
  Variable eval_python : string → result (list python_example).

(** [file] is the examples-to-run file, if there is one *)
Definition parse_examples_to_run_file (file : option string) (e : examples) : result examples :=
  match file with
  | None => Ok e
  | Some _ =>
      cpp ← Utils.Reader.get_list_from_file eval_cpp file "cpp_examples";
      let e := add_cpp cpp e in
      py ← Utils.Reader.get_list_from_file eval_python file "python_examples";
      Ok (add_python py e)
  end.
End parse.
End Examples.

(** ** Facts about the configuration *)
Module ConfigFacts.
Import Driver Config Paths Examples.

Lemma get_append_eq k s env :
  dict_get (append_env k s env) k = Some (default EmptyString (dict_get env k) +:+ s).
Proof. unfold append_env. apply dict_get_set_eq. Qed.

Lemma get_append_ne k k' s env : k' ≠ k → dict_get (append_env k s env) k' = dict_get env k'.
Proof. intros H. unfold append_env. by apply dict_get_set_ne. Qed.

Lemma get_extend_eq have k sep paths env :
  has_key env k = have →
  dict_get (extend_path have k sep paths env) k
  = Some (default EmptyString (dict_get env k) +:+ sconcat ((λ p, sep +:+ p) <$> paths)).
Proof.
  intros Hhave. unfold extend_path.
  assert (∃ v, dict_get (if have then env else dict_set env k EmptyString) k = Some v ∧
               v = default EmptyString (dict_get env k)) as (v & Hv & ->).
  { unfold has_key in Hhave. destruct (dict_get env k) eqn:E; subst have.
    - eauto.
    - exists EmptyString. by rewrite dict_get_set_eq. }
  revert Hv. generalize (if have then env else dict_set env k EmptyString).
  generalize (default EmptyString (dict_get env k)). clear Hhave.
  induction paths as [|p paths IH]; intros v env' Hv; cbn [foldl fmap list_fmap sconcat].
  - by rewrite Hv, sapp_nil_r.
  - erewrite IH; [|by rewrite get_append_eq, Hv]. cbn [from_option id].
    by rewrite sapp_assoc.
Qed.

Lemma get_extend_ne have k k' sep paths env :
  k' ≠ k → dict_get (extend_path have k sep paths env) k' = dict_get env k'.
Proof.
  intros Hk. unfold extend_path.
  assert (H : dict_get (if have then env else dict_set env k EmptyString) k' = dict_get env k').
  { destruct have; [done|by apply dict_get_set_ne]. }
  revert H. generalize (if have then env else dict_set env k EmptyString).
  induction paths as [|p paths IH]; intros env' H; cbn [foldl]; [done|].
  apply IH. by rewrite get_append_ne.
Qed.

(** the environment after [make_paths] on Linux *)
Definition library_path (g : globals) (paths : list string) (old : option string) : string :=
  default EmptyString old +:+ sconcat ((λ p, ":" +:+ p) <$> paths) +:+ ":" +:+ dce_ldlibpath g.

Lemma get_set_pythonpath g env k :
  dict_get (set_pythonpath g env) k =
  if (k =? "PYTHONPATH")%string then
    Some (if has_key env "PYTHONPATH" then pypath g +:+ ":" +:+ pypath g else pypath g)
  else dict_get env k.
Proof.
  unfold set_pythonpath. destruct (String.eqb_spec k "PYTHONPATH") as [->|Hk].
  - destruct (has_key env "PYTHONPATH"); cbn [negb].
    + by rewrite get_append_eq, dict_get_set_eq.
    + by rewrite dict_get_set_eq.
  - destruct (has_key env "PYTHONPATH"); cbn [negb].
    + by rewrite get_append_ne, dict_get_set_ne.
    + by rewrite !dict_get_set_ne.
Qed.

Lemma get_set_library_path g paths env k :
  dict_get (set_library_path "linux" g paths (has_key env "LD_LIBRARY_PATH") env) k =
  if (k =? "LD_LIBRARY_PATH")%string then
    Some (library_path g paths (dict_get env "LD_LIBRARY_PATH"))
  else dict_get env k.
Proof.
  unfold set_library_path.
  change (library_path_key "linux") with "LD_LIBRARY_PATH".
  change (on_linux "linux") with true. cbv match.
  change (if ("linux" =? "win32")%string then ";" else ":") with ":".
  destruct (String.eqb_spec k "LD_LIBRARY_PATH") as [->|Hk].
  - rewrite get_append_eq, get_extend_eq by done. cbn [from_option id].
    unfold library_path. by rewrite !sapp_assoc.
  - by rewrite get_append_ne, get_extend_ne.
Qed.

(** On Linux [make_paths] succeeds once the module path is known; it appends the module
    paths and the DCE directories to LD_LIBRARY_PATH, puts the result behind DCE_PATH, appends
    the build and install directories to DCE_ROOT, and leaves every other variable alone,
    except that a PYTHONPATH the user had set is replaced by the bindings directory twice. *)
Theorem make_paths_environment (o : options) (g : globals) (paths : list string) (w : world)
    (Hpaths : NS3_MODULE_PATH g = Some paths) :
  let '(r, w') := make_paths "linux" o g w in
  let old := dict_get (environ w) in
  let new := dict_get (environ w') in
  let lib := library_path g paths (old "LD_LIBRARY_PATH") in
  r = Ok () ∧
  new "LD_LIBRARY_PATH" = Some lib ∧
  new "PYTHONPATH" = Some (match old "PYTHONPATH" with
                           | Some _ => pypath g +:+ ":" +:+ pypath g
                           | None => pypath g
                           end) ∧
  new "DCE_PATH" = Some (join_true [old "DCE_PATH"; Some lib]) ∧
  new "DCE_ROOT" = Some (join_true [old "DCE_ROOT"; Some (NS3_BUILDDIR g);
                                    Some (NS3_INSTALL_DIR g)]) ∧
  ∀ k, k ∉ ["LD_LIBRARY_PATH"; "PYTHONPATH"; "DCE_PATH"; "DCE_ROOT"] → new k = old k.
Proof.
  assert (Hshow : ∀ k w, ∃ out, show_env o k w = (Ok (), out) ∧ environ out = environ w).
  { intros k w0. unfold show_env, when, print, py_modify. cbv [mbind py_bind].
    destruct (verbose o); eauto. }
  unfold make_paths, py_get, py_modify, py_lift. cbv [mbind py_bind].
  change (library_path_key "linux") with "LD_LIBRARY_PATH".
  set (w1 := set_environ (set_pythonpath g (environ w)) w).
  destruct (Hshow "PYTHONPATH" w1) as (w2 & -> & E2).
  rewrite Hpaths. cbn [global].
  set (w3 := set_environ _ w2).
  destruct (Hshow "LD_LIBRARY_PATH" w3) as (w4 & -> & E4).
  change (on_linux "linux") with true. cbv match. cbn [environ set_environ].
  rewrite E4. subst w3. cbn [environ set_environ]. rewrite E2. subst w1.
  cbn [environ set_environ]. set (e1 := set_pythonpath g (environ w)).
  assert (Hhas : has_key (environ w) "LD_LIBRARY_PATH" = has_key e1 "LD_LIBRARY_PATH").
  { unfold has_key, e1. by rewrite get_set_pythonpath. }
  rewrite Hhas. set (e2 := set_library_path _ _ _ _ e1).
  assert (He1 : ∀ k, k ≠ "PYTHONPATH" → dict_get e1 k = dict_get (environ w) k).
  { intros k Hk. unfold e1. rewrite get_set_pythonpath. by apply String.eqb_neq in Hk as ->. }
  assert (He2 : ∀ k, k ≠ "LD_LIBRARY_PATH" → dict_get e2 k = dict_get e1 k).
  { intros k Hk. unfold e2. rewrite get_set_library_path. by apply String.eqb_neq in Hk as ->. }
  assert (Hld : dict_get e2 "LD_LIBRARY_PATH"
                = Some (library_path g paths (dict_get (environ w) "LD_LIBRARY_PATH"))).
  { unfold e2. by rewrite get_set_library_path, He1. }
  unfold set_dce_paths. repeat split.
  - by rewrite !dict_get_set_ne.
  - rewrite !dict_get_set_ne, He2 by done. unfold e1. rewrite get_set_pythonpath.
    unfold has_key. cbn [String.eqb Ascii.eqb Bool.eqb].
    by destruct (dict_get (environ w) "PYTHONPATH").
  - by rewrite dict_get_set_ne, dict_get_set_eq, Hld, He2, He1.
  - by rewrite dict_get_set_eq, dict_get_set_ne, He2, He1.
  - intros k Hk. rewrite !not_elem_of_cons in Hk. destruct Hk as (?&?&?&?&_).
    by rewrite !dict_get_set_ne, He2, He1.
Qed.

Definition sample_globals : globals :=
  set_dirs_of "/src" "/src/build" "/src/install"
    {| NS3_ENABLED_MODULES := Some ["ns3-core"]; NS3_MODULE_PATH := Some ["/ns3/lib"];
       NSC_ENABLED := false; ENABLE_REAL_TIME := false; ENABLE_THREADING := false;
       ENABLE_EXAMPLES := true; ENABLE_TESTS := true; ENABLE_PYTHON_BINDINGS := Some true;
       ENABLE_CLICK := false; ENABLE_OPENFLOW := false; EXAMPLE_DIRECTORIES := ["ping"];
       APPNAME := "ns3-dce"; BUILD_PROFILE := "debug"; VERSION := "1.0";
       PYTHON := ["/usr/bin/python"]; VALGRIND_FOUND := true;
       NS3_BASEDIR := EmptyString; NS3_BUILDDIR := EmptyString; NS3_INSTALL_DIR := EmptyString |}.

Definition sample_world : world :=
  {| stdout := []; stderr := []; environ := [("HOME", "/home/u"); ("PYTHONPATH", "/mine")];
     files := []; dirs := []; commands := [] |}.

Lemma make_paths_environment_witness :
  let '(_, w') := make_paths "linux" default_options sample_globals sample_world in
  dict_get (environ w') "PYTHONPATH"
  = Some "/src/build/bindings/python:/src/build/bindings/python" ∧
  dict_get (environ w') "HOME" = Some "/home/u".
Proof.
  pose proof (make_paths_environment default_options sample_globals ["/ns3/lib"] sample_world
                eq_refl) as H.
  destruct (make_paths _ _ _ _) as [r w']. destruct H as (_ & _ & Hp & _ & _ & Ho).
  split; [exact Hp|]. apply Ho. by vm_compute; set_solver.
Defined.

(** *** The lock file *)
Lemma split_char_app c p s :
  no_char c p → split_char c (p +:+ String c s) = p :: split_char c s.
Proof.
  induction p as [|a p IH]; intros H.
  - rewrite sapp_nil_l. cbn. by rewrite Ascii.eqb_refl.
  - apply no_char_cons in H as [Ha Hp]. rewrite sapp_cons. cbn [split_char].
    apply Ascii.eqb_neq in Ha. by rewrite Ha, IH.
Qed.

Lemma split_char_many c s : has_char c s = true → ∃ a b l, split_char c s = a :: b :: l.
Proof.
  induction s as [|a s IH]; [done|]. unfold has_char. cbn [str_all split_char].
  destruct (Ascii.eqb a c); cbn [negb andb].
  - intros _. destruct (split_char c s) eqn:E; [|eauto].
    exfalso. clear -E. destruct s; [done|]. cbn in E. by repeat case_match.
  - intros (x & y & l & ->)%IH. eauto.
Qed.

(** A build or source directory whose path contains an equals sign cannot be read back from
    the lock file: the line of [out_dir] or [top_dir] is split at every [=], and unpacking the
    parts into two variables raises [ValueError]. *)
Theorem equals_sign_in_directory (eval_str with_ns3 : string → result string)
    (l : WafConfig.lock) (key value : string)
    (Hkey : key = "top_dir " ∨ key = "out_dir ")
    (Hvalue : has_char "="%char value = true) :
  WafConfig.lock_line eval_str with_ns3 l (key +:+ "=" +:+ value)
  = Raise (ValueError "too many values to unpack").
Proof.
  destruct (split_char_many _ _ Hvalue) as (x & y & rest & E).
  assert (Hno : no_char "=" key) by by destruct Hkey as [->| ->].
  assert (Hu : unpack2 (split_char "="%char (key +:+ "=" +:+ value))
               = Raise (ValueError "too many values to unpack")).
  { change (key +:+ "=" +:+ value) with (key +:+ String "="%char value).
    by rewrite split_char_app, E. }
  unfold WafConfig.lock_line. rewrite Hu.
  destruct Hkey as [->| ->].
  - change ("top_dir " +:+ "=" +:+ value) with ("top_dir =" +:+ value).
    by rewrite startswith_app.
  - change ("out_dir " +:+ "=" +:+ value) with ("out_dir =" +:+ value).
    by rewrite startswith_app.
Qed.

Lemma equals_sign_in_directory_witness :
  WafConfig.lock_line Ok Ok {| WafConfig.top_dir := None; WafConfig.out_dir := None;
                               WafConfig.ns3_dir := None |} "out_dir = '/home/u/o=3/build'"
  = Raise (ValueError "too many values to unpack").
Proof.
  by apply (equals_sign_in_directory Ok Ok _ "out_dir " " '/home/u/o=3/build'"); [right|].
Defined.

(** *** The lists of examples *)

(** the program of a command line: everything before the first space *)
Definition program (s : string) : string := (split_command s).1.

Lemma path_join_app dir p q :
  (p = EmptyString → startswith q "/" = false) → path_join dir (p +:+ q) = path_join dir p +:+ q.
Proof.
  intros Hq. unfold path_join.
  assert (startswith (p +:+ q) "/" = startswith p "/") as ->.
  { destruct p as [|a p]; [by rewrite sapp_nil_l, (Hq eq_refl)|].
    rewrite sapp_cons. cbn [startswith]. by destruct p, q. }
  repeat case_match; by rewrite ?sapp_assoc.
Qed.

Lemma example_command_spec ex dir s :
  example_command ex dir s =
  if ex (path_join dir (program s)) then Some (path_join dir s) else None.
Proof.
  unfold example_command, program, split_command.
  destruct (split_once space s) as [[p q]|] eqn:E; cbn [fst]; [|done].
  apply split_once_inv in E as [-> _]. case_match; [|done]. f_equal.
  by rewrite path_join_app.
Qed.

(** the entries whose program exists *)
Definition runnable_cpp (ex : string → bool) (dir : string) (x : cpp_example) : bool :=
  ex (path_join dir (program x.1.1)).
Definition runnable_python (ex : string → bool) (dir : string) (x : python_example) : bool :=
  ex (path_join dir (program x.1)).

Lemma add_cpp_spec ex dir l e :
  add_cpp ex dir l e =
  {| example_tests := example_tests e ++
       ((λ x, (path_join dir x.1.1, x.1.2, x.2)) <$> List.filter (runnable_cpp ex dir) l);
     example_names_original := example_names_original e ++ List.filter (runnable_cpp ex dir) l;
     python_tests := python_tests e |}.
Proof.
  revert e. induction l as [|[[n r] v] l IH]; intros e.
  - cbn. rewrite !app_nil_r. by destruct e.
  - cbn [add_cpp List.filter]. rewrite IH, example_command_spec. unfold runnable_cpp at 3 6.
    cbn [fst]. destruct (ex _); cbn; [by rewrite <- !app_assoc|done].
Qed.

Lemma add_python_spec ex dir l e :
  add_python ex dir l e =
  {| example_tests := example_tests e; example_names_original := example_names_original e;
     python_tests := python_tests e ++
       ((λ x, (path_join dir x.1, x.2)) <$> List.filter (runnable_python ex dir) l) |}.
Proof.
  revert e. induction l as [|[n r] l IH]; intros e.
  - cbn. rewrite app_nil_r. by destruct e.
  - cbn [add_python List.filter]. rewrite IH, example_command_spec. unfold runnable_python at 2.
    cbn [fst]. destruct (ex _); cbn; [by rewrite <- app_assoc|done].
Qed.

(** Parsing an examples-to-run file keeps the examples already listed and adds, in the order
    of the file, exactly the entries whose program (the text before the first space) exists,
    each with its whole command line joined to its directory; the original names of the C++
    examples are kept in step with their commands. *)
Theorem parse_examples_spec (ex : string → bool) (cpp_dir py_dir : string)
    (eval_cpp : string → result (list cpp_example))
    (eval_python : string → result (list python_example))
    (text : string) (e : examples) (cpp : list cpp_example) (py : list python_example)
    (Hcpp : Utils.Reader.get_list_from_file eval_cpp (Some text) "cpp_examples" = Ok cpp)
    (Hpy : Utils.Reader.get_list_from_file eval_python (Some text) "python_examples" = Ok py) :
  parse_examples_to_run_file ex cpp_dir py_dir eval_cpp eval_python (Some text) e
  = let cpp := List.filter (runnable_cpp ex cpp_dir) cpp in
    let py := List.filter (runnable_python ex py_dir) py in
    Ok {| example_tests := example_tests e ++
            ((λ x, (path_join cpp_dir x.1.1, x.1.2, x.2)) <$> cpp);
          example_names_original := example_names_original e ++ cpp;
          python_tests := python_tests e ++ ((λ x, (path_join py_dir x.1, x.2)) <$> py) |}.
Proof.
  unfold parse_examples_to_run_file. rewrite Hcpp. cbn [mbind result_bind]. rewrite Hpy.
  cbn [mbind result_bind]. by rewrite add_python_spec, add_cpp_spec.
Qed.

Definition sample_cpp (_ : string) : result (list cpp_example) :=
  Ok [("dce-ping --n=3", "True", "True"); ("missing", "True", "False")].

Lemma parse_examples_spec_witness :
  parse_examples_to_run_file (λ p, (p =? "/b/bin/dce-ping")%string) "/b/bin" "example/ping"
    sample_cpp (λ _, Ok []) (Some ("cpp_examples = []" +:+ nl)) no_examples
  = Ok {| example_tests := [("/b/bin/dce-ping --n=3", "True", "True")];
          example_names_original := [("dce-ping --n=3", "True", "True")];
          python_tests := [] |}.
Proof.
  by rewrite (parse_examples_spec _ _ _ sample_cpp (λ _, Ok []) _ no_examples
                [("dce-ping --n=3", "True", "True"); ("missing", "True", "False")] []).
Defined.
End ConfigFacts.
