(* ===== verification/TestJobs.v ===== *)
(** * test.py, jobs: units of testing work, running one, and the worker threads

    [Job], [run_job_synchronously], [worker_thread] and [sigint_hook] of src/test.py, and the
    protocol of the main thread and the worker threads over the two queues, as a step relation
    whose runs are the interleavings.  The operating system that runs a shell command is a
    parameter: the k-th command started, its text and its directory give its outcome. *)
From Stdlib Require Import ZArith Lia Ascii String QArith.
From stdpp Require Import base list strings.
From S2P Require Import Prelude PyStr Utils TestConfig.
#[local] Open Scope Z_scope.

(** ** Jobs *)
Module Jobs.
Record Job := mk_job {
  is_break : bool; is_skip : bool; is_example : bool; is_pyexample : bool;
  shell_command : string; display_name : string; basedir : string; tempdir : string;
  cwd : string; tmp_file_name : string; returncode : Z; elapsed_time : Q;
  build_path : string; err_messages : string
}.

(** the constructor; [returncode] starts as [False], which is the integer 0 *)
Definition new_job : Job :=
  {| is_break := false; is_skip := false; is_example := false; is_pyexample := false;
     shell_command := EmptyString; display_name := EmptyString; basedir := EmptyString; tempdir := EmptyString; cwd := EmptyString;
     tmp_file_name := EmptyString; returncode := 0; elapsed_time := 0; build_path := EmptyString;
     err_messages := EmptyString |}.

Definition set_is_break (b : bool) (j : Job) : Job :=
  {| is_break := b; is_skip := is_skip j; is_example := is_example j;
     is_pyexample := is_pyexample j; shell_command := shell_command j;
     display_name := display_name j; basedir := basedir j; tempdir := tempdir j; cwd := cwd j;
     tmp_file_name := tmp_file_name j; returncode := returncode j;
     elapsed_time := elapsed_time j; build_path := build_path j;
     err_messages := err_messages j |}.
Definition set_is_skip (b : bool) (j : Job) : Job :=
  {| is_break := is_break j; is_skip := b; is_example := is_example j;
     is_pyexample := is_pyexample j; shell_command := shell_command j;
     display_name := display_name j; basedir := basedir j; tempdir := tempdir j; cwd := cwd j;
     tmp_file_name := tmp_file_name j; returncode := returncode j;
     elapsed_time := elapsed_time j; build_path := build_path j;
     err_messages := err_messages j |}.
(** the fields the worker fills in: [returncode], [set_elapsed_time] and [err_messages] *)
Definition set_outcome (rc : Z) (t : Q) (err : string) (j : Job) : Job :=
  {| is_break := is_break j; is_skip := is_skip j; is_example := is_example j;
     is_pyexample := is_pyexample j; shell_command := shell_command j;
     display_name := display_name j; basedir := basedir j; tempdir := tempdir j; cwd := cwd j;
     tmp_file_name := tmp_file_name j; returncode := rc; elapsed_time := t;
     build_path := build_path j; err_messages := err |}.
End Jobs.

(** ** Running a job *)
Module RunJob.
Import Driver Config Jobs.

(** what a finished process leaves: its status, its output, the seconds it took, and the files
    it wrote *)
Record outcome := mk_outcome {
  o_status : Z; o_stdout : string; o_stderr : string; o_elapsed : Q;
  o_files : list (string * string)
}.

(** what becomes of a command: it ends; it cannot be started (its directory is missing, say); it
    ends, having written files, but its output is not text *)
Inductive process :=
  | Exited (r : outcome)
  | Unstarted (e : exn)
  | Unreadable (e : exn) (written : list (string * string)).

(** [s[start:end]] for [end = s.find(' ', start, -1)]: up to the first space, which is looked
    for before the last character; without one, [end] is -1 and drops the last character *)
Definition word_at (start : nat) (s : string) : string :=
  let rest := str_drop start s in
  let rest := str_take (String.length rest - 1) rest in
  match split_once " "%char rest with
  | Some (w, _) => w
  | None => rest
  end.

Definition test_name_flag : string := "--test-name=".

Definition xml_valgrind_opt (shell_command path_cmd : string) : string :=
  "--xml=yes --xml-file=valgrind-" +:+
  match py_find test_name_flag shell_command with
  | Some i => word_at (i + String.length test_name_flag) shell_command
  | None => basename path_cmd
  end +:+ "-memcheck.xml".

Definition path_command (g : globals) (shell_command : string) (is_python : bool)
    (build_path : string) : result string :=
  if is_python then
    match PYTHON g with
    | p :: _ => Ok (p +:+ " " +:+ path_join (NS3_BASEDIR g) shell_command)
    | [] => Raise IndexError
    end
  else if truthy build_path then Ok (path_join build_path shell_command)
  else Ok (path_join (NS3_BUILDDIR g) shell_command).

Definition valgrind_command (o : options) (g : globals) (shell_command path_cmd : string)
    : string :=
  "valgrind --suppressions=" +:+ path_join (NS3_BASEDIR g) VALGRIND_SUPPRESSIONS_FILE +:+
  " --leak-check=full --show-reachable=yes --error-exitcode=2 " +:+
  (if valgrind_xml o then xml_valgrind_opt shell_command path_cmd else EmptyString) +:+ " " +:+
  path_cmd.

Section run_job.
  Variables (o : options) (g : globals).
  Variable popen : nat → string → string → process.

(** run a shell command in a directory and wait for it: [Popen] and [communicate] *)
Definition execute (cmd directory : string) : py world outcome := λ w,
  let started files' := add_command (cmd, directory) (set_files (dict_update (files w) files') w) in
  match popen (length (commands w)) cmd directory with
  | Exited r => (Ok r, started (o_files r))
  | Unstarted e => (Raise e, w)
  | Unreadable e written => (Raise e, started written)
  end.

(** a leak summary of valgrind turns success into status 2 *)
Definition job_status (valgrind : bool) (r : outcome) : Z :=
  if valgrind && (o_status r =? 0) && py_in "== LEAK SUMMARY:" (o_stderr r) then 2
  else o_status r.

Definition run_job_synchronously (shell_command directory : string) (valgrind is_python : bool)
    (build_path : string) : py world outcome :=
  path_cmd ← py_lift (path_command g shell_command is_python build_path);
  let cmd := if valgrind then valgrind_command o g shell_command path_cmd else path_cmd in
  when (verbose o) (print ("Synchronously execute " +:+ cmd)) ;;
  r ← execute cmd directory;
  let retval := job_status valgrind r in
  when (verbose o)
    (print ("Return code =  " +:+ show_Z retval) ;;
     print ("stderr =  " +:+ o_stderr r)) ;;
  mret {| o_status := retval; o_stdout := o_stdout r; o_stderr := o_stderr r;
          o_elapsed := o_elapsed r; o_files := o_files r |}.

(** the shell command and the arguments of the call for a job that runs *)
Definition job_command (j : Job) : string :=
  if is_example j || is_pyexample j then shell_command j
  else shell_command j +:+ " --xml --tempdir=" +:+ tempdir j +:+ " --out=" +:+
       tmp_file_name j +:+ " " +:+ (if update_data o then "--update-data" else EmptyString).

Definition run_job (j : Job) : py world outcome :=
  if is_example j || is_pyexample j then
    run_job_synchronously (job_command j) (cwd j) (valgrind o) (is_pyexample j) (build_path j)
  else run_job_synchronously (job_command j) (cwd j) (valgrind o) false EmptyString.

(** what [worker_thread.run] does with a job that is neither a break nor interrupted, up to
    putting it on the output queue *)
Definition work (j : Job) : py world Job :=
  if is_skip j then
    when (verbose o) (print ("Skip " +:+ shell_command j)) ;; mret j
  else
    when (verbose o) (print ("Launch " +:+ shell_command j)) ;;
    r ← run_job j;
    when (verbose o)
      (print ("returncode = " +:+ show_Z (o_status r)) ;;
       print "---------- begin standard out ----------" ;;
       print (o_stdout r) ;;
       print "---------- begin standard err ----------" ;;
       print (o_stderr r) ;;
       print "---------- end standard err ----------") ;;
    mret (set_outcome (o_status r) (o_elapsed r) (o_stderr r) j).

End run_job.
End RunJob.

(** ** The worker threads and the queues *)
Module Queues.
Import Jobs.

(** A worker waits for a job, has taken one, works on one, has returned at a break job, or was
    ended by an exception of its work. *)
Inductive thread := Idle | Has (j : Job) | Running (j : Job) | Done | Dead.

Definition break_job : Job := set_is_break true new_job.

Section queues.
  Context {W : Type}.
  (** the work on one job, on the state the workers share *)
  Variable work : Job → py W Job.

Record sys := mk_sys {
  pending : list Job;       (* what the main thread has still to put *)
  input_queue : list Job;
  output_queue : list Job;
  threads : list thread;
  collected : list Job;     (* what the main thread has got, oldest first *)
  thread_exit : bool;       (* set by the signal handler *)
  store : W
}.

(** The main thread queues the jobs and one break job for each of its [n] threads. *)
Definition init (jobs : list Job) (n : nat) (w : W) : sys :=
  {| pending := jobs ++ replicate n break_job; input_queue := []; output_queue := [];
     threads := replicate n Idle; collected := []; thread_exit := false; store := w |}.

Definition put (s : sys) (j : Job) (p : list Job) : sys :=
  {| pending := p; input_queue := input_queue s ++ [j]; output_queue := output_queue s;
     threads := threads s; collected := collected s; thread_exit := thread_exit s;
     store := store s |}.
Definition get (s : sys) (j : Job) (q : list Job) : sys :=
  {| pending := pending s; input_queue := input_queue s; output_queue := q;
     threads := threads s; collected := collected s ++ [j]; thread_exit := thread_exit s;
     store := store s |}.
Definition take (s : sys) (i : nat) (j : Job) (q : list Job) : sys :=
  {| pending := pending s; input_queue := q; output_queue := output_queue s;
     threads := <[i := Has j]> (threads s); collected := collected s;
     thread_exit := thread_exit s; store := store s |}.
Definition set_thread (s : sys) (i : nat) (t : thread) (w : W) : sys :=
  {| pending := pending s; input_queue := input_queue s; output_queue := output_queue s;
     threads := <[i := t]> (threads s); collected := collected s;
     thread_exit := thread_exit s; store := w |}.
Definition give (s : sys) (i : nat) (j : Job) (w : W) : sys :=
  {| pending := pending s; input_queue := input_queue s; output_queue := output_queue s ++ [j];
     threads := <[i := Idle]> (threads s); collected := collected s;
     thread_exit := thread_exit s; store := w |}.
Definition interrupt (s : sys) : sys :=
  {| pending := pending s; input_queue := input_queue s; output_queue := output_queue s;
     threads := threads s; collected := collected s; thread_exit := true; store := store s |}.

(** One step of the main thread (which waits for [n_jobs] results after it has put everything),
    of the signal handler, or of worker [i]. *)
Inductive step (n_jobs : nat) (s : sys) : sys → Prop :=
  | step_put j p : pending s = j :: p → step n_jobs s (put s j p)
  | step_get j q :
      pending s = [] → (length (collected s) < n_jobs)%nat → output_queue s = j :: q →
      step n_jobs s (get s j q)
  | step_sigint : thread_exit s = false → step n_jobs s (interrupt s)
  | step_take i j q :
      threads s !! i = Some Idle → input_queue s = j :: q → step n_jobs s (take s i j q)
  | step_return i j :
      threads s !! i = Some (Has j) → is_break j = true →
      step n_jobs s (set_thread s i Done (store s))
  | step_give_back i j :
      threads s !! i = Some (Has j) → is_break j = false → thread_exit s = true →
      step n_jobs s (give s i (set_is_break true j) (store s))
  | step_start i j :
      threads s !! i = Some (Has j) → is_break j = false → thread_exit s = false →
      step n_jobs s (set_thread s i (Running j) (store s))
  | step_finish i j j' w :
      threads s !! i = Some (Running j) → work j (store s) = (Ok j', w) →
      step n_jobs s (give s i j' w)
  | step_die i j e w :
      threads s !! i = Some (Running j) → work j (store s) = (Raise e, w) →
      step n_jobs s (set_thread s i Dead w).

Definition reachable (jobs : list Job) (n : nat) (w : W) : sys → Prop :=
  rtc (step (length jobs)) (init jobs n w).

(** the main thread has all results and every thread can be joined *)
Definition final (n_jobs : nat) (s : sys) : Prop :=
  pending s = [] ∧ length (collected s) = n_jobs ∧ Forall (λ t, t = Done) (threads s).

(** what one worker does with the jobs, when it sees the interrupt after [k] of them *)
Fixpoint run_queue (k : nat) (jobs : list Job) : py W (list Job) :=
  match jobs, k with
  | [], _ => mret []
  | j :: jobs, O => rest ← run_queue O jobs; mret (set_is_break true j :: rest)
  | j :: jobs, S k => j' ← work j; rest ← run_queue k jobs; mret (j' :: rest)
  end.
End queues.
Arguments sys : clear implicits.
End Queues.

(** ** The protocol loses no job, always progresses and stops *)
Module QueueFacts.
Import Jobs Queues.

(** a job up to what a worker may change in it *)
Definition reset (j : Job) : Job := set_outcome 0 0 EmptyString (set_is_break false j).

(** the job a thread holds, break jobs apart, and whether it has taken a break job *)
Definition held (t : thread) : list Job :=
  match t with
  | Has j => if is_break j then [] else [j]
  | Running j => [j]
  | _ => []
  end.
Definition broke (t : thread) : list unit :=
  match t with
  | Has j => if is_break j then [()] else []
  | Done => [()]
  | _ => []
  end.

(** every step is paid for by a job that advances, a thread that returns, or the signal *)
Definition weight (t : thread) : nat :=
  match t with Has _ => 4 | Running _ => 3 | _ => 0 end.

Lemma bind_replicate_nil {A B} (f : A → list B) m x : f x = [] → replicate m x ≫= f = [].
Proof. intros Hf. induction m as [|m IH]; [done|]. cbn. by rewrite Hf, IH. Qed.

Section facts.
  Context {W : Type} (work : Job → py W Job) (jobs : list Job) (n : nat) (w0 : W).
  Hypothesis jobs_real : Forall (λ j, is_break j = false) jobs.
  Hypothesis work_ok : ∀ j w, j ∈ jobs → ∃ j' w', work j w = (Ok j', w') ∧ reset j' = reset j.

  Notation step := (step work (length jobs)).
  Notation reachable := (reachable work jobs n w0).

(** [js] are the jobs queued and not taken, followed by [k] break jobs. *)
Record invariant (s : sys W) (js : list Job) (k : nat) : Prop := {
  inv_queue : input_queue s ++ pending s = js ++ replicate k break_job;
  inv_real : Forall (λ j, is_break j = false) (js ++ (threads s ≫= held));
  inv_mem : Forall (λ j, j ∈ jobs) (js ++ (threads s ≫= held));
  inv_threads : length (threads s) = n;
  inv_breaks : (k + length (threads s ≫= broke))%nat = n;
  inv_order : threads s ≫= broke = [] ∨ js = [];
  inv_alive : Forall (λ t, t ≠ Dead) (threads s);
  inv_perm : reset <$> (js ++ (threads s ≫= held) ++ output_queue s ++ collected s)
             ≡ₚ reset <$> jobs
}.

Lemma init_invariant : invariant (init jobs n w0) jobs n.
Proof.
  assert (Hb : replicate n Idle ≫= broke = []) by by apply bind_replicate_nil.
  assert (Hh : replicate n Idle ≫= held = []) by by apply bind_replicate_nil.
  constructor; cbn [init input_queue pending threads output_queue collected];
    rewrite ?Hb, ?Hh, ?app_nil_r; auto.
  - by rewrite Forall_forall.
  - by rewrite length_replicate.
  - by apply Forall_replicate.
Qed.

Lemma bind_middle {A} (f : thread → list A) l1 t l2 :
  (l1 ++ t :: l2) ≫= f = (l1 ≫= f) ++ f t ++ (l2 ≫= f).
Proof. by rewrite bind_app, bind_cons. Qed.

Ltac thread_count := solve [rewrite !length_app in *; cbn [length] in *; lia].

(** a [Forall] over a list whose elements are all elements of the list of [H] *)
Ltac forall_sub H :=
  rewrite Forall_forall in H |- *; intros ? ?; apply H; set_solver.

(** a thread that holds the same job and the same number of break jobs as before *)
Lemma invariant_same s i t t' w js k :
  invariant s js k → threads s !! i = Some t → held t' = held t → broke t' = broke t →
  t' ≠ Dead → invariant (set_thread s i t' w) js k.
Proof.
  intros [Hq Hr Hm Hl Hb Ho Ha Hp] Et Eh Eb Hd.
  destruct (lookup_split _ _ _ Et) as (l1 & l2 & E & U). rewrite E, !bind_middle in *.
  constructor; cbn; auto; rewrite ?E, ?U, ?bind_middle, ?Eh, ?Eb; auto; try thread_count.
  apply Forall_app in Ha as [? [_ ?]%Forall_cons]. by apply Forall_app; split; [|constructor].
Qed.

(** a thread that puts the job it holds, or what became of it, on the output queue *)
Lemma invariant_give s i t j j' w js k :
  invariant s js k → threads s !! i = Some t → held t = [j] → broke t = [] →
  reset j' = reset j → invariant (give s i j' w) js k.
Proof.
  intros [Hq Hr Hm Hl Hb Ho Ha Hp] Et Eh Eb Hj.
  destruct (lookup_split _ _ _ Et) as (l1 & l2 & E & U).
  rewrite E, !bind_middle, ?Eh, ?Eb in *.
  constructor; cbn; auto; rewrite ?E, ?U, ?bind_middle; cbn [held broke app]; auto; try thread_count.
  - forall_sub Hr.
  - forall_sub Hm.
  - apply Forall_app in Ha as [? [_ ?]%Forall_cons]. by apply Forall_app; split; [|constructor].
  - assert (Hr' : reset <$> [j'] = reset <$> [j]) by (cbn; by rewrite Hj).
    rewrite <- Hp, !fmap_app, Hr'. solve_Permutation.
Qed.

Lemma invariant_take s i j q js k :
  invariant s js k → threads s !! i = Some Idle → input_queue s = j :: q →
  ∃ js' k', invariant (take s i j q) js' k'.
Proof.
  intros [Hq Hr Hm Hl Hb Ho Ha Hp] Et Eq.
  destruct (lookup_split _ _ _ Et) as (l1 & l2 & E & U).
  rewrite E, !bind_middle in *. cbn [held broke app] in *. rewrite Eq in Hq.
  assert (Ha' : Forall (λ t, t ≠ Dead) (l1 ++ Has j :: l2)).
  { apply Forall_app in Ha as [? [_ ?]%Forall_cons]. by apply Forall_app; split; [|constructor]. }
  destruct js as [|j' js].
  - destruct k as [|k]; [done|]. injection Hq as -> Hq. exists [], k.
    constructor; cbn; auto; rewrite ?E, ?U, ?bind_middle;
      cbn [held broke app is_break break_job set_is_break]; auto; try thread_count.
  - injection Hq as -> Hq. exists js, k. apply Forall_cons in Hr as [Hj Hr].
    apply Forall_cons in Hm as [Hmj Hm].
    constructor; cbn; auto; rewrite ?E, ?U, ?bind_middle; cbn [held broke app]; rewrite ?Hj; auto; try thread_count.
    + assert (Hr' : Forall (λ j, is_break j = false) (j' :: js ++ (l1 ≫= held) ++ [] ++ (l2 ≫= held)))
        by by constructor.
      forall_sub Hr'.
    + assert (Hm' : Forall (λ j, j ∈ jobs) (j' :: js ++ (l1 ≫= held) ++ [] ++ (l2 ≫= held)))
        by by constructor.
      forall_sub Hm'.
    + destruct Ho as [Ho|]; [by left|done].
    + rewrite <- Hp, !fmap_app, fmap_cons.
      change (reset j' :: ?l) with ([reset j'] ++ l). cbn [fmap list_fmap]. solve_Permutation.
Qed.

Lemma invariant_step s s' js k :
  invariant s js k → step s s' → ∃ js' k', invariant s' js' k'.
Proof.
  intros HI Hstep.
  assert (Hheld : ∀ i t j, threads s !! i = Some t → held t = [j] → is_break j = false ∧ j ∈ jobs).
  { intros i t j Et Eh. destruct HI as [_ Hr Hm _ _ _ _ _].
    destruct (lookup_split _ _ _ Et) as (l1 & l2 & E & _). rewrite E, bind_middle, Eh in Hr, Hm.
    rewrite Forall_forall in Hr, Hm. split; [apply Hr|apply Hm]; set_solver. }
  destruct Hstep as [j p Ep|j q Ep El Eq|Ex|i j q Et Eq|i j Et Ej|i j Et Ej Ex|i j Et Ej Ex
                    |i j j' w Et Ew|i j e w Et Ew].
  - exists js, k. destruct HI. constructor; cbn; auto. rewrite <- app_assoc. cbn. by rewrite <- Ep.
  - exists js, k. destruct HI as [? ? ? ? ? ? ? Hp]. constructor; cbn; auto.
    rewrite <- Hp, Eq. f_equiv. change (j :: q) with ([j] ++ q). solve_Permutation.
  - exists js, k. by destruct HI.
  - by eapply invariant_take.
  - exists js, k. eapply invariant_same; eauto; cbn; by rewrite Ej.
  - exists js, k. eapply (invariant_give _ _ _ j); eauto; cbn; by rewrite ?Ej.
  - exists js, k. eapply invariant_same; eauto; cbn; by rewrite ?Ej.
  - destruct (Hheld _ _ j Et) as [? Hj]; [done|].
    destruct (work_ok j (store s) Hj) as (j1 & w1 & Ew1 & Ej1).
    rewrite Ew in Ew1. injection Ew1 as <- <-.
    exists js, k. eapply (invariant_give _ _ _ j); eauto.
  - destruct (Hheld _ _ j Et) as [? Hj]; [done|].
    destruct (work_ok j (store s) Hj) as (j1 & w1 & Ew1 & Ej1). congruence.
Qed.

Lemma reachable_invariant s : reachable s → ∃ js k, invariant s js k.
Proof.
  apply (rtc_invariant _ (λ s, ∃ js k, invariant s js k)).
  - exists jobs, n. apply init_invariant.
  - intros a b (js & k & HI) Hstep. by eapply invariant_step.
Qed.

(** a thread with a job, or all waiting or ended *)
Lemma busy_or_quiet (ts : list thread) :
  (∃ i j, ts !! i = Some (Has j) ∨ ts !! i = Some (Running j)) ∨
  (ts ≫= held = [] ∧ Forall (λ t, t = Idle ∨ t = Done ∨ t = Dead) ts).
Proof.
  induction ts as [|t ts [(i & j & H)|[Hh Hq]]].
  - right. by split.
  - left. by exists (S i), j.
  - destruct t as [|j|j| |].
    2: { left. exists O, j. by left. }
    2: { left. exists O, j. by right. }
    all: right; split; [done|]; constructor; auto.
Qed.

Lemma idle_or_done (ts : list thread) :
  Forall (λ t, t = Idle ∨ t = Done ∨ t = Dead) ts → Forall (λ t, t ≠ Dead) ts →
  (∃ i, ts !! i = Some Idle) ∨ Forall (λ t, t = Done) ts.
Proof.
  induction 1 as [|t ts Ht _ IH]; intros Ha; [by right|]. apply Forall_cons in Ha as [Hd Ha].
  destruct Ht as [->|[->| ->]]; [by left; exists O| |done].
  destruct (IH Ha) as [[i Hi]|]; [left; by exists (S i)|right; by constructor].
Qed.

Lemma broke_length (ts : list thread) : (length (ts ≫= broke) ≤ length ts)%nat.
Proof.
  induction ts as [|t ts IH]; cbn [mbind list_bind]; [done|]. rewrite length_app. cbn [length].
  assert (length (broke t) ≤ 1)%nat; [destruct t as [|j| | |]; cbn; try destruct (is_break j); cbn; lia|].
  lia.
Qed.

Lemma idle_not_broke (ts : list thread) i :
  ts !! i = Some Idle → (length (ts ≫= broke) < length ts)%nat.
Proof.
  intros Hi. destruct (lookup_split _ _ _ Hi) as (l1 & l2 & -> & _). rewrite bind_middle.
  cbn [broke app]. rewrite !length_app. cbn [length].
  pose proof (broke_length l1). pose proof (broke_length l2). lia.
Qed.

(** C4. From every reachable state in which the main thread does not yet have all results or
    some thread has not returned, a step is possible: the queues never deadlock, whatever the
    number of worker threads and whenever the interrupt comes, as long as no work raises. *)
Theorem queue_progress (Hn : (0 < n)%nat) (s : sys W) (Hs : reachable s)
    (Hnot : ¬ final (length jobs) s) : ∃ s', step s s'.
Proof.
  destruct (reachable_invariant s Hs) as (js & k & [Hq Hr Hm Hl Hb Ho Ha Hp]).
  destruct (pending s) as [|j p] eqn:Ep; [|eexists; by eapply step_put].
  destruct (busy_or_quiet (threads s)) as [(i & j & [Hi|Hi])|[Hh Hquiet]].
  { destruct (is_break j) eqn:Ej; [eexists; by eapply step_return|].
    destruct (thread_exit s) eqn:Ex; eexists; [by eapply step_give_back|by eapply step_start]. }
  { destruct (work j (store s)) as [[j'|e] w] eqn:Ew;
      eexists; [by eapply step_finish|by eapply step_die]. }
  destruct (idle_or_done _ Hquiet Ha) as [[i Hi]|Hdone].
  { destruct (input_queue s) as [|j q] eqn:Eq; [|eexists; by eapply step_take].
    exfalso. symmetry in Hq. apply app_eq_nil in Hq as [-> Hk].
    apply (f_equal length) in Hk. rewrite length_replicate in Hk. cbn in Hk.
    pose proof (idle_not_broke _ _ Hi). lia. }
  assert (Hjs : js = []).
  { destruct Ho as [Ho|]; [|done]. destruct (threads s) as [|t ts]; [cbn in Hl; lia|].
    apply Forall_cons in Hdone as [-> _]. done. }
  subst js. rewrite Hh in Hp. cbn [app] in Hp.
  apply Permutation_length in Hp. rewrite !length_fmap, length_app in Hp.
  destruct (output_queue s) as [|j q] eqn:Eq.
  - exfalso. by apply Hnot.
  - eexists. eapply step_get; eauto. cbn in Hp. lia.
Qed.


(** *** Termination *)
Definition measure (s : sys W) : nat :=
  6 * length (pending s) + 5 * length (input_queue s) + sum_list_with weight (threads s) +
  length (output_queue s) + (if thread_exit s then 0 else 1).

Lemma weight_update (ts : list thread) i t t' :
  ts !! i = Some t →
  (sum_list_with weight (<[i:=t']> ts) + weight t = sum_list_with weight ts + weight t')%nat.
Proof.
  intros Hi. destruct (lookup_split _ _ _ Hi) as (l1 & l2 & -> & ->).
  rewrite !sum_list_with_app. cbn. lia.
Qed.

Lemma step_measure (s s' : sys W) : step s s' → (measure s' < measure s)%nat.
Proof.
  unfold measure.
  destruct 1 as [j p Ep|j q Ep El Eq|Ex|i j q Et Eq|i j Et Ej|i j Et Ej Ex|i j Et Ej Ex
                |i j j' w Et Ew|i j e w Et Ew]; cbn [put get interrupt take set_thread give
    pending input_queue output_queue threads thread_exit];
    rewrite ?Ep, ?Eq, ?Ex, ?length_app; cbn [length]; try lia;
    match goal with |- context [<[i:=?t']> _] => pose proof (weight_update _ i _ t' Et) as Hw end;
    cbn [weight] in Hw; rewrite ?Ex; lia.
Qed.

(** C6. Every run of the main thread, the workers and the signal handler is finite, whether or
    not some work raises: it has at most six steps for each job and for each thread, and one
    for the signal. *)
Theorem queue_terminates (m : nat) (s : sys W)
    (Hs : nsteps step m (init jobs n w0) s) : (m ≤ 6 * length jobs + 6 * n + 1)%nat.
Proof.
  assert (Hm : ∀ x, nsteps step m x s → (m + measure s ≤ measure x)%nat).
  { clear Hs. intros x. induction 1 as [|m x y z Hxy _ IH]; [lia|].
    apply step_measure in Hxy. lia. }
  apply Hm in Hs. revert Hs. unfold measure at 2. cbn [init pending input_queue threads
    output_queue thread_exit length].
  rewrite length_app, length_replicate.
  replace (sum_list_with weight (replicate n Idle)) with 0%nat; [lia|].
  clear. induction n; cbn; lia.
Qed.
End facts.

(** *** One worker thread: the jobs run in the order of the queue *)
Section single.
  Context {W : Type} (work : Job → py W Job) (jobs : list Job) (w0 : W).
  Hypothesis jobs_real : Forall (λ j, is_break j = false) jobs.

Lemma run_queue_work (pre : list Job) out w j j' w' w1 :
  run_queue work (length pre) pre w1 = (Ok out, w) → work j w = (Ok j', w') →
  run_queue work (S (length pre)) (pre ++ [j]) w1 = (Ok (out ++ [j']), w').
Proof.
  revert out w1. induction pre as [|x pre IH]; intros out w1 Hpre Hj.
  - cbn in Hpre. injection Hpre as <- <-. cbn. cbv [mbind py_bind]. by rewrite Hj.
  - cbn [length run_queue app] in *. revert Hpre. cbv [mbind py_bind].
    destruct (work x w1) as [[x'|] w2]; [|done].
    destruct (run_queue work (length pre) pre w2) as [[rest|] w3] eqn:E; [|done].
    intros [= <- <-]. by rewrite (IH rest w2 E Hj).
Qed.

Lemma run_queue_mark (pre : list Job) k out w j w1 :
  (k ≤ length pre)%nat → run_queue work k pre w1 = (Ok out, w) →
  run_queue work k (pre ++ [j]) w1 = (Ok (out ++ [set_is_break true j]), w).
Proof.
  revert k out w1. induction pre as [|x pre IH]; intros k out w1 Hk Hpre.
  - destruct k; [|cbn in Hk; lia]. cbn in Hpre. by injection Hpre as <- <-.
  - destruct k as [|k]; cbn [length run_queue app] in *; revert Hpre; cbv [mbind py_bind].
    + destruct (run_queue work 0 pre w1) as [[rest|] w3] eqn:E; [|done].
      intros [= <- <-]. by rewrite (IH 0%nat rest w1 (Nat.le_0_l _) E).
    + destruct (work x w1) as [[x'|] w2]; [|done].
      destruct (run_queue work k pre w2) as [[rest|] w3] eqn:E; [|done].
      intros [= <- <-]. by rewrite (IH k rest w2 ltac:(lia) E).
Qed.

Lemma run_queue_length (l : list Job) k w out w' :
  (k ≤ length l)%nat → run_queue work k l w = (Ok out, w') → length out = length l.
Proof.
  revert k w out. induction l as [|j l IH]; intros k w out Hk.
  - destruct k; cbn; by intros [= <- _].
  - destruct k as [|k]; cbn [run_queue length] in *; cbv [mbind py_bind].
    + destruct (run_queue work 0 l w) as [[rest|] ?] eqn:E; [|done]. intros [= <- ->].
      cbn. f_equal. eapply (IH 0%nat); [lia|exact E].
    + destruct (work j w) as [[j'|] w1]; [|done].
      destruct (run_queue work k l w1) as [[rest|] ?] eqn:E; [|done]. intros [= <- ->].
      cbn. f_equal. eapply (IH k); [lia|exact E].
Qed.

(** where the jobs are when there is one thread: the worker has seen [pre] *)
Record in_order (s : sys W) (t : thread) (pre js brk : list Job) (k : nat) : Prop := {
  ord_jobs : jobs = pre ++ held t ++ js;
  ord_queue : input_queue s ++ pending s = js ++ brk;
  ord_break : (brk = [break_job] ∧ broke t = []) ∨ (brk = [] ∧ js = [] ∧ broke t = [()]);
  ord_k : (k ≤ length pre)%nat;
  ord_run : run_queue work k pre w0 = (Ok (collected s ++ output_queue s), store s);
  ord_exit : (k < length pre)%nat → thread_exit s = true;
  ord_running : ∀ j, t = Running j → k = length pre
}.

Definition single_invariant (s : sys W) : Prop :=
  ∃ t, threads s = [t] ∧ (t ≠ Dead → ∃ pre js brk k, in_order s t pre js brk k).

Lemma held_real t pre js j :
  jobs = pre ++ held t ++ js → held t = [j] → is_break j = false.
Proof.
  intros E H. rewrite E, H in jobs_real. rewrite Forall_forall in jobs_real.
  apply jobs_real. set_solver.
Qed.

(** the thread [t] puts [j'] for its job [j] *)
Lemma in_order_give s t pre js brk k k' j j' w :
  in_order s t pre js brk k → held t = [j] → broke t = [] → threads s = [t] →
  (k' ≤ S (length pre))%nat → ((k' < S (length pre))%nat → thread_exit s = true) →
  run_queue work k' (pre ++ [j]) w0 = (Ok ((collected s ++ output_queue s) ++ [j']), w) →
  single_invariant (give s 0 j' w).
Proof.
  intros [Ej Eq Eb Hk Hrun Hex Hru] Eh Ebr Et Hk' Hex' Hrun'.
  exists Idle. cbn [give threads]. rewrite Et. split; [done|]. intros _.
  exists (pre ++ [j]), js, brk, k'. constructor; cbn; auto; try discriminate.
  - by rewrite Ej, Eh, <- app_assoc.
  - destruct Eb as [[-> _]|(_ & _ & Eb)]; [by left|congruence].
  - rewrite length_app. cbn. lia.
  - by rewrite app_assoc.
  - rewrite length_app. cbn. intros. apply Hex'. lia.
Qed.

Lemma single_step s s' :
  single_invariant s → step work (length jobs) s s' → single_invariant s'.
Proof.
  intros (t & Et & HI) Hstep.
  assert (Hsame : ∀ i t', threads s !! i = Some t' → i = 0%nat ∧ t' = t).
  { intros [|i] t' Hi; rewrite Et in Hi; [by injection Hi|by destruct i]. }
  destruct Hstep as [j p Ep|j q Ep El Eq|Ex|i j q Ei Eq|i j Ei Ej|i j Ei Ej Ex|i j Ei Ej Ex
                    |i j j' w Ei Ew|i j e w Ei Ew];
    try (destruct (Hsame _ _ Ei) as [-> <-]).
  1-3: exists t; split; [exact Et|]; intros Hd; destruct (HI Hd) as (pre & js & brk & k & []);
    exists pre, js, brk, k; constructor; cbn; auto; try discriminate.
  - rewrite <- app_assoc. cbn. by rewrite <- Ep.
  - rewrite <- app_assoc. cbn. by rewrite <- Eq.
  - destruct (HI ltac:(done)) as (pre & js & brk & k & [Ej Eqq Eb Hk Hrun Hex _]).
    change (jobs = pre ++ js) in Ej. rewrite Eq in Eqq. exists (Has j). cbn [take threads]. rewrite Et.
    split; [done|]. intros _. destruct js as [|j' js].
    + destruct Eb as [[-> _]|(-> & _)]; [|done]. injection Eqq as -> Eqq.
      exists pre, [], [], k. constructor; cbn; auto; try discriminate.
    + injection Eqq as -> Eqq. exists pre, js, brk, k.
      assert (Hj : is_break j' = false).
      { rewrite Ej, Forall_app, Forall_cons in jobs_real. tauto. }
      constructor; cbn; rewrite ?Hj; auto; try discriminate.
      destruct Eb as [[-> _]|(_ & ? & _)]; [by left|done].
  - exists Done. cbn [set_thread threads]. rewrite Et. split; [done|]. intros _.
    destruct (HI ltac:(done)) as (pre & js & brk & k & [E Eqq Eb Hk Hrun Hex _]).
    exists pre, js, brk, k. cbn in E, Eb. rewrite Ej in E, Eb. constructor; auto; discriminate.
  - destruct (HI ltac:(done)) as (pre & js & brk & k & HO). pose proof HO as [E _ _ Hk Hrun Hex _].
    eapply (in_order_give s (Has j) pre js brk k k j); eauto; cbn; rewrite ?Ej; auto.
    by apply run_queue_mark.
  - exists (Running j). cbn [set_thread threads]. rewrite Et. split; [done|]. intros _.
    destruct (HI ltac:(done)) as (pre & js & brk & k & [E Eqq Eb Hk Hrun Hex _]).
    exists pre, js, brk, k. cbn in E, Eb. rewrite Ej in E, Eb. constructor; auto.
    intros _ _. destruct (decide (k < length pre)%nat) as [Hlt|]; [|lia].
    specialize (Hex Hlt). congruence.
  - destruct (HI ltac:(done)) as (pre & js & brk & k & HO). pose proof HO as [E _ _ Hk Hrun Hex Hr].
    specialize (Hr j eq_refl). subst k.
    eapply (in_order_give s (Running j) pre js brk _ (S (length pre)) j); eauto; [lia|].
    by eapply run_queue_work.
  - exists Dead. cbn [set_thread threads]. by rewrite Et.
Qed.

Lemma single_worker_run (s : sys W) (Hs : reachable work jobs 1 w0 s)
    (Hfinal : final (length jobs) s) :
  ∃ k : nat, (k ≤ length jobs)%nat ∧
    run_queue work k jobs w0 = (Ok (collected s), store s) ∧
    (thread_exit s = false → k = length jobs).
Proof.
  assert (HI : single_invariant s).
  { refine (rtc_invariant _ single_invariant _ _ _ single_step Hs).
    exists Idle. split; [done|]. intros _. exists [], jobs, [break_job], 0%nat.
    constructor; cbn; auto; try discriminate. lia. }
  destruct HI as (t & Et & HI). destruct Hfinal as (Hp & Hlen & Hdone).
  rewrite Et, Forall_singleton in Hdone. subst t.
  destruct (HI ltac:(done)) as (pre & js & brk & k & [E _ Eb Hk Hrun Hex _]).
  destruct Eb as [[_ [=]]|(_ & -> & _)]. cbn in E. rewrite app_nil_r in E. subst pre.
  assert (Hout : output_queue s = []).
  { apply run_queue_length in Hrun; [|done]. rewrite length_app in Hrun.
    destruct (output_queue s); [done|cbn in Hrun; lia]. }
  rewrite Hout, app_nil_r in Hrun. exists k. repeat split; auto.
  intros Hno. destruct (decide (k < length jobs)%nat) as [Hlt|]; [|lia].
  specialize (Hex Hlt). congruence.
Qed.

(** C7. With the one worker thread the driver creates, every complete run collects, in the order
    of the queue, what running the jobs one after the other gives: all of them worked on when no
    interrupt came, and otherwise the jobs after some point given back marked as breaks. *)
Theorem single_worker_in_order (s : sys W) (Hs : reachable work jobs 1 w0 s)
    (Hfinal : final (length jobs) s) :
  ∃ k : nat, (k ≤ length jobs)%nat ∧
    run_queue work k jobs w0 = (Ok (collected s), store s) ∧
    (thread_exit s = false → k = length jobs).
Proof. by apply single_worker_run. Qed.
End single.
End QueueFacts.

(** ** What a worker does with a job *)
Module JobFacts.
Import Driver Config Jobs RunJob Queues QueueFacts.

Section facts.
  Variables (o : options) (g : globals).
  Variable popen : nat → string → string → process.

(** the arguments of [run_job_synchronously] for a job *)
Definition job_is_python (j : Job) : bool := (is_example j || is_pyexample j) && is_pyexample j.
Definition job_build_path (j : Job) : string :=
  if is_example j || is_pyexample j then build_path j else EmptyString.

(** the shell command that runs a job *)
Definition shell_text (j : Job) (path_cmd : string) : string :=
  if valgrind o then valgrind_command o g (job_command o j) path_cmd else path_cmd.

Lemma when_print b (m : py world unit) w :
  (∀ w, ∃ w', m w = (Ok (), w') ∧ commands w' = commands w ∧ files w' = files w) →
  ∃ w', when b m w = (Ok (), w') ∧ commands w' = commands w ∧ files w' = files w.
Proof. intros H. destruct b; [apply H|by exists w]. Qed.

Lemma run_job_text j :
  run_job o g popen j =
  run_job_synchronously o g popen (job_command o j) (cwd j) (valgrind o) (job_is_python j)
    (job_build_path j).
Proof.
  unfold run_job, job_is_python, job_build_path. by destruct (is_example j || is_pyexample j).
Qed.

(** the outcome of [run_job_synchronously], with the status that valgrind changes *)
Definition judged (v : bool) (r : outcome) : outcome :=
  {| o_status := job_status v r; o_stdout := o_stdout r; o_stderr := o_stderr r;
     o_elapsed := o_elapsed r; o_files := o_files r |}.

(** what the process of a command leaves: the result that [f] makes of its outcome, the commands
    started and the files *)
Definition leaves {A} (f : outcome → A) (p : process) (cmd dir : string) (w : world)
    (r : result A) (w' : world) : Prop :=
  match p with
  | Exited x => r = Ok (f x) ∧ commands w' = commands w ++ [(cmd, dir)] ∧
                files w' = dict_update (files w) (o_files x)
  | Unstarted e => r = Raise e ∧ commands w' = commands w ∧ files w' = files w
  | Unreadable e written => r = Raise e ∧ commands w' = commands w ++ [(cmd, dir)] ∧
                            files w' = dict_update (files w) written
  end.

Lemma run_job_sync_leaves (cmd dir : string) (v py : bool) (b path : string) (w : world) :
  path_command g cmd py b = Ok path →
  let text : string := if v then valgrind_command o g cmd path else path in
  let '(r, w') := run_job_synchronously o g popen cmd dir v py b w in
  leaves (judged v) (popen (length (commands w)) text dir) text dir w r w'.
Proof.
  intros Hp. cbv zeta. unfold run_job_synchronously, py_lift. cbv [mbind py_bind]. rewrite Hp.
  destruct (when_print (verbose o)
    (print ("Synchronously execute " +:+ (if v then valgrind_command o g cmd path else path))) w)
    as (w1 & -> & E1 & F1); [by intros; eexists|].
  unfold execute. rewrite E1. destruct (popen _ _ _) as [r|e|e written].
  - match goal with |- context [when ?b ?m ?w0] =>
      destruct (when_print b m w0) as (w2 & -> & E2 & F2); [by intros; eexists|] end.
    cbn. by rewrite E2, F2, <- E1, <- F1.
  - cbn. by rewrite E1, F1.
  - cbn. by rewrite E1, F1.
Qed.

Lemma run_job_sync_ok (cmd dir : string) (v py : bool) (b path : string) (r : outcome) (w : world) :
  path_command g cmd py b = Ok path →
  let text : string := if v then valgrind_command o g cmd path else path in
  popen (length (commands w)) text dir = Exited r →
  ∃ w', run_job_synchronously o g popen cmd dir v py b w = (Ok (judged v r), w') ∧
        commands w' = commands w ++ [(text, dir)] ∧
        files w' = dict_update (files w) (o_files r).
Proof.
  intros Hp text Hr. pose proof (run_job_sync_leaves cmd dir v py b path w Hp) as H.
  fold text in H. cbv zeta in H. rewrite Hr in H.
  destruct (run_job_synchronously _ _ _ _ _ _ _ _ w) as [r' w']. destruct H as (-> & ? & ?). by exists w'.
Qed.

(** C8. A job to be skipped comes back unchanged, without a command.  Of the others only a Python
    example without an interpreter raises before a command, and nothing is run.  Otherwise a worker
    runs exactly one shell command, in the directory of the job: when the process ends and its
    output is text, its status, time and error output are stored in the job and nothing else of it
    changes, where under valgrind a leak summary turns status 0 into 2; when the process cannot be
    started, or its output cannot be read, its exception is raised, in the first case with no
    command run and in the second with the files that the process wrote. *)
Theorem work_runs_job (j : Job) (w : world) :
  let '(r, w') := work o g popen j w in
  if is_skip j then r = Ok j ∧ commands w' = commands w ∧ files w' = files w
  else
    match path_command g (job_command o j) (job_is_python j) (job_build_path j) with
    | Raise e => r = Raise IndexError ∧ is_pyexample j = true ∧ PYTHON g = [] ∧
                 commands w' = commands w ∧ files w' = files w
    | Ok path =>
        leaves (λ x : outcome,
            let leak := valgrind o && (o_status x =? 0) && py_in "== LEAK SUMMARY:" (o_stderr x) in
            set_outcome (if leak then 2 else o_status x) (o_elapsed x) (o_stderr x) j)
          (popen (length (commands w)) (shell_text j path) (cwd j)) (shell_text j path) (cwd j) w r w'
    end ∧
    ∀ j', r = Ok j' → reset j' = reset j.
Proof.
  unfold work. destruct (is_skip j) eqn:Es.
  { destruct (when_print (verbose o) (print ("Skip " +:+ shell_command j)) w)
      as (w1 & E & E1 & F1); [by intros; eexists|].
    cbv [mbind py_bind]. by rewrite E. }
  destruct (when_print (verbose o) (print ("Launch " +:+ shell_command j)) w)
    as (w1 & E & E1 & F1); [by intros; eexists|].
  cbv [mbind py_bind]. rewrite E, run_job_text.
  destruct (path_command g (job_command o j) (job_is_python j) (job_build_path j)) as [path|e] eqn:Ep.
  - pose proof (run_job_sync_leaves _ (cwd j) (valgrind o) _ _ _ w1 Ep) as H. cbv zeta in H.
    fold (shell_text j path) in H. rewrite E1 in H.
    destruct (run_job_synchronously _ _ _ _ _ _ _ _ w1) as [r w2].
    destruct (popen _ _ _) as [x|e|e written]; destruct H as (-> & E2 & F2).
    + match goal with |- context [when ?b ?m ?w0] =>
        destruct (when_print b m w0) as (w3 & -> & E3 & F3); [by intros; eexists|] end.
      split; [|by intros j' [= <-]]. cbn. by rewrite E3, E2, F3, F2, E1, F1.
    + split; [|done]. cbn. by rewrite E2, F2, E1, F1.
    + split; [|done]. cbn. by rewrite E2, F2, E1, F1.
  - unfold run_job_synchronously. cbv [mbind py_bind py_lift]. rewrite Ep. split; [|done].
    revert Ep. unfold path_command, job_is_python. destruct (is_pyexample j).
    + rewrite orb_true_r. cbn. destruct (PYTHON g); [|done]. by intros [= <-].
    + rewrite andb_false_r. by destruct (truthy _).
Qed.
End facts.

(** *** A concrete run *)
Definition sample_popen (_ : nat) (cmd _ : string) : process :=
  Exited {| o_status := 0; o_stdout := EmptyString; o_stderr := "== LEAK SUMMARY:";
            o_elapsed := 1 # 2; o_files := [] |}.

Definition grind_options : options :=
  {| buildpath := EmptyString; constrain := EmptyString; duration := false; example := EmptyString;
     update_data := false; fullness := "QUICK"; valgrind := true; valgrind_xml := false;
     kinds := false; list_tests := false; multiple := false; nowaf := false; pyexample := EmptyString;
     retain := false; suite := EmptyString; text := EmptyString; verbose := false; html := EmptyString;
     xml := EmptyString; dlm_test_runner := false |}.

Definition sample_job : Job :=
  {| is_break := false; is_skip := false; is_example := true; is_pyexample := false;
     shell_command := "bin/dce-ping"; display_name := "dce-ping"; basedir := EmptyString; tempdir := EmptyString;
     cwd := "/tmp"; tmp_file_name := EmptyString; returncode := 0; elapsed_time := 0;
     build_path := EmptyString; err_messages := EmptyString |}.

Definition sample_work : Job → py world Job :=
  work grind_options ConfigFacts.sample_globals sample_popen.

Lemma work_runs_job_witness :
  (∃ j' w', sample_work sample_job ConfigFacts.sample_world = (Ok j', w') ∧ returncode j' = 2) ∧
  ∃ w', work grind_options ConfigFacts.sample_globals (λ _ _ d, Unstarted (FileNotFoundError d))
          sample_job ConfigFacts.sample_world = (Raise (FileNotFoundError "/tmp"), w') ∧
        commands w' = [].
Proof.
  split.
  - pose proof (work_runs_job grind_options ConfigFacts.sample_globals sample_popen sample_job
                  ConfigFacts.sample_world) as H.
    unfold sample_work. destruct (work _ _ _ _ _) as [r w']. destruct H as [(-> & _) _].
    do 2 eexists. split; [reflexivity|]. by vm_compute.
  - pose proof (work_runs_job grind_options ConfigFacts.sample_globals
                  (λ _ _ d, Unstarted (FileNotFoundError d)) sample_job ConfigFacts.sample_world) as H.
    destruct (work _ _ _ _ _) as [r w']. destruct H as [(-> & H & _) _]. exists w'. by split.
Defined.

Lemma sample_work_ok (j : Job) (w : world) :
  j ∈ [sample_job] → ∃ j' w', sample_work j w = (Ok j', w') ∧ reset j' = reset j.
Proof.
  intros ->%list_elem_of_singleton. do 2 eexists. split; reflexivity.
Qed.

Definition sample_start : sys world := init [sample_job] 1 ConfigFacts.sample_world.

(** put the job, put the break job, take, start, finish, take the break, return, get *)
Lemma sample_run :
  ∃ s : sys world, nsteps (step sample_work 1) 8 sample_start s ∧ final 1 s ∧
       thread_exit s = false ∧ returncode <$> collected s = [2].
Proof.
  eexists. split; [|split; [|split]].
  - eapply nsteps_l; [by eapply step_put|]. eapply nsteps_l; [by eapply step_put|].
    eapply nsteps_l; [by eapply (step_take _ _ _ 0)|].
    eapply nsteps_l; [by eapply (step_start _ _ _ 0)|].
    eapply nsteps_l; [by eapply (step_finish _ _ _ 0)|].
    eapply nsteps_l; [by eapply (step_take _ _ _ 0)|].
    eapply nsteps_l; [by eapply (step_return _ _ _ 0)|].
    eapply nsteps_l; [eapply step_get; [done|cbn; lia|reflexivity]|]. apply nsteps_O.
  - split; [done|]. split; [done|]. by repeat constructor.
  - done.
  - by vm_compute.
Qed.

Lemma sample_real : Forall (λ j, is_break j = false) [sample_job].
Proof. by repeat constructor. Qed.

Lemma queue_progress_witness :
  ∃ s', step sample_work 1 sample_start s'.
Proof.
  apply (queue_progress sample_work [sample_job] 1 ConfigFacts.sample_world sample_real
           sample_work_ok ltac:(lia) sample_start (rtc_refl _ _)).
  by intros [[=] _].
Defined.


Lemma queue_terminates_witness :
  ∃ s : sys world, nsteps (step sample_work 1) 8 sample_start s ∧ (8 ≤ 6 * 1 + 6 * 1 + 1)%nat.
Proof.
  destruct sample_run as (s & Hrun & _). exists s. split; [exact Hrun|].
  exact (queue_terminates sample_work [sample_job] 1 ConfigFacts.sample_world 8 s Hrun).
Defined.

Lemma single_worker_in_order_witness :
  ∃ s : sys world, final 1 s ∧ run_queue sample_work 1 [sample_job] ConfigFacts.sample_world
                   = (Ok (collected s), store s).
Proof.
  destruct sample_run as (s & Hrun & Hf & Hexit & _). exists s. split; [exact Hf|].
  destruct (single_worker_in_order sample_work [sample_job] ConfigFacts.sample_world sample_real
              s ltac:(by eapply rtc_nsteps_2) Hf) as (k & _ & Hk & Hall).
  by rewrite (Hall Hexit) in Hk.
Defined.
End JobFacts.
