(* ===== verification/TestRun.v ===== *)
(** * test.py, the driver: choosing the tests, queueing them, collecting the results

    [run_tests] of src/test.py, in the order of the code: configuration, build, lists of
    examples, the listing options, the choice of the suites, the queue of jobs, the collection
    of their results into the summary and the XML file, the reports and the exit status.
    The worker phase is [Queues.run_queue], which file TestJobs shows to be what every
    interleaving of the single worker thread with the main thread collects. *)
From Stdlib Require Import ZArith Lia Ascii String QArith.
From stdpp Require Import base list strings sorting.
From S2P Require Import Prelude PyStr Utils TestReport TestConfig TestJobs.
#[local] Open Scope Z_scope.

(** ** Sorting strings and tuples of strings, as [list.sort] *)
Module Sorting.
Definition str_le (a b : string) : Prop := String.leb a b = true.
#[export] Instance str_le_dec : RelDecision str_le.
Proof. intros a b. unfold str_le. apply _. Defined.

Definition triple_leb (a b : string * string * string) : bool :=
  let '(a1, a2, a3) := a in let '(b1, b2, b3) := b in
  if (a1 =? b1)%string then
    if (a2 =? b2)%string then String.leb a3 b3 else String.leb a2 b2
  else String.leb a1 b1.
Definition triple_le (a b : string * string * string) : Prop := triple_leb a b = true.
#[export] Instance triple_le_dec : RelDecision triple_le.
Proof. intros a b. unfold triple_le. apply _. Defined.
End Sorting.

(** ** The driver *)
Module Run.
Import Driver Config Jobs RunJob Examples Sorting.

(** the counters of the summary *)
Record summary := mk_summary {
  passed_tests : nat; failed_tests : nat; crashed_tests : nat; valgrind_errors : nat;
  skipped_tests : nat
}.
Definition no_results : summary :=
  {| passed_tests := 0; failed_tests := 0; crashed_tests := 0; valgrind_errors := 0;
     skipped_tests := 0 |}.

Inductive status := PASS | FAIL | VALGR | CRASH | SKIP.
#[export] Instance status_eq_dec : EqDecision status.
Proof. solve_decision. Defined.

Definition status_text (s : status) : string :=
  match s with
  | PASS => "PASS" | FAIL => "FAIL" | VALGR => "VALGR" | CRASH => "CRASH" | SKIP => "SKIP"
  end.

Definition job_status (j : Job) : status :=
  if is_skip j then SKIP
  else if returncode j =? 0 then PASS
  else if returncode j =? 1 then FAIL
  else if returncode j =? 2 then VALGR
  else CRASH.

Definition count (s : status) (c : summary) : summary :=
  match s with
  | PASS => {| passed_tests := S (passed_tests c); failed_tests := failed_tests c;
               crashed_tests := crashed_tests c; valgrind_errors := valgrind_errors c;
               skipped_tests := skipped_tests c |}
  | FAIL => {| passed_tests := passed_tests c; failed_tests := S (failed_tests c);
               crashed_tests := crashed_tests c; valgrind_errors := valgrind_errors c;
               skipped_tests := skipped_tests c |}
  | CRASH => {| passed_tests := passed_tests c; failed_tests := failed_tests c;
                crashed_tests := S (crashed_tests c); valgrind_errors := valgrind_errors c;
                skipped_tests := skipped_tests c |}
  | VALGR => {| passed_tests := passed_tests c; failed_tests := failed_tests c;
                crashed_tests := crashed_tests c; valgrind_errors := S (valgrind_errors c);
                skipped_tests := skipped_tests c |}
  | SKIP => {| passed_tests := passed_tests c; failed_tests := failed_tests c;
               crashed_tests := crashed_tests c; valgrind_errors := valgrind_errors c;
               skipped_tests := S (skipped_tests c) |}
  end.

Definition attr (s : string) : string := String "034" (s +:+ String "034" EmptyString).

(** the lines of an element with a name and a result *)
Definition name_line (j : Job) : string := "  <Name>" +:+ display_name j +:+ "</Name>" +:+ nl.
Definition result_line (s : status) : string :=
  "  <Result>" +:+ status_text s +:+ "</Result>" +:+ nl.
Definition crash_details (j : Job) : string :=
  "  <CrashDetails>" +:+ err_messages j +:+ "  </CrashDetails>" +:+ nl.

Definition example_xml (j : Job) : string :=
  "<Example>" +:+ nl +:+ name_line j +:+ result_line (job_status j) +:+
  (match job_status j with CRASH => crash_details j | _ => EmptyString end) +:+
  "  <Time real=" +:+ attr (fmt_fixed 3 (elapsed_time j)) +:+ "/>" +:+ nl +:+
  "</Example>" +:+ nl.

Definition skipped_xml (j : Job) : string :=
  "<Test>" +:+ nl +:+ name_line j +:+ result_line SKIP +:+ "</Test>" +:+ nl.
Definition crashed_xml (j : Job) : string :=
  "<Test>" +:+ nl +:+ name_line j +:+ result_line CRASH +:+ crash_details j +:+
  "</Test>" +:+ nl.
Definition valgr_xml (j : Job) : string :=
  "<Test>" +:+ nl +:+ name_line j +:+ result_line VALGR +:+ "</Test>" +:+ nl.

Section run.
  Variables (o : options) (g : globals).
  Variable popen : nat → string → string → process.
  (** [os.getcwd()], the directory of the results, the name of the test runner, the path of the
      dce runner or the empty string *)
  Variables (workdir testpy_output_dir test_runner_name dce_runner_path : string).
  (** [eval] of the condition of an example, under the current globals *)
  Variable eval_cond : string → result bool.

Definition xml_results_file : string := path_join testpy_output_dir "results.xml".

(** *** Collecting the results *)
Definition is_any_example (j : Job) : bool := is_example j || is_pyexample j.

Definition status_line (j : Job) : string :=
  let kind := if is_any_example j then "Example" else "TestSuite" in
  status_text (job_status j) +:+
  (if duration o || (constrain o =? "performance")%string
   then " (" +:+ fmt_fixed 3 (elapsed_time j) +:+ ")" else EmptyString) +:+
  ": " +:+ kind +:+ " " +:+ display_name j.

Definition suite_xml (j : Job) : py world unit :=
  if is_skip j then append_file xml_results_file (skipped_xml j)
  else if (returncode j =? 0) || (returncode j =? 1) || (returncode j =? 2) then
    text ← read_file (path_join testpy_output_dir (tmp_file_name j));
    append_file xml_results_file text
  else
    append_file xml_results_file (crashed_xml j) ;;
    if returncode j =? 2 then append_file xml_results_file (valgr_xml j) else mret ().

Definition collect_job (j : Job) (c : summary) : py world summary :=
  if is_break j then mret c
  else
    print (status_line j) ;;
    (if is_any_example j then append_file xml_results_file (example_xml j) else suite_xml j) ;;
    mret (count (job_status j) c).

Fixpoint collect_jobs (js : list Job) (c : summary) : py world summary :=
  match js with
  | [] => mret c
  | j :: js => c ← collect_job j c; collect_jobs js c
  end.

(** *** Choosing the suites *)

(** the runner in the directory [dir] with the given arguments *)
Definition ask_runner (dir args : string) : py world outcome :=
  run_job_synchronously o g popen (path_join dir (test_runner_name +:+ args)) workdir false false
    EmptyString.

Definition choose_suites : py world string :=
  if truthy (suite o) then
    r ← ask_runner "bin" " --print-test-name-list";
    if py_in (suite o) (o_stdout r) then mret (suite o +:+ nl)
    else
      eprint "The test suite was not run because an unknown test suite name was requested." ;;
      py_raise (SystemExit 2)
  else if negb (truthy (example o)) && negb (truthy (pyexample o)) then
    r ← (if truthy (constrain o)
         then ask_runner "bin" (" --print-test-name-list --test-type=" +:+ constrain o)
         else ask_runner "bin" " --print-test-name-list");
    mret (o_stdout r)
  else mret EmptyString.

(** [l.remove(x)] for an element of the list *)
Fixpoint remove_first (x : string) (l : list string) : list string :=
  match l with
  | [] => []
  | y :: l => if (x =? y)%string then l else y :: remove_first x l
  end.

Definition remove_suites (performance_tests : list string) (suite_list : list string)
    : list string :=
  foldl (λ l t, if bool_decide (t ∈ l) then remove_first t l else l) suite_list performance_tests.

Definition suites_to_run : py world (list string) :=
  suites ← choose_suites;
  let suite_list := split_char newline suites in
  if negb (constrain o =? "performance")%string then
    r ← ask_runner "utils" " --print-test-name-list --test-type=performance";
    mret (remove_suites (split_char newline (o_stdout r)) suite_list)
  else mret suite_list.

(** *** Queueing *)
Definition suite_skipped (test : string) : bool :=
  (valgrind o && bool_decide (test ∈ core_valgrind_skip_tests)) ||
  (negb (NSC_ENABLED g) && bool_decide (test ∈ core_nsc_missing_skip_tests)).

Definition suite_command (test : string) : string :=
  let multiple := if multiple o then EmptyString else " --stop-on-failure" in
  let fullness := if truthy (fullness o) then " --fullness=" +:+ upper (fullness o)
                  else " --fullness=QUICK" in
  path_join "bin" (test_runner_name +:+ " --test-name=" +:+ test +:+ multiple +:+ fullness).

Definition suite_job (test : string) : Job :=
  {| is_break := false; is_skip := suite_skipped test; is_example := false;
     is_pyexample := false; shell_command := suite_command test; display_name := test;
     basedir := workdir; tempdir := testpy_output_dir; cwd := testpy_output_dir;
     tmp_file_name := test +:+ ".xml"; returncode := 0; elapsed_time := 0;
     build_path := EmptyString; err_messages := EmptyString |}.

Definition queued (label : string) : py world unit :=
  when (verbose o) (print ("Queue " +:+ label)).

Fixpoint queue_suites (suite_list : list string) : py world (list Job) :=
  match suite_list with
  | [] => mret []
  | t :: ts =>
      let test := strip t in
      if truthy test then
        queued test ;; js ← queue_suites ts; mret (suite_job test :: js)
      else queue_suites ts
  end.

(** the command of an example, under the dce runner when there is one *)
Definition under_runner (command : string) : string :=
  if truthy dce_runner_path then dce_runner_path +:+ " " +:+ command else command.

Definition example_job (name command build : string) (py skip : bool) : Job :=
  {| is_break := false; is_skip := skip; is_example := negb py; is_pyexample := py;
     shell_command := command; display_name := name; basedir := workdir;
     tempdir := testpy_output_dir; cwd := testpy_output_dir; tmp_file_name := EmptyString;
     returncode := 0; elapsed_time := 0; build_path := build; err_messages := EmptyString |}.

Definition test_program (test : string) : string := basename (split_command test).1.

Fixpoint queue_examples (runnable : list string) (tests : list cpp_example)
    : py world (list Job) :=
  match tests with
  | [] => mret []
  | (test, do_run, do_valgrind_run) :: tests =>
      if bool_decide (test_program test ∈ runnable) then
        run ← py_lift (eval_cond do_run);
        if (run : bool) then
          skip ← (if valgrind o then b ← py_lift (eval_cond do_valgrind_run); mret (negb b)
                  else mret false);
          queued test ;;
          js ← queue_examples runnable tests;
          mret (example_job (basename test) (under_runner test) (buildpath o) false skip :: js)
        else queue_examples runnable tests
      else queue_examples runnable tests
  end.

(** the example below bin/ or, failing that, below the bin directory of a script *)
Definition find_example (example_path name : string) : py world string := λ w,
  let p := "bin/" +:+ example_path in
  if exists_path w (NS3_BUILDDIR g +:+ "/" +:+ p) then (Ok p, w)
  else match glob w (NS3_BUILDDIR g +:+ "/myscripts/*/bin/" +:+ name) with
       | p :: _ => (Ok p, w)
       | [] => (Raise IndexError, w)
       end.

(** the single example of the option; the result of [replace] is not used in the code *)
Definition queue_one_example (runnable : list string) : py world (list Job) :=
  let '(dir, name) := path_split (example o) in
  let example_path := path_join dir name in
  if negb (bool_decide (name ∈ runnable)) then
    print ("Example " +:+ name +:+ " is not runnable.") ;; mret []
  else
    command ← (if truthy dce_runner_path then mret (dce_runner_path +:+ " " +:+ example_path)
               else find_example example_path name);
    queued name ;;
    mret [example_job name command (buildpath o) false false].

Definition nothing_chosen : bool :=
  negb (truthy (suite o)) && negb (truthy (example o)) && negb (truthy (pyexample o)).

Definition kind_chosen (kind : string) : bool :=
  negb (truthy (constrain o)) || (constrain o =? kind)%string.

Definition queue_cpp (runnable : list string) (tests : list cpp_example) : py world (list Job) :=
  if nothing_chosen then
    if kind_chosen "example" && ENABLE_EXAMPLES g then queue_examples runnable tests else mret []
  else if truthy (example o) then queue_one_example runnable
  else mret [].

Fixpoint queue_pyexamples (runnable : list string) (tests : list python_example)
    : py world (list Job) :=
  match tests with
  | [] => mret []
  | (test, do_run) :: tests =>
      if bool_decide (test_program test ∈ runnable) then
        run ← py_lift (eval_cond do_run);
        if (run : bool) then
          bindings ← py_lift (global (ENABLE_PYTHON_BINDINGS g));
          queued test ;;
          js ← queue_pyexamples runnable tests;
          mret (example_job (test_program test) (under_runner test) EmptyString true
                  (valgrind o || negb bindings) :: js)
        else queue_pyexamples runnable tests
      else queue_pyexamples runnable tests
  end.

Definition queue_one_pyexample (runnable : list string) : py world (list Job) :=
  let name := basename (pyexample o) in
  if negb (bool_decide (name ∈ runnable)) then
    print ("Example " +:+ name +:+ " is not runnable.") ;; mret []
  else
    queued (pyexample o) ;;
    mret [example_job (pyexample o) (pyexample o) EmptyString true false].

Definition queue_python (runnable : list string) (tests : list python_example)
    : py world (list Job) :=
  if nothing_chosen then
    if kind_chosen "pyexample" && ENABLE_EXAMPLES g then queue_pyexamples runnable tests
    else mret []
  else if truthy (pyexample o) then queue_one_pyexample runnable
  else mret [].

(** *** The listing options *)
Definition print_kinds : py world unit :=
  r ← ask_runner "bin" " --print-test-type-list";
  print (o_stdout r +:+ " " +:+ o_stderr r).

Definition print_list (e : examples) : py world unit :=
  r ← ask_runner "bin" (" --print-test-name-list --print-test-types" +:+
        (if truthy (constrain o) then " --test-type=" +:+ constrain o else EmptyString));
  print "Test Type    Test Name" ;;
  print "---------    ---------" ;;
  py_for (merge_sort str_le (split_char newline (o_stdout r))) (λ item,
    when (truthy (strip item)) (print item)) ;;
  py_for (merge_sort triple_le (example_names_original e)) (λ item,
    when (item.1.2 =? "True")%string (print ("example      " +:+ item.1.1))) ;;
  print EmptyString.
End run.

(** *** Reports and the end of the run *)
Section reports.
  (** the XML parser, on the text of the results file *)
  Variable parse_xml : string → option Etree.element.

(** opening the report truncates it before the results are read *)
Definition write_report (translate : option Etree.element → py string unit)
    (results report : string) : py world unit :=
  write_file report EmptyString ;;
  text ← read_file results;
  let '(r, out) := translate (parse_xml text) EmptyString in
  write_file report out ;;
  py_lift r.

Definition final_notes (o : options) (g : globals) : py world unit :=
  when (negb (ENABLE_TESTS g) || negb (ENABLE_EXAMPLES g))
    (print EmptyString ;;
     when (negb (ENABLE_TESTS g))
       (print "***  Note: ns-3 tests are currently disabled. Enable them by adding" ;;
        print ("***  " +:+ attr "--enable-tests" +:+ " to ./waf configure or modifying your .ns3rc file.") ;;
        print EmptyString) ;;
     when (negb (ENABLE_EXAMPLES g))
       (print "***  Note: ns-3 examples are currently disabled. Enable them by adding" ;;
        print ("***  " +:+ attr "--enable-examples" +:+
               " to ./waf configure or modifying your .ns3rc file.") ;;
        print EmptyString)) ;;
  when (valgrind o && negb (VALGRIND_FOUND g))
    (print EmptyString ;;
     print "***  Note: you are trying to use valgrind, but valgrind could not be found" ;;
     print "***  on your machine.  All tests and examples will crash or be skipped." ;;
     print EmptyString).

Definition show_nat (n : nat) : string := show_Z (Z.of_nat n).

Definition summary_line (total : nat) (c : summary) : string :=
  show_nat (passed_tests c) +:+ " of " +:+ show_nat total +:+ " tests passed (" +:+
  show_nat (passed_tests c) +:+ " passed, " +:+ show_nat (skipped_tests c) +:+ " skipped, " +:+
  show_nat (failed_tests c) +:+ " failed, " +:+ show_nat (crashed_tests c) +:+ " crashed, " +:+
  show_nat (valgrind_errors c) +:+ " valgrind errors)".

Definition exit_status (total : nat) (c : summary) : Z :=
  if (passed_tests c + skipped_tests c =? total)%nat then 0 else 1.

(** everything after the threads have been joined *)
Definition finish (o : options) (g : globals) (dir : string) (total : nat) (c : summary)
    : py world Z :=
  let results := xml_results_file dir in
  append_file results ("</Results>" +:+ nl) ;;
  print (summary_line total c) ;;
  when (truthy (html o)) (write_report Report.translate_to_html results (html o)) ;;
  when (truthy (text o)) (write_report Report.translate_to_text results (text o)) ;;
  when (truthy (xml o)) (t ← read_file results; write_file (xml o) t) ;;
  final_notes o g ;;
  when (negb (retain o)) (rmtree dir) ;;
  mret (exit_status total c).

(** queueing is over: run the jobs, seeing the interrupt after [k] of them, and collect *)
Definition run_and_collect (o : options) (g : globals)
    (popen : nat → string → string → process) (dir : string) (k : nat) (jobs : list Job)
    : py world Z :=
  results ← Queues.run_queue (work o g popen) k jobs;
  c ← collect_jobs o dir results no_results;
  finish o g dir (length jobs) c.
End reports.
End Run.

(** ** run_tests from beginning to end *)
Module Main.
Import Driver Config WafConfig Paths Jobs RunJob Examples Run.

Definition dlm_attributes : string :=
  "ns3::DceManagerHelper::LoaderFactory=ns3::DlmLoaderFactory[];ns3::TaskManager::FiberManagerType=UcontextFiberManager".

Section run_tests.
  (** the platform, the working directory, the directory of the script, the time stamp *)
  Variables (platform workdir script_dir date_and_time : string).
  (** evaluation and execution of Python text *)
  Variables (eval_str with_ns3 : string → result string).
  Variable eval_strings : string → result (list string).
  Variable eval_cpp : string → result (list cpp_example).
  Variable eval_python : string → result (list python_example).
  Variable eval_cond : globals → string → result bool.
  Variable exec_line : string → globals → result globals.
  Variable show_item : globals → string → result string.
  (** the processes, the XML parser, and after how many jobs the worker sees an interrupt *)
  Variable popen : nat → string → string → process.
  Variable parse_xml : string → option Etree.element.
  Variable interrupted_after : list Job → nat.
  Variable o : options.

Definition set_env (k v : string) : py world unit :=
  py_modify (λ w, set_environ (dict_set (environ w) k v) w).

(** the name of the test runner and the path of the dce runner *)
Definition test_runner_name : string :=
  if dlm_test_runner o then "test-runner-vdl" else "test-runner".
Definition dce_runner_path : string :=
  if dlm_test_runner o then path_joins script_dir ["build"; "bin"; "dce-runner"] else EmptyString.

Definition waf_command : string :=
  if kinds o || list_tests o || (truthy (constrain o) && bool_decide (constrain o ∈ core_kinds))
  then (if (platform =? "win32")%string then "waf --target=test-runner" else "./waf")
  else if truthy (example o) then
    (if (platform =? "win32")%string then "waf --target=" +:+ basename (example o) else "./waf")
  else (if (platform =? "win32")%string then "waf" else "./waf").

(** the exit status of waf, 0 when it is not to be run *)
Definition run_waf : py world Z :=
  if nowaf o then mret 0
  else
    when (verbose o) (print ("Building: " +:+ waf_command)) ;;
    r ← execute popen waf_command workdir;
    mret (o_status r).

Definition file_text (p : string) : py world (option string) := λ w,
  (Ok (dict_get (files w) p), w).

Definition build_status (g : globals) : py world (list string * list string) :=
  file ← file_text (path_join (NS3_BUILDDIR g) "build-status.py");
  match file with
  | None =>
      eprint "The build status file was not found.  You must do waf build before running test.py." ;;
      py_raise (SystemExit 2)
  | Some _ =>
      programs ← py_lift (Reader.get_list_from_file eval_strings file "ns3_runnable_programs");
      scripts ← py_lift (Reader.get_list_from_file eval_strings file "ns3_runnable_scripts");
      mret (programs, scripts)
  end.

(** one examples-to-run file *)
Definition parse_directory (to_run cpp_dir py_dir : string) (e : examples) : py world examples :=
  file ← file_text to_run;
  w ← py_get;
  py_lift (parse_examples_to_run_file (exists_path w) cpp_dir py_dir eval_cpp eval_python file e).

Fixpoint parse_directories (l : list (string * string * string)) (e : examples)
    : py world examples :=
  match l with
  | [] => mret e
  | (to_run, cpp_dir, py_dir) :: l =>
      e ← parse_directory to_run cpp_dir py_dir e; parse_directories l e
  end.

(** (examples-to-run file, directory of the executables, directory of the scripts) *)
Definition example_place (g : globals) (directory : string) : string * string * string :=
  let d := path_join "example" directory in
  (path_join d "examples-to-run.py", path_join (NS3_BUILDDIR g) "bin", d).

Definition module_place (g : globals) (module : string) : string * string * string :=
  let module := str_drop (String.length "ns3-") module in
  let module_directory := path_join "src" module in
  let d := path_join module_directory "examples" in
  (path_joins module_directory ["test"; "examples-to-run.py"],
   path_join (NS3_BUILDDIR g) d, d).

Definition script_place (g : globals) (sub : string) : string * string * string :=
  (path_join sub "examples-to-run.py",
   path_joins (NS3_BUILDDIR g) [py_replace "example" EmptyString sub; "bin"], sub).

Definition collect_examples (g : globals) : py world examples :=
  e ← parse_directories (example_place g <$> EXAMPLE_DIRECTORIES g) no_examples;
  modules ← py_lift (global (NS3_ENABLED_MODULES g));
  e ← parse_directories (module_place g <$> modules) e;
  w ← py_get;
  parse_directories (script_place g <$> glob w "myscripts/*/example") e.

Definition make_output_dir (d : string) : py world unit :=
  w ← py_get;
  if exists_path w d then mret () else makedirs d.

Definition testpy_output_dir : string := path_join TMP_OUTPUT_DIR date_and_time.

(** everything that is queued for the worker, in order *)
Definition queue_jobs (g : globals) (programs scripts : list string) (e : examples)
    : py world (list Job) :=
  suites ← suites_to_run o g popen workdir test_runner_name;
  s ← queue_suites o g workdir testpy_output_dir test_runner_name suites;
  c ← queue_cpp o g workdir testpy_output_dir dce_runner_path (eval_cond g) programs
        (example_tests e);
  p ← queue_python o g workdir testpy_output_dir dce_runner_path (eval_cond g) scripts
        (python_tests e);
  mret (s ++ c ++ p).

(** [None] is the plain [return] of the listing options *)
Definition run_tests (g : globals) : py world (option Z) :=
  g ← read_waf_config platform workdir eval_str with_ns3 exec_line show_item o g;
  when (dlm_test_runner o) (set_env "NS_ATTRIBUTE_DEFAULT" dlm_attributes) ;;
  waf ← run_waf;
  if negb (waf =? 0) then
    eprint "Waf died. Not running tests" ;; mret (Some waf)
  else
    make_paths platform o g ;;
    '(programs, scripts) ← build_status g;
    e ← collect_examples g;
    set_env "NS_LOG" EmptyString ;;
    when (kinds o) (print_kinds o g popen workdir test_runner_name) ;;
    when (list_tests o) (print_list o g popen workdir test_runner_name e) ;;
    if kinds o || list_tests o then mret None
    else
      make_output_dir TMP_OUTPUT_DIR ;;
      make_output_dir testpy_output_dir ;;
      write_file (xml_results_file testpy_output_dir)
        ("<?xml version=" +:+ attr "1.0" +:+ "?>" +:+ nl +:+ "<Results>" +:+ nl) ;;
      jobs ← queue_jobs g programs scripts e;
      status ← run_and_collect parse_xml o g popen testpy_output_dir (interrupted_after jobs) jobs;
      mret (Some status).

(** [sys.exit(main(sys.argv))]: the status of the process *)
Definition process_status (r : result (option Z)) : Z :=
  match r with
  | Ok (Some z) => z
  | Ok None => 0
  | Raise (SystemExit z) => z
  | Raise _ => 1
  end.
End run_tests.
End Main.

(** ** Facts about the queue and the results *)
Module RunFacts.
Import Driver Config Jobs RunJob Examples Run.

(** *** The summary *)

(** the results that count *)
Definition counted (js : list Job) : list Job := List.filter (λ j, negb (is_break j)) js.

Definition tally (ss : list status) (c : summary) : summary := foldl (λ c s, count s c) c ss.

(** a job that does not spoil the run: not interrupted, and passed or skipped *)
Definition good (j : Job) : bool :=
  negb (is_break j) &&
  match job_status j with PASS | SKIP => true | _ => false end.

Lemma collect_jobs_summary o dir js c w c' w' :
  collect_jobs o dir js c w = (Ok c', w') → c' = tally (job_status <$> counted js) c.
Proof.
  revert c w. induction js as [|j js IH]; intros c w; [by intros [= <- _]|].
  cbn [collect_jobs counted List.filter]. unfold mbind at 1, py_bind at 1.
  destruct (collect_job o dir j c w) as [[c1|] w1] eqn:E; [|done]. intros H.
  rewrite (IH _ _ H). unfold collect_job in E. destruct (is_break j); cbn [negb].
  - by injection E as -> _.
  - revert E. unfold mbind, py_bind.
    destruct (print _ w) as [[[]|] w2]; [|done].
    destruct (_ w2) as [[[]|] w3]; [|done].
    by intros [= <- _].
Qed.

Definition total_counted (c : summary) : nat :=
  passed_tests c + failed_tests c + crashed_tests c + valgrind_errors c + skipped_tests c.

Lemma tally_total ss c : total_counted (tally ss c) = (length ss + total_counted c)%nat.
Proof.
  revert c. induction ss as [|s ss IH]; intros c; [done|]. cbn [tally foldl length].
  change (foldl _ (count s c) ss) with (tally ss (count s c)). rewrite IH.
  unfold total_counted. destruct s; cbn; lia.
Qed.

Definition n_good (ss : list status) : nat :=
  length (List.filter (λ s, match s with PASS | SKIP => true | _ => false end) ss).

Lemma tally_good ss c :
  (passed_tests (tally ss c) + skipped_tests (tally ss c) =
   n_good ss + passed_tests c + skipped_tests c)%nat.
Proof.
  revert c. induction ss as [|s ss IH]; intros c; [done|]. cbn [tally foldl].
  change (foldl _ (count s c) ss) with (tally ss (count s c)). rewrite IH.
  unfold n_good. destruct s; cbn; lia.
Qed.

Lemma n_good_counted js :
  n_good (job_status <$> counted js) = length (List.filter good js).
Proof.
  induction js as [|j js IH]; [done|]. cbn [counted List.filter].
  unfold good at 1. destruct (is_break j); cbn [negb andb]; [exact IH|].
  cbn [fmap list_fmap]. unfold n_good in *. cbn [List.filter].
  destruct (job_status j); cbn; auto.
Qed.

Lemma filter_length_all {A} (p : A → bool) l :
  length (List.filter p l) = length l ↔ Forall (λ x, p x = true) l.
Proof.
  induction l as [|x l IH]; cbn.
  - split; constructor.
  - pose proof (List.filter_length_le p l) as Hle. destruct (p x) eqn:Hp; cbn.
    + rewrite Forall_cons, <- IH. intuition lia.
    + split; [lia|]. rewrite Forall_cons, Hp. by intros [[=] _].
Qed.

Lemma exit_status_good js :
  exit_status (length js) (tally (job_status <$> counted js) no_results) = 0 ↔
  Forall (λ j, good j = true) js.
Proof.
  unfold exit_status. rewrite tally_good, n_good_counted. cbn [passed_tests skipped_tests no_results].
  rewrite !Nat.add_0_r, <- filter_length_all.
  destruct (Nat.eqb_spec (length (List.filter good js)) (length js)); intuition (done || lia).
Qed.

(** the counter of a status, and the jobs that have it *)
Definition counter (s : status) (c : summary) : nat :=
  match s with
  | PASS => passed_tests c | FAIL => failed_tests c | CRASH => crashed_tests c
  | VALGR => valgrind_errors c | SKIP => skipped_tests c
  end.
Definition with_status (s : status) (js : list Job) : list Job :=
  List.filter (λ j, negb (is_break j) && bool_decide (job_status j = s)) js.

Lemma tally_counter s js c :
  counter s (tally (job_status <$> counted js) c) = (length (with_status s js) + counter s c)%nat.
Proof.
  revert c. induction js as [|j js IH]; intros c; [done|].
  cbn [counted with_status List.filter]. destruct (is_break j); cbn [negb andb]; [apply IH|].
  cbn [fmap list_fmap tally foldl].
  change (foldl _ (count (job_status j) c) ?l) with (tally l (count (job_status j) c)).
  fold (counted js). fold (with_status s js). rewrite IH.
  destruct (bool_decide_reflect (job_status j = s)) as [<-|Hs].
  - destruct (job_status j); cbn; lia.
  - destruct (job_status j), s; cbn; try lia; done.
Qed.

(** C12. After collecting the results each counter of the summary is the number of uninterrupted
    jobs with that status, and the five counters and the interrupted jobs add up to the number
    of jobs collected. *)
Theorem summary_counts (o : options) (dir : string) (js : list Job) (w w' : world) (c : summary)
    (Hc : collect_jobs o dir js no_results w = (Ok c, w')) :
  (∀ s, counter s c = length (with_status s js)) ∧
  (total_counted c + length (List.filter is_break js) = length js)%nat.
Proof.
  apply collect_jobs_summary in Hc as ->. split.
  - intros s. rewrite tally_counter. destruct s; cbn; lia.
  - rewrite tally_total, length_fmap. cbn. rewrite Nat.add_0_r.
    unfold counted. clear. induction js as [|j js IH]; [done|]. cbn.
    destruct (is_break j); cbn; lia.
Qed.

Lemma finish_status parse_xml o g dir total c w z w' :
  finish parse_xml o g dir total c w = (Ok z, w') → z = exit_status total c.
Proof.
  unfold finish. intros H.
  repeat (apply py_bind_Ok in H as (? & ? & _ & H)). by injection H as <- _.
Qed.

(** C2. The status the driver returns for a list of jobs is 0 or 1, and it is 0 exactly when no
    job was interrupted and every job either was skipped or ended with status 0. *)
Theorem exit_status_zero_iff (parse_xml : string → option Etree.element) (o : options)
    (g : globals) (popen : nat → string → string → process) (dir : string) (k : nat)
    (jobs : list Job) (w w' : world) (z : Z) (Hk : (k ≤ length jobs)%nat)
    (Hrun : run_and_collect parse_xml o g popen dir k jobs w = (Ok z, w')) :
  ∃ results w1, Queues.run_queue (work o g popen) k jobs w = (Ok results, w1) ∧
    (z = 0 ∨ z = 1) ∧
    (z = 0 ↔ Forall (λ j, is_break j = false ∧ (is_skip j = true ∨ returncode j = 0)) results).
Proof.
  unfold run_and_collect in Hrun.
  apply py_bind_Ok in Hrun as (results & w1 & Hq & Hrun).
  apply py_bind_Ok in Hrun as (c & w2 & Hc & Hf).
  apply finish_status in Hf as ->. apply collect_jobs_summary in Hc as ->.
  exists results, w1. split; [done|]. split.
  { unfold exit_status. case_match; auto. }
  apply QueueFacts.run_queue_length in Hq; [|done]. rewrite <- Hq, exit_status_good.
  apply Forall_proper; [|done]. intros j. unfold good, job_status.
  destruct (is_break j), (is_skip j); cbn; [naive_solver..|].
  destruct (Z.eqb_spec (returncode j) 0); [naive_solver|].
  repeat case_match; naive_solver.
Qed.

(** *** The results file *)
Definition results_text (dir : string) (w : world) : string :=
  default EmptyString (dict_get (files w) (xml_results_file dir)).

(** what one collected job adds to the results file, given the files the tests wrote *)
Definition xml_entry (dir : string) (w : world) (j : Job) : string :=
  if is_break j then EmptyString
  else if is_any_example j then example_xml j
  else if is_skip j then skipped_xml j
  else if (returncode j =? 0) || (returncode j =? 1) || (returncode j =? 2)
  then default EmptyString (dict_get (files w) (path_join dir (tmp_file_name j)))
  else crashed_xml j.

(** only the results file grows, by [t] *)
Definition grows (dir t : string) (w w' : world) : Prop :=
  results_text dir w' = results_text dir w +:+ t ∧
  ∀ p, p ≠ xml_results_file dir → dict_get (files w') p = dict_get (files w) p.

Lemma grows_refl dir w : grows dir EmptyString w w.
Proof. split; [by rewrite sapp_nil_r|done]. Qed.

Lemma grows_trans dir t t' w w1 w2 :
  grows dir t w w1 → grows dir t' w1 w2 → grows dir (t +:+ t') w w2.
Proof.
  intros [E1 F1] [E2 F2]. split; [by rewrite E2, E1, sapp_assoc|].
  intros p Hp. by rewrite F2, F1.
Qed.

Lemma append_grows dir t w r w' :
  append_file (xml_results_file dir) t w = (r, w') → grows dir t w w'.
Proof.
  intros [= _ <-]. unfold grows, results_text. cbn [files set_files]. split.
  - by rewrite dict_get_set_eq.
  - intros p Hp. by rewrite dict_get_set_ne.
Qed.

Lemma suite_xml_grows dir j w w' :
  is_break j = false → is_any_example j = false → suite_xml dir j w = (Ok (), w') →
  grows dir (xml_entry dir w j) w w'.
Proof.
  intros Hb He H. unfold suite_xml, xml_entry in *. rewrite Hb, He.
  destruct (is_skip j); [by eapply append_grows|].
  destruct ((returncode j =? 0) || (returncode j =? 1) || (returncode j =? 2)) eqn:Hr.
  - apply py_bind_Ok in H as (t & w1 & Ht & H). unfold read_file in Ht.
    destruct (dict_get (files w) _) as [x|] eqn:Hx; [|done]. injection Ht as <- <-.
    by eapply append_grows.
  - apply py_bind_Ok in H as ([] & w1 & H1 & H).
    apply orb_false_iff in Hr as [_ Hr]. rewrite Hr in H. injection H as <-.
    by eapply append_grows.
Qed.

Lemma collect_job_grows o dir j c w c' w' :
  collect_job o dir j c w = (Ok c', w') → grows dir (xml_entry dir w j) w w'.
Proof.
  unfold collect_job. destruct (is_break j) eqn:Hb.
  { intros [= _ <-]. unfold xml_entry. rewrite Hb. apply grows_refl. }
  intros H. apply py_bind_Ok in H as ([] & w1 & H1 & H).
  apply py_bind_Ok in H as ([] & w2 & H2 & H). injection H as _ <-.
  injection H1 as <-.
  assert (grows dir (xml_entry dir w j)
            {| stdout := stdout w ++ [status_line o j]; stderr := stderr w; environ := environ w;
               files := files w; dirs := dirs w; commands := commands w |} w2) as [E F].
  { destruct (is_any_example j) eqn:He.
    - unfold xml_entry. rewrite Hb, He. by eapply append_grows.
    - by apply suite_xml_grows in H2. }
  by split.
Qed.

(** a suite with a valgrind error has the text it wrote for its entry *)
Lemma valgr_entry dir w j :
  is_break j = false → is_any_example j = false → job_status j = VALGR →
  xml_entry dir w j = default EmptyString (dict_get (files w) (path_join dir (tmp_file_name j))).
Proof.
  unfold xml_entry, job_status. intros -> ->. destruct (is_skip j); [done|].
  destruct (returncode j =? 0); [done|]. destruct (returncode j =? 1); [done|].
  by destruct (returncode j =? 2).
Qed.

(** C10. When no job's own file is the results file (a suite named results breaks this) and the
    collection of the results succeeds, the results file grows by one entry for each uninterrupted
    job, in the order of the queue: the element written for an example or a skipped or crashed
    suite, or the text that the suite wrote; no other file changes.  A suite that ended with status
    2, a valgrind error, has the text it wrote for its only entry: the second entry, with the result
    VALGR, that the comment in the source announces is never written. *)
Theorem results_file_content (o : options) (dir : string) (js : list Job) (c c' : summary)
    (w w' : world)
    (Hnames : Forall (λ j, path_join dir (tmp_file_name j) ≠ xml_results_file dir) js)
    (Hc : collect_jobs o dir js c w = (Ok c', w')) :
  results_text dir w' = results_text dir w +:+ sconcat (xml_entry dir w <$> js) ∧
  (∀ p, p ≠ xml_results_file dir → dict_get (files w') p = dict_get (files w) p) ∧
  ∀ j, j ∈ js → is_break j = false → is_any_example j = false → job_status j = VALGR →
    xml_entry dir w j = default EmptyString (dict_get (files w) (path_join dir (tmp_file_name j))).
Proof.
  enough (Hgrows : grows dir (sconcat (xml_entry dir w <$> js)) w w').
  { destruct Hgrows as [H1 H2]. split; [done|]. split; [done|]. intros j _. apply valgr_entry. }
  revert c w Hc. induction Hnames as [|j js Hj Hjs IH]; intros c w Hc.
  - injection Hc as _ <-. apply grows_refl.
  - apply py_bind_Ok in Hc as (c1 & w1 & H1 & H). apply collect_job_grows in H1.
    cbn [fmap list_fmap sconcat]. eapply grows_trans; [done|].
    apply IH in H. replace (xml_entry dir w <$> js) with (xml_entry dir w1 <$> js); [done|].
    destruct H1 as [_ F]. clear -Hjs F. induction Hjs as [|j js Hj _ IH]; [done|].
    cbn. rewrite IH. f_equal. unfold xml_entry. by rewrite F.
Qed.

(** A suite that passed but leaks under valgrind (status 2) is announced as VALGR and counted
    as a valgrind error, but the results file, and so every report made from it, gets only the
    text the suite itself wrote: the element with the result VALGR is never added. *)
Theorem valgrind_error_not_in_results (o : options) (dir x : string) (j : Job) (c : summary)
    (w : world) (Hjob : is_break j = false ∧ is_any_example j = false ∧ is_skip j = false)
    (Hstatus : returncode j = 2)
    (Hfile : dict_get (files w) (path_join dir (tmp_file_name j)) = Some x) :
  ∃ w', collect_job o dir j c w = (Ok (count VALGR c), w') ∧
    stdout w' = stdout w ++ [status_line o j] ∧ job_status j = VALGR ∧
    results_text dir w' = results_text dir w +:+ x.
Proof.
  destruct Hjob as (Hb & He & Hs). eexists.
  assert (Hst : job_status j = VALGR) by (unfold job_status; by rewrite Hs, Hstatus).
  unfold collect_job, suite_xml, print, py_modify. rewrite Hb, He, Hs, Hstatus, Hst.
  unfold mbind, py_bind. cbn [Z.eqb orb Pos.eqb]. unfold read_file. cbn [files].
  rewrite Hfile. split; [reflexivity|]. split; [done|]. split; [done|].
  unfold results_text. cbn [files set_files]. by rewrite dict_get_set_eq.
Qed.

(** *** Choosing suites *)
Section suites.
  Variables (o : options) (g : globals).
  Variable popen : nat → string → string → process.
  Variables (workdir testpy_output_dir test_runner_name dce_runner_path : string).

(** the shell command of a question to the test runner *)
Definition runner_command (dir args : string) : string :=
  path_join (NS3_BUILDDIR g) (path_join dir (test_runner_name +:+ args)).

Lemma ask_runner_ok dir args r w :
  popen (length (commands w)) (runner_command dir args) workdir = Exited r →
  ∃ r' w', ask_runner o g popen workdir test_runner_name dir args w = (Ok r', w') ∧
    o_stdout r' = o_stdout r ∧ commands w' = commands w ++ [(runner_command dir args, workdir)].
Proof.
  intros Hr. unfold ask_runner.
  destruct (JobFacts.run_job_sync_ok o g popen (path_join dir (test_runner_name +:+ args)) workdir
              false false EmptyString (runner_command dir args) r w eq_refl Hr)
    as (w' & E & C & _).
  rewrite E. do 2 eexists. split; [reflexivity|]. done.
Qed.

(** When the runner answers, a suite given by name is accepted exactly when its name is a substring of the text in
    which the runner lists its suites: then it is the only suite chosen, otherwise the driver
    exits with status 2 after a message. *)
Theorem suite_accepted_iff (listing : outcome) (w : world) (Hsuite : truthy (suite o) = true)
    (Hlisting : popen (length (commands w)) (runner_command "bin" " --print-test-name-list") workdir
                = Exited listing) :
  let '(r, w') := choose_suites o g popen workdir test_runner_name w in
  if py_in (suite o) (o_stdout listing) then r = Ok (suite o +:+ nl)
  else r = Raise (SystemExit 2) ∧ List.last (stderr w') EmptyString =
         "The test suite was not run because an unknown test suite name was requested.".
Proof.
  unfold choose_suites. rewrite Hsuite.
  destruct (ask_runner_ok "bin" " --print-test-name-list" listing w Hlisting) as (r & w1 & E & Hout & _).
  unfold mbind, py_bind. rewrite E, Hout.
  destruct (py_in (suite o) _); [done|]. split; [done|].
  apply List.last_last.
Qed.

(** the suites that are queued for a list of names *)
Definition suite_names (l : list string) : list string := List.filter truthy (strip <$> l).

(** The suites are queued in the order of the list, one job for each name that is not blank,
    with the blanks around it removed; the job is to be skipped exactly when the suite is known
    to break valgrind and valgrind is on, or needs NSC and NSC is not enabled. *)
Theorem queue_suites_spec (l : list string) (w : world) :
  let '(r, w') :=
    queue_suites o g workdir testpy_output_dir test_runner_name l w in
  r = Ok (suite_job o g workdir testpy_output_dir test_runner_name <$> suite_names l) ∧
  files w' = files w ∧ commands w' = commands w ∧
  Forall (λ t, is_skip (suite_job o g workdir testpy_output_dir test_runner_name t) = true ↔
     (valgrind o = true ∧ t ∈ core_valgrind_skip_tests) ∨
     (NSC_ENABLED g = false ∧ t ∈ core_nsc_missing_skip_tests)) (suite_names l).
Proof.
  assert (Hskip : ∀ t, is_skip (suite_job o g workdir testpy_output_dir test_runner_name t) = true ↔
     (valgrind o = true ∧ t ∈ core_valgrind_skip_tests) ∨
     (NSC_ENABLED g = false ∧ t ∈ core_nsc_missing_skip_tests)).
  { intros t. cbn [is_skip suite_job]. unfold suite_skipped.
    rewrite orb_true_iff, !andb_true_iff, !bool_decide_eq_true, negb_true_iff. done. }
  revert w. induction l as [|t l IH]; intros w.
  - cbn. repeat split. constructor.
  - cbn [queue_suites]. unfold suite_names. cbn [fmap list_fmap List.filter].
    destruct (truthy (strip t)); [|apply IH].
    destruct (JobFacts.when_print (verbose o) (print ("Queue " +:+ strip t)) w)
      as (w1 & E & C1 & F1); [by intros; eexists|].
    unfold queued, mbind, py_bind. rewrite E. specialize (IH w1).
    destruct (queue_suites _ _ _ _ _ l w1) as [r w2]. destruct IH as (-> & F & C & H).
    repeat split; [by rewrite F|by rewrite C|]. by constructor.
Qed.

(** *** Removing the performance tests *)
Lemma remove_first_spec x t (l : list string) :
  NoDup l → NoDup (remove_first x l) ∧ (t ∈ remove_first x l ↔ t ∈ l ∧ t ≠ x).
Proof.
  induction 1 as [|y l Hy Hl [IHn IH]]; cbn; [split; [constructor|set_solver]|].
  destruct (String.eqb_spec x y) as [->|Hxy].
  - split; [done|]. rewrite elem_of_cons. split; [|tauto]. intros Ht. split; [by right|].
    by intros ->.
  - split.
    + constructor; [|done]. intros Hin. apply Hy. clear -Hin Hl.
      induction l as [|z l IH]; [done|]. cbn in Hin. case_match; [by right|].
      apply NoDup_cons in Hl as [_ Hl]. apply elem_of_cons in Hin as [->|Hin]; [by left|].
      right. by apply IH.
    + rewrite !elem_of_cons, IH. naive_solver.
Qed.

(** Without duplicates in the list of suites, removing the performance tests leaves exactly
    the other suites: so the driver runs a performance test by default only if the runner in
    the directory utils does not name it. *)
Theorem remove_suites_spec (performance_tests suite_list : list string) (t : string)
    (Hnodup : NoDup suite_list) :
  t ∈ remove_suites performance_tests suite_list ↔
  t ∈ suite_list ∧ t ∉ performance_tests.
Proof.
  unfold remove_suites. revert suite_list Hnodup.
  induction performance_tests as [|p ps IH]; intros l Hl; cbn [foldl]; [set_solver|].
  rewrite IH.
  - case_bool_decide as Hp; [|set_solver].
    rewrite (proj2 (remove_first_spec p t l Hl)). set_solver.
  - case_bool_decide; [by apply (remove_first_spec p t)|done].
Qed.
End suites.
End RunFacts.

(** ** The driver and the worker thread together *)
Module DriverFacts.
Import Driver Config Jobs RunJob Examples Run Main RunFacts.

Section facts.
  Variables (o : options) (g : globals).
  Variable popen : nat → string → string → process.
  Variables (workdir testpy_output_dir test_runner_name dce_runner_path : string).
  Variable eval_cond : string → result bool.

Notation real := (Forall (λ j, is_break j = false)).

Lemma queue_suites_real l w js w' :
  queue_suites o g workdir testpy_output_dir test_runner_name l w = (Ok js, w') → real js.
Proof.
  revert w js w'. induction l as [|t l IH]; intros w js w' H; [by injection H as <- _|].
  cbn [queue_suites] in H. destruct (truthy (strip t)); [|by eapply IH].
  apply py_bind_Ok in H as (? & ? & _ & H). apply py_bind_Ok in H as (js' & ? & H1 & H).
  injection H as <- _. constructor; [done|]. by eapply IH.
Qed.

Lemma queue_examples_real runnable l w js w' :
  queue_examples o workdir testpy_output_dir dce_runner_path eval_cond runnable l w
  = (Ok js, w') → real js.
Proof.
  revert w js w'. induction l as [|[[t r] v] l IH]; intros w js w' H; [by injection H as <- _|].
  cbn [queue_examples] in H. case_bool_decide; [|by eapply IH].
  apply py_bind_Ok in H as ([|] & ? & _ & H); [|by eapply IH].
  apply py_bind_Ok in H as (? & ? & _ & H). apply py_bind_Ok in H as (? & ? & _ & H).
  apply py_bind_Ok in H as (js' & ? & H1 & H).
  injection H as <- _. constructor; [done|]. by eapply IH.
Qed.

Lemma queue_pyexamples_real runnable l w js w' :
  queue_pyexamples o g workdir testpy_output_dir dce_runner_path eval_cond runnable l w
  = (Ok js, w') → real js.
Proof.
  revert w js w'. induction l as [|[t r] l IH]; intros w js w' H; [by injection H as <- _|].
  cbn [queue_pyexamples] in H. case_bool_decide; [|by eapply IH].
  apply py_bind_Ok in H as ([|] & ? & _ & H); [|by eapply IH].
  apply py_bind_Ok in H as (? & ? & _ & H). apply py_bind_Ok in H as (? & ? & _ & H).
  apply py_bind_Ok in H as (js' & ? & H1 & H).
  injection H as <- _. constructor; [done|]. by eapply IH.
Qed.

Lemma queue_cpp_real runnable l w js w' :
  queue_cpp o g workdir testpy_output_dir dce_runner_path eval_cond runnable l w = (Ok js, w') →
  real js.
Proof.
  unfold queue_cpp. intros H. destruct (nothing_chosen o).
  - destruct (_ && _); [by eapply queue_examples_real|by injection H as <- _].
  - destruct (truthy (example o)); [|by injection H as <- _].
    unfold queue_one_example in H. destruct (path_split (example o)) as [d n].
    destruct (negb _).
    + apply py_bind_Ok in H as (? & ? & _ & H). by injection H as <- _.
    + apply py_bind_Ok in H as (? & ? & _ & H). apply py_bind_Ok in H as (? & ? & _ & H).
      injection H as <- _. by repeat constructor.
Qed.

Lemma queue_python_real runnable l w js w' :
  queue_python o g workdir testpy_output_dir dce_runner_path eval_cond runnable l w
  = (Ok js, w') → real js.
Proof.
  unfold queue_python. intros H. destruct (nothing_chosen o).
  - destruct (_ && _); [by eapply queue_pyexamples_real|by injection H as <- _].
  - destruct (truthy (pyexample o)); [|by injection H as <- _].
    unfold queue_one_pyexample in H. destruct (negb _).
    + apply py_bind_Ok in H as (? & ? & _ & H). by injection H as <- _.
    + apply py_bind_Ok in H as (? & ? & _ & H). injection H as <- _. by repeat constructor.
Qed.
End facts.

(** C1. Whatever the options, the jobs that [run_tests] queues are such that every complete
    interleaving of the main thread with its worker thread collects, in order, the results of
    running them one after the other, up to the point at which an interrupt is seen. *)
Theorem queued_jobs_run_in_order (workdir script_dir date_and_time : string)
    (eval_cond : globals → string → result bool) (popen : nat → string → string → process)
    (o : options) (g : globals) (programs scripts : list string) (e : examples)
    (jobs : list Job) (w0 w : world) (s : Queues.sys world)
    (Hqueue : queue_jobs workdir script_dir date_and_time eval_cond popen o g programs scripts e w0
              = (Ok jobs, w))
    (Hs : Queues.reachable (work o g popen) jobs 1 w s)
    (Hfinal : Queues.final (length jobs) s) :
  ∃ k : nat, (k ≤ length jobs)%nat ∧
    Queues.run_queue (work o g popen) k jobs w = (Ok (Queues.collected s), Queues.store s) ∧
    (Queues.thread_exit s = false → k = length jobs).
Proof.
  assert (Hreal : Forall (λ j, is_break j = false) jobs).
  { unfold queue_jobs in Hqueue.
    apply py_bind_Ok in Hqueue as (l & w1 & _ & H).
    apply py_bind_Ok in H as (js1 & w2 & H1%queue_suites_real & H).
    apply py_bind_Ok in H as (js2 & w3 & H2%queue_cpp_real & H).
    apply py_bind_Ok in H as (js3 & w4 & H3%queue_python_real & H).
    injection H as <- _. by rewrite !Forall_app. }
  by apply QueueFacts.single_worker_run.
Qed.
End DriverFacts.

(** ** Concrete runs *)
Module RunExamples.
Import Driver Config Jobs RunJob Examples Run Main RunFacts.

Definition sample_globals : globals := ConfigFacts.sample_globals.

(** a suite that leaks, one that passes, one that crashes *)
Definition suite_result (name : string) (rc : Z) : Job :=
  set_outcome rc (1 # 4) "Segmentation fault"
    (suite_job default_options sample_globals "/src" "out" "test-runner" name).

Definition three_suites : list Job :=
  [suite_result "leaky" 2; suite_result "clean" 0; suite_result "broken" 139].

Definition results_world : world :=
  {| stdout := []; stderr := []; environ := [];
     files := [("out/results.xml", "<Results>"); ("out/leaky.xml", "<Test>leaky</Test>");
               ("out/clean.xml", "<Test>clean</Test>")];
     dirs := []; commands := [] |}.

Definition collected_world : result summary * world :=
  collect_jobs default_options "out" three_suites no_results results_world.

Lemma collected_ok :
  collected_world = (Ok {| passed_tests := 1; failed_tests := 0; crashed_tests := 1;
                           valgrind_errors := 1; skipped_tests := 0 |}, collected_world.2).
Proof. by vm_compute. Qed.

Lemma summary_counts_witness :
  (1 + 0 + 1 + 1 + 0 + 0 = length three_suites)%nat.
Proof. exact (proj2 (summary_counts _ _ _ _ _ _ collected_ok)). Defined.

Lemma results_file_content_witness :
  results_text "out" collected_world.2
  = "<Results>" +:+ "<Test>leaky</Test>" +:+ "<Test>clean</Test>" +:+
    crashed_xml (suite_result "broken" 139) +:+ EmptyString.
Proof.
  refine (eq_trans (proj1 (results_file_content default_options "out" three_suites no_results _
                             results_world _ _ collected_ok)) _).
  - by repeat constructor.
  - by vm_compute.
Defined.

Lemma valgrind_error_not_in_results_witness :
  ∃ w', collect_job default_options "out" (suite_result "leaky" 2) no_results results_world
        = (Ok (count VALGR no_results), w') ∧
    results_text "out" w' = "<Results><Test>leaky</Test>".
Proof.
  destruct (valgrind_error_not_in_results default_options "out" "<Test>leaky</Test>"
              (suite_result "leaky" 2) no_results results_world) as (w' & H & _ & _ & E);
    [done..|]. exists w'. split; [exact H|]. by rewrite E.
Defined.

(** the options with one suite named *)
Definition suite_options (name : string) : options :=
  {| buildpath := EmptyString; constrain := EmptyString; duration := false;
     example := EmptyString; update_data := false; fullness := "QUICK"; valgrind := false;
     valgrind_xml := false; kinds := false; list_tests := false; multiple := false;
     nowaf := true; pyexample := EmptyString; retain := true; suite := name;
     text := EmptyString; verbose := false; html := EmptyString; xml := EmptyString;
     dlm_test_runner := false |}.

Definition listing_popen (_ : nat) (cmd _ : string) : process := Exited
  {| o_status := 0;
     o_stdout := if py_in "--test-type=performance" cmd then EmptyString
                 else "ns3-tcp-cwnd" +:+ nl +:+ "wifi" +:+ nl;
     o_stderr := EmptyString; o_elapsed := 0; o_files := [] |}.

(** a part of the name of a suite is accepted as the name of a suite *)
Lemma suite_accepted_iff_witness :
  (choose_suites (suite_options "tcp") sample_globals listing_popen "/src" "test-runner"
     results_world).1 = Ok ("tcp" +:+ nl).
Proof.
  pose proof (suite_accepted_iff (suite_options "tcp") sample_globals listing_popen "/src"
                "test-runner" _ results_world eq_refl eq_refl) as H.
  destruct (choose_suites _ _ _ _ _ _) as [r w']. exact H.
Defined.

Lemma remove_suites_spec_witness :
  "wifi" ∈ remove_suites ["perf-a"; EmptyString] ["perf-a"; "wifi"] ∧
  "perf-a" ∉ remove_suites ["perf-a"; EmptyString] ["perf-a"; "wifi"].
Proof.
  assert (Hd : NoDup ["perf-a"; "wifi"]).
  { repeat constructor; rewrite ?elem_of_cons, ?elem_of_nil; naive_solver. }
  split.
  - apply (remove_suites_spec _ _ _ Hd). rewrite !elem_of_cons, !elem_of_nil. naive_solver.
  - intros [_ H]%(remove_suites_spec _ _ _ Hd). apply H. by left.
Defined.

Lemma exit_status_zero_iff_witness :
  let run k := run_and_collect (λ _, None) (suite_options EmptyString) sample_globals
                 listing_popen "out" k [JobFacts.sample_job] results_world in
  (run 1%nat).1 = Ok 0 ∧ (run 0%nat).1 = Ok 1 ∧
  ∃ results w1, Queues.run_queue (work (suite_options EmptyString) sample_globals listing_popen)
                  0 [JobFacts.sample_job] results_world = (Ok results, w1) ∧
    ¬ Forall (λ j, is_break j = false ∧ (is_skip j = true ∨ returncode j = 0)) results.
Proof.
  cbv zeta. split; [by vm_compute|]. split; [by vm_compute|].
  destruct (exit_status_zero_iff (λ _, None) (suite_options EmptyString) sample_globals
              listing_popen "out" 0 [JobFacts.sample_job] results_world
              (run_and_collect (λ _, None) (suite_options EmptyString) sample_globals
                 listing_popen "out" 0 [JobFacts.sample_job] results_world).2 1)
    as (results & w1 & H & _ & Hz); [cbn; lia|by vm_compute|].
  exists results, w1. split; [exact H|]. intros Hall. by apply Hz in Hall.
Defined.

(** one suite chosen by name, queued and run by one worker *)
Definition tcp_options : options := suite_options "ns3-tcp-cwnd".
Definition tcp_queue : result (list Job) * world :=
  queue_jobs "/src" "/src" "now" (λ _ _, Ok true) listing_popen tcp_options sample_globals [] []
    no_examples results_world.
Definition tcp_jobs : list Job :=
  [set_is_skip true (suite_job tcp_options sample_globals "/src" "testpy-output/now"
                       "test-runner" "ns3-tcp-cwnd")].

Lemma queued_jobs_run_in_order_witness :
  ∃ s : Queues.sys world, Queues.final 1 s ∧
    Queues.run_queue (work tcp_options sample_globals listing_popen) 1 tcp_jobs tcp_queue.2
    = (Ok (Queues.collected s), Queues.store s).
Proof.
  assert (Hrun : ∃ s, rtc (Queues.step (work tcp_options sample_globals listing_popen) 1)
                        (Queues.init tcp_jobs 1 tcp_queue.2) s ∧
                      Queues.final 1 s ∧ Queues.thread_exit s = false).
  { eexists. split; [|split].
    - eapply rtc_l; [by eapply Queues.step_put|]. eapply rtc_l; [by eapply Queues.step_put|].
      eapply rtc_l; [by eapply (Queues.step_take _ _ _ 0)|].
      eapply rtc_l; [by eapply (Queues.step_start _ _ _ 0)|].
      eapply rtc_l; [by eapply (Queues.step_finish _ _ _ 0)|].
      eapply rtc_l; [by eapply (Queues.step_take _ _ _ 0)|].
      eapply rtc_l; [by eapply (Queues.step_return _ _ _ 0)|].
      eapply rtc_l; [eapply Queues.step_get; [done|cbn; lia|reflexivity]|]. apply rtc_refl.
    - split; [done|]. split; [done|]. by repeat constructor.
    - done. }
  destruct Hrun as (s & Hs & Hf & He). exists s. split; [exact Hf|].
  destruct (DriverFacts.queued_jobs_run_in_order "/src" "/src" "now" (λ _ _, Ok true)
              listing_popen tcp_options sample_globals [] [] no_examples tcp_jobs results_world
              tcp_queue.2 s) as (k & _ & Hk & Hall); [by vm_compute|exact Hs|exact Hf|].
  by rewrite (Hall He) in Hk.
Defined.
End RunExamples.
