(* ===== verification/LinkRun.v ===== *)
(** * run-link-characteristics.py: generating and running link sweeps

    myscripts/pamptcp-link-characteristics/run-link-characteristics.py: the parsing of its list
    arguments, the traffic profiles, the environment of a run, one run with its log and its
    temporary directory, the list of jobs and [main].  Processes and the order in which parallel
    runs complete are parameters; paths are strings of an absolute root without symbolic links,
    and a float argument is its value together with its printed form. *)
From Stdlib Require Import ZArith Lia Ascii String QArith.
From stdpp Require Import base list strings.
From S2P Require Import Prelude PyStr TestConfig.
Import Driver.
#[local] Open Scope Z_scope.

Module Sweep.
Definition comma : ascii := ","%char.

(** ** Arguments *)
Fixpoint csv_uints (parts : list string) : result (list Z) :=
  match parts with
  | [] => Ok []
  | part :: parts =>
      let part := strip part in
      if negb (truthy part) then csv_uints parts
      else
        value ← py_int part;
        if value <=? 0 then
          Raise (ValueError ("expected positive integer, got " +:+ show_Z value))
        else values ← csv_uints parts; Ok (value :: values)
  end.

Definition parse_csv_uints (text : string) : result (list Z) :=
  values ← csv_uints (split_char comma text);
  match values with
  | [] => Raise (ValueError "empty integer list")
  | _ => Ok values
  end.

Definition valid_links : list string := ["wifi-only"; "nr-only"].

Definition parse_links (text : string) : result (list string) :=
  let links := List.filter truthy (strip <$> split_char comma text) in
  let unknown := List.filter (λ l, negb (bool_decide (l ∈ valid_links))) links in
  match unknown, links with
  | _ :: _, _ => Raise (ValueError ("unknown links: " +:+ join "," unknown))
  | [], [] => Raise (ValueError "empty link list")
  | [], _ => Ok links
  end.

(** ** Profiles *)
Definition data_rate_for_bytes (bytes_per_second : Z) : string :=
  show_Z (bytes_per_second * 8) +:+ "bps".

(** [f"{n:03d}"] *)
Definition fmt_03d (n : Z) : string :=
  if n <? 0 then "-" +:+ pad_zeros 2 (show_nonneg (- n)) else pad_zeros 3 (show_nonneg n).

Definition profile_name (num_clients bytes_per_second : Z) : string :=
  "n" +:+ fmt_03d num_clients +:+ "-b" +:+ show_Z bytes_per_second.

Definition template_id (bytes_per_second : Z) : string := "b" +:+ show_Z bytes_per_second.

Definition templates_csv (bytes_per_second : Z) : string :=
  let rate := data_rate_for_bytes bytes_per_second in
  join nl
    ["template_id,priority,appSteadyRate,appBurstRate,appTrafficModel,appSteadyTime,appBurstTime,appInitialSendDelay";
     template_id bytes_per_second +:+ ",3," +:+ rate +:+ "," +:+ rate +:+
     ",duration,ns3::ConstantRandomVariable[Constant=1.0],ns3::ConstantRandomVariable[Constant=0.0],0";
     EmptyString].

Definition groups_csv (num_clients bytes_per_second : Z) : string :=
  join nl ["template_id,count";
           template_id bytes_per_second +:+ "," +:+ show_Z num_clients; EmptyString].

(** [Path.mkdir(parents=True, exist_ok=True)] of the directory itself *)
Definition mkdir_p (d : string) : py world unit := py_modify (λ w,
  if bool_decide (d ∈ dirs w) then w else set_dirs (dirs w ++ [d]) w).

Definition write_profile (profile_dir : string) (num_clients bytes_per_second : Z)
    : py world unit :=
  mkdir_p profile_dir ;;
  write_file (path_join profile_dir "templates.csv") (templates_csv bytes_per_second) ;;
  write_file (path_join profile_dir "groups.csv") (groups_csv num_clients bytes_per_second).

(** ** Paths and environment of a mode *)
Definition TARGET : string := "bin/link-characteristics".
Definition out_dir (mode : string) : string :=
  if (mode =? "opt")%string then "build-opt-dce-rel" else "build".

Definition binary_for_mode (root mode : string) : string :=
  path_joins root [out_dir mode; "myscripts/pamptcp-link-characteristics/bin/link-characteristics"].

Definition mode_library_path (root mode : string) : string :=
  join ":"
    (if (mode =? "opt")%string then
       [path_join root "build-opt-dce-rel/lib"; "/root/bake/build-opt-rel/lib";
        "/root/bake/build-opt-dce-rel/lib"]
     else [path_join root "build/lib"; "/root/bake/build/lib"]).

Definition mode_dce_path (root mode : string) : string :=
  join ":"
    (if (mode =? "opt")%string then
       [path_join root "build-opt-dce-rel/bin"; path_join root "build-opt-dce-rel/bin_dce";
        "/root/bake/build-opt-dce-rel/bin"; "/root/bake/build-opt-dce-rel/bin_dce";
        "/root/bake/build/sbin"; "/root/bake/build/bin_dce"]
     else
       [path_join root "build/bin"; path_join root "build/bin_dce"; "/root/bake/build/bin";
        "/root/bake/build/bin_dce"; "/root/bake/build/sbin"]).

(** the old value of a variable, when it is set and not empty, behind the new one *)
Definition keep_old (new : string) (old : option string) : string :=
  match old with
  | Some v => if truthy v then new +:+ ":" +:+ v else new
  | None => new
  end.

Definition env_for_mode (environ : list (string * string)) (root mode dce_files_dir : string)
    : list (string * string) :=
  let ld := keep_old (mode_library_path root mode) (dict_get environ "LD_LIBRARY_PATH") in
  let dce := keep_old (mode_dce_path root mode) (dict_get environ "DCE_PATH") in
  let env := dict_set environ "LD_LIBRARY_PATH" ld in
  let env := dict_set env "DCE_PATH" dce in
  let env := dict_set env "PAMPTCP_BASE_DIR" root in
  dict_set env "DCE_FILES_DIR" dce_files_dir.

(** ** One run *)
Record pyfloat := mk_float { value : Q; repr : string }.

Record args := mk_args {
  mode : string; jobs : Z; parallel : Z; timeout : Z; links : string; clients : string;
  wifi_bytes : string; nr_bytes : string; profile_root : string; generate_only : bool;
  skip_existing : bool; keep_dce_files : bool; fail_fast : bool; sim_time : pyfloat;
  stats_start : pyfloat; stats_stop : pyfloat; client_start_jitter : pyfloat;
  client_start_jitter_stream : Z; num_aps : Z; scheduler : string
}.

Definition duration_text (sim_time : Q) : string :=
  let d := rstrip_by (Ascii.eqb ".") (rstrip_by (Ascii.eqb "0") (fmt_fixed 6 sim_time)) in
  let d := py_replace "." "p" d in
  if truthy d then d else "0".

Definition report_name (link scheduler : string) (stream : Z) (sim_time : Q) : string :=
  let path_link := if negb (link =? "dual")%string then "-" +:+ link else EmptyString in
  scheduler +:+ path_link +:+ "-stream" +:+ show_Z stream +:+ "-" +:+ duration_text sim_time +:+
  "s.json".

Definition expected_json (profile_dir link scheduler : string) (stream : Z) (sim_time : Q)
    : string :=
  path_join profile_dir (report_name link scheduler stream sim_time).

(** what [subprocess.run] does with a command: an exit status, a timeout, or an exception; the
    text the process wrote to its output; the files it wrote; the seconds until it ended *)
Inductive ending := Exited (rc : Z) | TimedOut | Failed (e : exn).
Record process := mk_process {
  p_ending : ending; p_output : string; p_files : list (string * string); p_elapsed : Q
}.

Record run_result := mk_run {
  r_link : string; r_profile : string; r_rc : Z; r_elapsed : Q
}.

Section run.
  (** the k-th process started: its command, its directory, its environment and its time limit;
      and the name of the temporary directory made before it *)
  Variable popen :
    nat → list string → string → list (string * string) → option Z → process.
  Variable tmp_name : nat → string.

Definition mkdtemp : py world string := λ w,
  let d := tmp_name (length (commands w)) in (Ok d, set_dirs (dirs w ++ [d]) w).

(** [shutil.rmtree(d, ignore_errors=True)] *)
Definition remove_dir (d : string) : py world unit := rmtree d.

Definition start_process (cmd : list string) (cwd : string) (env : list (string * string))
    (limit : option Z) : py world process := λ w,
  let p := popen (length (commands w)) cmd cwd env limit in
  (Ok p, add_command (join " " cmd, cwd) (set_files (dict_update (files w) (p_files p)) w)).

Definition program_args (a : args) (link profile_dir : string) : list string :=
  ["--trafficProfileDir=" +:+ profile_dir;
   "--numAps=" +:+ show_Z (num_aps a);
   "--pathMode=" +:+ link;
   "--simTime=" +:+ repr (sim_time a);
   "--statsStart=" +:+ repr (stats_start a);
   "--statsStop=" +:+ repr (stats_stop a);
   "--clientStartJitter=" +:+ repr (client_start_jitter a);
   "--clientStartJitterStream=" +:+ show_Z (client_start_jitter_stream a);
   "--mptcpScheduler=" +:+ scheduler a].

Definition time_limit (a : args) : option Z :=
  if 0 <? timeout a then Some (timeout a) else None.

Definition log_path (profile_dir link : string) : string :=
  path_join profile_dir ("run-" +:+ link +:+ ".log").

(** the body of [try] with its handler of [TimeoutExpired]: the return code and the elapsed
    time, or the exception that goes on to the caller after [finally] *)
Definition run_process (root link profile_dir dce_tmp : string) (a : args)
    : py world (result (Z * Q)) :=
  let log := log_path profile_dir link in
  let cmd := binary_for_mode root (mode a) :: program_args a link profile_dir in
  write_file log ("+ " +:+ join " " cmd +:+ nl +:+ "DCE_FILES_DIR=" +:+ dce_tmp +:+ nl) ;;
  w ← py_get;
  p ← start_process cmd root (env_for_mode (environ w) root (mode a) dce_tmp)
        (time_limit a);
  append_file log (p_output p) ;;
  match p_ending p with
  | Exited rc => mret (Ok (rc, p_elapsed p))
  | TimedOut =>
      append_file log (nl +:+ "TIMEOUT after " +:+ show_Z (timeout a) +:+ "s" +:+ nl) ;;
      mret (Ok (124, p_elapsed p))
  | Failed e => mret (Raise e)
  end.

Definition run_one (root link profile_dir : string) (a : args) : py world run_result :=
  w ← py_get;
  let report := expected_json profile_dir link (scheduler a) (client_start_jitter_stream a)
                  (value (sim_time a)) in
  if skip_existing a && exists_path w report then
    mret {| r_link := link; r_profile := profile_dir; r_rc := 0; r_elapsed := 0 |}
  else
    dce_tmp ← mkdtemp;
    r ← run_process root link profile_dir dce_tmp a;
    (if keep_dce_files a then
       append_file (log_path profile_dir link) (nl +:+ "kept DCE files at " +:+ dce_tmp +:+ nl)
     else remove_dir dce_tmp) ;;
    '(rc, elapsed) ← py_lift r;
    mret {| r_link := link; r_profile := profile_dir; r_rc := rc; r_elapsed := elapsed |}.
End run.

(** ** The list of jobs: (link, number of clients, bytes per second) *)
Definition job : Type := string * Z * Z.

Definition sizes_for (wifi nr : list Z) (link : string) : list Z :=
  if (link =? "wifi-only")%string then wifi else nr.

Definition iter_jobs (a : args) : result (list job) :=
  links ← parse_links (links a);
  clients ← parse_csv_uints (clients a);
  wifi_bytes ← parse_csv_uints (wifi_bytes a);
  nr_bytes ← parse_csv_uints (nr_bytes a);
  Ok (link ← links; c ← clients; b ← sizes_for wifi_bytes nr_bytes link; [(link, c, b)]).

(** ** main *)
Section main.
  Variable popen :
    nat → list string → string → list (string * string) → option Z → process.
  Variable tmp_name : nat → string.
  (** the results of the futures in the order in which they complete *)
  Variable as_completed : list (result run_result) → list (result run_result).
  Variable root : string.

Definition build_once (m : string) (n_jobs : Z) : py world unit :=
  w ← py_get;
  if negb (exists_path w (path_joins root [out_dir m; "c4che"])) then
    eprint ("missing configured " +:+ out_dir m +:+ "; run ./build-all.sh --mode " +:+ m +:+
            " first") ;;
    py_raise (SystemExit 1)
  else
    let cmd := ["python3"; "./waf"; "build"; "--targets=" +:+ TARGET; "-j"; show_Z n_jobs; "-o";
                out_dir m] in
    print ("+ " +:+ join " " cmd) ;;
    w ← py_get;
    p ← start_process popen cmd root (environ w) None;
    match p_ending p with
    | Exited rc => if rc =? 0 then mret () else py_raise (PyException "CalledProcessError")
    | TimedOut => py_raise TimeoutExpired
    | Failed e => py_raise e
    end.

Definition profile_dir_of (profile_root : string) (j : job) : string :=
  path_join profile_root (profile_name j.1.2 j.2).

(** the dictionary of the profiles, and writing each of them *)
Fixpoint write_profiles (profile_root : string) (js : list job) (seen : list ((Z * Z) * string))
    : py world (list ((Z * Z) * string)) :=
  match js with
  | [] => mret seen
  | j :: js =>
      let d := profile_dir_of profile_root j in
      write_profile d j.1.2 j.2 ;;
      write_profiles profile_root js (dict_set seen (j.1.2, j.2) d)
  end.

(** every submitted run ends before the executor is left; an exception stays in its future *)
Fixpoint run_all (a : args) (profile_root : string) (js : list job)
    : py world (list (result run_result)) :=
  match js with
  | [] => mret []
  | j :: js =>
      r ← (λ w, let '(r, w') := run_one popen tmp_name root j.1.1 (profile_dir_of profile_root j) a w
                in (Ok r, w'));
      rs ← run_all a profile_root js;
      mret (r :: rs)
  end.

(** [p.relative_to(root)] *)
Definition relative_to (p base : string) : result string :=
  if (p =? base)%string then Ok "."
  else if startswith p (base +:+ "/") then Ok (str_drop (String.length base + 1) p)
  else Raise (ValueError "is not in the subpath").

(** the loop over the completed futures, with the list of failures *)
Fixpoint collect (a : args) (rs : list (result run_result)) (failures : list run_result)
    : py world (list run_result) :=
  match rs with
  | [] => mret failures
  | r :: rs =>
      r ← py_lift r;
      rel ← py_lift (relative_to (r_profile r) root);
      let status := if r_rc r =? 0 then "ok" else "failed rc=" +:+ show_Z (r_rc r) in
      print ("[" +:+ status +:+ "] " +:+ r_link r +:+ " " +:+ rel +:+ " wall=" +:+
             fmt_fixed 1 (r_elapsed r) +:+ "s") ;;
      if negb (r_rc r =? 0) then
        if fail_fast a then mret (failures ++ [r]) else collect a rs (failures ++ [r])
      else collect a rs failures
  end.

Definition run_and_report (a : args) (profile_root : string) (js : list job) : py world Z :=
  rs ← run_all a profile_root js;
  failures ← collect a (as_completed rs) [];
  match failures with
  | [] => mret 0
  | _ =>
      eprint "failed runs:" ;;
      py_for failures (λ r,
        eprint ("  " +:+ r_link r +:+ " " +:+ r_profile r +:+ " rc=" +:+ show_Z (r_rc r))) ;;
      mret 1
  end.

Definition main (a : args) : py world Z :=
  let profile_root := normpath (path_join root (profile_root a)) in
  js ← py_lift (iter_jobs a);
  profiles ← write_profiles profile_root js [];
  print ("profiles=" +:+ show_Z (Z.of_nat (length profiles)) +:+ " runs=" +:+
         show_Z (Z.of_nat (length js)) +:+ " root=" +:+ profile_root) ;;
  if generate_only a then mret 0
  else
    build_once (mode a) (jobs a) ;;
    run_and_report a profile_root js.
End main.

(** the defaults of the command line *)
Definition default_args : args :=
  {| mode := "opt"; jobs := 4; parallel := 1; timeout := 900; links := "wifi-only,nr-only";
     clients := "1,4,8,15,30";
     wifi_bytes := "64,1024,16384,65536,262144,1048576,2097152,4194304";
     nr_bytes := "64,1024,16384,65536,262144,524288,1048576,2097152";
     profile_root := "myscripts/pamptcp-link-characteristics/flow-profiles/final-grid";
     generate_only := false; skip_existing := false; keep_dce_files := false; fail_fast := false;
     sim_time := {| value := 10; repr := "10.0" |}; stats_start := {| value := 4; repr := "4.0" |};
     stats_stop := {| value := 10; repr := "10.0" |};
     client_start_jitter := {| value := 1; repr := "1.0" |};
     client_start_jitter_stream := 1; num_aps := 1; scheduler := "default" |}.
End Sweep.

(** ** Facts *)
Module SweepFacts.
Import Sweep.

(** *** Arguments *)
Lemma csv_uints_positive parts vs : csv_uints parts = Ok vs → Forall (λ v, 0 < v) vs.
Proof.
  revert vs. induction parts as [|p parts IH]; intros vs H; [by injection H as <-|].
  cbn [csv_uints] in H. destruct (truthy (strip p)); cbn [negb] in H; [|by apply IH].
  apply result_bind_Ok in H as (v & _ & H). destruct (Z.leb_spec v 0); [done|].
  apply result_bind_Ok in H as (vs' & Hvs & H). injection H as <-. constructor; [done|].
  by apply IH.
Qed.

Lemma parse_csv_uints_spec text vs :
  parse_csv_uints text = Ok vs → vs ≠ [] ∧ Forall (λ v, 0 < v) vs.
Proof.
  intros H. apply result_bind_Ok in H as (vs' & Hvs & H).
  destruct vs' as [|v vs']; [done|]. injection H as <-. split; [done|].
  by eapply csv_uints_positive.
Qed.

Lemma parse_links_spec text ls :
  parse_links text = Ok ls → ls ≠ [] ∧ Forall (λ l, l ∈ valid_links) ls.
Proof.
  unfold parse_links. set (links := List.filter truthy _). intros H.
  destruct (List.filter _ links) eqn:Hu; [|done]. destruct links as [|l links'] eqn:El; [done|].
  injection H as <-. split; [done|]. rewrite Forall_forall. intros x Hx.
  destruct (bool_decide_reflect (x ∈ valid_links)) as [|Hn]; [done|]. exfalso.
  assert (x ∈ @nil string) as Hin; [|by apply elem_of_nil in Hin].
  rewrite <- Hu. apply list_elem_of_In, filter_In. split; [by apply list_elem_of_In|].
  by rewrite bool_decide_eq_false_2.
Qed.

(** When the arguments are accepted, the sweep has at least one job, and its jobs are exactly
    the combinations of a valid link, a positive number of clients and a positive size from the
    list of that link. *)
Theorem iter_jobs_spec (a : args) (js : list job) (Hjs : iter_jobs a = Ok js) :
  js ≠ [] ∧
  ∃ ls cs ws ns, parse_links (links a) = Ok ls ∧ parse_csv_uints (clients a) = Ok cs ∧
    parse_csv_uints (wifi_bytes a) = Ok ws ∧ parse_csv_uints (nr_bytes a) = Ok ns ∧
    ∀ l c b, (l, c, b) ∈ js ↔ l ∈ ls ∧ c ∈ cs ∧ b ∈ sizes_for ws ns l ∧
                              l ∈ valid_links ∧ 0 < c ∧ 0 < b.
Proof.
  unfold iter_jobs in Hjs.
  apply result_bind_Ok in Hjs as (ls & Hl & Hjs). apply result_bind_Ok in Hjs as (cs & Hc & Hjs).
  apply result_bind_Ok in Hjs as (ws & Hw & Hjs). apply result_bind_Ok in Hjs as (ns & Hn & Hjs).
  injection Hjs as <-.
  pose proof (parse_links_spec _ _ Hl) as [Hl0 Hlv].
  pose proof (parse_csv_uints_spec _ _ Hc) as [Hc0 Hcp].
  pose proof (parse_csv_uints_spec _ _ Hw) as [Hw0 Hwp].
  pose proof (parse_csv_uints_spec _ _ Hn) as [Hn0 Hnp].
  rewrite Forall_forall in Hlv. rewrite Forall_forall in Hcp, Hwp, Hnp. split.
  - destruct ls as [|l ls]; [done|]. destruct cs as [|c cs]; [done|]. unfold sizes_for. cbn.
    destruct (l =? "wifi-only")%string; [by destruct ws|by destruct ns].
  - exists ls, cs, ws, ns. do 4 (split; [done|]). intros l c b.
    rewrite list_elem_of_bind. split.
    + intros (l' & Hj & Hin). apply list_elem_of_bind in Hj as (c' & Hj & Hcin).
      apply list_elem_of_bind in Hj as (b' & Hj & Hbin).
      apply list_elem_of_singleton in Hj. injection Hj as -> -> ->.
      split_and!; auto. unfold sizes_for in Hbin. destruct (_ =? _)%string; auto.
    + intros (Hin & Hcin & Hbin & _). exists l. split; [|done].
      apply list_elem_of_bind. exists c. split; [|done]. apply list_elem_of_bind. exists b.
      split; [|done]. by apply list_elem_of_singleton.
Qed.

(** *** One run *)
Section facts.
  Variable popen :
    nat → list string → string → list (string * string) → option Z → process.
  Variable tmp_name : nat → string.
  Variable root : string.

(** a step that keeps the directories and the number of commands *)
Definition only_files (w w' : world) : Prop := dirs w' = dirs w ∧ commands w' = commands w.

Lemma run_process_spec link profile_dir tmp a w :
  ∃ r w', run_process popen root link profile_dir tmp a w = (Ok r, w') ∧
    dirs w' = dirs w ∧ length (commands w') = S (length (commands w)) ∧
    let p := popen (length (commands w))
               (binary_for_mode root (mode a) :: program_args a link profile_dir) root
               (env_for_mode (environ w) root (mode a) tmp) (time_limit a) in
    r = match p_ending p with
        | Exited rc => Ok (rc, p_elapsed p)
        | TimedOut => Ok (124, p_elapsed p)
        | Failed e => Raise e
        end.
Proof.
  unfold run_process, write_file, append_file, py_modify, py_get, start_process, add_command.
  cbv [mbind py_bind].
  cbn [commands environ set_files]. destruct (p_ending _) eqn:E;
    do 2 eexists; (split; [reflexivity|]); cbn [dirs commands set_files];
    rewrite length_app; cbn [length]; (split; [done|]); (split; [lia|]); done.
Qed.

(** C9. A run that is not skipped starts exactly one process.  Without the option to keep the files
    of DCE it removes its temporary directory with everything below it, however the process ends
    (exit, timeout or exception); with the option the directory stays, and the last line of the log
    names it.  The return code is that of the process, or 124 after a timeout.  A run is skipped
    exactly when that is asked for and its report exists. *)
Theorem run_one_cleans_up (link profile_dir : string) (a : args) (w : world) :
  let report := expected_json profile_dir link (scheduler a) (client_start_jitter_stream a)
                  (value (sim_time a)) in
  let tmp := tmp_name (length (commands w)) in
  let p := popen (length (commands w))
             (binary_for_mode root (mode a) :: program_args a link profile_dir) root
             (env_for_mode (environ w) root (mode a) tmp) (time_limit a) in
  let '(r, w') := run_one popen tmp_name root link profile_dir a w in
  if skip_existing a && exists_path w report then
    w' = w ∧ r = Ok {| r_link := link; r_profile := profile_dir; r_rc := 0; r_elapsed := 0 |}
  else
    length (commands w') = S (length (commands w)) ∧
    (keep_dce_files a = false →
       tmp ∉ dirs w' ∧ Forall (λ f, below tmp f.1 = false) (files w')) ∧
    (keep_dce_files a = true →
       tmp ∈ dirs w' ∧ ∃ text, dict_get (files w') (log_path profile_dir link) =
                               Some (text +:+ nl +:+ "kept DCE files at " +:+ tmp +:+ nl)) ∧
    r = match p_ending p with
        | Exited rc => Ok {| r_link := link; r_profile := profile_dir; r_rc := rc;
                             r_elapsed := p_elapsed p |}
        | TimedOut => Ok {| r_link := link; r_profile := profile_dir; r_rc := 124;
                            r_elapsed := p_elapsed p |}
        | Failed e => Raise e
        end.
Proof.
  cbv zeta. unfold run_one, py_get. cbv [mbind py_bind].
  destruct (skip_existing a && _); [done|]. unfold mkdtemp.
  set (w1 := set_dirs _ w).
  destruct (run_process_spec link profile_dir (tmp_name (length (commands w))) a w1)
    as (r & w2 & -> & Hd & Hc & Hr).
  cbn [w1 commands environ set_dirs] in Hc, Hr.
  set (p := popen _ _ _ _ _) in *.
  rewrite Hr. destruct (keep_dce_files a).
  - assert (Hkept : tmp_name (length (commands w)) ∈ dirs w2 ∧ ∃ text,
      dict_get (files (append_file (log_path profile_dir link) (nl +:+ "kept DCE files at " +:+
        tmp_name (length (commands w)) +:+ nl) w2).2) (log_path profile_dir link) =
      Some (text +:+ nl +:+ "kept DCE files at " +:+ tmp_name (length (commands w)) +:+ nl)).
    { split; [rewrite Hd; apply elem_of_app; right; by left|]. eexists. cbn. by rewrite dict_get_set_eq. }
    destruct (p_ending p); (split; [exact Hc|]); (split; [done|]); (split; [intros _; exact Hkept|done]).
  - assert (Hclean : ∀ tmp, (tmp ∉ dirs ((rmtree tmp w2).2)) ∧
                            (Forall (λ f, below tmp f.1 = false) (files ((rmtree tmp w2).2)))).
    { intros tmp. split.
      - intros Hin. apply list_elem_of_In, filter_In in Hin as [_ Hin].
        by rewrite String.eqb_refl in Hin.
      - apply Forall_forall. intros f Hf. apply list_elem_of_In, filter_In in Hf as [_ Hf].
        by apply negb_true_iff. }
    destruct (p_ending p); (split; [exact Hc|]); (split; [intros _; apply Hclean|]); by split.
Qed.

(** *** The sweep *)
Lemma run_one_profile link d a w r w' :
  run_one popen tmp_name root link d a w = (Ok r, w') → r_profile r = d.
Proof.
  intros H.
  unfold run_one, py_get in H. apply py_bind_Ok in H as (w0 & w1 & _ & H).
  destruct (_ && _); [by injection H as <- _|].
  apply py_bind_Ok in H as (? & ? & _ & H). apply py_bind_Ok in H as (? & ? & _ & H).
  apply py_bind_Ok in H as (? & ? & _ & H). apply py_bind_Ok in H as ([] & ? & _ & H).
  by injection H as <- _.
Qed.

Lemma run_all_ok a pr js w :
  ∃ rs w', run_all popen tmp_name root a pr js w = (Ok rs, w') ∧ length rs = length js ∧
    Forall (λ r, ∀ x, r = Ok x → ∃ j, j ∈ js ∧ r_profile x = profile_dir_of pr j) rs.
Proof.
  revert w. induction js as [|j js IH]; intros w; [by exists [], w; repeat constructor|].
  cbn [run_all]. cbv [mbind py_bind].
  destruct (run_one popen tmp_name root j.1.1 (profile_dir_of pr j) a w) as [r w1] eqn:E.
  destruct (IH w1) as (rs & w2 & -> & Hlen & Hp). exists (r :: rs), w2.
  split; [done|]. split; [cbn; by rewrite Hlen|]. constructor.
  - intros x ->. exists j. split; [by left|]. by eapply run_one_profile.
  - eapply Forall_impl; [exact Hp|]. intros x Hx y Hy. destruct (Hx y Hy) as (j' & ? & ?).
    exists j'. split; [by right|done].
Qed.

(** the run behind the future ended with status 0 *)
Definition run_ok (r : result run_result) : Prop := ∃ x, r = Ok x ∧ r_rc x = 0.

Lemma collect_spec a rs fs w fs' w' :
  collect root a rs fs w = (Ok fs', w') → (fs' = [] ↔ fs = [] ∧ Forall run_ok rs).
Proof.
  revert fs w. induction rs as [|r rs IH]; intros fs w H.
  - injection H as <- _. split; [by intros ->; split|tauto].
  - cbn [collect] in H. apply py_bind_Ok in H as (x & w1 & Hx & H). injection Hx as -> <-.
    apply py_bind_Ok in H as (rel & w2 & _ & H). apply py_bind_Ok in H as ([] & w3 & _ & H).
    rewrite Forall_cons. destruct (Z.eqb_spec (r_rc x) 0) as [H0|H0]; cbn [negb] in H.
    + rewrite (IH _ _ H). assert (run_ok (Ok x)) by by exists x. tauto.
    + assert (Hno : ¬ run_ok (Ok x)) by (intros (y & [= <-] & ?); done).
      split; [|tauto]. intros ->. exfalso. destruct (fail_fast a).
      * injection H as H _. by destruct fs.
      * destruct (proj1 (IH _ _ H) eq_refl) as [H1 _]. by destruct fs.
Qed.

(** C11. Whatever the order in which the parallel runs complete, when the sweep returns its status
    is 0 exactly when every single run ended with status 0; failing fast shortens the report,
    but the outcomes of all runs already exist by then. *)
Theorem sweep_status (as_completed : list (result run_result) → list (result run_result))
    (a : args) (pr : string) (js : list job) (w w' : world) (z : Z)
    (Horder : ∀ rs, as_completed rs ≡ₚ rs)
    (Hrun : run_and_report popen tmp_name as_completed root a pr js w = (Ok z, w')) :
  ∃ rs w1, run_all popen tmp_name root a pr js w = (Ok rs, w1) ∧ length rs = length js ∧
    (z = 0 ∨ z = 1) ∧ (z = 0 ↔ Forall run_ok rs).
Proof.
  destruct (run_all_ok a pr js w) as (rs & w1 & Hrs & Hlen & _).
  unfold run_and_report in Hrun. apply py_bind_Ok in Hrun as (rs' & w1' & Hrs' & H).
  rewrite Hrs in Hrs'. injection Hrs' as <- <-.
  apply py_bind_Ok in H as (fs & w2 & Hc & H). apply collect_spec in Hc.
  rewrite (Horder rs) in Hc. exists rs, w1. do 2 (split; [done|]).
  destruct fs as [|f fs].
  - injection H as <- _. split; [by left|]. tauto.
  - apply py_bind_Ok in H as (? & ? & _ & H). apply py_bind_Ok in H as (? & ? & _ & H).
    injection H as <- _. split; [by right|]. split; [done|]. intros Hall.
    by pose proof (proj2 Hc (conj eq_refl Hall)).
Qed.

(** When the profiles lie outside the repository (an absolute profile root), a sweep with at
    least one job never returns a status: all its runs are executed, and then the report of the
    first completed one raises, even if every run succeeded. *)
Theorem sweep_outside_root (as_completed : list (result run_result) → list (result run_result))
    (a : args) (pr : string) (js : list job) (w : world)
    (Horder : ∀ rs, as_completed rs ≡ₚ rs) (Hjs : js ≠ [])
    (Houtside : ∀ j, j ∈ js → is_ok (relative_to (profile_dir_of pr j) root) = false) :
  ∃ rs w1 e w', run_all popen tmp_name root a pr js w = (Ok rs, w1) ∧ length rs = length js ∧
    run_and_report popen tmp_name as_completed root a pr js w = (Raise e, w').
Proof.
  destruct (run_all_ok a pr js w) as (rs & w1 & Hrs & Hlen & Hp).
  exists rs, w1. unfold run_and_report. cbv [mbind py_bind]. rewrite Hrs.
  rewrite <- (Horder rs) in Hp. pose proof (Permutation_length (Horder rs)) as Hl.
  destruct (as_completed rs) as [|r l]; [by destruct js, rs|].
  apply Forall_cons in Hp as [Hr _]. cbn [collect]. cbv [mbind py_bind py_lift].
  destruct r as [x|e].
  - destruct (Hr x eq_refl) as (j & Hj & Hx). specialize (Houtside j Hj). rewrite <- Hx in Houtside.
    destruct (relative_to (r_profile x) root); [done|]. by eexists _, _.
  - by eexists _, _.
Qed.
End facts.
End SweepFacts.

(** *** Concrete sweeps *)
Module SweepExamples.
Import Sweep SweepFacts.

Definition sample_args : args :=
  {| mode := "opt"; jobs := 4; parallel := 1; timeout := 900; links := "wifi-only,nr-only";
     clients := "1, 4"; wifi_bytes := "64"; nr_bytes := "1024,"; profile_root := "profiles";
     generate_only := false; skip_existing := false; keep_dce_files := false; fail_fast := true;
     sim_time := {| value := 10; repr := "10.0" |}; stats_start := {| value := 4; repr := "4.0" |};
     stats_stop := {| value := 10; repr := "10.0" |};
     client_start_jitter := {| value := 1; repr := "1.0" |};
     client_start_jitter_stream := 1; num_aps := 1; scheduler := "default" |}.

Definition four_jobs : list job :=
  [("wifi-only", 1, 64); ("wifi-only", 4, 64); ("nr-only", 1, 1024); ("nr-only", 4, 1024)].

Lemma iter_jobs_spec_witness :
  iter_jobs sample_args = Ok four_jobs ∧ ("nr-only", 1, 64) ∉ four_jobs.
Proof.
  assert (E : iter_jobs sample_args = Ok four_jobs) by by vm_compute.
  split; [exact E|].
  destruct (iter_jobs_spec sample_args four_jobs E) as (_ & ls & cs & ws & ns & _ & _ & _ & Hn & H).
  assert (Hns : parse_csv_uints (nr_bytes sample_args) = Ok [1024]) by by vm_compute.
  rewrite Hns in Hn. injection Hn as <-.
  intros Hin. apply H in Hin as (_ & _ & Hin & _).
  change (sizes_for ws [1024] "nr-only") with [1024] in Hin.
  by apply list_elem_of_singleton in Hin.
Defined.

(** the second process of a sweep fails *)
Definition sample_popen (k : nat) (_ : list string) (_ : string) (_ : list (string * string))
    (_ : option Z) : process :=
  {| p_ending := match k with 1%nat => Exited 3 | _ => Exited 0 end; p_output := EmptyString;
     p_files := []; p_elapsed := 1 |}.
Definition sample_tmp (k : nat) : string := "/tmp/ns3-dce-files." +:+ show_Z (Z.of_nat k).

Definition sample_jobs : list job := [("wifi-only", 1, 64); ("nr-only", 1, 64)].

Lemma rev_order (rs : list (result run_result)) : rev rs ≡ₚ rs.
Proof. symmetry. apply Permutation_rev. Qed.

Lemma sweep_status_witness :
  let sweep := run_and_report sample_popen sample_tmp (@rev _) "/repo" sample_args "/repo/profiles"
    sample_jobs ConfigFacts.sample_world in
  ∃ w', sweep = (Ok 1, w') ∧ ∃ rs, length rs = 2%nat ∧ ¬ Forall run_ok rs.
Proof.
  cbv zeta. destruct (run_and_report _ _ _ _ _ _ _ _) as [r w'] eqn:E.
  assert (Hr : r = Ok 1).
  { change r with ((r, w').1). rewrite <- E. by vm_compute. }
  subst r. exists w'. split; [reflexivity|].
  destruct (sweep_status sample_popen sample_tmp "/repo" (@rev _) sample_args "/repo/profiles"
              sample_jobs ConfigFacts.sample_world w' 1 rev_order E) as (rs & w1 & _ & Hl & _ & Hz).
  exists rs. split; [exact Hl|]. intros Hall. by apply Hz in Hall.
Defined.

Lemma sweep_outside_root_witness :
  ∃ e w', run_and_report sample_popen sample_tmp (@rev _) "/repo" sample_args "/data/profiles"
    sample_jobs ConfigFacts.sample_world = (Raise e, w').
Proof.
  destruct (sweep_outside_root sample_popen sample_tmp "/repo" (@rev _) sample_args
              "/data/profiles" sample_jobs ConfigFacts.sample_world rev_order ltac:(done))
    as (rs & w1 & e & w' & _ & _ & H).
  - intros j Hj. unfold sample_jobs in Hj. rewrite !elem_of_cons, elem_of_nil in Hj.
    destruct Hj as [->|[->|[]]]; by vm_compute.
  - exists e, w'. exact H.
Defined.
End SweepExamples.
