(* ===== verification/LinkSummary.v ===== *)
(** * summarize-link-characteristics.py: tables from the reports of a sweep

    myscripts/pamptcp-link-characteristics/summarize-link-characteristics.py: the two file name
    patterns, the row made from one JSON report, the sort, the CSV and the Markdown table and
    [main].  JSON numbers are exact rationals; the JSON parser, [float] of a string and the
    printed form of a float are parameters. *)
From Stdlib Require Import ZArith Lia Ascii String QArith.
From stdpp Require Import base list strings sorting.
From S2P Require Import Prelude PyStr TestConfig LinkRun.
Import Driver.
#[local] Open Scope Z_scope.

Module Summary.

(** ** The patterns of the names *)

(** [^n(\d+)-b(\d+)$]: the two groups; the end may be before a final newline *)
Definition chomp (s : string) : string :=
  match split_last newline s with Some (l, EmptyString) => l | _ => s end.

Definition profile_match (name : string) : option (string * string) :=
  if startswith name "n" then
    let '(clients, r) := span_digits (str_drop 1 name) in
    if truthy clients && startswith r "-b" then
      let '(bytes, r) := span_digits (str_drop 2 r) in
      if truthy bytes && negb (truthy (chomp r)) then Some (clients, bytes) else None
    else None
  else None.

(** [stream\d+-.+s\.json$] after the link *)
Definition stream_tail (s : string) : bool :=
  let '(digits, r) := span_digits s in
  truthy digits && startswith r "-" &&
  let body := chomp (str_drop 1 r) in
  endswith body "s.json" && (6 <? String.length body)%nat && negb (has_char newline body).

Definition link_tail (s : string) : option string :=
  if startswith s "-wifi-only-stream" && stream_tail (str_drop 17 s) then Some "wifi-only"
  else if startswith s "-nr-only-stream" && stream_tail (str_drop 15 s) then Some "nr-only"
  else None.

(** [^(.+)-(wifi-only|nr-only)-stream\d+-.+s\.json$]: the longest first group wins; [pre] has
    been read, and at least one more character belongs to the group *)
Fixpoint scheduler_scan (pre s : string) : option (string * string) :=
  match s with
  | EmptyString => None
  | String c s' =>
      if Ascii.eqb c newline then None
      else
        let pre := pre +:+ String c EmptyString in
        match scheduler_scan pre s' with
        | Some r => Some r
        | None => match link_tail s' with Some l => Some (pre, l) | None => None end
        end
  end.

Definition report_match (name : string) : option (string * string) :=
  scheduler_scan EmptyString name.

(** ** JSON *)
Inductive json :=
  | JNull | JBool (b : bool) | JNum (q : Q) | JStr (s : string) | JList (l : list json)
  | JObj (fields : list (string * json)).

(** [d.get(k, default)]: only a dictionary has it *)
Definition get (d : json) (k : string) (dflt : json) : result json :=
  match d with
  | JObj fields => Ok (default dflt (dict_get fields k))
  | _ => Raise AttributeError
  end.

(** the elements that iteration gives; those of a string and of a dictionary are strings *)
Definition iterate (j : json) : result (list json) :=
  match j with
  | JList l => Ok l
  | JObj fields => Ok ((λ f : string * json, JStr f.1) <$> fields)
  | JStr s => Ok ((λ c : ascii, JStr (String c EmptyString)) <$> list_ascii_of_string s)
  | _ => Raise TypeError
  end.

Definition is_str (s : string) (j : json) : bool :=
  match j with JStr t => (t =? s)%string | _ => false end.

Fixpoint overall_entry (entries : list json) : result json :=
  match entries with
  | [] => Ok (JObj [])
  | e :: entries =>
      scope ← get e "scope" JNull;
      if is_str "overall" scope then Ok e else overall_entry entries
  end.

Definition find_overall (report : json) : result json :=
  metrics ← get report "priority_metrics" (JObj []);
  entries ← get metrics "entries" (JList []);
  l ← iterate entries;
  overall_entry l.

(** ** Rows *)
Record row := mk_row {
  link : string; clients : Z; bytes_per_burst : Z; offered_mbps : Q; rx_mbps : Q;
  sink_mbps : Q; delay_mean_ms : Q; delay_p50_ms : Q; delay_p95_ms : Q; delay_p99_ms : Q;
  delay_max_ms : Q; jitter_mean_ms : Q; rx_packets : Z; delay_rx_packets : Z;
  active_flows : Z; connected : Z; total : Z; connect_failures : Z; warnings : string;
  json_path : string
}.

Definition expected_warnings : list string := ["Single-path mode disables MPTCP subflow setup"].

(** [expected in warning] *)
Definition contains (expected : string) (w : json) : result bool :=
  match w with
  | JStr s => Ok (py_in expected s)
  | JList l => Ok (existsb (is_str expected) l)
  | JObj fields => Ok (existsb (λ f : string * json, (f.1 =? expected)%string) fields)
  | _ => Raise TypeError
  end.

Fixpoint any_expected (expected : list string) (w : json) : result bool :=
  match expected with
  | [] => Ok false
  | e :: expected => b ← contains e w; if (b : bool) then Ok true else any_expected expected w
  end.

Fixpoint unexpected (ws : list json) : result (list json) :=
  match ws with
  | [] => Ok []
  | w :: ws =>
      b ← any_expected expected_warnings w;
      rest ← unexpected ws;
      Ok (if (b : bool) then rest else w :: rest)
  end.

(** the strings that [join] accepts *)
Fixpoint strings (ws : list json) : result (list string) :=
  match ws with
  | [] => Ok []
  | JStr s :: ws => rest ← strings ws; Ok (s :: rest)
  | _ :: _ => Raise TypeError
  end.

Section load.
  Variable parse_json : string → result json.
  Variable float_of_str : string → result Q.

Definition py_float (j : json) : result Q :=
  match j with
  | JNum q => Ok q
  | JBool b => Ok (if b then 1 else 0)%Q
  | JStr s => float_of_str s
  | _ => Raise TypeError
  end.

(** [int(x)] truncates towards zero *)
Definition py_int_of (j : json) : result Z :=
  match j with
  | JNum q => Ok (Z.quot (Qnum q) (Z.pos (Qden q)))
  | JBool b => Ok (Z.b2z b)
  | JStr s => py_int s
  | _ => Raise TypeError
  end.

Definition float_field (d : json) (k : string) : result Q :=
  v ← get d k (JNum 0); py_float v.
Definition int_field (d : json) (k : string) : result Z :=
  v ← get d k (JNum 0); py_int_of v.

Definition digits_value (s : string) : Z := digits_val 0 s.

Definition report_row (path scheduler_link clients bytes : string) (report : json) : result row :=
  overall ← find_overall report;
  delay ← get overall "delay_ms" (JObj []);
  jitter ← get overall "jitter_ms" (JObj []);
  packet_sink ← get report "packet_sink" (JObj []);
  client_connect ← get report "client_connect" (JObj []);
  ws ← get report "warnings" (JList []);
  ws ← iterate ws;
  warnings ← unexpected ws;
  let clients := digits_value clients in
  let bytes := digits_value bytes in
  rx_mbps ← float_field overall "throughput_mbps";
  sink_mbps ← float_field packet_sink "throughput_mbps";
  mean ← float_field delay "mean";
  p50 ← float_field delay "p50";
  p95 ← float_field delay "p95";
  p99 ← float_field delay "p99";
  max ← float_field delay "max";
  jmean ← float_field jitter "mean";
  rx_packets ← int_field overall "rx_packets";
  delay_rx ← int_field overall "delay_rx_packets";
  flows ← int_field overall "active_flows";
  connected ← int_field client_connect "connected";
  total ← int_field client_connect "total";
  failures ← int_field client_connect "total_connect_failures";
  warnings ← strings warnings;
  Ok {| link := scheduler_link; clients := clients; bytes_per_burst := bytes;
        offered_mbps := (inject_Z (clients * bytes * 8) / inject_Z 1000000)%Q;
        rx_mbps := rx_mbps; sink_mbps := sink_mbps; delay_mean_ms := mean; delay_p50_ms := p50;
        delay_p95_ms := p95; delay_p99_ms := p99; delay_max_ms := max; jitter_mean_ms := jmean;
        rx_packets := rx_packets; delay_rx_packets := delay_rx; active_flows := flows;
        connected := connected; total := total; connect_failures := failures;
        warnings := join " | " warnings; json_path := path |}.

(** (link, clients, bytes) of a path, when both names match *)
Definition report_key (path : string) : option (string * string * string) :=
  match profile_match (basename (dirname path)), report_match (basename path) with
  | Some (clients, bytes), Some (_, link) => Some (link, clients, bytes)
  | _, _ => None
  end.

Definition load_row (path : string) : py world (option row) :=
  match report_key path with
  | None => mret None
  | Some (link, clients, bytes) =>
      text ← read_file path;
      report ← py_lift (parse_json text);
      r ← py_lift (report_row path link clients bytes report);
      mret (Some r)
  end.

Fixpoint load_rows (paths : list string) : py world (list row) :=
  match paths with
  | [] => mret []
  | p :: paths =>
      r ← load_row p;
      rs ← load_rows paths;
      mret (match r with Some r => r :: rs | None => rs end)
  end.
End load.

(** ** The order of the rows: a stable sort by (link, clients, bytes) *)
Definition row_le (a b : row) : bool :=
  if (link a =? link b)%string then
    if clients a =? clients b then bytes_per_burst a <=? bytes_per_burst b
    else clients a <? clients b
  else String.leb (link a) (link b).

Fixpoint insert_row (r : row) (l : list row) : list row :=
  match l with
  | [] => [r]
  | x :: l => if row_le r x then r :: x :: l else x :: insert_row r l
  end.

Definition sort_rows (l : list row) : list row := foldr insert_row [] l.

(** ** The tables *)
Definition format_float (value : Q) (digits : nat) : string :=
  let text := fmt_fixed digits value in
  if has_char "." text then
    rstrip_by (Ascii.eqb ".") (rstrip_by (Ascii.eqb "0") text)
  else text.

Definition dquote : ascii := "034"%char.
Definition crlf : string := String "013" nl.

(** a field of the csv writer with minimal quoting *)
Definition csv_field (s : string) : string :=
  if has_char "," s || has_char dquote s || has_char "013" s || has_char newline s then
    String dquote (py_replace (String dquote EmptyString)
                     (String dquote (String dquote EmptyString)) s +:+
                   String dquote EmptyString)
  else s.

Definition csv_line (fields : list string) : string := join "," (csv_field <$> fields) +:+ crlf.

Definition fieldnames : list string :=
  ["link"; "clients"; "bytes_per_burst"; "offered_mbps"; "rx_mbps"; "sink_mbps";
   "delay_mean_ms"; "delay_p50_ms"; "delay_p95_ms"; "delay_p99_ms"; "delay_max_ms";
   "jitter_mean_ms"; "rx_packets"; "delay_rx_packets"; "active_flows"; "connected"; "total";
   "connect_failures"; "warnings"; "json"].

Section tables.
  (** the printed form of a float *)
  Variable float_repr : Q → string.

Definition row_fields (r : row) : list string :=
  [link r; show_Z (clients r); show_Z (bytes_per_burst r); float_repr (offered_mbps r);
   float_repr (rx_mbps r); float_repr (sink_mbps r); float_repr (delay_mean_ms r);
   float_repr (delay_p50_ms r); float_repr (delay_p95_ms r); float_repr (delay_p99_ms r);
   float_repr (delay_max_ms r); float_repr (jitter_mean_ms r); show_Z (rx_packets r);
   show_Z (delay_rx_packets r); show_Z (active_flows r); show_Z (connected r);
   show_Z (total r); show_Z (connect_failures r); warnings r; json_path r].

Definition csv_text (rows : list row) : string :=
  csv_line fieldnames +:+ sconcat ((λ r, csv_line (row_fields r)) <$> rows).

Definition write_csv (rows : list row) (path : string) : py world unit :=
  Sweep.mkdir_p (dirname path) ;;
  write_file path (csv_text rows).
End tables.

Definition row_notes (r : row) : list string :=
  (if connected r =? total r then []
   else ["connected " +:+ show_Z (connected r) +:+ "/" +:+ show_Z (total r)]) ++
  (if connect_failures r =? 0 then []
   else ["connect failures " +:+ show_Z (connect_failures r)]) ++
  (if truthy (warnings r) then ["warnings"] else []).

Definition markdown_row (r : row) : string :=
  "| " +:+ join " | "
    [show_Z (clients r); show_Z (bytes_per_burst r); format_float (offered_mbps r) 3;
     format_float (rx_mbps r) 3; format_float (delay_mean_ms r) 3;
     format_float (delay_p50_ms r) 3; format_float (delay_p95_ms r) 3;
     format_float (delay_p99_ms r) 3; format_float (delay_max_ms r) 3;
     show_Z (connected r) +:+ "/" +:+ show_Z (total r); join "; " (row_notes r)] +:+ " |".

Definition link_rows (rows : list row) (l : string) : list row :=
  List.filter (λ r, (link r =? l)%string) rows.

Definition markdown_link (rows : list row) (l : string) : list string :=
  match link_rows rows l with
  | [] => []
  | rs =>
      ["## " +:+ l; EmptyString;
       "| clients | bytes/burst | offered Mbps | rx Mbps | delay mean ms | p50 | p95 | p99 | max | connected | notes |";
       "|---:|---:|---:|---:|---:|---:|---:|---:|---:|---:|---|"] ++
      (markdown_row <$> rs) ++ [EmptyString]
  end.

(** [Path.with_suffix('.csv')] *)
Definition csv_name (name : string) : string :=
  match split_last "."%char name with
  | Some (stem, suffix) => if truthy stem && truthy suffix then stem +:+ ".csv" else name +:+ ".csv"
  | None => name +:+ ".csv"
  end.
Definition with_csv_suffix (path : string) : string :=
  let '(d, name) := path_split path in path_join d (csv_name name).

Definition markdown_lines (rows : list row) (csv_relative : string) : list string :=
  ["# Link Characteristics Summary"; EmptyString;
   "Delay is `priority_metrics.entries[scope=overall].delay_ms`, i.e. application-layer completion time for each timestamped TCP burst.";
   EmptyString] ++
  (["wifi-only"; "nr-only"] ≫= markdown_link rows) ++
  ["## Files"; EmptyString; "- CSV: `" +:+ csv_relative +:+ "`"; EmptyString].

Definition write_markdown (rows : list row) (path root : string) : py world unit :=
  Sweep.mkdir_p (dirname path) ;;
  rel ← py_lift (Sweep.relative_to (with_csv_suffix path) root);
  write_file path (join nl (markdown_lines rows rel)).

(** ** main *)
Definition path_le (a b : string) : Prop :=
  (fix le (l m : list string) : bool :=
     match l, m with
     | [], _ => true
     | _ :: _, [] => false
     | x :: l, y :: m => if (x =? y)%string then le l m else String.leb x y
     end) (split_char "/"%char a) (split_char "/"%char b) = true.
#[export] Instance path_le_dec : RelDecision path_le.
Proof. intros a b. unfold path_le. apply _. Defined.

(** [sorted(profile_root.glob("n*-b*/*.json"))] *)
Definition is_report (profile_root path : string) : bool :=
  let '(d, name) := path_split path in
  let '(r, profile) := path_split d in
  (r =? profile_root)%string && startswith profile "n" && py_in "-b" (str_drop 1 profile) &&
  endswith name ".json".
Definition report_paths (w : world) (profile_root : string) : list string :=
  merge_sort path_le (List.filter (is_report profile_root) (files w).*1).

Section main.
  Variable parse_json : string → result json.
  Variable float_of_str : string → result Q.
  Variable float_repr : Q → string.
  Variable root : string.

(** a path of the command line, or the default, below the root when it is relative *)
Definition output_path (arg dflt : string) : string :=
  let p := if truthy arg then arg else dflt in
  if startswith p "/" then p else path_join root p.

Definition main (profile_root csv md : string) : py world Z :=
  let profile_root := normpath (path_join root profile_root) in
  w ← py_get;
  rows ← load_rows parse_json float_of_str (report_paths w profile_root);
  let rows := sort_rows rows in
  let csv_path := output_path csv (path_join profile_root "summary.csv") in
  let md_path := output_path md (path_join profile_root "summary.md") in
  write_csv float_repr rows csv_path ;;
  write_markdown rows md_path root ;;
  print ("rows=" +:+ show_Z (Z.of_nat (length rows)) +:+ " csv=" +:+ csv_path +:+ " md=" +:+
         md_path) ;;
  mret 0.
End main.
End Summary.

(** ** The names a sweep writes are the names the summary reads *)
Module NameFacts.
Import Summary Sweep.

Lemma str_all_rstrip p q s : str_all p s = true → str_all p (rstrip_by q s) = true.
Proof.
  induction s as [|a s IH]; [done|]. cbn [str_all rstrip_by].
  intros [Ha Hs]%andb_true_iff. specialize (IH Hs).
  destruct (rstrip_by q s); [destruct (q a); cbn; by rewrite ?Ha|cbn [str_all]; by rewrite Ha].
Qed.

Definition digit_or (c d : ascii) : bool := is_digit d || Ascii.eqb d c.

Lemma replace_dot s :
  str_all (digit_or ".") s = true → str_all (digit_or "p") (py_replace "." "p" s) = true.
Proof.
  unfold py_replace. induction s as [|a s IH]; [done|]. cbn [str_all].
  intros [Ha Hs]%andb_true_iff. cbn [replace_go startswith].
  unfold digit_or in Ha. destruct (Ascii.eqb_spec "." a) as [<-|Hne]; cbn [andb].
  - assert (startswith s EmptyString = true) as -> by by destruct s. exact (IH Hs).
  - cbn [str_all]. rewrite (IH Hs). apply orb_true_iff in Ha as [Ha|Ha].
    + unfold digit_or. by rewrite Ha.
    + by apply Ascii.eqb_eq in Ha as ->.
Qed.

Lemma zeros_digits n : str_all is_digit (zeros n) = true.
Proof. by induction n. Qed.

Lemma pad_zeros_digits k s : str_all is_digit s = true → str_all is_digit (pad_zeros k s) = true.
Proof. intros H. unfold pad_zeros. by rewrite str_all_app, zeros_digits, H. Qed.

Lemma digits_val_zeros n s : digits_val 0 (zeros n +:+ s) = digits_val 0 s.
Proof. induction n as [|n IH]; [done|]. exact IH. Qed.

Lemma digits_or c s : str_all is_digit s = true → str_all (digit_or c) s = true.
Proof. apply str_all_impl. intros a Ha. unfold digit_or. by rewrite Ha. Qed.

Lemma duration_chars t :
  0 <= Qnum t → str_all (digit_or "p") (duration_text t) = true ∧ duration_text t ≠ EmptyString.
Proof.
  intros Ht. unfold duration_text.
  assert (Hf : str_all (digit_or ".") (fmt_fixed 6 t) = true).
  { unfold fmt_fixed. rewrite (proj2 (Z.ltb_ge _ _)) by done. rewrite sapp_nil_l.
    set (n := round_half_even _ _).
    assert (Hn : 0 ≤ n).
    { unfold n, round_half_even. pose proof (Z.div_pos (Z.abs (Qnum t) * 10 ^ Z.of_nat 6)
        (Z.pos (Qden t)) ltac:(lia) ltac:(lia)). repeat case_match; lia. }
    rewrite !str_all_app, andb_true_iff. split.
    - apply digits_or, show_nonneg_spec, Z.div_pos; lia.
    - change (str_all (digit_or ".") "." && str_all (digit_or ".")
                (pad_zeros 6 (show_nonneg (n mod 10 ^ Z.of_nat 6))) = true).
      apply digits_or, pad_zeros_digits, show_nonneg_spec, Z.mod_pos_bound. lia. }
  pose proof (replace_dot _ (str_all_rstrip _ (Ascii.eqb ".") _
                               (str_all_rstrip _ (Ascii.eqb "0") _ Hf))) as H.
  destruct (py_replace "." "p" _) as [|a s]; [done|]. by split.
Qed.

(** no proper suffix starts with a link and a stream *)
Fixpoint no_tails (s : string) : bool :=
  match s with
  | EmptyString => true
  | String _ s => match link_tail s with None => no_tails s | Some _ => false end
  end.

Lemma scan_none pre s : no_tails s = true → scheduler_scan pre s = None.
Proof.
  revert pre. induction s as [|c s IH]; intros pre H; [done|]. cbn [scheduler_scan no_tails] in *.
  case_match; [done|]. rewrite IH by done. by case_match.
Qed.

Lemma scan_found pre sched s l :
  sched ≠ EmptyString → no_char newline sched → no_tails s = true → link_tail s = Some l →
  scheduler_scan pre (sched +:+ s) = Some (pre +:+ sched, l).
Proof.
  intros Hne Hnl Hno Hl. revert pre Hne Hnl. induction sched as [|c t IH]; intros pre Hne Hnl; [done|].
  apply no_char_cons in Hnl as [Hc Ht]. rewrite sapp_cons. cbn [scheduler_scan].
  apply Ascii.eqb_neq in Hc. rewrite Hc. destruct t as [|c' t].
  - rewrite sapp_nil_l, scan_none, Hl by done. done.
  - rewrite IH by done. by rewrite sapp_assoc.
Qed.

Definition no_dash (s : string) : Prop := no_char "-" s.

Lemma link_tail_head c s : c ≠ "-"%char → link_tail (String c s) = None.
Proof.
  intros Hc. unfold link_tail. cbn [startswith].
  by destruct (Ascii.eqb_spec "-" c) as [<-|_].
Qed.

Lemma link_tail_second c s :
  c ≠ "w"%char → c ≠ "n"%char → link_tail (String "-" (String c s)) = None.
Proof.
  intros Hw Hn. unfold link_tail. cbn [startswith].
  destruct (Ascii.eqb_spec "w" c) as [<-|_]; [done|].
  by destruct (Ascii.eqb_spec "n" c) as [<-|_].
Qed.

Lemma link_tail_no_dash p s : no_dash p → link_tail s = None → link_tail (p +:+ s) = None.
Proof.
  intros Hp Hs. destruct p as [|c p]; [done|]. apply no_char_cons in Hp as [Hc _].
  by apply link_tail_head.
Qed.

Lemma no_tails_app p s :
  no_dash p → link_tail s = None → no_tails s = true → no_tails (p +:+ s) = true.
Proof.
  intros Hp Hl Hs. induction p as [|c p IH]; [done|]. apply no_char_cons in Hp as [_ Hp].
  rewrite sapp_cons. cbn [no_tails]. rewrite link_tail_no_dash by done. by apply IH.
Qed.

Lemma digit_or_no_char d c s :
  is_digit c = false → c ≠ d → str_all (digit_or d) s = true → no_char c s.
Proof.
  intros Hc Hd. apply str_all_impl. intros a Ha. apply negb_true_iff, Ascii.eqb_neq.
  intros ->. unfold digit_or in Ha. rewrite Hc in Ha. by apply Ascii.eqb_eq in Ha.
Qed.

(** the end of a report name: the number of the stream and the duration *)
Definition stream_text (n : Z) (t : Q) : string :=
  show_Z n +:+ "-" +:+ duration_text t +:+ "s.json".

Lemma endswith_app s p : endswith (s +:+ p) p = true.
Proof.
  induction s as [|a s IH].
  - rewrite sapp_nil_l. destruct p; cbn; by rewrite ?String.eqb_refl, ?Ascii.eqb_refl.
  - rewrite sapp_cons. cbn [endswith]. rewrite IH. by rewrite orb_true_r.
Qed.

Lemma digit_or_chars t : 0 <= Qnum t → ∃ a d, duration_text t = String a d ∧
  str_all (digit_or "p") (String a d) = true.
Proof. intros [Hd Hne]%duration_chars. destruct (duration_text t) as [|a d]; [done|eauto]. Qed.

Lemma no_tails_dash c s :
  c ≠ "-"%char → no_tails (String c s) = true → no_tails (String "-" (String c s)) = true.
Proof.
  intros Hc Hs. change (match link_tail (String c s) with None => no_tails (String c s)
                        | Some _ => false end = true). by rewrite link_tail_head.
Qed.

Lemma stream_text_no_tails n t :
  0 ≤ n → 0 <= Qnum t →
  no_tails (stream_text n t) = true ∧ link_tail (stream_text n t) = None.
Proof.
  intros Hn Ht. destruct (digit_or_chars t Ht) as (a & d & E & Ha). unfold stream_text.
  rewrite E, (show_Z_nonneg n Hn).
  assert (Hp : no_dash (show_nonneg n)) by (apply show_nonneg_no_char; done).
  assert (Hd : no_dash (String a d)) by (apply (digit_or_no_char "p"); done).
  assert (Hw : a ≠ "w"%char ∧ a ≠ "n"%char ∧ a ≠ "-"%char).
  { cbn [str_all] in Ha. apply andb_true_iff in Ha as [Ha _]. by split_and!; intros ->. }
  assert (Hl : link_tail ("-" +:+ String a d +:+ "s.json") = None)
    by (apply link_tail_second; apply Hw).
  split; [|by apply link_tail_no_dash].
  apply no_tails_app; [done..|]. apply no_tails_dash; [apply Hw..|].
  change (no_tails (String a d +:+ "s.json") = true). apply no_tails_app; done.
Qed.

Lemma link_no_tails link n t :
  link ∈ valid_links → 0 ≤ n → 0 <= Qnum t →
  no_tails ("-" +:+ link +:+ "-stream" +:+ stream_text n t) = true.
Proof.
  intros Hl Hn Ht. destruct (stream_text_no_tails n t Hn Ht) as [Hs Hs0].
  assert (H : no_tails ("-stream" +:+ stream_text n t) = true).
  { apply no_tails_dash; [done..|].
    change (no_tails ("stream" +:+ stream_text n t) = true). by apply no_tails_app. }
  assert (H' : no_tails ("-only" +:+ "-stream" +:+ stream_text n t) = true).
  { apply no_tails_dash; [done..|].
    change (no_tails ("only" +:+ "-stream" +:+ stream_text n t) = true).
    apply no_tails_app; [done| |done]. by apply link_tail_second. }
  unfold valid_links in Hl.
  apply list_elem_of_In in Hl as [<-|[<-|[]]].
  - change (no_tails ("wifi" +:+ "-only" +:+ "-stream" +:+ stream_text n t) = true).
    apply no_tails_app; [done| |done]. by apply link_tail_second.
  - change (no_tails ("nr" +:+ "-only" +:+ "-stream" +:+ stream_text n t) = true).
    apply no_tails_app; [done| |done]. by apply link_tail_second.
Qed.

Lemma stream_text_tail n t : 0 ≤ n → 0 <= Qnum t → stream_tail (stream_text n t) = true.
Proof.
  intros Hn Ht. destruct (digit_or_chars t Ht) as (a & d & E & Ha). unfold stream_text, stream_tail.
  rewrite E, (show_Z_nonneg n Hn).
  destruct (show_nonneg_spec n Hn) as (Hdig & _ & Hne).
  rewrite span_digits_app by done.
  assert (truthy (show_nonneg n) = true) as -> by by destruct (show_nonneg n).
  change (str_drop 1 ("-" +:+ String a d +:+ "s.json")) with (String a d +:+ "s.json").
  assert (Hnl : no_char newline (String a d +:+ "s.json")).
  { apply no_char_app. split; [|done]. by apply (digit_or_no_char "p"). }
  unfold chomp. rewrite split_last_None by done. rewrite endswith_app, slength_app.
  rewrite (proj2 (has_char_no_char _ _) Hnl). cbn [String.length].
  rewrite (proj2 (Nat.ltb_lt _ _)) by (simpl; lia). done.
Qed.

Lemma link_tail_text link n t :
  link ∈ valid_links → 0 ≤ n → 0 <= Qnum t →
  link_tail ("-" +:+ link +:+ "-stream" +:+ stream_text n t) = Some link.
Proof.
  intros Hl Hn Ht. pose proof (stream_text_tail n t Hn Ht) as H. unfold valid_links in Hl.
  apply list_elem_of_In in Hl as [<-|[<-|[]]]; unfold link_tail.
  - change (str_drop 17 ("-" +:+ "wifi-only" +:+ "-stream" +:+ stream_text n t))
      with (stream_text n t). rewrite H.
    change ("-" +:+ "wifi-only" +:+ "-stream" +:+ stream_text n t)
      with ("-wifi-only-stream" +:+ stream_text n t). by rewrite startswith_app.
  - change (str_drop 15 ("-" +:+ "nr-only" +:+ "-stream" +:+ stream_text n t))
      with (stream_text n t). rewrite H.
    change ("-" +:+ "nr-only" +:+ "-stream" +:+ stream_text n t)
      with ("-nr-only-stream" +:+ stream_text n t). by rewrite startswith_app.
Qed.

Lemma report_match_name link scheduler n t :
  link ∈ valid_links → scheduler ≠ EmptyString → no_char newline scheduler → 0 ≤ n →
  0 <= Qnum t →
  report_match (report_name link scheduler n t) = Some (scheduler, link).
Proof.
  intros Hl Hs Hnl Hn Ht. unfold report_match, report_name.
  assert ((link =? "dual")%string = false) as ->.
  { unfold valid_links in Hl. by apply list_elem_of_In in Hl as [<-|[<-|[]]]. }
  cbn [negb]. rewrite !sapp_assoc.
  change (show_Z n +:+ "-" +:+ duration_text t +:+ "s.json") with (stream_text n t).
  rewrite (scan_found _ _ _ link); auto using link_no_tails, link_tail_text.
Qed.

Lemma profile_match_name c b :
  0 < c → 0 < b →
  ∃ cs bs, profile_match (profile_name c b) = Some (cs, bs) ∧ digits_val 0 cs = c ∧
           digits_val 0 bs = b.
Proof.
  intros Hc Hb. unfold profile_match, profile_name, fmt_03d.
  rewrite (proj2 (Z.ltb_ge c 0)), (show_Z_nonneg b) by lia.
  destruct (show_nonneg_spec c ltac:(lia)) as (Hcd & Hcv & Hcne).
  destruct (show_nonneg_spec b ltac:(lia)) as (Hbd & Hbv & Hbne).
  exists (pad_zeros 3 (show_nonneg c)), (show_nonneg b).
  rewrite startswith_app.
  change (str_drop 1 ("n" +:+ pad_zeros 3 (show_nonneg c) +:+ "-b" +:+ show_nonneg b))
    with (pad_zeros 3 (show_nonneg c) +:+ "-b" +:+ show_nonneg b).
  rewrite span_digits_app by (done || by apply pad_zeros_digits).
  rewrite startswith_app.
  change (str_drop 2 ("-b" +:+ show_nonneg b)) with (show_nonneg b).
  rewrite <- (sapp_nil_r (show_nonneg b)) at 1. rewrite span_digits_app by done.
  assert (truthy (show_nonneg b) = true) as -> by by destruct (show_nonneg b).
  assert (truthy (pad_zeros 3 (show_nonneg c)) = true) as ->.
  { unfold pad_zeros. by destruct (zeros _), (show_nonneg c). }
  split_and!; [done| |done]. unfold pad_zeros. by rewrite digits_val_zeros.
Qed.

Lemma profile_name_split c b :
  0 < b → ∃ p a, profile_name c b = p +:+ String a EmptyString ∧ a ≠ "/"%char.
Proof.
  intros Hb. unfold profile_name. rewrite (show_Z_nonneg b) by lia.
  destruct (show_nonneg_spec b ltac:(lia)) as (Hd & _ & Hne).
  assert (∃ q a, show_nonneg b = q +:+ String a EmptyString ∧ is_digit a = true)
    as (q & a & -> & Ha).
  { revert Hd Hne. induction (show_nonneg b) as [|x s IH]; [done|].
    intros [Hx Hs]%andb_true_iff _. destruct s as [|y s]; [by exists EmptyString, x|].
    destruct IH as (q & a & -> & Ha); [done..|]. by exists (String x q), a. }
  exists ("n" +:+ fmt_03d c +:+ "-b" +:+ q), a. rewrite !sapp_assoc. split; [done|]. by intros ->.
Qed.

Lemma path_join_snoc root p a :
  startswith (p +:+ String a EmptyString) "/" = false →
  ∃ q, path_join root (p +:+ String a EmptyString) = q +:+ String a EmptyString.
Proof.
  intros H. unfold path_join. rewrite H. destruct (negb (truthy root) || endswith root "/").
  - exists (root +:+ p). by rewrite sapp_assoc.
  - exists (root +:+ "/" +:+ p). by rewrite !sapp_assoc.
Qed.

Lemma profile_no_slash c b : 0 < c → 0 < b → no_char "/" (profile_name c b).
Proof.
  intros Hc Hb. unfold profile_name, fmt_03d.
  rewrite (proj2 (Z.ltb_ge c 0)), (show_Z_nonneg b) by lia.
  rewrite !no_char_app. split_and!; [done| |done|apply show_nonneg_no_char; [lia|done]].
  apply digits_no_char; [done|]. apply pad_zeros_digits, show_nonneg_spec. lia.
Qed.

Lemma report_no_slash link scheduler n t :
  link ∈ valid_links → no_char "/" scheduler → 0 ≤ n → 0 <= Qnum t →
  no_char "/" (report_name link scheduler n t).
Proof.
  intros Hl Hs Hn Ht. unfold report_name. rewrite (show_Z_nonneg n Hn), !no_char_app.
  destruct (duration_chars t Ht) as [Hd _].
  split_and!; [done| |done|by apply show_nonneg_no_char|done|by apply (digit_or_no_char "p")|done].
  unfold valid_links in Hl. by apply list_elem_of_In in Hl as [<-|[<-|[]]].
Qed.

(** C13. The file names the sweep gives to its reports are the names the summary reads: below any
    profile root, the report of a link, a client count and a size (all those [iter_jobs] can
    produce), a scheduler without newline or slash, a non-negative stream and a non-negative
    duration is taken as a report of that link, and the digits taken from its profile directory are
    that client count and that size. *)
Theorem names_roundtrip root link c b scheduler n t
    (Hl : link ∈ valid_links) (Hc : 0 < c) (Hb : 0 < b)
    (Hs : scheduler ≠ EmptyString) (Hnl : no_char newline scheduler)
    (Hsl : no_char "/" scheduler) (Hn : 0 ≤ n) (Ht : 0 <= Qnum t) :
  ∃ cs bs, report_key (expected_json (profile_dir_of root (link, c, b)) link scheduler n t) =
             Some (link, cs, bs) ∧
           digits_value cs = c ∧ digits_value bs = b.
Proof.
  unfold report_key, expected_json, profile_dir_of. cbn [fst snd].
  rewrite basename_join by by apply report_no_slash.
  rewrite report_match_name by done.
  pose proof (profile_no_slash c b Hc Hb) as Hp.
  pose proof (basename_join root _ Hp) as Hbase.
  destruct (profile_name_split c b Hb) as (p & a & E & Ha).
  destruct (path_join_snoc root p a) as [q Hq]; [rewrite <- E; by apply startswith_slash|].
  rewrite E, Hq in *. rewrite dirname_join by (done || by apply report_no_slash).
  rewrite Hbase, <- E.
  destruct (profile_match_name c b Hc Hb) as (cs & bs & -> & Hcs & Hbs). by exists cs, bs.
Qed.

Definition sample_report : string :=
  expected_json (profile_dir_of "/repo/profiles" ("nr-only", 4, 1024)) "nr-only" "blest" 7 (21 # 2).

Lemma names_roundtrip_witness :
  sample_report = "/repo/profiles/n004-b1024/blest-nr-only-stream7-10p5s.json" ∧
  ∃ cs bs, report_key sample_report = Some ("nr-only", cs, bs) ∧
           digits_value cs = 4 ∧ digits_value bs = 1024.
Proof.
  split; [by vm_compute|].
  apply (names_roundtrip "/repo/profiles" "nr-only" 4 1024 "blest" 7 (21 # 2)); try done.
  by apply list_elem_of_In; right; left.
Defined.
End NameFacts.

(** ** The rows and the files of a run *)
Module SummaryFacts.
Import Summary.

Definition same_key (a b : row) : bool := row_le a b && row_le b a.

Lemma row_le_total a b : row_le a b = false → row_le b a = true.
Proof.
  unfold row_le. rewrite (String.eqb_sym (link b)), (Z.eqb_sym (clients b)).
  destruct (link a =? link b)%string.
  - destruct (Z.eqb_spec (clients a) (clients b)); lia.
  - destruct (String.leb_total (link a) (link b)) as [H|H]; congruence.
Qed.

Lemma row_le_refl a : row_le a a = true.
Proof. unfold row_le. rewrite String.eqb_refl, Z.eqb_refl. lia. Qed.

Lemma insert_row_perm r l : insert_row r l ≡ₚ r :: l.
Proof.
  induction l as [|x l IH]; [done|]. cbn. case_match; [done|]. rewrite IH. by constructor.
Qed.

Lemma sort_rows_perm l : sort_rows l ≡ₚ l.
Proof. induction l as [|r l IH]; [done|]. cbn. by rewrite insert_row_perm, IH. Qed.

Lemma insert_row_hd x r l :
  row_le x r = true → HdRel (λ a b, row_le a b = true) x l →
  HdRel (λ a b, row_le a b = true) x (insert_row r l).
Proof. intros Hx Hl. destruct Hl; cbn; [by constructor|]. case_match; by constructor. Qed.

Lemma insert_row_sorted r l :
  Sorted (λ a b, row_le a b = true) l → Sorted (λ a b, row_le a b = true) (insert_row r l).
Proof.
  induction 1 as [|x l Hs IH Hhd]; cbn; [by repeat constructor|].
  case_match eqn:E; [by repeat constructor|].
  constructor; [done|]. apply insert_row_hd; [by apply row_le_total|done].
Qed.

Lemma sort_rows_sorted l : Sorted (λ a b, row_le a b = true) (sort_rows l).
Proof. induction l as [|r l IH]; [constructor|]. cbn. by apply insert_row_sorted. Qed.

Lemma same_key_eq a b :
  same_key a b = true →
  link a = link b ∧ clients a = clients b ∧ bytes_per_burst a = bytes_per_burst b.
Proof.
  unfold same_key, row_le. rewrite (String.eqb_sym (link b)), (Z.eqb_sym (clients b)).
  destruct (String.eqb_spec (link a) (link b)) as [Hl|Hl].
  - destruct (Z.eqb_spec (clients a) (clients b)); intros [Ha Hb]%andb_true_iff; [|lia].
    split_and!; [done|done|lia].
  - intros [Ha Hb]%andb_true_iff. by pose proof (String.leb_antisym _ _ Ha Hb).
Qed.

(** inserting before the rows that are not smaller keeps the order of equal keys *)
Lemma insert_row_stable k r l :
  List.filter (same_key k) (insert_row r l) = List.filter (same_key k) (r :: l).
Proof.
  induction l as [|x l IH]; [done|]. cbn [insert_row]. destruct (row_le r x) eqn:E; [done|].
  cbn [List.filter] in *. rewrite IH.
  destruct (same_key k r) eqn:Hr, (same_key k x) eqn:Hx; try done.
  apply same_key_eq in Hr as (H1 & H2 & H3), Hx as (H4 & H5 & H6).
  unfold row_le in E. rewrite <- H1, <- H2, <- H3, <- H4, <- H5, <- H6 in E.
  rewrite String.eqb_refl, Z.eqb_refl in E. lia.
Qed.

Lemma sort_rows_stable k l :
  List.filter (same_key k) (sort_rows l) = List.filter (same_key k) l.
Proof.
  induction l as [|r l IH]; [done|]. cbn [sort_rows foldr].
  rewrite insert_row_stable. cbn [List.filter]. fold (sort_rows l). by rewrite IH.
Qed.

Lemma load_rows_world parse_json float_of_str paths w rows w' :
  load_rows parse_json float_of_str paths w = (Ok rows, w') → w' = w.
Proof.
  revert w rows w'. induction paths as [|p ps IH]; intros w rows w'; [by intros [= _ <-]|].
  cbn [load_rows]. intros H. bindsteps. apply IH in H0. subst.
  unfold load_row in H. case_match; [|by bindsteps].
  destruct p0 as [[l c] b]. bindsteps. unfold read_file in H. case_match; simplify_eq/=.
  unfold py_lift in *. by simplify_eq/=.
Qed.

Lemma load_rows_paths parse_json float_of_str paths w rows w' :
  load_rows parse_json float_of_str paths w = (Ok rows, w') →
  json_path <$> rows = List.filter (λ p, bool_decide (is_Some (report_key p))) paths.
Proof.
  revert w rows w'. induction paths as [|p ps IH]; intros w rows w'; [by intros [= <- _]|].
  cbn [load_rows]. intros H. bindsteps. apply IH in H0. cbn [List.filter]. rewrite <- H0.
  unfold load_row in H. destruct (report_key p) as [[[l c] b]|]; [|by bindsteps].
  rewrite bool_decide_true by done.
  bindsteps. unfold py_lift, report_row in *. simplify_eq/=. by bindsteps.
Qed.

(** C29. A run of the summary that returns, returns 0, and the CSV file then holds one line for each
    file below the profile root whose names match the two patterns (those and no others),
    in the order of (link, clients, bytes), rows with equal keys in the order of the paths; the
    Markdown file holds the tables of the same rows. *)
Theorem summary_written parse_json float_of_str float_repr root pr csv md w w' z
    (Hrun : main parse_json float_of_str float_repr root pr csv md w = (Ok z, w')) :
  let profile_root := normpath (path_join root pr) in
  let csv_path := output_path root csv (path_join profile_root "summary.csv") in
  let md_path := output_path root md (path_join profile_root "summary.md") in
  z = 0 ∧ ∃ rows sorted rel,
    json_path <$> rows = List.filter (λ p, bool_decide (is_Some (report_key p)))
                           (report_paths w profile_root) ∧
    sorted ≡ₚ rows ∧ Sorted (λ a b, row_le a b = true) sorted ∧
    (∀ k, List.filter (same_key k) sorted = List.filter (same_key k) rows) ∧
    dict_get (files w') md_path = Some (join nl (markdown_lines sorted rel)) ∧
    (csv_path ≠ md_path → dict_get (files w') csv_path = Some (csv_text float_repr sorted)).
Proof.
  cbv zeta. unfold main in Hrun. cbv zeta in Hrun.
  apply py_bind_Ok in Hrun as (w0 & w0' & [= <- <-] & Hrun).
  apply py_bind_Ok in Hrun as (rows & w1 & Hrows & Hrun).
  pose proof (load_rows_world _ _ _ _ _ _ Hrows) as ->.
  pose proof (load_rows_paths _ _ _ _ _ _ Hrows) as Hp.
  apply py_bind_Ok in Hrun as (u1 & w1 & Hcsv & Hrun).
  apply py_bind_Ok in Hrun as (u2 & w2 & Hmd & Hrun).
  apply py_bind_Ok in Hrun as (u3 & w3 & Hprint & Hrun).
  injection Hprint as <- <-. injection Hrun as <- <-. split; [done|].
  unfold write_markdown in Hmd. apply py_bind_Ok in Hmd as (u4 & w4 & Hdir & Hmd).
  apply py_bind_Ok in Hmd as (rel & w5 & Hrel & Hmd).
  exists rows, (sort_rows rows), rel.
  split_and!; auto using sort_rows_perm, sort_rows_sorted, sort_rows_stable.
  - injection Hmd as <- <-. cbn. by rewrite dict_get_set_eq.
  - intros Hne. injection Hmd as <- <-. cbn. rewrite dict_get_set_ne by done.
    unfold py_lift in Hrel. injection Hrel as _ <-.
    unfold write_csv in Hcsv. apply py_bind_Ok in Hcsv as (u6 & w6 & Hdir' & Hcsv).
    injection Hcsv as <- <-. unfold Sweep.mkdir_p in Hdir. injection Hdir as <- <-.
    case_match; cbn; by rewrite dict_get_set_eq.
Qed.

Definition sample_json (_ : string) : result json :=
  Ok (JObj [("packet_sink", JObj []); ("warnings", JList [])]).
Definition sample_reports : world :=
  set_files [("/r/p/n004-b64/x-nr-only-stream1-10s.json", "{}"); ("/r/p/n004-b64/notes.json", "{}");
             ("/r/p/n010-b64/x-nr-only-stream1-10s.json", "{}");
             ("/r/p/n002-b64/x-wifi-only-stream1-10s.json", "{}")] ConfigFacts.sample_world.

Lemma summary_written_witness :
  ∃ w' sorted rel,
    main sample_json (λ _, Ok 0%Q) (λ _, "0.0") "/r" "p" EmptyString EmptyString sample_reports
      = (Ok 0, w') ∧
    dict_get (files w') "/r/p/summary.md" = Some (join nl (markdown_lines sorted rel)) ∧
    length sorted = 3%nat.
Proof.
  destruct (main sample_json (λ _, Ok 0%Q) (λ _, "0.0") "/r" "p" EmptyString EmptyString
              sample_reports) as [r w'] eqn:E.
  assert (Hr : r = Ok 0) by (change r with ((r, w').1); rewrite <- E; by vm_compute).
  subst r.
  destruct (summary_written _ _ _ _ _ _ _ _ _ _ E) as (_ & rows & sorted & rel & Hp & Hperm & _ & _ & Hmd & _).
  exists w', sorted, rel. split; [reflexivity|]. split; [exact Hmd|].
  rewrite Hperm, <- (length_fmap json_path), Hp. by vm_compute.
Defined.
End SummaryFacts.
