(* ===== verification/CheckStyle.v ===== *)
(** * utils/check-style.py: the source style checker

    [uncrustify_config_file], the in-memory patches ([PatchChunkLine],
    [PatchChunk], [Patch], [parse_patchset]), the removal of whitespace-only
    changes, and [indent]/[indent_files], which re-indent a copy of each file with
    the external tools [uncrustify] and [patch] and report the files that change.

    Patches are Python objects shared by reference: a chunk is created, appended
    to the current patch and then filled line by line through [current_chunk].
    The model keeps the chunks in a store and a patch holds their addresses. *)
From Stdlib Require Import ZArith Lia Ascii String.
From stdpp Require Import base list strings gmap.
From S2P Require Import Prelude PyStr.

(** ** The generated uncrustify configuration *)
Module Config.
Definition level2 : string := "
nl_collapse_empty_body=False
nl_if_brace=Add
nl_brace_else=Add
nl_elseif_brace=Add
nl_else_brace=Add
nl_while_brace=Add
nl_do_brace=Add
nl_for_brace=Add
nl_brace_while=Add
nl_switch_brace=Add
nl_after_case=True
nl_namespace_brace=Remove
nl_after_brace_open=True
nl_class_leave_one_liners=False
nl_enum_leave_one_liners=False
nl_func_leave_one_liners=False
nl_if_leave_one_liners=False
nl_class_colon=Ignore
nl_after_access_spec=1
nl_after_semicolon=True
pos_class_colon=Lead
pos_class_comma=Trail
pos_bool=Lead
nl_class_init_args=Add
nl_template_class=Add
nl_class_brace=Add
# does not work very well
nl_func_type_name=Ignore
nl_func_scope_name=Ignore
nl_func_type_name_class=Ignore
nl_func_proto_type_name=Ignore
# function\n(
nl_func_paren=Remove
nl_fdef_brace=Add
nl_struct_brace=Add
nl_enum_brace=Add
nl_union_brace=Add
mod_full_brace_do=Add
mod_full_brace_for=Add
mod_full_brace_if=Add
mod_full_brace_while=Add
mod_full_brace_for=Add
mod_remove_extra_semicolon=True
# max code width
#code_width=128
#ls_for_split_full=True
#ls_func_split_full=True
".
Definition level1 : string := "
# extra spaces here and there
sp_brace_typedef=Add
sp_enum_assign=Add
sp_before_sparen=Add
sp_after_semi_for=Add
sp_arith=Add
sp_assign=Add
sp_compare=Add
sp_func_class_paren=Add
sp_after_type=Add
sp_type_func=Add
sp_angle_paren=Add
#sp_after_comma=Add
sp_inside_paren=Remove
sp_inside_angle=Remove
sp_inside_fparen=Remove
".
Definition level0 : string := "
sp_func_proto_paren=Add
sp_func_def_paren=Add
sp_func_call_paren=Add
sp_after_semi_for=Ignore
sp_before_sparen=Ignore
sp_type_func=Ignore
sp_after_type=Ignore
nl_class_leave_one_liners=True
nl_enum_leave_one_liners=True
nl_func_leave_one_liners=True
nl_assign_leave_one_liners=True
#nl_collapse_empty_body=False
nl_getset_leave_one_liners=True
nl_if_leave_one_liners=True
nl_fdef_brace=Ignore
# finally, indentation configuration
indent_with_tabs=0
indent_namespace=false
indent_columns=2
indent_brace=2
indent_case_brace=2
indent_class=true
indent_class_colon=True
# alignment
indent_align_assign=False
align_left_shift=True
# comment reformating disabled
cmt_reflow_mode=1 # do not touch comments at all
cmt_indent_multi=False # really, do not touch them
".

(** the text [uncrustify_config_file(level)] writes to its temporary file *)
Definition uncrustify_config_file (level : Z) : string :=
  level0 +:+ (if (1 <=? level)%Z then level1 else EmptyString) +:+
  (if (2 <=? level)%Z then level2 else EmptyString).
End Config.

(** ** Patches *)
Module Patches.
(** [PatchChunkLine.__type]: 0 before any [set_*] call *)
Inductive line_type := TNone | SRC | DST | BOTH.

#[export] Instance line_type_eq_dec : EqDecision line_type.
Proof. solve_decision. Defined.

Record PatchChunkLine := mk_line { type : line_type; line : string }.

Definition new_line : PatchChunkLine := {| type := TNone; line := EmptyString |}.
Definition set_src (l : string) (_ : PatchChunkLine) : PatchChunkLine :=
  {| type := SRC; line := l |}.
Definition set_dst (l : string) (_ : PatchChunkLine) : PatchChunkLine :=
  {| type := DST; line := l |}.
Definition set_both (l : string) (_ : PatchChunkLine) : PatchChunkLine :=
  {| type := BOTH; line := l |}.
Definition append_to_line (s : string) (l : PatchChunkLine) : PatchChunkLine :=
  {| type := type l; line := line l +:+ s |}.
Definition is_src (l : PatchChunkLine) : bool :=
  bool_decide (type l = SRC) || bool_decide (type l = BOTH).
Definition is_dst (l : PatchChunkLine) : bool :=
  bool_decide (type l = DST) || bool_decide (type l = BOTH).

Definition line_write (l : PatchChunkLine) : result string :=
  match type l with
  | SRC => Ok ("-" +:+ line l +:+ nl)
  | DST => Ok ("+" +:+ line l +:+ nl)
  | BOTH => Ok (" " +:+ line l +:+ nl)
  | TNone => Raise (PyException "invalid patch")
  end.

Record PatchChunk := mk_chunk {
  lines : list PatchChunkLine;
  src_pos : Z;
  dst_pos : Z
}.

Definition new_chunk (src_pos dst_pos : Z) : PatchChunk :=
  {| lines := []; src_pos := src_pos; dst_pos := dst_pos |}.
Definition add_line (l : PatchChunkLine) (c : PatchChunk) : PatchChunk :=
  {| lines := lines c ++ [l]; src_pos := src_pos c; dst_pos := dst_pos c |}.

(** [src()] and [dst()] return the line objects, shared with [__lines]: the model
    returns their positions in [__lines]. *)
Fixpoint positions_from (i : nat) (p : PatchChunkLine → bool) (ls : list PatchChunkLine)
    : list nat :=
  match ls with
  | [] => []
  | l :: ls' => if p l then i :: positions_from (S i) p ls' else positions_from (S i) p ls'
  end.
Definition positions : (PatchChunkLine → bool) → list PatchChunkLine → list nat :=
  positions_from 0.
Definition src (c : PatchChunk) : list nat := positions is_src (lines c).
Definition dst (c : PatchChunk) : list nat := positions is_dst (lines c).
Definition src_len (c : PatchChunk) : Z := Z.of_nat (length (src c)).
Definition dst_len (c : PatchChunk) : Z := Z.of_nat (length (dst c)).

(** [for line in self.__lines: line.write(f)] *)
Fixpoint lines_write (ls : list PatchChunkLine) : result string :=
  match ls with
  | [] => Ok EmptyString
  | l :: ls' => s ← line_write l; r ← lines_write ls'; Ok (s +:+ r)
  end.

Definition chunk_header (c : PatchChunk) : string :=
  "@@ -" +:+ show_Z (src_pos c) +:+ "," +:+ show_Z (src_len c) +:+
  " +" +:+ show_Z (dst_pos c) +:+ "," +:+ show_Z (dst_len c) +:+ " @@" +:+ nl.
#[global] Arguments chunk_header : simpl never.

Definition chunk_write (c : PatchChunk) : result string :=
  body ← lines_write (lines c); Ok (chunk_header c +:+ body).

Record Patch := mk_patch { p_src : string; p_dst : string; chunks : list nat }.

Definition new_patch : Patch := {| p_src := EmptyString; p_dst := EmptyString; chunks := [] |}.
Definition add_chunk (a : nat) (p : Patch) : Patch :=
  {| p_src := p_src p; p_dst := p_dst p; chunks := chunks p ++ [a] |}.
Definition patch_set_src (s : string) (p : Patch) : Patch :=
  {| p_src := s; p_dst := p_dst p; chunks := chunks p |}.
Definition patch_set_dst (s : string) (p : Patch) : Patch :=
  {| p_src := p_src p; p_dst := s; chunks := chunks p |}.

(** the chunks a patch refers to *)
Definition load (heap : list PatchChunk) (p : Patch) : list PatchChunk :=
  omap (λ a, heap !! a) (chunks p).

Fixpoint chunks_write (cs : list PatchChunk) : result string :=
  match cs with
  | [] => Ok EmptyString
  | c :: cs' => s ← chunk_write c; r ← chunks_write cs'; Ok (s +:+ r)
  end.

Definition patch_write (heap : list PatchChunk) (p : Patch) : result string :=
  body ← chunks_write (load heap p);
  Ok ("--- " +:+ p_src p +:+ nl +:+ "+++ " +:+ p_dst p +:+ nl +:+ body).

(** *** Parsing *)

(** The text before an optional final newline, as [$] sees it; [None] when a
    newline remains, which [.] does not match. *)
Definition chomp (s : string) : string :=
  match split_last newline s with
  | Some (h, EmptyString) => h
  | _ => s
  end.
Definition rest_of_line (s : string) : option string :=
  if has_char newline (chomp s) then None else Some (chomp s).

(** a line pattern: the prefix, then the rest of the line as one group *)
Definition prefixed (prefix s : string) : option string :=
  if startswith s prefix then rest_of_line (str_drop (String.length prefix) s) else None.

(** [([0-9]+)] followed by a literal *)
Definition number_then (lit s : string) : option (Z * string) :=
  let '(d, r) := span_digits s in
  if truthy d && startswith r lit
  then Some (digits_val 0 d, str_drop (String.length lit) r) else None.

(** [^@@ -([0-9]+),([0-9]+) \+([0-9]+),([0-9]+) @@], groups 1 and 3 *)
Definition chunk_start (s : string) : option (Z * Z) :=
  if startswith s "@@ -" then
    '(a, r) ← number_then "," (str_drop 4 s);
    '(_, r) ← number_then " +" r;
    '(c, r) ← number_then "," r;
    '(_, _) ← number_then " @@" r;
    Some (a, c)
  else None.

Record pstate := mk_pstate {
  patchset : list Patch;
  heap : list PatchChunk;
  current_patch : option nat;
  current_chunk : option nat
}.

Definition parse_init : pstate :=
  {| patchset := []; heap := []; current_patch := None; current_chunk := None |}.

Definition on_patch (f : Patch → Patch) (st : pstate) : result pstate :=
  match current_patch st with
  | Some i => Ok {| patchset := alter f i (patchset st); heap := heap st;
                    current_patch := current_patch st; current_chunk := current_chunk st |}
  | None => Raise UnboundLocalError
  end.

Definition on_chunk (l : PatchChunkLine) (st : pstate) : result pstate :=
  match current_chunk st with
  | Some a => Ok {| patchset := patchset st; heap := alter (add_line l) a (heap st);
                    current_patch := current_patch st; current_chunk := current_chunk st |}
  | None => Raise UnboundLocalError
  end.

(** one iteration of the loop of [parse_patchset] *)
Definition parse_line (st : pstate) (line : string) : result pstate :=
  match prefixed "--- " line with
  | Some g =>
      Ok {| patchset := patchset st ++ [patch_set_src g new_patch];
            heap := heap st;
            current_patch := Some (length (patchset st));
            current_chunk := current_chunk st |}
  | None =>
  match prefixed "+++ " line with
  | Some g => on_patch (patch_set_dst g) st
  | None =>
  match chunk_start line with
  | Some (a, c) =>
      on_patch (add_chunk (length (heap st)))
        {| patchset := patchset st; heap := heap st ++ [new_chunk a c];
           current_patch := current_patch st; current_chunk := Some (length (heap st)) |}
  | None =>
  match prefixed "-" line with
  | Some g => on_chunk (set_src g new_line) st
  | None =>
  match prefixed "+" line with
  | Some g => on_chunk (set_dst g new_line) st
  | None =>
  match prefixed " " line with
  | Some g => on_chunk (set_both g new_line) st
  | None => Raise (PyException EmptyString)
  end end end end end end.

Fixpoint parse_lines (st : pstate) (ls : list string) : result pstate :=
  match ls with
  | [] => Ok st
  | l :: ls' => st' ← parse_line st l; parse_lines st' ls'
  end.

Definition parse_patchset (generator : list string) : result pstate :=
  parse_lines parse_init generator.

(** *** Whitespace-only changes *)

(** the [whitespace] pattern: a group of any characters, then a group of blanks; the
    first group is greedy, so the second is the last character only *)
Definition is_blank (c : ascii) : bool := Ascii.eqb c " "%char || Ascii.eqb c "009"%char.
Fixpoint init_last (s : string) : option (string * ascii) :=
  match s with
  | EmptyString => None
  | String a s' =>
      match init_last s' with
      | None => Some (EmptyString, a)
      | Some (i, l) => Some (String a i, l)
      end
  end.
Definition whitespace (s : string) : option (string * string) :=
  t ← rest_of_line s;
  '(i, l) ← init_last t;
  if is_blank l then Some (i, String l EmptyString) else None.

(** the body of [for i in range(0,len(src))], over the positions of the source and
    destination lines; the flag is false when [dst[i]] raised [IndexError] *)
Fixpoint rtw_lines (srcs dsts : list nat) (ls : list PatchChunkLine)
    : list PatchChunkLine * bool :=
  match srcs, dsts with
  | [], _ => (ls, true)
  | _ :: _, [] => (ls, false)
  | s :: srcs', d :: dsts' =>
      let ls' :=
        match ls !! s, ls !! d with
        | Some sl, Some dl =>
            match whitespace (line sl) with
            | Some (g1, g2) =>
                if (g1 =? line dl)%string then alter (append_to_line g2) d ls else ls
            | None => ls
            end
        | _, _ => ls
        end in
      rtw_lines srcs' dsts' ls'
  end.

Definition rtw_chunk (c : PatchChunk) : PatchChunk * bool :=
  let '(ls, ok) := rtw_lines (src c) (dst c) (lines c) in
  ({| lines := ls; src_pos := src_pos c; dst_pos := dst_pos c |}, ok).

(** the chunks of the patches in order; the first exception ends the function *)
Fixpoint rtw_chunks (addrs : list nat) (heap : list PatchChunk) : list PatchChunk :=
  match addrs with
  | [] => heap
  | a :: addrs' =>
      match heap !! a with
      | Some c =>
          let '(c', ok) := rtw_chunk c in
          let heap' := <[a := c']> heap in
          if ok then rtw_chunks addrs' heap' else heap'
      | None => rtw_chunks addrs' heap
      end
  end.

Definition remove_trailing_whitespace_changes (gen : list string)
    : result (list Patch * list PatchChunk) :=
  st ← parse_patchset gen;
  Ok (patchset st, rtw_chunks (patchset st ≫= chunks) (heap st)).
End Patches.

(** ** Patches: printing and parsing *)
Module PatchFacts.
Import Patches.

(** A line a patch can hold: one of the three kinds, no newline, and not a removed
    line that starts with ["-- "] nor an added one that starts with ["++ "]: their
    printed forms are the header lines of another patch. *)
Definition wf_line (l : PatchChunkLine) : Prop :=
  no_char newline (line l) ∧
  match type l with
  | TNone => False
  | SRC => startswith (line l) "-- " = false
  | DST => startswith (line l) "++ " = false
  | BOTH => True
  end.

Definition wf_chunk (c : PatchChunk) : Prop :=
  (0 ≤ src_pos c)%Z ∧ (0 ≤ dst_pos c)%Z ∧ Forall wf_line (lines c).

Definition wf_patch (h : list PatchChunk) (p : Patch) : Prop :=
  no_char newline (p_src p) ∧ no_char newline (p_dst p) ∧ Forall wf_chunk (load h p).

Lemma chomp_nl s : no_char newline s → chomp (s +:+ nl) = s.
Proof. intros H. unfold chomp, nl. by rewrite split_last_app. Qed.

Lemma chomp_id s : no_char newline s → chomp s = s.
Proof. intros H. unfold chomp. by rewrite split_last_None. Qed.

Lemma rest_of_line_nl s : no_char newline s → rest_of_line (s +:+ nl) = Some s.
Proof.
  intros H. unfold rest_of_line. rewrite chomp_nl by done.
  by apply has_char_no_char in H as ->.
Qed.

Lemma rest_of_line_id s : no_char newline s → rest_of_line s = Some s.
Proof.
  intros H. unfold rest_of_line. rewrite chomp_id by done.
  by apply has_char_no_char in H as ->.
Qed.

Lemma prefixed_app p s : no_char newline s → prefixed p (p +:+ s +:+ nl) = Some s.
Proof.
  intros H. unfold prefixed. rewrite startswith_app, str_drop_app.
  by apply rest_of_line_nl.
Qed.

Lemma prefixed_no p s : startswith s p = false → prefixed p s = None.
Proof. intros H. unfold prefixed. by rewrite H. Qed.

Lemma number_then_show n lit r :
  (0 ≤ n)%Z →
  match lit with String a _ => is_digit a = false | EmptyString => False end →
  number_then lit (show_nonneg n +:+ lit +:+ r) = Some (n, r).
Proof.
  intros Hn Hl. destruct (show_nonneg_spec n Hn) as (Hd & Hv & Hne).
  unfold number_then. rewrite span_digits_app; [|done|by destruct lit].
  rewrite Hv, startswith_app, str_drop_app.
  by destruct (show_nonneg n).
Qed.

Lemma chunk_start_header c :
  (0 ≤ src_pos c)%Z → (0 ≤ dst_pos c)%Z →
  chunk_start (chunk_header c) = Some (src_pos c, dst_pos c).
Proof.
  intros Hs Hd. unfold chunk_start, chunk_header.
  rewrite startswith_app. change 4 with (String.length "@@ -").
  rewrite str_drop_app. unfold src_len, dst_len. rewrite !show_Z_nonneg by lia.
  rewrite number_then_show by (done || lia). simpl.
  rewrite number_then_show by (done || lia). simpl.
  rewrite number_then_show by (done || lia). simpl.
  rewrite number_then_show by (done || lia). done.
Qed.

Lemma header_no_nl c :
  (0 ≤ src_pos c)%Z → (0 ≤ dst_pos c)%Z →
  ∃ h, chunk_header c = "@@ -" +:+ h +:+ nl ∧ no_char newline h.
Proof.
  intros Hs Hd. unfold chunk_header, src_len, dst_len. rewrite !show_Z_nonneg by lia.
  exists (show_nonneg (src_pos c) +:+ "," +:+ show_nonneg (Z.of_nat (length (src c))) +:+
          " +" +:+ show_nonneg (dst_pos c) +:+ "," +:+
          show_nonneg (Z.of_nat (length (dst c))) +:+ " @@").
  rewrite !sapp_assoc. split; [done|].
  rewrite !no_char_app. repeat split; apply show_nonneg_no_char; done || lia.
Qed.

Lemma lines_keep_header c r :
  (0 ≤ src_pos c)%Z → (0 ≤ dst_pos c)%Z →
  lines_keep (chunk_header c +:+ r) = chunk_header c :: lines_keep r.
Proof.
  intros Hs Hd. destruct (header_no_nl c Hs Hd) as (h & -> & Hn).
  rewrite <- sapp_assoc, (sapp_assoc _ nl), lines_keep_line; [done|].
  by rewrite no_char_app.
Qed.

(** The states [parse_patchset] goes through on the text of one patch. *)
Definition parsed (s d : string) (cs : list PatchChunk) : pstate :=
  {| patchset := [{| p_src := s; p_dst := d; chunks := seq 0 (length cs) |}];
     heap := cs;
     current_patch := Some 0;
     current_chunk := match cs with [] => None | _ => Some (length cs - 1) end |}.

Lemma on_chunk_parsed s d cs c l :
  on_chunk l (parsed s d (cs ++ [c])) = Ok (parsed s d (cs ++ [add_line l c])).
Proof.
  unfold on_chunk, parsed. rewrite !length_app. simpl.
  destruct cs as [|c0 cs]; simpl; [done|].
  replace (length cs + 1 - 0) with (S (length cs)) by lia. simpl.
  do 3 f_equal. f_equal. clear. induction cs as [|c1 cs IH]; simpl; [done|].
  by f_equal.
Qed.

(** the printed line of a well-formed line is parsed back as that line *)
Lemma parse_line_written s d cs c l w :
  wf_line l → line_write l = Ok w →
  parse_line (parsed s d (cs ++ [c])) w = Ok (parsed s d (cs ++ [add_line l c])).
Proof.
  destruct l as [[] t]; unfold wf_line, line_write; simpl; intros [Hnl Hwf] [= <-].
  all: unfold parse_line; rewrite ?(prefixed_no "--- "), ?(prefixed_no "+++ ").
  all: rewrite ?sapp_cons, ?sapp_nil_l; simpl; rewrite ?startswith_nl by done; try done.
  - change (String "-" (t +:+ nl)) with ("-" +:+ t +:+ nl).
    rewrite prefixed_app by done. apply on_chunk_parsed.
  - change (String "+" (t +:+ nl)) with ("+" +:+ t +:+ nl).
    rewrite prefixed_app by done. apply on_chunk_parsed.
  - change (String " " (t +:+ nl)) with (" " +:+ t +:+ nl).
    rewrite prefixed_app by done. apply on_chunk_parsed.
Qed.

Lemma line_write_wf l :
  wf_line l → ∃ t, line_write l = Ok (t +:+ nl) ∧ no_char newline t.
Proof.
  destruct l as [[] t]; intros [Hnl Hwf]; simpl in *; [done|..];
    eexists (String _ t); (split; [reflexivity|]); by apply no_char_cons.
Qed.

(** the printed lines of a chunk, parsed after its header *)
Lemma parse_lines_written s d cs c ls rest :
  Forall wf_line ls →
  ∃ w, lines_write ls = Ok w ∧
    parse_lines (parsed s d (cs ++ [c])) (lines_keep (w +:+ rest)) =
    parse_lines (parsed s d (cs ++ [{| lines := lines c ++ ls; src_pos := src_pos c;
                                        dst_pos := dst_pos c |}])) (lines_keep rest).
Proof.
  intros H. revert c. induction H as [|l ls Hl _ IH]; intros c.
  - exists EmptyString. rewrite app_nil_r. by destruct c.
  - destruct (line_write_wf l Hl) as (t & Hw & Ht).
    destruct (IH (add_line l c)) as (w & Hws & Hp).
    exists ((t +:+ nl) +:+ w). simpl. rewrite Hw, Hws. split; [done|].
    rewrite !sapp_assoc, lines_keep_line by done. simpl.
    rewrite (parse_line_written _ _ _ _ l) by done. simpl. rewrite Hp.
    unfold add_line. simpl. by rewrite <- app_assoc.
Qed.

Lemma parse_header s d cs c :
  (0 ≤ src_pos c)%Z → (0 ≤ dst_pos c)%Z →
  parse_line (parsed s d cs) (chunk_header c) =
  Ok (parsed s d (cs ++ [new_chunk (src_pos c) (dst_pos c)])).
Proof.
  intros Hs Hd. unfold parse_line. rewrite chunk_start_header by done.
  destruct (header_no_nl c Hs Hd) as (h & -> & _).
  rewrite !sapp_cons. simpl. unfold on_patch, parsed. simpl.
  rewrite length_app. simpl. f_equal. f_equal.
  - unfold add_chunk. simpl. by rewrite Nat.add_1_r, seq_S.
  - destruct cs; simpl; [done|]. f_equal. lia.
Qed.

Lemma parse_chunks_written s d cs cs' :
  Forall wf_chunk cs' →
  ∃ w, chunks_write cs' = Ok w ∧
    parse_lines (parsed s d cs) (lines_keep w) = Ok (parsed s d (cs ++ cs')).
Proof.
  intros H. revert cs. induction H as [|c cs' (Hs & Hd & Hl) _ IH]; intros cs.
  - exists EmptyString. by rewrite app_nil_r.
  - destruct (IH (cs ++ [c])) as (w & Hw & Hp).
    destruct (parse_lines_written s d cs (new_chunk (src_pos c) (dst_pos c)) (lines c) w Hl)
      as (b & Hb & Hpb).
    exists ((chunk_header c +:+ b) +:+ w). cbn [chunks_write]. unfold chunk_write.
    rewrite Hb, Hw. split; [done|].
    rewrite sapp_assoc, lines_keep_header by done. cbn [parse_lines].
    rewrite parse_header by done. cbn [mbind result_bind].
    rewrite Hpb. cbn [lines new_chunk src_pos dst_pos app].
    replace {| lines := lines c; src_pos := src_pos c; dst_pos := dst_pos c |}
      with c by (by destruct c).
    by rewrite Hp, <- app_assoc.
Qed.

Lemma omap_seq_lookup {A} (pre l : list A) :
  omap (λ a, (pre ++ l) !! a) (seq (length pre) (length l)) = l.
Proof.
  revert pre. induction l as [|x l IH]; intros pre; [done|]. simpl.
  rewrite list_lookup_middle by done. f_equal.
  replace (pre ++ x :: l) with ((pre ++ [x]) ++ l) by (by rewrite <- app_assoc).
  specialize (IH (pre ++ [x])). rewrite length_app in IH. simpl in IH.
  by rewrite Nat.add_1_r in IH.
Qed.

Lemma load_parsed cs s d :
  load cs {| p_src := s; p_dst := d; chunks := seq 0 (length cs) |} = cs.
Proof. apply (omap_seq_lookup []). Qed.

(** C40. Round trip of [Patch.write] and [parse_patchset]: printing a well-formed patch
    succeeds, and parsing the printed text yields exactly one patch with the same file
    names and the same chunks (positions, line kinds, line texts). *)
Theorem parse_write_roundtrip (h : list PatchChunk) (p : Patch)
    (Hwf : wf_patch h p) :
  ∃ text st p',
    patch_write h p = Ok text ∧
    parse_patchset (lines_keep text) = Ok st ∧
    patchset st = [p'] ∧
    p_src p' = p_src p ∧ p_dst p' = p_dst p ∧ load (heap st) p' = load h p.
Proof.
  destruct Hwf as (Hs & Hd & Hc). destruct p as [s d cs]. simpl in *.
  destruct (parse_chunks_written s d [] _ Hc) as (w & Hw & Hp).
  eexists _, _, _. unfold patch_write. rewrite Hw. split; [reflexivity|].
  unfold parse_patchset. cbn [p_src p_dst].
  rewrite <- (sapp_assoc "--- "), lines_keep_line by (by rewrite no_char_app).
  rewrite <- (sapp_assoc "+++ "), lines_keep_line by (by rewrite no_char_app).
  rewrite !sapp_assoc. cbn [parse_lines]. unfold parse_line at 1.
  rewrite prefixed_app by done. cbn [mbind result_bind].
  unfold parse_line at 1. rewrite prefixed_no, prefixed_app by done.
  split; [exact Hp|]. split; [reflexivity|]. split; [done|]. split; [done|].
  apply load_parsed.
Qed.

Definition sample_chunk : PatchChunk :=
  {| lines := [mk_line BOTH "int a;"; mk_line SRC "int  b;"; mk_line DST "int b;"];
     src_pos := 3; dst_pos := 3 |}.
Definition sample_patch : Patch := {| p_src := "a.cc"; p_dst := "/tmp/x"; chunks := [0] |}.

Lemma parse_write_roundtrip_witness :
  wf_patch [sample_chunk] sample_patch ∧
  ∃ text st p',
    patch_write [sample_chunk] sample_patch = Ok text ∧
    parse_patchset (lines_keep text) = Ok st ∧
    patchset st = [p'] ∧
    p_src p' = "a.cc" ∧ p_dst p' = "/tmp/x" ∧
    load (heap st) p' = load [sample_chunk] sample_patch.
Proof.
  assert (wf_patch [sample_chunk] sample_patch) as H.
  { repeat (split || constructor); simpl; done || lia. }
  split; [exact H|]. exact (parse_write_roundtrip _ _ H).
Defined.

(** A removed source line whose text starts with ["-- "] breaks the round trip:
    its printed form ["--- ..."] is read back as the header of a further patch, whatever
    the parser state, so the line is lost and the following lines go elsewhere. *)
Theorem removed_dashes_start_a_patch (st : pstate) (g : string) (w : string)
    (Hg : no_char newline g)
    (Hw : line_write {| type := SRC; line := "-- " +:+ g |} = Ok w) :
  parse_line st w =
  Ok {| patchset := patchset st ++ [{| p_src := g; p_dst := EmptyString; chunks := [] |}];
        heap := heap st; current_patch := Some (length (patchset st));
        current_chunk := current_chunk st |}.
Proof.
  injection Hw as <-. unfold parse_line.
  change ("-" +:+ ("-- " +:+ g) +:+ nl) with ("--- " +:+ g +:+ nl).
  by rewrite prefixed_app.
Qed.

Lemma removed_dashes_start_a_patch_witness :
  parse_line (parsed "a.sql" "b.sql" [new_chunk 1 1]) ("--- drop x" +:+ nl) =
  Ok {| patchset := [{| p_src := "a.sql"; p_dst := "b.sql"; chunks := [0] |};
                     {| p_src := "drop x"; p_dst := EmptyString; chunks := [] |}];
        heap := [new_chunk 1 1]; current_patch := Some 1; current_chunk := Some 0 |}.
Proof.
  apply (removed_dashes_start_a_patch (parsed "a.sql" "b.sql" [new_chunk 1 1])
           "drop x" ("--- drop x" +:+ nl)); reflexivity.
Defined.

(** *** Whitespace-only changes *)
Lemma positions_from_spec k p ls i :
  i ∈ positions_from k p ls ↔ ∃ j l, i = k + j ∧ ls !! j = Some l ∧ p l = true.
Proof.
  revert k. induction ls as [|l ls IH]; intros k; simpl.
  - split; [set_solver|]. by intros (? & ? & _ & ? & _).
  - assert (i ∈ positions_from (S k) p ls ↔
            ∃ j l', i = k + S j ∧ ls !! j = Some l' ∧ p l' = true) as IH'.
    { rewrite IH. setoid_rewrite Nat.add_succ_r. done. }
    destruct (p l) eqn:Hp; rewrite ?elem_of_cons, IH'; split.
    + intros [->|(j & l' & H)]; [exists 0, l|exists (S j), l']; rewrite ?Nat.add_0_r; auto.
    + intros ([|j] & l' & -> & Hl & Hp'); [left; lia|right; eauto].
    + intros (j & l' & H). by exists (S j), l'.
    + intros ([|j] & l' & -> & Hl & Hp'); simpl in *; [congruence|eauto].
Qed.

Lemma positions_spec p ls i :
  i ∈ positions p ls ↔ ∃ l, ls !! i = Some l ∧ p l = true.
Proof.
  unfold positions. rewrite positions_from_spec. simpl. naive_solver.
Qed.

Lemma positions_from_NoDup k p ls : NoDup (positions_from k p ls).
Proof.
  revert k. induction ls as [|l ls IH]; intros k; simpl; [constructor|].
  destruct (p l); [|apply IH]. constructor; [|apply IH].
  rewrite positions_from_spec. intros (j & l' & H & _). lia.
Qed.

Lemma positions_NoDup p ls : NoDup (positions p ls).
Proof. apply positions_from_NoDup. Qed.

(** The text of a line may grow by one blank. *)
Definition grown (l l' : PatchChunkLine) : Prop :=
  type l' = type l ∧
  (line l' = line l ∨ ∃ b, is_blank b = true ∧ line l' = line l +:+ String b EmptyString).

(** the update made at one pair of positions *)
Definition rtw_step (s d : nat) (ls : list PatchChunkLine) : list PatchChunkLine :=
  match ls !! s, ls !! d with
  | Some sl, Some dl =>
      match whitespace (line sl) with
      | Some (g1, g2) =>
          if (g1 =? line dl)%string then alter (append_to_line g2) d ls else ls
      | None => ls
      end
  | _, _ => ls
  end.

Lemma rtw_lines_cons s ss d ds ls :
  rtw_lines (s :: ss) (d :: ds) ls = rtw_lines ss ds (rtw_step s d ls).
Proof. reflexivity. Qed.

Lemma whitespace_blank t g1 g2 :
  whitespace t = Some (g1, g2) → ∃ b, g2 = String b EmptyString ∧ is_blank b = true.
Proof.
  unfold whitespace. destruct (rest_of_line t) as [u|]; [|done]. simpl.
  destruct (init_last u) as [[i l]|]; [|done]. simpl.
  destruct (is_blank l) eqn:E; [|done]. intros [= <- <-]. eauto.
Qed.

Lemma rtw_step_other s d ls i : i ≠ d → rtw_step s d ls !! i = ls !! i.
Proof.
  intros Hne. unfold rtw_step. repeat case_match; try done.
  by rewrite list_lookup_alter_ne.
Qed.

Lemma rtw_step_at s d ls sl dl :
  ls !! s = Some sl → ls !! d = Some dl →
  rtw_step s d ls !! d =
  Some (match whitespace (line sl) with
        | Some (g1, g2) => if (g1 =? line dl)%string then append_to_line g2 dl else dl
        | None => dl
        end).
Proof.
  intros Hs Hd. unfold rtw_step. rewrite Hs, Hd.
  destruct (whitespace (line sl)) as [[g1 g2]|]; [|done].
  destruct (g1 =? line dl)%string; [|done].
  by rewrite list_lookup_alter_eq, Hd.
Qed.

Lemma rtw_step_length s d ls : length (rtw_step s d ls) = length ls.
Proof. unfold rtw_step. repeat case_match; try done. by rewrite length_alter. Qed.

(** positions outside the destination list are untouched *)
Lemma rtw_lines_other ss ds ls i :
  i ∉ ds → (rtw_lines ss ds ls).1 !! i = ls !! i.
Proof.
  revert ds ls. induction ss as [|s ss IH]; intros ds ls Hi; [done|].
  destruct ds as [|d ds]; [done|]. rewrite rtw_lines_cons.
  apply not_elem_of_cons in Hi as [Hne Hi].
  rewrite IH by done. by apply rtw_step_other.
Qed.

Lemma rtw_lines_length ss ds ls : length (rtw_lines ss ds ls).1 = length ls.
Proof.
  revert ds ls. induction ss as [|s ss IH]; intros ds ls; [done|].
  destruct ds as [|d ds]; [done|]. rewrite rtw_lines_cons, IH. apply rtw_step_length.
Qed.

Lemma rtw_step_grown s d ls l :
  ls !! d = Some l → ∃ l', rtw_step s d ls !! d = Some l' ∧ grown l l'.
Proof.
  intros Hd. unfold rtw_step. rewrite Hd.
  destruct (ls !! s) as [sl|]; [|exists l; rewrite Hd; repeat split; auto].
  destruct (whitespace (line sl)) as [[g1 g2]|] eqn:Hw; [|exists l; repeat split; auto].
  destruct (g1 =? line l)%string; [|exists l; repeat split; auto].
  destruct (whitespace_blank _ _ _ Hw) as (b & -> & Hb).
  rewrite list_lookup_alter_eq, Hd. eexists; split; [reflexivity|].
  split; [done|]. right. eauto.
Qed.

Lemma rtw_lines_grown ss ds ls i l :
  NoDup ds → ls !! i = Some l →
  ∃ l', (rtw_lines ss ds ls).1 !! i = Some l' ∧ grown l l'.
Proof.
  revert ds ls. induction ss as [|s ss IH]; intros ds ls Hnd Hi;
    [exists l; repeat split; auto|].
  destruct ds as [|d ds]; [exists l; repeat split; auto|].
  rewrite rtw_lines_cons. apply NoDup_cons in Hnd as [Hd Hnd].
  destruct (decide (i = d)) as [->|Hne].
  - rewrite rtw_lines_other by done. by apply rtw_step_grown.
  - apply IH; [done|]. by rewrite rtw_step_other.
Qed.

Lemma rtw_lines_at ss ds ls k s d sl dl :
  NoDup ds → s ∉ ds →
  ss !! k = Some s → ds !! k = Some d →
  ls !! s = Some sl → ls !! d = Some dl →
  (rtw_lines ss ds ls).1 !! d =
  Some (match whitespace (line sl) with
        | Some (g1, g2) => if (g1 =? line dl)%string then append_to_line g2 dl else dl
        | None => dl
        end).
Proof.
  revert ds ls k. induction ss as [|s' ss IH]; intros ds ls k Hnd Hs Hk Hk' Hsl Hdl; [done|].
  destruct ds as [|d' ds]; [done|]. rewrite rtw_lines_cons.
  apply NoDup_cons in Hnd as [Hd Hnd]. apply not_elem_of_cons in Hs as [Hne Hs].
  destruct k as [|k]; simplify_eq/=.
  - rewrite rtw_lines_other by done. by apply rtw_step_at.
  - apply IH with k; try done; rewrite rtw_step_other; try done.
    intros ->. apply Hd. by apply list_elem_of_lookup_2 in Hk'.
Qed.

Lemma src_only_not_dst c i l : lines c !! i = Some l → type l = SRC → i ∉ dst c.
Proof.
  intros Hl Ht. unfold dst. rewrite positions_spec. intros (l' & Hl' & Hp).
  simplify_eq. unfold is_dst in Hp. rewrite Ht in Hp. done.
Qed.

(** [remove_trailing_whitespace_changes] keeps the shape of every chunk: no line is
    added, removed or moved, no line changes kind, a line's text changes at most by one
    blank appended at its end, and a removed ([SRC]) line never changes. *)
Theorem rtw_chunk_shape (c : PatchChunk) :
  let c' := (rtw_chunk c).1 in
  src_pos c' = src_pos c ∧ dst_pos c' = dst_pos c ∧
  length (lines c') = length (lines c) ∧
  (∀ i l, lines c !! i = Some l →
     ∃ l', lines c' !! i = Some l' ∧ grown l l' ∧ (type l = SRC → l' = l)).
Proof.
  unfold rtw_chunk. pose proof (rtw_lines_length (src c) (dst c) (lines c)) as Hlen.
  pose proof (rtw_lines_grown (src c) (dst c) (lines c)) as Hg.
  pose proof (rtw_lines_other (src c) (dst c) (lines c)) as Ho.
  destruct (rtw_lines (src c) (dst c) (lines c)) as [ls ok]. simpl in *.
  repeat split; try done. intros i l Hi.
  destruct (Hg i l (positions_NoDup _ _) Hi) as (l' & Hl' & Hgr).
  exists l'. split; [done|]. split; [done|]. intros Ht.
  rewrite Ho in Hl' by (by eapply src_only_not_dst). congruence.
Qed.

(** Functional behaviour on a pair: when the [k]-th source line is a removed line
    and the [k]-th destination line is [dl], the destination line afterwards is [dl] with
    the removed line's last character appended exactly when that character is a blank and
    the rest of the removed line is [dl]; otherwise it is unchanged. *)
Theorem rtw_chunk_pair (c : PatchChunk) (k s d : nat) (sl dl : PatchChunkLine)
    (Hs : src c !! k = Some s) (Hd : dst c !! k = Some d)
    (Hsl : lines c !! s = Some sl) (Hdl : lines c !! d = Some dl)
    (Hsrc : type sl = SRC) :
  lines (rtw_chunk c).1 !! d =
  Some (match whitespace (line sl) with
        | Some (g1, g2) => if (g1 =? line dl)%string then append_to_line g2 dl else dl
        | None => dl
        end).
Proof.
  unfold rtw_chunk.
  pose proof (rtw_lines_at (src c) (dst c) (lines c) k s d sl dl) as H.
  destruct (rtw_lines (src c) (dst c) (lines c)) as [ls ok].
  apply H; try done; [apply positions_NoDup|by eapply src_only_not_dst].
Qed.

Definition blank_chunk : PatchChunk :=
  {| lines := [mk_line BOTH "x"; mk_line SRC "y "; mk_line DST "y"];
     src_pos := 1; dst_pos := 1 |}.

Lemma rtw_chunk_pair_witness :
  lines (rtw_chunk blank_chunk).1 !! 2 = Some (mk_line DST "y ").
Proof.
  exact (rtw_chunk_pair blank_chunk 1 1 2 (mk_line SRC "y ") (mk_line DST "y")
           eq_refl eq_refl eq_refl eq_refl eq_refl).
Defined.

Lemma init_last_app t b : init_last (t +:+ String b EmptyString) = Some (t, b).
Proof. induction t as [|a t IH]; [done|]. rewrite sapp_cons. simpl. by rewrite IH. Qed.

(** The pattern [whitespace] neutralises one trailing blank only: when a removed line
    is the new line followed by two or more blanks, the pair is left as it is, so the
    whitespace-only change stays in the patch although the function is there to drop it. *)
Theorem rtw_keeps_longer_blanks (c : PatchChunk) (k s d : nat) (dl : PatchChunkLine)
    (w : string) (b1 b2 : ascii)
    (Hs : src c !! k = Some s) (Hd : dst c !! k = Some d)
    (Hsl : lines c !! s =
           Some (mk_line SRC (line dl +:+ w +:+ String b1 (String b2 EmptyString))))
    (Hdl : lines c !! d = Some dl)
    (Hnl : no_char newline (line dl +:+ w +:+ String b1 (String b2 EmptyString))) :
  lines (rtw_chunk c).1 !! d = Some dl.
Proof.
  unfold rtw_chunk.
  pose proof (rtw_lines_at (src c) (dst c) (lines c) k s d _ dl
    (positions_NoDup _ _) (src_only_not_dst _ _ _ Hsl eq_refl) Hs Hd Hsl Hdl) as H.
  destruct (rtw_lines (src c) (dst c) (lines c)) as [ls ok]. simpl in *. rewrite H.
  unfold whitespace. rewrite rest_of_line_id by done. cbn [mbind option_bind].
  change (String b1 (String b2 EmptyString))
    with (String b1 EmptyString +:+ String b2 EmptyString).
  rewrite <- !sapp_assoc, init_last_app. simpl. destruct (is_blank b2); [|done].
  destruct (_ =? _)%string eqn:E; [|done]. exfalso.
  apply String.eqb_eq, (f_equal String.length) in E.
  rewrite !slength_app in E. simpl in E. lia.
Qed.

Lemma rtw_keeps_longer_blanks_witness :
  lines (rtw_chunk {| lines := [mk_line SRC "y  "; mk_line DST "y"]; src_pos := 1;
                      dst_pos := 1 |}).1 !! 1 = Some (mk_line DST "y").
Proof.
  exact (rtw_keeps_longer_blanks
    {| lines := [mk_line SRC "y  "; mk_line DST "y"]; src_pos := 1; dst_pos := 1 |}
    0 0 1 (mk_line DST "y") EmptyString " "%char " "%char
    eq_refl eq_refl eq_refl eq_refl eq_refl).
Defined.

(** A context line can be rewritten: in a chunk that removes ["x "] just before the
    context line ["x"], the context line is the first destination line, so it is the one
    that gets the blank, and the source side of the chunk no longer is the source file. *)
Theorem rtw_changes_context :
  let c := {| lines := [mk_line SRC "x "; mk_line BOTH "x"]; src_pos := 1; dst_pos := 1 |} in
  (rtw_chunk c).1 =
  {| lines := [mk_line SRC "x "; mk_line BOTH "x "]; src_pos := 1; dst_pos := 1 |}.
Proof. reflexivity. Qed.
End PatchFacts.

(** ** The checker: indent, indent_files and the entry points *)
Module Indent.
Import Config Patches.

(** The file system, the counter behind [tempfile.mkstemp], and what was printed. *)
Record world := mk_world {
  files : gmap string string;
  tmp_count : nat;
  stdout : list string;
  stderr : list string
}.

Definition set_file (p c : string) (w : world) : world :=
  {| files := <[p := c]> (files w); tmp_count := tmp_count w;
     stdout := stdout w; stderr := stderr w |}.
Definition print (s : string) : py world unit := py_modify (λ w,
  {| files := files w; tmp_count := tmp_count w;
     stdout := stdout w ++ [s]; stderr := stderr w |}).
Definition eprint (s : string) : py world unit := py_modify (λ w,
  {| files := files w; tmp_count := tmp_count w;
     stdout := stdout w; stderr := stderr w ++ [s] |}).

Definition read_file (p : string) : py world string := λ w,
  match files w !! p with
  | Some c => (Ok c, w)
  | None => (Raise (FileNotFoundError p), w)
  end.
Definition write_file (p c : string) : py world unit := py_modify (set_file p c).

Record options := mk_options {
  opt_debug : bool;
  opt_level : Z;
  opt_hg_hook : bool;
  opt_hg : bool;
  opt_file : string;
  opt_diff : bool;
  opt_in_place : bool
}.

Section tools.
(** The external programs, [difflib] and the names [mkstemp] gives:
    [uncrustify] maps a configuration and a source text to the re-indented text
    ([None]: not installed), [patch_tool] applies a diff to a text, [hg_status] is what
    [hg st -nma] prints. *)
Variable uncrustify : option (string → string → string).
Variable patch_tool : string → string → string.
Variable unified_diff : list string → list string → string → string → list string.
Variable tmp_name : nat → string.
Variable hg_status : list string.

(** [tempfile.mkstemp()]: a fresh empty file *)
Definition mkstemp : py world string := λ w,
  let p := tmp_name (tmp_count w) in
  (Ok p, {| files := <[p := EmptyString]> (files w); tmp_count := S (tmp_count w);
            stdout := stdout w; stderr := stderr w |}).

Definition hg_modified_files : list string := strip <$> hg_status.

Definition copy_file (filename : string) : py world string :=
  pathname ← mkstemp;
  text ← read_file filename;
  write_file pathname (join EmptyString (lines_keep text)) ;;
  mret pathname.

Definition config_file (level : Z) : py world string :=
  pathname ← mkstemp;
  write_file pathname (uncrustify_config_file level) ;;
  mret pathname.

(** the text of the final diff; [diff] is the generator, empty once it is consumed *)
Definition final_diff_text (level : Z) (diff : list string) : result string :=
  if (level <? 3)%Z then
    '(ps, h) ← remove_trailing_whitespace_changes diff;
    match ps with
    | [] => Ok EmptyString
    | p :: _ => patch_write h p
    end
  else Ok (join EmptyString diff).

Definition indent (source : string) (debug : bool) (level : Z) : py world string :=
  output ← mkstemp;
  cfg ← config_file level;
  (if debug then
     eprint ("original file=" +:+ source +:+ nl) ;;
     eprint ("uncrustify config file=" +:+ cfg +:+ nl) ;;
     eprint ("temporary file=" +:+ output +:+ nl)
   else mret ()) ;;
  match uncrustify with
  | None => py_raise (PyException "uncrustify not installed")
  | Some u =>
      cfg_text ← read_file cfg;
      src_text ← read_file source;
      write_file output (u cfg_text src_text) ;;
      src ← read_file source;
      dst ← read_file output;
      let diff := unified_diff (lines_keep src) (lines_keep dst) source output in
      diff ← (if debug then
                initial_diff ← mkstemp;
                write_file initial_diff (join EmptyString diff) ;;
                mret []
              else mret diff);
      final_diff ← mkstemp;
      text ← py_lift (final_diff_text level diff);
      write_file final_diff text ;;
      (if debug then eprint ("final diff file=" +:+ final_diff +:+ nl) else mret ()) ;;
      src ← read_file source;
      write_file output src ;;
      text ← read_file final_diff;
      out ← read_file output;
      write_file output (patch_tool text out) ;;
      mret output
  end.

Fixpoint indent_all (fs : list string) (debug : bool) (level : Z)
    : py world (list (string * string)) :=
  match fs with
  | [] => mret []
  | f :: fs' =>
      dst ← indent f debug level;
      rest ← indent_all fs' debug level;
      mret ((f, dst) :: rest)
  end.

Definition copy_all (output : list (string * string)) : py world unit :=
  py_for output (λ sd : string * string, c ← read_file sd.2; write_file sd.1 c).

(** the pairs for which [filecmp.cmp(src, dst) == 0] *)
Fixpoint badly_indented (output : list (string * string))
    : py world (list (string * string)) :=
  match output with
  | [] => mret []
  | (s, d) :: rest =>
      a ← read_file s;
      b ← read_file d;
      failed ← badly_indented rest;
      mret (if (a =? b)%string then failed else (s, d) :: failed)
  end.

Definition report (failed : list (string * string)) (diff : bool) : py world unit :=
  if negb diff then
    print ("Found " +:+ show_Z (Z.of_nat (length failed)) +:+ " badly indented files:" +:+ nl) ;;
    py_for failed (λ sd : string * string, print ("  " +:+ sd.1 +:+ nl))
  else
    py_for failed (λ sd : string * string,
      s ← read_file sd.1;
      d ← read_file sd.2;
      py_for (unified_diff (lines_keep s) (lines_keep d) sd.1 sd.2) print).

Definition indent_files (fs : list string) (diff debug : bool) (level : Z) (inplace : bool)
    : py world bool :=
  output ← indent_all fs debug level;
  if inplace then
    copy_all output ;; mret true
  else
    failed ← badly_indented output;
    if (0 <? length failed) then report failed diff ;; mret false else mret true.

(** [True] tells Mercurial that the hook failed. *)
Definition run_as_hg_hook : py world bool :=
  ok ← indent_files hg_modified_files false false 0 false;
  mret (negb ok).

Definition run_as_main (o : options) : py world unit :=
  if opt_hg_hook o then
    ok ← indent_files hg_modified_files false (opt_debug o) (opt_level o) false;
    py_raise (SystemExit (Z.b2z (negb ok)))
  else if opt_hg o then
    indent_files hg_modified_files (opt_diff o) (opt_debug o) (opt_level o)
      (opt_in_place o) ;;
    py_raise (SystemExit 0)
  else if truthy (opt_file o) then
    w ← py_get;
    match files w !! opt_file o with
    | None => print ("file " +:+ opt_file o +:+ " does not exist" +:+ nl) ;;
              py_raise (SystemExit 1)
    | Some _ =>
        indent_files [opt_file o] (opt_diff o) (opt_debug o) (opt_level o)
          (opt_in_place o) ;;
        py_raise (SystemExit 0)
    end
  else py_raise (SystemExit 0).
End tools.
End Indent.

(** ** What the checker reports *)
Module IndentFacts.
Import Config Patches Indent.

Section facts.
Context (u : string → string → string) (patch_tool : string → string → string)
        (unified_diff : list string → list string → string → string → list string)
        (tmp_name : nat → string).
(** documented behaviour of [mkstemp]: distinct fresh names *)
Context (Hinj : ∀ i j, tmp_name i = tmp_name j → i = j).
(** applying an empty diff leaves the text alone *)
Context (Hempty : ∀ t, patch_tool EmptyString t = t).

Definition fresh (w : world) : Prop := ∀ i, tmp_count w ≤ i → files w !! tmp_name i = None.

(** [w'] extends [w]: old files keep their content and names stay fresh *)
Definition extends (w w' : world) : Prop :=
  fresh w' ∧ ∀ p c, files w !! p = Some c → files w' !! p = Some c.

Lemma extends_trans w1 w2 w3 : extends w1 w2 → extends w2 w3 → extends w1 w3.
Proof. unfold extends. naive_solver. Qed.

Lemma tmp_ne i j : i ≠ j → tmp_name i ≠ tmp_name j.
Proof. intros H Heq. by apply H, Hinj. Qed.

Lemma final_diff_empty level : final_diff_text level [] = Ok EmptyString.
Proof. unfold final_diff_text. by destruct (level <? 3)%Z. Qed.

(** symbolic execution of file operations: simplify, resolve lookups of inserts *)
Ltac file_ne :=
  let H := fresh in
  intros H; first
  [ match goal with K : ∀ i, _ ≤ i → _ ≠ tmp_name i |- _ =>
      first [eapply K; [|exact H]; lia | eapply K; [|symmetry; exact H]; lia] end
  | apply Hinj in H; lia ].
Ltac exec_files :=
  repeat first
  [ progress cbn -[final_diff_text lookup insert uncrustify_config_file]
  | rewrite lookup_insert_eq
  | rewrite lookup_insert_ne by file_ne
  | rewrite final_diff_empty
  | match goal with H : files _ !! _ = Some _ |- _ => rewrite H end ].

(** what [indent] returns when debugging output is asked for *)
Lemma indent_debug source c level w :
  fresh w → files w !! source = Some c →
  ∃ output w', indent (Some u) patch_tool unified_diff tmp_name source true level w
               = (Ok output, w') ∧
    extends w w' ∧ files w' !! output = Some c.
Proof.
  intros Hf Hs. set (n := tmp_count w) in *.
  assert (∀ i, n ≤ i → source ≠ tmp_name i) as Hsrc.
  { intros i Hi ->. rewrite Hf in Hs by lia. done. }
  assert (∀ i j, i < j → tmp_name i ≠ tmp_name j) as Hlt by (intros; apply tmp_ne; lia).
  eexists (tmp_name n), _. unfold indent, config_file, mkstemp, eprint, write_file, read_file,
    py_lift, py_modify, mret, py_ret, mbind, py_bind.
  fold n. exec_files.
  split; [reflexivity|]. split; [|by exec_files; rewrite Hempty].
  split; intros p; simpl.
  - intros Hp. simpl in Hp. exec_files. apply Hf. unfold n in *. lia.
  - intros c' Hp. assert (∀ i, n ≤ i → p ≠ tmp_name i) as Hp'.
    { intros i Hi ->. rewrite Hf in Hp by done. done. }
    by exec_files.
Qed.

Lemma indent_all_debug fs level w :
  fresh w → Forall (λ f, is_Some (files w !! f)) fs →
  ∃ output w', indent_all (Some u) patch_tool unified_diff tmp_name fs true level w
               = (Ok output, w') ∧ extends w w' ∧
    Forall (λ sd : string * string, ∃ c, files w' !! sd.1 = Some c ∧ files w' !! sd.2 = Some c)
      output.
Proof.
  intros Hf Hfs. revert w Hf Hfs. induction fs as [|f fs IH]; intros w Hf Hfs.
  - eexists [], w. split; [reflexivity|]. split; [by split|constructor].
  - apply Forall_cons in Hfs as [[c Hc] Hfs].
    destruct (indent_debug f c level w Hf Hc) as (d & w1 & Hd & Hw1 & Hdc).
    destruct (IH w1 (proj1 Hw1)) as (rest & w2 & Hrest & Hw2 & Hall).
    { eapply Forall_impl; [exact Hfs|]. intros x [cx Hx]. exists cx. by apply Hw1. }
    exists ((f, d) :: rest), w2. cbn [indent_all].
    unfold mbind, py_bind in *. rewrite Hd, Hrest. split; [done|].
    split; [by eapply extends_trans|]. constructor; [|done].
    exists c. split; apply Hw2; [by apply Hw1|done].
Qed.

Lemma badly_indented_none output w :
  Forall (λ sd : string * string, ∃ c, files w !! sd.1 = Some c ∧ files w !! sd.2 = Some c)
    output →
  badly_indented output w = (Ok [], w).
Proof.
  induction 1 as [|[s d] output (c & Hs & Hd) _ IH]; [done|].
  cbn [badly_indented]. unfold mbind, py_bind, read_file in *. simpl in *.
  rewrite Hs, Hd, IH. cbn. by rewrite String.eqb_refl.
Qed.

(** With [--debug] the checker never reports anything: writing the initial diff to a
    temporary file consumes the [unified_diff] generator, the final diff is empty, and
    every re-indented copy equals its source.  For existing files [indent_files] returns
    [True] whatever [uncrustify] does to them, at every level. *)
Theorem debug_reports_nothing (fs : list string) (diff : bool) (level : Z) (w : world)
    (Hf : fresh w) (Hfs : Forall (λ f, is_Some (files w !! f)) fs) :
  (indent_files (Some u) patch_tool unified_diff tmp_name fs diff true level false w).1
  = Ok true.
Proof.
  destruct (indent_all_debug fs level w Hf Hfs) as (output & w' & Ho & _ & Hall).
  unfold indent_files, mbind, py_bind. rewrite Ho.
  by rewrite badly_indented_none.
Qed.
End facts.

(** a numbered temporary file *)
Definition sample_tmp (i : nat) : string := "/tmp/" +:+ show_nonneg (Z.of_nat i).

Lemma show_nonneg_inj i j : (0 ≤ i)%Z → (0 ≤ j)%Z → show_nonneg i = show_nonneg j → i = j.
Proof.
  intros Hi Hj H. destruct (show_nonneg_spec i Hi) as (_ & <- & _).
  destruct (show_nonneg_spec j Hj) as (_ & <- & _). by rewrite H.
Qed.

Definition sample_world : world :=
  {| files := {["a.cc" := "int  a;"]}; tmp_count := 0; stdout := []; stderr := [] |}.
Definition sample_uncrustify (cfg t : string) : string := py_replace "  " " " t.

Lemma debug_reports_nothing_witness :
  (indent_files (Some sample_uncrustify) (λ d t, if (d =? EmptyString)%string then t else d)
     (λ a b f t, a ++ b) sample_tmp ["a.cc"] false true 0 false sample_world).1 = Ok true.
Proof.
  apply debug_reports_nothing.
  - intros i j H. unfold sample_tmp in H. apply sapp_inj_l, show_nonneg_inj in H; lia.
  - intros t. reflexivity.
  - intros i _. simpl. rewrite lookup_singleton_ne; [done|]. intros [=].
  - repeat constructor. exists "int  a;". reflexivity.
Defined.
End IndentFacts.
