(* ===== verification/ShellCmd.v ===== *)
(** * waf-tools/shellcmd.py: shell command pipelines

    [shlex_split] is the POSIX mode of [shlex.split]; [Pipeline.parse] is a state machine
    over its tokens that builds a list of nodes (commands, [cd], [|], [&&], [||]);
    [Pipeline.run] spawns the commands and combines their exit codes.

    The processes are external: [exit_code i] is what the [i]-th spawned process returns,
    [can_open] and [can_spawn] say which files open and which programs start.  [run] keeps
    a log of what it does (files opened and closed, processes spawned and awaited). *)
From Stdlib Require Import ZArith Lia Ascii String.
From stdpp Require Import base list strings gmap.
From S2P Require Import Prelude PyStr.

#[local] Open Scope Z_scope.

(** ** shlex.split(s) in POSIX mode *)
Module Shlex.
Inductive lex_state :=
  | LStart                 (* state [' '] *)
  | LWord                  (* state ['a'] *)
  | LQuote (q : ascii)     (* inside quotes *)
  | LEscWord               (* after a backslash in a word *)
  | LEscQuote (q : ascii). (* after a backslash inside quotes *)

Definition squote : ascii := "039"%char.
Definition dquote : ascii := "034"%char.
Definition backslash : ascii := "092"%char.
Definition lex_space (c : ascii) : bool :=
  Ascii.eqb c " " || Ascii.eqb c "009" || Ascii.eqb c "010" || Ascii.eqb c "013".
Definition lex_quote (c : ascii) : bool := Ascii.eqb c squote || Ascii.eqb c dquote.
Definition snoc (t : string) (c : ascii) : string := t +:+ String c EmptyString.

(** [tok] is the token being read, [acc] the tokens read so far *)
Fixpoint lex (st : lex_state) (tok : string) (acc : list string) (s : string)
    : result (list string) :=
  match s with
  | EmptyString =>
      match st with
      | LStart => Ok acc
      | LWord => Ok (acc ++ [tok])
      | LQuote _ => Raise (ValueError "No closing quotation")
      | LEscWord | LEscQuote _ => Raise (ValueError "No escaped character")
      end
  | String c s' =>
      match st with
      | LStart =>
          if lex_space c then lex LStart EmptyString acc s'
          else if Ascii.eqb c backslash then lex LEscWord EmptyString acc s'
          else if lex_quote c then lex (LQuote c) EmptyString acc s'
          else lex LWord (String c EmptyString) acc s'
      | LWord =>
          if lex_space c then lex LStart EmptyString (acc ++ [tok]) s'
          else if lex_quote c then lex (LQuote c) tok acc s'
          else if Ascii.eqb c backslash then lex LEscWord tok acc s'
          else lex LWord (snoc tok c) acc s'
      | LQuote q =>
          if Ascii.eqb c q then lex LWord tok acc s'
          else if Ascii.eqb c backslash && Ascii.eqb q dquote then lex (LEscQuote q) tok acc s'
          else lex (LQuote q) (snoc tok c) acc s'
      | LEscWord => lex LWord (snoc tok c) acc s'
      | LEscQuote q =>
          let tok' := if negb (Ascii.eqb c backslash) && negb (Ascii.eqb c q)
                      then snoc tok backslash else tok in
          lex (LQuote q) (snoc tok' c) acc s'
      end
  end.

Definition shlex_split (s : string) : result (list string) := lex LStart EmptyString [] s.
End Shlex.

(** ** Nodes *)
Module Nodes.
(** the target of a redirection: [Command.PIPE], [Command.STDOUT] or a file name *)
Inductive target := PIPE | STDOUT | File (name : string).

#[export] Instance target_eq_dec : EqDecision target.
Proof. solve_decision. Defined.

Record Command := mk_command {
  name : string;
  argv : list string;
  stdin : option string;
  stdout : option target;
  stderr : option target;
  env_vars : option (list (string * string))
}.

Inductive node :=
  | NCommand (c : Command)
  | NChdir (dir : option string)
  | NPipe
  | NAnd
  | NOr.

#[export] Instance command_eq_dec : EqDecision Command.
Proof. solve_decision. Defined.
#[export] Instance node_eq_dec : EqDecision node.
Proof. solve_decision. Defined.

Definition new_command (n : string) : Command :=
  {| name := n; argv := [n]; stdin := None; stdout := None; stderr := None;
     env_vars := None |}.

Definition set_env (e : option (list (string * string))) (c : Command) : Command :=
  {| name := name c; argv := argv c; stdin := stdin c; stdout := stdout c;
     stderr := stderr c; env_vars := e |}.
Definition add_arg (a : string) (c : Command) : Command :=
  {| name := name c; argv := argv c ++ [a]; stdin := stdin c; stdout := stdout c;
     stderr := stderr c; env_vars := env_vars c |}.
Definition set_stdin (f : string) (c : Command) : Command :=
  {| name := name c; argv := argv c; stdin := Some f; stdout := stdout c;
     stderr := stderr c; env_vars := env_vars c |}.
Definition set_stdout (t : target) (c : Command) : Command :=
  {| name := name c; argv := argv c; stdin := stdin c; stdout := Some t;
     stderr := stderr c; env_vars := env_vars c |}.
Definition set_stderr (t : target) (c : Command) : Command :=
  {| name := name c; argv := argv c; stdin := stdin c; stdout := stdout c;
     stderr := Some t; env_vars := env_vars c |}.

(** [Pipeline.get_abbreviated_command]: the chain of [if]/[elif] as written, where the
    second test for [And] leaves no branch for [Or] *)
Definition abbreviate (n : node) : list string :=
  (match n with NCommand c => [name c] | _ => [] end) ++
  (match n with
   | NChdir d => ["cd " +:+ (match d with Some x => x | None => "None" end)]
   | NPipe => ["|"]
   | NAnd => ["&&"]
   | _ => []
   end).
Definition get_abbreviated_command (pipeline : list node) : string :=
  join " " (pipeline ≫= abbreviate).
End Nodes.

(** ** Pipeline.parse *)
Module Parse.
Import Nodes.

Inductive parse_state := BEGIN | COMMAND | CHDIR | STDERR | STDOUT_ | STDIN.

(** [env_var_rx]: a name of word characters, [=], and a non-empty value without
    whitespace (a final newline is outside the value) *)
Definition env_var_match (token : string) : option (string * string) :=
  match split_once "=" token with
  | Some (k, v) =>
      let v := match split_last newline v with
               | Some (h, EmptyString) => h
               | _ => v
               end in
      if truthy k && str_all is_word k && truthy v && str_all (λ c, negb (is_space c)) v
      then Some (k, v) else None
  | None => None
  end.

Record pstate := mk_pstate {
  state : parse_state;
  current_command : option node;
  env : list (string * string);
  pipeline : list node
}.

Definition parse_init : pstate :=
  {| state := BEGIN; current_command := None; env := []; pipeline := [] |}.

Definition goto (s : parse_state) (p : pstate) : pstate :=
  {| state := s; current_command := current_command p; env := env p; pipeline := pipeline p |}.

(** [_commit_command] *)
Definition commit_command (p : pstate) : result pstate :=
  match current_command p with
  | Some n => Ok {| state := state p; current_command := None; env := env p;
                    pipeline := pipeline p ++ [n] |}
  | None => Raise AssertionError
  end.

(** commit, append an operator and go back to [BEGIN] *)
Definition commit_op (op : node) (p : pstate) : result pstate :=
  p ← commit_command p;
  Ok {| state := BEGIN; current_command := current_command p; env := env p;
        pipeline := pipeline p ++ [op] |}.

(** an attribute access on the current command *)
Definition with_command (f : Command → result Command) (p : pstate) : result pstate :=
  match current_command p with
  | Some (NCommand c) =>
      c ← f c;
      Ok {| state := state p; current_command := Some (NCommand c); env := env p;
            pipeline := pipeline p |}
  | _ => Raise AttributeError
  end.

Definition assert_none {A} (o : option A) : result unit :=
  match o with None => Ok () | Some _ => Raise AssertionError end.

Definition step_begin (token : string) (p : pstate) : result pstate :=
  match env_var_match token with
  | Some (k, v) =>
      Ok {| state := BEGIN; current_command := current_command p;
            env := dict_set (env p) k v; pipeline := pipeline p |}
  | None =>
      assert_none (current_command p) ;;
      if (token =? "cd")%string then
        match env p with
        | [] => Ok {| state := CHDIR; current_command := Some (NChdir None); env := [];
                      pipeline := pipeline p |}
        | _ => Raise AssertionError
        end
      else
        let c := new_command token in
        Ok {| state := COMMAND;
              current_command := Some (NCommand (match env p with
                                                 | [] => c
                                                 | e => set_env (Some e) c
                                                 end));
              env := []; pipeline := pipeline p |}
  end.

Definition step_command (token : string) (p : pstate) : result pstate :=
  if (token =? ">")%string then Ok (goto STDOUT_ p)
  else if (token =? "2>")%string then Ok (goto STDERR p)
  else if (token =? "2>&1")%string then
    with_command (λ c, assert_none (stderr c) ;; Ok (set_stderr STDOUT c)) p
  else if (token =? "<")%string then Ok (goto STDIN p)
  else if (token =? "|")%string then
    p ← with_command (λ c, assert_none (stdout c) ;; Ok (set_stdout PIPE c)) p;
    commit_op NPipe p
  else if (token =? "&&")%string then commit_op NAnd p
  else if (token =? "||")%string then commit_op NOr p
  else with_command (λ c, Ok (add_arg token c)) p.

Definition step_chdir (token : string) (p : pstate) : result pstate :=
  if (token =? "&&")%string then commit_op NAnd p
  else match current_command p with
       | Some (NChdir None) =>
           Ok {| state := CHDIR; current_command := Some (NChdir (Some token));
                 env := env p; pipeline := pipeline p |}
       | Some (NChdir (Some _)) => Raise AssertionError
       | _ => Raise AttributeError
       end.

(** one iteration of [while tokens] *)
Definition step (token : string) (p : pstate) : result pstate :=
  match state p with
  | BEGIN => step_begin token p
  | COMMAND => step_command token p
  | CHDIR => step_chdir token p
  | STDOUT_ =>
      p ← with_command (λ c, assert_none (stdout c) ;; Ok (set_stdout (File token) c)) p;
      Ok (goto COMMAND p)
  | STDERR =>
      p ← with_command (λ c, assert_none (stderr c) ;; Ok (set_stderr (File token) c)) p;
      Ok (goto COMMAND p)
  | STDIN =>
      p ← with_command (λ c, assert_none (stdin c) ;; Ok (set_stdin token c)) p;
      Ok (goto COMMAND p)
  end.

Fixpoint steps (tokens : list string) (p : pstate) : result pstate :=
  match tokens with
  | [] => Ok p
  | t :: ts => p ← step t p; steps ts p
  end.

Definition parse_tokens (tokens : list string) : result (list node) :=
  p ← steps tokens parse_init;
  p ← commit_command p;
  Ok (pipeline p).

(** [parse] on a string *)
Definition parse (command : string) : result (list node) :=
  tokens ← Shlex.shlex_split command;
  parse_tokens tokens.
End Parse.

(** ** Pipeline.run *)
Module Run.
Import Nodes.

Inductive stream := SNone | SPipe | SStdout | SFile (h : nat) | SDevNull | SProc (i : nat).

Inductive event :=
  | EvOpen (h : nat) (path : string) (write : bool)
  | EvClose (h : nat)
  | EvSpawn (i : nat) (argv : list string) (stdin stdout stderr : stream)
            (env : option (list (string * string))) (cwd : option string)
  | EvWait (i : nat)
  | EvPrint (s : string).

Record world := mk_world { log : list event; n_open : nat; n_proc : nat }.

Definition emit (e : event) (w : world) : world :=
  {| log := log w ++ [e]; n_open := n_open w; n_proc := n_proc w |}.

(** the local variables of [run]; a process is its index and whether its standard output
    is a pipe *)
Record locals := mk_locals {
  files_to_close : list stream;
  piped_commands : list (nat * bool);
  piped_commands_display : list string;
  piping : bool;
  cwd : string
}.

Definition init_locals : locals :=
  {| files_to_close := []; piped_commands := []; piped_commands_display := [];
     piping := false; cwd := "." |}.

Definition display (s : string) (l : locals) : locals :=
  {| files_to_close := files_to_close l; piped_commands := piped_commands l;
     piped_commands_display := piped_commands_display l ++ [s];
     piping := piping l; cwd := cwd l |}.
Definition to_close (f : stream) (l : locals) : locals :=
  {| files_to_close := files_to_close l ++ [f]; piped_commands := piped_commands l;
     piped_commands_display := piped_commands_display l;
     piping := piping l; cwd := cwd l |}.
Definition displays (verbose : bool) (s : string) (l : locals) : locals :=
  if verbose then display s l else l.

(** [_exec_piped_commands] on the exit codes of the awaited processes *)
Fixpoint any_nonzero (retvals : list Z) : bool :=
  match retvals with
  | [] => false
  | r :: rs => if r =? 0 then any_nonzero rs else true
  end.
Definition exec_retval (retvals : list Z) : Z :=
  if any_nonzero retvals then List.last retvals 0 else 0.

Section run.
Variable exit_code : nat → Z.
Variable can_open : string → bool.
Variable can_spawn : list string → bool.
Variable environ : list (string * string).
Variable verbose : bool.

Definition open_file (path : string) (write : bool) : py world stream := λ w,
  if can_open path
  then (Ok (SFile (n_open w)),
        {| log := log w ++ [EvOpen (n_open w) path write];
           n_open := S (n_open w); n_proc := n_proc w |})
  else (Raise (OSError path), w).

(** [_open_out_file] *)
Definition open_out_file (filename : string) : py world stream :=
  if (filename =? "NUL:")%string || (filename =? "/dev/null")%string then mret SDevNull
  else open_file filename true.

Definition spawn (argv : list string) (i o e : stream)
    (env : option (list (string * string))) (cwd : option string) : py world nat := λ w,
  if can_spawn argv
  then (Ok (n_proc w),
        {| log := log w ++ [EvSpawn (n_proc w) argv i o e env cwd];
           n_open := n_open w; n_proc := S (n_proc w) |})
  else (Raise (OSError (join " " argv)), w).

Fixpoint wait_all (procs : list (nat * bool)) : py world (list Z) :=
  match procs with
  | [] => mret []
  | (i, _) :: ps =>
      py_modify (emit (EvWait i)) ;;
      rs ← wait_all ps;
      mret (exit_code i :: rs)
  end.

Definition exec_piped_commands (procs : list (nat * bool)) : py world Z :=
  rs ← wait_all procs;
  mret (exec_retval rs).

(** [for f in files_to_close: if f is not dev_null: f.close()] *)
Fixpoint close_files (fs : list stream) : py world unit :=
  match fs with
  | [] => mret ()
  | SFile h :: fs' => py_modify (emit (EvClose h)) ;; close_files fs'
  | _ :: fs' => close_files fs'
  end.

Definition env_str (c : Command) : string :=
  match env_vars c with
  | Some ((_ :: _) as e) =>
      join " " ((λ kv : string * string, kv.1 +:+ "=" +:+ kv.2) <$> e) +:+ " " +:+
      join " " (argv c)
  | _ => join " " (argv c)
  end.

Definition open_stdin (c : Command) (l : locals) : py world (stream * locals) :=
  if piping l then
    match List.last (piped_commands l) (0%nat, false), piped_commands l with
    | _, [] => py_raise IndexError
    | (i, true), _ => mret (SProc i, l)
    | (_, false), _ => mret (SNone, l)
    end
  else match stdin c with
       | Some f =>
           s ← open_file f false;
           mret (s, to_close s (displays verbose ("< " +:+ f) l))
       | None => mret (SNone, l)
       end.

Definition open_stdout (c : Command) (l : locals) : py world (stream * locals) :=
  match stdout c with
  | None => mret (SNone, l)
  | Some PIPE => mret (SPipe, l)
  | Some (File f) =>
      s ← open_out_file f;
      mret (s, displays verbose ("> " +:+ f) (to_close s l))
  | Some STDOUT => py_raise TypeError
  end.

Definition open_stderr (c : Command) (l : locals) : py world (stream * locals) :=
  match stderr c with
  | None => mret (SNone, l)
  | Some PIPE => mret (SPipe, l)
  | Some STDOUT => mret (SStdout, displays verbose "2>&1" l)
  | Some (File f) =>
      s ← open_out_file f;
      mret (s, displays verbose ("2> " +:+ f) (to_close s l))
  end.

(** from the [assert] on the node to [piped_commands.append(proc)] *)
Definition start_command (c : Command) (l : locals) : py world locals :=
  let l := displays verbose (env_str c) l in
  '(i, l) ← open_stdin c l;
  '(o, l) ← open_stdout c l;
  '(e, l) ← open_stderr c l;
  let environment :=
    match env_vars c with
    | Some ((_ :: _) as ev) => Some (dict_update environ ev)
    | _ => None
    end in
  let proc_cwd := if (cwd l =? ".")%string then None else Some (cwd l) in
  p ← spawn (argv c) i o e environment proc_cwd;
  mret {| files_to_close := files_to_close l;
          piped_commands := piped_commands l ++ [(p, bool_decide (stdout c = Some PIPE))];
          piped_commands_display := piped_commands_display l;
          piping := piping l; cwd := cwd l |}.

(** wait for the commands of the stage, then close its files *)
Definition finish_stage (l : locals) : py world Z :=
  r ← exec_piped_commands (piped_commands l);
  close_files (files_to_close l) ;;
  mret r.

Definition next_stage (l : locals) : locals :=
  {| files_to_close := []; piped_commands := []; piped_commands_display := [];
     piping := false; cwd := cwd l |}.

(** the loop; a falling through [while pipeline] returns Python's [None].  In the [Or] and
    [And] branches the verbose message formats [retval], which no path has assigned. *)
Fixpoint run_loop (pipeline : list node) (l : locals) : py world (option Z) :=
  match pipeline with
  | [] => mret None
  | NChdir d :: rest =>
      match rest with
      | [] => py_raise IndexError
      | NAnd :: rest' =>
          match d with
          | None => py_raise TypeError
          | Some dir =>
              run_loop rest'
                (displays verbose ("cd " +:+ dir +:+ " &&")
                   {| files_to_close := files_to_close l;
                      piped_commands := piped_commands l;
                      piped_commands_display := piped_commands_display l;
                      piping := piping l; cwd := path_join (cwd l) dir |})
          end
      | _ :: _ => py_raise AssertionError
      end
  | NCommand c :: rest =>
      l ← start_command c l;
      match rest with
      | [] =>
          retval ← exec_piped_commands (piped_commands l);
          (if verbose then
             py_modify (emit (EvPrint (join " " (piped_commands_display l) +:+
                                       ": exit code " +:+ show_Z retval)))
           else mret ()) ;;
          close_files (files_to_close l) ;;
          mret (Some retval)
      | NPipe :: rest' =>
          run_loop rest'
            {| files_to_close := files_to_close l; piped_commands := piped_commands l;
               piped_commands_display := piped_commands_display l ++ ["|"];
               piping := true; cwd := cwd l |}
      | NOr :: rest' =>
          this_retval ← finish_stage l;
          if this_retval =? 0 then
            if verbose then py_raise UnboundLocalError else mret (Some this_retval)
          else
            if verbose then py_raise UnboundLocalError
            else run_loop rest' (next_stage l)
      | NAnd :: rest' =>
          this_retval ← finish_stage l;
          if negb (this_retval =? 0) then
            if verbose then py_raise UnboundLocalError else mret (Some this_retval)
          else
            if verbose then py_raise UnboundLocalError
            else run_loop rest' (next_stage l)
      | _ :: rest' => run_loop rest' l
      end
  | _ :: _ => py_raise AssertionError
  end.

Definition run (pipeline : list node) : py world (option Z) := run_loop pipeline init_locals.
End run.
End Run.

(** ** The grammar of parsed pipelines *)
Module Grammar.
Import Nodes Parse.

(** what [parse] makes of a command: its name is its first argument, its redirections are
    of the kinds the state machine stores *)
Definition good_command (c : Command) : Prop :=
  (∃ args, argv c = name c :: args) ∧ stdout c ≠ Some STDOUT ∧ stderr c ≠ Some PIPE ∧
  env_vars c ≠ Some [].

Definition piped (c : Command) : bool := bool_decide (stdout c = Some PIPE).

(** operands and operators alternate; a command writes to a pipe exactly when [|]
    follows; [cd] is followed by [&&] or ends the pipeline *)
Fixpoint shape (pl : list node) : bool :=
  match pl with
  | [NCommand c] => negb (piped c)
  | [NChdir _] => true
  | NChdir _ :: NAnd :: r => shape r
  | NCommand c :: NPipe :: r => piped c && shape r
  | NCommand c :: NAnd :: r | NCommand c :: NOr :: r => negb (piped c) && shape r
  | _ => false
  end.

Definition commands (pl : list node) : list Command :=
  pl ≫= λ n, match n with NCommand c => [c] | _ => [] end.

(** an operand with the operator that follows it *)
Definition ok_pair (p : node * node) : Prop :=
  match p with
  | (NCommand c, NPipe) => piped c = true ∧ good_command c
  | (NCommand c, NAnd) | (NCommand c, NOr) => piped c = false ∧ good_command c
  | (NChdir _, NAnd) => True
  | _ => False
  end.
Definition flatten (prs : list (node * node)) : list node :=
  prs ≫= λ p, [p.1; p.2].

Definition parse_inv (p : pstate) : Prop :=
  (∃ prs, pipeline p = flatten prs ∧ Forall ok_pair prs) ∧
  match state p with
  | BEGIN => current_command p = None
  | CHDIR => ∃ d, current_command p = Some (NChdir d)
  | _ => ∃ c, current_command p = Some (NCommand c) ∧ good_command c ∧ piped c = false
  end.

Lemma flatten_snoc prs n op : flatten prs ++ [n] ++ [op] = flatten (prs ++ [(n, op)]).
Proof. unfold flatten. by rewrite bind_app. Qed.

Lemma parse_inv_push prs n op p :
  pipeline p = flatten prs → Forall ok_pair prs → ok_pair (n, op) →
  parse_inv {| state := BEGIN; current_command := None; env := env p;
               pipeline := (pipeline p ++ [n]) ++ [op] |}.
Proof.
  intros Hp Hall Hok. split; [|done]. exists (prs ++ [(n, op)]). simpl.
  rewrite Hp, <- List.app_assoc, flatten_snoc. split; [done|].
  apply Forall_app; auto.
Qed.

Ltac good_tac :=
  repeat match goal with
  | H : good_command _ |- _ => destruct H as ([? ?] & ? & ? & ?)
  | H : piped _ = _ |- _ => unfold piped in H; rewrite ?bool_decide_eq_false in H
  end;
  unfold good_command, piped; simpl; rewrite ?bool_decide_eq_false;
  repeat split; simplify_eq/=; eauto using bool_decide_eq_false_2.

Lemma step_begin_inv t p p' :
  parse_inv p → state p = BEGIN → step_begin t p = Ok p' → parse_inv p'.
Proof.
  intros [Hpl Hst] Hs. rewrite Hs in Hst. unfold step_begin.
  destruct (env_var_match t) as [[k v]|].
  - intros [= <-]. split; simpl; done.
  - rewrite Hst. simpl. destruct (t =? "cd")%string.
    + destruct (env p); [|done]. intros [= <-]. split; simpl; eauto.
    + intros [= <-]. split; simpl; [done|]. eexists; split; [done|].
      destruct (env p); good_tac; try done; by eexists.
Qed.

Lemma step_command_inv t p p' :
  parse_inv p → state p = COMMAND → step_command t p = Ok p' → parse_inv p'.
Proof.
  intros [(prs & Hpl & Hall) Hst] Hs. rewrite Hs in Hst.
  destruct Hst as (c & Hc & Hg & Hp). unfold step_command.
  repeat (destruct (t =? _)%string; [
    first
    [ intros [= <-]; split; simpl; eauto; done
    | unfold with_command, commit_op, commit_command; rewrite Hc; simpl;
      destruct (stdout c) as [[]|] eqn:?; destruct (stderr c) eqn:?; simpl; try done;
      intros [= <-];
      first [ eapply parse_inv_push; eauto; simpl; good_tac; done
            | split; simpl; [by eauto|]; rewrite Hs; eexists; split; [done|]; good_tac; done ] ] | ]).
  unfold with_command. rewrite Hc. simpl. intros [= <-].
  split; simpl; [by eauto|]. rewrite Hs. eexists; split; [done|]. good_tac.
  eexists. simpl. by rewrite H.
Qed.

Lemma step_chdir_inv t p p' :
  parse_inv p → state p = CHDIR → step_chdir t p = Ok p' → parse_inv p'.
Proof.
  intros [(prs & Hpl & Hall) Hst] Hs. rewrite Hs in Hst. destruct Hst as (d & Hc).
  unfold step_chdir. destruct (t =? "&&")%string.
  - unfold commit_op, commit_command. rewrite Hc. simpl. intros [= <-].
    by eapply parse_inv_push.
  - rewrite Hc. destruct d; [done|]. intros [= <-]. split; simpl; eauto.
Qed.

Lemma step_inv t p p' : parse_inv p → step t p = Ok p' → parse_inv p'.
Proof.
  intros Hi. unfold step. destruct (state p) eqn:Hs;
    [by apply step_begin_inv|by apply step_command_inv|by apply step_chdir_inv|..].
  all: destruct Hi as [Hpl Hst]; rewrite Hs in Hst; destruct Hst as (c & Hc & Hg & Hp).
  all: unfold with_command; rewrite Hc; simpl.
  1: destruct (stderr c) eqn:?.
  3: destruct (stdout c) eqn:?.
  5: destruct (stdin c) eqn:?.
  all: simpl; intros [= <-]; (split; [done|]); simpl; eexists; (split; [done|]); good_tac.
Qed.

Lemma steps_inv ts p p' : parse_inv p → steps ts p = Ok p' → parse_inv p'.
Proof.
  revert p. induction ts as [|t ts IH]; intros p Hi; simpl; [by intros [= <-]|].
  intros (p1 & H1 & H2)%result_bind_Ok. eapply IH; [|done]. by eapply step_inv.
Qed.

Lemma parse_init_inv : parse_inv parse_init.
Proof. split; [|done]. by exists []. Qed.

(** induction along the grammar *)
Lemma shape_ind (P : list node → Prop) :
  (∀ c, piped c = false → P [NCommand c]) →
  (∀ d, P [NChdir d]) →
  (∀ d r, shape r = true → P r → P (NChdir d :: NAnd :: r)) →
  (∀ c r, piped c = true → shape r = true → P r → P (NCommand c :: NPipe :: r)) →
  (∀ c op r, op = NAnd ∨ op = NOr → piped c = false → shape r = true → P r →
     P (NCommand c :: op :: r)) →
  ∀ pl, shape pl = true → P pl.
Proof.
  intros H1 H2 H3 H4 H5 pl. remember (length pl) as k eqn:Hk. revert pl Hk.
  induction k as [k IH] using lt_wf_ind. intros pl -> Hs.
  assert (∀ r n op, pl = n :: op :: r → shape r = true → P r) as IH'.
  { intros r n op -> Hr. by apply (IH (length r)); [simpl; lia|..]. }
  destruct pl as [|[c|d| | |] [|[c'|d'| | |] r]]; simpl in Hs; try done; auto.
  - apply H1. by destruct (piped c).
  - apply andb_true_iff in Hs as [Hp Hr]. eauto.
  - apply andb_true_iff in Hs as [Hp%negb_true_iff Hr]. eauto.
  - apply andb_true_iff in Hs as [Hp%negb_true_iff Hr]. eauto.
  - eauto.
Qed.

Lemma shape_flatten prs n :
  Forall ok_pair prs →
  match n with NCommand c => piped c = false | NChdir _ => True | _ => False end →
  shape (flatten prs ++ [n]) = true.
Proof.
  intros H Hn. induction H as [|[x op] prs Hp _ IH].
  - destruct n; simpl in *; try done. by rewrite Hn.
  - change (flatten ((x, op) :: prs)) with ([x; op] ++ flatten prs).
    destruct x, op; simpl in *; try done; destruct Hp as [-> _] || idtac; simpl; done.
Qed.

Lemma commands_flatten prs n :
  Forall ok_pair prs →
  match n with NCommand c => good_command c | _ => True end →
  Forall good_command (commands (flatten prs ++ [n])).
Proof.
  intros H Hn. unfold commands. rewrite bind_app, Forall_app. split.
  - induction H as [|[x op] prs Hp _ IH]; [constructor|].
    change (flatten ((x, op) :: prs)) with ([x; op] ++ flatten prs).
    rewrite bind_app. apply Forall_app. split; [|done].
    destruct x, op; simpl in *;
      first [done | by constructor | apply Forall_singleton; naive_solver].
  - destruct n; simpl; first [by apply Forall_singleton | constructor].
Qed.

Lemma parse_tokens_good (tokens : list string) (pl : list node)
    (H : parse_tokens tokens = Ok pl) :
  shape pl = true ∧ Forall good_command (commands pl).
Proof.
  unfold parse_tokens in H. apply result_bind_Ok in H as (p & Hp & H).
  apply steps_inv in Hp as [(prs & Hpl & Hall) Hst]; [|apply parse_init_inv].
  unfold commit_command in H. destruct (current_command p) as [n|]; [|done].
  simpl in H. injection H as <-. rewrite Hpl.
  assert (match n with NCommand c => good_command c ∧ piped c = false
          | NChdir _ => True | _ => False end) as Hn.
  { destruct (state p); try done; naive_solver. }
  split.
  - apply shape_flatten; [done|]. destruct n; naive_solver.
  - apply commands_flatten; [done|]. destruct n; naive_solver.
Qed.

(** C36. Soundness of [Pipeline.parse]: every pipeline it returns follows the grammar
    (operands and operators alternate, starting and ending with an operand; a command
    writes to a pipe exactly when [|] follows it; [cd] is last or followed by [&&]), and
    every command in it starts its [argv] with its name, redirects only to what the
    tokens can express and has no empty environment. *)
Theorem parse_grammar (tokens : list string) (pl : list node)
    (H : parse_tokens tokens = Ok pl) :
  shape pl = true ∧ Forall good_command (commands pl).
Proof. by apply (parse_tokens_good tokens). Qed.

Lemma parse_grammar_witness :
  parse "A=1 make -j 4 2>&1 | tee log && cd out && ls > 'my list'" =
  Ok [NCommand {| name := "make"; argv := ["make"; "-j"; "4"]; stdin := None;
                  stdout := Some PIPE; stderr := Some STDOUT;
                  env_vars := Some [("A", "1")] |};
      NPipe; NCommand {| name := "tee"; argv := ["tee"; "log"]; stdin := None;
                         stdout := None; stderr := None; env_vars := None |};
      NAnd; NChdir (Some "out"); NAnd;
      NCommand {| name := "ls"; argv := ["ls"]; stdin := None;
                  stdout := Some (File "my list"); stderr := None; env_vars := None |}] ∧
  shape [NCommand (new_command "ls"); NAnd; NChdir (Some "out")] = true ∧
  Forall good_command (commands [NCommand (new_command "ls"); NAnd; NChdir (Some "out")]).
Proof.
  split; [reflexivity|]. apply (parse_grammar ["ls"; "&&"; "cd"; "out"]). reflexivity.
Defined.

(** *** Rendering a pipeline as tokens *)
Definition operators : list string := [">"; "2>"; "2>&1"; "<"; "|"; "&&"; "||"].

Definition env_ok (kv : string * string) : Prop :=
  env_var_match (kv.1 +:+ "=" +:+ kv.2) = Some kv.

(** a command whose words are read back as words *)
Definition plain_command (c : Command) : Prop :=
  good_command c ∧ env_var_match (name c) = None ∧ name c ≠ "cd" ∧
  Forall (λ a, a ∉ operators) (tail (argv c)) ∧
  match env_vars c with
  | None => True
  | Some e => Forall env_ok e ∧ NoDup e.*1
  end.

Definition render_env (e : option (list (string * string))) : list string :=
  match e with
  | None => []
  | Some e => (λ kv : string * string, kv.1 +:+ "=" +:+ kv.2) <$> e
  end.

Definition render_command (c : Command) : list string :=
  render_env (env_vars c) ++ argv c ++
  (match stdin c with Some f => ["<"; f] | None => [] end) ++
  (match stderr c with Some STDOUT => ["2>&1"] | Some (File f) => ["2>"; f] | _ => [] end) ++
  (match stdout c with Some (File f) => [">"; f] | _ => [] end).

Definition render_node (n : node) : list string :=
  match n with
  | NCommand c => render_command c
  | NChdir (Some d) => ["cd"; d]
  | NChdir None => ["cd"]
  | NPipe => ["|"]
  | NAnd => ["&&"]
  | NOr => ["||"]
  end.
Definition render (pl : list node) : list string := pl ≫= render_node.

Definition plain_node (n : node) : Prop :=
  match n with
  | NCommand c => plain_command c
  | NChdir (Some d) => d ≠ "&&"
  | _ => True
  end.

Lemma steps_app ts1 ts2 p :
  steps (ts1 ++ ts2) p = p' ← steps ts1 p; steps ts2 p'.
Proof.
  revert p. induction ts1 as [|t ts1 IH]; intros p; [done|]. simpl.
  destruct (step t p); simpl; [apply IH|done].
Qed.

Lemma steps_env e e0 pl :
  Forall env_ok e → NoDup (e0.*1 ++ e.*1) →
  steps (render_env (Some e)) {| state := BEGIN; current_command := None; env := e0;
                                 pipeline := pl |} =
  Ok {| state := BEGIN; current_command := None; env := e0 ++ e; pipeline := pl |}.
Proof.
  intros H. revert e0. induction H as [|[k v] e Hkv _ IH]; intros e0 Hnd.
  - by rewrite app_nil_r.
  - simpl. unfold step. simpl. unfold step_begin. unfold env_ok in Hkv. simpl in Hkv.
    rewrite Hkv. simpl.
    rewrite dict_set_fresh.
    + simpl in IH. rewrite IH; [by rewrite <- List.app_assoc|].
      rewrite fmap_app, <- List.app_assoc. done.
    + simpl in Hnd. intros Hin. apply NoDup_app in Hnd as (_ & Hd & _).
      apply (Hd k Hin). set_solver.
Qed.

Lemma not_operator a op : a ∉ operators → op ∈ operators → (a =? op)%string = false.
Proof. intros Ha Hop. apply String.eqb_neq. by intros ->. Qed.

Lemma steps_args args c e pl :
  Forall (λ a, a ∉ operators) args →
  steps args {| state := COMMAND; current_command := Some (NCommand c); env := e;
                pipeline := pl |} =
  Ok {| state := COMMAND;
        current_command := Some (NCommand
          {| name := name c; argv := argv c ++ args; stdin := stdin c; stdout := stdout c;
             stderr := stderr c; env_vars := env_vars c |});
        env := e; pipeline := pl |}.
Proof.
  intros H. revert c. induction H as [|a args Ha _ IH]; intros c.
  - rewrite app_nil_r. by destruct c.
  - simpl. unfold step. simpl. unfold step_command.
    rewrite !(not_operator a) by (done || (unfold operators; set_solver)).
    simpl. rewrite IH. simpl. by rewrite <- List.app_assoc.
Qed.

(** the tokens of a command, read from [BEGIN]; its pipe is not part of them *)
Lemma steps_command c pl :
  plain_command c →
  steps (render_command c) {| state := BEGIN; current_command := None; env := [];
                              pipeline := pl |} =
  Ok {| state := COMMAND;
        current_command := Some (NCommand
          {| name := name c; argv := argv c; stdin := stdin c;
             stdout := if piped c then None else stdout c; stderr := stderr c;
             env_vars := env_vars c |});
        env := []; pipeline := pl |}.
Proof.
  intros (([args Hargs] & Ho & He & Hne) & Hname & Hcd & Hwords & Henv).
  destruct c as [n av si so se ev]; simpl in *; subst av; simpl in *.
  unfold render_command. simpl. rewrite steps_app.
  assert (steps (render_env ev) {| state := BEGIN; current_command := None; env := [];
                                   pipeline := pl |} =
          Ok {| state := BEGIN; current_command := None; env := default [] ev;
                pipeline := pl |}) as ->.
  { destruct ev as [e|]; [|done]. destruct Henv. by apply (steps_env e []). }
  simpl. unfold step at 1. simpl. unfold step_begin. rewrite Hname. simpl.
  apply String.eqb_neq in Hcd as ->. simpl. rewrite steps_app, steps_args by done. simpl.
  destruct ev as [[|kv e]|]; simpl; [done|..];
    destruct si as [f|], se as [[| |f']|], so as [[| |f'']|]; simpl; done.
Qed.

(** reading an operator after a complete command *)
Lemma steps_operator c op r pre :
  plain_command c →
  match op with NPipe => piped c = true | NAnd | NOr => piped c = false | _ => False end →
  steps (render (NCommand c :: op :: r))
    {| state := BEGIN; current_command := None; env := []; pipeline := pre |} =
  steps (render r)
    {| state := BEGIN; current_command := None; env := [];
       pipeline := pre ++ [NCommand c; op] |}.
Proof.
  intros Hc Hop.
  change (render (NCommand c :: op :: r)) with (render_command c ++ render_node op ++ render r).
  rewrite steps_app, steps_command by done. cbn [mbind result_bind].
  destruct op; try done; rewrite Hop; unfold piped in Hop;
    rewrite ?bool_decide_eq_true, ?bool_decide_eq_false in Hop;
    cbn -[render piped]; rewrite <- ?List.app_assoc; destruct c; simpl in *; by subst.
Qed.

Lemma step_dir d pre :
  d ≠ "&&" →
  step d {| state := CHDIR; current_command := Some (NChdir None); env := [];
            pipeline := pre |} =
  Ok {| state := CHDIR; current_command := Some (NChdir (Some d)); env := [];
        pipeline := pre |}.
Proof.
  intros Hd. unfold step, step_chdir. cbn [state].
  by rewrite (proj2 (String.eqb_neq _ _) Hd).
Qed.

(** reading a [cd] with its directory *)
Lemma steps_cd d r pre :
  plain_node (NChdir d) →
  steps (render (NChdir d :: NAnd :: r))
    {| state := BEGIN; current_command := None; env := []; pipeline := pre |} =
  steps (render r)
    {| state := BEGIN; current_command := None; env := [];
       pipeline := pre ++ [NChdir d; NAnd] |}.
Proof.
  intros Hd.
  change (render (NChdir d :: NAnd :: r)) with (render_node (NChdir d) ++ ["&&"] ++ render r).
  destruct d as [d|]; simpl in *; [|by rewrite <- List.app_assoc].
  rewrite step_dir by done. simpl. by rewrite <- List.app_assoc.
Qed.

Lemma steps_render pl :
  shape pl = true → Forall plain_node pl → ∀ pre,
  (p ← steps (render pl) {| state := BEGIN; current_command := None; env := [];
                            pipeline := pre |};
   p ← commit_command p; Ok (pipeline p)) = Ok (pre ++ pl).
Proof.
  intros H. revert pl H. refine (shape_ind _ _ _ _ _ _).
  - intros c Hc Hp pre. apply Forall_cons in Hp as [Hp _].
    unfold render. cbn [mbind list_bind render_node].
    rewrite app_nil_r, steps_command by done. rewrite Hc. by destruct c.
  - intros d Hd pre. apply Forall_cons in Hd as [Hd _]. destruct d as [d|]; simpl in *; [|done].
    by rewrite step_dir.
  - intros d r _ IH Hp pre. apply Forall_cons in Hp as [Hd [_ Hr]%Forall_cons].
    rewrite steps_cd by done. rewrite IH by done. by rewrite <- List.app_assoc.
  - intros c r Hc _ IH Hp pre. apply Forall_cons in Hp as [Hd [_ Hr]%Forall_cons].
    rewrite steps_operator by done. rewrite IH by done. by rewrite <- List.app_assoc.
  - intros c op r Hop Hc _ IH Hp pre. apply Forall_cons in Hp as [Hd [_ Hr]%Forall_cons].
    rewrite steps_operator by (destruct Hop; subst; done).
    rewrite IH by done. by rewrite <- List.app_assoc.
Qed.

(** C28. Round trip of [Pipeline.parse]: the tokens of a pipeline of the grammar whose
    words are plain (no argument is an operator, no command name is [cd] or an assignment,
    no directory is [&&]) parse back to that pipeline, environments, redirections and
    operators included. *)
Theorem parse_render (pl : list node)
    (Hs : shape pl = true) (Hp : Forall plain_node pl) :
  parse_tokens (render pl) = Ok pl.
Proof. exact (steps_render pl Hs Hp []). Qed.

Definition sample_pipeline : list node :=
  [NChdir (Some "build"); NAnd;
   NCommand {| name := "make"; argv := ["make"; "all"]; stdin := Some "in"; stdout := Some PIPE;
               stderr := Some STDOUT; env_vars := Some [("V", "1")] |}; NPipe;
   NCommand {| name := "tee"; argv := ["tee"; "log"]; stdin := None; stdout := None;
               stderr := Some (File "err"); env_vars := None |}; NOr;
   NCommand (new_command "false")].

Lemma parse_render_witness :
  shape sample_pipeline = true ∧ parse_tokens (render sample_pipeline) = Ok sample_pipeline.
Proof.
  split; [reflexivity|]. apply parse_render; [reflexivity|].
  repeat constructor; simpl; try done; try (by eexists); try set_solver;
    intros H; repeat (apply elem_of_cons in H as [H|H]; [discriminate H|]);
    by apply not_elem_of_nil in H.
Defined.
End Grammar.

(** ** Running parsed pipelines *)
Module RunFacts.
Import Nodes Parse Run Grammar.

Lemma any_nonzero_false rs : any_nonzero rs = false → Forall (λ r, r = 0) rs.
Proof.
  induction rs as [|r rs IH]; simpl; [constructor|].
  destruct (r =? 0) eqn:E; [|done]. intros H. constructor; [lia|auto].
Qed.

Lemma last_zero rs : Forall (λ r, r = 0) rs → List.last rs 0 = 0.
Proof. induction 1 as [|r rs -> _ IH]; [done|]. simpl. by destruct rs. Qed.

Lemma exec_retval_last rs : exec_retval rs = List.last rs 0.
Proof.
  unfold exec_retval. destruct (any_nonzero rs) eqn:E; [done|].
  by rewrite last_zero by (by apply any_nonzero_false).
Qed.

Lemma exec_retval_snoc rs r : exec_retval (rs ++ [r]) = r.
Proof. by rewrite exec_retval_last, last_last. Qed.

(** The loop of [_exec_piped_commands] computes the exit code of the last command of
    the stage: scanning all the codes for a failure never changes the result. *)
Theorem exec_piped_is_last (exit_code : nat → Z) (procs : list (nat * bool)) (w : world) :
  (exec_piped_commands exit_code procs w).1 =
  Ok (match last procs with Some (i, _) => exit_code i | None => 0 end).
Proof.
  assert (∀ w, (wait_all exit_code procs w).1 = Ok ((λ p : nat * bool, exit_code p.1) <$> procs))
    as Hw.
  { induction procs as [|[i b] procs IH]; intros w'; [done|].
    cbn [wait_all]. unfold mbind, py_bind in *. simpl.
    specialize (IH (emit (EvWait i) w')).
    destruct (wait_all exit_code procs _) as [[rs|e] w1]; simplify_eq/=. done. }
  unfold exec_piped_commands, mbind, py_bind. specialize (Hw w).
  destruct (wait_all exit_code procs w) as [[rs|e] w1]; simplify_eq/=.
  rewrite exec_retval_last. f_equal. clear w1 w.
  induction procs as [|[i b] procs IH]; [done|].
  destruct procs as [|p procs]; [done|]. exact IH.
Qed.

(** the pipelines [run] is made for: of the grammar, every [cd] with its directory and
    followed by a command *)
Fixpoint runnable (pl : list node) : bool :=
  match pl with
  | [NCommand c] => negb (piped c)
  | NChdir (Some _) :: NAnd :: r => runnable r
  | NCommand c :: NPipe :: r => piped c && runnable r
  | NCommand c :: NAnd :: r | NCommand c :: NOr :: r => negb (piped c) && runnable r
  | _ => false
  end.

Lemma runnable_shape_len k pl : (length pl ≤ k)%nat → runnable pl = true → shape pl = true.
Proof.
  revert pl. induction k as [|k IH]; intros pl Hk; [by destruct pl; simpl in Hk; [|lia]|].
  destruct pl as [|[c|[d|]| | |] [|[c'|d'| | |] r]]; simpl; try done;
    rewrite ?andb_true_iff; simpl in Hk; intros H.
  all: destruct_and?; try split; try done; apply IH; done || lia.
Qed.

Lemma runnable_shape pl : runnable pl = true → shape pl = true.
Proof. by apply (runnable_shape_len (length pl)). Qed.

Section facts.
Context (exit_code : nat → Z) (can_open : string → bool) (can_spawn : list string → bool)
        (environ : list (string * string)).

(** *** The specification of the exit status

    [k] is the index of the next process.  A stage of piped commands has the status of
    its last command; [||] stops the whole pipeline on success and [&&] on failure. *)
Fixpoint status (pl : list node) (k : nat) : Z :=
  match pl with
  | NChdir _ :: NAnd :: r => status r k
  | NCommand _ :: NPipe :: r => status r (S k)
  | NCommand _ :: NOr :: r => if exit_code k =? 0 then exit_code k else status r (S k)
  | NCommand _ :: NAnd :: r => if exit_code k =? 0 then status r (S k) else exit_code k
  | _ => exit_code k
  end.

Section all_open.
Context (Hopen : ∀ p, can_open p = true) (Hspawn : ∀ a, can_spawn a = true).
Context (verbose : bool).

Lemma open_file_ok p b w :
  ∃ w', open_file can_open p b w = (Ok (SFile (n_open w)), w') ∧ n_proc w' = n_proc w.
Proof. unfold open_file. rewrite Hopen. eauto. Qed.

Lemma open_out_ok p w :
  ∃ s w', open_out_file can_open p w = (Ok s, w') ∧ n_proc w' = n_proc w.
Proof.
  unfold open_out_file. destruct (_ || _); [by eexists _, _|].
  destruct (open_file_ok p true w) as (w' & H & ?). eauto.
Qed.

Definition same_ctl (l l' : locals) : Prop :=
  piped_commands l' = piped_commands l ∧ piping l' = piping l ∧ cwd l' = cwd l.

Lemma displays_ctl s l : same_ctl l (displays verbose s l).
Proof. unfold same_ctl, displays. by destruct verbose. Qed.

Lemma same_ctl_trans l1 l2 l3 : same_ctl l1 l2 → same_ctl l2 l3 → same_ctl l1 l3.
Proof. unfold same_ctl. intros (? & ? & ?) (? & ? & ?). repeat split; congruence. Qed.

Lemma open_stdin_ok c l w :
  (piping l = true → piped_commands l ≠ []) →
  ∃ s l' w', open_stdin can_open verbose c l w = (Ok (s, l'), w') ∧ n_proc w' = n_proc w ∧
             same_ctl l l'.
Proof.
  intros Hp. unfold open_stdin. destruct (piping l) eqn:E.
  - destruct (piped_commands l) as [|p ps] eqn:El; [naive_solver|].
    destruct (List.last _ _) as [i []]; by eexists _, _, _.
  - destruct (stdin c) as [f|]; [|by eexists _, _, _].
    destruct (open_file_ok f false w) as (w' & H & Hn).
    eexists _, _, w'. unfold mbind, py_bind. rewrite H. split; [done|]. split; [done|].
    pose proof (displays_ctl ("< " +:+ f) l) as (? & ? & ?). done.
Qed.

Lemma open_stdout_ok c l w :
  stdout c ≠ Some STDOUT →
  ∃ s l' w', open_stdout can_open verbose c l w = (Ok (s, l'), w') ∧ n_proc w' = n_proc w ∧
             same_ctl l l'.
Proof.
  intros Hs. unfold open_stdout. destruct (stdout c) as [[| |f]|]; [|done|..];
    [by eexists _, _, _| |by eexists _, _, _].
  destruct (open_out_ok f w) as (s & w' & H & Hn).
  eexists _, _, w'. unfold mbind, py_bind. rewrite H. split; [done|]. split; [done|].
  pose proof (displays_ctl ("> " +:+ f) (to_close s l)) as (? & ? & ?). done.
Qed.

Lemma open_stderr_ok c l w :
  ∃ s l' w', open_stderr can_open verbose c l w = (Ok (s, l'), w') ∧ n_proc w' = n_proc w ∧
             same_ctl l l'.
Proof.
  unfold open_stderr. destruct (stderr c) as [[| |f]|]; try by eexists _, _, _.
  - eexists _, _, w. split; [done|]. split; [done|]. apply displays_ctl.
  - destruct (open_out_ok f w) as (s & w' & H & Hn).
    eexists _, _, w'. unfold mbind, py_bind. rewrite H. split; [done|]. split; [done|].
    pose proof (displays_ctl ("2> " +:+ f) (to_close s l)) as (? & ? & ?). done.
Qed.

Lemma start_command_ok c l w :
  good_command c → (piping l = true → piped_commands l ≠ []) →
  ∃ l' w', start_command can_open can_spawn environ verbose c l w = (Ok l', w') ∧
    n_proc w' = S (n_proc w) ∧
    piped_commands l' = piped_commands l ++ [(n_proc w, piped c)] ∧ piping l' = piping l.
Proof.
  intros (_ & Ho & _ & _) Hp. unfold start_command.
  set (l0 := displays verbose (env_str c) l).
  assert (same_ctl l l0) as H0 by apply displays_ctl.
  destruct (open_stdin_ok c l0 w) as (i & l1 & w1 & H1 & Hn1 & Hc1).
  { destruct H0 as (-> & -> & _). done. }
  destruct (open_stdout_ok c l1 w1 Ho) as (o & l2 & w2 & H2 & Hn2 & Hc2).
  destruct (open_stderr_ok c l2 w2) as (e & l3 & w3 & H3 & Hn3 & Hc3).
  pose proof (same_ctl_trans _ _ _ H0 (same_ctl_trans _ _ _ Hc1
    (same_ctl_trans _ _ _ Hc2 Hc3))) as (Hpc & Hpi & _).
  unfold mbind, py_bind. rewrite H1, H2, H3. unfold spawn. rewrite Hspawn.
  eexists _, _. split; [reflexivity|]. simpl.
  rewrite Hn3, Hn2, Hn1, Hpc, Hpi. done.
Qed.

Lemma wait_all_ok procs w :
  ∃ w', wait_all exit_code procs w = (Ok ((λ p : nat * bool, exit_code p.1) <$> procs), w') ∧
        n_proc w' = n_proc w.
Proof.
  revert w. induction procs as [|[i b] procs IH]; intros w; [by eexists|].
  cbn [wait_all]. unfold mbind, py_bind in *. simpl.
  destruct (IH (emit (EvWait i) w)) as (w' & H & Hn). rewrite H. eauto.
Qed.

Lemma exec_ok procs i b w :
  ∃ w', exec_piped_commands exit_code (procs ++ [(i, b)]) w = (Ok (exit_code i), w') ∧
        n_proc w' = n_proc w.
Proof.
  destruct (wait_all_ok (procs ++ [(i, b)]) w) as (w' & H & Hn).
  exists w'. unfold exec_piped_commands, mbind, py_bind. rewrite H.
  split; [|done]. unfold mret, py_ret. do 2 f_equal. rewrite fmap_app.
  apply exec_retval_snoc.
Qed.

Lemma close_files_ok fs w :
  ∃ w', close_files fs w = (Ok (), w') ∧ n_proc w' = n_proc w.
Proof.
  revert w. induction fs as [|[] fs IH]; intros w; simpl; eauto.
  unfold mbind, py_bind. simpl. destruct (IH (emit (EvClose h) w)) as (w' & H & Hn). eauto.
Qed.

Lemma finish_ok l procs i b w :
  piped_commands l = procs ++ [(i, b)] →
  ∃ w', finish_stage exit_code l w = (Ok (exit_code i), w') ∧ n_proc w' = n_proc w.
Proof.
  intros Hp. unfold finish_stage, mbind, py_bind. rewrite Hp.
  destruct (exec_ok procs i b w) as (w1 & H1 & Hn1). rewrite H1.
  destruct (close_files_ok (files_to_close l) w1) as (w2 & H2 & Hn2). rewrite H2.
  eexists. split; [done|]. congruence.
Qed.
End all_open.

Context (Hopen : ∀ p, can_open p = true) (Hspawn : ∀ a, can_spawn a = true).

Lemma run_loop_status pl :
  shape pl = true → runnable pl = true → Forall good_command (commands pl) → ∀ l w,
  (piping l = true → piped_commands l ≠ []) →
  ∃ w', run_loop exit_code can_open can_spawn environ false pl l w =
        (Ok (Some (status pl (n_proc w))), w').
Proof.
  intros H. revert pl H. refine (shape_ind _ _ _ _ _ _).
  - intros c Hc _ Hg l w Hp. change (Forall good_command [c]) in Hg.
    apply Forall_cons in Hg as [Hg _].
    destruct (start_command_ok Hopen Hspawn false c l w Hg Hp) as (l' & w1 & H1 & Hn & Hpc & _).
    cbn [run_loop]. unfold mbind, py_bind. rewrite H1, Hpc.
    destruct (exec_ok (piped_commands l) (n_proc w) (piped c) w1) as (w2 & -> & _). simpl.
    destruct (close_files_ok (files_to_close l') w2) as (w3 & -> & _). eauto.
  - intros d Hr. by destruct d.
  - intros d r Hs IH Hr Hg l w Hp. destruct d as [d|]; [|done].
    cbn [run_loop]. by apply IH.
  - intros c r Hc Hs IH Hr Hg l w Hp.
    change (Forall good_command (c :: commands r)) in Hg.
    apply Forall_cons in Hg as [Hgc Hg].
    simpl in Hr. rewrite Hc in Hr.
    destruct (start_command_ok Hopen Hspawn false c l w Hgc Hp) as (l' & w1 & H1 & Hn & Hpc & _).
    cbn [run_loop status]. unfold mbind, py_bind. rewrite H1, <- Hn.
    apply IH; [done..|]. simpl. rewrite Hpc. by destruct (piped_commands l).
  - intros c op r Hop Hc Hs IH Hr Hg l w Hp.
    assert (good_command c ∧ Forall good_command (commands r)) as [Hgc Hg'].
    { apply Forall_cons. by destruct Hop; subst. }
    assert (runnable r = true) as Hr' by (destruct Hop; subst; simpl in Hr; by rewrite Hc in Hr).
    destruct (start_command_ok Hopen Hspawn false c l w Hgc Hp) as (l' & w1 & H1 & Hn & Hpc & _).
    destruct (finish_ok l' (piped_commands l) (n_proc w) (piped c) w1 Hpc) as (w2 & H2 & Hn2).
    destruct Hop; subst; cbn [run_loop status]; unfold mbind, py_bind; rewrite H1, H2;
      destruct (exit_code (n_proc w) =? 0); simpl; eauto;
      rewrite <- Hn, <- Hn2; by apply IH.
Qed.

(** C17. Functional refinement of [Pipeline.run]: on a runnable pipeline of well-built
    commands whose files open and whose programs start, a quiet [run] returns the status
    the specification [status] gives, from whatever processes were spawned before. *)
Theorem run_status (pl : list node) (w : world)
    (Hr : runnable pl = true) (Hg : Forall good_command (commands pl)) :
  (run exit_code can_open can_spawn environ false pl w).1 =
  Ok (Some (status pl (n_proc w))).
Proof.
  destruct (run_loop_status pl (runnable_shape pl Hr) Hr Hg init_locals w) as (w' & H);
    [done|].
  unfold run. by rewrite H.
Qed.

(** With [verbose] set, [run] never gets past an [&&] or [||]: after the first stage
    the progress message formats [retval], a local variable no path has assigned, so the
    call ends in [UnboundLocalError], whether the operator short-circuits or proceeds. *)
Theorem verbose_run_fails (c : Command) (op : node) (rest : list node) (w : world)
    (Hg : good_command c) (Hop : op = NAnd ∨ op = NOr) :
  (run exit_code can_open can_spawn environ true (NCommand c :: op :: rest) w).1 =
  Raise UnboundLocalError.
Proof.
  destruct (start_command_ok Hopen Hspawn true c init_locals w Hg) as (l' & w1 & H1 & _ & Hpc & _);
    [done|].
  destruct (finish_ok l' [] (n_proc w) (piped c) w1 Hpc) as (w2 & H2 & _).
  unfold run. destruct Hop; subst; cbn [run_loop]; unfold mbind, py_bind; rewrite H1, H2;
    by destruct (exit_code (n_proc w) =? 0).
Qed.

(** *** The shell's reading of the same list

    [&&] and [||] have equal precedence and associate to the left: a skipped operand
    leaves the status as it is and the scan goes on. *)
Fixpoint shell_status (pl : list node) (k : nat) (skip : bool) (st : Z) : Z :=
  match pl with
  | NChdir _ :: NAnd :: r => shell_status r k skip st
  | NCommand _ :: NPipe :: r => shell_status r (if skip then k else S k) skip st
  | NCommand _ :: NAnd :: r =>
      let st' := if skip then st else exit_code k in
      shell_status r (if skip then k else S k) (negb (st' =? 0)) st'
  | NCommand _ :: NOr :: r =>
      let st' := if skip then st else exit_code k in
      shell_status r (if skip then k else S k) (st' =? 0) st'
  | _ => if skip then st else exit_code k
  end.

(** all the operators between stages are [op] *)
Definition only (op : node) (pl : list node) : Prop :=
  Forall (λ n, n = NAnd ∨ n = NOr → n = op) pl.

Lemma shell_skips op pl :
  shape pl = true → only op pl → ∀ k st,
  match op with NAnd => st ≠ 0 | _ => st = 0 end →
  shell_status pl k true st = st.
Proof.
  intros H. revert pl H. refine (shape_ind _ _ _ _ _ _); try done.
  - intros d r _ IH Ho k st Hst. unfold only in Ho. rewrite !Forall_cons in Ho.
    destruct Ho as (_ & _ & Hr). simpl. by apply IH.
  - intros c r _ _ IH Ho k st Hst. unfold only in Ho. rewrite !Forall_cons in Ho.
    destruct Ho as (_ & _ & Hr). simpl. by apply IH.
  - intros c op' r Hop _ _ IH Ho k st Hst. unfold only in Ho. rewrite !Forall_cons in Ho.
    destruct Ho as (_ & He & Hr). specialize (He Hop). subst op'.
    destruct Hop; subst; simpl.
    + replace (st =? 0) with false by lia. by apply IH.
    + subst. simpl. by apply IH.
Qed.

Lemma status_shell op pl :
  shape pl = true → only op pl → ∀ k st, status pl k = shell_status pl k false st.
Proof.
  intros H. revert pl H. refine (shape_ind _ _ _ _ _ _); try done.
  - intros d r _ IH Ho k st. unfold only in Ho. rewrite !Forall_cons in Ho.
    destruct Ho as (_ & _ & Hr). simpl. by apply IH.
  - intros c r _ _ IH Ho k st. unfold only in Ho. rewrite !Forall_cons in Ho.
    destruct Ho as (_ & _ & Hr). simpl. by apply IH.
  - intros c op' r Hop _ Hs IH Ho k st. unfold only in Ho. rewrite !Forall_cons in Ho.
    destruct Ho as (_ & He & Hr). specialize (He Hop). subst op'.
    destruct Hop; subst; simpl; destruct (exit_code k =? 0) eqn:E; simpl;
      first [by apply IH | symmetry; eapply shell_skips; [done..|]; simpl; lia].
Qed.

End facts.

Definition plain (n : string) : node := NCommand (new_command n).
Definition start : world := {| log := []; n_open := 0; n_proc := 0 |}.

Lemma plain_good n : good_command (new_command n).
Proof. repeat split; try done. by exists []. Qed.

Lemma run_status_witness :
  (run (λ i, if (i =? 0)%nat then 3 else 0) (λ _, true) (λ _, true) [] false
     [plain "false"; NOr; plain "true"] start).1 = Ok (Some 0).
Proof.
  apply (run_status (λ i, if (i =? 0)%nat then 3 else 0) (λ _, true) (λ _, true) []
           (λ _, eq_refl) (λ _, eq_refl) [plain "false"; NOr; plain "true"] start eq_refl).
  repeat constructor; try apply plain_good; simpl; try done; by exists [].
Defined.

Lemma verbose_run_fails_witness :
  (run (λ _, 0) (λ _, true) (λ _, true) [] true [plain "ls"; NAnd; plain "ls"] start).1 =
  Raise UnboundLocalError.
Proof.
  apply (verbose_run_fails (λ _, 0) (λ _, true) (λ _, true) []
           (λ _, eq_refl) (λ _, eq_refl) (new_command "ls") NAnd [plain "ls"] start).
  - repeat split; try done. by exists [].
  - by left.
Defined.


(** With mixed operators [run] and the shell part ways: in [a || b && c] with [a]
    successful, [run] stops at [||] and returns 0 without ever spawning [c]; the shell
    skips [b] and runs [c], whose failure is the status of the line. *)
Theorem mixed_operators_diverge :
  let pl := [plain "a"; NOr; plain "b"; NAnd; plain "c"] in
  let exit_code := λ i, if (i =? 0)%nat then 0 else 7 in
  let r := run exit_code (λ _, true) (λ _, true) [] false pl start in
  r.1 = Ok (Some 0) ∧ n_proc r.2 = 1%nat ∧ shell_status exit_code pl 0 false 0 = 7.
Proof. repeat split. Qed.

(** [get_abbreviated_command] never shows an [||]: the branch that would append it
    tests for [And] a second time, so a pipeline and the same pipeline without its [||]
    nodes are displayed alike. *)
Theorem abbreviation_drops_or (pl : list node) :
  get_abbreviated_command pl = get_abbreviated_command (filter (λ n, n ≠ NOr) pl).
Proof.
  unfold get_abbreviated_command. f_equal.
  induction pl as [|n pl IH]; [done|]. cbn [mbind list_bind].
  rewrite IH. destruct (decide (n ≠ NOr)) as [Hn|Hn].
  - by rewrite filter_cons_True.
  - rewrite filter_cons_False by done. apply dec_stable in Hn as ->. done.
Qed.
End RunFacts.

(** ** File handles *)
Module RunFiles.
Import Nodes Parse Run Grammar RunFacts.

Definition opens (l : list event) : list nat :=
  omap (λ e, match e with EvOpen h _ _ => Some h | _ => None end) l.
Definition closes (l : list event) : list nat :=
  omap (λ e, match e with EvClose h => Some h | _ => None end) l.
Definition handles (fs : list stream) : list nat :=
  omap (λ s, match s with SFile h => Some h | _ => None end) fs.

Section files.
Context (exit_code : nat → Z) (can_open : string → bool) (can_spawn : list string → bool)
        (environ : list (string * string)) (verbose : bool).

(** the files open after [w] are those of the stage in [l] *)
Definition balanced (l : locals) (w : world) : Prop :=
  opens (log w) ≡ₚ closes (log w) ++ handles (files_to_close l).

Lemma displays_files s l : files_to_close (displays verbose s l) = files_to_close l.
Proof. unfold displays. by destruct verbose. Qed.

Lemma balanced_to_close l w p b :
  balanced l w →
  balanced (to_close (SFile (n_open w)) l)
    {| log := log w ++ [EvOpen (n_open w) p b]; n_open := S (n_open w);
       n_proc := n_proc w |}.
Proof.
  unfold balanced, opens, closes, handles. simpl. intros H.
  rewrite !omap_app. simpl. by rewrite H, app_nil_r, (assoc_L (++)).
Qed.

Lemma balanced_eq l l' w :
  files_to_close l' = files_to_close l → balanced l w → balanced l' w.
Proof. unfold balanced. by intros ->. Qed.

Lemma open_file_balanced p b l w s w' :
  balanced l w → open_file can_open p b w = (Ok s, w') → balanced (to_close s l) w'.
Proof.
  unfold open_file. intros Hb. destruct (can_open p); intros [= <- <-].
  by apply balanced_to_close.
Qed.

Lemma open_out_balanced p l w s w' :
  balanced l w → open_out_file can_open p w = (Ok s, w') → balanced (to_close s l) w'.
Proof.
  unfold open_out_file. intros Hb. destruct (_ || _); [|by apply open_file_balanced].
  intros [= <- <-]. unfold balanced, handles in *. simpl. rewrite omap_app. simpl.
  by rewrite app_nil_r.
Qed.

Lemma open_stdin_balanced c l w s l' w' :
  balanced l w → open_stdin can_open verbose c l w = (Ok (s, l'), w') → balanced l' w'.
Proof.
  unfold open_stdin. intros Hb. destruct (piping l).
  - destruct (List.last _ _) as [i []], (piped_commands l); intros [=]; by subst.
  - destruct (stdin c); [|intros [=]; by subst].
    intros (h & w1 & H1 & [= <- <- <-])%py_bind_Ok.
    eapply open_file_balanced; [|done]. eapply balanced_eq; [|done]. apply displays_files.
Qed.

Lemma open_stdout_balanced c l w s l' w' :
  balanced l w → open_stdout can_open verbose c l w = (Ok (s, l'), w') → balanced l' w'.
Proof.
  unfold open_stdout. intros Hb. destruct (stdout c) as [[| |f]|]; [| |..];
    try (intros [=]; by subst).
  intros (h & w1 & H1 & [= <- <- <-])%py_bind_Ok.
  eapply balanced_eq; [apply displays_files|]. by eapply open_out_balanced.
Qed.

Lemma open_stderr_balanced c l w s l' w' :
  balanced l w → open_stderr can_open verbose c l w = (Ok (s, l'), w') → balanced l' w'.
Proof.
  unfold open_stderr. intros Hb. destruct (stderr c) as [[| |f]|];
    [by intros [= <- <- <-]| | |by intros [= <- <- <-]].
  { intros [= <- <- <-]. eapply balanced_eq; [apply displays_files|done]. }
  intros (h & w1 & H1 & [= <- <- <-])%py_bind_Ok.
  eapply balanced_eq; [apply displays_files|]. by eapply open_out_balanced.
Qed.

Lemma start_command_balanced c l w l' w' :
  balanced l w → start_command can_open can_spawn environ verbose c l w = (Ok l', w') →
  balanced l' w'.
Proof.
  intros Hb. unfold start_command.
  intros ([i l1] & w1 & H1 & H)%py_bind_Ok. apply open_stdin_balanced in H1;
    [|eapply balanced_eq; [apply displays_files|done]].
  apply py_bind_Ok in H as ([o l2] & w2 & H2 & H). apply open_stdout_balanced in H2; [|done].
  apply py_bind_Ok in H as ([e l3] & w3 & H3 & H). apply open_stderr_balanced in H3; [|done].
  apply py_bind_Ok in H as (p & w4 & H4 & H). unfold spawn in H4.
  destruct (can_spawn _); [|done]. injection H4 as <- <-. injection H as <- <-.
  unfold balanced, opens, closes in *. simpl. rewrite !omap_app. simpl.
  by rewrite !app_nil_r.
Qed.

Lemma wait_all_files procs w rs w' :
  wait_all exit_code procs w = (Ok rs, w') →
  opens (log w') = opens (log w) ∧ closes (log w') = closes (log w).
Proof.
  revert w rs. induction procs as [|[i b] procs IH]; intros w rs.
  - by intros [= <- <-].
  - cbn [wait_all]. intros (u & w1 & H1 & H)%py_bind_Ok. injection H1 as <- <-.
    apply py_bind_Ok in H as (rs' & w2 & H2 & [= <- <-]).
    apply IH in H2 as [-> ->]. unfold opens, closes. simpl. rewrite !omap_app. simpl.
    by rewrite !app_nil_r.
Qed.

Lemma close_files_files fs w w' :
  close_files fs w = (Ok (), w') →
  opens (log w') = opens (log w) ∧ closes (log w') = closes (log w) ++ handles fs.
Proof.
  revert w. induction fs as [|s fs IH]; intros w.
  - intros [= <-]. by rewrite app_nil_r.
  - destruct s as [| | |h| |]; simpl; try apply IH.
    intros (u & w1 & H1 & H)%py_bind_Ok. injection H1 as <- <-.
    apply IH in H as [-> ->]. unfold opens, closes. simpl. rewrite !omap_app. simpl.
    by rewrite app_nil_r, <- List.app_assoc.
Qed.

Definition all_closed (w : world) : Prop := opens (log w) ≡ₚ closes (log w).

Lemma finish_stage_closed l w r w' :
  balanced l w → finish_stage exit_code l w = (Ok r, w') → all_closed w'.
Proof.
  unfold finish_stage, exec_piped_commands. intros Hb (x & w1 & H1 & H)%py_bind_Ok.
  apply py_bind_Ok in H1 as (rs & w2 & H2 & [= <- <-]).
  apply py_bind_Ok in H as ([] & w3 & H3 & [= <- <-]).
  apply wait_all_files in H2 as [E1 E2]. apply close_files_files in H3 as [E3 E4].
  unfold all_closed. rewrite E3, E4, E1, E2. exact Hb.
Qed.

Lemma all_closed_balanced l w : files_to_close l = [] → all_closed w → balanced l w.
Proof. unfold balanced, all_closed. intros -> H. by rewrite app_nil_r. Qed.

Lemma run_loop_closed pl :
  shape pl = true → ∀ l w r w', balanced l w →
  run_loop exit_code can_open can_spawn environ verbose pl l w = (Ok r, w') → all_closed w'.
Proof.
  intros H. revert pl H. refine (shape_ind _ _ _ _ _ _).
  - intros c _ l w r w' Hb. cbn [run_loop]. intros (l1 & w1 & H1 & H)%py_bind_Ok.
    apply start_command_balanced in H1; [|done].
    apply py_bind_Ok in H as (v & w2 & H2 & H).
    apply py_bind_Ok in H2 as (rs & w3 & H2 & [= <- <-]).
    apply wait_all_files in H2 as [E1 E2].
    apply py_bind_Ok in H as ([] & w4 & H4 & H).
    apply py_bind_Ok in H as ([] & w5 & H5 & [= <- <-]).
    apply close_files_files in H5 as [E3 E4].
    assert (opens (log w4) = opens (log w3) ∧ closes (log w4) = closes (log w3)) as [E5 E6].
    { destruct verbose; injection H4 as <-; [|done]. unfold opens, closes. simpl.
      rewrite !omap_app. simpl. by rewrite !app_nil_r. }
    unfold all_closed. rewrite E3, E4, E5, E6, E1, E2. exact H1.
  - done.
  - intros d r _ IH l w v w' Hb. cbn [run_loop]. destruct d as [d|]; [|done].
    apply IH. eapply balanced_eq; [|done]. by rewrite displays_files.
  - intros c r _ _ IH l w v w' Hb. cbn [run_loop]. intros (l1 & w1 & H1 & H)%py_bind_Ok.
    apply start_command_balanced in H1; [|done]. revert H. by apply IH.
  - intros c op r Hop _ _ IH l w v w' Hb.
    destruct Hop; subst; cbn [run_loop]; intros (l1 & w1 & H1 & H)%py_bind_Ok;
      apply start_command_balanced in H1; try done;
      apply py_bind_Ok in H as (x & w2 & H2 & H);
      apply finish_stage_closed in H2; try done;
      (destruct (x =? 0); simpl in H; destruct verbose; try done;
        [first [by injection H as <- <- | revert H; apply IH; by apply all_closed_balanced]
        |first [by injection H as <- <- | revert H; apply IH; by apply all_closed_balanced]]).
Qed.

(** C31. Resource safety of [run]: whichever files open and programs start, verbose or
    not, when [run] returns normally from a pipeline of the grammar, each file it opened
    has been closed, and closed once. *)
Theorem run_closes_files (pl : list node) (w w' : world) (r : option Z)
    (Hs : shape pl = true) (Hw : all_closed w)
    (Hrun : run exit_code can_open can_spawn environ verbose pl w = (Ok r, w')) :
  all_closed w'.
Proof.
  eapply run_loop_closed; [exact Hs| |exact Hrun]. by apply all_closed_balanced.
Qed.
End files.

Lemma run_closes_files_witness :
  all_closed (run (λ _, 0) (λ _, true) (λ _, true) [] false
    [NCommand (set_stdout (File "o") (new_command "ls")); NOr;
     NCommand (set_stdin "i" (new_command "cat"))] start).2.
Proof.
  eapply (run_closes_files (λ _, 0) (λ _, true) (λ _, true) [] false
    [NCommand (set_stdout (File "o") (new_command "ls")); NOr;
     NCommand (set_stdin "i" (new_command "cat"))] start); [reflexivity| |reflexivity].
  exact (Permutation_refl []).
Defined.
End RunFiles.

(** ** Which commands are started *)
Module Spawns.
Import Nodes Run Grammar RunFacts.

(** the arguments of the processes started, in order *)
Definition spawned (l : list event) : list (list string) :=
  omap (λ e, match e with EvSpawn _ argv _ _ _ _ _ => Some argv | _ => None end) l.

(** whether a pipeline has only one stage, the commands before the first [&&] or [||] *)
Fixpoint one_stage (pl : list node) : bool :=
  match pl with
  | NChdir _ :: NAnd :: r | NCommand _ :: NPipe :: r => one_stage r
  | NCommand _ :: NAnd :: _ | NCommand _ :: NOr :: _ => false
  | _ => true
  end.

Section spawns.
Context (exit_code : nat → Z) (can_open : string → bool) (can_spawn : list string → bool)
        (environ : list (string * string)) (verbose : bool).

(** how many commands are started, from the [k]-th process on: those of the stages up to the one
    whose status stops the pipeline, or up to the end of the first stage when it is shown *)
Fixpoint started (pl : list node) (k : nat) : nat :=
  match pl with
  | NChdir _ :: NAnd :: r => started r k
  | NCommand _ :: NPipe :: r => S (started r (S k))
  | NCommand _ :: NOr :: r => if verbose || (exit_code k =? 0) then 1 else S (started r (S k))
  | NCommand _ :: NAnd :: r => if negb verbose && (exit_code k =? 0) then S (started r (S k)) else 1
  | _ => 1
  end.

Definition quietly {A} (m : py world A) : Prop :=
  ∀ w r w', m w = (r, w') → spawned (log w') = spawned (log w).
Lemma quietly_bind {A B} (m : py world A) (f : A → py world B) :
  quietly m → (∀ a, quietly (f a)) → quietly (m ≫= f).
Proof.
  intros Hm Hf w r w'. cbv [mbind py_bind]. destruct (m w) as [[a|e] w1] eqn:Em.
  - intros Hr. rewrite (Hf a _ _ _ Hr). by eapply Hm.
  - intros [= _ <-]. by eapply Hm.
Qed.
Lemma quietly_ret {A} (a : A) : quietly (mret a).
Proof. by intros w r w' [= _ <-]. Qed.
Lemma quietly_raise {A} e : quietly (py_raise e : py world A).
Proof. by intros w r w' [= _ <-]. Qed.
Lemma quietly_emit e : spawned [e] = [] → quietly (py_modify (emit e)).
Proof. intros He w r w' [= _ <-]. cbn. unfold spawned in *. by rewrite omap_app, He, app_nil_r. Qed.
Lemma quietly_open p b : quietly (open_file can_open p b).
Proof.
  intros w r w'. unfold open_file. destruct (can_open p); intros [= _ <-]; [|done].
  cbn. unfold spawned. by rewrite omap_app, app_nil_r.
Qed.
Lemma quietly_open_out p : quietly (open_out_file can_open p).
Proof. unfold open_out_file. case_match; [apply quietly_ret|apply quietly_open]. Qed.
#[local] Hint Resolve quietly_ret quietly_raise quietly_open quietly_open_out : spawndb.
Ltac quiet_tac := repeat first [progress auto with spawndb | apply quietly_bind; [|intros ?] |
  match goal with |- quietly (match ?x with _ => _ end) => destruct x end].

Lemma quietly_stdin c l : quietly (open_stdin can_open verbose c l).
Proof. unfold open_stdin. quiet_tac. Qed.
Lemma quietly_stdout c l : quietly (open_stdout can_open verbose c l).
Proof. unfold open_stdout. quiet_tac. Qed.
Lemma quietly_stderr c l : quietly (open_stderr can_open verbose c l).
Proof. unfold open_stderr. quiet_tac. Qed.
Lemma quietly_wait procs : quietly (wait_all exit_code procs).
Proof.
  induction procs as [|[i b] procs IH]; cbn [wait_all]; [apply quietly_ret|].
  apply quietly_bind; [by apply quietly_emit|intros _]. apply quietly_bind; [done|quiet_tac].
Qed.
Lemma quietly_exec procs : quietly (exec_piped_commands exit_code procs).
Proof. apply quietly_bind; [apply quietly_wait|quiet_tac]. Qed.
Lemma quietly_close fs : quietly (close_files fs).
Proof.
  induction fs as [|[] fs IH]; cbn [close_files]; try done; [apply quietly_ret|].
  apply quietly_bind; [by apply quietly_emit|done].
Qed.
Lemma quietly_finish l : quietly (finish_stage exit_code l).
Proof. apply quietly_bind; [apply quietly_exec|]. intros r. apply quietly_bind; [apply quietly_close|quiet_tac]. Qed.

(** the start of a command starts it *)
Lemma start_command_spawns c l w l' w' :
  start_command can_open can_spawn environ verbose c l w = (Ok l', w') →
  spawned (log w') = spawned (log w) ++ [argv c].
Proof.
  unfold start_command. intros ([i l1] & w1 & H1 & H)%py_bind_Ok.
  apply py_bind_Ok in H as ([o l2] & w2 & H2 & H). apply py_bind_Ok in H as ([e l3] & w3 & H3 & H).
  apply py_bind_Ok in H as (p & w4 & H4 & [= _ <-]).
  apply quietly_stdin in H1. apply quietly_stdout in H2. apply quietly_stderr in H3.
  unfold spawn in H4. destruct (can_spawn (argv c)); [|done]. injection H4 as _ <-.
  cbn. unfold spawned in *. rewrite omap_app. cbn. congruence.
Qed.

Context (Hopen : ∀ p, can_open p = true) (Hspawn : ∀ a, can_spawn a = true).

(** the outcome of a run, quiet or verbose, and the commands it starts: the first of the pipeline *)
Lemma run_loop_spawns pl :
  shape pl = true → runnable pl = true → Forall good_command (commands pl) → ∀ l w,
  (piping l = true → piped_commands l ≠ []) →
  ∃ w', run_loop exit_code can_open can_spawn environ verbose pl l w =
        (if verbose && negb (one_stage pl) then Raise UnboundLocalError
         else Ok (Some (status exit_code pl (n_proc w))), w') ∧
    spawned (log w') = spawned (log w) ++ (argv <$> take (started pl (n_proc w)) (commands pl)).
Proof.
  intros H. revert pl H. refine (shape_ind _ _ _ _ _ _).
  - intros c Hc _ Hg l w Hp. apply Forall_cons in Hg as [Hg _].
    destruct (start_command_ok can_open can_spawn environ Hopen Hspawn verbose c l w Hg Hp)
      as (l' & w1 & H1 & _ & Hpc & _).
    pose proof (start_command_spawns _ _ _ _ _ H1) as S1.
    cbn [run_loop one_stage negb]. rewrite andb_false_r. unfold mbind, py_bind. rewrite H1, Hpc.
    destruct (exec_ok exit_code (piped_commands l) (n_proc w) (piped c) w1) as (w2 & E2 & _).
    pose proof (quietly_exec _ _ _ _ E2) as S2. rewrite E2.
    assert (∃ w3, (if verbose then py_modify (emit (EvPrint (join " " (piped_commands_display l') +:+
      ": exit code " +:+ show_Z (exit_code (n_proc w))))) else mret ()) w2 = (Ok (), w3) ∧
      spawned (log w3) = spawned (log w2)) as (w4 & -> & S3).
    { destruct verbose; [|by exists w2]. eexists. split; [reflexivity|].
      cbn. unfold spawned. by rewrite omap_app, app_nil_r. }
    destruct (close_files_ok (files_to_close l') w4) as (w5 & E5 & _).
    pose proof (quietly_close _ _ _ _ E5) as S5. rewrite E5. eexists. split; [reflexivity|].
    cbn. congruence.
  - intros d Hr. by destruct d.
  - intros d r Hs IH Hr Hg l w Hp. destruct d as [d|]; [|done].
    cbn [run_loop]. destruct (IH Hr Hg (displays verbose ("cd " +:+ d +:+ " &&")
      {| files_to_close := files_to_close l; piped_commands := piped_commands l;
         piped_commands_display := piped_commands_display l; piping := piping l;
         cwd := path_join (cwd l) d |}) w) as (w' & E & S); [by destruct verbose|].
    exists w'. split; [exact E|exact S].
  - intros c r Hc Hs IH Hr Hg l w Hp.
    change (Forall good_command (c :: commands r)) in Hg. apply Forall_cons in Hg as [Hgc Hg].
    simpl in Hr. rewrite Hc in Hr.
    destruct (start_command_ok can_open can_spawn environ Hopen Hspawn verbose c l w Hgc Hp)
      as (l' & w1 & H1 & Hn & Hpc & _).
    pose proof (start_command_spawns _ _ _ _ _ H1) as S1.
    cbn [run_loop]. unfold mbind, py_bind. rewrite H1.
    edestruct (IH Hr Hg) as (w' & E & S); [|exists w'; split; [rewrite E, Hn; reflexivity|]].
    { cbn. rewrite Hpc. by destruct (piped_commands l). }
    rewrite S, S1, Hn. cbn. by rewrite <- app_assoc.
  - intros c op r Hop Hc Hs IH Hr Hg l w Hp.
    assert (good_command c ∧ Forall good_command (commands r)) as [Hgc Hg'].
    { apply Forall_cons. by destruct Hop; subst. }
    assert (runnable r = true) as Hr' by (destruct Hop; subst; simpl in Hr; by rewrite Hc in Hr).
    destruct (start_command_ok can_open can_spawn environ Hopen Hspawn verbose c l w Hgc Hp)
      as (l' & w1 & H1 & Hn & Hpc & _).
    destruct (finish_ok exit_code l' (piped_commands l) (n_proc w) (piped c) w1 Hpc) as (w2 & H2 & Hn2).
    pose proof (start_command_spawns _ _ _ _ _ H1) as S1.
    pose proof (quietly_finish _ _ _ _ H2) as S2.
    destruct (IH Hr' Hg' (next_stage l') w2) as (w3 & E3 & S3); [done|].
    destruct Hop; subst; cbn [run_loop status started one_stage negb]; rewrite andb_true_r;
      unfold mbind, py_bind; rewrite H1, H2; destruct (exit_code (n_proc w) =? 0) eqn:Ez; cbn [negb orb andb];
      destruct verbose eqn:Ev; cbn [negb orb andb]; cbn [andb] in E3;
      first [ rewrite E3, <- Hn, <- Hn2; eexists; split; [reflexivity|];
              rewrite S3, S2, S1; cbn; by rewrite <- app_assoc
            | eexists; split; [reflexivity|]; rewrite S2, S1; cbn; by rewrite ?take_0 ].
Qed.
End spawns.
End Spawns.
