(* ===== verification/CFlags.v ===== *)
(** * cflags.py: compiler flags of a build profile

    waf-tools/cflags.py: the tables of the three families of compilers, the build profiles and
    [configure].  waf's configuration set is an interface ([ConfigSet] with its laws); the
    association lists at the end are one implementation of it. *)
From Stdlib Require Import ZArith Lia Ascii String.
From stdpp Require Import base list strings.
From S2P Require Import Prelude PyStr.
#[local] Open Scope Z_scope.

(** ** waf's [ConfigSet] *)
Class ConfigSet (E : Type) := {
  env_str : E → string → string;            (* [env[k]] of a text, empty when it is not set *)
  env_list : E → string → list string;      (* [env[k]] of a list, empty when it is not set *)
  append_value : E → string → list string → E
}.

Class ConfigSetLaws (E : Type) `{ConfigSet E} := {
  append_value_str e k v k' : env_str (append_value e k v) k' = env_str e k';
  append_value_list e k v k' :
    env_list (append_value e k v) k' = if decide (k' = k) then env_list e k ++ v else env_list e k'
}.

Module Traits.
(** the three subclasses of [CompilerTraits] *)
Inductive traits := GccTraits | IccTraits | MsvcTraits.
#[export] Instance traits_eq_dec : EqDecision traits.
Proof. solve_decision. Defined.

(** cumulative list of warnings per level *)
Definition warnings_flags (t : traits) : list (list string) :=
  match t with
  | GccTraits => [["-Wall"]; ["-Werror"]; ["-Wextra"]]
  | IccTraits => [[]; []; ["-Wall"]]
  | MsvcTraits => [["/W2"]; ["/WX"]; ["/Wall"]]
  end.

(** the loop [for l in range(level)] with its [break]: [n] more levels from [l] *)
Fixpoint collect_warnings (flags : list (list string)) (n l : nat) (warnings : list string)
    : list string :=
  match n with
  | O => warnings
  | S n =>
      match flags !! l with
      | Some fs => collect_warnings flags n (S l) (warnings ++ fs)
      | None => warnings
      end
  end.

Definition get_warnings_flags (t : traits) (level : Z) : list string :=
  collect_warnings (warnings_flags t) (Z.to_nat level) 0 [].

(** a level outside the tests falls off the end of the method and gives [None] *)
Definition get_optimization_flags (t : traits) (level : Z) : option (list string) :=
  match t with
  | GccTraits | IccTraits =>
      if level =? 0 then Some ["-O0"] else if level =? 1 then Some ["-O"]
      else if level =? 2 then Some ["-O2"] else if level =? 3 then Some ["-O3"] else None
  | MsvcTraits =>
      if level =? 0 then Some ["/Od"] else if level =? 1 then Some []
      else if level =? 2 then Some ["/O2"] else if level =? 3 then Some ["/Ox"] else None
  end.

(** (flags, defines) *)
Definition get_debug_flags (t : traits) (level : Z) : option (list string * list string) :=
  match t with
  | GccTraits | IccTraits =>
      if level =? 0 then Some (["-g0"], ["NDEBUG"]) else if level =? 1 then Some (["-g"], [])
      else if 2 <=? level then Some (["-ggdb"; "-g3"], ["_DEBUG"]) else None
  | MsvcTraits =>
      if level =? 0 then Some ([], ["NDEBUG"]) else if level =? 1 then Some (["/ZI"; "/RTC1"], [])
      else if 2 <=? level then Some (["/ZI"; "/RTC1"], ["_DEBUG"]) else None
  end.

Definition compiler_mapping : list (string * traits) :=
  [("gcc", GccTraits); ("g++", GccTraits); ("msvc", MsvcTraits); ("icc", IccTraits);
   ("icpc", IccTraits); ("clang", GccTraits); ("clang++", GccTraits)].

(** profile name: (optimization level, warnings level, debug level) *)
Definition profiles : list (string * (Z * Z * Z)) :=
  [("default", (2, 1, 1)); ("debug", (0, 2, 3)); ("release", (3, 1, 0))].

Definition default_profile : string := "default".
End Traits.

Module Configure.
Import Traits.

(** the warning: the two compilers without flags support *)
Definition log : Type := list (option string * option string).

Definition or_none (s : string) : option string := if truthy s then Some s else None.

(** [compiler_mapping[cc]], then [compiler_mapping[cxx]] *)
Definition mapped (c : option string) : option traits :=
  match c with Some c => dict_get compiler_mapping c | None => None end.
Definition find_compiler (cc cxx : option string) : option traits :=
  match mapped cc with Some t => Some t | None => mapped cxx end.

Section configure.
  Context {E : Type} `{ConfigSet E}.

(** [env.append_value(k, v)] where [v] may be [None], which is no list to extend with *)
Definition append_opt (e : E) (k : string) (v : option (list string)) : result E :=
  match v with Some v => Ok (append_value e k v) | None => Raise TypeError end.

(** the four appends for one language, whose variables are given *)
Definition add_flags (flags_var defines_var : string) (compiler : option string)
    (optimizations : option (list string)) (debug warnings debug_defs : list string) (e : E)
    : result E :=
  match compiler, env_list e flags_var with
  | Some _, [] =>
      e ← append_opt e flags_var optimizations;
      let e := append_value e flags_var debug in
      let e := append_value e flags_var warnings in
      Ok (append_value e defines_var debug_defs)
  | _, _ => Ok e
  end.

Definition configure (build_profile : string) (e : E) : result (E * log) :=
  let cc := or_none (env_str e "COMPILER_CC") in
  let cxx := or_none (env_str e "COMPILER_CXX") in
  match cc, cxx with
  | None, None =>
      Raise (WafError ("neither COMPILER_CC nor COMPILER_CXX are defined; " +:+
        "maybe the compiler_cc or compiler_cxx tool has not been configured yet?"))
  | _, _ =>
      match find_compiler cc cxx with
      | None => Ok (e, [(cc, cxx)])
      | Some compiler =>
          match dict_get profiles build_profile with
          | None => Raise KeyError
          | Some (opt_level, warn_level, dbg_level) =>
              let optimizations := get_optimization_flags compiler opt_level in
              match get_debug_flags compiler dbg_level with
              | None => Raise TypeError
              | Some (debug, debug_defs) =>
                  let warnings := get_warnings_flags compiler warn_level in
                  e ← add_flags "CCFLAGS" "CCDEFINES" cc optimizations debug warnings debug_defs e;
                  e ← add_flags "CXXFLAGS" "CXXDEFINES" cxx optimizations debug warnings
                        debug_defs e;
                  Ok (e, [])
              end
          end
      end
  end.
End configure.
End Configure.

Module FlagFacts.
Import Traits Configure.

Lemma collect_warnings_take flags n l acc :
  collect_warnings flags n l acc = acc ++ concat (take n (drop l flags)).
Proof.
  revert l acc. induction n as [|n IH]; intros l acc; cbn; [by rewrite app_nil_r|].
  destruct (flags !! l) as [fs|] eqn:E.
  - rewrite IH, (drop_S flags fs l E). cbn. by rewrite app_assoc.
  - apply lookup_ge_None in E. rewrite drop_ge by done. by rewrite app_nil_r.
Qed.

(** The warnings flags of a level are those of all the levels below it: none for a level of 0
    or less, the whole table from level 3 on, and a higher level only adds flags at the end. *)
Theorem warnings_cumulative (t : traits) (level : Z) :
  get_warnings_flags t level = concat (take (Z.to_nat level) (warnings_flags t)) ∧
  (level <= 0 → get_warnings_flags t level = []) ∧
  (3 <= level → get_warnings_flags t level = concat (warnings_flags t)) ∧
  ∀ level', level <= level' → ∃ more,
    get_warnings_flags t level' = get_warnings_flags t level ++ more.
Proof.
  unfold get_warnings_flags. rewrite collect_warnings_take. split_and!; [done| | |].
  - intros Hl. destruct level; [done|lia|done].
  - intros Hl. rewrite take_ge; [done|]. destruct t; cbn; lia.
  - intros level' Hle. rewrite collect_warnings_take, !app_nil_l, !drop_0.
    exists (concat (drop (Z.to_nat level) (take (Z.to_nat level') (warnings_flags t)))).
    assert (take (Z.to_nat level) (warnings_flags t) =
            take (Z.to_nat level) (take (Z.to_nat level') (warnings_flags t))) as ->
      by (rewrite take_take; f_equal; lia).
    by rewrite <- concat_app, take_drop.
Qed.

(** every profile has levels the tables of every compiler know *)
Lemma profile_levels t build_profile o w d :
  dict_get profiles build_profile = Some (o, w, d) →
  is_Some (get_optimization_flags t o) ∧ is_Some (get_debug_flags t d).
Proof.
  unfold profiles. cbn [dict_get].
  repeat (case_decide; [intros [= <- <- <-]; destruct t; split; by eexists|]). done.
Qed.

Section spec.
  Context {E : Type} `{ConfigSetLaws E}.

(** the flags a profile stands for *)
Definition profile_flags (t : traits) (levels : Z * Z * Z) : list string :=
  let '(o, w, d) := levels in
  default [] (get_optimization_flags t o) ++ (default ([], []) (get_debug_flags t d)).1 ++
  get_warnings_flags t w.
Definition profile_defines (t : traits) (levels : Z * Z * Z) : list string :=
  (default ([], []) (get_debug_flags t levels.2)).2.

(** the language of a variable is configured: it has a compiler and no flags of its own *)
Definition untouched (e : E) (compiler flags_var : string) : bool :=
  truthy (env_str e compiler) && bool_decide (env_list e flags_var = []).

(** the value of a list variable after [configure] *)
Definition configured (t : traits) (levels : Z * Z * Z) (e : E) (k : string) : list string :=
  if decide (k = "CCFLAGS") then
    env_list e k ++ if untouched e "COMPILER_CC" "CCFLAGS" then profile_flags t levels else []
  else if decide (k = "CXXFLAGS") then
    env_list e k ++ if untouched e "COMPILER_CXX" "CXXFLAGS" then profile_flags t levels else []
  else if decide (k = "CCDEFINES") then
    env_list e k ++ if untouched e "COMPILER_CC" "CCFLAGS" then profile_defines t levels else []
  else if decide (k = "CXXDEFINES") then
    env_list e k ++ if untouched e "COMPILER_CXX" "CXXFLAGS" then profile_defines t levels else []
  else env_list e k.

Lemma add_flags_spec fv dv c o w d t e :
  fv ≠ dv → is_Some (get_optimization_flags t o) →
  ∃ e', add_flags fv dv c (get_optimization_flags t o) (default ([], []) (get_debug_flags t d)).1
          (get_warnings_flags t w) (default ([], []) (get_debug_flags t d)).2 e = Ok e' ∧
    (∀ k, env_str e' k = env_str e k) ∧
    ∀ k, env_list e' k =
      let on := bool_decide (is_Some c) && bool_decide (env_list e fv = []) in
      if decide (k = fv) then env_list e k ++ if on then profile_flags t (o, w, d) else []
      else if decide (k = dv) then env_list e k ++ if on then profile_defines t (o, w, d) else []
      else env_list e k.
Proof.
  intros Hne [os Ho]. unfold add_flags, profile_flags, profile_defines. rewrite Ho.
  destruct c as [c|]; cbn -[decide].
  - destruct (env_list e fv) as [|x l] eqn:Ee.
    + eexists. split; [done|]. split; [intros k; by rewrite !append_value_str|].
      intros k. rewrite !append_value_list.
      destruct (decide (k = dv)) as [->|]; destruct (decide (fv = dv)) as [->|];
        repeat (case_decide; try done); subst; rewrite ?Ee, ?app_nil_l; try done.
      by rewrite <- !app_assoc.
    + exists e. split; [done|]. split; [done|]. intros k.
      repeat case_decide; by rewrite ?app_nil_r.
  - exists e. split; [done|]. split; [done|]. intros k. repeat case_decide; by rewrite ?app_nil_r.
Qed.
Lemma on_untouched e c fv :
  bool_decide (is_Some (or_none (env_str e c))) && bool_decide (env_list e fv = []) =
  untouched e c fv.
Proof. unfold untouched, or_none. by destruct (truthy (env_str e c)). Qed.

Lemma configure_some t bp levels e :
  dict_get profiles bp = Some levels →
  let cc := or_none (env_str e "COMPILER_CC") in
  let cxx := or_none (env_str e "COMPILER_CXX") in
  find_compiler cc cxx = Some t →
  ∃ e', configure bp e = Ok (e', []) ∧ (∀ k, env_str e' k = env_str e k) ∧
        ∀ k, env_list e' k = configured t levels e k.
Proof.
  destruct levels as [[o w] d]. intros Hp cc cxx Hf.
  destruct (profile_levels t bp o w d Hp) as [Ho [db Hd]].
  destruct (add_flags_spec "CCFLAGS" "CCDEFINES" cc o w d t e) as (e1 & H1 & Hs1 & Hl1); [done..|].
  destruct (add_flags_spec "CXXFLAGS" "CXXDEFINES" cxx o w d t e1) as (e2 & H2 & Hs2 & Hl2);
    [done..|].
  exists e2. split; [|split].
  - unfold configure. fold cc cxx. destruct db as [dbg defs]. rewrite Hd in H1, H2.
    unfold id in H1, H2. cbn [from_option fst snd] in H1, H2.
    destruct cc as [c|] eqn:Ec; [|destruct cxx as [c|] eqn:Ex; [|done]]; rewrite Hf, Hp, Hd;
      by rewrite H1; cbn [mbind result_bind]; rewrite H2.
  - intros k. by rewrite Hs2, Hs1.
  - intros k. assert (Hx : env_list e1 "CXXFLAGS" = env_list e "CXXFLAGS") by by rewrite Hl1.
    rewrite Hl2. cbv zeta. rewrite Hx, Hl1. cbv zeta. unfold configured.
    rewrite <- !on_untouched. fold cc cxx.
    repeat (case_decide; subst; try done).
Qed.

(** With a known build profile [configure] never fails but for the missing compilers; an
    unknown pair of compilers gives a warning and no flags; otherwise the mapped compiler (that of
    CC when it is known, else that of CXX) decides the flags of both languages: each language that
    has a compiler and no flags of its own gets the optimization, debug and warnings flags of the
    profile and its defines, and every other variable keeps its value. *)
Theorem configure_spec (bp : string) (levels : Z * Z * Z) (e : E)
    (Hp : dict_get profiles bp = Some levels) :
  let cc := or_none (env_str e "COMPILER_CC") in
  let cxx := or_none (env_str e "COMPILER_CXX") in
  if bool_decide (cc = None ∧ cxx = None) then ∃ m, configure bp e = Raise (WafError m)
  else
    match find_compiler cc cxx with
    | None => configure bp e = Ok (e, [(cc, cxx)])
    | Some t =>
        ∃ e', configure bp e = Ok (e', []) ∧ (∀ k, env_str e' k = env_str e k) ∧
              ∀ k, env_list e' k = configured t levels e k
    end.
Proof.
  cbv zeta. case_bool_decide as Hc.
  - destruct Hc as [H1 H2]. unfold configure. rewrite H1, H2. by eexists.
  - destruct (find_compiler _ _) as [t|] eqn:Hf; [by apply configure_some|].
    unfold configure. rewrite Hf.
    destruct (or_none (env_str e "COMPILER_CC")); [done|].
    destruct (or_none (env_str e "COMPILER_CXX")); [done|]. by destruct Hc.
Qed.
End spec.
End FlagFacts.

(** ** A configuration set as two dictionaries *)
Module FlagExamples.
Import Traits Configure FlagFacts.

Record config := { texts : list (string * string); lists : list (string * list string) }.
Definition get_list (e : config) (k : string) : list string := default [] (dict_get (lists e) k).

#[export] Instance config_set : ConfigSet config := {|
  env_str e k := default EmptyString (dict_get (texts e) k);
  env_list := get_list;
  append_value e k v :=
    {| texts := texts e; lists := dict_set (lists e) k (get_list e k ++ v) |}
|}.

#[export] Instance config_set_laws : ConfigSetLaws config.
Proof.
  split; [done|]. intros e k v k'. cbn. unfold get_list. cbn. rewrite dict_get_set. by case_decide.
Qed.

(** an unknown C compiler is given the flags of the C++ compiler *)
Definition sample_env : config :=
  {| texts := [("COMPILER_CC", "tcc"); ("COMPILER_CXX", "g++")];
     lists := [("CXXFLAGS", ["-O1"])] |}.

Lemma configure_spec_witness :
  ∃ e', configure "debug" sample_env = Ok (e', []) ∧
        env_list e' "CCFLAGS" = ["-O0"; "-ggdb"; "-g3"; "-Wall"; "-Werror"] ∧
        env_list e' "CXXFLAGS" = ["-O1"].
Proof.
  assert (Hp : dict_get profiles "debug" = Some (0, 2, 3)) by done.
  destruct (configure_spec "debug" (0, 2, 3) sample_env Hp) as (e' & H & _ & Hl).
  exists e'. split; [exact H|]. by rewrite !Hl.
Defined.
End FlagExamples.
