(* ===== verification/WUtils.v ===== *)
(** * wutils.py: running a program of the build

    wutils.py: command templates, the search of a program among the task generators, the
    environment of its process, and the running of a command with or without valgrind.  waf's
    build context and options are records of what the code reads of them; processes, the
    directory listing of [glob] and the signal table of the platform are parameters. *)
From Stdlib Require Import ZArith Lia Ascii String.
From stdpp Require Import base list strings.
From S2P Require Import Prelude PyStr ShellCmd.
#[local] Open Scope Z_scope.

(** ** The printed forms of texts and lists of texts *)
Module Repr.
Definition hex_digit (n : Z) : ascii := if n <? 10 then chr (48 + n) else chr (87 + n).
Definition repr_char (quote c : ascii) : string :=
  if Ascii.eqb c quote || Ascii.eqb c "092" then String "092" (String c EmptyString)
  else if Ascii.eqb c "009" then "\t"
  else if Ascii.eqb c "010" then "\n"
  else if Ascii.eqb c "013" then "\r"
  else if (ord c <? 32) || (ord c =? 127) then
    "\x" +:+ String (hex_digit (ord c / 16)) (String (hex_digit (ord c mod 16)) EmptyString)
  else String c EmptyString.
Fixpoint repr_chars (quote : ascii) (s : string) : string :=
  match s with
  | EmptyString => EmptyString
  | String c s => repr_char quote c +:+ repr_chars quote s
  end.
Definition py_repr (s : string) : string :=
  let quote := if has_char "039" s && negb (has_char "034" s) then "034"%char else "039"%char in
  String quote (repr_chars quote s +:+ String quote EmptyString).
Definition repr_list (l : list string) : string := "[" +:+ join ", " (py_repr <$> l) +:+ "]".
End Repr.

(** ** Command templates and paths *)
Module Template.

(** [Options.options.command_template or '%s'], and the arguments *)
Definition get_command_template (command_template : option string) (arguments : list string)
    : string :=
  let cmd := match command_template with
             | Some t => if truthy t then t else "%s"
             | None => "%s"
             end in
  foldl (λ cmd arg, cmd +:+ " " +:+ arg) cmd arguments.

(** [tmpl % (arg,)] with the conversions s, r and %; [used] when the argument is consumed *)
Fixpoint percent (arg : string) (used : bool) (tmpl : string) : result string :=
  match tmpl with
  | EmptyString => if used then Ok EmptyString else Raise TypeError
  | String c rest =>
      if Ascii.eqb c "%" then
        match rest with
        | EmptyString => Raise (ValueError "incomplete format")
        | String k rest =>
            if Ascii.eqb k "%" then r ← percent arg used rest; Ok (String "%" r)
            else if Ascii.eqb k "s" || Ascii.eqb k "r" then
              if used then Raise TypeError
              else
                r ← percent arg true rest;
                Ok ((if Ascii.eqb k "s" then arg else Repr.py_repr arg) +:+ r)
            else Raise (ValueError "unsupported format character")
        end
      else r ← percent arg used rest; Ok (String c r)
  end.

(** the replacement of every backslash by two *)
Definition double_backslashes (s : string) : string :=
  py_replace (String Shlex.backslash EmptyString)
    (String Shlex.backslash (String Shlex.backslash EmptyString)) s.

(** [os.path.relpath] of absolute paths: the components without empty ones, the common ones left
    out *)
Fixpoint common_prefix (l m : list string) : nat :=
  match l, m with
  | x :: l, y :: m => if (x =? y)%string then S (common_prefix l m) else O
  | _, _ => O
  end.
Definition rel_list (start path : list string) : list string :=
  let i := common_prefix start path in
  repeat ".." (length start - i) ++ drop i path.
Definition join_rel (l : list string) : string :=
  match l with [] => "." | x :: l => path_joins x l end.

Definition components (p : string) : list string := List.filter truthy (split_char "/"%char p).
Definition std_relpath (cwd path start : string) : result string :=
  if negb (truthy path) then Raise (ValueError "no path specified")
  else Ok (join_rel (rel_list (components (abspath cwd start)) (components (abspath cwd path)))).

(** the definition of the file for an [os.path] without [relpath] *)
Definition relpath (cwd path start : string) : result string :=
  if negb (truthy path) then Raise (ValueError "no path specified")
  else
    let start_list := split_char "/"%char (abspath cwd start) in
    let path_list := split_char "/"%char (abspath cwd path) in
    Ok (join_rel (rel_list start_list path_list)).
End Template.

(** ** Searching a program *)
Module Programs.
Import Template.

(** what the code reads of a task generator *)
Record task_gen := mk_task_gen {
  is_ns3_program : bool;      (* [getattr(obj, 'is_ns3_program', False)] *)
  path_abspath : string;      (* [obj.path.abspath()] *)
  bld_abspath : string;       (* [obj.path.get_bld().abspath()] *)
  name : string;
  program_path : string       (* [obj.path.find_or_declare(obj.target).abspath()] *)
}.

Definition in_launch_dir (launch_dir : string) (obj : task_gen) : bool :=
  startswith (path_abspath obj) launch_dir || startswith (bld_abspath obj) launch_dir.

Definition names (cwd launch_dir : string) (obj : task_gen) : result (list string) :=
  rel ← std_relpath cwd (path_abspath obj) launch_dir;
  Ok [basename (name obj); path_join rel (name obj)].

(** the loop, with the names found so far *)
Fixpoint find_among (cwd launch_dir program_name : string) (objs : list task_gen)
    (found_programs : list string) : result task_gen :=
  match objs with
  | [] =>
      Raise (ValueError ("program '" +:+ program_name +:+
        "' not found; available programs are: " +:+ Repr.repr_list found_programs))
  | obj :: objs =>
      if negb (is_ns3_program obj) then
        find_among cwd launch_dir program_name objs found_programs
      else if negb (in_launch_dir launch_dir obj) then
        find_among cwd launch_dir program_name objs found_programs
      else
        ns ← names cwd launch_dir obj;
        if bool_decide (program_name ∈ ns) then Ok obj
        else find_among cwd launch_dir program_name objs (found_programs ++ ns)
  end.

Definition find_program (cwd cwd_launch : string) (all_task_gen : list task_gen)
    (program_name : string) : result task_gen :=
  find_among cwd (abspath cwd cwd_launch) program_name all_task_gen [].
End Programs.

(** ** The environment of a process *)
Module ProcEnv.

(** what the code reads of the build context: its lists and directories, and the directory of the
    Python modules when [find_dir] finds it *)
Record build := mk_build {
  NS3_MODULE_PATH : list string; NS3_EXECUTABLE_PATH : list string; NS3_DIR : string;
  PREFIX : string; out_dir : string; python_bindings_dir : option string
}.

(** the variable of the library path, and whether the platform is unknown *)
Definition pathvar (platform : string) : string * bool :=
  if (platform =? "linux2")%string then ("LD_LIBRARY_PATH", false)
  else if (platform =? "darwin")%string then ("DYLD_LIBRARY_PATH", false)
  else if (platform =? "win32")%string then ("PATH", false)
  else if (platform =? "cygwin")%string then ("PATH", false)
  else if startswith platform "freebsd" then ("LD_LIBRARY_PATH", false)
  else ("LD_LIBRARY_PATH", true).

Definition platform_warning (platform : string) : string :=
  "Don't know how to configure dynamic library path for the platform " +:+
  Repr.py_repr platform +:+ "; assuming it's LD_LIBRARY_PATH.".

Definition getenv (e : list (string * string)) (k : string) : string :=
  default EmptyString (dict_get e k).

Section proc_env.
  (** [os.pathsep], and [glob.glob] of a pattern *)
  Variable pathsep : string.
  Variable glob : string → list string.

(** [os.pathsep.join(paths + [env[k]])], or of the paths alone when [k] is not set *)
Definition prepend_paths (e : list (string * string)) (k : string) (paths : list string)
    : list (string * string) :=
  dict_set e k (join pathsep (paths ++ match dict_get e k with Some v => [v] | None => [] end)).

(** [os.pathsep.join([_f for _f in paths if _f])] *)
Definition join_set (paths : list string) : string := join pathsep (List.filter truthy paths).

Definition get_proc_env (b : build) (platform : string) (environ : list (string * string))
    (os_env : option (list (string * string))) : list (string * string) * list string :=
  let '(var, unknown) := pathvar platform in
  let e := match os_env with Some o => dict_update environ o | None => environ end in
  let e := prepend_paths e var (NS3_MODULE_PATH b) in
  let e := dict_set e var (join pathsep
    [getenv e var; path_join (out_dir b) "lib"; path_join (out_dir b) "lib64";
     path_join (out_dir b) "bin"; path_join (NS3_DIR b) "lib"; path_join (NS3_DIR b) "lib64";
     path_join (NS3_DIR b) "bin"]) in
  let e := dict_set e "DCE_PATH" (join_set
    [getenv environ "DCE_PATH"; path_join (out_dir b) "bin_dce"; path_join (NS3_DIR b) "sbin";
     path_join (NS3_DIR b) "bin_dce"; getenv e var]) in
  let e := dict_set e "DCE_ROOT" (join_set
    [getenv environ "DCE_ROOT"; out_dir b; PREFIX b]) in
  let pymoddir := default EmptyString (python_bindings_dir b) in
  let pyvizdir := default EmptyString
    (last (glob (NS3_DIR b +:+ "/lib*/python*/site-packages"))) in
  let e := prepend_paths e "PYTHONPATH" [pymoddir; pyvizdir] in
  let e := prepend_paths e "PATH" (NS3_EXECUTABLE_PATH b) in
  (e, if unknown then [platform_warning platform] else []).
End proc_env.
End ProcEnv.

(** ** Running commands *)
Module RunCmd.
Import Template Programs ProcEnv.

(** waf's options: [options_cwd_launch] is [Options.options.cwd_launch], [cwd_launch] the module's
    [Options.cwd_launch] *)
Record options := mk_options {
  command_template : option string; valgrind : bool; dlm : bool;
  options_cwd_launch : option string; cwd_launch : string
}.

(** the lists of [env] that are read: the path of valgrind, empty when there is none, and the
    Python interpreter *)
Record tools := mk_tools { VALGRIND : string; PYTHON : list string }.

Record spawn := mk_spawn {
  s_argv : list string; s_env : list (string * string); s_cwd : option string
}.
Record world := mk_world {
  spawned : list spawn;         (* the processes started, oldest first *)
  warned : list string;         (* the warnings logged *)
  err_lines : list string       (* the lines written to the standard error *)
}.
Definition log_spawn (p : spawn) (w : world) : world :=
  {| spawned := spawned w ++ [p]; warned := warned w; err_lines := err_lines w |}.
Definition log_warnings (ws : list string) (w : world) : world :=
  {| spawned := spawned w; warned := warned w ++ ws; err_lines := err_lines w |}.
Definition log_lines (ls : list string) (w : world) : world :=
  {| spawned := spawned w; warned := warned w; err_lines := err_lines w ++ ls |}.

(** what starting a process and waiting for it gives: its status and the lines it wrote to a piped
    standard error, or the exception of the start with its text *)
Inductive outcome := Ended (status : Z) (stderr : list string) | NotStarted (e : exn) (text : string).

Section run.
  Variable popen : spawn → outcome.
  (** the integer entries of the module [signal] *)
  Variable signal_vars : list (string * Z).
  (** whether the platform has [WindowsError] *)
  Variable windows : bool.
  Variable pathsep platform cwd0 : string.
  Variable glob : string → list string.
  Variable environ : list (string * string).
  Variable bld : build.
  Variable all_task_gen : list task_gen.
  Variable opts : options.

Definition start (p : spawn) : py world outcome := λ w, (Ok (popen p), log_spawn p w).

(** the loop over the lines of valgrind's standard error *)
Definition leak_line (line : string) : bool := py_in "== LEAK SUMMARY" line.

Definition run_valgrind (valgrind_path : string) (argv : list string)
    (proc_env : list (string * string)) (cwd : option string) : py world Z :=
  o ← start {| s_argv := [valgrind_path; "--leak-check=full"; "--show-reachable=yes";
                          "--error-exitcode=1"] ++ argv;
               s_env := proc_env; s_cwd := cwd |};
  match o with
  | NotStarted e _ => py_raise e
  | Ended retval lines =>
      py_modify (log_lines lines) ;;
      mret (if (retval =? 0) && existsb leak_line lines then 1 else retval)
  end.

Definition run_plain (argv : list string) (proc_env : list (string * string))
    (cwd : option string) : py world Z :=
  o ← start {| s_argv := argv; s_env := proc_env; s_cwd := cwd |};
  match o with
  | Ended retval _ => mret retval
  | NotStarted e text =>
      if windows then
        py_raise (WafError ("Command " +:+ Repr.repr_list argv +:+ " raised exception " +:+ text))
      else py_raise e
  end.

(** the first name of the module [signal] with the prefix SIG, but not SIG_, and that value *)
Definition is_signal_name (n : string) : bool :=
  (3 <? String.length n)%nat && (str_take 3 n =? "SIG")%string &&
  negb (startswith (str_drop 3 n) "_").
Definition signal_name (v : Z) : option string :=
  fst <$> List.find (λ x, is_signal_name x.1 && (x.2 =? v)) signal_vars.

Definition check_status (argv : list string) (retval : Z) : result Z :=
  if retval =? 0 then Ok retval
  else
    match (if retval <? 0 then signal_name (- retval) else None) with
    | Some signame =>
        Raise (WafError ("Command " +:+ Repr.repr_list argv +:+ " terminated with signal " +:+
          signame +:+ ". Run it under a debugger to get more information " +:+
          "(./waf --run <program> --command-template=" +:+ String "034" "gdb --args %s <args>" +:+
          String "034" ")."))
    | None =>
        Raise (WafError ("Command " +:+ Repr.repr_list argv +:+ " exited with code " +:+
                         show_Z retval))
    end.

Definition set_template (t : option string) : bool :=
  match t with Some t => truthy t | None => false end.

Definition run_argv (argv : list string) (env : tools) (os_env : option (list (string * string)))
    (cwd : option string) (force_no_valgrind : bool) : py world Z :=
  let '(proc_env, warnings) := get_proc_env pathsep glob bld platform environ os_env in
  py_modify (log_warnings warnings) ;;
  if valgrind opts && negb force_no_valgrind then
    if set_template (command_template opts) then
      py_raise (WafError "Options --command-template and --valgrind are conflicting")
    else if negb (truthy (VALGRIND env)) then py_raise (WafError "valgrind is not installed")
    else
      retval ← run_valgrind (VALGRIND env) argv proc_env cwd;
      py_lift (check_status ([VALGRIND env; "--leak-check=full"; "--show-reachable=yes";
                              "--error-exitcode=1"] ++ argv) retval)
  else
    retval ← run_plain argv proc_env cwd;
    py_lift (check_status argv retval).

(** [find_program], its [ValueError] turned into a [WafError] *)
Definition find_or_waf_error (program_name : string) : result task_gen :=
  match find_program cwd0 (cwd_launch opts) all_task_gen program_name with
  | Raise (ValueError m) => Raise (WafError m)
  | r => r
  end.

(** the name of the program and the argument vector *)
Definition get_run_program (program_string : string) (template : option string)
    : result (string * list string) :=
  if bool_decide (template = None) || bool_decide (template = Some "%s") then
    argv ← Shlex.shlex_split program_string;
    match argv with
    | [] => Raise IndexError
    | program_name :: args =>
        obj ← find_or_waf_error program_name;
        Ok (program_name, program_path obj :: args)
    end
  else
    obj ← find_or_waf_error program_string;
    tmpl ← percent (program_path obj) false (default EmptyString template);
    execvec ← Shlex.shlex_split (double_backslashes tmpl);
    Ok (program_string, execvec).

(** the directory given, or the launch directory *)
Definition launch_cwd (cwd : option string) : string :=
  match cwd with
  | Some c => c
  | None =>
      match options_cwd_launch opts with
      | Some c => if truthy c then c else cwd_launch opts
      | None => cwd_launch opts
      end
  end.

Definition visualizer (visualize : bool) : list string :=
  if visualize then ["--SimulatorImplementationType=ns3::VisualSimulatorImpl"] else [].

Definition run_program (program_string : string) (env : tools) (template : option string)
    (cwd : option string) (visualize : bool) : py world Z :=
  '(_, execvec) ← py_lift (get_run_program program_string template);
  execvec ← (if dlm opts then
               '(_, dce_runner) ← py_lift (get_run_program "dce-runner" template);
               mret (dce_runner ++ execvec)
             else mret execvec);
  run_argv (execvec ++ visualizer visualize) env None (Some (launch_cwd cwd)) false.

Definition run_python_program (program_string : string) (env : tools) (visualize : bool)
    : py world Z :=
  execvec ← py_lift (Shlex.shlex_split program_string);
  match PYTHON env with
  | [] => py_raise IndexError
  | python :: _ =>
      run_argv (python :: execvec ++ visualizer visualize) env None (Some (launch_cwd None)) false
  end.
End run.
End RunCmd.

(** ** Facts *)
Module TemplateFacts.
Import Template Shlex.

(** the words of a text between blanks, as they are written *)
Fixpoint words_from (tok s : string) : list string :=
  match s with
  | EmptyString => if truthy tok then [tok] else []
  | String c s =>
      if lex_space c then (if truthy tok then [tok] else []) ++ words_from EmptyString s
      else words_from (snoc tok c) s
  end.
Definition words (s : string) : list string := words_from EmptyString s.

Lemma double_cons c s :
  double_backslashes (String c s) =
    if Ascii.eqb c backslash then String backslash (String backslash (double_backslashes s))
    else String c (double_backslashes s).
Proof.
  unfold double_backslashes, py_replace. cbn [replace_go startswith].
  rewrite (Ascii.eqb_sym backslash c). destruct (Ascii.eqb c backslash); [|done].
  by assert (startswith s EmptyString = true) as -> by by destruct s.
Qed.

Definition unquoted (s : string) : Prop := str_all (λ c, negb (lex_quote c)) s = true.

Lemma lex_words s acc :
  unquoted s →
  lex LStart EmptyString acc (double_backslashes s) = Ok (acc ++ words s) ∧
  ∀ tok, tok ≠ EmptyString →
    lex LWord tok acc (double_backslashes s) = Ok (acc ++ words_from tok s).
Proof.
  unfold words. revert acc. induction s as [|c s IH]; intros acc Hq.
  { split; [cbn; by rewrite app_nil_r|]. intros tok Ht. cbn. by destruct tok. }
  unfold unquoted in Hq. cbn [str_all] in Hq. apply andb_true_iff in Hq as [Hc Hs].
  apply negb_true_iff in Hc. rewrite double_cons. cbn [words_from].
  destruct (Ascii.eqb_spec c backslash) as [->|Hb].
  - split; [by apply IH|]. intros tok Ht. cbn [lex].
    change (lex_space backslash) with false. change (lex_quote backslash) with false.
    rewrite Ascii.eqb_refl. apply IH; [done|]. by destruct tok.
  - apply Ascii.eqb_neq in Hb. cbn [lex]. rewrite Hc, Hb.
    destruct (lex_space c); [split; [by apply IH|]|split; [by apply IH|]]; intros tok Ht.
    + destruct (IH (acc ++ [tok]) Hs) as [-> _]. destruct tok; [done|]. cbn [truthy].
      by rewrite <- app_assoc.
    + apply IH; [done|]. by destruct tok.
Qed.

Lemma split_doubled s : unquoted s → shlex_split (double_backslashes s) = Ok (words s).
Proof. intros H. by apply lex_words. Qed.
End TemplateFacts.

Module RunCmdFacts.
Import Template Programs ProcEnv RunCmd.

(** *** Finding a program *)
Definition candidate (launch_dir : string) (obj : task_gen) : bool :=
  is_ns3_program obj && in_launch_dir launch_dir obj.
Definition names_of (cwd launch_dir : string) (obj : task_gen) : list string :=
  match names cwd launch_dir obj with Ok ns => ns | Raise _ => [] end.
Definition answers (cwd launch_dir program_name : string) (obj : task_gen) : bool :=
  candidate launch_dir obj && bool_decide (program_name ∈ names_of cwd launch_dir obj).
Definition not_found (program_name : string) (found : list string) : string :=
  "program '" +:+ program_name +:+ "' not found; available programs are: " +:+
  Repr.repr_list found.

Lemma names_ok cwd launch_dir obj :
  path_abspath obj ≠ EmptyString →
  names cwd launch_dir obj = Ok (names_of cwd launch_dir obj).
Proof.
  intros H. unfold names_of, names, std_relpath. by destruct (path_abspath obj).
Qed.

Lemma find_among_spec cwd launch_dir n objs found :
  Forall (λ o, path_abspath o ≠ EmptyString) objs →
  find_among cwd launch_dir n objs found =
    match List.find (answers cwd launch_dir n) objs with
    | Some obj => Ok obj
    | None =>
        Raise (ValueError (not_found n
          (found ++ (List.filter (candidate launch_dir) objs ≫= names_of cwd launch_dir))))
    end.
Proof.
  intros H. revert found. induction H as [|o objs Ho _ IH]; intros found; cbn [find_among].
  { cbn. by rewrite app_nil_r. }
  cbn [List.find List.filter].
  change (answers cwd launch_dir n o) with
    (candidate launch_dir o && bool_decide (n ∈ names_of cwd launch_dir o)).
  destruct (candidate launch_dir o) eqn:Ec; unfold candidate in Ec; cbn [andb].
  2:{ destruct (is_ns3_program o); cbn [negb]; [|apply IH].
      cbn [andb] in Ec. rewrite Ec. apply IH. }
  apply andb_true_iff in Ec as [-> ->]. cbn [negb].
  rewrite names_ok by done. cbn [mbind result_bind]. case_bool_decide; [done|].
  rewrite IH. cbn [mbind list_bind]. by rewrite <- app_assoc.
Qed.

(** [find_program] gives the first task generator, in the order of the build, that is an ns-3
    program, whose source or build directory starts with the text of the launch directory, and
    whose name without directories or path relative to the launch directory is the one asked for;
    when there is none the error lists the names of all the candidates. *)
Theorem find_program_spec (cwd cwd_launch n : string) (objs : list task_gen)
    (Hpath : Forall (λ o, path_abspath o ≠ EmptyString) objs) :
  let launch_dir := abspath cwd cwd_launch in
  find_program cwd cwd_launch objs n =
    match List.find (answers cwd launch_dir n) objs with
    | Some obj => Ok obj
    | None =>
        Raise (ValueError (not_found n
          (List.filter (candidate launch_dir) objs ≫= names_of cwd launch_dir)))
    end.
Proof. cbv zeta. unfold find_program. by rewrite find_among_spec. Qed.

(** two directories of which one is a prefix of the other as a text *)
Definition sample_objs : list task_gen :=
  [{| is_ns3_program := true; path_abspath := "/w/examples"; bld_abspath := "/w/build/examples";
      name := "first"; program_path := "/w/build/examples/first" |};
   {| is_ns3_program := true; path_abspath := "/w/ex"; bld_abspath := "/w/build/ex";
      name := "first"; program_path := "/w/build/ex/first" |}].

(** launched in /w/ex, the program of /w/examples is found *)
Lemma find_program_spec_witness :
  program_path <$> find_program "/w" "ex" sample_objs "first" = Ok "/w/build/examples/first".
Proof.
  rewrite (find_program_spec "/w" "ex" "first" sample_objs); [by vm_compute|].
  repeat constructor; done.
Defined.

(** *** The argument vector of a template *)

(** With a command template of its own, the arguments of the process are the words of the
    formatted template exactly as they are written, backslashes of the path of the program
    included, as long as the formatted template has no quotes. *)
Theorem template_arguments cwd0 tgs opts program t obj s
    (Ht : t ≠ "%s") (Hobj : find_program cwd0 (cwd_launch opts) tgs program = Ok obj)
    (Hs : percent (program_path obj) false t = Ok s) (Hq : TemplateFacts.unquoted s) :
  get_run_program cwd0 tgs opts program (Some t) = Ok (program, TemplateFacts.words s).
Proof.
  unfold get_run_program, find_or_waf_error.
  rewrite bool_decide_false by done. rewrite bool_decide_false by congruence.
  rewrite Hobj. cbn [orb mbind result_bind default]. unfold id. rewrite Hs.
  cbn [mbind result_bind]. by rewrite TemplateFacts.split_doubled.
Qed.

Definition sample_opts : options :=
  {| command_template := Some "gdb --args %s"; valgrind := false; dlm := false;
     options_cwd_launch := None; cwd_launch := "/w" |}.
Definition sample_prog : task_gen :=
  {| is_ns3_program := true; path_abspath := "/w/ex"; bld_abspath := "/w/build/ex";
     name := "first"; program_path := "C:\w\first.exe" |}.

Lemma template_arguments_witness :
  get_run_program "/w" [sample_prog] sample_opts "first" (Some "gdb --args %s") =
    Ok ("first", ["gdb"; "--args"; "C:\w\first.exe"]).
Proof.
  apply (template_arguments "/w" [sample_prog] sample_opts "first" "gdb --args %s"
           sample_prog "gdb --args C:\w\first.exe"); try done; by vm_compute.
Defined.

(** *** Running a command *)
Section run.
  Context (popen : spawn → outcome) (signal_vars : list (string * Z)) (windows : bool)
          (pathsep platform : string) (glob : string → list string)
          (environ : list (string * string)) (bld : build) (opts : options).

Lemma check_status_spec argv rv :
  if rv =? 0 then check_status signal_vars argv rv = Ok 0
  else ∃ m, check_status signal_vars argv rv = Raise (WafError m).
Proof.
  unfold check_status. destruct (Z.eqb_spec rv 0) as [->|]; [done|].
  case_match; by eexists.
Qed.

Definition valgrind_args (v : string) : list string :=
  [v; "--leak-check=full"; "--show-reachable=yes"; "--error-exitcode=1"].

(** the status a command is judged by: valgrind's own, or 1 when it reported a leak *)
Definition judged (vg : bool) (status : Z) (lines : list string) : Z :=
  if vg && (status =? 0) && existsb leak_line lines then 1 else status.

(** [run_argv] returns nothing but 0.  With valgrind switched on for the command it starts no
    process when there is a command template or valgrind is not installed; in every other case it
    starts exactly one process, with the command (behind valgrind and its options when that is on),
    the environment of [get_proc_env] and the given directory, and it returns exactly when the
    process ended with status 0 and valgrind reported no leak: every other status is a
    [WafError]. *)
Theorem run_argv_spec (argv : list string) (env : tools) (os_env : option (list (string * string)))
    (cwd : option string) (force : bool) (w : world) :
  let vg := valgrind opts && negb force in
  let '(e, ws) := get_proc_env pathsep glob bld platform environ os_env in
  let p := {| s_argv := (if vg then valgrind_args (VALGRIND env) else []) ++ argv;
              s_env := e; s_cwd := cwd |} in
  let '(r, w') := run_argv popen signal_vars windows pathsep platform glob environ bld opts
                    argv env os_env cwd force w in
  warned w' = warned w ++ ws ∧
  if vg && (set_template (command_template opts) || negb (truthy (VALGRIND env)))
  then spawned w' = spawned w ∧ ∃ m, r = Raise (WafError m)
  else
    spawned w' = spawned w ++ [p] ∧
    match popen p with
    | Ended status lines =>
        if judged vg status lines =? 0 then r = Ok 0 else ∃ m, r = Raise (WafError m)
    | NotStarted x _ => r = Raise x ∨ (windows = true ∧ vg = false ∧ ∃ m, r = Raise (WafError m))
    end.
Proof.
  cbv zeta. unfold run_argv. destruct (get_proc_env _ _ _ _ _ _) as [e ws].
  destruct (valgrind opts && negb force) eqn:Hvg; cbn [andb].
  - destruct (set_template (command_template opts)) eqn:Hs.
    { cbn. split_and!; [done..|by eexists]. }
    destruct (truthy (VALGRIND env)) eqn:Hv; cbn [negb orb].
    2:{ cbn. split_and!; [done..|by eexists]. }
    unfold run_valgrind, start, py_modify, py_lift. cbv [mbind py_bind mret py_ret]. cbn beta iota.
    change (valgrind_args (VALGRIND env) ++ argv)
      with ([VALGRIND env; "--leak-check=full"; "--show-reachable=yes"; "--error-exitcode=1"] ++ argv).
    destruct (popen _) as [st lines|x t]; cbn -[check_status].
    + pose proof (check_status_spec (valgrind_args (VALGRIND env) ++ argv)
                    (judged true st lines)) as H.
      split_and!; [done..|exact H].
    + split_and!; [done..|by left].
  - unfold run_plain, start, py_modify, py_lift. cbv [mbind py_bind mret py_ret]. cbn beta iota.
    rewrite app_nil_l.
    destruct (popen _) as [st lines|x t]; cbn -[check_status].
    + pose proof (check_status_spec argv (judged false st lines)) as H. cbn in H.
      split_and!; [done..|exact H].
    + destruct windows; cbn; split_and!; try done; [right; split_and!; [done..|by eexists]|by left].
Qed.
End run.
End RunCmdFacts.

(** *** The environment *)
Module ProcEnvFacts.
Import ProcEnv.
Section spec.
  Context (pathsep : string) (glob : string → list string) (b : build) (platform : string)
          (environ : list (string * string)) (os_env : option (list (string * string))).

(** the environment before the build adds to it *)
Definition base_env : list (string * string) :=
  match os_env with Some o => dict_update environ o | None => environ end.
Definition old_value (k : string) : list string :=
  match dict_get base_env k with Some v => [v] | None => [] end.

Definition library_path (var : string) : string :=
  join pathsep
    [join pathsep (NS3_MODULE_PATH b ++ old_value var); path_join (out_dir b) "lib";
     path_join (out_dir b) "lib64"; path_join (out_dir b) "bin"; path_join (NS3_DIR b) "lib";
     path_join (NS3_DIR b) "lib64"; path_join (NS3_DIR b) "bin"].

(** the value of a variable in the result, [var] being that of the library path *)
Definition proc_env_value (var k : string) : option string :=
  if decide (k = var) then Some (library_path var)
  else if decide (k = "DCE_PATH") then
    Some (join_set pathsep [getenv environ "DCE_PATH"; path_join (out_dir b) "bin_dce";
      path_join (NS3_DIR b) "sbin"; path_join (NS3_DIR b) "bin_dce"; library_path var])
  else if decide (k = "DCE_ROOT") then
    Some (join_set pathsep [getenv environ "DCE_ROOT"; out_dir b; PREFIX b])
  else if decide (k = "PYTHONPATH") then
    Some (join pathsep ([default EmptyString (python_bindings_dir b);
      default EmptyString (last (glob (NS3_DIR b +:+ "/lib*/python*/site-packages")))] ++
      old_value k))
  else if decide (k = "PATH") then
    Some (join pathsep (NS3_EXECUTABLE_PATH b ++ old_value k))
  else dict_get base_env k.

Lemma pathvar_cases :
  (pathvar platform).1 = "LD_LIBRARY_PATH" ∨ (pathvar platform).1 = "DYLD_LIBRARY_PATH" ∨
  (pathvar platform).1 = "PATH".
Proof. unfold pathvar. repeat case_match; auto. Qed.

(** Where the library path has a variable of its own (not PATH), the environment of a process
    is given variable by variable: the library path, DCE_PATH, DCE_ROOT, PYTHONPATH and PATH get
    the directories of the build in front or behind of their old value, and every other variable
    is that of the caller.  The old values of DCE_PATH and DCE_ROOT are those of the process that
    runs the build, even when the caller gives its own. *)
Theorem proc_env_spec (Hvar : (pathvar platform).1 ≠ "PATH") :
  let '(e, ws) := get_proc_env pathsep glob b platform environ os_env in
  ws = (if (pathvar platform).2 then [platform_warning platform] else []) ∧
  ∀ k, dict_get e k = proc_env_value (pathvar platform).1 k.
Proof.
  pose proof pathvar_cases as Hc. unfold get_proc_env.
  destruct (pathvar platform) as [var u]. cbn [fst snd] in *. split; [done|]. intros k.
  fold base_env. unfold proc_env_value, prepend_paths, library_path, old_value, getenv.
  rewrite !dict_get_set.
  destruct Hc as [->|[->| ->]]; [| |done];
    repeat (case_decide; subst; try done); rewrite ?dict_get_set_eq; done.
Qed.
End spec.

Definition sample_build : build :=
  {| NS3_MODULE_PATH := ["/w/build"]; NS3_EXECUTABLE_PATH := ["/w/build/bin"]; NS3_DIR := "/ns3";
     PREFIX := "/usr"; out_dir := "/w/build"; python_bindings_dir := None |}.

(** on Linux with Python 3 the platform is not known; a DCE_PATH of the caller is lost *)
Lemma proc_env_spec_witness :
  let '(e, ws) := get_proc_env ":" (λ _, []) sample_build "linux" [("HOME", "/root")]
                    (Some [("DCE_PATH", "/mine"); ("PATH", "/bin")]) in
  ws = [platform_warning "linux"] ∧
  dict_get e "DCE_PATH" =
    Some "/w/build/bin_dce:/ns3/sbin:/ns3/bin_dce:/w/build:/w/build/lib:/w/build/lib64:/w/build/bin:/ns3/lib:/ns3/lib64:/ns3/bin" ∧
  dict_get e "PATH" = Some "/w/build/bin:/bin" ∧ dict_get e "HOME" = Some "/root".
Proof.
  pose proof (proc_env_spec ":" (λ _, []) sample_build "linux" [("HOME", "/root")]
                (Some [("DCE_PATH", "/mine"); ("PATH", "/bin")]) ltac:(done)) as H.
  destruct (get_proc_env _ _ _ _ _ _) as [e ws]. destruct H as [-> H].
  rewrite !H. split; [reflexivity|]. by vm_compute.
Defined.
End ProcEnvFacts.
