(* ===== verification/Ns3Check.v ===== *)
(** * ns3waf: the configuration checks of a module build

    The first half of ns3waf/__init__.py: the report of optional features, the checks of static
    builds and of compiler flags, the search of ns-3 modules with pkg-config.  waf's environment
    is an interface ([WafEnv] with its laws); its checks of the compiler and of pkg-config, the
    platform and [glob] are parameters. *)
From Stdlib Require Import ZArith Lia Ascii String.
From stdpp Require Import base list strings.
From S2P Require Import Prelude PyStr WUtils.

(** ** waf's environment *)

(** (name, caption, enabled, reason); the reason may be None *)
Definition feature : Type := string * string * bool * option string.

Inductive val :=
  | VNone | VBool (b : bool) | VStr (s : string) | VList (l : list string)
  | VFeatures (l : list feature).

Class WafEnv (E : Type) := {
  env_get : E → string → val;                       (* [env[k]] *)
  env_has : E → string → bool;                      (* [k in env] *)
  env_set : E → string → val → E;                   (* [env[k] = v] *)
  env_append : E → string → list string → E         (* [env.append_value(k, v)] *)
}.

(** a variable that is not set reads as the empty list; appending extends the list *)
Class WafEnvLaws (E : Type) `{WafEnv E} := {
  env_get_unset e k : env_has e k = false → env_get e k = VList [];
  env_get_set e k v k' : env_get (env_set e k v) k' = if decide (k' = k) then v else env_get e k';
  env_has_set e k v k' : env_has (env_set e k v) k' = bool_decide (k' = k) || env_has e k';
  env_get_append e k l v k' :
    env_get e k = VList l →
    env_get (env_append e k v) k' = if decide (k' = k) then VList (l ++ v) else env_get e k';
  env_has_append e k v k' :
    env_has (env_append e k v) k' = bool_decide (k' = k) || env_has e k'
}.

Module Env.
Definition val_true (v : val) : bool :=
  match v with
  | VNone => false
  | VBool b => b
  | VStr s => truthy s
  | VList l => match l with [] => false | _ => true end
  | VFeatures l => match l with [] => false | _ => true end
  end.

(** a value used as a list, as a text, and as something to iterate over *)
Definition as_list (v : val) : result (list string) :=
  match v with VList l => Ok l | _ => Raise TypeError end.
Definition as_str (v : val) : result string :=
  match v with VStr s => Ok s | _ => Raise TypeError end.
Definition as_iter (v : val) : result (list string) :=
  match v with
  | VList l => Ok l
  | VStr s => Ok ((λ c, String c EmptyString) <$> list_ascii_of_string s)
  | _ => Raise TypeError
  end.
(** [x in v] of a text in a list, or in a text *)
Definition val_in (x : string) (v : val) : result bool :=
  match v with
  | VList l => Ok (bool_decide (x ∈ l))
  | VStr s => Ok (py_in x s)
  | VFeatures _ => Ok false
  | VBool _ | VNone => Raise TypeError
  end.
(** [v in [texts]] *)
Definition one_of (v : val) (l : list string) : bool :=
  match v with VStr s => bool_decide (s ∈ l) | _ => false end.
(** [str.format] of a value that is a text, or of an unset one *)
Definition format_val (v : val) : string :=
  match v with
  | VStr s => s
  | VList l => Repr.repr_list l
  | VBool b => if b then "True" else "False"
  | VNone => "None"
  | VFeatures _ => EmptyString
  end.
End Env.

Module Check.
Import Env.

Record bstate (E : Type) := mk_bstate {
  env : E;
  logged : list string;      (* the errors and messages of [Logs] *)
  printed : list string
}.
Arguments mk_bstate {E}. Arguments env {E}. Arguments logged {E}. Arguments printed {E}.

Record options := mk_options {
  enable_opt : bool; enable_static : bool; enable_log : bool; enable_assert : bool;
  enable_gcov : bool; enable_examples : bool; enable_tests : bool; enable_debug : bool
}.

(** one call of [conf.check_cfg] for a package *)
Record cfg_check := mk_cfg {
  package : string; cfg_args : string; cfg_mandatory : bool; msg : string; uselib_store : string;
  pkg_config_path : string
}.

Section check.
  Context {E : Type} `{WafEnv E}.
  (** [sys.platform], [os.uname()[4]], [os.environ.get("PKG_CONFIG_PATH")] *)
  Variable platform machine : string.
  Variable pkg_config_env : option string.
  Variable glob : string → list string.
  (** whether [conf.check_cc] ([true]) or [conf.check_cxx] ([false]) accepts the flag *)
  Variable check_compiler : bool → string → bool.
  (** the output of the compiler asked for the place of its library *)
  Variable libstdcxx_output : string → string.
  (** [conf.check_cfg]: whether it returns something, or its exception, and the new environment *)
  Variable check_cfg : cfg_check → E → result bool * E.
  (** [conf.check_cfg(atleast_pkgconfig_version='0.0.0')] *)
  Variable check_pkg_config : E → result unit * E.
  (** the outcome of the call [Logs.errors(...)] *)
  Variable logs_errors : string → result unit.
  Variable opts : options.

Definition set_env (e : E) (s : bstate E) : bstate E :=
  {| env := e; logged := logged s; printed := printed s |}.
Definition get (k : string) : py (bstate E) val := λ s, (Ok (env_get (env s) k), s).
Definition has (k : string) : py (bstate E) bool := λ s, (Ok (env_has (env s) k), s).
Definition put (k : string) (v : val) : py (bstate E) unit :=
  py_modify (λ s, set_env (env_set (env s) k v) s).
Definition append (k v : string) : py (bstate E) unit :=
  py_modify (λ s, set_env (env_append (env s) k [v]) s).
Definition log_error (m : string) : py (bstate E) unit :=
  py_modify (λ s, {| env := env s; logged := logged s ++ [m]; printed := printed s |}).
Definition print (m : string) : py (bstate E) unit :=
  py_modify (λ s, {| env := env s; logged := logged s; printed := printed s ++ [m] |}).
(** a call of waf that may change the environment or raise *)
Definition call_waf {A} (f : E → result A * E) : py (bstate E) A :=
  λ s, let '(r, e) := f (env s) in (r, set_env e s).

(** *** Optional features *)
Definition _report_optional_feature (name caption : string) (was_enabled : bool)
    (reason_not_enabled : option string) : py (bstate E) unit :=
  b ← has "NS3_OPTIONAL_FEATURES";
  (if (b : bool) then mret () else put "NS3_OPTIONAL_FEATURES" (VFeatures [])) ;;
  v ← get "NS3_OPTIONAL_FEATURES";
  match v with
  | VFeatures l =>
      put "NS3_OPTIONAL_FEATURES" (VFeatures (l ++ [(name, caption, was_enabled,
                                                     reason_not_enabled)]))
  | _ => py_raise AttributeError
  end.

(** ["%-30s"] *)
Fixpoint spaces (n : nat) : string :=
  match n with O => EmptyString | S n => String " " (spaces n) end.
Definition pad_right (k : nat) (s : string) : string := s +:+ spaces (k - String.length s).

Definition feature_line (f : feature) : string :=
  let '(_, caption, was_enabled, reason) := f in
  pad_right 30 caption +:+ ": " +:+
  (if was_enabled then "enabled" else "not enabled (" +:+ default "None" reason +:+ ")").

Definition _print_optional_features : py (bstate E) unit :=
  print "---- Summary of optional NS-3 features:" ;;
  v ← get "NS3_OPTIONAL_FEATURES";
  match v with
  | VFeatures l => py_for l (λ f, print (feature_line f))
  | VList [] => mret ()
  | VList _ | VStr _ => py_raise (ValueError "not enough values to unpack")
  | VBool _ | VNone => py_raise TypeError
  end.

(** *** Compilers *)

(** the mode cxx asks the C compiler, every other mode the C++ compiler *)
Definition _check_compilation_flag (flag mode : string) : bool :=
  check_compiler (mode =? "cxx")%string flag.

(** [re.match('i[3-6]86', machine)] *)
Definition is_i386 : bool :=
  startswith machine "i386" || startswith machine "i486" || startswith machine "i586" ||
  startswith machine "i686".

Definition report_static (enabled : bool) (reason : string) : py (bstate E) unit :=
  _report_optional_feature "static" "Static build" enabled (Some reason).

Definition _check_static : py (bstate E) unit :=
  put "NS3_ENABLE_STATIC" (VBool false) ;;
  put "LIB_SUFFIX" (VStr (if enable_opt opts then "optimized" else "debug")) ;;
  cxx_name ← get "CXX_NAME";
  (if enable_static opts then
     if startswith platform "linux" && one_of cxx_name ["gcc"; "icc"] then
       if is_i386 then report_static true EmptyString ;; put "NS3_ENABLE_STATIC" (VBool true)
       else if (machine =? "x86_64")%string then
         bindings ← get "NS3_ENABLE_PYTHON_BINDINGS";
         if val_true bindings && negb (_check_compilation_flag "-mcmodel=large" "cxx") then
           report_static false
             ("Can't enable static builds because no -mcmodel=large compiler option. " +:+
              "Try --disable-python or upgrade your compiler to at least gcc 4.3.x.")
         else report_static true EmptyString ;; put "NS3_ENABLE_STATIC" (VBool true)
       else mret ()
     else if one_of cxx_name ["gcc"] &&
             (startswith platform "darwin" || startswith platform "cygwin") then
       report_static true EmptyString ;; put "NS3_ENABLE_STATIC" (VBool true)
     else report_static false "Unsupported platform"
   else report_static false "option --enable-static not selected") ;;
  static ← get "NS3_ENABLE_STATIC";
  if val_true static then
    if (platform =? "darwin")%string then put "STLIB_MARKER" (VStr "-Wl,-all_load")
    else
      put "STLIB_MARKER" (VStr "-Wl,--whole-archive,-Bstatic") ;;
      put "SHLIB_MARKER" (VStr "-Wl,-Bdynamic,--no-whole-archive")
  else mret ().

Definition _check_win32 : py (bstate E) unit :=
  cxx_name ← get "CXX_NAME";
  if one_of cxx_name ["gcc"; "icc"] then
    (if (platform =? "win32")%string then append "LINKFLAGS" "-Wl,--enable-runtime-pseudo-reloc"
     else if (platform =? "cygwin")%string then append "LINKFLAGS" "-Wl,--enable-auto-import"
     else mret ()) ;;
    v ← get "CXX";
    l ← py_lift (as_iter v);
    match l with
    | [cxx] =>
        let location := dirname (strip (libstdcxx_output cxx)) in
        (if truthy location then append "NS3_MODULE_PATH" location else mret ()) ;;
        if startswith platform "linux" && _check_compilation_flag "-Wl,--soname=foo" "cxx" then
          put "WL_SONAME_SUPPORTED" (VBool true)
        else mret ()
    | _ => py_raise (ValueError "values to unpack")
    end
  else mret ().

(** *** Modules *)
Definition build_ns3_libname (version module profile : string) : string :=
  "lib" +:+ version +:+ "-" +:+ module +:+ "-" +:+ profile.

(** the first match of [ns[0-9][.-][dev0-9.]+] *)
Definition version_char (c : ascii) : bool :=
  Ascii.eqb c "d" || Ascii.eqb c "e" || Ascii.eqb c "v" || is_digit c || Ascii.eqb c ".".
Fixpoint span_by (p : ascii → bool) (s : string) : string :=
  match s with
  | String c s => if p c then String c (span_by p s) else EmptyString
  | EmptyString => EmptyString
  end.
Definition version_at (s : string) : option string :=
  match s with
  | String a (String b (String c (String d r))) =>
      if Ascii.eqb a "n" && Ascii.eqb b "s" && is_digit c &&
         (Ascii.eqb d "." || Ascii.eqb d "-") then
        let rest := span_by version_char r in
        if truthy rest then Some (String a (String b (String c (String d rest)))) else None
      else None
  | _ => None
  end.
Fixpoint version_search (s : string) : option string :=
  match version_at s with
  | Some v => Some v
  | None => match s with String _ s => version_search s | EmptyString => None end
  end.

Definition module_key (module : string) : string := "NS3_" +:+ upper module.

(** [STLIB_ST_NS3_...] of a module in a static build; [match_pkg] is the file of the core module
    when this call has looked for it *)
Definition static_lib (match_pkg : option string) (module : string) : py (bstate E) unit :=
  let libname := "STLIB_ST_" +:+ module_key module in
  match match_pkg with
  | None => py_raise UnboundLocalError
  | Some f =>
      put libname (VStr ("-l" +:+ py_replace "libns3" "ns3" f)) ;;
      v ← get ("LIB_" +:+ module_key module);
      libs ← py_lift (as_iter v);
      py_for libs (λ lib, if py_in "ns3" lib then append libname ("-l" +:+ lib) else mret ())
  end.

(** one round of the loop over the required modules: whether the module was found by it *)
Definition check_module (match_pkg : option string) (mandatory : bool) (module : string)
    : py (bstate E) bool :=
  modules_found ← get "NS3_MODULES_FOUND";
  already ← py_lift (val_in module modules_found);
  if (already : bool) then mret false
  else
    version ← get "NS3_VERSION";
    suffix ← get "LIB_SUFFIX";
    static ← get "NS3_ENABLE_STATIC";
    dir ← get "NS3_DIR";
    dir ← py_lift (as_str dir);
    let libname := build_ns3_libname (format_val version) (lower module) (format_val suffix) in
    match pkg_config_env with
    | None => py_raise TypeError
    | Some path =>
        retval ← call_waf (check_cfg
          {| package := libname;
             cfg_args := "--cflags --libs" +:+ (if val_true static then " --static" else EmptyString);
             cfg_mandatory := mandatory;
             msg := "Checking for " +:+ libname +:+ " (" +:+
                    (if mandatory then "mandatory" else "optional") +:+ ")";
             uselib_store := module_key module;
             pkg_config_path := path +:+ ":" +:+ dir +:+ "/lib/pkgconfig" |});
        if (retval : bool) then
          static ← get "NS3_ENABLE_STATIC";
          (if val_true static then static_lib match_pkg module else mret ()) ;;
          mret true
        else mret false
    end.

Fixpoint check_required (match_pkg : option string) (mandatory : bool) (required : list string)
    : py (bstate E) (list string) :=
  match required with
  | [] => mret []
  | m :: ms =>
      b ← check_module match_pkg mandatory m;
      found ← check_required match_pkg mandatory ms;
      mret (if (b : bool) then m :: found else found)
  end.

(** the search of the version of ns-3: whether to go on, and the file of the core module *)
Definition find_version : py (bstate E) (option (option string)) :=
  suffix ← get "LIB_SUFFIX";
  dir ← get "NS3_DIR";
  dir ← py_lift (as_str dir);
  let libcore := build_ns3_libname "*" "core" (format_val suffix) in
  b ← has "NS3_VERSION";
  if (b : bool) then mret (Some None)
  else
    match glob (dir +:+ "/lib/pkgconfig/" +:+ libcore +:+ ".pc") with
    | [] => log_error ("Could not find " +:+ libcore) ;; mret None
    | [f] =>
        let match_pkg := basename f in
        match version_search match_pkg with
        | None => py_raise AttributeError
        | Some version => put "NS3_VERSION" (VStr version) ;; mret (Some (Some match_pkg))
        end
    | _ =>
        py_lift (logs_errors "Too many candidates, DCE should only see one ns-3 version.") ;;
        mret None
    end.

Definition _check_dependencies (required : list string) (mandatory : bool) : py (bstate E) unit :=
  r ← find_version;
  match r with
  | None => mret ()
  | Some match_pkg =>
      found ← check_required match_pkg mandatory required;
      b ← has "NS3_MODULES_FOUND";
      (if (b : bool) then mret () else put "NS3_MODULES_FOUND" (VList [])) ;;
      v ← get "NS3_MODULES_FOUND";
      l ← py_lift (as_list v);
      put "NS3_MODULES_FOUND" (VList (l ++ found))
  end.

Definition optional_feature (b : bool) (name caption reason : string) : py (bstate E) unit :=
  _report_optional_feature name caption b (Some (if b then EmptyString else reason)).

(** [tmp + ['-g']] of a list that may be missing *)
Definition add_debug (k : string) : py (bstate E) unit :=
  b ← has k;
  tmp ← (if (b : bool) then v ← get k; py_lift (as_list v) else mret []);
  put k (VList (tmp ++ ["-g"])).

(** what the first call of [check_modules] does *)
Definition check_once : py (bstate E) unit :=
  put "NS3_CHECK_MODULE_ONCE" (VStr EmptyString) ;;
  call_waf check_pkg_config ;;
  _check_win32 ;;
  _check_static ;;
  optional_feature (enable_log opts) "log" "Logging" "option --disable-log selected" ;;
  (if enable_log opts then append "DEFINES" "NS3_LOG_ENABLE" else mret ()) ;;
  optional_feature (enable_assert opts) "assert" "Assert checks"
    "option --disable-assert selected" ;;
  (if enable_assert opts then append "DEFINES" "NS3_ASSERT_ENABLE" else mret ()) ;;
  optional_feature (enable_gcov opts) "coverage" "Code coverage"
    "option --enable-gcov not selected" ;;
  (if enable_gcov opts then
     append "CFLAGS" "-fprofile-arcs" ;; append "CFLAGS" "-ftest-coverage" ;;
     append "CXXFLAGS" "-fprofile-arcs" ;; append "CXXFLAGS" "-ftest-coverage" ;;
     append "LINKFLAGS" "-fprofile-arcs"
   else mret ()) ;;
  optional_feature (enable_examples opts) "examples" "Example programs"
    "option --disable-examples selected" ;;
  put "NS3_ENABLE_EXAMPLES" (VBool (enable_examples opts)) ;;
  optional_feature (enable_tests opts) "tests" "Test programs"
    "option --disable-tests selected" ;;
  put "NS3_ENABLE_TESTS" (VBool (enable_tests opts)) ;;
  (if enable_debug opts then add_debug "CXXFLAGS" ;; add_debug "CFLAGS" else mret ()) ;;
  optional_feature (enable_debug opts) "debug" "Debug Symbols" "option --disable-debug selected".

Definition check_modules (modules : list string) (mandatory : bool) : py (bstate E) unit :=
  b ← has "NS3_CHECK_MODULE_ONCE";
  (if (b : bool) then mret () else check_once) ;;
  _check_dependencies modules mandatory.

Definition print_feature_summary : py (bstate E) unit := _print_optional_features.
End check.
End Check.

Module CheckFacts.
Import Env Check.

Section facts.
  Context {E : Type} `{WafEnvLaws E}.
  Context (pkg_config_env : option string) (glob : string → list string)
          (check_cfg : cfg_check → E → result bool * E)
          (logs_errors : string → result unit).

(** pkg-config knows the packages in [pkg_ok], fails with [missing] on a mandatory one it does not
    know, and a check leaves alone the variables the search of modules reads *)
  Context (pkg_ok : string → bool) (missing : exn).
Definition search_keys : list string :=
  ["NS3_MODULES_FOUND"; "NS3_VERSION"; "LIB_SUFFIX"; "NS3_ENABLE_STATIC"; "NS3_DIR"].
Definition keeps (e e' : E) : Prop :=
  ∀ k, k ∈ search_keys → env_get e' k = env_get e k ∧ env_has e' k = env_has e k.
Definition cfg_spec : Prop := ∀ a e, ∃ e', keeps e e' ∧
  check_cfg a e = (if pkg_ok (package a) then Ok true
                   else if cfg_mandatory a then Raise missing else Ok false, e').

Lemma keeps_get e e' k : keeps e e' → bool_decide (k ∈ search_keys) = true → env_get e' k = env_get e k.
Proof. intros Hk Hin%bool_decide_eq_true. by apply Hk. Qed.
Lemma keeps_has e e' k : keeps e e' → bool_decide (k ∈ search_keys) = true → env_has e' k = env_has e k.
Proof. intros Hk Hin%bool_decide_eq_true. by apply Hk. Qed.
Lemma keeps_trans e1 e2 e3 : keeps e1 e2 → keeps e2 e3 → keeps e1 e3.
Proof. intros H1 H2 k Hk. destruct (H1 k Hk), (H2 k Hk). split; congruence. Qed.
Lemma keeps_refl e : keeps e e.
Proof. by intros k. Qed.

(** the package of a module *)
Definition libname_of (e : E) (m : string) : string :=
  build_ns3_libname (format_val (env_get e "NS3_VERSION")) (lower m)
    (format_val (env_get e "LIB_SUFFIX")).

Lemma libname_keeps e e' m : keeps e e' → libname_of e' m = libname_of e m.
Proof. intros Hk. unfold libname_of. by rewrite !(keeps_get e e') by done. Qed.

(** an environment in which the search can work: modules found so far, directory, search path *)
Definition ready (e : E) (old : list string) (dir : string) (static : bool) : Prop :=
  env_get e "NS3_MODULES_FOUND" = VList old ∧ env_get e "NS3_DIR" = VStr dir ∧
  val_true (env_get e "NS3_ENABLE_STATIC") = static.

Lemma ready_keeps e e' old dir st : keeps e e' → ready e old dir st → ready e' old dir st.
Proof. intros Hk. unfold ready. by rewrite !(keeps_get e e') by done. Qed.

Lemma check_module_ready mp mandatory m s old dir st path :
  cfg_spec → pkg_config_env = Some path → ready (env s) old dir st → m ∉ old →
  ∃ s', keeps (env s) (env s') ∧
    check_module pkg_config_env check_cfg mp mandatory m s =
      if pkg_ok (libname_of (env s) m) then
        ((if st then static_lib mp m else mret ()) ;; mret true) s'
      else if mandatory then (Raise missing, s') else (Ok false, s').
Proof.
  intros Hcfg Hpath (Hold & Hdir & Hst) Hm. unfold check_module. rewrite Hpath.
  cbv [mbind py_bind get py_lift]. rewrite Hold. cbn [val_in]. rewrite bool_decide_false by done.
  rewrite Hdir. cbn [as_str]. fold (libname_of (env s) m). unfold call_waf.
  match goal with |- context [check_cfg ?a (env s)] =>
    destruct (Hcfg a (env s)) as (e' & Hk & ->); cbn [package cfg_mandatory] end.
  exists (set_env e' s). split; [done|].
  fold (libname_of (env s) m). destruct (pkg_ok (libname_of (env s) m)).
  - replace (val_true (env_get (env (set_env e' s)) "NS3_ENABLE_STATIC")) with st; [done|].
    cbn. by rewrite (keeps_get (env s)).
  - by destruct mandatory.
Qed.

Lemma check_module_already mp mandatory m s old dir st :
  ready (env s) old dir st → m ∈ old →
  check_module pkg_config_env check_cfg mp mandatory m s = (Ok false, s).
Proof.
  intros (Hold & _ & _) Hm. unfold check_module. cbv [mbind py_bind get py_lift]. rewrite Hold.
  cbn [val_in]. by rewrite bool_decide_true.
Qed.

(** what a module of the list has to be: found before or known to pkg-config *)
Definition satisfied (e : E) (old : list string) (m : string) : bool :=
  bool_decide (m ∈ old) || pkg_ok (libname_of e m).
Definition new_module (e : E) (old : list string) (m : string) : bool :=
  negb (bool_decide (m ∈ old)) && pkg_ok (libname_of e m).

Lemma new_module_keeps e e' old : keeps e e' → ∀ ms,
  List.filter (new_module e' old) ms = List.filter (new_module e old) ms.
Proof.
  intros Hk ms. apply List.filter_ext. intros m. unfold new_module. by rewrite (libname_keeps e e').
Qed.

Lemma satisfied_keeps e e' old : keeps e e' → ∀ ms,
  forallb (satisfied e' old) ms = forallb (satisfied e old) ms.
Proof.
  intros Hk ms. induction ms as [|m ms IH]; [done|]. cbn. rewrite IH. unfold satisfied.
  by rewrite (libname_keeps e e').
Qed.

Lemma check_required_spec mp mandatory ms s old dir path :
  cfg_spec → pkg_config_env = Some path → ready (env s) old dir false →
  ∃ s', keeps (env s) (env s') ∧
    check_required pkg_config_env check_cfg mp mandatory ms s =
      (if mandatory && negb (forallb (satisfied (env s) old) ms) then Raise missing
       else Ok (List.filter (new_module (env s) old) ms), s').
Proof.
  intros Hcfg Hpath. revert s. induction ms as [|m ms IH]; intros s Hready.
  { exists s. split; [by apply keeps_refl|]. by rewrite andb_false_r. }
  cbn [check_required forallb List.filter]. cbv [mbind py_bind].
  unfold satisfied at 1, new_module at 1. destruct (bool_decide_reflect (m ∈ old)) as [Hm|Hm].
  - rewrite (check_module_already mp mandatory m s old dir false) by done.
    destruct (IH s Hready) as (s' & Hk & ->). exists s'. split; [done|]. cbn [negb andb orb].
    by destruct (mandatory && _).
  - destruct (check_module_ready mp mandatory m s old dir false path) as (s1 & Hk1 & ->); [done..|].
    cbn [negb andb orb]. destruct (pkg_ok (libname_of (env s) m)).
    + cbv [mbind py_bind mret py_ret].
      destruct (IH s1) as (s' & Hk & ->); [by eapply ready_keeps|].
      exists s'. split; [by eapply keeps_trans|].
      rewrite (new_module_keeps (env s) (env s1)) by done.
      rewrite (satisfied_keeps (env s) (env s1)) by done.
      cbn [andb]. by destruct (mandatory && _).
    + cbn [andb negb]. destruct mandatory; cbn [andb]; [by exists s1|].
      destruct (IH s1) as (s' & Hk & ->); [by eapply ready_keeps|].
      exists s'. split; [by eapply keeps_trans|].
      by rewrite (new_module_keeps (env s) (env s1)) by done.
Qed.

Lemma find_version_known s dir :
  env_has (env s) "NS3_VERSION" = true → env_get (env s) "NS3_DIR" = VStr dir →
  find_version glob logs_errors s = (Ok (Some None), s).
Proof.
  intros Hv Hd. unfold find_version. cbv [mbind py_bind get py_lift has]. rewrite Hd.
  cbn [as_str]. by rewrite Hv.
Qed.

Lemma bind_run {A B} (m : py (bstate E) A) (f : A → py (bstate E) B) s a s1 :
  m s = (Ok a, s1) → (m ≫= f) s = f a s1.
Proof. intros Hm. unfold mbind, py_bind. by rewrite Hm. Qed.

(** without a search path in the environment only modules found before can be asked for *)
Lemma check_required_no_path mp mandatory ms s old dir st :
  pkg_config_env = None → ready (env s) old dir st →
  check_required pkg_config_env check_cfg mp mandatory ms s =
    (if forallb (λ m, bool_decide (m ∈ old)) ms then Ok [] else Raise TypeError, s).
Proof.
  intros Hpath Hready. induction ms as [|m ms IH]; [done|].
  cbn [check_required forallb]. cbv [mbind py_bind].
  destruct (bool_decide_reflect (m ∈ old)) as [Hm|Hm]; cbn [andb].
  - rewrite (check_module_already mp mandatory m s old dir st) by done. rewrite IH.
    by destruct (forallb _ ms).
  - destruct Hready as (Hold & Hdir & _). unfold check_module. rewrite Hpath.
    cbv [mbind py_bind get py_lift]. rewrite Hold. cbn [val_in]. rewrite bool_decide_false by done.
    by rewrite Hdir.
Qed.

(** the end of a search: what was found is added to the modules found, which may be unset *)
Lemma found_added (found old : list string) (s : bstate E) :
  env_get (env s) "NS3_MODULES_FOUND" = VList old →
  ∃ s', (b ← has "NS3_MODULES_FOUND";
         (if (b : bool) then mret () else put "NS3_MODULES_FOUND" (VList [])) ;;
         v ← get "NS3_MODULES_FOUND"; l ← py_lift (as_list v);
         put "NS3_MODULES_FOUND" (VList (l ++ found))) s = (Ok (), s') ∧
    env_get (env s') "NS3_MODULES_FOUND" = VList (old ++ found).
Proof.
  intros Hold. cbv [mbind py_bind has get py_lift mret py_ret].
  destruct (env_has (env s) "NS3_MODULES_FOUND") eqn:Eh.
  - rewrite Hold. cbn [as_list]. eexists. split; [reflexivity|]. cbn. rewrite env_get_set.
    by rewrite decide_True.
  - rewrite (env_get_unset _ _ Eh) in Hold. injection Hold as <-. unfold put at 1, py_modify. cbn.
    rewrite env_get_set, decide_True by done. cbn. eexists. split; [reflexivity|]. cbn.
    rewrite env_get_set. by rewrite decide_True.
Qed.

(** C30. Once the version of ns-3 is known, in a build that is not static, and with PKG_CONFIG_PATH
    set in the environment, a search of modules adds to the modules found exactly those that were
    not found before and that pkg-config knows, in the order of the request; it raises exactly when
    the search is mandatory and one of them is neither found before nor known, and then no module
    is added.  Without PKG_CONFIG_PATH a search raises TypeError, and adds nothing, as soon as one
    of the modules was not found before. *)
Theorem dependencies_found (mandatory : bool) (required : list string) (s : bstate E)
    (old : list string) (dir : string)
    (Hcfg : cfg_spec) (Hversion : env_has (env s) "NS3_VERSION" = true)
    (Hready : ready (env s) old dir false) :
  ∃ r s', _check_dependencies pkg_config_env glob check_cfg logs_errors required mandatory s = (r, s') ∧
    match pkg_config_env with
    | Some path =>
        if mandatory && negb (forallb (satisfied (env s) old) required) then
          r = Raise missing ∧ env_get (env s') "NS3_MODULES_FOUND" = VList old
        else
          r = Ok () ∧ env_get (env s') "NS3_MODULES_FOUND" =
                        VList (old ++ List.filter (new_module (env s) old) required)
    | None =>
        r = (if forallb (λ m, bool_decide (m ∈ old)) required then Ok () else Raise TypeError) ∧
        env_get (env s') "NS3_MODULES_FOUND" = VList old
    end.
Proof.
  pose proof Hready as (Hold & Hdir & _). unfold _check_dependencies.
  rewrite (bind_run _ _ _ _ _ (find_version_known s dir Hversion Hdir)).
  destruct pkg_config_env as [path|] eqn:Hpath.
  - destruct (check_required_spec None mandatory required s old dir path Hcfg Hpath Hready)
      as (s1 & Hk & Hr). rewrite Hpath in Hr.
    assert (Hg : env_get (env s1) "NS3_MODULES_FOUND" = VList old) by by rewrite (keeps_get (env s)).
    destruct (mandatory && _).
    + exists (Raise missing), s1. unfold mbind, py_bind. by rewrite Hr.
    + rewrite (bind_run _ _ _ _ _ Hr).
      destruct (found_added (List.filter (new_module (env s) old) required) old s1 Hg) as (s2 & Hs & Hf).
      by exists (Ok ()), s2.
  - pose proof (check_required_no_path None mandatory required s old dir false Hpath Hready) as Hr.
    rewrite Hpath in Hr. destruct (forallb _ required).
    + rewrite (bind_run _ _ _ _ _ Hr). destruct (found_added [] old s Hold) as (s2 & Hs & Hf).
      rewrite app_nil_r in Hf. by exists (Ok ()), s2.
    + exists (Raise TypeError), s. unfold mbind, py_bind. by rewrite Hr.
Qed.

(** In a static build every search after the one that found the version fails with
    UnboundLocalError as soon as it finds a module that was not found before. *)
Theorem static_search_fails (mandatory : bool) (m : string) (required : list string)
    (s : bstate E) (old : list string) (dir path : string)
    (Hcfg : cfg_spec) (Hpath : pkg_config_env = Some path)
    (Hversion : env_has (env s) "NS3_VERSION" = true)
    (Hready : ready (env s) old dir true)
    (Hnew : new_module (env s) old m = true) :
  ∃ s', _check_dependencies pkg_config_env glob check_cfg logs_errors (m :: required) mandatory s
        = (Raise UnboundLocalError, s').
Proof.
  pose proof Hready as (Hold & Hdir & _). unfold _check_dependencies. cbv [mbind py_bind].
  rewrite (find_version_known s dir) by done.
  apply andb_true_iff in Hnew as [Hm%negb_true_iff%bool_decide_eq_false Hok].
  cbn [check_required]. cbv [mbind py_bind].
  destruct (check_module_ready None mandatory m s old dir
              true path) as (s1 & Hk & ->); [done..|].
  rewrite Hok. by exists s1.
Qed.
End facts.
End CheckFacts.

(** ** An environment as a finite map *)
Module CheckExamples.
Import Env Check CheckFacts.

Definition map_get (e : gmap string val) (k : string) : val := default (VList []) (e !! k).
Definition extend (v : val) (l : list string) : val :=
  match v with VList l0 => VList (l0 ++ l) | VStr s => VList (s :: l) | _ => VList l end.

#[export] Instance map_waf_env : WafEnv (gmap string val) := {|
  env_get := map_get;
  env_has e k := bool_decide (is_Some (e !! k));
  env_set e k v := <[k := v]> e;
  env_append e k l := <[k := extend (map_get e k) l]> e
|}.

#[export] Instance map_waf_env_laws : WafEnvLaws (gmap string val).
Proof.
  split; cbn.
  - intros e k Hk%bool_decide_eq_false. unfold map_get. by destruct (e !! k); [destruct Hk|].
  - intros e k v k'. unfold map_get. case_decide as Hk; subst;
      [by rewrite lookup_insert_eq|by rewrite lookup_insert_ne].
  - intros e k v k'. destruct (decide (k' = k)) as [->|Hk].
    + rewrite lookup_insert_eq. by rewrite !bool_decide_true by done.
    + by rewrite lookup_insert_ne, (bool_decide_false (k' = k)) by done.
  - intros e k l v k' Hl. rewrite Hl. unfold map_get.
    case_decide as Hk; subst;
      [by rewrite lookup_insert_eq|by rewrite lookup_insert_ne].
  - intros e k v k'. destruct (decide (k' = k)) as [->|Hk].
    + rewrite lookup_insert_eq. by rewrite !bool_decide_true by done.
    + by rewrite lookup_insert_ne, (bool_decide_false (k' = k)) by done.
Qed.

(** pkg-config that knows the modules core and mpi of version 3.36 *)
Definition sample_ok (p : string) : bool :=
  bool_decide (p ∈ ["libns3.36-core-debug"; "libns3.36-mpi-debug"]).
Definition sample_missing : exn := PyException "ConfigurationError".
Definition sample_cfg (a : cfg_check) (e : gmap string val) : result bool * gmap string val :=
  ((if sample_ok (package a) then Ok true
    else if cfg_mandatory a then Raise sample_missing else Ok false), e).

Lemma sample_cfg_spec : cfg_spec sample_cfg sample_ok sample_missing.
Proof. intros a e. exists e. split; [by apply keeps_refl|done]. Qed.

Definition sample_state (static : bool) : bstate (gmap string val) :=
  {| env := <["NS3_VERSION" := VStr "ns3.36"]> (<["LIB_SUFFIX" := VStr "debug"]>
              (<["NS3_DIR" := VStr "/usr"]> (<["NS3_ENABLE_STATIC" := VBool static]>
                (<["NS3_MODULES_FOUND" := VList ["core"]]> ∅))));
     logged := []; printed := [] |}.

Lemma dependencies_found_witness :
  (∃ s', _check_dependencies (Some "/usr/lib") (λ _, []) sample_cfg (λ _, Raise AttributeError)
           ["core"; "mpi"; "lte"] false (sample_state false) = (Ok (), s') ∧
         env_get (env s') "NS3_MODULES_FOUND" = VList ["core"; "mpi"]) ∧
  ∃ s', _check_dependencies None (λ _, []) sample_cfg (λ _, Raise AttributeError) ["core"; "mpi"]
          false (sample_state false) = (Raise TypeError, s').
Proof.
  split.
  - destruct (dependencies_found (Some "/usr/lib") (λ _, []) sample_cfg (λ _, Raise AttributeError)
                sample_ok sample_missing false ["core"; "mpi"; "lte"] (sample_state false) ["core"]
                "/usr" sample_cfg_spec ltac:(by vm_compute) ltac:(by vm_compute))
      as (r & s' & Hrun & -> & Hs).
    exists s'. split; [exact Hrun|exact Hs].
  - destruct (dependencies_found None (λ _, []) sample_cfg (λ _, Raise AttributeError)
                sample_ok sample_missing false ["core"; "mpi"] (sample_state false) ["core"]
                "/usr" sample_cfg_spec ltac:(by vm_compute) ltac:(by vm_compute))
      as (r & s' & Hrun & -> & Hs).
    exists s'. exact Hrun.
Defined.

Lemma static_search_fails_witness :
  ∃ s', _check_dependencies (Some "/usr/lib") (λ _, []) sample_cfg (λ _, Raise AttributeError)
          ["mpi"] true (sample_state true) = (Raise UnboundLocalError, s').
Proof.
  apply (static_search_fails (Some "/usr/lib") (λ _, []) sample_cfg (λ _, Raise AttributeError)
           sample_ok sample_missing true "mpi" [] (sample_state true) ["core"] "/usr" "/usr/lib"
           sample_cfg_spec); by vm_compute.
Defined.
End CheckExamples.
