(* ===== verification/Ns3Module.v ===== *)
(** * ns3waf: building a module, its examples and its tests

    The second half of ns3waf/__init__.py: the names of the libraries, the library, the headers
    and the pkg-config file of a module, and the class [Module].  What the code asks of waf's
    build context is logged as a list of events, in order; the paths of the build, the machine
    and [sniff_features] are parameters.  Keyword arguments are dictionaries of values. *)
From Stdlib Require Import ZArith Lia Ascii String.
From stdpp Require Import base list strings.
From S2P Require Import Prelude PyStr WUtils Ns3Check.

Module Build.
Import Env.

(** [None] is the value of a keyword that is given as None *)
Definition kwargs : Type := list (string * option val).

Inductive event :=
  | SetGroup (g : string)
  | Generator (kw : kwargs)                        (* [bld] called with keywords *)
  | Objects (kw : kwargs)                          (* [bld.objects] *)
  | HeaderRule (source : list string) (target : string)
  | PkgConfigRule (name : string) (uses : list string) (target : string)
  | Install (dest : string) (files : list string)
  | IsProgram (target : string)                    (* [program.is_ns3_program = True] *)
  (* what the build descriptions ask for besides *)
  | AddGroup (g : string)
  | Program (kw : kwargs)                          (* [bld.program] *)
  | Shlib (kw : kwargs)                            (* [bld.shlib] *)
  | InstallMode (dest file : string) (chmod : Z)   (* [bld.install_files] of one file *)
  | Recurse (dir : string)
  | WriteFile (path text : string)
  | AddTarget (name : string)                      (* [Options.options.targets += ',' + name] *)
  | AppendUse (program lib : string)
  | PostAll.                                       (* every task generator is posted *)

Record mstate (E : Type) := mk_mstate {
  env : E; events : list event; logged : list string
}.
Arguments mk_mstate {E}. Arguments env {E}. Arguments events {E}. Arguments logged {E}.

(** [kw.get(k, [])] as a list, [kw.get(k)], and the list extended *)
Definition kw_list (kw : kwargs) (k : string) : result (list string) :=
  match dict_get kw k with
  | None => Ok []
  | Some (Some v) => as_list v
  | Some None => Raise TypeError
  end.
Definition kw_get (kw : kwargs) (k : string) : option val :=
  match dict_get kw k with Some v => v | None => None end.
Definition kw_set_list (kw : kwargs) (k : string) (l : list string) : kwargs :=
  dict_set kw k (Some (VList l)).
Definition kw_extend (kw : kwargs) (k : string) (more : list string) : result kwargs :=
  l ← kw_list kw k; Ok (kw_set_list kw k (l ++ more)).
(** [kw[k]] *)
Definition kw_item (kw : kwargs) (k : string) : result val :=
  match dict_get kw k with
  | Some (Some v) => Ok v
  | Some None => Raise TypeError
  | None => Raise KeyError
  end.

(** the directories of the sources, each once, in the order of the first *)
Fixpoint uniq (seen l : list string) : list string :=
  match l with
  | [] => []
  | x :: l => if bool_decide (x ∈ seen) then uniq seen l else x :: uniq (seen ++ [x]) l
  end.
Definition _dirs (source : option val) : result (list string) :=
  match source with
  | Some v => l ← as_iter v; Ok (uniq [] (dirname <$> l))
  | None => Raise TypeError
  end.

Definition modules_uselib (names : list string) : list string :=
  ((λ name, "NS3_" +:+ upper name) <$> names) ++
  ((λ name, "NS3_LIBRARY_" +:+ upper name) <$> names) ++
  ((λ name, "NS3_HEADERS_" +:+ upper name) <$> names).

(** ** The text of the files that the rules write *)

(** the body of the aggregate header of a module *)
Definition header_text (name : string) (inputs : list string) : string :=
  let tag := py_replace "-" "_" (upper name) in
  let pad := "            " in
  nl +:+ pad +:+ "#ifdef NS3_MODULE_COMPILATION" +:+ nl +:+
  pad +:+ "# error " +:+ String "034" ("Do not include ns3 module aggregator headers from other modules; these are meant only for end user scripts." +:+ String "034" nl) +:+
  pad +:+ "#endif" +:+ nl +:+
  pad +:+ "#ifndef NS3_MODULE_" +:+ tag +:+ nl +:+ pad +:+ nl +:+
  nl +:+ "// Module headers:" +:+ nl +:+
  sconcat ((λ h, "#include " +:+ String "034" (basename h +:+ String "034" nl)) <$> inputs) +:+
  "#endif" +:+ nl.

(** the copies that the rule of the header makes: each header to the directory of the target *)
Definition header_copies (target : string) (inputs : list string) : list (string * string) :=
  (λ h, (h, path_join (dirname target) (basename h))) <$> inputs.

Section build.
  Context {E : Type} `{WafEnv E}.
  (** [bld.out_dir], [bld.path.path_from(bld.srcnode)], the working directory, [os.uname()[4]] *)
  Variable out_dir path_from cwd machine : string.
  (** [waflib.Tools.c_aliases.sniff_features] of the sources and the type *)
  Variable sniff_features : list string → string → val.

Definition emit (ev : event) : py (mstate E) unit := py_modify (λ s,
  {| env := env s; events := events s ++ [ev]; logged := logged s |}).
Definition log (m : string) : py (mstate E) unit := py_modify (λ s,
  {| env := env s; events := events s; logged := logged s ++ [m] |}).
Definition get (k : string) : py (mstate E) val := λ s, (Ok (env_get (env s) k), s).
Definition get_list (k : string) : py (mstate E) (list string) :=
  v ← get k; py_lift (as_list v).
Definition get_iter (k : string) : py (mstate E) (list string) :=
  v ← get k; py_lift (as_iter v).
Definition put (k : string) (v : val) : py (mstate E) unit := py_modify (λ s,
  {| env := env_set (env s) k v; events := events s; logged := logged s |}).
Definition append (k v : string) : py (mstate E) unit := py_modify (λ s,
  {| env := env_append (env s) k [v]; events := events s; logged := logged s |}).

(** [env[k] % x] *)
Definition format_env (k x : string) : py (mstate E) string :=
  v ← get k; t ← py_lift (as_str v); py_lift (Template.percent x false t).

Fixpoint modules_found (needed : list string) : py (mstate E) bool :=
  match needed with
  | [] => mret true
  | m :: ms =>
      found ← get "NS3_MODULES_FOUND";
      b ← py_lift (val_in m found);
      if (b : bool) then modules_found ms else mret false
  end.

Definition _c_libname (name : string) : py (mstate E) string :=
  static ← get "NS3_ENABLE_STATIC";
  format_env (if val_true static then "cstlib_PATTERN" else "cshlib_PATTERN") ("ns3-" +:+ name).

Definition out_relpath : result string :=
  Template.std_relpath cwd out_dir (out_dir +:+ "/" +:+ path_from).

(** the flags for the compilers and the linker of a shared library *)
Definition library_flags (name : string)
    : py (mstate E) (list string * list string * list string) :=
  static ← get "NS3_ENABLE_STATIC";
  if val_true static then mret ([], [], [])
  else
    cxx_name ← get "CXX_NAME";
    soname ← get "WL_SONAME_SUPPORTED";
    bindings ← get "NS3_ENABLE_PYTHON_BINDINGS";
    if one_of cxx_name ["gcc"; "icc"] && val_true soname then
      libname ← _c_libname name; mret ([], [], ["-Wl,--soname=" +:+ libname])
    else if one_of cxx_name ["gcc"; "icc"] && (machine =? "x86_64")%string && val_true bindings
    then mret (["-mcmodel=large"], ["-mcmodel=large"], [])
    else mret ([], [], []).

Definition _build_library (name : string) (kw : kwargs) : py (mstate E) unit :=
  log ("Building library " +:+ name) ;;
  emit (SetGroup "ns3modulebuild") ;;
  match kw_get kw "source" with
  | None => log "no source !"
  | Some source =>
      includes ← py_lift (_dirs (Some source));
      sources ← py_lift (as_iter source);
      rel ← py_lift out_relpath;
      let target := path_joins rel ["lib"; "ns3-" +:+ name] in
      '(cxxflags, cflags, linkflags) ← library_flags name;
      static ← get "NS3_ENABLE_STATIC";
      let lib_type := if val_true static then "stlib" else "shlib" in
      let kw := dict_set kw "features" (Some (sniff_features sources lib_type)) in
      let kw := dict_set kw "target" (Some (VStr target)) in
      kw ← py_lift (kw_extend kw "cxxflags" cxxflags);
      kw ← py_lift (kw_extend kw "cflags" cflags);
      kw ← py_lift (kw_extend kw "linkflags" linkflags);
      kw ← py_lift (kw_extend kw "ccdefines" ["NS3_MODULE_COMPILATION"]);
      kw ← py_lift (kw_extend kw "cxxdefines" ["NS3_MODULE_COMPILATION"]);
      kw ← py_lift (kw_extend kw "includes" includes);
      emit (Generator kw) ;;
      emit (Generator [("name", Some (VStr ("NS3_LIBRARY_" +:+ upper name)));
                       ("use", Some (VList [target]))])
  end.

Definition _build_headers (name : string) (headers : option val) : py (mstate E) unit :=
  emit (SetGroup "ns3moduleheader") ;;
  match headers with
  | None => mret ()
  | Some v =>
      headers ← py_lift (as_list v);
      rel ← py_lift out_relpath;
      let target := path_joins rel ["include"; "ns3"; name +:+ "-module.h"] in
      emit (HeaderRule headers target) ;;
      emit (Generator [("use", Some (VList [target]));
                       ("target", Some (VStr ("NS3_HEADERS_" +:+ upper name)));
                       ("export_includes", Some (VList ["include"]))]) ;;
      emit (Install (path_joins "${PREFIX}" ["include"; "ns3"]) (headers ++ [target]))
  end.

(** *** The pkg-config file *)
Fixpoint format_all (k : string) (l : list string) : py (mstate E) (list string) :=
  match l with
  | [] => mret []
  | x :: l => t ← format_env k x; r ← format_all k l; mret (t :: r)
  end.

Definition _lib (dep : string) : py (mstate E) (list string) :=
  libpath ← get_iter ("LIBPATH_" +:+ upper dep);
  linkflags ← get_list ("LINKFLAGS_" +:+ upper dep);
  libs ← get_iter ("LIB_" +:+ upper dep);
  paths ← format_all "LIBPATH_ST" libpath;
  names ← format_all "LIB_ST" libs;
  mret (paths ++ linkflags ++ names).

Definition _cflags (dep : string) : py (mstate E) (list string) := get_list ("CFLAGS_" +:+ dep).
Definition _cxxflags (dep : string) : py (mstate E) (list string) :=
  get_list ("CXXFLAGS_" +:+ dep).
Definition _defines (dep : string) : py (mstate E) (list string) :=
  l ← get_iter ("DEFINES_" +:+ dep); format_all "DEFINES_ST" l.
Definition _includes (dep : string) : py (mstate E) (list string) :=
  l ← get_iter ("INCLUDES_" +:+ dep); format_all "CPPPATH_ST" l.

Definition _self_lib (name libdir : string) : py (mstate E) (list string) :=
  static ← get "NS3_ENABLE_STATIC";
  let s := val_true static in
  path ← format_env (if s then "STLIBPATH_ST" else "LIBPATH_ST") libdir;
  marker ← get (if s then "STLIB_MARKER" else "SHLIB_MARKER");
  marker ← py_lift (as_str marker);
  lib ← format_env (if s then "STLIB_ST" else "LIB_ST") ("ns3-" +:+ name);
  mret [path; marker; lib].

Fixpoint concat_deps (f : string → py (mstate E) (list string)) (deps : list string)
    : py (mstate E) (list string) :=
  match deps with
  | [] => mret []
  | d :: ds => l ← f d; r ← concat_deps f ds; mret (l ++ r)
  end.

Definition dep_cflags (dep : string) : py (mstate E) (list string) :=
  c ← _cflags dep; cxx ← _cxxflags dep; d ← _defines dep; i ← _includes dep;
  mret (c ++ cxx ++ d ++ i).

Definition pc_text (prefix name : string) (libs cflags : list string) : string :=
  nl +:+ "prefix=" +:+ prefix +:+ nl +:+
  "libdir=" +:+ path_join prefix "lib" +:+ nl +:+
  "includedir=" +:+ path_join prefix "include" +:+ nl +:+ nl +:+
  "Name: libns3-" +:+ name +:+ nl +:+
  "Description: ns-3 module " +:+ name +:+ nl +:+
  "Version: devel" +:+ nl +:+
  "Libs: " +:+ join " " libs +:+ nl +:+
  "Cflags: " +:+ join " " cflags +:+ nl +:+ nl.

(** the text of the file *)
Definition _generate_pcfile (name : string) (uses : list string) (prefix : string)
    : py (mstate E) string :=
  self ← _self_lib name "${libdir}";
  libs ← concat_deps _lib uses;
  incl ← format_env "CPPPATH_ST" "${includedir}";
  cflags ← concat_deps dep_cflags uses;
  mret (pc_text prefix name (self ++ libs) (incl :: cflags)).

Definition _build_pkgconfig (name : string) (uses : list string) : py (mstate E) unit :=
  emit (SetGroup "ns3modulebuild") ;;
  suffix ← get "LIB_SUFFIX";
  let target := path_joins "lib" ["pkgconfig"; "libns3-dev-" +:+ name +:+ "-" +:+
                                  format_val suffix +:+ ".pc"] in
  emit (PkgConfigRule name uses target) ;;
  emit (Install (path_joins "${PREFIX}" ["lib"; "pkgconfig"]) [target]).
End build.
End Build.

(** ** The class [Module] *)
Module Modules.
Import Env Build.

Record ns3_module := mk_module {
  source_dirs : list string; name : string; needed_ok : bool
}.

Section modules.
  Context {E : Type} `{WafEnv E}.
  Variable out_dir path_from cwd machine : string.
  Variable sniff_features : list string → string → val.

(** [Module.__init__] *)
Definition create_module (n : string) (kw : kwargs) : py (mstate E) ns3_module :=
  dirs ← py_lift (_dirs (kw_get kw "source"));
  needed ← py_lift (kw_list kw "needed");
  ok ← modules_found needed;
  if (ok : bool) then
    kw ← py_lift (kw_extend kw "use" (modules_uselib needed));
    _build_library out_dir path_from cwd machine sniff_features n kw ;;
    _build_headers out_dir path_from cwd n (kw_get kw "headers") ;;
    uses ← py_lift (kw_list kw "use");
    _build_pkgconfig n uses ;;
    found ← get_list "NS3_MODULES_FOUND";
    put "NS3_MODULES_FOUND" (VList (found ++ [n])) ;;
    mret {| source_dirs := dirs; name := n; needed_ok := true |}
  else mret {| source_dirs := dirs; name := n; needed_ok := false |}.

(** a program outside of bin_dce can be run; [mark] when the generator is marked as a program *)
Definition register_program (mark : bool) (kw : kwargs) : py (mstate E) unit :=
  v ← py_lift (kw_item kw "target");
  target ← py_lift (as_str v);
  if py_in "bin_dce" target then mret ()
  else
    (if mark then emit (IsProgram target) else mret ()) ;;
    append "NS3_RUNNABLE_PROGRAMS" (basename target).

(** the library of another module is linked as a whole in a static build *)
Definition skipped_use (module : string) : bool :=
  let m := lower module in
  py_in "dce" m || py_in "netlink" m || py_in "header" m || py_in "library" m.
Fixpoint static_linkflags (uses : list string) (kw : kwargs) : py (mstate E) kwargs :=
  match uses with
  | [] => mret kw
  | m :: ms =>
      kw ← py_lift (kw_extend kw "linkflags" []);
      if skipped_use m then static_linkflags ms kw
      else
        v ← get ("STLIB_ST_" +:+ upper m);
        flags ← py_lift (as_iter v);
        kw ← py_lift (kw_extend kw "linkflags"
                        (["-ldl"; "-Wl,--whole-archive,-Bstatic"] ++ flags));
        static_linkflags ms kw
  end.

Definition with_features (kw : kwargs) : kwargs :=
  match dict_get kw "features" with
  | Some _ => kw
  | None => dict_set kw "features" (Some (VStr "cxx cxxprogram"))
  end.

(** the conditions the methods share: the modules needed, without the module itself *)
Definition external (m : ns3_module) (needed : list string) : list string :=
  List.filter (λ i, negb (i =? name m)%string) needed.

Definition add_example (m : ns3_module) (needed : list string) (kw : kwargs)
    : py (mstate E) unit :=
  if negb (needed_ok m) then mret ()
  else
    examples ← get "NS3_ENABLE_EXAMPLES";
    if negb (val_true examples) then mret ()
    else
      ok ← modules_found (external m needed);
      if negb (ok : bool) then mret ()
      else
        kw ← py_lift (kw_extend kw "use" (modules_uselib needed));
        static ← get "NS3_ENABLE_STATIC";
        uses ← py_lift (kw_list kw "use");
        kw ← (if val_true static then static_linkflags uses kw else mret kw);
        let kw := with_features kw in
        emit (Generator kw) ;;
        register_program true kw.

Definition add_runner_test (m : ns3_module) (needed : list string) (test_name : option string)
    (kw : kwargs) : py (mstate E) unit :=
  let target := name m +:+ "-test" +:+
                match test_name with Some t => "-" +:+ t | None => EmptyString end in
  let kw := dict_set kw "target" (Some (VStr target)) in
  kw ← py_lift (kw_extend kw "use" (modules_uselib needed));
  _build_library out_dir path_from cwd machine sniff_features target kw ;;
  rel ← py_lift (out_relpath out_dir path_from cwd);
  append "NS3_ENABLED_MODULE_TEST_LIBRARIES" (rel +:+ "/lib/ns3-" +:+ target) ;;
  register_program false kw.

(** the objects of all sources but the last, and their names *)
Definition test_define (src : string) : string :=
  "NS_TEST_SOURCEDIR=" +:+ dirname (path_join path_from src).
Definition object_name (src : string) : string := src +:+ "_object".
Fixpoint add_objects (kw : kwargs) (srcs : list string) : py (mstate E) unit :=
  match srcs with
  | [] => mret ()
  | src :: srcs =>
      let copy := kw_set_list kw "source" [src] in
      let copy := dict_set copy "target" (Some (VStr (object_name src))) in
      copy ← py_lift (kw_extend copy "defines" [test_define src]);
      emit (Objects copy) ;;
      add_objects kw srcs
  end.

Definition add_test (m : ns3_module) (needed : list string) (kw : kwargs) : py (mstate E) unit :=
  if negb (needed_ok m) then mret ()
  else
    tests ← get "NS3_ENABLE_TESTS";
    if negb (val_true tests) then log "Tests disabled"
    else
      ok ← modules_found (external m needed);
      if negb (ok : bool) then log "disabled because missing dependancy"
      else
        kw ← py_lift (kw_extend kw "use" (modules_uselib needed));
        kw ← py_lift (kw_extend kw "includes" (source_dirs m));
        v ← py_lift (kw_item kw "source");
        source ← py_lift (as_list v);
        let objects := removelast source in
        add_objects kw objects ;;
        kw ← py_lift (kw_extend kw "use" (object_name <$> objects));
        match last source with
        | None => py_raise IndexError
        | Some src =>
            let kw := kw_set_list kw "source" [src] in
            kw ← py_lift (kw_extend kw "defines" [test_define src]);
            let kw := dict_set kw "install_path" None in
            let kw := with_features kw in
            emit (Generator kw) ;;
            register_program true kw
        end.
End modules.
End Modules.

(** ** Facts *)
Module ModuleFacts.
Import Env Build Modules.
Create HintDb keepsdb.

Section facts.
  Context {E : Type} `{WafEnvLaws E}.
  Context (out_dir path_from cwd machine : string) (sniff : list string → string → val).

(** *** Actions that leave the environment alone *)
Definition keeps_env {A} (m : py (mstate E) A) : Prop := ∀ s r s', m s = (r, s') → env s' = env s.
Lemma keeps_bind {A B} (m : py (mstate E) A) (f : A → py (mstate E) B) :
  keeps_env m → (∀ a, keeps_env (f a)) → keeps_env (m ≫= f).
Proof.
  intros Hm Hf s r s'. cbv [mbind py_bind]. destruct (m s) as [[a|e] s1] eqn:Em.
  - intros Hr. rewrite (Hf a _ _ _ Hr). by eapply Hm.
  - intros [= <- <-]. by eapply Hm.
Qed.
Lemma keeps_ret {A} (a : A) : keeps_env (mret a).
Proof. by intros s r s' [= <- <-]. Qed.
Lemma keeps_lift {A} (r : result A) : keeps_env (py_lift r).
Proof. by intros s r' s' [= <- <-]. Qed.
Lemma keeps_read k : keeps_env (get k).
Proof. by intros s r s' [= <- <-]. Qed.
Lemma keeps_emit ev : keeps_env (emit ev).
Proof. by intros s r s' [= <- <-]. Qed.
Lemma keeps_log m : keeps_env (log m).
Proof. by intros s r s' [= <- <-]. Qed.
#[local] Hint Resolve keeps_ret keeps_lift keeps_read keeps_emit keeps_log : keepsdb.

Ltac keeps_step :=
  repeat first
    [ progress auto with keepsdb
    | apply keeps_bind; [|intros ?]
    | match goal with |- keeps_env (match ?x with _ => _ end) => destruct x end
    | match goal with |- keeps_env (let '(_, _) := ?x in _) => destruct x end ].

Lemma keeps_c_libname n : keeps_env (_c_libname n).
Proof. unfold _c_libname, format_env. keeps_step. Qed.
Lemma keeps_library_flags n : keeps_env (library_flags machine n).
Proof. unfold library_flags. pose proof keeps_c_libname. keeps_step. Qed.
Lemma keeps_build_library n kw : keeps_env (_build_library out_dir path_from cwd machine sniff n kw).
Proof. unfold _build_library. pose proof keeps_library_flags. keeps_step. Qed.
Lemma keeps_build_headers n h : keeps_env (_build_headers out_dir path_from cwd n h).
Proof. unfold _build_headers. keeps_step. Qed.
Lemma keeps_build_pkgconfig n u : keeps_env (_build_pkgconfig n u).
Proof. unfold _build_pkgconfig. keeps_step. Qed.

(** *** The modules found *)
Definition all_in (needed found : list string) : bool :=
  forallb (λ m, bool_decide (m ∈ found)) needed.

Lemma modules_found_spec needed found s :
  env_get (env s) "NS3_MODULES_FOUND" = VList found →
  modules_found needed s = (Ok (all_in needed found), s).
Proof.
  intros Hf. induction needed as [|m ms IH]; [done|]. cbn [modules_found all_in forallb].
  cbv [mbind py_bind get py_lift]. rewrite Hf. cbn [val_in].
  case_bool_decide; [by rewrite IH|done].
Qed.

Lemma create_module_found n kw s s' m found needed :
  env_get (env s) "NS3_MODULES_FOUND" = VList found →
  kw_list kw "needed" = Ok needed →
  create_module out_dir path_from cwd machine sniff n kw s = (Ok m, s') →
  name m = n ∧ needed_ok m = all_in needed found ∧
  env_get (env s') "NS3_MODULES_FOUND" =
    VList (found ++ if needed_ok m then [n] else []) ∧
  (needed_ok m = false → s' = s).
Proof.
  intros Hf Hn Hrun. unfold create_module in Hrun.
  apply py_bind_Ok in Hrun as (dirs & s1 & Hd & Hrun). injection Hd as _ <-.
  rewrite Hn in Hrun. apply py_bind_Ok in Hrun as (? & s1 & [= <- <-] & Hrun).
  apply py_bind_Ok in Hrun as (ok & s1 & Hok & Hrun).
  rewrite (modules_found_spec needed found s Hf) in Hok. injection Hok as <- <-.
  destruct (all_in needed found) eqn:Ea.
  2:{ injection Hrun as <- <-. cbn. by rewrite app_nil_r. }
  apply py_bind_Ok in Hrun as (kw' & s1 & Hkw & Hrun). injection Hkw as _ <-.
  apply py_bind_Ok in Hrun as (u1 & s1 & H1%keeps_build_library & Hrun).
  apply py_bind_Ok in Hrun as (u2 & s2 & H2%keeps_build_headers & Hrun).
  apply py_bind_Ok in Hrun as (uses & s3 & H3 & Hrun). injection H3 as _ <-.
  apply py_bind_Ok in Hrun as (u3 & s3 & H3%keeps_build_pkgconfig & Hrun).
  assert (He : env s3 = env s) by congruence.
  unfold get_list in Hrun. apply py_bind_Ok in Hrun as (l & s4 & Hl & Hrun).
  apply py_bind_Ok in Hl as (v & s5 & [= <- <-] & Hl). rewrite He, Hf in Hl.
  injection Hl as <- <-. apply py_bind_Ok in Hrun as (u & s6 & [= _ <-] & Hrun).
  injection Hrun as <- <-. cbn. by rewrite env_get_set, decide_True.
Qed.

(** the modules of a build, one after the other *)
Fixpoint create_all (l : list (string * kwargs)) : py (mstate E) (list ns3_module) :=
  match l with
  | [] => mret []
  | (n, kw) :: l =>
      m ← create_module out_dir path_from cwd machine sniff n kw;
      ms ← create_all l;
      mret (m :: ms)
  end.

(** the names of the modules that are built *)
Definition built (ms : list ns3_module) : list string := name <$> List.filter needed_ok ms.

Lemma create_all_cons n kw l s s' ms :
  create_all ((n, kw) :: l) s = (Ok ms, s') →
  ∃ m ms' s1, ms = m :: ms' ∧
    create_module out_dir path_from cwd machine sniff n kw s = (Ok m, s1) ∧
    create_all l s1 = (Ok ms', s').
Proof.
  cbn [create_all]. intros H1. apply py_bind_Ok in H1 as (m & s1 & Hm & H1).
  apply py_bind_Ok in H1 as (ms' & s2 & Hms & [= <- <-]). by exists m, ms', s1.
Qed.

(** a module can be created: what it needs is given as a list *)
Definition has_needs (x : string * kwargs) : Prop := ∃ needed, kw_list x.2 "needed" = Ok needed.

Lemma create_all_spec l : Forall has_needs l → ∀ s s' ms base,
  env_get (env s) "NS3_MODULES_FOUND" = VList base → create_all l s = (Ok ms, s') →
  env_get (env s') "NS3_MODULES_FOUND" = VList (base ++ built ms) ∧
  Forall2 (λ x m, name m = x.1) l ms ∧
  ∀ i x m needed, l !! i = Some x → ms !! i = Some m → kw_list x.2 "needed" = Ok needed →
    needed_ok m = all_in needed (base ++ built (take i ms)).
Proof.
  induction 1 as [|[n kw] l [needed Hn] _ IH]; intros s s' ms base Hf Hrun.
  { injection Hrun as <- <-. cbn. rewrite app_nil_r. by repeat split. }
  cbn [snd] in Hn.
  apply create_all_cons in Hrun as (m & ms' & s1 & -> & Hm & Hms).
  destruct (create_module_found n kw s s1 m base needed Hf Hn Hm) as (Hname & Hok & Hf1 & _).
  destruct (IH s1 s' ms' _ Hf1 Hms) as (Hf' & Hall & Hneeds).
  assert (Hb : ∀ l0, (base ++ if needed_ok m then [n] else []) ++ built l0 = base ++ built (m :: l0)).
  { intros l0. rewrite <- app_assoc. unfold built. cbn [List.filter].
    destruct (needed_ok m); cbn; by rewrite ?Hname. }
  rewrite Hb in Hf'. split; [done|]. split; [by constructor|].
  intros [|i] x m0 needed0; cbn [lookup list_lookup take].
  - intros [= <-] [= <-] Hk. cbn [snd] in Hk. rewrite Hn in Hk. injection Hk as <-.
    by rewrite Hok, app_nil_r.
  - intros Hx Hm0 Hk. rewrite (Hneeds i x m0 needed0) by done. by rewrite Hb.
Qed.

(** C22. Creating the modules of a build one after the other adds to the modules found exactly the
    names of those that are built, in order; a module is built exactly when every module it needs
    was found before the build or was built before it. *)
Theorem modules_in_dependency_order (l : list (string * kwargs)) (s s' : mstate E)
    (ms : list ns3_module) (base : list string)
    (Hneeds : Forall has_needs l)
    (Hbase : env_get (env s) "NS3_MODULES_FOUND" = VList base)
    (Hrun : create_all l s = (Ok ms, s')) :
  env_get (env s') "NS3_MODULES_FOUND" = VList (base ++ built ms) ∧
  Forall2 (λ x m, name m = x.1) l ms ∧
  ∀ i x m needed, l !! i = Some x → ms !! i = Some m → kw_list x.2 "needed" = Ok needed →
    (needed_ok m = true ↔ ∀ d, d ∈ needed → d ∈ base ++ built (take i ms)).
Proof.
  destruct (create_all_spec l Hneeds s s' ms base Hbase Hrun) as (H1 & H2 & H3).
  split; [done|]. split; [done|]. intros i x m needed Hx Hm Hk. rewrite (H3 i x m needed Hx Hm Hk).
  unfold all_in. rewrite forallb_forall. split.
  - intros Hall d Hd%list_elem_of_In. by apply Hall in Hd as ?%bool_decide_eq_true.
  - intros Hall d Hd%list_elem_of_In. by apply bool_decide_eq_true, Hall.
Qed.

(** *** Examples and tests *)
Lemma kw_extend_other kw k l kw' k' :
  kw_extend kw k l = Ok kw' → k' ≠ k → dict_get kw' k' = dict_get kw k'.
Proof.
  intros Hk Hne. apply result_bind_Ok in Hk as (l0 & _ & [= <-]). by apply dict_get_set_ne.
Qed.
Lemma kw_extend_same kw k l kw' :
  kw_extend kw k l = Ok kw' →
  ∃ l0, kw_list kw k = Ok l0 ∧ dict_get kw' k = Some (Some (VList (l0 ++ l))).
Proof.
  intros Hk. apply result_bind_Ok in Hk as (l0 & Hl & [= <-]). exists l0.
  split; [done|]. by apply dict_get_set_eq.
Qed.

Lemma static_linkflags_spec uses kw s kw' s' :
  static_linkflags uses kw s = (Ok kw', s') →
  s' = s ∧ ∀ k, k ≠ "linkflags" → dict_get kw' k = dict_get kw k.
Proof.
  revert kw s. induction uses as [|u us IH]; intros kw s Hrun; [by injection Hrun as <- <-|].
  cbn [static_linkflags] in Hrun.
  apply py_bind_Ok in Hrun as (kw1 & s1 & Hk & Hrun). injection Hk as Hk <-.
  destruct (skipped_use u).
  - destruct (IH _ _ Hrun) as [-> Hd]. split; [done|]. intros k Hne. rewrite Hd by done.
    by eapply kw_extend_other.
  - apply py_bind_Ok in Hrun as (v & s1 & [= <- <-] & Hrun).
    apply py_bind_Ok in Hrun as (fl & s1 & Hfl & Hrun). injection Hfl as _ <-.
    apply py_bind_Ok in Hrun as (kw2 & s1 & Hk2 & Hrun). injection Hk2 as Hk2 <-.
    destruct (IH _ _ Hrun) as [-> Hd]. split; [done|]. intros k Hne. rewrite Hd by done.
    rewrite (kw_extend_other _ _ _ _ _ Hk2) by done. by eapply kw_extend_other.
Qed.

Lemma with_features_other kw k : k ≠ "features" → dict_get (with_features kw) k = dict_get kw k.
Proof. intros Hne. unfold with_features. case_match; [done|]. by apply dict_get_set_ne. Qed.

(** what registering a program of this target adds *)
Definition program_events (target : string) : list event :=
  if py_in "bin_dce" target then [] else [IsProgram target].
Definition program_env (target : string) (e : E) : E :=
  if py_in "bin_dce" target then e
  else env_append e "NS3_RUNNABLE_PROGRAMS" [basename target].

Lemma emit_program kw s target :
  dict_get kw "target" = Some (Some (VStr target)) →
  ∃ s', (emit (Generator kw) ;; register_program true kw) s = (Ok (), s') ∧
    events s' = events s ++ Generator kw :: program_events target ∧
    env s' = program_env target (env s) ∧ logged s' = logged s.
Proof.
  intros Ht. unfold register_program, kw_item, program_events, program_env.
  cbv [mbind py_bind emit py_modify py_lift]. rewrite Ht. cbn [as_str].
  destruct (py_in "bin_dce" target); eexists; (split; [reflexivity|]); cbn;
    by rewrite <- ?app_assoc.
Qed.

(** the condition that [add_example] and [add_test] share *)
Definition wanted (m : ns3_module) (enabled : string) (needed found : list string) (e : E) : bool :=
  needed_ok m && val_true (env_get e enabled) && all_in (external m needed) found.

(** An example is given to the build exactly when its module is built, examples are enabled
    and the other modules it needs have been found; then there is one generator more, with the
    target asked for and the libraries of the needed modules behind the given ones, and it is
    recorded as a program that can be run exactly when the target is not in a bin_dce directory.
    Otherwise nothing changes. *)
Theorem add_example_gate (m : ns3_module) (needed : list string) (kw : kwargs)
    (s s' : mstate E) (u : unit) (found : list string) (target : string)
    (Hfound : env_get (env s) "NS3_MODULES_FOUND" = VList found)
    (Htarget : dict_get kw "target" = Some (Some (VStr target)))
    (Hrun : add_example m needed kw s = (Ok u, s')) :
  if wanted m "NS3_ENABLE_EXAMPLES" needed found (env s) then
    ∃ kw' uses, kw_list kw "use" = Ok uses ∧
      dict_get kw' "use" = Some (Some (VList (uses ++ modules_uselib needed))) ∧
      dict_get kw' "target" = Some (Some (VStr target)) ∧
      events s' = events s ++ Generator kw' :: program_events target ∧
      env s' = program_env target (env s)
  else s' = s.
Proof.
  unfold add_example, wanted in *. destruct (needed_ok m); cbn [negb andb] in *;
    [|by injection Hrun as _ <-].
  apply py_bind_Ok in Hrun as (ex & s1 & [= <- <-] & Hrun).
  destruct (val_true (env_get (env s) "NS3_ENABLE_EXAMPLES")); cbn [negb andb] in *;
    [|by injection Hrun as _ <-].
  apply py_bind_Ok in Hrun as (ok & s1 & Hok & Hrun).
  rewrite (modules_found_spec _ found s Hfound) in Hok. injection Hok as <- <-.
  destruct (all_in (external m needed) found); cbn [negb] in *; [|by injection Hrun as _ <-].
  apply py_bind_Ok in Hrun as (kw1 & s1 & Hk & Hrun). injection Hk as Hk <-.
  apply py_bind_Ok in Hrun as (st & s1 & [= <- <-] & Hrun).
  apply py_bind_Ok in Hrun as (us & s1 & Hus & Hrun). injection Hus as _ <-.
  apply py_bind_Ok in Hrun as (kw2 & s1 & Hk2 & Hrun).
  assert (s1 = s ∧ ∀ k, k ≠ "linkflags" → dict_get kw2 k = dict_get kw1 k) as [-> Hd].
  { destruct (val_true _); [by eapply static_linkflags_spec|by injection Hk2 as <- <-]. }
  destruct (kw_extend_same _ _ _ _ Hk) as (uses & Huses & Hu).
  assert (Ht : dict_get (with_features kw2) "target" = Some (Some (VStr target))).
  { rewrite with_features_other, Hd by done. by rewrite (kw_extend_other _ _ _ _ _ Hk). }
  exists (with_features kw2), uses. split; [done|].
  rewrite with_features_other, Hd by done. split; [done|]. split; [done|].
  destruct (emit_program (with_features kw2) s target Ht) as (s2 & E2 & Hev & Hen & _).
  rewrite E2 in Hrun. by injection Hrun as _ <-.
Qed.

(** the objects of a test: one for each source, with its own source and target *)
Definition object_of (src : string) (ev : event) : Prop :=
  ∃ kw, ev = Objects kw ∧ dict_get kw "source" = Some (Some (VList [src])) ∧
        dict_get kw "target" = Some (Some (VStr (object_name src))).

Lemma add_objects_spec kw srcs (s : mstate E) u s' :
  add_objects path_from kw srcs s = (Ok u, s') →
  ∃ objs, Forall2 object_of srcs objs ∧ events s' = events s ++ objs ∧ env s' = env s.
Proof.
  revert s. induction srcs as [|src srcs IH]; intros s Hrun.
  { injection Hrun as _ <-. exists []. by rewrite app_nil_r. }
  cbn [add_objects] in Hrun. apply py_bind_Ok in Hrun as (copy & s1 & Hk & Hrun).
  injection Hk as Hk <-. apply py_bind_Ok in Hrun as (u1 & s1 & [= _ <-] & Hrun).
  destruct (IH _ Hrun) as (objs & Ho & Hev & Hen). exists (Objects copy :: objs). split.
  - constructor; [|done]. exists copy. split; [done|].
    rewrite !(kw_extend_other _ _ _ _ _ Hk) by done.
    rewrite dict_get_set_ne, dict_get_set_eq by done. unfold kw_set_list.
    by rewrite dict_get_set_eq.
  - rewrite Hev, Hen. cbn. by rewrite <- app_assoc.
Qed.

Lemma last_removelast {A} (l : list A) x : last l = Some x → l = removelast l ++ [x].
Proof.
  induction l as [|a [|b l] IH]; [done|by intros [= ->]|].
  intros Hl. cbn [removelast app]. f_equal. by apply IH.
Qed.

(** the part of [add_test] behind its conditions *)
Lemma test_generator kw target objects src (s : mstate E) u s' :
  dict_get kw "target" = Some (Some (VStr target)) →
  (kw1 ← py_lift (kw_extend kw "use" (object_name <$> objects));
   let kw2 := kw_set_list kw1 "source" [src] in
   kw3 ← py_lift (kw_extend kw2 "defines" [test_define path_from src]);
   let kw4 := with_features (dict_set kw3 "install_path" None) in
   emit (Generator kw4) ;; register_program true kw4) s = (Ok u, s') →
  ∃ kw' uses, kw_list kw "use" = Ok uses ∧
    dict_get kw' "use" = Some (Some (VList (uses ++ (object_name <$> objects)))) ∧
    dict_get kw' "source" = Some (Some (VList [src])) ∧
    dict_get kw' "target" = Some (Some (VStr target)) ∧
    events s' = events s ++ Generator kw' :: program_events target ∧
    env s' = program_env target (env s).
Proof.
  intros Ht Hrun. apply py_bind_Ok in Hrun as (kw1 & s1 & Hk1 & Hrun). injection Hk1 as Hk1 <-.
  apply py_bind_Ok in Hrun as (kw3 & s1 & Hk3 & Hrun). injection Hk3 as Hk3 <-.
  set (kw4 := with_features (dict_set kw3 "install_path" None)) in *.
  destruct (kw_extend_same _ _ _ _ Hk1) as (uses & Huses & Hu). exists kw4, uses.
  assert (Hg : ∀ k, k ≠ "features" → k ≠ "install_path" → k ≠ "defines" → k ≠ "source" →
                 dict_get kw4 k = dict_get kw1 k).
  { intros k H1 H2 H3 H4. unfold kw4. rewrite with_features_other, dict_get_set_ne by done.
    rewrite (kw_extend_other _ _ _ _ _ Hk3) by done. by apply dict_get_set_ne. }
  assert (Ht4 : dict_get kw4 "target" = Some (Some (VStr target))).
  { rewrite Hg by done. by rewrite (kw_extend_other _ _ _ _ _ Hk1). }
  split; [done|]. rewrite Hg by done. split; [done|]. split.
  { unfold kw4. rewrite with_features_other, dict_get_set_ne by done.
    rewrite (kw_extend_other _ _ _ _ _ Hk3) by done. by apply dict_get_set_eq. }
  split; [done|]. destruct (emit_program kw4 s target Ht4) as (s2 & E2 & Hev & Hen & _).
  assert (E3 : (emit (Generator kw4) ;; register_program true kw4) s = (Ok u, s')) by exact Hrun.
  rewrite E2 in E3. by injection E3 as _ <-.
Qed.

(** A test is given to the build exactly when its module is built, tests are enabled and the
    other modules it needs have been found; then every source but the last becomes an object of its
    own, and one generator compiles the last source and uses the objects and the needed modules.
    Otherwise nothing is given to the build. *)
Theorem add_test_gate (m : ns3_module) (needed : list string) (kw : kwargs)
    (s s' : mstate E) (u : unit) (found : list string) (target : string)
    (Hfound : env_get (env s) "NS3_MODULES_FOUND" = VList found)
    (Htarget : dict_get kw "target" = Some (Some (VStr target)))
    (Hrun : add_test path_from m needed kw s = (Ok u, s')) :
  if wanted m "NS3_ENABLE_TESTS" needed found (env s) then
    ∃ srcs src objs kw' uses,
      dict_get kw "source" = Some (Some (VList (srcs ++ [src]))) ∧
      kw_list kw "use" = Ok uses ∧ Forall2 object_of srcs objs ∧
      dict_get kw' "source" = Some (Some (VList [src])) ∧
      dict_get kw' "use" =
        Some (Some (VList ((uses ++ modules_uselib needed) ++ (object_name <$> srcs)))) ∧
      dict_get kw' "target" = Some (Some (VStr target)) ∧
      events s' = events s ++ objs ++ Generator kw' :: program_events target ∧
      env s' = program_env target (env s)
  else env s' = env s ∧ events s' = events s.
Proof.
  unfold add_test, wanted in *. destruct (needed_ok m); cbn [negb andb] in *;
    [|by injection Hrun as _ <-].
  apply py_bind_Ok in Hrun as (ex & s1 & [= <- <-] & Hrun).
  destruct (val_true (env_get (env s) "NS3_ENABLE_TESTS")); cbn [negb andb] in *;
    [|by injection Hrun as _ <-].
  apply py_bind_Ok in Hrun as (ok & s1 & Hok & Hrun).
  rewrite (modules_found_spec _ found s Hfound) in Hok. injection Hok as <- <-.
  destruct (all_in (external m needed) found); cbn [negb] in *; [|by injection Hrun as _ <-].
  apply py_bind_Ok in Hrun as (kw1 & s1 & Hk1 & Hrun). injection Hk1 as Hk1 <-.
  apply py_bind_Ok in Hrun as (kw2 & s1 & Hk2 & Hrun). injection Hk2 as Hk2 <-.
  apply py_bind_Ok in Hrun as (v & s1 & Hv & Hrun). injection Hv as Hv <-.
  apply py_bind_Ok in Hrun as (source & s1 & Hs & Hrun). injection Hs as Hs <-.
  apply py_bind_Ok in Hrun as (u1 & s1 & Hobj & Hrun).
  destruct (add_objects_spec _ _ _ _ _ Hobj) as (objs & Ho & Hev1 & Hen1).
  destruct (kw_extend_same _ _ _ _ Hk1) as (uses & Huses & Hu).
  assert (Hg : ∀ k, k ≠ "use" → k ≠ "includes" → dict_get kw2 k = dict_get kw k).
  { intros k H1 H2. by rewrite (kw_extend_other _ _ _ _ _ Hk2), (kw_extend_other _ _ _ _ _ Hk1). }
  destruct (last source) as [src|] eqn:Hlast;
    [|by apply py_bind_Ok in Hrun as (? & ? & _ & [=])].
  apply (test_generator kw2 target) in Hrun as (kw' & uses' & Hu' & H1 & H2 & H3 & H4 & H5);
    [|by rewrite Hg].
  exists (removelast source), src, objs, kw', uses. rewrite <- (last_removelast source) by done.
  assert (uses' = uses ++ modules_uselib needed) as ->.
  { unfold kw_list in Hu'. rewrite (kw_extend_other _ _ _ _ _ Hk2), Hu in Hu' by done.
    by injection Hu' as <-. }
  split_and!; try done; [|by rewrite H4, Hev1, <- app_assoc|by rewrite H5, Hen1].
  unfold kw_item in Hv. rewrite Hg in Hv by done.
  destruct (dict_get kw "source") as [[v0|]|]; try done. injection Hv as ->.
  destruct v; try done. by injection Hs as ->.
Qed.
End facts.
End ModuleFacts.

(** ** Concrete builds *)
Module ModuleExamples.
Import Env Build Modules ModuleFacts CheckExamples.

Definition sample_env : gmap string val :=
  <["NS3_MODULES_FOUND" := VList ["core"]]> (<["LIB_SUFFIX" := VStr "debug"]>
    (<["NS3_ENABLE_EXAMPLES" := VBool true]> (<["NS3_ENABLE_TESTS" := VBool true]> ∅))).
Definition sample_state : mstate (gmap string val) :=
  {| env := sample_env; events := []; logged := [] |}.
Definition sample_sniff (_ : list string) (_ : string) : val := VStr "cxx".
Definition needs (l : list string) : kwargs :=
  [("source", Some (VList ["model/x.cc"])); ("needed", Some (VList l))].

(** a needs core, b needs the later c, c needs a *)
Definition sample_modules : list (string * kwargs) :=
  [("a", needs ["core"]); ("b", needs ["c"]); ("c", needs ["a"])].
Definition sample_build : result (list ns3_module) * mstate (gmap string val) :=
  create_all "/w/build" "." "/w" "x86_64" sample_sniff sample_modules sample_state.

Lemma modules_in_dependency_order_witness :
  ∃ ms s', sample_build = (Ok ms, s') ∧
    env_get (env s') "NS3_MODULES_FOUND" = VList ["core"; "a"; "c"].
Proof.
  destruct sample_build as [r s'] eqn:Er.
  assert (Hr : ∃ ms, r = Ok ms ∧ built ms = ["a"; "c"]).
  { change r with ((r, s').1). rewrite <- Er. eexists. split; [by vm_compute|done]. }
  destruct Hr as (ms & -> & Hms). exists ms, s'. split; [reflexivity|].
  destruct (modules_in_dependency_order "/w/build" "." "/w" "x86_64" sample_sniff sample_modules
              sample_state s' ms ["core"]) as (H1 & _ & _);
    [repeat constructor; by eexists|by vm_compute|exact Er|].
  by rewrite H1, Hms.
Defined.

Definition sample_module : ns3_module :=
  {| source_dirs := ["model"]; name := "a"; needed_ok := true |}.
Definition sample_kw : kwargs :=
  [("target", Some (VStr "bin/run")); ("source", Some (VList ["t/one.cc"; "t/two.cc"]))].

Lemma add_example_gate_witness :
  ∃ s', add_example sample_module ["a"; "core"] sample_kw sample_state = (Ok (), s') ∧
    env_get (env s') "NS3_RUNNABLE_PROGRAMS" = VList ["run"].
Proof.
  destruct (add_example sample_module ["a"; "core"] sample_kw sample_state) as [r s'] eqn:Er.
  assert (Hr : r = Ok ()) by (change r with ((r, s').1); rewrite <- Er; by vm_compute).
  subst r. exists s'. split; [reflexivity|].
  assert (Hs := add_example_gate sample_module ["a"; "core"] sample_kw sample_state s' () ["core"]
                  "bin/run" ltac:(by vm_compute) ltac:(done) Er).
  assert (Hw : wanted sample_module "NS3_ENABLE_EXAMPLES" ["a"; "core"] ["core"] (env sample_state)
               = true) by by vm_compute.
  rewrite Hw in Hs. destruct Hs as (kw' & uses & _ & _ & _ & _ & ->). by vm_compute.
Defined.

Lemma add_test_gate_witness :
  ∃ s' kw' obj, add_test "." sample_module ["core"] sample_kw sample_state = (Ok (), s') ∧
    events s' = [obj; Generator kw'; IsProgram "bin/run"] ∧ object_of "t/one.cc" obj.
Proof.
  destruct (add_test "." sample_module ["core"] sample_kw sample_state) as [r s'] eqn:Er.
  assert (Hr : r = Ok ()) by (change r with ((r, s').1); rewrite <- Er; by vm_compute).
  subst r. exists s'.
  assert (Hs := add_test_gate "." sample_module ["core"] sample_kw sample_state s' () ["core"]
                  "bin/run" ltac:(by vm_compute) ltac:(done) Er).
  assert (Hw : wanted sample_module "NS3_ENABLE_TESTS" ["core"] ["core"] (env sample_state)
               = true) by by vm_compute.
  rewrite Hw in Hs. destruct Hs as (srcs & src & objs & kw' & uses & Hsrc & _ & Ho & _ & _ & _ & Hev & _).
  assert (Hsp : srcs = ["t/one.cc"]).
  { injection Hsrc as Hsrc. apply (app_inj_tail srcs ["t/one.cc"] src "t/two.cc"). by symmetry. }
  subst srcs. inversion Ho as [|? obj ? objs' Hobj Hnil]; subst. inversion Hnil; subst.
  exists kw', obj. split; [reflexivity|]. split; [exact Hev|exact Hobj].
Defined.
End ModuleExamples.
