(* ===== verification/WafNode.v ===== *)
(** * Nodes of the build tree

    waf's nodes stand for files and directories of the source and the build tree.  The tools under
    waf-tools/ ask them for paths and for other nodes; this is the interface they use, and a small
    implementation of it. *)
From Stdlib Require Import Ascii String.
From stdpp Require Import base strings list.
From S2P Require Import Prelude PyStr.

Class WafNode (N : Type) := {
  abspath : N → string;
  srcpath : N → string;
  bldpath : N → string;
  get_bld : N → N;
  node_name : N → string;               (* [node.name] *)
  change_ext : N → string → N;
  find_resource : N → string → option N;
  find_or_declare : N → string → option N;
  find_dir : N → string → option N
}.

(** a tree with the given source files; every file can be declared, every directory exists *)
Record path_node := mk_path_node { in_build : bool; at_path : string }.

Definition source_files : list string := ["main.c"; "tool.py"; "notes.in"; "more.in"].

#[export] Instance path_node_waf : WafNode path_node := {
  abspath n := (if in_build n then "/top/build/" else "/top/") +:+ at_path n;
  srcpath n := at_path n;
  bldpath n := (if in_build n then EmptyString else "../") +:+ at_path n;
  get_bld n := mk_path_node true (at_path n);
  node_name n := at_path n;
  change_ext n e := mk_path_node true (str_take (String.length (at_path n) - 3) (at_path n) +:+ e);
  find_resource _ s :=
    if existsb (λ f, f =? s)%string source_files then Some (mk_path_node false s) else None;
  find_or_declare _ s := Some (mk_path_node true s);
  find_dir _ s := Some (mk_path_node false s)
}.
