(* ===== verification/Misc.v ===== *)
(** * misc.py: copying, substitution and the output of commands

    waf-tools/misc.py: the task generator methods that copy a file, that substitute the variables
    of a template, and that run a command with files as its arguments.  Nodes of the build tree are
    the interface [WafNode]; a method that changes the generator is an action of [py].  Dictionaries
    that tasks and generators share live in a store. *)
From Stdlib Require Import ZArith Lia Ascii String.
From stdpp Require Import base list strings sorting.
From S2P Require Import Prelude PyStr WUtils WafNode.
#[local] Open Scope Z_scope.

(** ** copy_attrs and copy_func *)
Module Copy.
Section attrs.
  (** the values of attributes: their truth, and the empty tuple *)
  Context {val : Type} (truth : val → bool) (empty_tuple : val).

(** the attributes of [dest]; [names] as [Utils.to_list] gives them *)
Fixpoint copy_attrs (orig dest : list (string * val)) (names : list string) (only_if_set : bool)
    : list (string * val) :=
  match names with
  | [] => dest
  | a :: names =>
      let u := default empty_tuple (dict_get orig a) in
      copy_attrs orig (if truth u || negb only_if_set then dict_set dest a u else dest)
        names only_if_set
  end.
End attrs.

Inductive fs_event := Copy2 (infile outfile : string) | Chmod (path : string) (mode : Z).

(** [chmod] 0 or None changes nothing; [copy2] tells whether the copy succeeds *)
Definition copy_func (copy2 : string → string → bool) (infile outfile : string) (chmod : Z)
    : py (list fs_event) Z :=
  py_modify (λ l, l ++ [Copy2 infile outfile]) ;;
  if copy2 infile outfile then
    (if chmod =? 0 then mret () else py_modify (λ l, l ++ [Chmod outfile chmod])) ;;
    mret 0
  else mret 1.

(** the functions attached to tasks *)
Inductive task_fun := CopyFunc | SubstFunc | OtherFun (name : string).

(** [tsk.fun(tsk)], where [call] is what calling a function gives *)
Definition action_process_file_func {A} (call : task_fun → result A) (fun_ : option task_fun)
    : result A :=
  match fun_ with
  | None => Raise (WafError "task must have a function attached to it for copy_func to work!")
  | Some f => call f
  end.
End Copy.

(** ** subst_func *)
Module Subst.

(** the matches of the expression that finds names between two at signs, and the text between *)
Inductive piece := PText (t : string) | PVar (name : string).

(** outside a candidate, or inside one with the word read so far *)
Inductive m4_state := Out | In (w : string).

Definition at_sign : ascii := "@"%char.
Definition char_text (c : ascii) : string := String c EmptyString.

Fixpoint m4_scan (st : m4_state) (s : string) : list piece :=
  match s with
  | EmptyString => match st with Out => [] | In w => [PText (String at_sign w)] end
  | String c s =>
      match st with
      | Out => if Ascii.eqb c at_sign then m4_scan (In EmptyString) s
               else PText (char_text c) :: m4_scan Out s
      | In w =>
          if is_word c then m4_scan (In (w +:+ char_text c)) s
          else if Ascii.eqb c at_sign then
            if truthy w then PVar w :: m4_scan Out s
            else PText (char_text at_sign) :: m4_scan (In EmptyString) s
          else PText (String at_sign w) :: PText (char_text c) :: m4_scan Out s
      end
  end.

(** [m4_re.sub] with the conversion of the name, and [m4_re.findall] *)
Definition sub_piece (p : piece) : string :=
  match p with PText t => t | PVar w => "%(" +:+ w +:+ ")s" end.
Definition m4_sub (code : string) : string := sconcat (sub_piece <$> m4_scan Out code).
Definition piece_name (p : piece) : option string :=
  match p with PVar w => Some w | PText _ => None end.
Definition m4_findall (code : string) : list string := omap piece_name (m4_scan Out code).

(** [s % di] with the conversions of two percent signs and of a key *)
Inductive fmt_state := FText | FPercent | FKey (k : string) | FConv (v : string).
Fixpoint fmt (di : list (string * string)) (st : fmt_state) (s : string) : result string :=
  match s with
  | EmptyString =>
      match st with
      | FText => Ok EmptyString
      | FKey _ => Raise (ValueError "incomplete format key")
      | _ => Raise (ValueError "incomplete format")
      end
  | String c s =>
      match st with
      | FText => if Ascii.eqb c "%" then fmt di FPercent s
                 else r ← fmt di FText s; Ok (String c r)
      | FPercent =>
          if Ascii.eqb c "%" then r ← fmt di FText s; Ok (String "%" r)
          else if Ascii.eqb c "(" then fmt di (FKey EmptyString) s
          else Raise (ValueError "unsupported format character")
      | FKey k =>
          if Ascii.eqb c ")" then
            match dict_get di k with Some v => fmt di (FConv v) s | None => Raise KeyError end
          else fmt di (FKey (k +:+ char_text c)) s
      | FConv v =>
          if Ascii.eqb c "s" then r ← fmt di FText s; Ok (v +:+ r)
          else Raise (ValueError "unsupported format character")
      end
  end.

Definition dict := list (string * string).

(** the dictionaries of tasks and generators, shared by reference, and the files written *)
Record subst_state := mk_subst { dicts : list dict; written : list (string * string) }.

(** a task: the text and the name of its files, where its dictionary and the one of its generator
    are (None when the attribute is missing), and [env.get_flat] *)
Record subst_task := mk_subst_task {
  s_code : string;
  s_output : string;
  s_dict : option nat;
  s_gen_dict : option nat;
  s_flat : string → string
}.

Definition load_dict (st : subst_state) (l : option nat) : dict :=
  match l with Some i => default [] (dicts st !! i) | None => [] end.
Definition nonempty (d : dict) : bool := match d with [] => false | _ => true end.

(** [getattr(tsk, 'dict', {}) or getattr(tsk.generator, 'dict', {})] *)
Definition choose_dict (t : subst_task) (st : subst_state) : option nat :=
  if nonempty (load_dict st (s_dict t)) then s_dict t else s_gen_dict t.

Definition flat_value (flat : string → string) (i : string) : string :=
  if truthy (flat i) then flat i else flat (upper i).
Definition fill (flat : string → string) (names : list string) (di : dict) : dict :=
  foldl (λ di i, dict_set di i (flat_value flat i)) di names.

Definition store_dict (l : option nat) (d : dict) : py subst_state unit :=
  match l with
  | Some i => py_modify (λ st, mk_subst (<[i := d]> (dicts st)) (written st))
  | None => mret ()
  end.

Definition subst_func (t : subst_task) : py subst_state unit :=
  let code := py_replace "%" "%%" (s_code t) in
  let s := m4_sub code in
  st ← py_get;
  let l := choose_dict t st in
  let di := load_dict st l in
  di ← (if nonempty di then mret di
        else
          let di := fill (s_flat t) (m4_findall code) di in
          store_dict l di ;; mret di);
  text ← py_lift (fmt di FText s);
  py_modify (λ st, mk_subst (dicts st) (written st ++ [(s_output t, text)])).
End Subst.

(** ** The task generator methods *)
Module TaskGen.
Import Copy Subst.
Section taskgen.
  Context {N : Type} `{WafNode N}.

(** a task of the build; [t_dict] is where its dictionary is *)
Record task := mk_task {
  t_inputs : list N;
  t_outputs : list N;
  t_fun : option task_fun;
  t_chmod : Z;
  t_dict : option nat;
  t_dep_vars : list string;
  t_install_path : option string
}.

(** the dictionary of a generator: a shared one, or a configuration set that can be merged *)
Inductive dict_ref := DictAt (i : nat) | Mergeable (d : dict).

(** a task generator; an attribute that may be missing is an option *)
Record gen := mk_gen {
  g_source : list string;                 (* [self.to_list(self.source)] *)
  g_target : string;
  g_path : N;
  g_fun : option (option task_fun);
  g_chmod : option Z;
  g_install_path : option string;
  g_default_install_path : option Z;
  g_meths : list string;
  g_dict : option dict_ref;
  g_dict_hash : string;                   (* [self.env['DICT_HASH']], empty when it is not set *)
  g_has_env : bool;                       (* whether a created task has an environment *)
  g_tasks : list task
}.

(** the generator and the store of the dictionaries *)
Record gen_state := mk_gen_state { gs : gen; gs_dicts : list dict }.

Definition upd (f : gen → gen) : py gen_state unit :=
  py_modify (λ s, mk_gen_state (f (gs s)) (gs_dicts s)).
Definition get_gen : py gen_state gen := λ s, (Ok (gs s), s).

Definition with_tasks ts (g : gen) : gen :=
  mk_gen (g_source g) (g_target g) (g_path g) (g_fun g) (g_chmod g) (g_install_path g)
    (g_default_install_path g) (g_meths g) (g_dict g) (g_dict_hash g) (g_has_env g) ts.
Definition with_fun f (g : gen) : gen :=
  mk_gen (g_source g) (g_target g) (g_path g) f (g_chmod g) (g_install_path g)
    (g_default_install_path g) (g_meths g) (g_dict g) (g_dict_hash g) (g_has_env g) (g_tasks g).
Definition with_default_path p (g : gen) : gen :=
  mk_gen (g_source g) (g_target g) (g_path g) (g_fun g) (g_chmod g) (g_install_path g)
    p (g_meths g) (g_dict g) (g_dict_hash g) (g_has_env g) (g_tasks g).
Definition with_meths ms (g : gen) : gen :=
  mk_gen (g_source g) (g_target g) (g_path g) (g_fun g) (g_chmod g) (g_install_path g)
    (g_default_install_path g) ms (g_dict g) (g_dict_hash g) (g_has_env g) (g_tasks g).
Definition with_dict d (g : gen) : gen :=
  mk_gen (g_source g) (g_target g) (g_path g) (g_fun g) (g_chmod g) (g_install_path g)
    (g_default_install_path g) (g_meths g) d (g_dict_hash g) (g_has_env g) (g_tasks g).
Definition with_hash h (g : gen) : gen :=
  mk_gen (g_source g) (g_target g) (g_path g) (g_fun g) (g_chmod g) (g_install_path g)
    (g_default_install_path g) (g_meths g) (g_dict g) h (g_has_env g) (g_tasks g).

Definition add_task (t : task) : py gen_state unit :=
  upd (λ g, with_tasks (g_tasks g ++ [t]) g).

(** [self.meths.remove(m)] *)
Fixpoint list_remove (m : string) (l : list string) : result (list string) :=
  match l with
  | [] => Raise (ValueError "list.remove(x): x not in list")
  | x :: l => if (x =? m)%string then Ok l else l ← list_remove m l; Ok (x :: l)
  end.
Definition remove_meth (m : string) : py gen_state unit :=
  g ← get_gen; ms ← py_lift (list_remove m (g_meths g)); upd (with_meths ms).

(** [Utils.def_attrs(self, fun=...)] *)
Definition def_fun (f : task_fun) : py gen_state unit :=
  upd (λ g, match g_fun g with None => with_fun (Some (Some f)) g | Some _ => g end).

(** the task is in the list when the missing [install_path] is noticed *)
Definition apply_cmd : py gen_state unit :=
  g ← get_gen;
  match g_fun g with
  | None => py_raise AttributeError
  | Some None => py_raise (WafError "cmdobj needs a function!")
  | Some (Some f) =>
      let t := mk_task [] [] (Some f) 0 None [] in
      match g_install_path g with
      | None => add_task (t None) ;; py_raise AttributeError
      | Some p => add_task (t (Some p))
      end
  end.

Definition O644 : Z := 420.
Definition option_list {A} (o : option A) : list A := match o with Some x => [x] | None => [] end.
Definition no_input (filename : string) : exn :=
  WafError ("cannot find input file " +:+ filename +:+ " for processing").

Definition find_source (filename : string) : py gen_state N :=
  g ← get_gen;
  match find_resource (g_path g) filename with
  | Some n => mret n
  | None => py_raise (no_input filename)
  end.
Definition check_env : py gen_state unit :=
  g ← get_gen;
  if g_has_env g then mret () else py_raise (WafError "task without an environment").

(** one file of [apply_copy] *)
Definition copy_one (lst : list string) (filename : string) : py gen_state unit :=
  node ← find_source filename;
  g ← get_gen;
  let target := if negb (truthy (g_target g)) || (1 <? length lst)%nat
                then node_name node else g_target g in
  let newnode := find_or_declare (g_path g) target in
  add_task (mk_task [node] (option_list newnode) (default None (g_fun g))
              (default O644 (g_chmod g)) None [] None) ;;
  check_env.

Definition apply_copy : py gen_state unit :=
  def_fun CopyFunc ;;
  upd (with_default_path (Some 0)) ;;
  g ← get_gen;
  remove_meth "process_source" ;;
  py_for (g_source g) (copy_one (g_source g)).

(** [str(Utils.h_list(lst))] is a parameter *)
Variable h_list : list string → string.

Definition alloc (d : dict) : py gen_state nat := λ s,
  (Ok (length (gs_dicts s)), mk_gen_state (gs s) (gs_dicts s ++ [d])).

(** [self.dict = getattr(self, 'dict', {})] *)
Definition ensure_dict : py gen_state unit :=
  g ← get_gen;
  match g_dict g with
  | Some _ => mret ()
  | None => i ← alloc []; upd (with_dict (Some (DictAt i)))
  end.

(** [self.dict = self.dict.get_merged_dict()], which a plain dictionary does not have *)
Definition merge_dict : py gen_state nat :=
  g ← get_gen;
  match g_dict g with
  | Some (DictAt i) => mret i
  | Some (Mergeable d) => i ← alloc d; upd (with_dict (Some (DictAt i))) ;; mret i
  | None => py_raise AttributeError
  end.

Definition sorted_values (d : dict) : list string :=
  (λ k, default EmptyString (dict_get d k)) <$> merge_sort string_le d.*1.

Definition set_hash (d : dict) : py gen_state unit :=
  g ← get_gen;
  if nonempty d && negb (truthy (g_dict_hash g))
  then upd (with_hash (h_list (sorted_values d))) else mret ().

(** one file of [apply_subst] *)
Definition subst_one (filename : string) : py gen_state unit :=
  node ← find_source filename;
  g ← get_gen;
  let newnode := if truthy (g_target g) then find_or_declare (g_path g) (g_target g)
                 else Some (change_ext node EmptyString) in
  i ← merge_dict;
  s ← py_get;
  set_hash (default [] (gs_dicts s !! i)) ;;
  add_task (mk_task [node] (option_list newnode) (default None (g_fun g))
              (default O644 (g_chmod g)) (Some i) ["DICT_HASH"] None) ;;
  check_env.

Definition apply_subst : py gen_state unit :=
  def_fun SubstFunc ;;
  g ← get_gen;
  remove_meth "process_source" ;;
  ensure_dict ;;
  py_for (g_source g) subst_one.
End taskgen.
End TaskGen.

(** ** Facts about substitution *)
Module SubstFacts.
Import Subst.

(** the reference: every name between two at signs becomes its value *)
Fixpoint substitute (di : dict) (ps : list piece) : result string :=
  match ps with
  | [] => Ok EmptyString
  | PText t :: ps => r ← substitute di ps; Ok (t +:+ r)
  | PVar w :: ps =>
      match dict_get di w with
      | Some v => r ← substitute di ps; Ok (v +:+ r)
      | None => Raise KeyError
      end
  end.

Fixpoint double (s : string) : string :=
  match s with
  | EmptyString => EmptyString
  | String c s => if Ascii.eqb c "%" then String "%" (String "%" (double s)) else String c (double s)
  end.

Lemma replace_double s : py_replace "%" "%%" s = double s.
Proof.
  unfold py_replace. induction s as [|c s IH]; [done|].
  cbn [replace_go double startswith String.length Nat.sub].
  destruct (Ascii.eqb_spec c "%") as [->|Hne].
  - assert (startswith s EmptyString = true) as Hs by by destruct s. cbn. by rewrite IH, Hs.
  - rewrite (proj2 (Ascii.eqb_neq _ _)) by congruence. by rewrite IH.
Qed.

(** characters that the format leaves alone *)
Lemma fmt_text di t s : no_char "%" t →
  fmt di FText (t +:+ s) = (r ← fmt di FText s; Ok (t +:+ r)).
Proof.
  induction t as [|c t IH]; intros Ht.
  - rewrite sapp_nil_l. by destruct (fmt di FText s).
  - apply no_char_cons in Ht as [Hc Ht]. rewrite sapp_cons. cbn [fmt].
    rewrite (proj2 (Ascii.eqb_neq _ _)) by done. rewrite IH by done.
    by destruct (fmt di FText s).
Qed.

Lemma fmt_key di k w s : no_char ")" w →
  fmt di (FKey k) (w +:+ ")s" +:+ s) =
    match dict_get di (k +:+ w) with
    | Some v => r ← fmt di FText s; Ok (v +:+ r)
    | None => Raise KeyError
    end.
Proof.
  revert k. induction w as [|c w IH]; intros k Hw.
  - rewrite sapp_nil_l, sapp_nil_r. by cbn.
  - apply no_char_cons in Hw as [Hc Hw]. rewrite sapp_cons. cbn [fmt].
    rewrite (proj2 (Ascii.eqb_neq _ _)) by done. rewrite IH by done.
    unfold char_text. rewrite sapp_assoc. by rewrite sapp_cons, sapp_nil_l.
Qed.

Lemma word_no_char c w : is_word c = false → str_all is_word w = true → no_char c w.
Proof.
  intros Hc. induction w as [|a w IH]; [done|]. cbn. intros [Ha Hw]%andb_true_iff.
  apply no_char_cons. split; [by intros ->; congruence|by apply IH].
Qed.

Definition state_ok (st : m4_state) : Prop :=
  match st with Out => True | In w => str_all is_word w = true end.

Lemma word_snoc w c :
  str_all is_word w = true → is_word c = true → str_all is_word (w +:+ char_text c) = true.
Proof. intros Hw Hc. rewrite str_all_app, Hw. cbn. by rewrite Hc. Qed.

Section format.
  Context (di : dict).
Definition formatted (ps : list piece) : result string :=
  fmt di FText (sconcat (sub_piece <$> ps)).

Lemma formatted_text t ps :
  no_char "%" t → formatted (PText t :: ps) = (r ← formatted ps; Ok (t +:+ r)).
Proof. apply fmt_text. Qed.

Lemma formatted_percents ps :
  formatted (PText "%" :: PText "%" :: ps) = (r ← formatted ps; Ok ("%" +:+ r)).
Proof. reflexivity. Qed.

Lemma formatted_var w ps : str_all is_word w = true →
  formatted (PVar w :: ps) =
    match dict_get di w with Some v => r ← formatted ps; Ok (v +:+ r) | None => Raise KeyError end.
Proof.
  intros Hw. unfold formatted. cbn [fmap list_fmap sub_piece sconcat]. rewrite sapp_assoc.
  change ("%(" +:+ (w +:+ ")s") +:+ ?x) with (String "%" (String "(" ((w +:+ ")s") +:+ x))).
  rewrite sapp_assoc. by apply (fmt_key di EmptyString), word_no_char.
Qed.

Lemma scan_out_percent s : m4_scan Out (String "%" s) = PText "%" :: m4_scan Out s.
Proof. reflexivity. Qed.
Lemma scan_in_percent w s :
  m4_scan (In w) (String "%" s) = PText (String at_sign w) :: PText "%" :: m4_scan Out s.
Proof. reflexivity. Qed.

(** formatting the text with every percent sign doubled gives what the reference gives *)
Lemma formatted_double st s : state_ok st →
  formatted (m4_scan st (double s)) = substitute di (m4_scan st s).
Proof.
  revert st. induction s as [|c s IH]; intros st Hst.
  { destruct st as [|w]; [done|]. cbn [double m4_scan]. rewrite formatted_text; [done|].
    apply no_char_cons. split; [done|]. by apply word_no_char. }
  assert (∀ w, str_all is_word w = true → no_char "%" (String at_sign w)) as Hflush.
  { intros w Hw. apply no_char_cons. split; [done|]. by apply word_no_char. }
  cbn [double]. destruct (Ascii.eqb_spec c "%") as [->|Hc].
  - destruct st as [|w]; rewrite ?scan_out_percent, ?scan_in_percent, ?scan_out_percent.
    + by rewrite formatted_percents, IH.
    + rewrite formatted_text by by apply Hflush. by rewrite formatted_percents, IH.
  - assert (no_char "%" (char_text c)) as Hct by by apply no_char_cons.
    destruct st as [|w]; cbn [m4_scan].
    + destruct (Ascii.eqb c at_sign); [by apply IH|]. by rewrite formatted_text, IH.
    + cbn in Hst. destruct (is_word c) eqn:Ew; [apply IH; by apply word_snoc|].
      destruct (Ascii.eqb c at_sign).
      * destruct (truthy w); [by rewrite formatted_var, IH|]. by rewrite formatted_text, IH.
      * rewrite formatted_text by by apply Hflush. rewrite formatted_text by done. by rewrite IH.
Qed.

Lemma find_double st s : omap piece_name (m4_scan st (double s)) = omap piece_name (m4_scan st s).
Proof.
  revert st. induction s as [|c s IH]; intros st; [done|]. cbn [double].
  destruct (Ascii.eqb_spec c "%") as [->|Hc].
  - destruct st as [|w]; rewrite ?scan_out_percent, ?scan_in_percent, ?scan_out_percent;
      cbn [omap list_omap piece_name]; apply IH.
  - destruct st as [|w]; cbn [m4_scan]; repeat case_match; cbn [omap list_omap piece_name];
      try apply IH. f_equal. apply IH.
Qed.

Lemma m4_sub_spec code :
  fmt di FText (m4_sub (py_replace "%" "%%" code)) = substitute di (m4_scan Out code).
Proof. rewrite replace_double. by apply formatted_double. Qed.
End format.

Lemma m4_findall_spec code : m4_findall (py_replace "%" "%%" code) = m4_findall code.
Proof. rewrite replace_double. apply find_double. Qed.

(** *** The values of the names *)

Lemma substitute_ext d1 d2 ps :
  (∀ w, w ∈ omap piece_name ps → dict_get d1 w = dict_get d2 w) →
  substitute d1 ps = substitute d2 ps.
Proof.
  induction ps as [|[t|w] ps IH]; intros H; cbn; [done| |].
  - rewrite IH; [done|]. intros w Hw. apply H. by cbn.
  - rewrite H by (cbn; left). rewrite IH; [done|]. intros w' Hw. apply H. cbn. by right.
Qed.

Lemma fill_get flat names di i :
  dict_get (fill flat names di) i =
    if decide (i ∈ names) then Some (flat_value flat i) else dict_get di i.
Proof.
  unfold fill. revert di. induction names as [|n names IH]; intros di; cbn [foldl].
  { by rewrite decide_False by apply not_elem_of_nil. }
  rewrite IH, dict_get_set. destruct (decide (i ∈ names)) as [H|H].
  - rewrite decide_True; [done|by right].
  - destruct (decide (i = n)) as [->|Hne].
    + rewrite decide_True; [done|by left].
    + rewrite decide_False; [done|]. by intros [->|?]%elem_of_cons.
Qed.

(** the text a task writes when its dictionary is [di] *)
Definition outcome (t : subst_task) (di : dict) (st st' : subst_state) : result unit * subst_state :=
  match substitute di (m4_scan Out (s_code t)) with
  | Ok text => (Ok (), mk_subst (dicts st') (written st' ++ [(s_output t, text)]))
  | Raise e => (Raise e, st')
  end.

Lemma subst_func_run t st :
  let l := choose_dict t st in
  let di := load_dict st l in
  subst_func t st =
    if nonempty di then outcome t di st st
    else
      let di' := fill (s_flat t) (m4_findall (s_code t)) di in
      outcome t di' st
        (match l with Some i => mk_subst (<[i := di']> (dicts st)) (written st) | None => st end).
Proof.
  intros l di. unfold subst_func, outcome. cbv [mbind py_bind py_get]. fold l di.
  destruct (nonempty di) eqn:E; cbn [mret py_ret].
  - cbv [py_lift]. rewrite m4_sub_spec. by destruct (substitute di _).
  - rewrite m4_findall_spec. set (di' := fill _ _ di).
    destruct l as [i|]; cbn; cbv [py_lift]; rewrite m4_sub_spec; by destruct (substitute di' _).
Qed.

(** C25. What a substitution task writes: with a dictionary that is not empty, its own or else the
    one of its generator, the text in which every name between two at signs is its value (KeyError
    for a name without one), every other character as it is, percent signs included; with an
    empty one, the names are first entered in it with the values of the environment, under the
    name or else the upper-case name. *)
Theorem subst_func_spec t st :
  let l := choose_dict t st in
  let di := load_dict st l in
  subst_func t st =
    if nonempty di then outcome t di st st
    else
      let di' := fill (s_flat t) (m4_findall (s_code t)) di in
      outcome t di' st
        (match l with Some i => mk_subst (<[i := di']> (dicts st)) (written st) | None => st end).
Proof. apply subst_func_run. Qed.

Lemma substitute_total di ps :
  (∀ w, w ∈ omap piece_name ps → is_Some (dict_get di w)) → ∃ text, substitute di ps = Ok text.
Proof.
  induction ps as [|[t|w] ps IH]; intros H; cbn.
  - by eexists.
  - destruct IH as [r ->]; [|by eexists]. intros w Hw. apply H. by cbn.
  - destruct (H w) as [v ->]; [cbn; left|].
    destruct IH as [r ->]; [|by eexists]. intros w' Hw. apply H. cbn. by right.
Qed.

Lemma substitute_missing di ps y :
  y ∈ omap piece_name ps → dict_get di y = None → substitute di ps = Raise KeyError.
Proof.
  intros Hy Hd. induction ps as [|[t|w] ps IH]; cbn in *; [by apply elem_of_nil in Hy|by rewrite IH|].
  apply elem_of_cons in Hy as [->|Hy]; [by rewrite Hd|]. destruct (dict_get di w); [by rewrite IH|done].
Qed.

Lemma fill_nonempty flat names di : names ≠ [] → nonempty (fill flat names di) = true.
Proof.
  destruct names as [|n names]; [done|]. intros _.
  pose proof (fill_get flat (n :: names) di n) as H. rewrite decide_True in H by left.
  by destruct (fill flat (n :: names) di).
Qed.

(** Two files of one generator without variables share one dictionary: substituting the first
    enters its names, so that the second is substituted with these values only, and any other
    name in it raises KeyError although the environment has a value for it. *)
Theorem second_file_keeps_first_names t1 t2 st i y
    (H1 : s_dict t1 = Some i) (H2 : s_dict t2 = Some i) (Hi : dicts st !! i = Some [])
    (Hg1 : s_gen_dict t1 = Some i)
    (Hne : m4_findall (s_code t1) ≠ [])
    (Hy : y ∈ m4_findall (s_code t2)) (Hy1 : y ∉ m4_findall (s_code t1)) :
  ∃ st', subst_func t1 st = (Ok (), st') ∧ subst_func t2 st' = (Raise KeyError, st').
Proof.
  set (names := m4_findall (s_code t1)) in *. set (di := fill (s_flat t1) names []).
  assert (choose_dict t1 st = Some i) as Hc1.
  { unfold choose_dict, load_dict. by rewrite H1, Hi. }
  assert (load_dict st (Some i) = []) as Hl1 by (unfold load_dict; by rewrite Hi).
  destruct (substitute_total di (m4_scan Out (s_code t1))) as [text Htext].
  { intros w Hw. unfold di. rewrite fill_get, decide_True; [by eexists|exact Hw]. }
  pose proof (subst_func_run t1 st) as E1. cbv zeta in E1. rewrite Hc1, Hl1 in E1.
  cbn [nonempty] in E1. unfold outcome in E1. fold names di in E1. rewrite Htext in E1.
  rewrite E1. eexists. split; [reflexivity|]. set (st' := mk_subst _ _).
  assert (load_dict st' (Some i) = di) as Hl2.
  { unfold load_dict, st'. cbn. rewrite list_lookup_insert_eq; [done|].
    by apply lookup_lt_Some in Hi. }
  assert (nonempty di = true) as Hne2 by by apply fill_nonempty.
  assert (choose_dict t2 st' = Some i) as Hc2.
  { unfold choose_dict. by rewrite H2, Hl2, Hne2. }
  pose proof (subst_func_run t2 st') as E2. cbv zeta in E2. rewrite Hc2, Hl2, Hne2 in E2.
  rewrite E2. unfold outcome. rewrite (substitute_missing di _ y); [done|done|].
  unfold di. by rewrite fill_get, decide_False.
Qed.

Lemma second_file_keeps_first_names_witness :
  let flat n := if (n =? "VERSION")%string then "1.0" else "x" in
  let t1 := mk_subst_task "v @VERSION@ 100%" "a" (Some 0%nat) (Some 0%nat) flat in
  let t2 := mk_subst_task "@PREFIX@/lib" "b" (Some 0%nat) (Some 0%nat) flat in
  let st := mk_subst [[]] [] in
  subst_func t1 st = (Ok (), mk_subst [[("VERSION", "1.0")]] [("a", "v 1.0 100%")]) ∧
  subst_func t2 (mk_subst [[]] []) = (Ok (), mk_subst [[("PREFIX", "x")]] [("b", "x/lib")]) ∧
  ∃ st', subst_func t1 st = (Ok (), st') ∧ subst_func t2 st' = (Raise KeyError, st').
Proof.
  intros flat t1 t2 st. split; [reflexivity|]. split; [reflexivity|].
  apply (second_file_keeps_first_names t1 t2 st 0 "PREFIX"); try reflexivity.
  - done.
  - vm_compute. left.
  - intros H%list_elem_of_singleton. done.
Defined.
End SubstFacts.

(** ** Facts about the task generator methods *)
Module TaskGenFacts.
Import Copy Subst TaskGen.
Section facts.
  Context {N : Type} `{WafNode N}.

(** a source list up to its first file that is not found, and what the loop over it gives *)
Definition found_upto (p : N) (files : list string) (nodes : list N) : Prop :=
  ∃ pre post, files = pre ++ post ∧ Forall2 (λ f n, find_resource p f = Some n) pre nodes ∧
    match post with [] => True | f :: _ => find_resource p f = None end.
Definition loop_result (files : list string) (nodes : list N) : result unit :=
  match files !! length nodes with Some f => Raise (no_input f) | None => Ok () end.

(** a loop whose step adds one task for a found file and keeps what the step reads *)
Lemma task_loop (step : string → py (@gen_state N) unit) (same : @gen N → Prop) (mk : N → @task N)
    (p : N) ds files nodes g :
  (∀ g f n, same g → find_resource p f = Some n →
     ∃ g', step f (mk_gen_state g ds) = (Ok (), mk_gen_state g' ds) ∧ same g' ∧
       g_tasks g' = g_tasks g ++ [mk n]) →
  (∀ g f, same g → find_resource p f = None →
     step f (mk_gen_state g ds) = (Raise (no_input f), mk_gen_state g ds)) →
  same g → found_upto p files nodes →
  ∃ g', py_for files step (mk_gen_state g ds) = (loop_result files nodes, mk_gen_state g' ds) ∧
    same g' ∧ g_tasks g' = g_tasks g ++ (mk <$> nodes).
Proof.
  intros Hok Herr Hg (pre & post & -> & Hpre & Hpost). unfold loop_result.
  rewrite <- (Forall2_length _ _ _ Hpre), lookup_app_r, Nat.sub_diag by lia. revert g Hg.
  induction Hpre as [|f n pre nodes Hf Hpre IH]; intros g Hg.
  - destruct post as [|f post]; cbn.
    + exists g. by rewrite app_nil_r.
    + cbv [mbind py_bind]. rewrite Herr by done. exists g. by rewrite app_nil_r.
  - cbn. cbv [mbind py_bind]. destruct (Hok g f n Hg Hf) as (g1 & -> & Hg1 & Ht1).
    destruct (IH g1 Hg1) as (g' & -> & Hg' & Ht'). exists g'. split; [done|]. split; [done|].
    rewrite Ht', Ht1, <- app_assoc. done.
Qed.

Definition fun_or (f : task_fun) (g : @gen N) : option task_fun :=
  match g_fun g with None => Some f | Some f => f end.

(** the name a copy gets: the target, but with several sources or without one the name of the file *)
Definition copy_target (g : @gen N) (n : N) : string :=
  if negb (truthy (g_target g)) || (1 <? length (g_source g))%nat then node_name n else g_target g.

Definition copy_task (g : @gen N) (n : N) : @task N :=
  mk_task [n] (option_list (find_or_declare (g_path g) (copy_target g n))) (fun_or CopyFunc g)
    (default O644 (g_chmod g)) None [] None.

(** [apply_copy] makes one task for each source file, in order, up to the first file that is
    not found, for which it raises WafError with the tasks made so far in place.  The output of a
    task is the declared target, but when there are several sources, or no target, it is the file of
    the same name in the build tree. *)
Theorem apply_copy_tasks (g : @gen N) ds nodes ms
    (Hms : list_remove "process_source" (g_meths g) = Ok ms)
    (Henv : g_has_env g = true)
    (Hfound : found_upto (g_path g) (g_source g) nodes) :
  ∃ g', apply_copy (mk_gen_state g ds) = (loop_result (g_source g) nodes, mk_gen_state g' ds) ∧
    g_tasks g' = g_tasks g ++ (copy_task g <$> nodes) ∧ g_meths g' = ms.
Proof.
  unfold apply_copy. cbv [mbind py_bind def_fun upd py_modify get_gen remove_meth py_lift]. cbn.
  set (g0 := match g_fun g with None => _ | Some _ => g end).
  assert (∃ f, g0 = with_fun (Some f) g ∧ f = fun_or CopyFunc g) as (f & E0 & Ef).
  { unfold g0, fun_or. destruct g, g_fun0; by eexists. }
  rewrite E0. cbn. rewrite Hms. cbn.
  set (g1 := with_meths ms _).
  destruct (task_loop (copy_one (g_source g)) (λ g', ∃ ts, g' = with_tasks ts g1) (copy_task g)
    (g_path g) ds (g_source g) nodes g1) as (g' & E & [ts ->] & Hts); [| | |done|].
  - intros ? a n [ts ->] Ha. unfold copy_one, find_source, check_env, add_task, upd.
    cbv [mbind py_bind get_gen py_modify]. cbn. rewrite Ha. cbn. rewrite Henv.
    eexists. split; [reflexivity|]. split; [by eexists|]. unfold copy_task. by rewrite <- Ef.
  - intros ? a [ts ->] Ha. unfold copy_one, find_source. cbv [mbind py_bind get_gen]. cbn.
    by rewrite Ha.
  - exists (g_tasks g1). by destruct g.
  - eexists. split; [exact E|]. by rewrite Hts.
Qed.

(** Without a dictionary of its own a generator gives all the tasks of [apply_subst] one new
    dictionary, which is empty and is also that of the generator. *)
Theorem apply_subst_shares_dict (h_list : list string → string) (g : @gen N) ds nodes ms
    (Hms : list_remove "process_source" (g_meths g) = Ok ms)
    (Henv : g_has_env g = true) (Hdict : g_dict g = None)
    (Hfound : found_upto (g_path g) (g_source g) nodes) :
  ∃ g' ts, apply_subst h_list (mk_gen_state g ds)
      = (loop_result (g_source g) nodes, mk_gen_state g' (ds ++ [[]])) ∧
    g_tasks g' = g_tasks g ++ ts ∧ length ts = length nodes ∧
    g_dict g' = Some (DictAt (length ds)) ∧
    Forall (λ t, t_dict t = Some (length ds) ∧ t_fun t = fun_or SubstFunc g) ts.
Proof.
  unfold apply_subst. cbv [mbind py_bind def_fun upd py_modify get_gen remove_meth py_lift]. cbn.
  set (g0 := match g_fun g with None => _ | Some _ => g end).
  assert (∃ f, g0 = with_fun (Some f) g ∧ f = fun_or SubstFunc g) as (f & E0 & Ef).
  { unfold g0, fun_or. destruct g, g_fun0; by eexists. }
  rewrite E0. cbn. rewrite Hms. unfold ensure_dict.
  cbv [mbind py_bind get_gen upd py_modify alloc]. cbn. rewrite Hdict. cbn.
  set (g1 := with_dict _ _).
  destruct (task_loop (subst_one h_list) (λ g', ∃ ts, g' = with_tasks ts g1)
    (λ n, mk_task [n] (option_list (if truthy (g_target g) then find_or_declare (g_path g) (g_target g)
                                    else Some (change_ext n EmptyString)))
            f (default O644 (g_chmod g)) (Some (length ds)) ["DICT_HASH"] None)
    (g_path g) (ds ++ [[]]) (g_source g) nodes g1) as (g' & E & [ts ->] & Hts); [| | |done|].
  - intros ? a n [ts ->] Ha. unfold subst_one, find_source, check_env, add_task, upd, merge_dict.
    cbv [mbind py_bind get_gen py_modify]. cbn. rewrite Ha. cbn.
    rewrite list_lookup_middle by done. unfold set_hash. cbv [mbind py_bind get_gen]. cbn.
    rewrite Henv.
    eexists. split; [reflexivity|]. split; [by eexists|]. done.
  - intros ? a [ts ->] Ha. unfold subst_one, find_source. cbv [mbind py_bind get_gen]. cbn.
    by rewrite Ha.
  - exists (g_tasks g1). by destruct g.
  - eexists _, _. split; [exact E|]. split; [exact Hts|]. split; [apply length_fmap|].
    split; [done|]. apply Forall_fmap, Forall_true. intros n. cbn. by rewrite Ef.
Qed.
End facts.

Definition sample_gen (fs : list string) : @gen path_node :=
  mk_gen fs "out" (mk_path_node false EmptyString) None None None None
    ["process_rule"; "process_source"] None EmptyString true [].

Lemma apply_copy_tasks_witness :
  ∃ g', apply_copy (mk_gen_state (sample_gen ["main.c"; "lost.c"; "tool.py"]) [])
      = (Raise (no_input "lost.c"), mk_gen_state g' []) ∧
    g_tasks g' = [mk_task [mk_path_node false "main.c"] [mk_path_node true "main.c"]
                    (Some CopyFunc) 420 None [] None].
Proof.
  destruct (apply_copy_tasks (sample_gen ["main.c"; "lost.c"; "tool.py"]) []
    [mk_path_node false "main.c"] ["process_rule"]) as (g' & E & Hts & _).
  - reflexivity.
  - reflexivity.
  - exists ["main.c"], ["lost.c"; "tool.py"]. split; [done|]. split; [|done].
    by repeat constructor.
  - by exists g'.
Defined.

Lemma apply_subst_shares_dict_witness :
  ∃ g' ts, apply_subst (λ _, "h") (mk_gen_state (sample_gen ["notes.in"; "more.in"]) [])
      = (Ok (), mk_gen_state g' [[]]) ∧
    g_tasks g' = ts ∧ length ts = 2%nat ∧
    Forall (λ t, t_dict t = Some 0%nat ∧ t_fun t = Some SubstFunc) ts.
Proof.
  destruct (apply_subst_shares_dict (λ _, "h") (sample_gen ["notes.in"; "more.in"]) []
    [mk_path_node false "notes.in"; mk_path_node false "more.in"] ["process_rule"])
    as (g' & ts & E & Hts & Hlen & _ & Hf).
  - reflexivity.
  - reflexivity.
  - reflexivity.
  - exists ["notes.in"; "more.in"], []. split; [done|]. split; [|done].
    by repeat constructor.
  - by exists g', ts.
Defined.
End TaskGenFacts.
