(* ===== verification/CmdOutput.v ===== *)
(** * misc.py: the output of commands

    The second half of waf-tools/misc.py: arguments of a command that stand for files and
    directories ([Args]), the task generator method that turns a command into a task ([Apply]) and
    the task itself ([RunTask]).  [python3] tells the version of the language, which decides what
    the override of the methods of a task does. *)
From Stdlib Require Import ZArith Lia Ascii String.
From stdpp Require Import base list strings.
From S2P Require Import Prelude PyStr WUtils WafNode Misc.
#[local] Open Scope Z_scope.

(** ** Arguments *)
Module Args.
Section args.
  Context {N : Type} `{WafNode N}.

(** the subclasses of [cmd_arg] *)
Inductive arg_kind := InputFile | OutputFile | InputDir | OutputDir.

Record cmd_arg := mk_cmd_arg {
  a_kind : arg_kind;
  a_name : string;
  a_template : string;
  a_node : option N
}.

(** [cmd_arg.__init__] *)
Definition new_arg (k : arg_kind) (name template : string) : cmd_arg :=
  mk_cmd_arg k name template None.

Definition lookup_node (base_path : N) (a : cmd_arg) : option N :=
  match a_kind a with
  | InputFile => find_resource base_path (a_name a)
  | OutputFile => find_or_declare base_path (a_name a)
  | InputDir | OutputDir => find_dir base_path (a_name a)
  end.

(** the message of the error has one conversion and two values *)
Definition find_node (base_path : N) (a : cmd_arg) : result cmd_arg :=
  match lookup_node base_path a with
  | Some n => Ok (mk_cmd_arg (a_kind a) (a_name a) (a_template a) (Some n))
  | None => Raise TypeError
  end.

(** a path put into a template *)
Definition fill_template (template path : string) : result string :=
  Template.percent path false template.

Definition get_path (a : cmd_arg) (absolute : bool) : result string :=
  match a_node a with
  | None => Raise AttributeError
  | Some n =>
      fill_template (a_template a)
        match a_kind a with
        | InputFile => if absolute then abspath n else srcpath n
        | OutputFile => if absolute then abspath n else bldpath n
        | InputDir | OutputDir => abspath n
        end
  end.

(** an element of [argv] *)
Inductive arg := AStr (s : string) | ACmd (a : cmd_arg).
End args.
End Args.

(** ** The task *)
Module RunTask.
Import Args.
Section run.
  Context {N : Type} `{WafNode N}.

Record command_output := mk_command_output {
  k_command : string + N;
  k_dep_nodes : list N;
  k_command_args : list (@arg N);
  k_stdin : option N;
  k_stdout : option N;
  k_stderr : option N;
  k_cwd : option string;
  k_os_env : option (list (string * string));
  k_attrs : list (string * list string);     (* before, after, ext_in, ext_out *)
  k_inputs : list N;
  k_outputs : list N;
  k_dep_vars : list string;
  k_run_after : list nat;
  k_always : bool                            (* [runnable_status] and [post_run] replaced *)
}.

Definition new_command_output (command : string + N) (command_node : option N)
    (command_args : list arg) (stdin stdout : option N) (cwd : option string)
    (os_env : option (list (string * string))) (stderr : option N) : command_output :=
  mk_command_output command (match command_node with Some n => [n] | None => [] end) command_args
    stdin stdout stderr cwd os_env [] [] [] [] [] false.

Inductive run_event :=
  | OpenFile (path : string) (write : bool)
  | Debug (cwd : string) (argv : list string)
  | Popen (argv : list string) (stdin stdout stderr : option string) (cwd : option string)
          (env : list (string * string)).

  Variable can_open : string → bool.
  (** starting the process and waiting for it *)
  Variable spawn : list string → result Z.
  Variable getcwd : string.
  Variable environ : list (string * string).

Definition emit (e : run_event) : py (list run_event) unit := py_modify (λ l, l ++ [e]).

Section task.
  Variable task : command_output.

Definition input_path (node : N) (template : string) : result string :=
  match k_cwd task with
  | None => fill_template template (bldpath node)
  | Some _ => fill_template template (abspath node)
  end.
Definition output_path (node : N) (template : string) : result string :=
  let fun_ := match k_cwd task with None => bldpath | Some _ => abspath end in
  fill_template template (fun_ node).

Definition command_path : result string :=
  match k_command task with inr n => input_path n "%s" | inl c => Ok c end.

Fixpoint arg_paths (args : list arg) : result (list string) :=
  match args with
  | [] => Ok []
  | AStr s :: args => l ← arg_paths args; Ok (s :: l)
  | ACmd a :: args =>
      p ← get_path a (match k_cwd task with None => false | Some _ => true end);
      l ← arg_paths args; Ok (p :: l)
  end.

Definition open_node (node : option N) (path : N → result string) (write : bool)
    : py (list run_event) (option string) :=
  match node with
  | None => mret None
  | Some n =>
      p ← py_lift (path n);
      emit (OpenFile p write) ;;
      if can_open p then mret (Some p) else py_raise (OSError p)
  end.

Definition cwd_text : string :=
  match k_cwd task with
  | None => "None (actually " +:+ Repr.py_repr getcwd +:+ ")"
  | Some d => Repr.py_repr d
  end.

(** [command_output.run]; the opened files are not closed *)
Definition run : py (list run_event) Z :=
  c ← py_lift command_path;
  args ← py_lift (arg_paths (k_command_args task));
  let argv := c :: args in
  stdin ← open_node (k_stdin task) (λ n, input_path n "%s") false;
  stdout ← open_node (k_stdout task) (λ n, output_path n "%s") true;
  stderr ← open_node (k_stderr task) (λ n, output_path n "%s") true;
  emit (Debug cwd_text argv) ;;
  let os_env := match k_os_env task with None => environ | Some e => e end in
  emit (Popen argv stdin stdout stderr (k_cwd task) os_env) ;;
  py_lift (spawn argv).
End task.

(** the signatures of the outputs after the run *)
Definition post_run {sig} (h_file : string → sig) (task : command_output) : list (N * sig) :=
  (λ x, (x, h_file (abspath x))) <$> k_outputs task.

Inductive status := RUN_ME | SKIP_ME | ASK_LATER.
Definition runnable_status : status := RUN_ME.
End run.
End RunTask.

(** ** The task generator *)
Module Apply.
Import Args RunTask.
Section apply.
  Context {N : Type} `{WafNode N}.

(** another generator: whether it is this one, and its tasks *)
Record dep := mk_dep { dep_is_self : bool; dep_id : nat; dep_tasks : list nat }.

(** the attributes a command generator can be given *)
Record raw := mk_raw {
  r_stdin : option (option string);
  r_stdout : option (option string);
  r_stderr : option (option string);
  r_command : option (option string);
  r_command_is_external : option bool;
  r_argv : option (list (@arg N));
  r_dependencies : option (list dep);
  r_dep_vars : option (list string);
  r_hidden_inputs : option (list string);
  r_hidden_outputs : option (list string);
  r_cwd : option (option string);
  r_os_env : option (option (list (string * string)))
}.

(** the attributes once they all have a value *)
Record attrs := mk_attrs {
  stdin : option string;
  stdout : option string;
  stderr : option string;
  command : option string;
  command_is_external : bool;
  argv : list (@arg N);
  dependencies : list dep;
  dep_vars : list string;
  hidden_inputs : list string;
  hidden_outputs : list string;
  cwd : option string;
  os_env : option (list (string * string))
}.

Definition init_cmd_output (r : raw) : attrs :=
  {| stdin := default None (r_stdin r); stdout := default None (r_stdout r);
     stderr := default None (r_stderr r); command := default None (r_command r);
     command_is_external := default false (r_command_is_external r);
     argv := default [] (r_argv r); dependencies := default [] (r_dependencies r);
     dep_vars := default [] (r_dep_vars r); hidden_inputs := default [] (r_hidden_inputs r);
     hidden_outputs := default [] (r_hidden_outputs r); cwd := default None (r_cwd r);
     os_env := default None (r_os_env r) |}.

(** what [apply_cmd_output] changes: the nodes of the arguments, the task in the list of the
    generator, and the generators it posts *)
Record ap_state := mk_ap {
  ap_argv : list (@arg N);
  ap_task : option (@command_output N);
  ap_posted : list nat
}.
Definition set_argv a (s : ap_state) : ap_state := mk_ap a (ap_task s) (ap_posted s).
Definition set_task t (s : ap_state) : ap_state := mk_ap (ap_argv s) (Some t) (ap_posted s).
Definition post (d : dep) (s : ap_state) : ap_state :=
  mk_ap (ap_argv s) (ap_task s) (ap_posted s ++ [dep_id d]).
Definition upd_task (f : @command_output N → command_output) (s : ap_state) : ap_state := mk_ap (ap_argv s) (f <$> ap_task s) (ap_posted s).

  Variable python3 : bool.
  Variable path : N.
  (** [str(self.path)] *)
  Variable path_text : string.
  Variable variant_dir : string.
  (** [no_inputs] and [no_outputs], and the attributes that are copied to the task *)
  Variable no_inputs no_outputs : bool.
  Variable order_attrs : list (string * list string).

(** the loop over [argv]: the nodes are found in place, up to the first that is not *)
Fixpoint find_args (done_ args : list (@arg N)) : py ap_state (list N * list N) :=
  match args with
  | [] => mret ([], [])
  | AStr s :: args => find_args (done_ ++ [AStr s]) args
  | ACmd a :: args =>
      a' ← py_lift (find_node path a);
      py_modify (set_argv (done_ ++ ACmd a' :: args)) ;;
      '(ins, outs) ← find_args (done_ ++ [ACmd a']) args;
      mret (match a_kind a', a_node a' with
            | InputFile, Some n => (n :: ins, outs)
            | OutputFile, Some n => (ins, n :: outs)
            | _, _ => (ins, outs)
            end)
  end.

Definition not_found (f : string) : exn := WafError ("File " +:+ f +:+ " not found").
Definition not_found_in (f : string) : exn :=
  WafError ("File " +:+ f +:+ " not found in dir " +:+ path_text).

(** a stream given by the name of its file *)
Definition stream_node (find : N → string → option N) (s : option string) : result (option N) :=
  match s with
  | None => Ok None
  | Some f => match find path f with Some n => Ok (Some n) | None => Raise (not_found f) end
  end.

Fixpoint hidden_nodes (find : N → string → option N) (fs : list string) : result (list N) :=
  match fs with
  | [] => Ok []
  | f :: fs =>
      match find path f with
      | Some n => l ← hidden_nodes find fs; Ok (n :: l)
      | None => Raise (not_found_in f)
      end
  end.

(** the command, and its node when it is a file of the source tree *)
Definition command_of (self : attrs) : result ((string + N) * option N) :=
  match command self with
  | None => Raise (WafError "command-output missing command")
  | Some c =>
      if command_is_external self then Ok (inl c, None)
      else match find_resource path c with
           | None => Raise AssertionError
           | Some n => Ok (inr n, Some n)
           end
  end.

Definition order_names : list string := ["before"; "after"; "ext_in"; "ext_out"].
Definition copied_attrs : list (string * list string) :=
  Copy.copy_attrs (λ l, match l with [] => false | _ => true end) [] order_attrs [] order_names true.

Definition with_io (ins outs : list N) (vars : list string) (t : @command_output N) : command_output :=
  mk_command_output (k_command t) (k_dep_nodes t) (k_command_args t) (k_stdin t) (k_stdout t)
    (k_stderr t) (k_cwd t) (k_os_env t) copied_attrs ins outs vars (k_run_after t) (k_always t).
Definition set_run_after (n : nat) (t : @command_output N) : command_output :=
  mk_command_output (k_command t) (k_dep_nodes t) (k_command_args t) (k_stdin t) (k_stdout t)
    (k_stderr t) (k_cwd t) (k_os_env t) (k_attrs t) (k_inputs t) (k_outputs t) (k_dep_vars t)
    (k_run_after t ++ [n]) (k_always t).
Definition run_always (t : @command_output N) : command_output :=
  mk_command_output (k_command t) (k_dep_nodes t) (k_command_args t) (k_stdin t) (k_stdout t)
    (k_stderr t) (k_cwd t) (k_os_env t) (k_attrs t) (k_inputs t) (k_outputs t) (k_dep_vars t)
    (k_run_after t) true.

Definition add_dep (d : dep) : py ap_state unit :=
  py_lift (py_assert (negb (dep_is_self d))) ;;
  py_modify (post d) ;;
  py_for (dep_tasks d) (λ n, py_modify (upd_task (set_run_after n))).

Definition node_list (o : option N) : list N := match o with Some n => [n] | None => [] end.

(** the checks that a command has inputs and outputs *)
Definition check_io (inputs outputs : list N) : result unit :=
  match inputs with
  | [] => if no_inputs then Ok () else Raise (WafError
      "command-output objects must have at least one input file or give self.no_inputs")
  | _ => Ok ()
  end ;;
  match outputs with
  | [] => if no_outputs then Ok () else Raise (WafError
      "command-output objects must have at least one output file or give self.no_outputs")
  | _ => Ok ()
  end.

Definition apply_cmd_output (self : attrs) : py ap_state unit :=
  '(cmd, cmd_node) ← py_lift (command_of self);
  py_modify (set_argv (argv self)) ;;
  '(arg_inputs, arg_outputs) ← find_args [] (argv self);
  stdout ← py_lift (stream_node find_or_declare (stdout self));
  stderr ← py_lift (stream_node find_or_declare (stderr self));
  stdin ← py_lift (stream_node find_resource (stdin self));
  hid_in ← py_lift (hidden_nodes find_resource (hidden_inputs self));
  hid_out ← py_lift (hidden_nodes find_or_declare (hidden_outputs self));
  let inputs := arg_inputs ++ node_list stdin ++ hid_in in
  let outputs := arg_outputs ++ node_list stdout ++ node_list stderr ++ hid_out in
  py_lift (check_io inputs outputs) ;;
  s ← py_get;
  py_modify (set_task (with_io inputs outputs (dep_vars self)
    (new_command_output cmd cmd_node (ap_argv s) stdin stdout (Some variant_dir) (os_env self)
       stderr))) ;;
  py_for (dependencies self) add_dep ;;
  match inputs with
  | [] => if python3 then py_raise TypeError else py_modify (upd_task run_always)
  | _ => mret ()
  end.
End apply.
End Apply.

(** ** Facts *)
Module CmdFacts.
Import Args RunTask Apply.
Section facts.
  Context {N : Type} `{WafNode N}.
  Context (python3 : bool) (path : N) (path_text variant_dir : string)
          (no_inputs no_outputs : bool) (order_attrs : list (string * list string)).

Lemma lift_Ok {S A} (r : result A) (s s' : S) a : py_lift r s = (Ok a, s') → r = Ok a ∧ s' = s.
Proof. unfold py_lift. by intros [= -> ->]. Qed.
Lemma modify_Ok {S} (f : S → S) s u s' : py_modify f s = (Ok u, s') → s' = f s.
Proof. unfold py_modify. by intros [= _ <-]. Qed.
Lemma get_Ok {S} (s s' a : S) : py_get s = (Ok a, s') → a = s ∧ s' = s.
Proof. unfold py_get. by intros [= -> ->]. Qed.

(** opening a successful run of the handler *)
Ltac runsteps := repeat (first
  [ bindstep
  | match goal with
    | E : py_lift _ _ = (Ok _, _) |- _ => apply lift_Ok in E as [? ->]
    | E : py_modify _ _ = (Ok _, _) |- _ => apply modify_Ok in E as ->
    | E : py_get _ = (Ok _, _) |- _ => apply get_Ok in E as [-> ->]
    | E : (let '(_, _) := ?x in _) _ = (Ok _, _) |- _ => destruct x
    end ]; simplify_eq/=).

(** an argument before and after its node was found *)
Definition resolves (a a' : @arg N) : Prop :=
  match a, a' with
  | AStr s, AStr s' => s = s'
  | ACmd a, ACmd a' => find_node path a = Ok a'
  | _, _ => False
  end.

Definition file_nodes (k : arg_kind) (args : list (@arg N)) : list N :=
  omap (λ a, match a with
             | ACmd a => match a_kind a, k with
                         | InputFile, InputFile | OutputFile, OutputFile => a_node a
                         | _, _ => None
                         end
             | AStr _ => None
             end) args.

Lemma find_node_found (a a' : @cmd_arg N) : find_node path a = Ok a' →
  a_kind a' = a_kind a ∧ a_template a' = a_template a ∧
  ∃ n, a_node a' = Some n ∧ lookup_node path a = Some n.
Proof.
  unfold find_node. destruct (lookup_node path a) as [n|]; [|done]. intros [= <-]. cbn.
  split; [done|]. split; [done|]. by exists n.
Qed.

Lemma find_args_Ok done_ args s ins outs s' :
  find_args path done_ args s = (Ok (ins, outs), s') → ap_argv s = done_ ++ args →
  ∃ args', ap_argv s' = done_ ++ args' ∧ Forall2 resolves args args' ∧
    ins = file_nodes InputFile args' ∧ outs = file_nodes OutputFile args'.
Proof.
  revert done_ s ins outs. induction args as [|[t|a] args IH]; intros done_ s ins outs; cbn.
  - intros [= <- <- <-] Hs. by exists [].
  - intros Hr Hs. apply IH in Hr as (args' & Ha & Hf & -> & ->); [|by rewrite Hs, <- app_assoc].
    exists (AStr t :: args'). rewrite Ha, <- app_assoc. split; [done|]. split; [by constructor|done].
  - intros Hr Hs. runsteps. rename select (find_node _ _ = _) into Ha.
    rename select (find_args _ _ _ _ = _) into Hrec. rename select (_ = (ins, outs)) into Hio.
    destruct (IH _ _ _ _ Hrec) as (args' & Ht & Hf & -> & ->); [by cbn; rewrite <- app_assoc|].
    match type of Ha with _ = Ok ?x => exists (ACmd x :: args'); destruct x as [k nm tm nd] end.
    rewrite Ht, <- app_assoc. split; [done|]. split; [by constructor|]. cbn in *.
    destruct (find_node_found _ _ Ha) as (_ & _ & n & Hn & _). cbn in Hn. subst nd.
    by destruct k; injection Hio as <- <-.
Qed.

(** the loops over the dependencies change nothing but the order of the tasks *)
Definition after_all (ns : list nat) (t : @command_output N) : command_output :=
  foldl (λ t n, set_run_after n t) t ns.

Lemma after_all_fields ns t :
  k_command (after_all ns t) = k_command t ∧ k_command_args (after_all ns t) = k_command_args t ∧
  k_cwd (after_all ns t) = k_cwd t ∧ k_stdin (after_all ns t) = k_stdin t ∧
  k_stdout (after_all ns t) = k_stdout t ∧ k_stderr (after_all ns t) = k_stderr t ∧
  k_inputs (after_all ns t) = k_inputs t ∧ k_outputs (after_all ns t) = k_outputs t ∧
  k_os_env (after_all ns t) = k_os_env t ∧ k_always (after_all ns t) = k_always t ∧
  k_run_after (after_all ns t) = k_run_after t ++ ns.
Proof.
  revert t. induction ns as [|n ns IH]; intros t; [cbn; by rewrite app_nil_r|].
  change (after_all (n :: ns) t) with (after_all ns (set_run_after n t)).
  destruct (IH (set_run_after n t)) as (-> & -> & -> & -> & -> & -> & -> & -> & -> & -> & ->).
  cbn. by rewrite <- app_assoc.
Qed.

Lemma run_after_loop ns s :
  py_for ns (λ n, py_modify (upd_task (set_run_after n))) s =
    (Ok (), upd_task (after_all ns) s).
Proof.
  revert s. induction ns as [|n ns IH]; intros s; cbn.
  - destruct s as [a t p]. unfold upd_task. cbn. by destruct t.
  - cbv [mbind py_bind]. cbn. rewrite IH. f_equal. destruct s as [a t p].
    unfold upd_task. cbn. by destruct t.
Qed.

Lemma deps_loop ds s s' : py_for ds add_dep s = (Ok (), s') →
  s' = mk_ap (ap_argv s) (after_all (ds ≫= dep_tasks) <$> ap_task s) (ap_posted s ++ (dep_id <$> ds)).
Proof.
  revert s. induction ds as [|d ds IH]; intros s; cbn.
  - intros [= <-]. destruct s as [a t p]. cbn. rewrite app_nil_r. by destruct t.
  - intros Hr. runsteps. unfold add_dep in *. runsteps.
    rewrite run_after_loop in *. simplify_eq. apply IH in H1 as ->.
    destruct s as [a t p]. cbn. f_equal; [|by rewrite <- app_assoc].
    destruct t; cbn; [|done]. unfold after_all. by rewrite foldl_app.
Qed.

(** how a task is made from the attributes of its generator *)
Record made_from (self : @attrs N) (t : @command_output N) : Prop := {
  mf_command : ∃ n, command_of path self = Ok (k_command t, n);
  mf_args : Forall2 resolves (argv self) (k_command_args t);
  mf_cwd : k_cwd t = Some variant_dir;
  mf_env : k_os_env t = os_env self;
  mf_stdin : stream_node path find_resource (stdin self) = Ok (k_stdin t);
  mf_stdout : stream_node path find_or_declare (stdout self) = Ok (k_stdout t);
  mf_stderr : stream_node path find_or_declare (stderr self) = Ok (k_stderr t);
  mf_inputs : ∃ h, hidden_nodes path path_text find_resource (hidden_inputs self) = Ok h ∧
    k_inputs t = file_nodes InputFile (k_command_args t) ++ node_list (k_stdin t) ++ h;
  mf_outputs : ∃ h, hidden_nodes path path_text find_or_declare (hidden_outputs self) = Ok h ∧
    k_outputs t = file_nodes OutputFile (k_command_args t) ++ node_list (k_stdout t) ++
                  node_list (k_stderr t) ++ h;
  mf_has_inputs : k_inputs t = [] → no_inputs = true;
  mf_has_outputs : k_outputs t = [] → no_outputs = true;
  mf_after : k_run_after t = dependencies self ≫= dep_tasks;
  mf_always : k_always t = match k_inputs t with [] => true | _ => false end;
  mf_python : k_inputs t = [] → python3 = false
}.

Lemma check_io_Ok (ins outs : list N) u : check_io no_inputs no_outputs ins outs = Ok u →
  (ins = [] → no_inputs = true) ∧ (outs = [] → no_outputs = true).
Proof. unfold check_io. destruct ins, outs, no_inputs, no_outputs; cbn; done. Qed.

Lemma apply_task self s s' :
  apply_cmd_output python3 path path_text variant_dir no_inputs no_outputs order_attrs self s
    = (Ok (), s') →
  ∃ t, ap_task s' = Some t ∧ made_from self t.
Proof.
  unfold apply_cmd_output. intros Hr. runsteps.
  rename select (find_args _ _ _ _ = _) into Ha. rename select (py_for _ _ _ = _) into Hd.
  apply find_args_Ok in Ha as (args & Hargs & Hres & -> & ->); [|done]. rewrite app_nil_l in Hargs.
  apply check_io_Ok in H7 as [Hi Ho].
  match type of Hd with _ = (Ok ?u, _) => destruct u end. apply deps_loop in Hd as ->. cbn in *.
  set (t := with_io _ _ _ _ _) in *.
  assert (∃ b : bool, ap_task s' = Some (if b then run_always (after_all (dependencies self ≫= dep_tasks) t)
                                else after_all (dependencies self ≫= dep_tasks) t) ∧
    b = match k_inputs t with [] => true | _ => false end ∧ (k_inputs t = [] → python3 = false))
    as (b & Ht & Hb & Hpy).
  { cbn. destruct (file_nodes InputFile args ++ node_list x5 ++ x7).
    - destruct python3; [done|]. apply modify_Ok in H11 as ->. by exists true.
    - injection H11 as <-. by exists false. }
  eexists. split; [exact Ht|].
  destruct (after_all_fields (dependencies self ≫= dep_tasks) t)
    as (E1 & E2 & E3 & E4 & E5 & E6 & E7 & E8 & E9 & E10 & E11).
  destruct b; split; cbn; rewrite ?E1, ?E2, ?E3, ?E4, ?E5, ?E6, ?E7, ?E8, ?E9, ?E10, ?E11; cbn;
    rewrite ?Hargs; eauto.
Qed.

(** A generator that is applied without an error has a task: for its command, with every
    argument resolved to a node, in the build directory whatever the attribute cwd says; the inputs
    are the files of the input arguments, the standard input and the hidden inputs, in this order,
    and the outputs likewise; there are none of either only when the generator says so, and a task
    without inputs always runs, which only Python 2 can express. *)
Theorem apply_cmd_output_task self s s'
    (Hr : apply_cmd_output python3 path path_text variant_dir no_inputs no_outputs order_attrs self s
      = (Ok (), s')) :
  ∃ t, ap_task s' = Some t ∧ made_from self t.
Proof. by apply (apply_task self s). Qed.

(** *** Running the task *)
Section run.
  Context (can_open : string → bool) (spawn : list string → result Z) (getcwd : string)
          (environ : list (string * string)).

(** the word of the command line for an argument *)
Definition arg_word (a : @arg N) (w : string) : Prop :=
  match a with
  | AStr s => w = s
  | ACmd a => ∃ n, lookup_node path a = Some n ∧ fill_template (a_template a) (abspath n) = Ok w
  end.
Definition template_ok (a : @arg N) : Prop :=
  match a with
  | AStr _ => True
  | ACmd a => ∀ p, is_ok (fill_template (a_template a) p) = true
  end.

Lemma fill_plain p : fill_template "%s" p = Ok p.
Proof. cbn. by rewrite sapp_nil_r. Qed.

Lemma arg_paths_words t args args' d :
  k_cwd t = Some d → Forall2 resolves args args' → Forall template_ok args →
  ∃ ws, arg_paths t args' = Ok ws ∧ Forall2 arg_word args ws.
Proof.
  intros Hd Hres Ht. induction Hres as [|a a' args args' Ha Hres IH]; [by exists []|].
  apply Forall_cons in Ht as [Hta Ht]. destruct (IH Ht) as (ws & E & Hws).
  destruct a as [w|a], a' as [w'|a']; try done.
  - exists (w' :: ws). cbn. rewrite E. split; [done|]. by constructor.
  - apply find_node_found in Ha as (Hk & Htm & n & Hn & Hl).
    destruct (fill_template (a_template a) (abspath n)) as [w|] eqn:Ew.
    2:{ specialize (Hta (abspath n)). by rewrite Ew in Hta. }
    exists (w :: ws). split; [|constructor; [by exists n|done]].
    cbn. unfold get_path. rewrite Hn, Hd, Htm. cbn.
    assert (match a_kind a' with InputFile | OutputFile | _ => abspath n end = abspath n) as Eq
      by by destruct (a_kind a').
    rewrite Eq, Ew. cbn. by rewrite E.
Qed.

(** the standard streams of the started process *)
Definition stream_path (n : option N) : option string := abspath <$> n.

Lemma open_node_ok n f write l :
  (∀ p, can_open p = true) → (∀ n, f n = Ok (abspath n)) →
  ∃ l', open_node can_open n f write l = (Ok (stream_path n), l').
Proof.
  intros Ho Hf. destruct n as [n|]; [|by eexists]. cbv [open_node mbind py_bind py_lift].
  rewrite Hf. cbn. rewrite Ho. by eexists.
Qed.

Definition command_word (c : string + N) : string :=
  match c with inl c => c | inr n => abspath n end.

(** C26. The task of a generator that was applied runs as long as the templates of the arguments
    take one path and the files can be opened: no argument is without its node, the started command
    has the path of the command and one word for each argument, file arguments as absolute paths in
    their templates, the standard streams are those of the generator, and its status is that of the
    process.  The directory is that of the build whatever the attribute cwd of the generator says,
    also where the comment at the attribute promises to change to the directory it gives. *)
Theorem applied_task_runs self s s'
    (Hr : apply_cmd_output python3 path path_text variant_dir no_inputs no_outputs order_attrs self s
      = (Ok (), s'))
    (Htemplates : Forall template_ok (argv self)) (Hopen : ∀ p, can_open p = true) :
  ∃ t words log, ap_task s' = Some t ∧ Forall2 arg_word (argv self) words ∧
    run can_open spawn getcwd environ t [] =
      (spawn (command_word (k_command t) :: words),
       log ++ [Popen (command_word (k_command t) :: words) (stream_path (k_stdin t))
                 (stream_path (k_stdout t)) (stream_path (k_stderr t)) (Some variant_dir)
                 (default environ (os_env self))]).
Proof.
  destruct (apply_task self s s' Hr) as (t & Ht & Hm). destruct Hm.
  destruct (arg_paths_words t (argv self) (k_command_args t) variant_dir) as (ws & Ews & Hws); [done..|].
  assert (∀ n, input_path t n "%s" = Ok (abspath n)) as Hin.
  { intros n. unfold input_path. rewrite mf_cwd0. apply fill_plain. }
  assert (∀ n, output_path t n "%s" = Ok (abspath n)) as Hout.
  { intros n. unfold output_path. rewrite mf_cwd0. apply fill_plain. }
  assert (command_path t = Ok (command_word (k_command t))) as Hc.
  { unfold command_path. destruct (k_command t); [done|apply Hin]. }
  exists t, ws. unfold run. cbv [mbind py_bind py_lift]. rewrite Hc, Ews.
  destruct (open_node_ok (k_stdin t) (λ n, input_path t n "%s") false []) as [l1 ->]; [done..|].
  destruct (open_node_ok (k_stdout t) (λ n, output_path t n "%s") true l1) as [l2 ->]; [done..|].
  destruct (open_node_ok (k_stderr t) (λ n, output_path t n "%s") true l2) as [l3 ->]; [done..|].
  cbn. rewrite mf_cwd0, mf_env0. eexists. split; [done|]. split; [done|]. reflexivity.
Qed.
End run.

(** An argument whose file is not found ends the call with TypeError, not with the error that
    was meant: the message has one conversion and two values. *)
Theorem missing_argument_raises self s c pre a post
    (Hc : command_of path self = Ok c)
    (Hargv : argv self = pre ++ ACmd a :: post)
    (Hpre : Forall (λ x, ∃ x', resolves x x') pre)
    (Hmissing : lookup_node path a = None) :
  ∃ s', apply_cmd_output python3 path path_text variant_dir no_inputs no_outputs order_attrs self s
      = (Raise TypeError, s') ∧ ap_task s' = ap_task s.
Proof.
  assert (∀ done_ s, ∃ s', find_args path done_ (pre ++ ACmd a :: post) s = (Raise TypeError, s') ∧
    ap_task s' = ap_task s) as Hloop.
  { clear Hargv. induction Hpre as [|x pre [x' Hx] Hpre IH]; intros done_ s0.
    - cbn. unfold find_node. rewrite Hmissing. by eexists.
    - destruct x as [w|b], x' as [w'|b']; try done; [exact (IH _ _)|]. cbn [resolves] in Hx.
      cbn. cbv [mbind py_bind py_lift py_modify]. rewrite Hx. cbn.
      destruct (IH (done_ ++ [ACmd b']) (set_argv (done_ ++ ACmd b' :: pre ++ ACmd a :: post) s0))
        as (s1 & -> & Hs1). by eexists. }
  unfold apply_cmd_output. cbv [mbind py_bind py_lift]. rewrite Hc. destruct c as [cmd cn].
  cbv [py_modify]. rewrite Hargv.
  destruct (Hloop [] (set_argv (pre ++ ACmd a :: post) s)) as (s1 & -> & Hs1). by eexists.
Qed.
End facts.

(** *** An example: a generator of a report *)
Definition top : path_node := mk_path_node false "top".
Definition report (missing : bool) : @attrs path_node := init_cmd_output
  {| r_stdin := None; r_stdout := Some (Some "report.txt"); r_stderr := None;
     r_command := Some (Some "tool.py"); r_command_is_external := None;
     r_argv := Some [AStr "-v"; ACmd (new_arg InputFile "notes.in" "--in=%s");
                     ACmd (new_arg InputFile (if missing then "lost.in" else "more.in") "%s")];
     r_dependencies := None; r_dep_vars := None; r_hidden_inputs := None;
     r_hidden_outputs := None; r_cwd := Some (Some "/elsewhere"); r_os_env := None |}.
Definition no_state : @ap_state path_node := mk_ap [] None [].

Lemma apply_cmd_output_task_witness :
  ∃ t, ap_task (apply_cmd_output true top "top" "/top/build" false false [] (report false) no_state).2
      = Some t ∧ made_from true top "top" "/top/build" false false (report false) t.
Proof.
  destruct (apply_cmd_output true top "top" "/top/build" false false [] (report false) no_state)
    as [r s'] eqn:E.
  apply (apply_cmd_output_task true top "top" "/top/build" false false [] (report false) no_state s').
  rewrite E. f_equal. change r with (r, s').1. rewrite <- E. vm_compute. reflexivity.
Defined.

Lemma applied_task_runs_witness :
  ∃ t words log, ap_task (apply_cmd_output true top "top" "/top/build" false false [] (report false)
      no_state).2 = Some t ∧
    run (λ _, true) (λ _, Ok 0) "/" [] t [] = (Ok 0, log ++ [Popen ("/top/tool.py" :: words) None
      (Some "/top/build/report.txt") None (Some "/top/build") []]) ∧
    length words = 3%nat.
Proof.
  destruct (apply_cmd_output true top "top" "/top/build" false false [] (report false) no_state)
    as [r s'] eqn:E.
  destruct (applied_task_runs true top "top" "/top/build" false false [] (λ _, true) (λ _, Ok 0) "/" []
    (report false) no_state s') as (t & ws & log & Ht & Hws & Hrun).
  - rewrite E. f_equal. change r with (r, s').1. rewrite <- E. vm_compute. reflexivity.
  - cbn. repeat constructor.
  - done.
  - exists t, ws, log. split; [exact Ht|]. split; [|by apply Forall2_length in Hws].
    assert (Some t = ap_task (r, s').2) as Et by done. rewrite <- E in Et.
    assert (∃ t', ap_task (apply_cmd_output true top "top" "/top/build" false false []
      (report false) no_state).2 = Some t' ∧ k_command t' = inr (mk_path_node false "tool.py") ∧
      k_stdin t' = None ∧ k_stderr t' = None ∧
      k_stdout t' = Some (mk_path_node true "report.txt")) as (t' & Et' & E1 & E2 & E3 & E4).
    { eexists. vm_compute. repeat split. }
    rewrite <- Et in Et'. injection Et' as ->. rewrite Hrun, E1, E2, E3, E4. reflexivity.
Defined.

Lemma missing_argument_raises_witness :
  ∃ s', apply_cmd_output false top "top" "/top/build" false false [] (report true) no_state
    = (Raise TypeError, s').
Proof.
  destruct (missing_argument_raises false top "top" "/top/build" false false [] (report true) no_state
    (inr (mk_path_node false "tool.py"), Some (mk_path_node false "tool.py"))
    [AStr "-v"; ACmd (new_arg InputFile "notes.in" "--in=%s")] (new_arg InputFile "lost.in" "%s") [])
    as (s' & E & _).
  - reflexivity.
  - reflexivity.
  - repeat constructor; [by exists (AStr "-v")|].
    by exists (ACmd (mk_cmd_arg InputFile "notes.in" "--in=%s" (Some (mk_path_node false "notes.in")))).
  - reflexivity.
  - by exists s'.
Defined.
End CmdFacts.
