(* ===== verification/Command.v ===== *)
(** * command.py: a command line as a task of the build

    waf-tools/command.py: a task whose command is a pipeline of shellcmd.py in which variables of
    the environment, sources and targets are substituted ([Command]).  The evaluation of an
    expression in a namespace is a parameter, nodes of the build tree are the interface
    [WafNode]. *)
From Stdlib Require Import ZArith Lia Ascii String.
From stdpp Require Import base list strings.
From S2P Require Import Prelude PyStr WafNode ShellCmd.
#[local] Open Scope Z_scope.

Module Command.
Import Nodes.

(** ** The expression [arg_rx]: an escaped dollar, or a variable with code in braces *)
Inductive token :=
  | TText (c : ascii)
  | TDollar
  | TSubst (var code : string).

Fixpoint span_word (s : string) : string * string :=
  match s with
  | String c r => if is_word c then let '(w, r) := span_word r in (String c w, r) else (EmptyString, s)
  | EmptyString => (EmptyString, EmptyString)
  end.

(** the text up to the first closing brace on the line *)
Fixpoint to_brace (s : string) : option string :=
  match s with
  | EmptyString => None
  | String c r =>
      if Ascii.eqb c "}" then Some EmptyString
      else if Ascii.eqb c newline then None
      else match to_brace r with Some t => Some (String c t) | None => None end
  end.

(** a match behind a dollar: the token and how many characters it takes *)
Definition match_dollar (s : string) : option (token * nat) :=
  match s with
  | String c r =>
      if Ascii.eqb c "$" then Some (TDollar, 1%nat)
      else if Ascii.eqb c "{" then
        let '(var, rest) := span_word r in
        if truthy var then
          match to_brace rest with
          | Some code => Some (TSubst var code, (String.length var + String.length code + 2)%nat)
          | None => None
          end
        else None
      else None
  | EmptyString => None
  end.

Fixpoint scan (skip : nat) (s : string) : list token :=
  match s with
  | EmptyString => []
  | String c r =>
      match skip with
      | S k => scan k r
      | O =>
          if Ascii.eqb c "$" then
            match match_dollar r with
            | Some (t, n) => t :: scan n r
            | None => TText c :: scan O r
            end
          else TText c :: scan O r
      end
  end.

Section command.
  Context {N : Type} `{WafNode N}.

(** what an expression evaluates to; [VInputs] and [VOutputs] are the lists of the task themselves *)
Inductive value :=
  | VNode (n : N)
  | VInputs
  | VOutputs
  | VList (l : list value)
  | VStr (s : string)
  | VNone
  | VOther.

(** the nodes of the task *)
Record task := mk_task { inputs : list N; outputs : list N }.

  Variable self : task.
  (** [eval(code, namespace)] *)
  Variable eval : string → result value.

(** [repl]: the value of a match *)
Definition repl_value (var : string) (v : value) : result value :=
  match v with
  | VNode n =>
      if (var =? "TGT")%string then Ok (VStr (abspath (get_bld n)))
      else if (var =? "SRC")%string then Ok (VStr (srcpath n))
      else Raise (ValueError "Bad subst variable")
  | VInputs =>
      match inputs self with
      | [n] => Ok (VStr (srcpath n))
      | _ => Raise (ValueError "${SRC} requested but have multiple sources; which one?")
      end
  | VOutputs =>
      match outputs self with
      | [n] => Ok (VStr (abspath (get_bld n)))
      | _ => Raise (ValueError "${TGT} requested but have multiple targets; which one?")
      end
  | VList l => match l with [v] => Ok v | _ => Raise AssertionError end
  | _ => Ok v
  end.
Definition repl (t : token) : result value :=
  match t with
  | TText c => Ok (VStr (String c EmptyString))
  | TDollar => Ok (VStr "$")
  | TSubst var code => v ← eval (var +:+ code); repl_value var v
  end.

(** what [re.sub] makes of the value of the function: None is nothing, another value an error *)
Definition sub_text (v : value) : result string :=
  match v with VStr s => Ok s | VNone => Ok EmptyString | _ => Raise TypeError end.

Fixpoint subst_tokens (ts : list token) : result string :=
  match ts with
  | [] => Ok EmptyString
  | t :: ts =>
      v ← repl t;
      s ← sub_text v;
      r ← subst_tokens ts; Ok (s +:+ r)
  end.
Definition subst_arg (arg : string) : result string := subst_tokens (scan O arg).

(** ** Running the task *)
Definition subst_opt (s : option string) : result (option string) :=
  match s with Some s => s ← subst_arg s; Ok (Some s) | None => Ok None end.
Definition subst_target (t : option target) : result (option target) :=
  match t with
  | Some (File f) => f ← subst_arg f; Ok (Some (File f))
  | _ => Ok t
  end.
Fixpoint subst_args (l : list string) : result (list string) :=
  match l with
  | [] => Ok []
  | a :: l => a ← subst_arg a; l ← subst_args l; Ok (a :: l)
  end.
Fixpoint subst_env (l : list (string * string)) : result (list (string * string)) :=
  match l with
  | [] => Ok []
  | (k, v) :: l => v ← subst_arg v; l ← subst_env l; Ok ((k, v) :: l)
  end.

(** the loop body of [run]; a [cd] without a directory has None for its text *)
Definition subst_node (n : node) : result node :=
  match n with
  | NCommand c =>
      i ← subst_opt (stdin c);
      o ← subst_target (stdout c);
      e ← subst_target (stderr c);
      a ← subst_args (argv c);
      v ← (match env_vars c with Some l => l ← subst_env l; Ok (Some l) | None => Ok None end);
      Ok (NCommand (mk_command (name c) a i o e v))
  | NChdir (Some d) => d ← subst_arg d; Ok (NChdir (Some d))
  | NChdir None => Raise TypeError
  | _ => Ok n
  end.
Fixpoint subst_pipeline (pl : list node) : result (list node) :=
  match pl with
  | [] => Ok []
  | n :: pl => n ← subst_node n; pl ← subst_pipeline pl; Ok (n :: pl)
  end.
End command.

Section run.
  Context {N : Type} `{WafNode N}.
  Variable self : @task N.
  (** [eval], [env.get_merged_dict()] and the variables of the generator *)
  Variable eval_in : list (string * @value N) → string → result (@value N).
  Variable merged_dict : list (string * @value N).
  Variable variables : option (list (string * @value N)).

(** the names an expression can use *)
Definition namespace : list (string * @value N) :=
  let ns := match variables with
            | Some vars => dict_update merged_dict vars
            | None => merged_dict
            end in
  dict_update ns [("env", VOther); ("SRC", VInputs); ("TGT", VOutputs)].

Definition run (exit_code : nat → Z) (can_open : string → bool) (can_spawn : list string → bool)
    (environ : list (string * string)) (verbose : Z) (command : string)
    : py Run.world (option Z) :=
  pl ← py_lift (Parse.parse command);
  pl ← py_lift (subst_pipeline self (eval_in namespace) pl);
  Run.run exit_code can_open can_spawn environ (0 <? verbose) pl.

(** the text shown to the user *)
Definition str (command : string) : result string :=
  let src_str := join " " (bldpath <$> inputs self) in
  let tgt_str := join " " (bldpath <$> outputs self) in
  let sep := match outputs self with [] => EmptyString | _ => " -> " end in
  pl ← Parse.parse command;
  Ok ("command (" +:+ get_abbreviated_command pl +:+ "): " +:+ src_str +:+ sep +:+ tgt_str).
End run.

(** ** The task generator *)
Section generator.
  Context {N : Type} `{WafNode N}.

(** [source] is the nodes of the sources; [variables] and [rule] may be missing *)
Record gen := mk_gen {
  g_source : list N;
  g_target : list string;                              (* [self.to_list(self.target)] *)
  g_path : N;
  g_variables : option (option (list (string * @value N)));
  g_rule : option string;
  g_dep_vars : option (list string);
  g_tasks : list (@task N * option (list string))      (* with their [dep_vars] *)
}.

Definition init_command (g : gen) : gen :=
  mk_gen (g_source g) (g_target g) (g_path g) (Some (default None (g_variables g)))
    (Some (default EmptyString (g_rule g))) (g_dep_vars g) (g_tasks g).

(** a target that cannot be declared is no output *)
Definition apply_command (g : gen) : gen :=
  mk_gen [] (g_target g) (g_path g) (g_variables g) (g_rule g) (g_dep_vars g)
    (g_tasks g ++ [(mk_task (g_source g) (omap (find_or_declare (g_path g)) (g_target g)),
                    g_dep_vars g)]).
End generator.
End Command.

(** ** Facts *)
Module CommandFacts.
Import Nodes Command Grammar RunFacts Spawns.

(** *** Reading back a written argument *)
Definition render_token (t : token) : string :=
  match t with
  | TText c => String c EmptyString
  | TDollar => "$$"
  | TSubst var code => "${" +:+ var +:+ code +:+ "}"
  end.
Definition render (ts : list token) : string := sconcat (render_token <$> ts).

(** a character other than a dollar; a variable whose code is on one line, without a closing brace,
    and does not go on with the name *)
Definition token_ok (t : token) : Prop :=
  match t with
  | TText c => c ≠ "$"%char
  | TDollar => True
  | TSubst var code =>
      var ≠ EmptyString ∧ str_all is_word var = true ∧ no_char "}" code ∧ no_char newline code ∧
      match code with String c _ => is_word c = false | EmptyString => True end
  end.

Lemma scan_skip x s : scan (String.length x) (x +:+ s) = scan O s.
Proof. induction x as [|c x IH]; [by rewrite sapp_nil_l|]. rewrite sapp_cons. exact IH. Qed.

Lemma span_word_app w s :
  str_all is_word w = true → match s with String c _ => is_word c = false | _ => True end →
  span_word (w +:+ s) = (w, s).
Proof.
  intros Hw Hs. induction w as [|c w IH].
  - rewrite sapp_nil_l. destruct s as [|c s]; [done|]. cbn. by rewrite Hs.
  - cbn in Hw. apply andb_true_iff in Hw as [Hc Hw]. rewrite sapp_cons. cbn [span_word].
    by rewrite Hc, IH.
Qed.

Lemma to_brace_app code s :
  no_char "}" code → no_char newline code → to_brace (code +:+ "}" +:+ s) = Some code.
Proof.
  induction code as [|c code IH]; intros H1 H2; [done|].
  apply no_char_cons in H1 as [Hc1 H1]. apply no_char_cons in H2 as [Hc2 H2].
  rewrite sapp_cons. cbn [to_brace]. apply Ascii.eqb_neq in Hc1 as ->. apply Ascii.eqb_neq in Hc2 as ->.
  by rewrite IH.
Qed.

Lemma match_subst var code s : token_ok (TSubst var code) →
  match_dollar ("{" +:+ var +:+ code +:+ "}" +:+ s)
    = Some (TSubst var code, (String.length var + String.length code + 2)%nat).
Proof.
  intros (Hne & Hw & Hb & Hn & Hc). cbn [match_dollar append Ascii.eqb].
  change ("{" +:+ ?x) with (String "{" x). cbn [match_dollar].
  replace (Ascii.eqb "{" "$") with false by done. replace (Ascii.eqb "{" "{") with true by done.
  rewrite span_word_app; [|done|by destruct code]. rewrite to_brace_app by done.
  by destruct var.
Qed.

Lemma scan_token t s : token_ok t → scan O (render_token t +:+ s) = t :: scan O s.
Proof.
  destruct t as [c| |var code]; intros Ht.
  - cbn [render_token token_ok] in *. rewrite sapp_cons, sapp_nil_l. cbn [scan].
    by rewrite (proj2 (Ascii.eqb_neq _ _) Ht).
  - done.
  - cbn [render_token]. rewrite !sapp_assoc.
    change ("${" +:+ ?x) with (String "$" ("{" +:+ x)). cbn [scan].
    replace (Ascii.eqb "$" "$") with true by done. rewrite match_subst by done. f_equal.
    transitivity (scan (String.length ("{" +:+ var +:+ code +:+ "}"))
      (("{" +:+ var +:+ code +:+ "}") +:+ s)); [|apply scan_skip].
    rewrite !sapp_assoc. f_equal. rewrite !slength_app. cbn. lia.
Qed.

(** Round trip of the expression that finds the substitutions: a text written from escaped
    dollars, variables with code and other characters is read back as just these. *)
Theorem scan_render (ts : list token) (Hts : Forall token_ok ts) : scan O (render ts) = ts.
Proof.
  induction Hts as [|t ts Ht Hts IH]; [done|]. unfold render in *. cbn [fmap list_fmap sconcat].
  rewrite scan_token by done. by f_equal.
Qed.

Lemma scan_render_witness :
  render [TText "-"; TText "I"; TSubst "SRC" "[0].abspath()"; TDollar; TSubst "X" EmptyString]
    = "-I${SRC[0].abspath()}$$${X}" ∧
  scan O "-I${SRC[0].abspath()}$$${X}" =
    [TText "-"; TText "I"; TSubst "SRC" "[0].abspath()"; TDollar; TSubst "X" EmptyString].
Proof.
  split; [reflexivity|].
  apply (scan_render [TText "-"; TText "I"; TSubst "SRC" "[0].abspath()"; TDollar; TSubst "X" EmptyString]).
  repeat constructor; done.
Defined.

Section facts.
  Context {N : Type} `{WafNode N} (self : @task N) (eval : string → result (@value N)).

Lemma scan_plain s : no_char "$" s → scan O s = (λ c, TText c) <$> list_ascii_of_string s.
Proof.
  induction s as [|c s IH]; [done|]. intros [Hc Hs]%no_char_cons. cbn [scan list_ascii_of_string fmap list_fmap].
  rewrite (proj2 (Ascii.eqb_neq _ _) Hc). by rewrite IH.
Qed.

(** an argument without a dollar is as before *)
Lemma subst_plain s : no_char "$" s → subst_arg self eval s = Ok s.
Proof.
  intros Hs. unfold subst_arg. rewrite scan_plain by done. clear Hs.
  induction s as [|c s IH]; [done|]. cbn. by rewrite IH.
Qed.

(** *** The structure of the pipeline *)

(** the same node but for texts *)
Definition same_node (n n' : node) : Prop :=
  match n, n' with
  | NCommand c, NCommand c' =>
      piped c' = piped c ∧ (good_command c → no_char "$" (name c) → good_command c')
  | NChdir (Some _), NChdir (Some _) | NPipe, NPipe | NAnd, NAnd | NOr, NOr => True
  | _, _ => False
  end.

Lemma subst_target_Ok t t' : subst_target self eval t = Ok t' →
  match t, t' with
  | Some (File _), Some (File _) => True
  | Some (File _), _ => False
  | _, _ => t' = t
  end.
Proof.
  destruct t as [[| |f]|]; cbn; try by intros [= <-].
  destruct (subst_arg self eval f); [|done]. by intros [= <-].
Qed.

Lemma subst_node_same n n' : subst_node self eval n = Ok n' → same_node n n'.
Proof.
  destruct n as [c|[d|]| | |]; cbn; try by intros [= <-].
  - intros Hr. bindsteps. rename select (subst_target _ _ (stdout c) = _) into Ho.
    rename select (subst_target _ _ (stderr c) = _) into He.
    apply subst_target_Ok in Ho, He. split.
    + unfold piped. cbn. destruct (stdout c) as [[]|], x0 as [[]|]; try done; by simplify_eq.
    + intros ([args Ha] & Hout & Herr & Henv) Hn. rename select (subst_args _ _ _ = _) into Hargs.
      rewrite Ha in Hargs. cbn in Hargs. rewrite subst_plain in Hargs by done. cbn in Hargs.
      bindsteps. split; [by eexists|]. cbn. split_and!.
      * destruct (stdout c) as [[]|]; try done; by destruct x0 as [[]|].
      * destruct (stderr c) as [[]|]; try done; by destruct x1 as [[]|].
      * rename select (match env_vars c with _ => _ end = _) into Hv.
        destruct (env_vars c) as [[|[k v] l]|]; [done| |by simplify_eq/=].
        cbn in Hv. by bindsteps.
  - intros Hr. by bindsteps.
Qed.

Lemma subst_pipeline_same pl pl' : subst_pipeline self eval pl = Ok pl' → Forall2 same_node pl pl'.
Proof.
  revert pl'. induction pl as [|n pl IH]; cbn; intros pl' Hr; [by injection Hr as <-|].
  bindsteps. constructor; [by apply subst_node_same|by apply IH].
Qed.

(** running depends on the nodes only through their kinds *)
Lemma same_runnable_status exit_code verbose k pl pl' j :
  (length pl ≤ k)%nat → Forall2 same_node pl pl' →
  runnable pl' = runnable pl ∧ status exit_code pl' j = status exit_code pl j ∧
  one_stage pl' = one_stage pl ∧ started exit_code verbose pl' j = started exit_code verbose pl j.
Proof.
  revert pl pl' j. induction k as [|k IH]; intros pl pl' j Hk Hs.
  { destruct pl; cbn in Hk; [|lia]. by inversion Hs. }
  destruct Hs as [|n n' pl pl' Hn Hs]; [done|].
  destruct n as [c|[d|]| | |], n' as [c'|[d'|]| | |]; try done.
  all: destruct Hs as [|m m' pl pl' Hm Hs]; cbn in Hk |- *;
    try match type of Hn with same_node (NCommand _) _ => destruct Hn as [E0 _]; rewrite E0 end;
    try done.
  all: destruct m as [c1|[d1|]| | |], m' as [c1'|[d1'|]| | |]; try done.
  all: destruct (IH pl pl' j ltac:(lia) Hs) as (E1 & E2 & E3 & E4),
                (IH pl pl' (S j) ltac:(lia) Hs) as (E5 & E6 & E7 & E8);
    cbn; rewrite ?E1, ?E2, ?E3, ?E4, ?E5, ?E6, ?E7, ?E8; done.
Qed.

(** the commands of the substituted pipeline are those of the pipeline with their arguments
    substituted *)
Lemma subst_commands pl pl' : subst_pipeline self eval pl = Ok pl' →
  Forall2 (λ c c', subst_args self eval (argv c) = Ok (argv c')) (commands pl) (commands pl').
Proof.
  revert pl'. induction pl as [|n pl IH]; cbn [subst_pipeline]; intros pl' Hr; [by injection Hr as <-|].
  apply result_bind_Ok in Hr as (n' & Hn & Hr). apply result_bind_Ok in Hr as (l & Hl & [= <-]).
  unfold commands in *. cbn [mbind list_bind]. apply Forall2_app; [|by apply IH].
  destruct n as [c|[d|]| | |]; cbn in Hn; [|by bindsteps; constructor|done|by simplify_eq; constructor..].
  bindsteps. by repeat constructor.
Qed.

Lemma same_good pl pl' :
  Forall2 same_node pl pl' → Forall good_command (commands pl) →
  Forall (λ c, no_char "$" (name c)) (commands pl) → Forall good_command (commands pl').
Proof.
  intros Hs. unfold commands. induction Hs as [|n n' pl pl' Hn Hs IH]; [done|].
  cbn [mbind list_bind]. rewrite !Forall_app. intros [Hg1 Hg2] [Hd1 Hd2]. split; [|by apply IH].
  destruct n as [c|[d|]| | |], n' as [c'|[d'|]| | |]; try done.
  apply Forall_cons in Hg1 as [Hg1 _], Hd1 as [Hd1 _]. apply Forall_singleton.
  destruct Hn as [_ Hn]. exact (Hn Hg1 Hd1).
Qed.

End facts.

Section status.
  Context {N : Type} `{WafNode N} (self : @task N).

(** C27. The run of a command task whose command parses to a pipeline of the grammar, every cd with
    its directory and followed by a command, provided its files open and its programs start and no
    command has a variable for its name.  What is substituted changes neither the status nor which
    commands run: the processes started are the first commands of the pipeline, up to the one whose
    status stops it, each with its own arguments substituted, and the status is that of the pipeline
    as it was written.  With a verbosity above 0 this holds for one stage only: behind the first
    stage of several, joined by && or ||, the run raises UnboundLocalError. *)
Theorem task_status (exit_code : nat → Z) (can_open : string → bool)
    (can_spawn : list string → bool) (environ : list (string * string)) (verbose : Z)
    (merged_dict : list (string * @value N)) variables
    (eval_in : list (string * @value N) → string → result (@value N)) command pl pl' w
    (Hparse : Parse.parse command = Ok pl) (Hrun : runnable pl = true)
    (Hsubst : subst_pipeline self (eval_in (namespace merged_dict variables)) pl = Ok pl')
    (Hnames : Forall (λ c, no_char "$" (name c)) (commands pl))
    (Hopen : ∀ p, can_open p = true) (Hspawn : ∀ a, can_spawn a = true) :
  ∃ w' argvs,
    Command.run self eval_in merged_dict variables exit_code can_open can_spawn environ verbose command w
      = (if (0 <? verbose) && negb (one_stage pl) then Raise UnboundLocalError
         else Ok (Some (status exit_code pl (Run.n_proc w))), w') ∧
    Forall2 (λ c a, subst_args self (eval_in (namespace merged_dict variables)) (argv c) = Ok a)
      (take (started exit_code (0 <? verbose) pl (Run.n_proc w)) (commands pl)) argvs ∧
    spawned (Run.log w') = spawned (Run.log w) ++ argvs.
Proof.
  unfold Command.run, py_lift. cbv [mbind py_bind]. rewrite Hparse, Hsubst.
  unfold Parse.parse in Hparse. apply result_bind_Ok in Hparse as (tokens & _ & Hparse).
  apply parse_tokens_good in Hparse as [_ Hgood].
  assert (Forall2 same_node pl pl') as Hs by exact (subst_pipeline_same _ _ _ _ Hsubst).
  destruct (same_runnable_status exit_code (0 <? verbose) (length pl) pl pl' (Run.n_proc w) ltac:(done) Hs)
    as (Hr' & <- & <- & <-).
  rewrite Hrun in Hr'. unfold Run.run.
  destruct (run_loop_spawns exit_code can_open can_spawn environ (0 <? verbose) Hopen Hspawn pl'
    (runnable_shape pl' Hr') Hr' (same_good pl pl' Hs Hgood Hnames) Run.init_locals w)
    as (w' & E & S); [done|].
  exists w', (argv <$> take (started exit_code (0 <? verbose) pl' (Run.n_proc w)) (commands pl')).
  split; [exact E|]. split; [|exact S]. apply Forall2_fmap_r, Forall2_take. by apply subst_commands.
Qed.
End status.

Definition sample_task : @task path_node :=
  mk_task [mk_path_node false "main.c"] [mk_path_node true "out.txt"].
Definition sample_eval (ns : list (string * @value path_node)) (code : string)
    : result (@value path_node) :=
  match dict_get ns code with Some v => Ok v | None => Raise (PyException "NameError") end.

Lemma task_status_witness :
  ∃ w' argvs, Command.run sample_task sample_eval [] None (λ _, 3) (λ _, true) (λ _, true) [] 1
     "cat ${SRC} > ${TGT}" RunFacts.start = (Ok (Some 3), w') ∧ spawned (Run.log w') = argvs ∧
    argvs = [["cat"; "main.c"]].
Proof.
  assert (Forall (λ c, no_char "$" (name c)) (commands
    [NCommand (mk_command "cat" ["cat"; "${SRC}"] None (Some (File "${TGT}")) None None)])) as Hn
    by (repeat constructor).
  destruct (task_status sample_task (λ _, 3) (λ _, true) (λ _, true) [] 1 [] None sample_eval
    "cat ${SRC} > ${TGT}"
    [NCommand (mk_command "cat" ["cat"; "${SRC}"] None (Some (File "${TGT}")) None None)]
    [NCommand (mk_command "cat" ["cat"; "main.c"] None (Some (File "/top/build/out.txt")) None None)]
    RunFacts.start) as (w' & argvs & Hr & Ha & Hs); try reflexivity; [exact Hn|].
  exists w', argvs. split; [exact Hr|]. split; [exact Hs|].
  inversion Ha as [|? ? ? ? Ha1 Ha2]; subst. inversion Ha2; subst.
  injection Ha1 as <-. reflexivity.
Defined.
End CommandFacts.
