(* ===== verification/BuildTools.v ===== *)
(** * The compilation database and the relocation of a project

    waf-tools/clang_compilation_database.py ([ClangDb]) collects the compiled tasks and writes their
    command lines for clang; waf-tools/relocation.py ([Relocation]) notices that the source
    directory was moved and moves the nodes of the build along, over a store of nodes.  Reading and
    printing JSON, digests and the methods of waf that are wrapped are parameters. *)
From Stdlib Require Import ZArith Lia Ascii String.
From stdpp Require Import base list strings gmap.
From S2P Require Import Prelude PyStr WUtils ShellCmd.

(** ** clang_compilation_database.py *)
Module ClangDb.

(** [shlex.quote] and [pipes.quote] *)
Definition safe_char (c : ascii) : bool := is_word c || has_char c "@%+=:,./-".
Definition squote_text : string := String Shlex.squote EmptyString.
(** the replacement of a single quote: the quotes are closed, it is put into double quotes, and they
    are opened again *)
Fixpoint escape_quotes (s : string) : string :=
  match s with
  | EmptyString => EmptyString
  | String c s =>
      if Ascii.eqb c Shlex.squote
      then squote_text +:+ String Shlex.dquote (squote_text +:+ String Shlex.dquote squote_text)
             +:+ escape_quotes s
      else String c (escape_quotes s)
  end.
Definition quote (s : string) : string :=
  if negb (truthy s) then squote_text +:+ squote_text
  else if str_all safe_char s then s
  else squote_text +:+ escape_quotes s +:+ squote_text.

(** a task of the build *)
Record task := mk_task {
  t_compiles : bool;                      (* an instance of [c.c] or [cxx.cxx] *)
  t_last_cmd : option (list string);
  t_cwd : option string;
  t_inputs : list string                  (* absolute paths *)
}.

(** what is kept in the build context *)
Record bld := mk_bld {
  clang_compilation_database_tasks : option (list task);
  post_funs : nat                         (* how often [write_compilation_database] was added *)
}.

Definition collect_compilation_db_tasks (compiled_tasks : list task) (b : bld) : bld :=
  let '(db, n) := match clang_compilation_database_tasks b with
                  | Some db => (db, post_funs b)
                  | None => ([], S (post_funs b))
                  end in
  mk_bld (Some (db ++ List.filter t_compiles compiled_tasks)) n.

Definition entry := list (string * string).
Definition get_file (x : entry) : result string :=
  match dict_get x "file" with Some f => Ok f | None => Raise KeyError end.

(** [dict((x["file"], x) for x in root)] *)
Fixpoint by_file (root : list entry) (db : list (string * entry)) : result (list (string * entry)) :=
  match root with
  | [] => Ok db
  | x :: root => f ← get_file x; by_file root (dict_set db f x)
  end.

Section write.
  Variable cwd : string.
  Variable variant_dir : string.

Definition directory (t : task) : string := default variant_dir (t_cwd t).

(** the entry of a task that has run, with its key *)
Definition task_entry (t : task) (cmd : list string) : result (string * entry) :=
  match t_inputs t with
  | [] => Raise IndexError
  | f_node :: _ =>
      filename ← Template.std_relpath cwd f_node (directory t);
      Ok (filename, [("directory", directory t); ("command", join " " (quote <$> cmd));
                     ("file", filename)])
  end.

Fixpoint add_tasks (ts : list task) (db : list (string * entry))
    : result (list (string * entry)) :=
  match ts with
  | [] => Ok db
  | t :: ts =>
      match t_last_cmd t with
      | None => add_tasks ts db
      | Some cmd => '(f, e) ← task_entry t cmd; add_tasks ts (dict_set db f e)
      end
  end.

(** [load] is what reading the old file gives, None when it cannot be opened; the result is the
    line of the log and the text written *)
Definition write_compilation_database (load : option (result (list entry)))
    (dumps : list entry → string) (database_path : string) (b : bld) : string * result string :=
  ("Build commands will be stored in " +:+ database_path,
   root ← (match load with None => Ok [] | Some r => r end);
   clang_db ← by_file root [];
   clang_db ← add_tasks (default [] (clang_compilation_database_tasks b)) clang_db;
   Ok (dumps clang_db.*2)).
End write.
End ClangDb.

(** ** relocation.py *)
Module Relocation.

(** a node of the tree: its children by name, and its parent *)
Record tnode := mk_tnode { children : list (string * nat); parent : option nat }.

Definition set_children (n : nat) (cs : list (string * nat)) (t : gmap nat tnode) : gmap nat tnode :=
  alter (λ x, mk_tnode cs (parent x)) n t.
Definition add_child (n : nat) (k : string) (v : nat) (t : gmap nat tnode) : gmap nat tnode :=
  alter (λ x, mk_tnode (dict_set (children x) k v) (parent x)) n t.
Definition set_parent (v n : nat) (t : gmap nat tnode) : gmap nat tnode :=
  alter (λ x, mk_tnode (children x) (Some n)) v t.
Definition children_of (n : nat) (t : gmap nat tnode) : list (string * nat) :=
  match t !! n with Some x => children x | None => [] end.

Definition EXTRA_LOCK : string := ".old_srcdir".
Definition lock_file (variant_dir : string) : string := path_join variant_dir EXTRA_LOCK.

(** [store]: after waf's own, the source directory is written to the lock file *)
Definition store (old1 : result unit) (variant_dir srcdir : string)
    : result (string * list (string * string)) :=
  old1 ;; Ok (lock_file variant_dir, [("SRCDIR", srcdir)]).

(** the state: the nodes, and the lines printed *)
Record rstate := mk_rstate { nodes : gmap nat tnode; printed : list string }.
Definition upd (f : gmap nat tnode → gmap nat tnode) : py rstate unit :=
  py_modify (λ s, mk_rstate (f (nodes s)) (printed s)).

Section init_dirs.
  (** [root.find_node] and [root.make_node], and waf's own [init_dirs] *)
  Variable find_node : string → option nat.
  Variable make_node : string → nat.
  Variable old2 : py rstate unit.
  (** the variables of the lock file; None on any exception *)
  Variable load : string → option (list (string * string)).

(** the loop body: the child gets its new parent *)
Definition adopt_child (srcnode : nat) (kv : string * nat) : py rstate unit :=
  upd (add_child srcnode kv.1 kv.2) ;; upd (set_parent kv.2 srcnode).

(** the move of the children of [d] to [srcnode] *)
Definition relocate (d srcnode : nat) : py rstate unit :=
  upd (set_children srcnode []) ;;
  s ← py_get;
  py_for (children_of d (nodes s)) (adopt_child srcnode) ;;
  upd (set_children d []).

Definition is_abs (p : string) : bool := startswith p "/".

Definition init_dirs (top_dir out_dir variant_dir : string) : py rstate unit :=
  if negb (is_abs top_dir && is_abs out_dir) then
    py_raise (WafError ("The project was not configured: run " +:+
      String Shlex.dquote ("waf configure" +:+ String Shlex.dquote " first!")))
  else
    let srcdir := match load (lock_file variant_dir) with
                  | Some env => default EmptyString (dict_get env "SRCDIR")
                  | None => EmptyString
                  end in
    (if truthy srcdir then
       s ← py_get;
       match find_node srcdir with
       | Some d =>
           if negb (srcdir =? top_dir)%string && negb (bool_decide (children_of d (nodes s) = []))
           then
             py_modify (λ s, mk_rstate (nodes s) (printed s ++
               ["relocating the source directory " +:+ Repr.py_repr srcdir +:+ " -> " +:+
                Repr.py_repr top_dir])) ;;
             relocate d (make_node top_dir)
           else mret ()
       | None => mret ()
       end
     else mret ()) ;;
    old2.
End init_dirs.

(** the identifier of a task: computed once from its class and the paths of its files *)
Definition uid {digest} (md5 : list string → digest) (class_name : string)
    (paths : list string) (cached : option digest) : digest * option digest :=
  match cached with
  | Some u => (u, cached)
  | None => let u := md5 (class_name :: paths) in (u, Some u)
  end.

(** an include directory: relative to the build directory when it is inside the source tree; an
    empty relative path is not used *)
Record inc_node := mk_inc { i_in_source : bool; i_from_build : string; i_abspath : string }.
Definition inc_path (x : inc_node) : string :=
  if i_in_source x && truthy (i_from_build x) then i_from_build x else i_abspath x.
(** (includes_nodes, INCPATHS) *)
Definition apply_incpaths (to_incnodes : list string → list inc_node)
    (includes env_includes : list string) : list inc_node * list string :=
  let lst := to_incnodes (includes ++ env_includes) in (lst, inc_path <$> lst).
End Relocation.

(** ** Facts about the compilation database *)
Module ClangFacts.
Import Shlex ClangDb.

(** *** Quoted words are read back *)

Lemma lex_word_plain tok acc s r :
  str_all (λ c, negb (lex_space c || lex_quote c || Ascii.eqb c backslash)) s = true →
  lex LWord tok acc (s +:+ r) = lex LWord (tok +:+ s) acc r.
Proof.
  revert tok. induction s as [|c s IH]; intros tok Hs; [by rewrite sapp_nil_l, sapp_nil_r|].
  cbn in Hs. apply andb_true_iff in Hs as [Hc Hs]. apply negb_true_iff in Hc.
  apply orb_false_iff in Hc as [Hc Hb]. apply orb_false_iff in Hc as [Hsp Hq].
  rewrite sapp_cons. cbn [lex]. rewrite Hsp, Hq, Hb, IH by done.
  unfold snoc. by rewrite sapp_assoc, sapp_cons, sapp_nil_l.
Qed.

Lemma safe_plain c : safe_char c = true → negb (lex_space c || lex_quote c || Ascii.eqb c backslash) = true.
Proof.
  intros Hc. destruct (negb _) eqn:E; [done|]. exfalso. apply negb_false_iff in E.
  assert (c = " "%char ∨ c = "009"%char ∨ c = "010"%char ∨ c = "013"%char ∨ c = squote ∨
          c = dquote ∨ c = backslash) as Hd.
  { unfold lex_space, lex_quote in E. rewrite !orb_true_iff, !Ascii.eqb_eq in E. intuition. }
  by repeat destruct Hd as [->|Hd]; [..|subst].
Qed.

Lemma lex_squoted tok acc s r :
  lex (LQuote squote) tok acc (escape_quotes s +:+ squote_text +:+ r) = lex LWord (tok +:+ s) acc r.
Proof.
  revert tok. induction s as [|c s IH]; intros tok.
  - rewrite sapp_nil_r. by cbn.
  - cbn [escape_quotes]. destruct (decide (c = squote)) as [->|Hc].
    + rewrite Ascii.eqb_refl.
      change (lex (LQuote squote) (snoc tok squote) acc (escape_quotes s +:+ squote_text +:+ r)
              = lex LWord (tok +:+ String squote s) acc r).
      rewrite IH. f_equal. unfold snoc. by rewrite sapp_assoc, sapp_cons, sapp_nil_l.
    + rewrite (proj2 (Ascii.eqb_neq c squote)) by done. rewrite sapp_cons. cbn [lex]. rewrite (proj2 (Ascii.eqb_neq _ _) Hc).
      change (Ascii.eqb squote dquote) with false. rewrite andb_false_r, IH. f_equal.
      unfold snoc. by rewrite sapp_assoc, sapp_cons, sapp_nil_l.
Qed.

(** a quoted word at the start of a token is read as the word *)
Lemma lex_quote_word acc s r : lex LStart EmptyString acc (quote s +:+ r) = lex LWord s acc r.
Proof.
  unfold quote. destruct (truthy s) eqn:Et; cbn [negb].
  - destruct (str_all safe_char s) eqn:Es.
    + destruct s as [|c s]; [done|]. cbn in Es. apply andb_true_iff in Es as [Hc Hs].
      rewrite sapp_cons. cbn [lex]. apply safe_plain in Hc as Hc'. apply negb_true_iff in Hc'.
      apply orb_false_iff in Hc' as [Hc' Hb]. apply orb_false_iff in Hc' as [Hsp Hq].
      rewrite Hsp, Hq, Hb. rewrite lex_word_plain; [done|].
      revert Hs. apply str_all_impl. intros a. apply safe_plain.
    + rewrite !sapp_assoc. change (squote_text +:+ ?x) with (String squote x) at 1.
      apply lex_squoted.
  - by destruct s.
Qed.

(** Round trip of the command in the database: splitting the written command line into shell
    words gives the words of the command, whatever characters they have. *)
Theorem command_reads_back (cmd : list string) :
  shlex_split (join " " (quote <$> cmd)) = Ok cmd.
Proof.
  unfold shlex_split.
  assert (∀ acc, lex LStart EmptyString acc (join " " (quote <$> cmd)) = Ok (acc ++ cmd)) as H; [|apply H].
  induction cmd as [|w cmd IH]; intros acc; [cbn; by rewrite app_nil_r|].
  destruct cmd as [|w2 cmd].
  - cbn [fmap list_fmap join]. rewrite <- (sapp_nil_r (quote w)), lex_quote_word. done.
  - change (join " " (quote <$> w :: w2 :: cmd)) with
      (quote w +:+ " " +:+ join " " (quote <$> w2 :: cmd)).
    rewrite lex_quote_word. change (" " +:+ ?x) with (String " " x). cbn [lex].
    change (lex_space " ") with true. cbv iota. rewrite IH. by rewrite <- app_assoc.
Qed.

(** *** The entries of the database *)

Lemma dict_get_app {V} (a b : list (string * V)) k :
  dict_get (a ++ b) k = match dict_get a k with Some v => Some v | None => dict_get b k end.
Proof. induction a as [|[k0 v] a IH]; cbn; [done|]. by case_decide. Qed.

Section entries.
  Context (cwd variant_dir : string).

(** the tasks that have run, with the entry of each *)
Definition run_entries (ts : list task) : result (list (string * entry)) :=
  foldr (λ t r, match t_last_cmd t with
                | None => r
                | Some cmd => e ← task_entry cwd variant_dir t cmd; l ← r; Ok (e :: l)
                end) (Ok []) ts.

(** The database holds for every file the entry of the last of its tasks that has run, and for
    other files what the old database said; the file names are relative to the directory of the
    task. *)
Theorem database_entries ts db db' l f
    (Hl : run_entries ts = Ok l) (Hdb : add_tasks cwd variant_dir ts db = Ok db') :
  dict_get db' f =
    match dict_get (rev l) f with Some e => Some e | None => dict_get db f end.
Proof.
  revert db l Hl Hdb. induction ts as [|t ts IH]; intros db l; cbn [run_entries foldr add_tasks].
  { intros [= <-] [= <-]. done. }
  destruct (t_last_cmd t) as [cmd|]; [|by apply IH]. intros Hl Hdb.
  apply result_bind_Ok in Hl as ([f0 e0] & Hx & Hl). apply result_bind_Ok in Hl as (l' & Hl' & Hl).
  injection Hl as <-. rewrite Hx in Hdb. cbn in Hdb.
  rewrite (IH _ l' Hl' Hdb). cbn [rev]. rewrite dict_get_app. cbn.
  destruct (dict_get (rev l') f); [done|]. rewrite dict_get_set. by case_decide.
Qed.
End entries.

Lemma database_entries_witness :
  let t d cmd := mk_task true (Some cmd) d ["/src/a.cc"] in
  dict_get (dict_set (dict_set [("old.c", [("file", "old.c")])] "../src/a.cc"
      [("directory", "/b"); ("command", "cc 'x y'"); ("file", "../src/a.cc")]) "../src/a.cc"
      [("directory", "/b"); ("command", "cc -O"); ("file", "../src/a.cc")]) "../src/a.cc"
    = Some [("directory", "/b"); ("command", "cc -O"); ("file", "../src/a.cc")] ∧
  add_tasks "/" "/b" [t None ["cc"; "x y"]; t (Some "/b") ["cc"; "-O"]] [] =
    Ok [("../src/a.cc", [("directory", "/b"); ("command", "cc -O"); ("file", "../src/a.cc")])].
Proof.
  intros t. split; [|reflexivity].
  apply (database_entries "/" "/b" [t None ["cc"; "x y"]; t (Some "/b") ["cc"; "-O"]]
    [("old.c", [("file", "old.c")])] _
    [("../src/a.cc", [("directory", "/b"); ("command", "cc 'x y'"); ("file", "../src/a.cc")]);
     ("../src/a.cc", [("directory", "/b"); ("command", "cc -O"); ("file", "../src/a.cc")])]
    "../src/a.cc"); reflexivity.
Defined.
End ClangFacts.

(** ** Facts about the relocation *)
Module RelocationFacts.
Import Relocation.

Lemma children_alter f n m (t : gmap nat tnode) :
  children_of m (alter f n t) =
    if decide (n = m) then match t !! m with Some x => children (f x) | None => [] end
    else children_of m t.
Proof.
  unfold children_of. case_decide as Hn.
  - subst. rewrite lookup_alter_eq. by destruct (t !! m).
  - by rewrite lookup_alter_ne.
Qed.

Lemma children_set_parent v n m (t : gmap nat tnode) : children_of m (set_parent v n t) = children_of m t.
Proof.
  unfold set_parent. rewrite children_alter. case_decide; [|done]. subst. unfold children_of.
  by destruct (t !! m).
Qed.

Lemma children_clear n m (t : gmap nat tnode) :
  children_of m (set_children n [] t) = if decide (m = n) then [] else children_of m t.
Proof.
  unfold set_children. rewrite children_alter. destruct (decide (n = m)) as [->|Hn].
  - rewrite decide_True by done. by destruct (t !! m).
  - by rewrite decide_False by congruence.
Qed.

(** the loop over the children *)
Definition adopt (srcnode : nat) (kvs : list (string * nat)) (t : gmap nat tnode) : gmap nat tnode :=
  foldl (λ t kv, set_parent kv.2 srcnode (add_child srcnode kv.1 kv.2 t)) t kvs.

Lemma adopt_cons srcnode k v kvs t :
  adopt srcnode ((k, v) :: kvs) t = adopt srcnode kvs (set_parent v srcnode (add_child srcnode k v t)).
Proof. reflexivity. Qed.

Lemma adopt_loop srcnode kvs s :
  py_for kvs (adopt_child srcnode) s
    = (Ok (), mk_rstate (adopt srcnode kvs (nodes s)) (printed s)).
Proof.
  revert s. induction kvs as [|[k v] kvs IH]; intros s; [by destruct s|]. cbn.
  cbv [mbind py_bind]. change (adopt_child srcnode (k, v) s) with
    (Ok (), mk_rstate (set_parent v srcnode (add_child srcnode k v (nodes s))) (printed s)).
  cbv iota beta. by rewrite IH.
Qed.

Lemma adopt_children srcnode kvs m t :
  is_Some (t !! srcnode) →
  children_of m (adopt srcnode kvs t) =
    if decide (m = srcnode) then dict_update (children_of m t) kvs else children_of m t.
Proof.
  revert t. induction kvs as [|[k v] kvs IH]; intros t Ht; [by cbn; case_decide|].
  rewrite adopt_cons, IH.
  - rewrite children_set_parent. unfold add_child. rewrite children_alter.
    case_decide as Hm; [|by rewrite decide_False by congruence]. subst.
    rewrite decide_True by done. destruct Ht as [x Hx]. unfold children_of. by rewrite Hx.
  - unfold set_parent, add_child. destruct Ht as [x Hx].
    destruct (decide (v = srcnode)) as [->|Hv].
    + rewrite !lookup_alter_eq, Hx. by eexists.
    + rewrite lookup_alter_ne by done. rewrite lookup_alter_eq, Hx. by eexists.
Qed.

Lemma dict_update_fresh {V} (d kvs : list (string * V)) :
  NoDup (d.*1 ++ kvs.*1) → dict_update d kvs = d ++ kvs.
Proof.
  unfold dict_update. revert d. induction kvs as [|[k v] kvs IH]; intros d Hnd; cbn.
  { by rewrite app_nil_r. }
  cbn in Hnd. rewrite dict_set_fresh.
  - rewrite IH; [by rewrite <- app_assoc|]. rewrite fmap_app. cbn. by rewrite <- app_assoc.
  - apply NoDup_app in Hnd as (_ & Hd & _). intros Hk. apply (Hd k Hk). by left.
Qed.

Lemma parent_set_children n cs m (t : gmap nat tnode) :
  parent <$> (set_children n cs t !! m) = parent <$> (t !! m).
Proof.
  unfold set_children. destruct (decide (n = m)) as [->|Hn].
  - rewrite lookup_alter_eq. by destruct (t !! m).
  - by rewrite lookup_alter_ne.
Qed.

Lemma adopt_parent srcnode kvs m (t : gmap nat tnode) :
  parent <$> (adopt srcnode kvs t !! m) =
    if decide (m ∈ kvs.*2) then (λ _, Some srcnode) <$> (t !! m) else parent <$> (t !! m).
Proof.
  revert t. induction kvs as [|[k v] kvs IH]; intros t.
  { by rewrite decide_False by apply not_elem_of_nil. }
  rewrite adopt_cons, IH. cbn [fmap list_fmap snd]. set (t1 := set_parent v srcnode (add_child srcnode k v t)).
  assert (parent <$> (t1 !! m) = if decide (m = v) then (λ _, Some srcnode) <$> (t !! m)
                                 else parent <$> (t !! m)) as E1.
  { clear IH. unfold t1, set_parent, add_child. destruct (decide (m = v)) as [->|Hv].
    - rewrite lookup_alter_eq. destruct (decide (srcnode = v)) as [->|Hs].
      + rewrite lookup_alter_eq. by destruct (t !! v).
      + rewrite lookup_alter_ne by done. by destruct (t !! v).
    - rewrite lookup_alter_ne by done. destruct (decide (srcnode = m)) as [->|Hs].
      + rewrite lookup_alter_eq. by destruct (t !! m).
      + by rewrite lookup_alter_ne. }
  assert ((λ _ : tnode, Some srcnode) <$> (t1 !! m) = (λ _, Some srcnode) <$> (t !! m)) as E2.
  { clear IH. destruct (t1 !! m), (t !! m); try done; cbn in E1; by case_decide. }
  destruct (decide (m ∈ kvs.*2)) as [Hin|Hin].
  - rewrite E2, decide_True by by right. done.
  - rewrite E1. destruct (decide (m = v)) as [->|Hv].
    + by rewrite decide_True by left.
    + rewrite decide_False; [done|]. by intros [?|?]%elem_of_cons.
Qed.

(** Relocation moves the tree: when the old and the new source directory are different nodes,
    the new one has exactly the children of the old one, in their order, and is the parent of each,
    the old one has none left, and every other node has the children it had. *)
Theorem relocate_moves_children d srcnode s
    (Hne : d ≠ srcnode) (Hsrc : is_Some (nodes s !! srcnode))
    (Hnd : NoDup (children_of d (nodes s)).*1) :
  ∃ s', relocate d srcnode s = (Ok (), s') ∧ printed s' = printed s ∧
    children_of srcnode (nodes s') = children_of d (nodes s) ∧
    children_of d (nodes s') = [] ∧
    (∀ m, m ≠ d → m ≠ srcnode → children_of m (nodes s') = children_of m (nodes s)) ∧
    (∀ m, parent <$> (nodes s' !! m) =
       if decide (m ∈ (children_of d (nodes s)).*2) then (λ _, Some srcnode) <$> (nodes s !! m)
       else parent <$> (nodes s !! m)).
Proof.
  set (t1 := set_children srcnode [] (nodes s)).
  assert (∀ m, children_of m t1 = if decide (m = srcnode) then [] else children_of m (nodes s)) as E1
    by (intros m; apply children_clear).
  assert (is_Some (t1 !! srcnode)) as Hs1.
  { unfold t1, set_children. rewrite lookup_alter_eq. destruct Hsrc as [x ->]. by eexists. }
  exists (mk_rstate (set_children d [] (adopt srcnode (children_of d (nodes s)) t1)) (printed s)).
  unfold relocate. cbv [mbind py_bind py_get]. cbn. fold t1.
  rewrite adopt_loop, E1, decide_False by done. cbn.
  split; [done|]. split; [done|]. rewrite !children_clear.
  rewrite decide_False, adopt_children, decide_True by done.
  rewrite E1, decide_True by done. split; [by apply dict_update_fresh|].
  split; [by rewrite decide_True|]. split.
  - intros m Hd Hm. rewrite children_clear, decide_False by done.
    by rewrite adopt_children, decide_False, E1, decide_False by done.
  - intros m. rewrite parent_set_children, adopt_parent.
    assert (parent <$> (t1 !! m) = parent <$> (nodes s !! m)) as E2 by apply parent_set_children.
    rewrite E2. case_decide; [|done].
    destruct (t1 !! m), (nodes s !! m); done.
Qed.

Lemma relocate_moves_children_witness :
  let t := list_to_map [(0%nat, mk_tnode [("old", 1%nat); ("new", 2%nat)] None);
                        (1%nat, mk_tnode [("a.c", 3%nat)] (Some 0%nat));
                        (2%nat, mk_tnode [] (Some 0%nat)); (3%nat, mk_tnode [] (Some 1%nat))] : gmap nat tnode in
  ∃ s', relocate 1 2 (mk_rstate t []) = (Ok (), s') ∧
    children_of 2 (nodes s') = [("a.c", 3%nat)] ∧ parent <$> (nodes s' !! 3%nat) = Some (Some 2%nat).
Proof.
  intros t. destruct (relocate_moves_children 1 2 (mk_rstate t [])) as (s' & E & _ & Hc & _ & _ & Hp).
  - done.
  - by eexists.
  - apply NoDup_singleton.
  - exists s'. split; [exact E|]. split; [exact Hc|]. rewrite Hp. reflexivity.
Defined.
End RelocationFacts.
