(* ===== verification/ModuleScan.v ===== *)
(** * ns3modulescan.py: scanning the headers of ns-3 for the Python bindings

    bindings/python/ns3modulescan.py: the table of annotations, the hook that annotates every
    definition the header parser finds, the classification of definitions into the sections of
    the output, and the scan.  The declarations of pygccxml are records of what the code reads of
    them, its template helpers, the module parser of pybindgen and the topological sort are
    parameters.  The file runs under Python 2 and 3, which differ in [dict.keys] and
    [dict.items]; [python3] tells which. *)
From Stdlib Require Import ZArith Lia Ascii String.
From stdpp Require Import base list strings sorting.
From S2P Require Import Prelude PyStr WUtils.

(** ** Declarations and annotations *)
Module Decl.
(** the classes of pygccxml the code tests for; every kind but a class, an enumeration and
    [OtherDecl] is a [calldef_t] *)
Inductive kind :=
  | ClassT | FreeFunctionT | MemberFunctionT | ConstructorT | EnumerationT | OtherCalldef
  | OtherDecl.
#[export] Instance kind_eq_dec : EqDecision kind.
Proof. solve_decision. Defined.

Record definition := mk_definition {
  d_kind : kind;
  d_name : string;
  d_parent : string;              (* [parent.name] *)
  d_text : string;                (* [str(definition)] *)
  d_decl_string : string;
  d_demangled : string;
  d_file : string;                (* [location.file_name] *)
  d_defaults : list (option string)   (* the default values of the arguments *)
}.

Definition is_calldef (k : kind) : bool :=
  match k with
  | FreeFunctionT | MemberFunctionT | ConstructorT | OtherCalldef => true
  | _ => false
  end.
Definition is_function (k : kind) : bool :=
  match k with FreeFunctionT | MemberFunctionT | ConstructorT => true | _ => false end.

(** the value of an annotation: a text, [None], [True], or the annotations of the parameters *)
Definition param_annotations : Type := list (string * list (string * string)).
Inductive entry := EStr (s : string) | ENone | ETrue | EParams (p : param_annotations).
Definition annotations : Type := list (string * entry).
#[export] Instance entry_eq_dec : EqDecision entry.
Proof. solve_decision. Defined.

(** a dictionary display: a later value of a key replaces the earlier one *)
Definition dict_of {V} (l : list (string * V)) : list (string * V) := dict_update [] l.
Definition dict_del {V} (d : list (string * V)) (k : string) : list (string * V) :=
  List.filter (λ x, negb (x.1 =? k)%string) d.
End Decl.

Module Scan.
Import Decl.

Definition type_annotations : list (string * annotations) := dict_of
  [("::ns3::AttributeChecker",
    [("automatic_type_narrowing", EStr "true"); ("allow_subclassing", EStr "false")]);
   ("::ns3::AttributeValue",
    [("automatic_type_narrowing", EStr "true"); ("allow_subclassing", EStr "false")]);
   ("::ns3::CommandLine",
    [("allow_subclassing", EStr "true")]);
   ("::ns3::NscTcpL4Protocol",
    [("ignore", EStr "true")]);
   ("ns3::RandomVariable::RandomVariable(ns3::RandomVariableBase const & variable) [constructor]",
    [("ignore", ENone)]);
   ("ns3::RandomVariableBase * ns3::RandomVariable::Peek() const [member function]",
    [("ignore", ENone)]);
   ("void ns3::RandomVariable::GetSeed(uint32_t * seed) const [member function]",
    [("params", EParams [("seed", [("direction", "out"); ("array_length", "6")])])]);
   ("bool ns3::TypeId::LookupAttributeByName(std::string name, ns3::TypeId::AttributeInformation * info) const [member function]",
    [("params", EParams [("info", [("transfer_ownership", "false")])])]);
   ("static bool ns3::TypeId::LookupByNameFailSafe(std::string name, ns3::TypeId * tid) [member function]",
    [("ignore", ENone)]);
   ("bool ns3::TraceSourceAccessor::ConnectWithoutContext(ns3::ObjectBase * obj, ns3::CallbackBase const & cb) const [member function]",
    [("params", EParams [("obj", [("transfer_ownership", "false")])])]);
   ("bool ns3::TraceSourceAccessor::Connect(ns3::ObjectBase * obj, std::string context, ns3::CallbackBase const & cb) const [member function]",
    [("params", EParams [("obj", [("transfer_ownership", "false")])])]);
   ("bool ns3::TraceSourceAccessor::DisconnectWithoutContext(ns3::ObjectBase * obj, ns3::CallbackBase const & cb) const [member function]",
    [("params", EParams [("obj", [("transfer_ownership", "false")])])]);
   ("bool ns3::TraceSourceAccessor::Disconnect(ns3::ObjectBase * obj, std::string context, ns3::CallbackBase const & cb) const [member function]",
    [("params", EParams [("obj", [("transfer_ownership", "false")])])]);
   ("bool ns3::AttributeAccessor::Set(ns3::ObjectBase * object, ns3::AttributeValue const & value) const [member function]",
    [("params", EParams [("object", [("transfer_ownership", "false")])])]);
   ("ns3::EmpiricalVariable::EmpiricalVariable(ns3::RandomVariableBase const & variable) [constructor]",
    [("ignore", ENone)]);
   ("static ns3::AttributeList * ns3::AttributeList::GetGlobal() [member function]",
    [("caller_owns_return", EStr "false")]);
   ("void ns3::CommandLine::Parse(int argc, char * * argv) const [member function]",
    [("ignore", ENone)]);
   ("extern void ns3::PythonCompleteConstruct(ns3::Ptr<ns3::Object> object, ns3::TypeId typeId, ns3::AttributeList const & attributes) [free function]",
    [("ignore", ENone)]);
   ("ns3::Ptr<ns3::Ipv4RoutingProtocol> ns3::Ipv4ListRouting::GetRoutingProtocol(uint32_t index, int16_t & priority) const [member function]",
    [("params", EParams [("priority", [("direction", "out")])])]);
   ("ns3::Ipv4RoutingTableEntry * ns3::GlobalRouter::GetInjectedRoute(uint32_t i) [member function]",
    [("params", EParams [("return", [("caller_owns_return", "false")])])]);
   ("ns3::Ipv4RoutingTableEntry * ns3::Ipv4GlobalRouting::GetRoute(uint32_t i) const [member function]",
    [("params", EParams [("return", [("caller_owns_return", "false")])])]);
   ("::ns3::TestCase",
    [("ignore", EStr "true")]);
   ("::ns3::TestRunner",
    [("ignore", EStr "true")]);
   ("::ns3::TestSuite",
    [("ignore", EStr "true")])].

(** ** The path of a header inside the directory ns3 *)

(** the loop, as far as [fuel] rounds go; [None] when it still runs *)
Fixpoint relative_loop (path : string) (fuel : nat) (head : string) (l : list string)
    : option (result string) :=
  match fuel with
  | O => None
  | S fuel =>
      if negb (truthy head) then Some (Raise AssertionError)
      else
        let '(head, tail) := path_split head in
        if (tail =? "ns3")%string then
          Some (match l with [] => Raise TypeError | x :: l => Ok (path_joins x l) end)
        else relative_loop path fuel head (tail :: l)
  end.

Definition get_ns3_relative_path (fuel : nat) (path : string) : option (result string) :=
  relative_loop path fuel path [].

(** ** The hook *)

(** what a call of the hook changes: the table of the module, the default values of the
    definition, the annotations of the definition and of its parameters *)
Record hook_state := mk_hook {
  h_table : list (string * annotations);
  h_defaults : list (option string);
  h_global : annotations;
  h_params : param_annotations
}.
Definition set_table t (s : hook_state) : hook_state :=
  {| h_table := t; h_defaults := h_defaults s; h_global := h_global s; h_params := h_params s |}.
Definition set_defaults d (s : hook_state) : hook_state :=
  {| h_table := h_table s; h_defaults := d; h_global := h_global s; h_params := h_params s |}.
Definition set_global g (s : hook_state) : hook_state :=
  {| h_table := h_table s; h_defaults := h_defaults s; h_global := g; h_params := h_params s |}.
Definition set_params p (s : hook_state) : hook_state :=
  {| h_table := h_table s; h_defaults := h_defaults s; h_global := h_global s; h_params := p |}.

Definition annotate (k : string) (v : entry) : py hook_state unit :=
  py_modify (λ s, set_global (dict_set (h_global s) k v) s).
Definition when (b : bool) (m : py hook_state unit) : py hook_state unit :=
  if b then m else mret ().

(** a member function of that class with that name *)
Definition is_member (d : definition) (parent : string) (named : string → bool) : bool :=
  bool_decide (d_kind d = MemberFunctionT) && (d_parent d =? parent)%string && named (d_name d).

Definition fix_default (v : option string) : option string :=
  match v with
  | Some t =>
      Some (if ("ns3::MilliSeconds( )" =? t)%string then "ns3::MilliSeconds(0)"
            else if ("ns3::Seconds( )" =? t)%string then "ns3::Seconds(0)" else t)
  | None => None
  end.

(** the annotations the class tests give before they return *)
Definition class_case (decl_string : string) : option annotations :=
  if startswith decl_string "::ns3::SimpleRefCount<" then
    Some [("incref_method", EStr "Ref"); ("decref_method", EStr "Unref");
          ("peekref_method", EStr "GetReferenceCount");
          ("automatic_type_narrowing", EStr "true")]
  else if startswith decl_string "::ns3::Callback<" then Some [("ignore", ENone)]
  else if startswith decl_string "::ns3::TracedCallback<" then Some [("ignore", ENone)]
  else if startswith decl_string "::ns3::Ptr<" then Some [("ignore", ENone)]
  else None.

Definition update_global (a : annotations) : py hook_state unit :=
  py_modify (λ s, set_global (dict_update (h_global s) a) s).

(** the class tests, and the table driven customization of classes behind them *)
Definition class_tests (d : definition) : py hook_state unit :=
  match class_case (d_decl_string d) with
  | Some a => update_global a
  | None =>
      s ← py_get;
      match dict_get (h_table s) (d_decl_string d) with
      | Some a => update_global a
      | None => mret ()
      end
  end.

Section hook.
  (** [templates.args] *)
  Variable template_args : string → list string.
  Variable python3 : bool.

(** [for key, value in annotations.items()] with its removal of params from the table: Python 2
    goes through a copy; Python 3 notices at the next step that the dictionary has changed *)
Fixpoint params_loop (key : string) (items : annotations) : py hook_state unit :=
  match items with
  | [] => mret ()
  | (k, v) :: items =>
      if (k =? "params")%string then
        match v with
        | EParams p =>
            py_modify (λ s, set_params (dict_update (h_params s) p) s) ;;
            py_modify (λ s, set_table
              (dict_set (h_table s) key
                 (dict_del (default [] (dict_get (h_table s) key)) "params")) s) ;;
            if python3 then py_raise RuntimeError else params_loop key items
        | _ => py_raise TypeError
        end
      else params_loop key items
  end.

(** the table driven customization of functions *)
Definition function_table (d : definition) : py hook_state unit :=
  s ← py_get;
  match dict_get (h_table s) (d_text d) with
  | None => mret ()
  | Some a =>
      params_loop (d_text d) a ;;
      s ← py_get;
      update_global (default [] (dict_get (h_table s) (d_text d)))
  end.

(** the part of the hook behind the comment *)
Definition annotate_definition (d : definition) (template_text : string) : py hook_state unit :=
  when (is_member d "Object" (λ n, n =? "GetObject")%string &&
        bool_decide (template_args template_text = ["ns3::Object"]))
    (annotate "template_instance_names" (EStr "ns3::Object=>GetObject")) ;;
  when (is_member d "Simulator" (λ n, startswith n "Schedule")) (annotate "ignore" ENone) ;;
  when (is_member d "Simulator" (λ n, n =? "Run")%string) (annotate "ignore" ETrue) ;;
  when (is_calldef (d_kind d))
    (py_modify (λ s, set_defaults (fix_default <$> h_defaults s) s)) ;;
  match d_kind d with
  | ClassT => class_tests d
  | FreeFunctionT =>
      if (d_name d =? "PeekPointer")%string then annotate "ignore" ENone else function_table d
  | MemberFunctionT | ConstructorT => function_table d
  | _ => mret ()
  end.

(** the path loop may not end; then neither does the hook *)
Definition pre_scan_hook (fuel : nat) (d : definition) (s : hook_state)
    : option (result unit * hook_state) :=
  match get_ns3_relative_path fuel (d_file d) with
  | None => None
  | Some (Raise e) => Some (Raise e, s)
  | Some (Ok ns3_header) =>
      Some ((annotate "pygen_comment" (EStr (ns3_header +:+ ": " +:+ d_text d)) ;;
             annotate_definition d (d_demangled d)) s)
  end.
End hook.

(** ** The list of callback classes *)
Section scan.
  (** [templates.is_instantiation], and the arguments of [templates.split] *)
  Variable is_instantiation : string → bool.
  Variable template_parameters : string → list string.

(** the lines written for the classes of the module; an exception ends them *)
Fixpoint callback_lines (classes : list definition) : string * result unit :=
  match classes with
  | [] => (EmptyString, Ok ())
  | cls :: classes =>
      if negb (startswith (d_name cls) "Callback<") then callback_lines classes
      else if negb (is_instantiation (d_decl_string cls)) then (EmptyString, Raise AssertionError)
      else
        let line := "    " +:+ Repr.repr_list (template_parameters (d_decl_string cls)) +:+ "," +:+ nl in
        let '(rest, r) := callback_lines classes in (line +:+ rest, r)
  end.
Definition scan_callback_classes (classes : list definition) : string * result unit :=
  let '(lines, r) := callback_lines classes in
  ("callback_classes = [" +:+ nl +:+ lines +:+
   (match r with Ok _ => "]" +:+ nl | Raise _ => EmptyString end), r).
End scan.

(** ** Sections of the output *)
Record MyPygenClassifier := mk_classifier {
  headers_map : list (string * string);          (* header name -> section name *)
  section_precendences : list (string * Z)       (* section name -> precedence *)
}.

Definition classify (c : MyPygenClassifier) (d : definition) : string :=
  default "__main__" (dict_get (headers_map c) (basename (d_file d))).
Definition get_section_precedence (c : MyPygenClassifier) (section_name : string) : result Z :=
  if (section_name =? "__main__")%string then Ok (-1)%Z
  else match dict_get (section_precendences c) section_name with
       | Some p => Ok p
       | None => Raise KeyError
       end.

(** the modules: name -> (the modules it depends on, its headers) *)
Definition modules : Type := list (string * (list string * list string)).

(** the edges from the dependencies, by name of the module and of the dependency *)
Definition module_graph (ms : modules) : list (string * string) :=
  name ← merge_sort string_le ms.*1;
  dep ← merge_sort string_le (default ([], []) (dict_get ms name)).1;
  [(dep, name)].

Definition section_name (ns3_module : string) : string :=
  "ns3_module_" +:+ py_replace "-" "_" ns3_module.

(** the two dictionaries, over the sorted modules *)
Fixpoint sections_of (ms : modules) (sorted : list string) (prec : Z) (c : MyPygenClassifier)
    : result MyPygenClassifier :=
  match sorted with
  | [] => Ok c
  | m :: sorted =>
      match dict_get ms m with
      | None => Raise KeyError
      | Some (_, headers) =>
          sections_of ms sorted (prec + 1)
            {| headers_map := foldl (λ h x, dict_set h x (section_name m)) (headers_map c) headers;
               section_precendences := dict_set (section_precendences c) (section_name m) prec |}
      end
  end.

(** the files and the calls of the module parser, in order *)
Inductive scan_event :=
  | OpenFile (path : string)
  | NewParser (name namespace : string)
  | ParseInit (headers include_paths whitelist_paths : list string) (cflags : string)
  | ScanTypes | ScanMethods | ScanFunctions | ParseFinalize
  | WriteFile (path text : string)
  | CloseSections (n : nat).

Section module_scan.
  Variable python3 : bool.
  (** [eval(sys.stdin.readline())], [topsort], the classes of the module *)
  Variable ns3_modules : result modules.
  Variable topsort : list (string * string) → result (list string).
  Variable classes : list definition.
  Variable is_instantiation : string → bool.
  Variable template_parameters : string → list string.

Definition emit (e : scan_event) : py (list scan_event) unit := py_modify (λ l, l ++ [e]).

Definition section_file (pygen_file_name m : string) : string :=
  path_join (dirname pygen_file_name) (section_name m +:+ ".py").

(** opening the files of the sections, up to the first unknown module *)
Fixpoint open_sections (pygen_file_name : string) (ms : modules) (sorted : list string)
    : py (list scan_event) unit :=
  match sorted with
  | [] => mret ()
  | m :: sorted =>
      emit (OpenFile (section_file pygen_file_name m)) ;;
      match dict_get ms m with
      | None => py_raise KeyError
      | Some _ => open_sections pygen_file_name ms sorted
      end
  end.

Definition include_paths (top_builddir : string) : list string :=
  [top_builddir; top_builddir +:+ "/../../../build/include/ns3-dev"].
Definition gccxml_cflags (cflags : string) : string :=
  "--gccxml-cxxflags " +:+ String "034" (cflags +:+ " -DPYTHON_SCAN" +:+ String "034" EmptyString).

Definition ns3_module_scan (top_builddir pygen_file_name everything_h cflags : string)
    : py (list scan_event) MyPygenClassifier :=
  ms ← py_lift ns3_modules;
  (if python3 then py_raise AttributeError else mret ()) ;;
  sorted ← py_lift (topsort (module_graph ms));
  emit (OpenFile pygen_file_name) ;;
  open_sections pygen_file_name ms sorted ;;
  c ← py_lift (sections_of ms sorted 0 {| headers_map := []; section_precendences := [] |});
  emit (NewParser "ns3" "ns3") ;;
  emit (ParseInit [everything_h] (include_paths top_builddir)
          (include_paths top_builddir ++ [dirname everything_h]) (gccxml_cflags cflags)) ;;
  emit ScanTypes ;;
  let '(text, r) := scan_callback_classes is_instantiation template_parameters classes in
  emit (WriteFile (path_join (dirname pygen_file_name) "callbacks_list.py") text) ;;
  py_lift r ;;
  emit ScanMethods ;;
  emit ScanFunctions ;;
  emit ParseFinalize ;;
  emit (CloseSections (S (length sorted))) ;;
  mret c.
End module_scan.
End Scan.

(** ** Facts *)
Module ScanFacts.
Import Decl Scan.

(** *** The path of a header *)

(** the components behind the last [ns3] *)
Fixpoint after_ns3 (cs : list string) : option (list string) :=
  match cs with
  | [] => None
  | c :: cs =>
      match after_ns3 cs with
      | Some rest => Some rest
      | None => if (c =? "ns3")%string then Some cs else None
      end
  end.

Lemma after_ns3_snoc cs c :
  after_ns3 (cs ++ [c]) =
    if (c =? "ns3")%string then Some []
    else match after_ns3 cs with Some rest => Some (rest ++ [c]) | None => None end.
Proof.
  induction cs as [|x cs IH]; cbn; [by case_match|]. rewrite IH.
  destruct (c =? "ns3")%string; [done|]. destruct (after_ns3 cs); [done|].
  by destruct (x =? "ns3")%string.
Qed.

Definition joined (l : list string) : result string :=
  match l with [] => Raise TypeError | _ => Ok (join "/" l) end.

Lemma root_loops path fuel l : relative_loop path fuel "/" l = None.
Proof. revert l. induction fuel as [|fuel IH]; intros l; [done|]. apply IH. Qed.

Lemma relative_loop_spec path absolute cs : Forall component cs → ∀ l fuel,
  Forall component l →
  match after_ns3 cs with
  | Some rest => (length rest < fuel)%nat →
      relative_loop path fuel (path_of absolute cs) l = Some (joined (rest ++ l))
  | None =>
      if absolute then relative_loop path fuel (path_of true cs) l = None
      else (length cs < fuel)%nat →
        relative_loop path fuel (path_of false cs) l = Some (Raise AssertionError)
  end.
Proof.
  induction cs as [|c cs IH] using rev_ind; intros Hcs l fuel Hl.
  { cbn [after_ns3]. destruct absolute; [apply root_loops|]. intros Hf. by destruct fuel; [lia|]. }
  pose proof (path_of_truthy absolute (cs ++ [c]) ltac:(by destruct cs) Hcs) as Ht.
  apply Forall_app in Hcs as [Hcs Hc]. apply Forall_cons in Hc as [Hc _].
  rewrite after_ns3_snoc. pose proof (path_split_of absolute cs c Hcs Hc) as Hs.
  assert (Hstep : ∀ f, relative_loop path (S f) (path_of absolute (cs ++ [c])) l =
    if (c =? "ns3")%string then Some (joined l)
    else relative_loop path f (path_of absolute cs) (c :: l)).
  { intros f. cbn [relative_loop]. rewrite Ht, Hs. cbn [negb].
    destruct (c =? "ns3")%string; [|done]. destruct l as [|x l]; [done|].
    apply Forall_cons in Hl as [Hx Hl]. by rewrite path_joins_of. }
  rewrite length_app. cbn [length].
  destruct (c =? "ns3")%string eqn:Ec.
  { intros Hf. destruct fuel; [cbn in Hf; lia|]. by rewrite Hstep. }
  specialize (IH Hcs (c :: l)).
  destruct (after_ns3 cs) as [rest|].
  - rewrite length_app. cbn [length]. intros Hf. destruct fuel as [|f].
    + lia.
    + rewrite Hstep, IH; [by rewrite <- app_assoc|by constructor|lia].
  - destruct absolute.
    + destruct fuel as [|f]; [done|]. rewrite Hstep. apply IH. by constructor.
    + intros Hf. destruct fuel as [|f]; [lia|]. rewrite Hstep. apply IH; [by constructor|lia].
Qed.

(** On a path given by its components, absolute or relative: when one of them is [ns3] the
    search ends within as many rounds as there are components behind the last one, and gives those
    components (but raises TypeError when there are none); without [ns3] it raises AssertionError
    on a relative path and never ends on an absolute one. *)
Theorem relative_path_spec (absolute : bool) (cs : list string) (Hcs : Forall component cs) :
  match after_ns3 cs with
  | Some rest => ∀ fuel, (length rest < fuel)%nat →
      get_ns3_relative_path fuel (path_of absolute cs) = Some (joined rest)
  | None =>
      if absolute then ∀ fuel, get_ns3_relative_path fuel (path_of true cs) = None
      else ∀ fuel, (length cs < fuel)%nat →
        get_ns3_relative_path fuel (path_of false cs) = Some (Raise AssertionError)
  end.
Proof.
  unfold get_ns3_relative_path.
  assert (H := λ fuel, relative_loop_spec (path_of absolute cs) absolute cs Hcs [] fuel
                         (Forall_nil_2 _)).
  destruct (after_ns3 cs) as [rest|]; [|destruct absolute; exact H].
  intros fuel Hf. rewrite (H fuel Hf). by rewrite app_nil_r.
Qed.

Lemma relative_path_spec_witness :
  get_ns3_relative_path 3 "/usr/include/ns3/core/ptr.h" = Some (Ok "core/ptr.h") ∧
  get_ns3_relative_path 1000 "/usr/include/stdio.h" = None.
Proof.
  assert (Hc : ∀ l, forallb (λ c, truthy c && str_all (λ a, negb (Ascii.eqb a "/")) c) l = true →
                    Forall component l).
  { intros l. rewrite forallb_forall, Forall_forall. intros H c Hc%list_elem_of_In.
    apply H, andb_true_iff in Hc as [H1 H2]. split; [by destruct c|exact H2]. }
  split.
  - apply (relative_path_spec true ["usr"; "include"; "ns3"; "core"; "ptr.h"]); [by apply Hc|].
    cbn. lia.
  - apply (relative_path_spec true ["usr"; "include"; "stdio.h"]). by apply Hc.
Defined.

(** *** The annotations of parameters *)
Section hook.
  Context (python3 : bool).

Lemma dict_del_absent {V} (d : list (string * V)) k : k ∉ d.*1 → dict_del d k = d.
Proof.
  induction d as [|[k0 v] d IH]; cbn; [done|]. intros Hk.
  destruct (String.eqb_spec k0 k) as [->|]; [set_solver|]. cbn. f_equal. apply IH. set_solver.
Qed.

Lemma params_loop_none key a s : "params" ∉ a.*1 → params_loop python3 key a s = (Ok (), s).
Proof.
  induction a as [|[k v] a IH]; [done|]. cbn [params_loop fmap list_fmap fst]. intros Hk.
  destruct (String.eqb_spec k "params") as [->|]; [set_solver|]. apply IH. set_solver.
Qed.

(** what the removal of the params of [key] makes of the state *)
Definition taken (key : string) (p : param_annotations) (s : hook_state) : hook_state :=
  set_table (dict_set (h_table s) key
               (dict_del (default [] (dict_get (h_table s) key)) "params"))
    (set_params (dict_update (h_params s) p) s).

Lemma params_loop_some key a p s :
  NoDup a.*1 → dict_get a "params" = Some (EParams p) →
  params_loop python3 key a s = (if python3 then Raise RuntimeError else Ok (), taken key p s).
Proof.
  induction a as [|[k v] a IH]; [done|]. cbn [params_loop fmap list_fmap fst dict_get].
  intros [Hk Hnd]%NoDup_cons. destruct (String.eqb_spec k "params") as [->|Hne].
  - rewrite decide_True by done. intros [= ->]. cbv [mbind py_bind py_modify].
    destruct python3 eqn:E; [done|]. rewrite <- E at 1. by rewrite params_loop_none.
  - rewrite decide_False by done. by apply IH.
Qed.

Lemma function_table_found d a s1 :
  dict_get (h_table s1) (d_text d) = Some a → "params" ∉ a.*1 →
  ∃ s2, function_table python3 d s1 = (Ok (), s2) ∧ h_table s2 = h_table s1 ∧
    h_params s2 = h_params s1.
Proof.
  intros Ha Hno. unfold function_table. cbv [mbind py_bind py_get]. rewrite Ha.
  rewrite params_loop_none by done. rewrite Ha. by eexists.
Qed.

Lemma dict_del_keys {V} (a : list (string * V)) k : k ∉ (dict_del a k).*1.
Proof.
  induction a as [|[k0 v] a IH]; cbn; [set_solver|].
  destruct (String.eqb_spec k0 k); cbn; set_solver.
Qed.

Context (template_args : string → list string).

Lemma when_annotate b k v s :
  ∃ g, when b (annotate k v) s = (Ok (), set_global g s).
Proof. destruct b; [by eexists|]. exists (h_global s). destruct s. reflexivity. Qed.

(** a function comes to its table with the table and the parameters as they were *)
Lemma annotate_function d t s :
  is_function (d_kind d) = true → d_name d ≠ "PeekPointer" →
  ∃ s1, h_table s1 = h_table s ∧ h_params s1 = h_params s ∧
    annotate_definition template_args python3 d t s = function_table python3 d s1.
Proof.
  intros Hk Hn. unfold annotate_definition. cbv [mbind py_bind].
  repeat match goal with |- context [when ?b (annotate ?k ?v) ?s0] =>
    destruct (when_annotate b k v s0) as [? ->] end.
  assert (is_calldef (d_kind d) = true) as -> by by destruct (d_kind d).
  apply String.eqb_neq in Hn.
  destruct (d_kind d); try done; rewrite ?Hn; cbv [when py_modify]; eexists;
    (split_and!; [| |reflexivity]); done.
Qed.

Lemma hook_function fuel d path s :
  is_function (d_kind d) = true → d_name d ≠ "PeekPointer" →
  get_ns3_relative_path fuel (d_file d) = Some (Ok path) →
  ∃ s1, h_table s1 = h_table s ∧ h_params s1 = h_params s ∧
    pre_scan_hook template_args python3 fuel d s = Some (function_table python3 d s1).
Proof.
  intros Hk Hn Hp. unfold pre_scan_hook. rewrite Hp.
  set (s0 := set_global (dict_set (h_global s) "pygen_comment"
                           (EStr (path +:+ ": " +:+ d_text d))) s).
  destruct (annotate_function d (d_demangled d) s0) as (s1 & Ht & Hps & E); [done..|].
  exists s1. split_and!; [by rewrite Ht|by rewrite Hps|].
  cbv [mbind py_bind annotate py_modify]. f_equal. exact E.
Qed.

(** The annotations that the table holds for the parameters of a function are given once: the
    first call of the hook adds them to those of the caller and takes them out of the table of the
    module (under Python 3 it then raises RuntimeError); every later call for the function with the
    table that is left succeeds and adds nothing to the parameters. *)
Theorem params_applied_once fuel d path s a p
    (Hk : is_function (d_kind d) = true) (Hn : d_name d ≠ "PeekPointer")
    (Hp : get_ns3_relative_path fuel (d_file d) = Some (Ok path))
    (Ha : dict_get (h_table s) (d_text d) = Some a) (Hnd : NoDup a.*1)
    (Hpar : dict_get a "params" = Some (EParams p)) :
  ∃ s', pre_scan_hook template_args python3 fuel d s
          = Some (if python3 then Raise RuntimeError else Ok (), s') ∧
    h_params s' = dict_update (h_params s) p ∧
    h_table s' = dict_set (h_table s) (d_text d) (dict_del a "params") ∧
    ∀ s2, h_table s2 = h_table s' →
      ∃ s3, pre_scan_hook template_args python3 fuel d s2 = Some (Ok (), s3) ∧
        h_params s3 = h_params s2 ∧ h_table s3 = h_table s2.
Proof.
  destruct (hook_function fuel d path s) as (s1 & Ht & Hps & E); [done..|].
  assert (∃ s', function_table python3 d s1 = (if python3 then Raise RuntimeError else Ok (), s') ∧
    h_params s' = dict_update (h_params s) p ∧
    h_table s' = dict_set (h_table s) (d_text d) (dict_del a "params")) as (s' & E1 & Hps' & Ht').
  { unfold function_table. cbv [mbind py_bind py_get]. rewrite Ht, Ha.
    rewrite (params_loop_some _ a p) by done. rewrite <- Ht, <- Hps. rewrite <- Ht in Ha.
    destruct python3; eexists; (split_and!; [reflexivity|done|]); cbn; by rewrite Ha. }
  exists s'. rewrite E, E1. split_and!; [done..|]. intros s2 H2.
  destruct (hook_function fuel d path s2) as (s4 & Ht4 & Hps4 & ->); [done..|].
  rewrite <- Hps4, <- Ht4.
  destruct (function_table_found d (dict_del a "params") s4) as (s3 & -> & ? & ?).
  - rewrite Ht4, H2, Ht'. apply dict_get_set_eq.
  - apply dict_del_keys.
  - by exists s3.
Qed.
End hook.

(** *** Sections *)

(** every section that a header is mapped to has its precedence *)
Definition sections_known (c : MyPygenClassifier) : Prop :=
  ∀ h x, dict_get (headers_map c) h = Some x → ∃ p, dict_get (section_precendences c) x = Some p.

Lemma map_headers (h : list (string * string)) headers (x k v : string) :
  dict_get (foldl (λ h y, dict_set h y x) h headers) k = Some v → v = x ∨ dict_get h k = Some v.
Proof.
  revert h. induction headers as [|y headers IH]; intros h; cbn; [by right|].
  intros [->|H]%IH; [by left|]. rewrite dict_get_set in H.
  case_decide; simplify_eq; [by left|by right].
Qed.

Lemma sections_of_known ms sorted prec c c' :
  sections_of ms sorted prec c = Ok c' → sections_known c → sections_known c'.
Proof.
  revert prec c. induction sorted as [|m sorted IH]; intros prec c; cbn; [by intros [= ->]|].
  destruct (dict_get ms m) as [[deps headers]|]; [|done]. intros H Hc.
  apply (IH _ _ H). intros h x Hx. cbn in *. rewrite dict_get_set. case_decide; [by eexists|].
  apply map_headers in Hx as [->|Hx]; [done|]. by apply (Hc h).
Qed.

(** the precedences given so far are below the next one *)
Definition precedences_below (n : Z) (c : MyPygenClassifier) : Prop :=
  ∀ x p, dict_get (section_precendences c) x = Some p → (0 ≤ p < n)%Z.

Lemma sections_of_below ms sorted prec c c' :
  sections_of ms sorted prec c = Ok c' → (0 ≤ prec)%Z → precedences_below prec c →
  precedences_below (prec + Z.of_nat (length sorted)) c'.
Proof.
  revert prec c. induction sorted as [|m sorted IH]; intros prec c; cbn [sections_of length].
  { intros [= ->] _ H x p Hp. specialize (H x p Hp). lia. }
  destruct (dict_get ms m) as [[deps headers]|]; [|done]. intros H Hprec Hc.
  replace (prec + Z.of_nat (S (length sorted)))%Z with (prec + 1 + Z.of_nat (length sorted))%Z by lia.
  apply (IH _ _ H); [lia|]. intros x p. cbn. rewrite dict_get_set. case_decide.
  - intros [= <-]. lia.
  - intros Hp%Hc. lia.
Qed.

(** C37. The classifier built for the modules never fails, and its precedences are in bounds: a
    definition goes to the main section, whose precedence is -1, or to the section of a module,
    whose precedence is a position in the topological order. *)
Theorem classify_bounds ms sorted c d
    (Hc : sections_of ms sorted 0 {| headers_map := []; section_precendences := [] |} = Ok c) :
  ∃ p, get_section_precedence c (classify c d) = Ok p ∧ (-1 ≤ p < Z.of_nat (length sorted))%Z.
Proof.
  assert (sections_known c) as H by by apply (sections_of_known _ _ _ _ _ Hc).
  assert (precedences_below (Z.of_nat (length sorted)) c) as Hb
    by by apply (sections_of_below _ _ _ _ _ Hc).
  unfold classify, get_section_precedence.
  destruct (dict_get (headers_map c) _) as [x|] eqn:E; cbn; [|exists (-1)%Z; split; [done|lia]].
  destruct (x =? "__main__")%string; [exists (-1)%Z; split; [done|lia]|].
  apply H in E as [p Hp]. exists p. rewrite Hp. split; [done|]. apply Hb in Hp. lia.
Qed.

Lemma classify_bounds_witness :
  ∃ p, get_section_precedence
    {| headers_map := [("ptr.h", "ns3_module_core")];
       section_precendences := [("ns3_module_core", 0%Z)] |}
    (classify {| headers_map := [("ptr.h", "ns3_module_core")];
                 section_precendences := [("ns3_module_core", 0%Z)] |}
       {| d_kind := ClassT; d_name := "Ptr"; d_parent := "ns3"; d_text := "ns3::Ptr";
          d_decl_string := "::ns3::Ptr"; d_demangled := "ns3::Ptr"; d_file := "/b/ns3/ptr.h";
          d_defaults := [] |}) = Ok p ∧ (-1 ≤ p < 1)%Z.
Proof. apply (classify_bounds [("core", ([], ["ptr.h"]))] ["core"]). reflexivity. Defined.

Lemma params_applied_once_witness :
  let d := {| d_kind := MemberFunctionT; d_name := "GetRoutingProtocol"; d_parent := "Ipv4ListRouting";
              d_text := "f(seed)"; d_decl_string := "f"; d_demangled := "f";
              d_file := "ns3/f.h"; d_defaults := [] |} in
  let s := mk_hook [("f(seed)", [("params", EParams [("seed", [("direction", "out")])])])] [] [] [] in
  ∃ s', pre_scan_hook (λ _, []) false 2 d s = Some (Ok (), s') ∧
    h_params s' = [("seed", [("direction", "out")])].
Proof.
  intros d s.
  destruct (params_applied_once false (λ _, []) 2 d "f.h" s
    [("params", EParams [("seed", [("direction", "out")])])] [("seed", [("direction", "out")])])
    as (s' & H1 & H2 & _); try reflexivity.
  - done.
  - apply NoDup_singleton.
  - by exists s'.
Defined.
End ScanFacts.
