(* ===== verification/ModularScan.v ===== *)
(** * ns3modulescan-modular.py: scanning the headers of one ns-3 module

    bindings/python/ns3modulescan-modular.py: the path of a header relative to the directory ns3,
    the hook [PreScanHook], which also finds out the module of a definition, and the scan of a
    module.  It imports the table of annotations of ns3modulescan.py ([Scan.type_annotations]).
    The file is written for Python 3.  The template helpers of pygccxml and the search for a
    declaration in the global namespace are parameters. *)
From Stdlib Require Import ZArith Lia Ascii String.
From stdpp Require Import base list strings.
From S2P Require Import Prelude PyStr WUtils ModuleScan.
Import Decl.

Module Modular.

(** the loop; [None] when [fuel] rounds were not enough *)
Fixpoint relative_loop (fuel : nat) (head : string) (l : list string) : option (result string) :=
  match fuel with
  | O => None
  | S fuel =>
      if negb (truthy head) then Some (Raise AssertionError)
      else
        let '(new_head, tail) := path_split head in
        if (new_head =? head)%string then Some (Raise (ValueError EmptyString))
        else if (tail =? "ns3")%string then
          Some (match l with [] => Raise TypeError | x :: l => Ok (path_joins x l) end)
        else relative_loop fuel new_head (tail :: l)
  end.

(** a round shortens [head], so that the length of the path is enough fuel *)
Definition get_ns3_relative_path (path : string) : option (result (option string)) :=
  if negb (truthy path) then Some (Ok None)
  else
    match relative_loop (S (String.length path)) path [] with
    | Some r => Some (Some <$> r)
    | None => None
    end.

(** the value of a call: [relative_path_ends] shows that the fuel is enough *)
Definition relative_path (path : string) : result (option string) :=
  default (Raise RuntimeError) (get_ns3_relative_path path).

(** ** The hook *)
Record PreScanHook := mk_pre_scan_hook {
  headers_map : list (string * string);       (* header -> module *)
  module : string
}.

(** the state of the hook of ns3modulescan.py, and the lines printed on either stream *)
Record mod_state := mk_mod_state {
  m_hook : Scan.hook_state;
  m_stdout : list string;
  m_stderr : list string
}.
Definition on_hook {A} (m : py Scan.hook_state A) : py mod_state A := λ s,
  let '(r, h) := m (m_hook s) in (r, mk_mod_state h (m_stdout s) (m_stderr s)).
Definition print_out (line : string) : py mod_state unit :=
  py_modify (λ s, mk_mod_state (m_hook s) (m_stdout s ++ [line]) (m_stderr s)).
Definition print_err (line : string) : py mod_state unit :=
  py_modify (λ s, mk_mod_state (m_hook s) (m_stdout s) (m_stderr s ++ [line])).

Section call.
  (** [templates.args], [templates.is_instantiation] and the arguments of [templates.split] *)
  Variable template_args : string → list string.
  Variable is_instantiation : string → bool.
  Variable template_parameters : string → list string.
  (** [find_declaration_from_name]: the file of the declaration, when it has a location *)
  Variable find_location : string → option string.
  Variable hook : PreScanHook.

Definition header_module (h : option string) : result string :=
  match h with
  | Some h => match dict_get (headers_map hook) h with Some m => Ok m | None => Raise KeyError end
  | None => Raise KeyError
  end.

(** the modules of the template parameters that are declared inside ns-3 *)
Fixpoint template_parameters_modules (params : list string) : result (list string) :=
  match params with
  | [] => Ok []
  | p :: params =>
      match find_location p with
      | None => template_parameters_modules params
      | Some file =>
          match relative_path file with
          | Raise (ValueError _) => template_parameters_modules params
          | Raise e => Raise e
          | Ok h =>
              m ← header_module h;
              ms ← template_parameters_modules params;
              mret (m :: ms)
          end
      end
  end.

(** an instantiation with an argument of this module belongs to this module *)
Definition class_module (d : definition) (definition_module : string) : result string :=
  if is_instantiation (d_decl_string d) then
    ms ← template_parameters_modules (template_parameters (d_name d));
    mret (if existsb (λ m, m =? module hook)%string ms then module hook else definition_module)
  else mret definition_module.

Definition import_class (m : string) : entry := EStr ("ns." +:+ py_replace "-" "_" m).
Definition import_enum (m : string) : entry := EStr ("ns." +:+ m).

(** the branches of the class tests *)
Definition on_class (d : definition) (definition_module : string) : py mod_state unit :=
  print_err (d_text d) ;;
  definition_module ← py_lift (class_module d definition_module);
  on_hook
    (Scan.when (negb (definition_module =? module hook)%string)
       (Scan.annotate "import_from_module" (import_class definition_module)) ;;
     Scan.class_tests d).

Definition on_free_function (d : definition) (definition_module : string)
    : py Scan.hook_state unit :=
  if negb (definition_module =? module hook)%string then Scan.annotate "ignore" ENone
  else if (d_name d =? "PeekPointer")%string then Scan.annotate "ignore" ENone
  else Scan.function_table false d.

(** the hook behind the search for the module of the definition *)
Definition annotate_definition (d : definition) (ns3_header definition_module : string)
    : py mod_state unit :=
  on_hook
    (Scan.annotate "pygen_comment"
       (EStr (ns3_header +:+ " (module " +:+ Repr.py_repr definition_module +:+ "): " +:+ d_text d)) ;;
     Scan.when (Scan.is_member d "Object" (λ n, n =? "GetObject")%string &&
           bool_decide (template_args (d_text d) = ["ns3::Object"]))
       (Scan.annotate "template_instance_names" (EStr "ns3::Object=>GetObject")) ;;
     Scan.when (Scan.is_member d "Simulator" (λ n, startswith n "Schedule"))
       (Scan.annotate "ignore" ENone) ;;
     Scan.when (Scan.is_member d "Simulator" (λ n, n =? "Run")%string)
       (Scan.annotate "ignore" ETrue) ;;
     Scan.when (is_calldef (d_kind d))
       (py_modify (λ s, Scan.set_defaults (Scan.fix_default <$> Scan.h_defaults s) s))) ;;
  match d_kind d with
  | ClassT => on_class d definition_module
  | EnumerationT =>
      on_hook (Scan.when (negb (definition_module =? module hook)%string)
                 (Scan.annotate "import_from_module" (import_enum definition_module)))
  | FreeFunctionT => on_hook (on_free_function d definition_module)
  | MemberFunctionT | ConstructorT => on_hook (Scan.function_table false d)
  | _ => mret ()
  end.

(** [PreScanHook.__call__] *)
Definition call (d : definition) : py mod_state unit :=
  print_out (d_file d) ;;
  match relative_path (d_file d) with
  | Raise (ValueError _) => mret ()
  | Raise e => py_raise e
  | Ok ns3_header =>
      if negb (truthy (default EmptyString ns3_header)) then mret ()
      else
        definition_module ← py_lift (header_module ns3_header);
        annotate_definition d (default EmptyString ns3_header) definition_module
  end.
End call.

(** ** The scan of a module *)

(** the system calls and the calls of the module parser, in order *)
Inductive event :=
  | NewParser (name namespace : string)
  | AddPreScanHook (hook : PreScanHook)
  | Unlink (path : string)                 (* errors are ignored *)
  | Makedirs (path : string)               (* errors are ignored *)
  | OpenFile (path : string)
  | Print (line : string)
  | ParseInit (headers include_paths whitelist_paths : list string) (cflags : string)
  | ScanTypes | ScanMethods | ScanFunctions | ParseFinalize
  | WriteFile (path text : string)
  | CloseFile (path : string)
  | Chmod (path : string) (mode : Z).

Section module_scan.
  Variable exists_path : string → bool.
  Variable classes : list definition.
  Variable is_instantiation : string → bool.
  Variable template_parameters : string → list string.

Definition emit (e : event) : py (list event) unit := py_modify (λ l, l ++ [e]).

(** the text of the list of callback classes is made by the same code as in ns3modulescan.py *)
Definition scan_callback_classes : string * result unit :=
  Scan.scan_callback_classes is_instantiation template_parameters classes.

(** the header that is scanned *)
Definition scan_header (top_builddir module_name output_file_name : string) : string * bool :=
  let h := path_join (dirname output_file_name) "scan-header.h" in
  if exists_path h then (h, false)
  else (path_joins top_builddir ["include"; "ns3"; module_name +:+ "-module.h"], true).

Definition include_paths (top_builddir : string) : list string :=
  [top_builddir; top_builddir +:+ "/../../../build/include/ns3-dev"].

Definition ns3_module_scan (top_builddir module_name : string)
    (headers_map : list (string * string)) (output_file_name cflags : string)
    : py (list event) unit :=
  emit (NewParser ("ns." +:+ py_replace "-" "_" module_name) "ns3") ;;
  emit (AddPreScanHook (mk_pre_scan_hook headers_map module_name)) ;;
  emit (Unlink output_file_name) ;;
  emit (Makedirs (dirname output_file_name)) ;;
  emit (OpenFile output_file_name) ;;
  let '(h, default_header) := scan_header top_builddir module_name output_file_name in
  (if default_header then emit (Print ("scan_header : " +:+ h)) else mret ()) ;;
  emit (ParseInit [h] (include_paths top_builddir) (include_paths top_builddir)
          ("-std=c++14 " +:+ cflags)) ;;
  emit ScanTypes ;;
  let '(text, r) := scan_callback_classes in
  emit (WriteFile (path_join (dirname output_file_name) "callbacks_list.py") text) ;;
  py_lift r ;;
  emit ScanMethods ;;
  emit ScanFunctions ;;
  emit ParseFinalize ;;
  emit (CloseFile output_file_name) ;;
  emit (Chmod output_file_name 256).

(** the entry of the script: its status; [eval] reads the map of the headers *)
Definition main (eval : string → result (list (string * string))) (argv : list string)
    : py (list event) Z :=
  match argv with
  | [_; top_builddir; module_path; module_headers; output_file_name; cflags] =>
      headers_map ← py_lift (eval module_headers);
      ns3_module_scan top_builddir module_path headers_map output_file_name cflags ;;
      mret 0%Z
  | _ =>
      emit (Print "ns3modulescan-modular.py top_builddir module_path module_headers output_file_name cflags") ;;
      mret 1%Z
  end.
End module_scan.
End Modular.

(** ** Facts *)
Module ModularFacts.
Import Modular.

(** *** The path of a header *)

Lemma split_last_Some c s x y : split_last c s = Some (x, y) → s = x +:+ String c y.
Proof.
  revert x. induction s as [|a s IH]; intros x; cbn [split_last]; [done|].
  destruct (split_last c s) as [[x' y']|].
  - intros [= <- <-]. rewrite sapp_cons. f_equal. by apply IH.
  - destruct (Ascii.eqb_spec a c) as [->|]; [|done]. by intros [= <- <-].
Qed.

Lemma rstrip_le p x a : p a = true →
  (String.length (rstrip_by p (x +:+ String a EmptyString)) ≤ String.length x)%nat.
Proof.
  intros Ha. induction x as [|b x IH].
  - rewrite sapp_nil_l. cbn. rewrite Ha. cbn. lia.
  - rewrite sapp_cons. cbn [rstrip_by String.length].
    destruct (rstrip_by p (x +:+ String a EmptyString)); cbn in *; [|lia].
    destruct (p b); cbn; lia.
Qed.

(** splitting shortens a path, but for the root *)
Lemma path_split_shrinks p h t : p ≠ EmptyString → path_split p = (h, t) →
  (h = p ∧ t = EmptyString) ∨ (String.length h < String.length p)%nat.
Proof.
  intros Hp. unfold path_split. destruct (split_last "/" p) as [[x y]|] eqn:E.
  - apply split_last_Some in E as ->. destruct (str_all is_slash (x +:+ "/")).
    + intros [= <- <-]. destruct y as [|a y]; [by left|right].
      rewrite !slength_app. cbn. lia.
    + intros [= <- _]. right. rewrite slength_app. cbn [String.length].
      pose proof (rstrip_le is_slash x "/" eq_refl). lia.
  - intros [= <- <-]. right. destruct p; [done|]. cbn. lia.
Qed.

Lemma scan_root_loops path p l fuel : truthy p = true → path_split p = (p, EmptyString) →
  Scan.relative_loop path fuel p l = None.
Proof.
  intros Ht Hs. revert l. induction fuel as [|fuel IH]; intros l; [done|]. cbn.
  rewrite Ht, Hs. apply IH.
Qed.

(** the outcome of the search here, in the terms of the search of ns3modulescan.py *)
Definition same_outcome (run : nat → option (result string)) (r : option (result string)) : Prop :=
  match r with
  | None => False
  | Some (Raise (ValueError _)) => ∀ fuel, run fuel = None
  | Some r => ∃ fuel, run fuel = Some r
  end.

Lemma relative_loops_agree path fuel head l : (String.length head < fuel)%nat →
  same_outcome (λ f, Scan.relative_loop path f head l) (relative_loop fuel head l).
Proof.
  revert head l. induction fuel as [|fuel IH]; intros head l Hf; [lia|]. cbn [relative_loop].
  destruct (truthy head) eqn:Ht; cbn [negb].
  2:{ exists 1%nat. cbn. by rewrite Ht. }
  destruct (path_split head) as [new_head tail] eqn:Es.
  assert (head ≠ EmptyString) as Hne by by intros ->.
  destruct (path_split_shrinks _ _ _ Hne Es) as [[-> ->]|Hlt].
  { rewrite String.eqb_refl. intros f. by apply scan_root_loops. }
  destruct (String.eqb_spec new_head head) as [->|_]; [lia|].
  destruct (tail =? "ns3")%string eqn:Et.
  { destruct l as [|x l]; exists 1%nat; cbn; by rewrite Ht, Es, Et. }
  specialize (IH new_head (tail :: l) ltac:(lia)).
  assert (∀ f, Scan.relative_loop path (S f) head l = Scan.relative_loop path f new_head (tail :: l))
    as Hstep by (intros f; cbn; by rewrite Ht, Es, Et).
  destruct (relative_loop fuel new_head (tail :: l)) as [[p|e]|]; [| |done].
  - destruct IH as [f Hr]. exists (S f). by rewrite Hstep.
  - destruct e; try (destruct IH as [f Hr]; exists (S f); by rewrite Hstep).
    intros [|f]; [done|]. rewrite Hstep. apply IH.
Qed.

Lemma relative_path_ends path : is_Some (get_ns3_relative_path path).
Proof.
  unfold get_ns3_relative_path. case_match; [by eexists|].
  pose proof (relative_loops_agree path (S (String.length path)) path [] ltac:(lia)) as H'.
  by destruct (relative_loop _ _ _) as [r|]; [eexists|].
Qed.

(** The search for the directory ns3 always ends here, on every text, and agrees with the one
    of ns3modulescan.py: where that one ends the outcomes are the same, where it never ends this
    one raises ValueError.  (For the empty path it gives None.) *)
Theorem relative_paths_agree path (Hp : path ≠ EmptyString) :
  match relative_path path with
  | Ok None => False
  | Ok (Some p) => ∃ fuel, Scan.get_ns3_relative_path fuel path = Some (Ok p)
  | Raise (ValueError _) => ∀ fuel, Scan.get_ns3_relative_path fuel path = None
  | Raise e => ∃ fuel, Scan.get_ns3_relative_path fuel path = Some (Raise e)
  end.
Proof.
  unfold relative_path, get_ns3_relative_path, Scan.get_ns3_relative_path.
  assert (truthy path = true) as -> by by destruct path. cbn [negb].
  pose proof (relative_loops_agree path (S (String.length path)) path [] ltac:(lia)) as H'.
  destruct (relative_loop _ _ _) as [[p|e]|]; [exact H'| |done]. by destruct e.
Qed.

Lemma relative_paths_agree_witness :
  relative_path "/usr/include/stdio.h" = Raise (ValueError EmptyString) ∧
  ∀ fuel, Scan.get_ns3_relative_path fuel "/usr/include/stdio.h" = None.
Proof. split; [reflexivity|]. exact (relative_paths_agree "/usr/include/stdio.h" ltac:(done)). Defined.

(** *** The module of a class *)
Section hook.
  Context (template_args : string → list string) (is_instantiation : string → bool)
          (template_parameters : string → list string) (find_location : string → option string)
          (hook : PreScanHook).

Lemma dict_update_other {V} (g a : list (string * V)) k :
  k ∉ a.*1 → dict_get (dict_update g a) k = dict_get g k.
Proof.
  unfold dict_update. revert g. induction a as [|[k0 v] a IH]; intros g Hk; [done|]. cbn in *.
  apply not_elem_of_cons in Hk as [Hk0 Hk]. rewrite IH by done. by apply dict_get_set_ne.
Qed.

Lemma class_case_keys t a : Scan.class_case t = Some a → "import_from_module" ∉ a.*1.
Proof.
  unfold Scan.class_case. intros H Hin%list_elem_of_In.
  repeat case_match; simplify_eq; cbn in Hin; intuition discriminate.
Qed.

(** an annotation under another key does not touch the import *)
Lemma when_annotate_other b k v (s : Scan.hook_state) : k ≠ "import_from_module" →
  ∃ g, Scan.when b (Scan.annotate k v) s = (Ok (), Scan.set_global g s) ∧
    dict_get g "import_from_module" = dict_get (Scan.h_global s) "import_from_module".
Proof.
  intros Hk. destruct b.
  - eexists. split; [reflexivity|]. by apply dict_get_set_ne.
  - exists (Scan.h_global s). by destruct s.
Qed.

(** the class tests add to the annotations without touching the import *)
Lemma class_tests_other d (s : Scan.hook_state) :
  (∀ a, dict_get (Scan.h_table s) (d_decl_string d) = Some a → "import_from_module" ∉ a.*1) →
  ∃ s', Scan.class_tests d s = (Ok (), s') ∧
    dict_get (Scan.h_global s') "import_from_module" =
      dict_get (Scan.h_global s) "import_from_module".
Proof.
  intros Hs. unfold Scan.class_tests. destruct (Scan.class_case _) as [a|] eqn:E.
  - eexists. split; [reflexivity|]. by apply dict_update_other, (class_case_keys (d_decl_string d)).
  - cbv [mbind py_bind py_get]. destruct (dict_get (Scan.h_table s) _) as [a|] eqn:Ea.
    + eexists. split; [reflexivity|]. by apply dict_update_other, Hs.
    + by eexists.
Qed.

Definition in_this_module (d : definition) (m0 : string) (ms : list string) : bool :=
  (m0 =? module hook)%string ||
  is_instantiation (d_decl_string d) && existsb (λ m, m =? module hook)%string ms.

Lemma on_class_import d m0 ms s :
  (is_instantiation (d_decl_string d) = true →
   template_parameters_modules find_location hook (template_parameters (d_name d)) = Ok ms) →
  (∀ a, dict_get (Scan.h_table (m_hook s)) (d_decl_string d) = Some a →
     "import_from_module" ∉ a.*1) →
  ∃ s', on_class is_instantiation template_parameters find_location hook d m0 s = (Ok (), s') ∧
    dict_get (Scan.h_global (m_hook s')) "import_from_module" =
      if in_this_module d m0 ms then dict_get (Scan.h_global (m_hook s)) "import_from_module"
      else Some (EStr ("ns." +:+ py_replace "-" "_" m0)).
Proof.
  intros Hms Hs. unfold on_class.
  assert (∃ m, class_module is_instantiation template_parameters find_location hook d m0 = Ok m ∧
    (m =? module hook)%string = in_this_module d m0 ms ∧ (in_this_module d m0 ms = false → m = m0))
    as (m & Hm & Him & Hm0).
  { unfold class_module, in_this_module. destruct (is_instantiation _); cbn.
    - rewrite Hms by done. cbn. destruct (existsb _ ms); eexists; split; try reflexivity.
      + by rewrite String.eqb_refl, orb_true_r.
      + by rewrite orb_false_r.
    - eexists. by rewrite orb_false_r. }
  cbv [mbind py_bind print_err py_modify py_lift]. rewrite Hm. unfold on_hook. cbn [m_hook].
  rewrite Him. set (h1 := snd (Scan.when (negb (in_this_module d m0 ms))
    (Scan.annotate "import_from_module" (import_class m)) (m_hook s))).
  assert (E1 : Scan.when (negb (in_this_module d m0 ms))
    (Scan.annotate "import_from_module" (import_class m)) (m_hook s) = (Ok (), h1))
    by (unfold h1; by destruct (in_this_module d m0 ms)).
  rewrite E1.
  assert (Scan.h_table h1 = Scan.h_table (m_hook s)) as Ht
    by (unfold h1; by destruct (in_this_module d m0 ms)).
  destruct (class_tests_other d h1) as (h2 & E2 & Hg); [by rewrite Ht|].
  rewrite E2. eexists. split; [reflexivity|]. cbn.
  rewrite Hg. unfold h1. destruct (in_this_module d m0 ms); [done|]. cbn.
  rewrite dict_get_set_eq. by rewrite Hm0.
Qed.

(** a class comes to its tests with only a comment added *)
Lemma call_class d h m0 s :
  d_kind d = ClassT → relative_path (d_file d) = Ok (Some h) → h ≠ EmptyString →
  dict_get (headers_map hook) h = Some m0 →
  ∃ s1, Scan.h_table (m_hook s1) = Scan.h_table (m_hook s) ∧
    dict_get (Scan.h_global (m_hook s1)) "import_from_module" =
      dict_get (Scan.h_global (m_hook s)) "import_from_module" ∧
    call template_args is_instantiation template_parameters find_location hook d s =
      on_class is_instantiation template_parameters find_location hook d m0 s1.
Proof.
  intros Hkind Hh Hne Hm0. unfold call. rewrite Hh. unfold from_option.
  assert (truthy h = true) as Ht by by destruct h.
  unfold header_module. cbv [mbind py_bind print_out py_modify id]. rewrite Ht. cbn [negb].
  rewrite Hm0. cbv [py_lift]. unfold annotate_definition, Scan.is_member. rewrite Hkind.
  rewrite !bool_decide_eq_false_2 by done. cbn [andb is_calldef].
  cbv [mbind py_bind on_hook Scan.annotate py_modify Scan.when mret py_ret]. cbn [m_hook].
  eexists. split; [|split; [|reflexivity]]; [done|]. cbn. by apply dict_get_set_ne.
Qed.

(** A class from a header of ns-3 is imported exactly when it belongs to another module: its
    header is of another module and it is no instantiation with an argument that is declared in a
    header of this one.  Then it gets the annotation import_from_module with the module of the
    header, where dashes are replaced; otherwise that annotation is as before the call. *)
Theorem class_import d h m0 ms s
    (Hkind : d_kind d = ClassT) (Hh : relative_path (d_file d) = Ok (Some h))
    (Hne : h ≠ EmptyString) (Hm0 : dict_get (headers_map hook) h = Some m0)
    (Hms : is_instantiation (d_decl_string d) = true →
       template_parameters_modules find_location hook (template_parameters (d_name d)) = Ok ms)
    (Htable : ∀ a, dict_get (Scan.h_table (m_hook s)) (d_decl_string d) = Some a →
       "import_from_module" ∉ a.*1) :
  ∃ s', call template_args is_instantiation template_parameters find_location hook d s
          = (Ok (), s') ∧
    dict_get (Scan.h_global (m_hook s')) "import_from_module" =
      if in_this_module d m0 ms
      then dict_get (Scan.h_global (m_hook s)) "import_from_module"
      else Some (EStr ("ns." +:+ py_replace "-" "_" m0)).
Proof.
  destruct (call_class d h m0 s) as (s1 & Ht & <- & ->); [done..|].
  apply on_class_import; [done|]. by rewrite Ht.
Qed.
End hook.

Lemma class_import_witness :
  let d := {| d_kind := ClassT; d_name := "Ptr<ns3::Packet>"; d_parent := "ns3";
              d_text := "ns3::Ptr<ns3::Packet>"; d_decl_string := "::ns3::Ref<ns3::Packet>";
              d_demangled := "f"; d_file := "/b/ns3/ptr.h"; d_defaults := [] |} in
  let run module := call (λ _, []) (λ _, true) (λ _, ["ns3::Packet"]) (λ _, Some "/b/ns3/packet.h")
    (mk_pre_scan_hook [("ptr.h", "core-lib"); ("packet.h", "network")] module) d
    (mk_mod_state (Scan.mk_hook [] [] [] []) [] []) in
  (∃ s', run "wifi" = (Ok (), s') ∧
     dict_get (Scan.h_global (m_hook s')) "import_from_module" = Some (EStr "ns.core_lib")) ∧
  (∃ s', run "network" = (Ok (), s') ∧
     dict_get (Scan.h_global (m_hook s')) "import_from_module" = None).
Proof.
  intros d run. split.
  - apply (class_import (λ _, []) (λ _, true) (λ _, ["ns3::Packet"]) (λ _, Some "/b/ns3/packet.h")
      (mk_pre_scan_hook [("ptr.h", "core-lib"); ("packet.h", "network")] "wifi")
      d "ptr.h" "core-lib" ["network"]); done || reflexivity.
  - apply (class_import (λ _, []) (λ _, true) (λ _, ["ns3::Packet"]) (λ _, Some "/b/ns3/packet.h")
      (mk_pre_scan_hook [("ptr.h", "core-lib"); ("packet.h", "network")] "network")
      d "ptr.h" "core-lib" ["network"]); done || reflexivity.
Defined.
End ModularFacts.
