(* ===== verification/GenBinds.v ===== *)
(** * genbinds.py: scanning the headers of DCE for the Python bindings

    bindings/python/genbinds.py, a script of Python 2: its own table of annotations, a hook that
    differs from the one of ns3modulescan.py only in the comment it gives, and the scan. *)
From Stdlib Require Import ZArith Lia Ascii String.
From stdpp Require Import base list strings.
From S2P Require Import Prelude PyStr ModuleScan.
Import Decl.

Module GenBinds.

Definition includes_dce : list string := ["ccn-client-helper.h"].

Definition type_annotations : list (string * annotations) := dict_of
  [("::ns3::AttributeChecker",
    [("automatic_type_narrowing", EStr "true"); ("allow_subclassing", EStr "false")]);
   ("::ns3::AttributeValue",
    [("automatic_type_narrowing", EStr "true"); ("allow_subclassing", EStr "false")]);
   ("::ns3::CommandLine",
    [("allow_subclassing", EStr "true")]);
   ("::ns3::NscTcpL4Protocol",
    [("ignore", EStr "true")]);
   ("ns3::RandomVariable::RandomVariable(ns3::RandomVariableBase const & variable) [constructor]",
    [("ignore", ENone)]);
   ("ns3::RandomVariableBase * ns3::RandomVariable::Peek() const [member function]",
    [("ignore", ENone)]);
   ("void ns3::RandomVariable::GetSeed(uint32_t * seed) const [member function]",
    [("params", EParams [("seed", [("direction", "out"); ("array_length", "6")])])]);
   ("bool ns3::TypeId::LookupAttributeByName(std::string name, ns3::TypeId::AttributeInformation * info) const [member function]",
    [("params", EParams [("info", [("transfer_ownership", "false")])])]);
   ("static bool ns3::TypeId::LookupByNameFailSafe(std::string name, ns3::TypeId * tid) [member function]",
    [("ignore", ENone)]);
   ("bool ns3::TraceSourceAccessor::ConnectWithoutContext(ns3::ObjectBase * obj, ns3::CallbackBase const & cb) const [member function]",
    [("params", EParams [("obj", [("transfer_ownership", "false")])])]);
   ("bool ns3::TraceSourceAccessor::Connect(ns3::ObjectBase * obj, std::string context, ns3::CallbackBase const & cb) const [member function]",
    [("params", EParams [("obj", [("transfer_ownership", "false")])])]);
   ("bool ns3::TraceSourceAccessor::DisconnectWithoutContext(ns3::ObjectBase * obj, ns3::CallbackBase const & cb) const [member function]",
    [("params", EParams [("obj", [("transfer_ownership", "false")])])]);
   ("bool ns3::TraceSourceAccessor::Disconnect(ns3::ObjectBase * obj, std::string context, ns3::CallbackBase const & cb) const [member function]",
    [("params", EParams [("obj", [("transfer_ownership", "false")])])]);
   ("bool ns3::AttributeAccessor::Set(ns3::ObjectBase * object, ns3::AttributeValue const & value) const [member function]",
    [("params", EParams [("object", [("transfer_ownership", "false")])])]);
   ("ns3::EmpiricalVariable::EmpiricalVariable(ns3::RandomVariableBase const & variable) [constructor]",
    [("ignore", ENone)]);
   ("static ns3::AttributeList * ns3::AttributeList::GetGlobal() [member function]",
    [("caller_owns_return", EStr "false")]);
   ("void ns3::CommandLine::Parse(int argc, char * * argv) const [member function]",
    [("ignore", ENone)]);
   ("extern void ns3::PythonCompleteConstruct(ns3::Ptr<ns3::Object> object, ns3::TypeId typeId, ns3::AttributeList const & attributes) [free function]",
    [("ignore", ENone)]);
   ("ns3::Ptr<ns3::Ipv4RoutingProtocol> ns3::Ipv4ListRouting::GetRoutingProtocol(uint32_t index, int16_t & priority) const [member function]",
    [("params", EParams [("priority", [("direction", "out")])])]);
   ("ns3::Ipv4RoutingTableEntry * ns3::GlobalRouter::GetInjectedRoute(uint32_t i) [member function]",
    [("params", EParams [("return", [("caller_owns_return", "false")])])]);
   ("ns3::Ipv4RoutingTableEntry * ns3::Ipv4GlobalRouting::GetRoute(uint32_t i) const [member function]",
    [("params", EParams [("return", [("caller_owns_return", "false")])])]);
   ("::ns3::TestCase",
    [("ignore", EStr "true")]);
   ("::ns3::TestRunner",
    [("ignore", EStr "true")]);
   ("::ns3::TestSuite",
    [("ignore", EStr "true")]);
   ("::ns3::Ptr",
    [("import_from_module", EStr "ns.core")]);
   ("::ns3::ProcStatus::ProcStatus(int n, int e, int p, int64_t ns, int64_t ne, long rs, long re, double nd, long rd, std::string cmd)  [constructor]",
    [("ignore", ENone)]);
   ("::DceApplication::SetEnvironment (std::vector<std::pair<std::string,std::string>> envs)  [member function]",
    [("params", EParams [("envs", [("direction", "in")])])]);
   ("::ns3::Object",
    [("import_from_module", EStr "ns.core")]);
   ("::ns3::AttributeValue",
    [("import_from_module", EStr "ns.core")]);
   ("::ns3::Node",
    [("import_from_module", EStr "ns.network")]);
   ("::ns3::NodeContainer",
    [("import_from_module", EStr "ns.network")]);
   ("::ns3::Ipv4Address",
    [("import_from_module", EStr "ns.network")]);
   ("::ns3::Ipv4Mask",
    [("import_from_module", EStr "ns.network")]);
   ("::ns3::Address",
    [("import_from_module", EStr "ns.network")]);
   ("::ns3::Application",
    [("import_from_module", EStr "ns.network")]);
   ("::ns3::ApplicationContainer",
    [("import_from_module", EStr "ns.network")]);
   ("::ns3::EmptyAttributeValue",
    [("ignore", EStr "true")]);
   ("::ns3::Ipv4AddressHash",
    [("ignore", EStr "true")]);
   ("::ns3::Ipv6AddressHash",
    [("ignore", EStr "true")]);
   ("::ns3::Ipv4StaticRoutingHelper",
    [("import_from_module", EStr "ns.network")]);
   ("::ns3::Ipv4RoutingProtocol",
    [("import_from_module", EStr "ns.network")]);
   ("void ns3::DceApplicationHelper::InstallInNode(Ptr<Node> node) [member function]",
    [("params", EParams [("node", [("direction", "in")])])])].

(** ** The hook *)

(** the global of the module; the assignment in [dcepy_module_gen] makes a local variable *)
Definition DCE_INCLUDE_PATH : string := ".".

Definition pre_scan_hook (template_args : string → list string) (d : definition)
    : py Scan.hook_state unit :=
  let ns3_header := DCE_INCLUDE_PATH +:+ "/" +:+ d_file d in
  Scan.annotate "pygen_comment" (EStr (ns3_header +:+ ": " +:+ d_text d)) ;;
  Scan.annotate_definition template_args false d (d_demangled d).

(** ** The scan *)

(** the system calls and the calls of the module parser, in order *)
Inductive event :=
  | Makedirs (path : string)
  | NewParser (name namespace : string)
  | EnableAnonymousContainers
  | AddPreScanHook
  | Print (line : string)
  | OpenFile (path : string)
  | ParseInit (headers include_paths whitelist_paths : list string) (cflags : string)
              (includes : list string)
  | ScanTypes | ScanMethods | ScanFunctions | ParseFinalize.

Definition emit (e : event) : py (list event) unit := py_modify (λ l, l ++ [e]).

(** what [os.makedirs] raises: the error number of the OSError *)
Definition EEXIST : Z := 17.

Definition make_bldpath (makedirs : string → option Z) (isdir : string → bool) (bldpath : string)
    : py (list event) unit :=
  emit (Makedirs bldpath) ;;
  match makedirs bldpath with
  | None => mret ()
  | Some errno => if (errno =? EEXIST)%Z && isdir bldpath then mret () else py_raise (OSError bldpath)
  end.

Definition quoted (s : string) : string := String "034" (s +:+ String "034" EmptyString).

Definition dcepy_module_gen (makedirs : string → option Z) (isdir : string → bool)
    (binddir ns3path dcepath : string) : py (list event) unit :=
  let cflags := EmptyString in
  let bldpath := "bindings/python" in
  make_bldpath makedirs isdir bldpath ;;
  let ref_header_dir := binddir +:+ "/refh" in
  let include_paths := [ref_header_dir; ns3path] in
  let cflags := "--gccxml-cxxflags " +:+ quoted (cflags +:+ " -DPYTHON_SCAN") in
  let inclfiles := (λ hf, ref_header_dir +:+ "/" +:+ hf) <$> includes_dce in
  let whitelist_paths := [ref_header_dir] in
  emit (NewParser "dce" "ns3") ;;
  emit EnableAnonymousContainers ;;
  emit AddPreScanHook ;;
  let fname := bldpath +:+ "/temp_dce_bindings.py" in
  emit (Print ("Generating python pygendbind intermediate file: " +:+ fname)) ;;
  emit (OpenFile fname) ;;
  let includes := quoted <$> ["ns3/dce-module.h"; "ns3/dce-manager-helper.h";
                              "ns3/dce-application.h"; "ns3/ipv4-dce-routing-helper.h"] in
  emit (ParseInit inclfiles include_paths whitelist_paths cflags includes) ;;
  emit ScanTypes ;;
  emit ScanMethods ;;
  emit ScanFunctions ;;
  emit ParseFinalize.
End GenBinds.

(** ** Facts *)
Module GenBindsFacts.
Import Scan.
Import GenBinds.

(** the parameters of a function are annotated under the key params, and nothing else is *)
Definition is_params (v : entry) : bool := match v with EParams _ => true | _ => false end.
Definition entry_ok (x : string * entry) : Prop := is_params x.2 = (x.1 =? "params")%string.
#[export] Instance entry_ok_dec x : Decision (entry_ok x).
Proof. unfold entry_ok. apply _. Defined.
Definition annotations_ok (a : annotations) : Prop := NoDup a.*1 ∧ Forall entry_ok a.
#[export] Instance annotations_ok_dec a : Decision (annotations_ok a).
Proof. unfold annotations_ok. apply _. Defined.
Definition table_ok (t : list (string * annotations)) : Prop :=
  Forall (λ x, annotations_ok x.2) t.
#[export] Instance table_ok_dec t : Decision (table_ok t).
Proof. unfold table_ok. apply _. Defined.
(** what the generator is given for a definition is never the annotations of parameters *)
Definition plain (x : string * entry) : Prop := is_params x.2 = false.
Definition global_ok (g : annotations) : Prop := Forall plain g.

Lemma dict_get_Forall {V} (P : string * V → Prop) d k v :
  Forall P d → dict_get d k = Some v → P (k, v).
Proof.
  induction 1 as [|[k0 v0] d Hx _ IH]; cbn; [done|]. case_decide; [|done]. by intros [= ->]; subst.
Qed.

Lemma dict_set_Forall {V} (P : string * V → Prop) d k v :
  Forall P d → P (k, v) → Forall P (dict_set d k v).
Proof.
  intros Hd Hv. induction Hd as [|[k0 v0] d Hx Hd IH]; cbn; [by constructor|].
  case_decide as Hk; subst; by constructor.
Qed.

Lemma dict_update_Forall {V} (P : string * V → Prop) d a :
  Forall P d → Forall P a → Forall P (dict_update d a).
Proof.
  unfold dict_update. intros Hd Ha. revert d Hd. induction Ha as [|[k v] a Hx Ha IH]; intros d Hd; [done|].
  cbn. apply IH. by apply dict_set_Forall.
Qed.

Lemma dict_del_ok a : annotations_ok a → annotations_ok (dict_del a "params") ∧ global_ok (dict_del a "params").
Proof.
  intros [Hnd Ha]. induction Ha as [|[k v] a Hx Ha IH]; cbn; [repeat constructor|].
  apply NoDup_cons in Hnd as [Hk Hnd]. destruct (IH Hnd) as [[IH1 IH2] IH3].
  assert (Hk' : is_params v = (k =? "params")%string) by exact Hx.
  destruct (k =? "params")%string eqn:Ek; [done|].
  split; [split|]; cbn; [|by constructor|by constructor].
  apply NoDup_cons. split; [|done]. intros Hin. apply Hk.
  clear -Hin. induction a as [|[k0 v0] a IH]; cbn in *; [done|].
  destruct (k0 =? "params")%string; cbn in *; set_solver.
Qed.

Lemma no_params_plain a : annotations_ok a → "params" ∉ a.*1 → global_ok a.
Proof.
  intros [_ Ha] Hno. induction Ha as [|[k v] a Hx Ha IH]; [by constructor|]. cbn in Hno.
  apply not_elem_of_cons in Hno as [Hk Hno]. constructor; [|by apply IH].
  unfold entry_ok, plain in *. rewrite Hx. by apply String.eqb_neq, not_eq_sym.
Qed.

(** the state of the hook is typed; an action that succeeds keeps it so *)
Section keeps.
  Context (d : definition).
Definition class_ok (t : list (string * annotations)) : Prop :=
  ∀ a, d_kind d = ClassT → dict_get t (d_decl_string d) = Some a → "params" ∉ a.*1.
Definition hook_ok (s : hook_state) : Prop :=
  table_ok (h_table s) ∧ global_ok (h_global s) ∧ class_ok (h_table s).
Definition keeps (m : py hook_state unit) : Prop :=
  ∀ s, hook_ok s → ∃ s', m s = (Ok (), s') ∧ hook_ok s'.

Lemma typed_bind (m n : py hook_state unit) : keeps m → keeps n → keeps (m ;; n).
Proof.
  intros Hm Hn s Hs. cbv [mbind py_bind]. destruct (Hm s Hs) as (s1 & -> & Hs1). by apply Hn.
Qed.
Lemma typed_ret : keeps (mret ()).
Proof. intros s Hs. by exists s. Qed.
Lemma keeps_annotate k v : is_params v = false → keeps (annotate k v).
Proof. intros Hv s (Ht & Hg & Hc). eexists. split; [done|]. split_and!; [done| |done]. by apply dict_set_Forall. Qed.
Lemma keeps_update a : global_ok a → keeps (update_global a).
Proof. intros Ha s (Ht & Hg & Hc). eexists. split; [done|]. split_and!; [done| |done]. by apply dict_update_Forall. Qed.
Lemma keeps_when b m : keeps m → keeps (when b m).
Proof. destruct b; [done|]. intros _. apply typed_ret. Qed.
Lemma keeps_defaults f : keeps (py_modify (λ s, set_defaults (f s) s)).
Proof. intros s Hs. by eexists. Qed.
#[local] Hint Resolve typed_bind typed_ret keeps_annotate keeps_when keeps_defaults : core.

Lemma class_case_plain t a : class_case t = Some a → global_ok a.
Proof. unfold class_case. intros H. repeat case_match; simplify_eq; by repeat constructor. Qed.

Lemma class_tests_keeps : d_kind d = ClassT → keeps (class_tests d).
Proof.
  intros Hk s Hs. pose proof Hs as (Ht & Hg & Hc). unfold class_tests.
  destruct (class_case _) as [a|] eqn:E; [apply keeps_update; [by eapply class_case_plain|done]|].
  cbv [mbind py_bind py_get]. destruct (dict_get (h_table s) _) as [a|] eqn:Ea; [|by exists s].
  apply keeps_update; [|done]. apply no_params_plain; [|by apply Hc].
  exact (dict_get_Forall _ _ _ _ Ht Ea).
Qed.

Lemma function_table_keeps : keeps (function_table false d).
Proof.
  intros s Hs. pose proof Hs as (Ht & Hg & Hc). unfold function_table. cbv [mbind py_bind py_get].
  destruct (dict_get (h_table s) (d_text d)) as [a|] eqn:Ea; [|by exists s].
  pose proof (dict_get_Forall _ _ _ _ Ht Ea) as Ha. cbn in Ha.
  destruct (decide ("params" ∈ a.*1)) as [Hin|Hno].
  - apply list_elem_of_fmap in Hin as ([k v] & Hk & Hin). cbn in Hk. subst k.
    destruct Ha as [Hnd Hok]. pose proof (proj1 (Forall_forall _ _) Hok _ Hin) as Hv.
    unfold entry_ok in Hv. cbn in Hv. destruct v as [| | |p]; try done.
    assert (dict_get a "params" = Some (EParams p)) as Hget.
    { clear -Hnd Hin. induction a as [|[k0 v0] a IH]; [by apply elem_of_nil in Hin|]. cbn in *.
      apply NoDup_cons in Hnd as [Hk Hnd]. apply elem_of_cons in Hin as [[= <- <-]|Hin].
      - rewrite decide_True; done.
      - rewrite decide_False; [by apply IH|]. intros Heq. subst k0. apply Hk.
        apply list_elem_of_fmap. by exists ("params", EParams p). }
    rewrite (ScanFacts.params_loop_some false (d_text d) a p) by done.
    unfold ScanFacts.taken. cbn. rewrite Ea. cbn. rewrite dict_get_set_eq. cbn.
    destruct (dict_del_ok a) as [Hd Hp]; [by split|].
    eexists. split; [reflexivity|]. split_and!; cbn.
    + by apply dict_set_Forall.
    + by apply dict_update_Forall.
    + intros a' Hk. rewrite dict_get_set. case_decide; [|by apply Hc].
      intros [= <-]. apply ScanFacts.dict_del_keys.
  - rewrite ScanFacts.params_loop_none by done. rewrite Ea. cbn.
    apply keeps_update; [|done]. by apply no_params_plain.
Qed.

Lemma annotate_definition_keeps template_args txt :
  keeps (annotate_definition template_args false d txt).
Proof.
  unfold annotate_definition. repeat apply typed_bind; auto.
  destruct (d_kind d) eqn:Hk; auto using class_tests_keeps, function_table_keeps.
  case_match; auto using function_table_keeps.
Qed.
End keeps.

(** Typing of the annotations under Python 2: when the table annotates parameters under the key
    params only, and classes not at all under it, the hook succeeds on every definition, what it
    gives the generator for the definition itself is a text, None or True, and the table keeps its
    type. *)
Theorem hook_well_typed template_args d s
    (Ht : table_ok (h_table s)) (Hg : global_ok (h_global s))
    (Hclass : ∀ a, d_kind d = ClassT → dict_get (h_table s) (d_decl_string d) = Some a →
       "params" ∉ a.*1) :
  ∃ s', pre_scan_hook template_args d s = (Ok (), s') ∧
    table_ok (h_table s') ∧ global_ok (h_global s').
Proof.
  assert (keeps d (pre_scan_hook template_args d)) as H.
  { apply typed_bind; [by apply keeps_annotate|apply annotate_definition_keeps]. }
  destruct (H s) as (s' & E & Ht' & Hg' & _); [done|]. by exists s'.
Qed.

Lemma hook_well_typed_witness :
  let d := {| d_kind := MemberFunctionT; d_name := "GetSeed"; d_parent := "RandomVariable";
              d_text := "void ns3::RandomVariable::GetSeed(uint32_t * seed) const [member function]";
              d_decl_string := "f"; d_demangled := "f"; d_file := "random-variable.h";
              d_defaults := [] |} in
  table_ok type_annotations ∧
  ∃ s', pre_scan_hook (λ _, []) d (mk_hook type_annotations [] [] []) = (Ok (), s') ∧
    table_ok (h_table s') ∧ global_ok (h_global s').
Proof.
  intros d. assert (table_ok type_annotations) as Ht.
  { apply (bool_decide_eq_true_1 _). vm_compute. reflexivity. }
  split; [exact Ht|]. apply (hook_well_typed (λ _, []) d (mk_hook type_annotations [] [] [])).
  - exact Ht.
  - constructor.
  - done.
Defined.

(** the two entries of [::ns3::AttributeValue] are not merged: the later one replaces the first *)
Example later_entry_wins :
  dict_get type_annotations "::ns3::AttributeValue"
    = Some [("import_from_module", EStr "ns.core")].
Proof. vm_compute. reflexivity. Qed.
End GenBindsFacts.
