(* ===== verification/Customizations.v ===== *)
(** * ns3modulegen_core_customizations.py: what ns-3 adds to the generated bindings

    bindings/python/ns3modulegen_core_customizations.py: the transformation of smart pointer types
    ([SmartPtr]), the classes for Python callbacks ([Callbacks]) and the customizations of classes
    of the module ([Custom]).  The code drives pybindgen: its objects are what the code reads of
    them, the calls on them are events in order, and the types it knows are parameters. *)
From Stdlib Require Import ZArith Lia Ascii String.
From stdpp Require Import base list strings.
From S2P Require Import Prelude PyStr WUtils.
#[local] Open Scope Z_scope.

(** ** SmartPointerTransformation *)
Module SmartPtr.

(** the optional prefixes of the expression *)
Definition after_ptr (name : string) : option string :=
  if startswith name "ns3::Ptr<" then Some (str_drop 9 name)
  else if startswith name "::ns3::Ptr<" then Some (str_drop 11 name)
  else if startswith name "Ptr<" then Some (str_drop 4 name)
  else None.

(** [self.rx.match(name)]: the second group *)
Definition rx_match (name : string) : option string :=
  match after_ptr name with
  | Some rest =>
      match split_once ">" rest with
      | Some (inner, tail) =>
          if truthy inner && str_all is_space tail then Some inner else None
      | None => None
      end
  | None => None
  end.

Definition str_take_back (n : nat) (s : string) : string := str_take (String.length s - n) s.

(** (new_name, is_const) of the text inside the brackets *)
Definition inner_traits (group2 : string) : string * bool :=
  let name1 := strip group2 in
  let c1 := startswith name1 "const " in
  let name1 := if c1 then str_drop 6 name1 else name1 in
  let c2 := endswith name1 " const" in
  let name1 := if c2 then str_take_back 6 name1 else name1 in
  let new_name := name1 +:+ " *" in
  ((if startswith new_name "::" then str_drop 2 new_name else new_name), c1 || c2).

(** the state is the lines printed on the standard error *)
Definition _get_untransformed_type_traits (name : string) : py (list string) (option string * bool) :=
  match rx_match name with
  | None =>
      py_modify (λ l, l ++ [Repr.py_repr name +:+ " did not match"]) ;;
      mret (None, false)
  | Some g => let '(n, c) := inner_traits g in mret (Some n, c)
  end.
Definition get_untransformed_name (name : string) : py (list string) (option string) :=
  '(new_name, _) ← _get_untransformed_type_traits name; mret new_name.

Inductive handler_class := ParameterClass | ReturnValueClass | OtherClass.
(** a keyword argument with a truth value, or another one *)
Inductive kwvalue := KBool (b : bool) | KOther (s : string).

(** a made type handler: its arguments, keyword arguments and the type it stands for *)
Record handler := mk_handler {
  hd_class : handler_class;
  hd_args : list string;
  hd_kwargs : list (string * kwvalue);
  untransformed_ctype : string
}.

Definition drop_pointer (orig_ctype : string) : string := str_take_back 2 orig_ctype.
Definition correct_ctype (orig_ctype : string) (is_const : bool) : string :=
  if is_const then "ns3::Ptr< " +:+ drop_pointer orig_ctype +:+ " const >"
  else "ns3::Ptr< " +:+ drop_pointer orig_ctype +:+ " >".

Definition ownership (c : handler_class) (kwargs : list (string * kwvalue))
    : result (list (string * kwvalue)) :=
  match c with
  | ParameterClass => Ok (dict_set kwargs "transfer_ownership" (KBool false))
  | ReturnValueClass => Ok (dict_set kwargs "caller_owns_return" (KBool false))
  | OtherClass => Raise AssertionError
  end.

(** a name that does not match has no type to slice *)
Definition create_type_handler (c : handler_class) (args : list string)
    (kwargs : list (string * kwvalue)) : py (list string) handler :=
  kwargs ← py_lift (ownership c kwargs);
  match args with
  | [] => py_raise IndexError
  | name :: rest =>
      '(orig_ctype, is_const) ← _get_untransformed_type_traits name;
      match orig_ctype with
      | None => py_raise TypeError
      | Some o => mret (mk_handler c (correct_ctype o is_const :: rest) kwargs o)
      end
  end.

Definition untransform (h : handler) (expression : string) : string :=
  "const_cast<" +:+ untransformed_ctype h +:+ "> (ns3::PeekPointer (" +:+ expression +:+ "))".
Definition transform (h : handler) (expression : string) : result string :=
  let t := untransformed_ctype h in
  if negb (truthy t) then Raise IndexError
  else
    py_assert (endswith t "*") ;;
    Ok ("ns3::Ptr< " +:+ str_take_back 1 t +:+ " > (" +:+ expression +:+ ")").
End SmartPtr.

(** ** Callback classes *)
Module Callbacks.

(** what a wrapper is told to generate *)
Inductive wrap_event :=
  | ParseParam (format : string) (values : list string) (name : string) (optional : bool)
  | BuildParam (format : string) (values : list string)
  | DeclareVar (type name : string) (init : option string)
  | WriteCode (code : string)
  | ErrorCheck (condition : string) (failure : option string)
  | CleanupCode (code : string)
  | Indent | Unindent
  | CallParam (code : string).
Definition emit (e : wrap_event) : py (list wrap_event) unit := py_modify (λ l, l ++ [e]).

Section wrapper.
  (** the name [declare_variable] gives a variable, which depends on those declared before *)
  Variable fresh : list wrap_event → string → string.

Definition declare_variable (type name : string) (init : option string)
    : py (list wrap_event) string := λ l,
  let v := fresh l name in (Ok v, l ++ [DeclareVar type v init]).

(** [CallbackImplProxyMethod.generate_python_call] on the parameters to build *)
Definition generate_python_call (build_params : list string) : py (list wrap_event) unit :=
  match build_params with
  | [] => py_raise IndexError
  | EmptyString :: _ => py_raise IndexError
  | String c s :: rest =>
      let first := if Ascii.eqb c "034" then "(char *) " +:+ String c s else String c s in
      args ← declare_variable "PyObject*" "args" None;
      emit (WriteCode (args +:+ " = Py_BuildValue(" +:+ join ", " (first :: rest) +:+ ");")) ;;
      emit (CleanupCode ("Py_DECREF(" +:+ args +:+ ");")) ;;
      emit (WriteCode ("py_retval = PyObject_CallObject(m_callback, " +:+ args +:+ ");")) ;;
      emit (ErrorCheck "py_retval == NULL" None) ;;
      emit (CleanupCode "Py_DECREF(py_retval);")
  end.

(** a registered handler of a callback type *)
Record PythonCallbackParameter := mk_callback_parameter {
  CTYPES : list string;
  PYTHON_CALLBACK_IMPL_NAME : string;
  TEMPLATE_ARGS : list string;
  DISABLED : bool
}.

Definition callback_error (name : string) : string :=
  "PyErr_SetString(PyExc_TypeError, " +:+ String "034" ("parameter '" +:+ name +:+
  "' must be callbale" +:+ String "034" ");").

(** [convert_python_to_c] for a parameter with its name and default value *)
Definition convert_python_to_c (self : PythonCallbackParameter) (name : string)
    (default_value : option string) : py (list wrap_event) unit :=
  if DISABLED self then py_raise (PyException "CodeGenerationError")
  else
    let cb_type := "ns3::Callback<" +:+ join ", " (TEMPLATE_ARGS self) +:+ ">" in
    let check v := ErrorCheck ("!PyCallable_Check(" +:+ v +:+ ")") (Some (callback_error name)) in
    match default_value with
    | None =>
        py_callback ← declare_variable "PyObject*" name None;
        emit (ParseParam "O" ["&" +:+ py_callback] name false) ;;
        emit (check py_callback) ;;
        callback_impl ← declare_variable ("ns3::Ptr<" +:+ PYTHON_CALLBACK_IMPL_NAME self +:+ ">")
                          (name +:+ "_cb_impl") None;
        emit (WriteCode (callback_impl +:+ " = ns3::Create<" +:+ PYTHON_CALLBACK_IMPL_NAME self +:+
                         "> (" +:+ py_callback +:+ ");")) ;;
        emit (CallParam (cb_type +:+ " (" +:+ callback_impl +:+ ")"))
    | Some dv =>
        py_callback ← declare_variable "PyObject*" name (Some "NULL");
        emit (ParseParam "O" ["&" +:+ py_callback] name true) ;;
        value ← declare_variable cb_type (name +:+ "_value") (Some dv);
        emit (WriteCode ("if (" +:+ py_callback +:+ ") {")) ;;
        emit Indent ;;
        emit (check py_callback) ;;
        emit (WriteCode (value +:+ " = " +:+ cb_type +:+ " (ns3::Create<" +:+
                         PYTHON_CALLBACK_IMPL_NAME self +:+ "> (" +:+ py_callback +:+ "));")) ;;
        emit Unindent ;;
        emit (WriteCode "}") ;;
        emit (CallParam value)
    end.
End wrapper.

Definition callback_type (template_parameters : list string) : string :=
  "ns3::Callback< " +:+ join ", " template_parameters +:+ " >".
Definition impl_name (num : Z) : string := "PythonCallbackImpl" +:+ show_Z num.

(** [register_callback_classes]: the handlers that are registered, in order *)
Fixpoint register_from (num : Z) (callbacks : list (list string)) : list PythonCallbackParameter :=
  match callbacks with
  | [] => []
  | ts :: callbacks =>
      mk_callback_parameter [callback_type ts] (impl_name num) ts false
      :: register_from (num + 1) callbacks
  end.
(** [normalize] is [ctypeparser.normalize_type_string] *)
Definition register_line (normalize : string → string) (ts : list string) : string :=
  "***** registering callback handler: " +:+ Repr.py_repr (normalize (callback_type ts)) +:+
  " (" +:+ Repr.py_repr (callback_type ts) +:+ ")".
(** with the lines printed *)
Definition register_callback_classes (normalize : string → string) (callbacks : list (list string))
    : list PythonCallbackParameter * list string :=
  (register_from 0 callbacks, register_line normalize <$> callbacks).

(** the text of a class up to its call operator *)
Definition class_text (class_name : string) (template_parameters : list string) : string :=
  nl +:+ "class " +:+ class_name +:+ " : public ns3::CallbackImpl<" +:+
  join ", " template_parameters +:+ ">
{
public:
    PyObject *m_callback;
    " +:+ class_name +:+ "(PyObject *callback)
    {
        Py_INCREF(callback);
        m_callback = callback;
    }
    virtual ~" +:+ class_name +:+ "()
    {
        PyGILState_STATE __py_gil_state;
        __py_gil_state = (PyEval_ThreadsInitialized() ? PyGILState_Ensure() : (PyGILState_STATE) 0);
        Py_DECREF(m_callback);
        m_callback = NULL;
        PyGILState_Release(__py_gil_state);
    }

    virtual bool IsEqual(ns3::Ptr<const ns3::CallbackImplBase> other_base) const
    {
        const " +:+ class_name +:+ " *other = dynamic_cast<const " +:+ class_name +:+
        "*> (ns3::PeekPointer (other_base));
        if (other != NULL)
            return (other->m_callback == m_callback);
        else
            return false;
    }

".

Section generate.
  (** the handlers of return values and of parameters *)
  Context {R P : Type}.

(** what is written to the sink of a class: calls of [writeln], [indent], [unindent] and the
    generation of the call operator *)
Inductive sink_item := SWriteln (t : string) | SIndent | SUnindent | SCallOperator (ret : R) (args : list P).
Inductive gen_event :=
  | Warn (message : string)
  | DisableHelper (p : P)
  | DisableReturn (cls_name : string)
  | DisableParam (cls_name : string)
  | PrintFlush
  | Flush (items : list sink_item).

  (** the text of a parsed type, and whether it is const without its modifiers *)
  Variable parse_type : string → string * bool.
  (** [ReturnValue.new] and [Parameter.new]: a handler, or the repr of the error about the type *)
  Variable return_new : string → bool → R + string.
  Variable param_new : string → string → bool → P + string.
  (** the class of the parameter has a helper class that cannot be constructed *)
  Variable helper_unconstructible : P → bool.
  (** whether the type of the callback is found among the registered types *)
  Variable return_lookup param_lookup : string → bool.

Definition gen (e : gen_event) : py (list gen_event) unit := py_modify (λ l, l ++ [e]).

(** the parameters from the one with that number on: those that could be made, and whether all
    could *)
Fixpoint make_params (cls_name : string) (num : Z) (types : list string)
    : py (list gen_event) (list P * bool) :=
  match types with
  | [] => mret ([], true)
  | t :: types =>
      let arg_name := "arg" +:+ show_Z (num + 1) in
      let '(text, const) := parse_type t in
      match param_new text arg_name const with
      | inl p =>
          (if helper_unconstructible p then gen (DisableHelper p) else mret ()) ;;
          '(ps, ok) ← make_params cls_name (num + 1) types;
          mret (p :: ps, ok)
      | inr ex =>
          gen (Warn ("***** Unable to register callback; parameter '" +:+ t +:+ " " +:+ arg_name +:+
                     "' error (used in " +:+ cls_name +:+ "): " +:+ ex)) ;;
          '(ps, _) ← make_params cls_name (num + 1) types;
          mret (ps, false)
      end
  end.

(** the parameters that are not [ns3::empty] *)
Definition real_params (ts : list string) : list string :=
  List.filter (λ a, negb (a =? "ns3::empty")%string) ts.

(** one callback of [generate_callback_classes] *)
Definition generate_one (num : Z) (template_parameters : list string) : py (list gen_event) unit :=
  let cls_name := callback_type template_parameters in
  let text := class_text (impl_name num) template_parameters in
  match template_parameters with
  | [] => py_raise IndexError
  | callback_return :: params =>
      let '(rtext, const) := parse_type callback_return in
      match return_new rtext const with
      | inr ex =>
          gen (Warn ("***** Unable to register callback; Return value '" +:+ callback_return +:+
                     "' error (used in " +:+ cls_name +:+ "): " +:+ ex))
      | inl return_type =>
          '(arguments, ok) ← make_params cls_name 0 (real_params params);
          if negb ok then
            (if return_lookup cls_name then gen (DisableReturn cls_name) else mret ()) ;;
            (if param_lookup cls_name then gen (DisableParam cls_name) else mret ())
          else
            gen PrintFlush ;;
            gen (Flush [SWriteln text; SIndent; SCallOperator return_type arguments; SUnindent;
                        SWriteln ("};" +:+ nl)])
      end
  end.
Fixpoint generate_from (num : Z) (callbacks : list (list string)) : py (list gen_event) unit :=
  match callbacks with
  | [] => mret ()
  | ts :: callbacks => generate_one num ts ;; generate_from (num + 1) callbacks
  end.
Definition generate_callback_classes (callbacks : list (list string)) : py (list gen_event) unit :=
  generate_from 0 callbacks.
End generate.
End Callbacks.

(** ** Customizations of classes *)
Module Custom.

(** the calls on the module and its classes, in order *)
Inductive event :=
  | CustomWrapper (cls method wrapper : string) (flags : list string)
  | HelperClassHook (cls : string)
  | InstanceCreation (cls : string)
  | PostInstanceCreation (cls : string)
  | AddInclude (file : string)
  | AddClass (name namespace : string) (parent : option string)
  | CannotBeConstructed (cls reason : string)
  | AddEnum (cls name : string) (values : list (string * string))
  | AddConstructor (cls : string) (params : list (string * string * option string))
  | AddMethod (cls name : string)
  | AfterInit (code : string)
  | BodyWrite (text : string)
  | HeaderWrite (text : string)
  | SetSlot (cls slot function : string).

Definition emit (e : event) : py (list event) unit := py_modify (λ l, l ++ [e]).

Section module.
  (** whether [module[name]] finds a class *)
  Variable has_class : string → bool.

Definition get_class (name : string) : py (list event) string :=
  if has_class name then mret name else py_raise KeyError.

Definition method_flags : list string := ["METH_VARARGS"; "METH_KEYWORDS"].
Definition static_flags : list string := method_flags ++ ["METH_STATIC"].

Definition Simulator_customizations : py (list event) unit :=
  c ← get_class "ns3::Simulator";
  emit (CustomWrapper c "Schedule" "_wrap_Simulator_Schedule" static_flags) ;;
  emit (CustomWrapper c "ScheduleNow" "_wrap_Simulator_ScheduleNow" static_flags) ;;
  emit (CustomWrapper c "ScheduleDestroy" "_wrap_Simulator_ScheduleDestroy" static_flags) ;;
  emit (CustomWrapper c "Run" "_wrap_Simulator_Run" static_flags).

(** [ArgvParam] is a name that the file neither defines nor imports: nothing behind its use is
    reached *)
Definition CommandLine_customizations : py (list event) unit :=
  _ ← get_class "ns3::CommandLine"; py_raise (PyException "NameError").

Definition TypeId_customizations : py (list event) unit :=
  c ← get_class "ns3::TypeId";
  emit (CustomWrapper c "LookupByNameFailSafe" "_wrap_TypeId_LookupByNameFailSafe" static_flags).

(** a module without [ns3::Object] is left as it is *)
Definition Object_customizations : py (list event) unit :=
  if has_class "ns3::Object" then
    emit (HelperClassHook "ns3::Object") ;;
    emit (InstanceCreation "ns3::Object") ;;
    emit (PostInstanceCreation "ns3::Object")
  else mret ().

Definition openmodes : list (string * string) :=
  (λ m, (m, "std::ios_base::" +:+ m)) <$> ["app"; "ate"; "binary"; "in"; "out"; "trunc"].

Definition add_std_ios_openmode : py (list event) unit :=
  py_for ["in"; "out"; "ate"; "app"; "trunc"; "binary"] (λ flag,
    emit (AfterInit ("PyModule_AddIntConstant(m, (char *) " +:+ String "034" ("STD_IOS_" +:+
      upper flag +:+ String "034" (", std::ios::" +:+ flag +:+ ");"))))).

Definition add_std_ofstream : py (list event) unit :=
  emit (AddInclude "<fstream>") ;;
  emit (AddClass "ostream" "::std" None) ;;
  emit (CannotBeConstructed "ostream" "abstract base class") ;;
  emit (AddClass "ofstream" "::std" (Some "ostream")) ;;
  emit (AddEnum "ofstream" "openmode" openmodes) ;;
  emit (AddConstructor "ofstream" [("const char *", "filename", None);
    ("::std::ofstream::openmode", "mode", Some "std::ios_base::out")]) ;;
  emit (AddMethod "ofstream" "close") ;;
  add_std_ios_openmode.

Definition tp_hash_text : string :=
  nl +:+ "long
_ns3_Ipv4Address_tp_hash (PyObject *obj)
{
   PyNs3Ipv4Address *addr = reinterpret_cast<PyNs3Ipv4Address *> (obj);
   return static_cast<long> (ns3::Ipv4AddressHash () (" +:+ "*addr->obj));
}
".
Definition add_ipv4_address_tp_hash : py (list event) unit :=
  emit (BodyWrite tp_hash_text) ;;
  emit (HeaderWrite "long _ns3_Ipv4Address_tp_hash (PyObject *obj);") ;;
  c ← get_class "Ipv4Address";
  emit (SetSlot c "tp_hash" "_ns3_Ipv4Address_tp_hash").
End module.

(** the method and the code a helper class gets *)
Definition helper_decl (name full_name : string) : string :=
  nl +:+ "static ns3::TypeId GetTypeId (void)
{
  static ns3::TypeId tid = ns3::TypeId (" +:+ String "034" (name +:+ String "034" (")
    .SetParent< " +:+ full_name +:+ " > ()
    ;
  return tid;
}")).
Definition helper_class_hook (name full_name : string) : string * string :=
  (helper_decl name full_name, "NS_OBJECT_ENSURE_REGISTERED (" +:+ name +:+ ");").

(** what the code reads of a class *)
Record cpp_class := mk_class { full_name : string; cannot_be_constructed : bool; incomplete_type : bool }.

(** the lines of code; the message of the first error has two conversions and one value *)
Definition ns3_object_instance_creation_function (c : cpp_class)
    (lvalue parameters construct_type_name : string) : result (list string) :=
  py_assert (truthy lvalue) ;;
  py_assert (negb (startswith lvalue "None")) ;;
  if cannot_be_constructed c then Raise TypeError
  else if incomplete_type c then Raise (PyException ("CodeGenerationError: " +:+ full_name c +:+
    " cannot be constructed (incomplete type)"))
  else Ok [lvalue +:+ " = new " +:+ construct_type_name +:+ "(" +:+ parameters +:+ ");";
           lvalue +:+ "->Ref ();"].
Definition ns3_object_post_instance_creation_function (lvalue : string) : list string :=
  ["ns3::CompleteConstruct(" +:+ lvalue +:+ ");"].

(** a parameter of a method: the name of its class when it is a reference to one, its default value
    and the type of that *)
Record parameter := mk_param {
  p_class_ref : option string;
  p_default_value : option string;
  p_default_value_type : option string
}.
Definition fix_parameter (p : parameter) : parameter :=
  match p_class_ref p, p_default_value p, p_default_value_type p with
  | Some c, Some v, None =>
      if (c =? "AttributeValue")%string
      then mk_param (Some c) (Some v) (Some "ns3::EmptyAttributeValue") else p
  | _, _, _ => p
  end.
(** the parameters of the methods of the classes *)
Definition Attribute_customizations (classes : list (list (list parameter)))
    : list (list (list parameter)) :=
  (λ cls : list (list parameter), (λ meth : list parameter, fix_parameter <$> meth) <$> cls) <$> classes.

(** [IosOpenmodeParam]: the events of [Callbacks], with the names that [fresh] gives *)
Definition ios_convert_c_to_python (value : string) : py (list Callbacks.wrap_event) unit :=
  Callbacks.emit (Callbacks.BuildParam "i" [value]).
Definition ios_convert_python_to_c (fresh : list Callbacks.wrap_event → string → string)
    (name : string) (default_value : option string) : py (list Callbacks.wrap_event) unit :=
  v ← Callbacks.declare_variable fresh "std::ios_base::openmode" name default_value;
  Callbacks.emit (Callbacks.ParseParam "i" ["&" +:+ v] name
    (match default_value with Some d => truthy d | None => false end)) ;;
  Callbacks.emit (Callbacks.CallParam v).

Definition remove_classes : list string :=
  ["KernelSocketFdFactory"; "LinuxSocketImpl"; "KernelSocketFd"; "LinuxSocketFdFactory";
   "FreeBSDSocketFdFactory"].

(** [classes.remove(c)], where an exception of it or of the lookup changes nothing *)
Fixpoint remove_class (c : nat) (classes : list nat) : list nat :=
  match classes with
  | [] => []
  | x :: classes => if (x =? c)%nat then classes else x :: remove_class c classes
  end.
(** the classes of the module by number; [lookup] is [root_module[name]] *)
Definition post_register_types (kernel_stack : bool) (lookup : string → option nat)
    (classes : list nat) : list nat :=
  if kernel_stack then classes
  else foldl (λ classes name, match lookup ("ns3::" +:+ name) with
                              | Some c => remove_class c classes
                              | None => classes
                              end) classes remove_classes.
End Custom.

(** ** Facts about smart pointer types *)
Module SmartPtrFacts.
Import SmartPtr.

Lemma str_take_app a b : str_take (String.length a) (a +:+ b) = a.
Proof. induction a as [|c a IH]; [by destruct b|]. rewrite sapp_cons. cbn. by rewrite IH. Qed.

Lemma str_take_back_app a b n : String.length b = n → str_take_back n (a +:+ b) = a.
Proof.
  intros <-. unfold str_take_back. rewrite slength_app.
  replace (String.length a + String.length b - String.length b)%nat with (String.length a) by lia.
  apply str_take_app.
Qed.

Lemma endswith_suffix a b : endswith (a +:+ b) b = true.
Proof.
  induction a as [|c a IH].
  - rewrite sapp_nil_l. destruct b as [|x b]; [done|]. cbn [endswith]. by rewrite String.eqb_refl.
  - rewrite sapp_cons. cbn [endswith]. by rewrite IH, orb_true_r.
Qed.

(** the name of a type as it is meant: tight, without angle bracket, not qualified by const or from
    the global scope *)
Record plain_type (x : string) : Prop := {
  pt_tight : tight x;
  pt_bracket : no_char ">" x;
  pt_prefix : startswith x "const " = false;
  pt_suffix : endswith x " const" = false;
  pt_scope : startswith x "::" = false;
  pt_const : x ≠ "const"
}.

(** how a type is written inside the brackets *)
Inductive spelling : string → bool → string → Prop :=
  | SpellPlain x : spelling x false x
  | SpellBefore x : spelling x true ("const " +:+ x)
  | SpellAfter x : spelling x true (x +:+ " const").

Lemma tight_nonempty x : tight x → x ≠ EmptyString.
Proof. by intros (a & m & b & [[-> _]| ->] & _). Qed.

Lemma tight_before x : tight x → tight ("const " +:+ x).
Proof.
  intros (a & m & b & Hx & Ha & Hb).
  destruct Hx as [[-> ->]| ->].
  - by exists "c"%char, "onst ", b; split; [right|].
  - exists "c"%char, ("onst " +:+ String a m), b. split; [right|done].
    reflexivity.
Qed.

Lemma tight_after x : tight x → tight (x +:+ " const").
Proof.
  intros (a & m & b & Hx & Ha & Hb). destruct Hx as [[-> ->]| ->].
  - by exists b, " cons", "t"%char; split; [right|].
  - exists a, (m +:+ String b " cons"), "t"%char. split; [right|done].
    rewrite sapp_cons. f_equal. by rewrite !sapp_assoc.
Qed.

Lemma const_prefix_app x : x ≠ "const" → startswith x "const " = false →
  startswith (x +:+ " const") "const " = false.
Proof.
  intros Hne Hp. destruct (startswith (x +:+ " const") "const ") eqn:E; [exfalso|done].
  apply startswith_spec in E as [r E].
  destruct x as [|c1 [|c2 [|c3 [|c4 [|c5 [|c6 x]]]]]]; try discriminate E.
  - injection E as -> -> -> -> ->. done.
  - injection E as -> -> -> -> -> -> _. by destruct x.
Qed.

Lemma scope_pointer x : startswith x "::" = false → startswith (x +:+ " *") "::" = false.
Proof.
  intros Hs. destruct (startswith (x +:+ " *") "::") eqn:E; [exfalso|done].
  apply startswith_spec in E as [r E].
  destruct x as [|c1 [|c2 x]]; try discriminate E. injection E as -> -> _. by destruct x.
Qed.

Lemma inner_traits_spelling x c body s1 s2 :
  plain_type x → spelling x c body → str_all is_space s1 = true → str_all is_space s2 = true →
  inner_traits (s1 +:+ body +:+ s2) = (x +:+ " *", c).
Proof.
  intros [Ht Hb Hp Hs Hsc Hc] Hsp H1 H2. unfold inner_traits. destruct Hsp as [x|x|x].
  - rewrite strip_pad by done. rewrite Hp, Hs. by rewrite scope_pointer.
  - rewrite strip_pad; [|done|done|by apply tight_before].
    rewrite (startswith_app "const " x). change (str_drop 6 ("const " +:+ x)) with (str_drop 0 x).
    replace (str_drop 0 x) with x by by destruct x. rewrite Hs. by rewrite scope_pointer.
  - rewrite strip_pad; [|done|done|by apply tight_after].
    rewrite const_prefix_app by done. rewrite endswith_suffix, str_take_back_app by done.
    by rewrite scope_pointer.
Qed.

(** a text that the expression matches *)
Lemma rx_match_name prefix inner tail :
  prefix ∈ ["ns3::"; "::ns3::"; EmptyString] → no_char ">" inner → inner ≠ EmptyString →
  str_all is_space tail = true → rx_match (prefix +:+ "Ptr<" +:+ inner +:+ ">" +:+ tail) = Some inner.
Proof.
  intros Hp Hi Hne Ht.
  assert (after_ptr (prefix +:+ "Ptr<" +:+ inner +:+ ">" +:+ tail) = Some (inner +:+ ">" +:+ tail))
    as Ha.
  { apply list_elem_of_In in Hp. unfold after_ptr.
    destruct Hp as [<-|[<-|[<-|[]]]].
    - change ("ns3::" +:+ "Ptr<" +:+ ?y) with ("ns3::Ptr<" +:+ y). rewrite startswith_app.
      reflexivity.
    - change ("::ns3::" +:+ "Ptr<" +:+ ?y) with ("::ns3::Ptr<" +:+ y).
      change (startswith ("::ns3::Ptr<" +:+ ?y) "ns3::Ptr<") with false. cbv iota.
      rewrite startswith_app. reflexivity.
    - rewrite sapp_nil_l. change (startswith ("Ptr<" +:+ ?y) "ns3::Ptr<") with false.
      change (startswith ("Ptr<" +:+ ?y) "::ns3::Ptr<") with false. cbv iota.
      rewrite startswith_app. reflexivity. }
  unfold rx_match. rewrite Ha. change (inner +:+ ">" +:+ tail) with (inner +:+ String ">" tail).
  rewrite split_once_app by done. rewrite Ht. by destruct inner.
Qed.

Lemma spaces_no_bracket s : str_all is_space s = true → no_char ">" s.
Proof.
  unfold no_char. apply str_all_impl. intros c Hc. apply negb_true_iff, Ascii.eqb_neq. by intros ->.
Qed.

Lemma traits_of prefix x c body s1 s2 tail l :
  prefix ∈ ["ns3::"; "::ns3::"; EmptyString] → plain_type x → spelling x c body →
  str_all is_space s1 = true → str_all is_space s2 = true → str_all is_space tail = true →
  _get_untransformed_type_traits (prefix +:+ "Ptr<" +:+ (s1 +:+ body +:+ s2) +:+ ">" +:+ tail) l
    = (Ok (Some (x +:+ " *"), c), l).
Proof.
  intros Hp Hx Hsp H1 H2 Ht. unfold _get_untransformed_type_traits.
  assert (no_char ">" body) as Hb.
  { pose proof (pt_bracket x Hx) as Hn. destruct Hsp; [done| |]; apply no_char_app; done. }
  assert (body ≠ EmptyString) as Hne.
  { pose proof (tight_nonempty x (pt_tight x Hx)). destruct Hsp as [x|x|x]; [done|done|by destruct x]. }
  rewrite rx_match_name; [|done| | |done].
  - by rewrite (inner_traits_spelling x c).
  - rewrite !no_char_app. split; [by apply spaces_no_bracket|]. split; [done|by apply spaces_no_bracket].
  - destruct s1; [by destruct body|done].
Qed.

(** C24. Smart pointer types: whatever prefix, spaces and side of const a type is written with, it
    stands for the plain pointer, const or not; the corrected type that a handler is made with
    stands for the same pointer again, and [transform] makes that smart pointer of an expression. *)
Theorem smart_pointer_types prefix x c body s1 s2 tail cls rest kwargs l
    (Hp : prefix ∈ ["ns3::"; "::ns3::"; EmptyString]) (Hx : plain_type x) (Hsp : spelling x c body)
    (H1 : str_all is_space s1 = true) (H2 : str_all is_space s2 = true)
    (Ht : str_all is_space tail = true) (Hcls : cls ≠ OtherClass) :
  let name := prefix +:+ "Ptr<" +:+ (s1 +:+ body +:+ s2) +:+ ">" +:+ tail in
  ∃ h ctype, create_type_handler cls (name :: rest) kwargs l = (Ok h, l) ∧
    hd_args h = ctype :: rest ∧ untransformed_ctype h = x +:+ " *" ∧
    _get_untransformed_type_traits ctype l = (Ok (Some (x +:+ " *"), c), l) ∧
    ∀ e, transform h e = Ok ("ns3::Ptr< " +:+ x +:+ "  > (" +:+ e +:+ ")").
Proof.
  intros name. unfold create_type_handler.
  assert (∃ kw, ownership cls kwargs = Ok kw) as [kw Hkw] by (destruct cls; [by eexists..|done]).
  cbv [mbind py_bind py_lift]. rewrite Hkw. unfold name. rewrite (traits_of prefix x c) by done.
  cbn [mret py_ret]. eexists _, _. split; [reflexivity|]. split; [reflexivity|].
  split; [reflexivity|]. unfold correct_ctype, drop_pointer. rewrite str_take_back_app by done.
  split.
  - destruct Hsp as [x|x|x].
    + replace ("ns3::Ptr< " +:+ x +:+ " >") with
        ("ns3::" +:+ "Ptr<" +:+ (" " +:+ x +:+ " ") +:+ ">" +:+ EmptyString)
        by (rewrite !sapp_assoc; done).
      apply (traits_of _ x false); try done; [left|constructor].
    + replace ("ns3::Ptr< " +:+ x +:+ " const >") with
        ("ns3::" +:+ "Ptr<" +:+ (" " +:+ (x +:+ " const") +:+ " ") +:+ ">" +:+ EmptyString)
        by (rewrite !sapp_assoc; done).
      apply (traits_of _ x true); try done; [left|constructor].
    + replace ("ns3::Ptr< " +:+ x +:+ " const >") with
        ("ns3::" +:+ "Ptr<" +:+ (" " +:+ (x +:+ " const") +:+ " ") +:+ ">" +:+ EmptyString)
        by (rewrite !sapp_assoc; done).
      apply (traits_of _ x true); try done; [left|constructor].
  - intros e. unfold transform. cbn [untransformed_ctype].
    assert (truthy (x +:+ " *") = true) as -> by by destruct x.
    assert (x +:+ " *" = (x +:+ " ") +:+ "*") as -> by by rewrite sapp_assoc.
    rewrite endswith_suffix.
    cbn. rewrite str_take_back_app by done. f_equal. by rewrite !sapp_assoc.
Qed.

Lemma smart_pointer_types_witness :
  ∃ h ctype, create_type_handler ParameterClass ["::ns3::Ptr< const ns3::Packet >"; "p"] [] [] = (Ok h, [])
    ∧ hd_args h = ctype :: ["p"] ∧ untransformed_ctype h = "ns3::Packet *".
Proof.
  destruct (smart_pointer_types "::ns3::" "ns3::Packet" true ("const " +:+ "ns3::Packet") " " " "
    EmptyString ParameterClass ["p"] [] []) as (h & ct & E & Ha & Hu & _); try reflexivity.
  - right. left.
  - split; try reflexivity; [|done].
    by exists "n"%char, "s3::Packe", "t"%char; split; [right|].
  - constructor.
  - done.
  - by exists h, ct.
Defined.
End SmartPtrFacts.

(** ** Facts about callback classes *)
Module CallbackFacts.
Import Callbacks.
Section facts.
  Context {R P : Type} (parse_type : string → string * bool)
          (return_new : string → bool → R + string)
          (param_new : string → string → bool → P + string)
          (helper_unconstructible : P → bool) (return_lookup param_lookup : string → bool).

(** the diagnostics and the helper classes that are given up *)
Definition is_note (e : @gen_event R P) : bool :=
  match e with Warn _ | DisableHelper _ => true | _ => false end.

(** the parameter of that number and type, when it can be made *)
Definition param_of (num : Z) (t : string) : option P :=
  let '(text, const) := parse_type t in
  match param_new text ("arg" +:+ show_Z (num + 1)) const with inl p => Some p | inr _ => None end.

(** all parameters, numbered from there, when each can be made *)
Fixpoint params_of (num : Z) (types : list string) : option (list P) :=
  match types with
  | [] => Some []
  | t :: types => p ← param_of num t; ps ← params_of (num + 1) types; Some (p :: ps)
  end.

Lemma make_params_spec cls num types l :
  ∃ ps ok notes, make_params parse_type param_new helper_unconstructible cls num types l
      = (Ok (ps, ok), l ++ notes) ∧ forallb is_note notes = true ∧
    params_of num types = if ok then Some ps else None.
Proof.
  revert num l. induction types as [|t types IH]; intros num l; cbn [make_params params_of].
  { exists [], true, []. by rewrite app_nil_r. }
  unfold param_of. destruct (parse_type t) as [text const].
  destruct (param_new text _ const) as [p|ex]; cbv [mbind py_bind gen py_modify option_bind].
  - set (note := if helper_unconstructible p then [DisableHelper p] else [] : list (@gen_event R P)).
    assert ((if helper_unconstructible p then λ s, (Ok (), s ++ [DisableHelper p])
             else mret ()) l = (Ok (), l ++ note)) as ->.
    { unfold note. destruct (helper_unconstructible p); [done|]. by rewrite app_nil_r. }
    destruct (IH (num + 1) (l ++ note)) as (ps & ok & notes & -> & Hn & Hp).
    exists (p :: ps), ok, (note ++ notes). rewrite <- app_assoc. split; [done|]. split.
    + rewrite forallb_app, Hn, andb_true_r. unfold note. by destruct (helper_unconstructible p).
    + rewrite Hp. by destruct ok.
  - set (w := Warn _). destruct (IH (num + 1) (l ++ [w])) as (ps & ok & notes & -> & Hn & _).
    exists ps, false, (w :: notes). rewrite <- app_assoc. done.
Qed.

(** what becomes of a callback, from its number and its types *)
Definition outcome (num : Z) (ts : list string) : list (@gen_event R P) :=
  match ts with
  | [] => []
  | ret :: params =>
      let '(rtext, const) := parse_type ret in
      match return_new rtext const with
      | inr _ => []
      | inl r =>
          match params_of 0 (real_params params) with
          | Some ps =>
              [PrintFlush;
               Flush [SWriteln (class_text (impl_name num) ts); SIndent; SCallOperator r ps; SUnindent;
                      SWriteln ("};" +:+ nl)]]
          | None =>
              (if return_lookup (callback_type ts) then [DisableReturn (callback_type ts)] else []) ++
              (if param_lookup (callback_type ts) then [DisableParam (callback_type ts)] else [])
          end
      end
  end.

Definition real (l : list (@gen_event R P)) : list (@gen_event R P) :=
  List.filter (λ e, negb (is_note e)) l.

Lemma real_notes l : forallb is_note l = true → real l = [].
Proof.
  unfold real. induction l as [|e l IH]; [done|]. cbn. intros [He Hl]%andb_true_iff.
  rewrite He. by apply IH.
Qed.
Lemma real_outcome num ts : real (outcome num ts) = outcome num ts.
Proof.
  unfold outcome. destruct ts as [|r ps]; [done|]. destruct (parse_type r) as [rt c].
  destruct (return_new rt c); [|done]. destruct (params_of _ _); [done|].
  destruct (return_lookup _), (param_lookup _); done.
Qed.

Lemma generate_one_spec num ts l : ts ≠ [] →
  ∃ evs, generate_one parse_type return_new param_new helper_unconstructible return_lookup
      param_lookup num ts l = (Ok (), l ++ evs) ∧ real evs = outcome num ts.
Proof.
  destruct ts as [|ret params]; [done|]. intros _. unfold generate_one, outcome.
  destruct (parse_type ret) as [rt c]. destruct (return_new rt c) as [r|ex].
  2:{ cbv [gen py_modify]. eexists. split; [reflexivity|]. done. }
  destruct (make_params_spec (callback_type (ret :: params)) 0 (real_params params) l)
    as (ps & ok & notes & E & Hn & Hp).
  cbv [mbind py_bind]. rewrite E, Hp. destruct ok; cbn [negb].
  - cbv [gen py_modify]. eexists. rewrite <- !app_assoc. split; [reflexivity|].
    unfold real. rewrite List.filter_app. fold (real notes). by rewrite real_notes.
  - destruct (return_lookup _), (param_lookup _); cbv [gen py_modify mret py_ret]; eexists;
      rewrite <- ?app_assoc; (split; [reflexivity|]); unfold real; rewrite ?List.filter_app;
      fold (real notes); by rewrite real_notes.
Qed.

(** The generated callback classes: in the order of the callbacks, each of which is numbered by
    its position, a callback whose return type and parameters (other than ns3::empty) are all known
    gets a class with a call operator for just these; one with an unknown parameter gets none and
    its handlers are disabled; one with an unknown return type gets none, and its handlers stay
    enabled. *)
Theorem callback_classes_generated (callbacks : list (list string)) l
    (Hne : Forall (λ ts, ts ≠ []) callbacks) :
  ∃ evs, generate_callback_classes parse_type return_new param_new helper_unconstructible
      return_lookup param_lookup callbacks l = (Ok (), l ++ evs) ∧
    real evs = concat (imap (λ i ts, outcome (Z.of_nat i) ts) callbacks).
Proof.
  unfold generate_callback_classes. change 0 with (Z.of_nat 0).
  assert (∀ n l, ∃ evs, generate_from parse_type return_new param_new helper_unconstructible
      return_lookup param_lookup (Z.of_nat n) callbacks l = (Ok (), l ++ evs) ∧
    real evs = concat (imap (λ i ts, outcome (Z.of_nat (n + i)) ts) callbacks)) as H; [|apply (H 0%nat)].
  clear l. induction Hne as [|ts callbacks Hts Hne IH]; intros n l; cbn [generate_from].
  { exists []. by rewrite app_nil_r. }
  cbv [mbind py_bind]. destruct (generate_one_spec (Z.of_nat n) ts l Hts) as (e1 & -> & H1).
  replace (Z.of_nat n + 1) with (Z.of_nat (S n)) by lia.
  destruct (IH (S n) (l ++ e1)) as (e2 & -> & H2). exists (e1 ++ e2). rewrite <- app_assoc.
  split; [done|]. unfold real. rewrite List.filter_app. fold (real e1) (real e2). rewrite H1, H2.
  cbn [imap concat]. rewrite Nat.add_0_r. f_equal. f_equal. apply imap_ext. intros i x _. cbn.
  by rewrite <- plus_n_Sm.
Qed.
End facts.

(** *** The names of the classes *)

Lemma register_from_names num callbacks :
  PYTHON_CALLBACK_IMPL_NAME <$> register_from (Z.of_nat num) callbacks
    = (λ i, impl_name (Z.of_nat i)) <$> seq num (length callbacks).
Proof.
  revert num. induction callbacks as [|ts callbacks IH]; intros num; cbn; [done|].
  replace (Z.of_nat num + 1) with (Z.of_nat (S num)) by lia. by rewrite <- IH.
Qed.

Lemma show_Z_inj n m : 0 ≤ n → 0 ≤ m → show_Z n = show_Z m → n = m.
Proof.
  intros Hn Hm. rewrite !show_Z_nonneg by done. intros E.
  destruct (show_nonneg_spec n Hn) as (_ & <- & _). destruct (show_nonneg_spec m Hm) as (_ & <- & _).
  by rewrite E.
Qed.

(** The handler registered for a callback names the class that is generated for it, and no two
    callbacks share a class, whatever their types. *)
Theorem handlers_name_their_class normalize callbacks :
  (∀ i ts, callbacks !! i = Some ts →
     ∃ h, (register_callback_classes normalize callbacks).1 !! i = Some h ∧
       PYTHON_CALLBACK_IMPL_NAME h = impl_name (Z.of_nat i) ∧ TEMPLATE_ARGS h = ts ∧
       CTYPES h = [callback_type ts] ∧ DISABLED h = false) ∧
  NoDup (PYTHON_CALLBACK_IMPL_NAME <$> (register_callback_classes normalize callbacks).1).
Proof.
  cbn. change 0 with (Z.of_nat 0). split.
  - assert (∀ n i ts, callbacks !! i = Some ts → ∃ h, register_from (Z.of_nat n) callbacks !! i = Some h ∧
       PYTHON_CALLBACK_IMPL_NAME h = impl_name (Z.of_nat (n + i)) ∧ TEMPLATE_ARGS h = ts ∧
       CTYPES h = [callback_type ts] ∧ DISABLED h = false) as H; [|by apply (H 0%nat)].
    induction callbacks as [|x callbacks IH]; intros n i ts; [done|]. destruct i as [|i]; cbn.
    + intros [= ->]. eexists. rewrite Nat.add_0_r. by split.
    + intros Hi. replace (Z.of_nat n + 1) with (Z.of_nat (S n)) by lia.
      rewrite <- plus_n_Sm. by apply (IH (S n)).
  - rewrite register_from_names. apply NoDup_fmap_2_strong; [|apply NoDup_seq].
    intros i j _ _ E. unfold impl_name in E. apply sapp_inj_l in E.
    apply show_Z_inj in E; lia.
Qed.

Lemma callback_classes_generated_witness :
  let known t := negb (t =? "Foo")%string in
  let new t := if known t then inl t else inr "TypeLookupError" in
  ∃ evs, generate_callback_classes (λ t, (t, false)) (λ t _, new t) (λ t _ _, new t) (λ _, false)
      (λ _, true) (λ _, true) [["Foo"; "int"]; ["void"; "ns3::empty"; "int"]; ["void"; "Foo"]] []
      = (Ok (), evs) ∧
    real evs = [PrintFlush; Flush [SWriteln (class_text "PythonCallbackImpl1" ["void"; "ns3::empty"; "int"]);
                  SIndent; SCallOperator "void" ["int"]; SUnindent; SWriteln ("};" +:+ nl)];
                DisableReturn "ns3::Callback< void, Foo >"; DisableParam "ns3::Callback< void, Foo >"].
Proof.
  intros known new.
  destruct (callback_classes_generated (λ t, (t, false)) (λ t _, new t) (λ t _ _, new t) (λ _, false)
    (λ _, true) (λ _, true) [["Foo"; "int"]; ["void"; "ns3::empty"; "int"]; ["void"; "Foo"]] [])
    as (evs & E & H).
  - by repeat constructor.
  - exists evs. split; [exact E|]. rewrite H. reflexivity.
Defined.
End CallbackFacts.

(** ** Facts about the customizations *)
Module CustomFacts.
Import Custom.

Lemma remove_class_in c x classes : x ≠ c → x ∈ classes → x ∈ remove_class c classes.
Proof.
  intros Hne. induction classes as [|y classes IH]; cbn; [done|].
  intros [->|Hx]%elem_of_cons; destruct (Nat.eqb_spec y c); set_solver.
Qed.
Lemma remove_class_sub c classes : remove_class c classes ⊆ classes.
Proof.
  induction classes as [|y classes IH]; cbn; [done|]. destruct (y =? c)%nat; set_solver.
Qed.
Lemma remove_class_NoDup c classes : NoDup classes → NoDup (remove_class c classes).
Proof.
  induction 1 as [|y classes Hy Hnd IH]; cbn; [constructor|]. destruct (y =? c)%nat; [done|].
  constructor; [|done]. intros Hin. by apply Hy, (remove_class_sub c).
Qed.
Lemma remove_class_gone c classes : NoDup classes → c ∉ remove_class c classes.
Proof.
  induction 1 as [|y classes Hy Hnd IH]; cbn; [apply not_elem_of_nil|].
  destruct (Nat.eqb_spec y c) as [->|Hne]; [done|]. apply not_elem_of_cons. split; [congruence|done].
Qed.

(** Without the kernel stack the classes of the five socket types are taken out of the module,
    those that it has, and no other class; with it the classes stay as they are. *)
Theorem kernel_classes_removed kernel_stack lookup classes c (Hnd : NoDup classes) :
  c ∈ post_register_types kernel_stack lookup classes ↔
    c ∈ classes ∧ (kernel_stack = true ∨ ∀ n, n ∈ remove_classes → lookup ("ns3::" +:+ n) ≠ Some c).
Proof.
  unfold post_register_types. destruct kernel_stack; [by intuition|].
  revert classes Hnd. induction remove_classes as [|n ns IH]; intros classes Hnd; cbn [foldl].
  { split; [intros H; split; [done|right; intros n Hn; by apply elem_of_nil in Hn]|by intros [H _]]. }
  assert (∀ P : string → Prop, (∀ m, m ∈ n :: ns → P m) ↔ P n ∧ ∀ m, m ∈ ns → P m) as Hcons.
  { intros P. split; [intros H; split; [apply H; left|intros m Hm; apply H; by right]|].
    intros [H1 H2] m [->|Hm]%elem_of_cons; [done|by apply H2]. }
  rewrite Hcons. destruct (lookup ("ns3::" +:+ n)) as [d|].
  - rewrite IH by by apply remove_class_NoDup. split.
    + intros [Hc [?|Hr]]; [done|]. split; [by apply (remove_class_sub d)|]. right. split; [|done].
      intros [= ->]. by apply (remove_class_gone c classes).
    + intros [Hc [?|[Hd Hr]]]; [done|]. split; [|by right]. apply remove_class_in; [congruence|done].
  - rewrite IH by done. split; intros [Hc [?|Hr]]; try done; (split; [done|right]).
    + by split.
    + apply Hr.
Qed.

Lemma kernel_classes_removed_witness :
  (2%nat ∈ post_register_types false (λ n, if (n =? "ns3::KernelSocketFd")%string then Some 3%nat else None)
     [1%nat; 2%nat; 3%nat]) ∧
  ¬ (3%nat ∈ post_register_types false (λ n, if (n =? "ns3::KernelSocketFd")%string then Some 3%nat else None)
     [1%nat; 2%nat; 3%nat]).
Proof.
  assert (NoDup [1%nat; 2%nat; 3%nat]) as Hnd by (apply (bool_decide_eq_true_1 _); reflexivity).
  split.
  - apply kernel_classes_removed; [exact Hnd|]. split; [right; left|]. right.
    intros n _. by case_match.
  - intros [_ [H|H]]%kernel_classes_removed; [done| |exact Hnd].
    apply (H "KernelSocketFd"); [right; right; left|reflexivity].
Defined.

(** fixing the default values of attributes twice changes nothing more *)
Lemma attributes_fixed_once classes :
  Attribute_customizations (Attribute_customizations classes) = Attribute_customizations classes.
Proof.
  unfold Attribute_customizations. rewrite <- list_fmap_compose. apply list_fmap_ext. intros _ cls _.
  cbn. rewrite <- list_fmap_compose. apply list_fmap_ext. intros _ m _. cbn.
  rewrite <- list_fmap_compose. apply list_fmap_ext. intros _ [[c|] [v|] [t|]] _; try done.
  unfold fix_parameter. cbn. destruct (c =? "AttributeValue")%string eqn:E; cbn; by rewrite ?E.
Qed.
End CustomFacts.
