(* ===== verification/ModuleGen.v ===== *)
(** * ns3modulegen-modular.py: generating the bindings of one module

    bindings/python/ns3modulegen-modular.py: the error handler that finds the line of the table a
    wrapper comes from, the sinks for the generated code, and [main], which imports the tables and
    runs the registration in order.  pybindgen and the imported tables are parameters; the calls on
    them are events. *)
From Stdlib Require Import ZArith Lia Ascii String.
From stdpp Require Import base list strings.
From S2P Require Import Prelude PyStr WUtils.

Module ModuleGen.

(** ** ErrorHandler *)

(** where a warning is reported: at a line of a file, or at the current one *)
Inductive warning := WarnAt (file : string) (line : Z) (message : string) | WarnHere (message : string).

(** [handle_error] with the stack of the wrapper, which is reversed in place *)
Definition handle_error (apidefs_file : string) (exception wrapper : string)
    : py (list (string * Z)) (warning * bool) :=
  py_modify (λ stack, rev stack) ;;
  stack ← py_get;
  let message := "exception " +:+ exception +:+ " in wrapper " +:+ wrapper in
  mret (match List.find (λ l, (l.1 =? apidefs_file)%string) stack with
        | Some l => WarnAt l.1 l.2 message
        | None => WarnHere message
        end, true).

(** ** The sinks *)
Record MyMultiSectionFactory := mk_factory { main_sink : string; header_sink : string }.
Definition header_name : string := "ns3module.h".
Definition new_factory (main_file_name : string) : MyMultiSectionFactory :=
  mk_factory main_file_name (path_join (dirname main_file_name) header_name).
Definition get_section_code_sink (f : MyMultiSectionFactory) (section_name : string) : string :=
  main_sink f.
Definition get_main_code_sink (f : MyMultiSectionFactory) : string := main_sink f.
Definition get_common_header_code_sink (f : MyMultiSectionFactory) : string := header_sink f.
Definition get_common_header_include : string :=
  String "034" (header_name +:+ String "034" EmptyString).
(** the files in the order they are closed *)
Definition close (f : MyMultiSectionFactory) : list string := [header_sink f; main_sink f].

(** ** main *)

(** [os.path.splitext]: the part before the extension *)
Definition is_dot (c : ascii) : bool := Ascii.eqb c ".".
Definition splitext_root (p : string) : string :=
  match split_last "."%char p with
  | Some (h, t) => if has_char "/" t || str_all is_dot (basename h) then p else h
  | None => p
  end.

Inductive event :=
  | OpenSink (path : string)
  | Import (name : string) | Unload (name : string)
  | PrintErr (line : string)
  | SetErrorHandler (apidefs_file : string)
  | ModuleInit
  | SetName (name : string) | AddInclude (file : string)
  | AddIosOpenmode
  | RegisterTypes | RegisterMethods | RegisterFunctions
  | CustomHook (name : string)
  | CorePostRegisterTypes
  | RegisterCallbacks (callbacks : list (list string))
  | ObjectCustomizations | AttributeCustomizations
  | GenerateCallbacks (callbacks : list (list string))
  | Generate.

(** the path that modules are imported from, and the calls so far *)
Record state := mk_state { sys_path : list string; log : list event }.
Definition emit (e : event) : py state unit := py_modify (λ s, mk_state (sys_path s) (log s ++ [e])).
Definition path_insert (p : string) : py state unit :=
  py_modify (λ s, mk_state (p :: sys_path s) (log s)).
Definition path_pop : py state unit := py_modify (λ s, mk_state (tail (sys_path s)) (log s)).

(** [try: m finally: path_pop] *)
Definition finally_pop {A} (m : py state A) : py state A := λ s,
  let '(r, s) := m s in (r, (path_pop s).2).

Definition is_import_error (e : exn) : bool :=
  match e with PyException m => (m =? "ImportError")%string | _ => false end.

Section main.
  (** the file of the tables; the functions the customization of the module has; the callbacks *)
  Variable import_apidefs : string → result string.
  Variable import_custom : result (list string).
  Variable import_callbacks : result (list (list string)).

(** [__import__] followed by the removal from the loaded modules *)
Definition import_once {A} (name : string) (r : result A) : py state A :=
  emit (Import name) ;; a ← py_lift r; emit (Unload name) ;; mret a.

(** a missing customization is an object without functions *)
Definition import_customization : py state (list string) := λ s,
  match import_once "modulegen_customizations" import_custom s with
  | (Raise e, s) => if is_import_error e then (Ok [], s) else (Raise e, s)
  | r => r
  end.

Definition show_callbacks (l : list (list string)) : string :=
  "[" +:+ join ", " (Repr.repr_list <$> l) +:+ "]".

Definition import_callback_list : py state (list (list string)) :=
  emit (Import "callbacks_list") ;;
  match import_callbacks with
  | Ok l => emit (PrintErr (">>>>>>>>>>>>>>>> " +:+ show_callbacks l)) ;; mret l
  | Raise e =>
      if is_import_error e then emit (PrintErr "*************** ImportError()") ;; mret []
      else py_raise e
  end.

Definition import_all (target : string) : py state (string * list string * list (list string)) :=
  apidefs ← import_once ("modulegen__" +:+ target) (import_apidefs target);
  custom ← import_customization;
  callbacks ← import_callback_list;
  mret (apidefs, custom, callbacks).

Definition hook (custom : list string) (name : string) : py state unit :=
  if existsb (String.eqb name) custom then emit (CustomHook name) else mret ().

(** what is done with the imported modules *)
Definition generate (extension_name apidefs_file : string) (custom : list string)
    (callbacks : list (list string)) : py state unit :=
  emit (SetErrorHandler (splitext_root apidefs_file +:+ ".py")) ;;
  emit ModuleInit ;;
  emit (SetName extension_name) ;;
  emit (AddInclude (String "034" ("ns3/" +:+ extension_name +:+ "-module.h" +:+
                                  String "034" EmptyString))) ;;
  emit AddIosOpenmode ;;
  emit RegisterTypes ;;
  hook custom "post_register_types" ;;
  emit CorePostRegisterTypes ;;
  emit (RegisterCallbacks callbacks) ;;
  emit RegisterMethods ;;
  hook custom "post_register_methods" ;;
  emit ObjectCustomizations ;;
  emit AttributeCustomizations ;;
  emit (GenerateCallbacks callbacks) ;;
  emit RegisterFunctions ;;
  hook custom "post_register_functions" ;;
  emit Generate.

Definition main (argv : list string) : py state unit :=
  match argv with
  | [_; module_abs_src_path; target; extension_name; output_cc_file_name] =>
      let out := new_factory output_cc_file_name in
      emit (OpenSink (main_sink out)) ;;
      emit (OpenSink (header_sink out)) ;;
      path_insert (path_join module_abs_src_path "bindings") ;;
      '(apidefs, custom, callbacks) ← finally_pop (import_all target);
      generate extension_name apidefs custom callbacks
  | _ => py_raise (ValueError "values to unpack")
  end.
End main.
End ModuleGen.

(** ** Facts *)
Module ModuleGenFacts.
Import ModuleGen.

(** actions that leave the import path alone *)
Definition keeps_path {A} (m : py state A) : Prop := ∀ s, sys_path (m s).2 = sys_path s.

Lemma path_bind {A B} (m : py state A) (f : A → py state B) :
  keeps_path m → (∀ a, keeps_path (f a)) → keeps_path (m ≫= f).
Proof.
  intros Hm Hf s. cbv [mbind py_bind]. specialize (Hm s). destruct (m s) as [[a|e] s']; [|done].
  cbn in Hm. rewrite <- Hm. apply Hf.
Qed.
Lemma path_emit e : keeps_path (emit e).
Proof. done. Qed.
Lemma path_ret {A} (a : A) : keeps_path (mret a).
Proof. done. Qed.
Lemma path_lift {A} (r : result A) : keeps_path (py_lift r).
Proof. done. Qed.
Lemma keeps_raise {A} e : keeps_path (py_raise e : py state A).
Proof. done. Qed.
Lemma keeps_hook custom name : keeps_path (hook custom name).
Proof. unfold hook. by case_match. Qed.
Create HintDb pathdb.
#[local] Hint Resolve path_bind path_emit path_ret path_lift keeps_raise keeps_hook : pathdb.

Lemma keeps_import_once {A} name (r : result A) : keeps_path (import_once name r).
Proof. unfold import_once. auto 8 with pathdb. Qed.
#[local] Hint Resolve keeps_import_once : pathdb.

Lemma keeps_customization r : keeps_path (import_customization r).
Proof.
  intros s. unfold import_customization.
  pose proof (keeps_import_once "modulegen_customizations" r s) as H.
  destruct (import_once _ r s) as [[a|e] s']; [done|]. by destruct (is_import_error e).
Qed.
Lemma keeps_callback_list r : keeps_path (import_callback_list r).
Proof.
  unfold import_callback_list. apply path_bind; [done|intros _].
  destruct r as [l|e]; [auto with pathdb|]. destruct (is_import_error e); auto with pathdb.
Qed.
#[local] Hint Resolve keeps_customization keeps_callback_list : pathdb.

Lemma keeps_generate ext file custom cbs : keeps_path (generate ext file custom cbs).
Proof. unfold generate. repeat (apply path_bind; [auto with pathdb|intros _]). apply path_emit. Qed.

(** Whatever the imports do, an exception or not, the import path is afterwards what it was. *)
Theorem import_path_restored import_apidefs import_custom import_callbacks argv s :
  sys_path (main import_apidefs import_custom import_callbacks argv s).2 = sys_path s.
Proof.
  unfold main. destruct argv as [|a0 [|a1 [|a2 [|a3 [|a4 [|a5 argv]]]]]]; try done.
  cbv [mbind py_bind emit path_insert py_modify]. cbn. unfold finally_pop.
  match goal with |- context [import_all _ _ _ a2 ?s0] => set (s1 := s0) end.
  assert (sys_path (import_all import_apidefs import_custom import_callbacks a2 s1).2 = sys_path s1)
    as H by (unfold import_all; apply path_bind; auto with pathdb; intros; apply path_bind;
             auto with pathdb; intros; apply path_bind; auto with pathdb).
  destruct (import_all _ _ _ a2 s1) as [[[[f c] cbs]|e] s2]; cbn in H |- *.
  - rewrite keeps_generate. cbn. by rewrite H.
  - by rewrite H.
Qed.

(** The order of a run whose imports succeed: the types of the tables, then the removal of the
    classes of the kernel stack, then the handlers of the callbacks, before any method is
    registered; the classes of the callbacks behind the methods, and the functions last; the
    functions of the customization of the module, where it has them, right behind each part.  The
    sinks are opened but not closed. *)
Theorem main_order import_apidefs custom callbacks prog src target ext out s file
    (Hfile : import_apidefs target = Ok file) :
  let h name := if existsb (String.eqb name) custom then [CustomHook name] else [] in
  main import_apidefs (Ok custom) (Ok callbacks) [prog; src; target; ext; out] s =
    (Ok (), mk_state (sys_path s) (log s ++
      [OpenSink out; OpenSink (path_join (dirname out) "ns3module.h");
       Import ("modulegen__" +:+ target); Unload ("modulegen__" +:+ target);
       Import "modulegen_customizations"; Unload "modulegen_customizations";
       Import "callbacks_list"; PrintErr (">>>>>>>>>>>>>>>> " +:+ show_callbacks callbacks);
       SetErrorHandler (splitext_root file +:+ ".py"); ModuleInit; SetName ext;
       AddInclude (String "034" ("ns3/" +:+ ext +:+ "-module.h" +:+ String "034" EmptyString));
       AddIosOpenmode; RegisterTypes] ++ h "post_register_types" ++
      [CorePostRegisterTypes; RegisterCallbacks callbacks; RegisterMethods] ++
      h "post_register_methods" ++
      [ObjectCustomizations; AttributeCustomizations; GenerateCallbacks callbacks;
       RegisterFunctions] ++ h "post_register_functions" ++ [Generate])).
Proof.
  intros h. unfold main, import_all, import_customization, import_callback_list, import_once, generate.
  cbv [mbind py_bind emit path_insert py_modify finally_pop py_lift mret py_ret path_pop].
  rewrite Hfile. cbn. unfold hook, h.
  destruct (existsb (String.eqb "post_register_types") custom),
    (existsb (String.eqb "post_register_methods") custom),
    (existsb (String.eqb "post_register_functions") custom);
    cbv [emit py_modify mret py_ret]; cbn; rewrite <- !app_assoc; reflexivity.
Qed.

Lemma main_order_witness :
  (main (λ t, Ok ("/src/bindings/modulegen__" +:+ t +:+ ".pyc")) (Ok ["post_register_types"]) (Ok [])
     ["p"; "/src"; "LP64"; "dce"; "out.cc"] (mk_state ["/lib"] [])).1 = Ok ().
Proof.
  assert (import : ∀ t, (λ t, Ok ("/src/bindings/modulegen__" +:+ t +:+ ".pyc") : result string) t =
    Ok ("/src/bindings/modulegen__" +:+ t +:+ ".pyc")) by done.
  pose proof (main_order (λ t, Ok ("/src/bindings/modulegen__" +:+ t +:+ ".pyc"))
    ["post_register_types"] [] "p" "/src" "LP64" "dce" "out.cc" (mk_state ["/lib"] [])
    "/src/bindings/modulegen__LP64.pyc" eq_refl) as H.
  cbv zeta in H. rewrite H. reflexivity.
Defined.

(** the stack is reversed on every call: the innermost line of the tables is reported the first time
    and the outermost the next *)
Example second_error_at_other_line :
  let stack := [("t.py", 10%Z); ("x.py", 3%Z); ("t.py", 20%Z)] in
  let '(w1, s1) := handle_error "t.py" "e" "w" stack in
  w1 = Ok (WarnAt "t.py" 20 "exception e in wrapper w", true) ∧
  (handle_error "t.py" "e" "w" s1).1 = Ok (WarnAt "t.py" 10 "exception e in wrapper w", true).
Proof. split; reflexivity. Qed.
End ModuleGenFacts.
