(* ===== verification/Pybindgen.v ===== *)
(** * pybindgen: the calls of the tables of the bindings

    The tables of the bindings (bindings/modulegen__gcc_ILP32.py and
    bindings/python/ns3_module_dce.py) are calls of pybindgen in order.  A table is a list of steps:
    [Do c] makes the call [c], after the classes its arguments name were looked up in the root
    module, and [Use k] is a lookup alone.  pybindgen itself is the interface [Registry]: which
    classes a module knows by their full name, with the laws the tables rely on ([RegistryLaws]).
    [run_placed] shows once, for every table, that a table whose steps are [placed] runs to its end
    on any such registry. *)
From Stdlib Require Import ZArith Lia Ascii String.
From stdpp Require Import base list strings.
From S2P Require Import Prelude PyStr.

(** ** The calls of pybindgen *)
Module Pybindgen.

(** the values of keyword arguments; [VClass] is [root_module[name]], [VClasses] a list of these,
    [VPolicy] a [ReferenceCountingMethodsPolicy] *)
Inductive value :=
  | VBool (b : bool)
  | VInt (n : Z)
  | VStr (s : string)
  | VList (l : list string)
  | VClass (name : string)
  | VClasses (names : list string)
  | VPolicy (incref_method decref_method peekref_method : string).
Definition kwargs : Type := list (string * value).

Definition is_const : string * value := ("is_const", VBool true).
Definition not_const : string * value := ("is_const", VBool false).
Definition is_static : string * value := ("is_static", VBool true).
Definition is_virtual : string * value := ("is_virtual", VBool true).
Definition is_pure_virtual : string * value := ("is_pure_virtual", VBool true).
Definition visibility (v : string) : string * value := ("visibility", VStr v).
Definition import_from_module (m : string) : string * value := ("import_from_module", VStr m).
Definition parent (k : string) : string * value := ("parent", VClass k).
Definition outer_class (k : string) : string * value := ("outer_class", VClass k).
Definition template_parameters (l : list string) : string * value := ("template_parameters", VList l).

(** [param(type, name, ...)] *)
Record Param := mk_param { p_type : string; p_name : string; p_kw : kwargs }.
Definition param (type name : string) : Param := mk_param type name [].
Definition borrowed (type name : string) : Param :=
  mk_param type name [("transfer_ownership", VBool false)].
Definition param_default (type name v : string) : Param :=
  mk_param type name [("default_value", VStr v)].

(** the text of the empty string of C++, a default value *)
Definition cpp_empty_string : string := String "034" (String "034" EmptyString).

(** a return type, and [retval(type, caller_owns_return=False)] *)
Inductive Ret := Plain (type : string) | Borrowed (type : string).
Definition ret_type (r : Ret) : string := match r with Plain t | Borrowed t => t end.

(** the namespaces that lead from the root module to a nested one *)
Definition path : Type := list string.

(** a class is given by its name, a module by its path; a container of pairs has two value types *)
Inductive call :=
  | AddInclude (file : string)
  | AddCppNamespace (module : path) (name : string)
  | AddClass (module : path) (name : string) (kw : kwargs)
  | AddEnum (module : path) (name : string) (values : list string) (kw : kwargs)
  | AddContainer (module : path) (name : string) (value_types : list string) (container_type : string)
  | AddTypeAlias (type alias : string)
  | ImplicitlyConverts (cls to : string)
  | AddConstructor (cls : string) (params : list Param) (kw : kwargs)
  | AddMethod (cls name : string) (ret : Ret) (params : list Param) (kw : kwargs)
  | AddInstanceAttribute (cls name type : string) (kw : kwargs)
  | AddStaticAttribute (cls name type : string) (kw : kwargs)
  | AddComparison (cls operator : string)
  | AddBinaryNumeric (cls operator result lhs : string) (right : Param)
  | AddInplaceNumeric (cls operator : string) (right : Param)
  | AddUnaryNumeric (cls operator : string)
  | AddOutputStream (cls : string)
  | AddFunction (module : path) (name ret : string) (params : list Param)
  | Generate.

#[export] Instance value_eq_dec : EqDecision value.
Proof. solve_decision. Defined.
#[export] Instance param_eq_dec : EqDecision Param.
Proof. solve_decision. Defined.
#[export] Instance ret_eq_dec : EqDecision Ret.
Proof. solve_decision. Defined.
#[export] Instance call_eq_dec : EqDecision call.
Proof. solve_decision. Defined.

(** [cls.add_method] and [cls.add_constructor] with a plain type and without keyword arguments *)
Definition method (cls name ret : string) (params : list Param) (kw : kwargs) : call :=
  AddMethod cls name (Plain ret) params kw.
Definition constructor (cls : string) (params : list Param) : call := AddConstructor cls params [].

(** *** Names *)

(** the value of a keyword argument *)
Definition kw_get (k : string) (kw : kwargs) : option value :=
  snd <$> List.find (λ a, (a.1 =? k)%string) kw.
Definition template_suffix (kw : kwargs) : string :=
  match kw_get "template_parameters" kw with
  | Some (VList l) => "< " +:+ join ", " l +:+ " >"
  | _ => EmptyString
  end.
(** the full name of a class: behind its outer class, or else in the namespace of its module *)
Definition full_name (namespace : string) (module : path) (name : string) (kw : kwargs) : string :=
  match kw_get "outer_class" kw with
  | Some (VClass k) => k
  | _ => join "::" ((if startswith namespace "::" then str_drop 2 namespace else namespace) :: module)
  end +:+ "::" +:+ name +:+ template_suffix kw.

(** the classes that the arguments of a call look up in the root module, in order *)
Definition value_classes (v : value) : list string :=
  match v with VClass k => [k] | VClasses l => l | _ => [] end.
Definition lookups (c : call) : list string :=
  match c with
  | AddClass _ _ kw | AddEnum _ _ _ kw => kw ≫= λ a, value_classes a.2
  | ImplicitlyConverts k to => [k; to]
  | AddBinaryNumeric _ _ result lhs _ => [result; lhs]
  | _ => []
  end.
(** the classes that a class extends *)
Definition parents (kw : kwargs) : list string :=
  match kw_get "parent" kw with Some v => value_classes v | None => [] end.
(** the class whose method the call is *)
Definition receiver (c : call) : option string :=
  match c with
  | AddConstructor k _ _ | AddMethod k _ _ _ _ | AddInstanceAttribute k _ _ _
  | AddStaticAttribute k _ _ _ | AddComparison k _ | AddBinaryNumeric k _ _ _ _
  | AddInplaceNumeric k _ _ | AddUnaryNumeric k _ | AddOutputStream k => Some k
  | _ => None
  end.

(** *** The types of the wrappers *)
Definition is_name_char (c : ascii) : bool := is_word c || Ascii.eqb c ":".
Fixpoint blank_others (t : string) : string :=
  match t with
  | EmptyString => EmptyString
  | String c t => String (if is_name_char c then c else " "%char) (blank_others t)
  end.
(** the names of ns-3 in a type, but for the smart pointer, which pybindgen knows by itself *)
Definition class_names (t : string) : list string :=
  List.filter (λ w, startswith w "ns3::" && negb (w =? "ns3::Ptr")%string)
    (split_char " " (blank_others t)).
(** the types of the parameters and of the result of the wrapper that a call asks for *)
Definition types_of (c : call) : list string :=
  match c with
  | AddContainer _ _ value_types _ => value_types
  | AddConstructor _ ps _ => p_type <$> ps
  | AddMethod _ _ r ps _ => ret_type r :: (p_type <$> ps)
  | AddInstanceAttribute _ _ t _ | AddStaticAttribute _ _ t _ => [t]
  | AddBinaryNumeric _ _ _ _ p | AddInplaceNumeric _ _ p => [p_type p]
  | AddFunction _ _ r ps => r :: (p_type <$> ps)
  | _ => []
  end.
Definition alias_names (l : list call) : list string :=
  l ≫= λ c, match c with AddTypeAlias _ a => [a] | _ => [] end.
(** the enumerations, by their full names *)
Definition enum_names (ns : string) (l : list call) : list string :=
  l ≫= λ c, match c with AddEnum m name _ kw => [full_name ns m name kw] | _ => [] end.

(** *** Steps *)
Inductive step := Use (name : string) | Do (c : call).
Definition calls_made (l : list step) : list call :=
  l ≫= λ st, match st with Use _ => [] | Do c => [c] end.
(** [register_X_methods(root_module, root_module[name])] *)
Definition register (name : string) (f : string → list call) : list step :=
  Use name :: (Do <$> f name).
End Pybindgen.

(** what a module knows: a class is found under its full name once it was added, and stays *)
Class Registry (R : Type) := {
  new_module : string → string → R;             (* [Module(name, cpp_namespace=...)] *)
  namespace : R → string;
  apply_call : Pybindgen.call → R → R;
  has_class : R → string → bool                 (* whether [root_module[name]] is found *)
}.
Class RegistryLaws (R : Type) `{Registry R} := {
  namespace_new name ns : namespace (new_module name ns) = ns;
  namespace_apply c r : namespace (apply_call c r) = namespace r;
  class_added r m name kw :
    has_class (apply_call (Pybindgen.AddClass m name kw) r)
      (Pybindgen.full_name (namespace r) m name kw) = true;
  class_kept r c k : has_class r k = true → has_class (apply_call c r) k = true
}.

(** ** Running a table *)
Module Tables.
Import Pybindgen.

Record state (R : Type) := mk_state { registry : R; calls : list call }.
Arguments mk_state {R}. Arguments registry {R}. Arguments calls {R}.

Section run.
  Context {R : Type} `{Registry R}.
#[local] Abbreviation state := (state R).

Definition emit (c : call) : py state unit := py_modify (λ s,
  mk_state (apply_call c (registry s)) (calls s ++ [c])).
(** [root_module[name]] *)
Definition root_class (name : string) : py state unit :=
  s ← py_get; if has_class (registry s) name then mret () else py_raise KeyError.
Definition run_step (st : step) : py state unit :=
  match st with
  | Use k => root_class k
  | Do c => py_for (lookups c) root_class ;; emit c
  end.
Definition run (l : list step) : py state unit := py_for l run_step.
End run.

(** the names of the classes that a call adds to a module in the namespace [ns] *)
Definition added (ns : string) (c : call) : list string :=
  match c with AddClass m name kw => [full_name ns m name kw] | _ => [] end.
Definition added_by (ns : string) (st : step) : list string :=
  match st with Use _ => [] | Do c => added ns c end.
(** the names a step looks up; with the class whose method it is, the names it needs *)
Definition looked_up (st : step) : list string :=
  match st with Use k => [k] | Do c => lookups c end.
Definition needed (st : step) : list string :=
  match st with
  | Use k => [k]
  | Do c => match receiver c with Some k => k :: lookups c | None => lookups c end
  end.

Definition mem (k : string) (l : list string) : bool := existsb (String.eqb k) l.

Section placed.
  Variable needs : step → list string.
  Variable ns : string.
(** each step needs only names that are known or were added by a step before it *)
Fixpoint placed (known : list string) (l : list step) : bool :=
  match l with
  | [] => true
  | st :: l => forallb (λ k, mem k known) (needs st) && placed (added_by ns st ++ known) l
  end.
End placed.

(** the names that are known behind the steps *)
Definition names (ns : string) (l : list step) : list string := l ≫= added_by ns.
End Tables.

(** ** The least registry: the names that were added, and nothing else *)
Module LeastRegistry.
Import Pybindgen Tables.
Record least := mk_least { l_namespace : string; l_classes : list string }.
#[export] Instance least_registry : Registry least := {|
  new_module name ns := mk_least ns [];
  namespace := l_namespace;
  apply_call c r := mk_least (l_namespace r) (added (l_namespace r) c ++ l_classes r);
  has_class r k := mem k (l_classes r)
|}.

Lemma mem_spec k l : mem k l = true ↔ k ∈ l.
Proof.
  unfold mem. rewrite existsb_exists. setoid_rewrite String.eqb_eq. setoid_rewrite <- list_elem_of_In.
  split; [by intros (? & ? & ->)|by exists k].
Qed.
#[export] Instance least_laws : RegistryLaws least.
Proof.
  split.
  - done.
  - done.
  - intros. apply mem_spec. by left.
  - intros r c k Hk%mem_spec. apply mem_spec, elem_of_app. by right.
Qed.
End LeastRegistry.

(** ** Facts *)
Module PybindgenFacts.
Import Pybindgen Tables LeastRegistry.

Lemma names_cons ns st l k : k ∈ names ns (st :: l) ↔ k ∈ added_by ns st ∨ k ∈ names ns l.
Proof. unfold names. cbn [mbind list_bind]. apply elem_of_app. Qed.
Lemma calls_made_app l1 l2 : calls_made (l1 ++ l2) = calls_made l1 ++ calls_made l2.
Proof. apply bind_app. Qed.

(** *** A run on any registry *)
Section run.
  Context {R : Type} `{RegistryLaws R}.
  #[local] Abbreviation state := (state R).

(** the registry knows the names *)
Definition knows (s : state) (known : list string) : Prop :=
  ∀ k, k ∈ known → has_class (registry s) k = true.

Lemma root_class_known (s : state) k : has_class (registry s) k = true → root_class k s = (Ok (), s).
Proof. intros Hk. unfold root_class. cbv [mbind py_bind py_get]. by rewrite Hk. Qed.
Lemma root_class_unknown (s : state) k :
  has_class (registry s) k = false → root_class k s = (Raise KeyError, s).
Proof. intros Hk. unfold root_class. cbv [mbind py_bind py_get]. by rewrite Hk. Qed.
Lemma lookups_known (s : state) known l :
  knows s known → forallb (λ k, mem k known) l = true → py_for l root_class s = (Ok (), s).
Proof.
  intros Hs. induction l as [|k l IH]; [done|]. cbn [forallb py_for].
  intros [Hk%mem_spec Hl]%andb_true_iff. cbv [mbind py_bind].
  rewrite root_class_known by by apply Hs. by apply IH.
Qed.
Lemma emit_knows c (s : state) known :
  knows s known → knows (emit c s).2 (added (namespace (registry s)) c ++ known).
Proof.
  intros Hs k [Hk|Hk]%elem_of_app; cbn; [|by apply class_kept, Hs].
  destruct c; try (by apply elem_of_nil in Hk). apply list_elem_of_singleton in Hk as ->.
  apply class_added.
Qed.

(** a step whose lookups are known succeeds *)
Lemma run_step_known st (s : state) known :
  knows s known → forallb (λ k, mem k known) (looked_up st) = true →
  ∃ s', run_step st s = (Ok (), s') ∧ calls s' = calls s ++ calls_made [st] ∧
    namespace (registry s') = namespace (registry s) ∧
    knows s' (added_by (namespace (registry s)) st ++ known).
Proof.
  intros Hs Hl. destruct st as [k|c]; cbn [run_step looked_up added_by forallb] in *.
  - exists s. rewrite andb_true_r in Hl. rewrite root_class_known by by apply Hs, mem_spec.
    cbn. by rewrite app_nil_r.
  - exists (emit c s).2. cbv [mbind py_bind]. rewrite (lookups_known _ known) by done.
    split; [done|]. split; [done|]. split; [cbn; by apply namespace_apply|by apply emit_knows].
Qed.

(** a table whose steps are placed runs to its end, makes its calls in order, and leaves a registry
    that knows every class that was added *)
Lemma run_placed l (s : state) known :
  knows s known → placed looked_up (namespace (registry s)) known l = true →
  ∃ s', run l s = (Ok (), s') ∧ calls s' = calls s ++ calls_made l ∧
    namespace (registry s') = namespace (registry s) ∧
    knows s' (names (namespace (registry s)) l ++ known).
Proof.
  revert s known. induction l as [|st l IH]; intros s known Hs Hl.
  { exists s. cbn. by rewrite app_nil_r. }
  cbn [placed] in Hl. apply andb_true_iff in Hl as [Hst Hl].
  destruct (run_step_known st s known Hs Hst) as (s1 & Hr & Hc & Hn & Hk). rewrite <- Hn in Hl, Hk.
  destruct (IH s1 _ Hk Hl) as (s2 & Hr2 & Hc2 & Hn2 & Hk2). exists s2.
  split; [cbn [run py_for]; cbv [mbind py_bind]; rewrite Hr; exact Hr2|].
  split; [rewrite Hc2, Hc, <- app_assoc; by rewrite <- (calls_made_app [st] l)|].
  split; [congruence|]. intros k Hin. apply Hk2. rewrite Hn.
  apply elem_of_app in Hin as [Hin|Hin]; [|by rewrite !elem_of_app; auto].
  apply names_cons in Hin as [Hin|Hin]; rewrite !elem_of_app; auto.
Qed.
End run.

(** *** The least registry: the run succeeds just when the steps are placed *)
Lemma least_knows (s : state least) : knows s (l_classes (registry s)).
Proof. intros k Hk. by apply mem_spec. Qed.

Lemma least_lookups (s : state least) l :
  (py_for l root_class s).1 = Ok () → forallb (λ k, mem k (l_classes (registry s))) l = true.
Proof.
  induction l as [|k l IH]; [done|]. cbn [py_for forallb]. cbv [mbind py_bind].
  change (mem k (l_classes (registry s))) with (has_class (registry s) k).
  destruct (has_class (registry s) k) eqn:E.
  - rewrite (root_class_known s k E). exact IH.
  - rewrite (root_class_unknown s k E). discriminate.
Qed.

(** on the registry that knows only what was added, a table runs to its end if and only if every
    name it looks up is known before it is looked up *)
Lemma least_run_iff l (s : state least) :
  (run l s).1 = Ok () ↔
  placed looked_up (l_namespace (registry s)) (l_classes (registry s)) l = true.
Proof.
  split; [|intros Hl; by destruct (run_placed l s _ (least_knows s) Hl) as (s' & -> & _)].
  revert s. induction l as [|st l IH]; intros s; [done|]. cbn [run py_for placed].
  cbv [mbind py_bind]. intros Hr.
  assert (Hst : forallb (λ k, mem k (l_classes (registry s))) (looked_up st) = true).
  { destruct st as [k|c]; cbn [run_step looked_up] in *.
    - apply least_lookups. cbn [py_for]. cbv [mbind py_bind]. by destruct (root_class k s) as [[[]|] ?].
    - apply least_lookups. cbv [mbind py_bind] in Hr. by destruct (py_for _ _ s) as [[[]|] ?]. }
  rewrite Hst. destruct st as [k|c]; cbn [run_step looked_up added_by app forallb] in *.
  - rewrite root_class_known in Hr; [by apply IH|]. rewrite andb_true_r in Hst. by apply Hst.
  - cbv [mbind py_bind] in Hr. rewrite (lookups_known s _ _ (least_knows s) Hst) in Hr. apply (IH _ Hr).
Qed.

(** *** Order *)

(** some step before the [i]-th adds the class [k] *)
Definition added_before (ns : string) (l : list step) (i : nat) (k : string) : Prop :=
  ∃ j c, (j < i)%nat ∧ l !! j = Some (Do c) ∧ k ∈ added ns c.

Lemma placed_before needs ns known l i st k :
  placed needs ns known l = true → l !! i = Some st → k ∈ needs st →
  k ∈ known ∨ added_before ns l i k.
Proof.
  revert known i. induction l as [|st' l IH]; intros known i Ho Hi Hk; [done|].
  cbn [placed] in Ho. apply andb_true_iff in Ho as [Hst Ho]. destruct i as [|i].
  - injection Hi as ->. left. rewrite forallb_forall in Hst. by apply mem_spec, Hst, list_elem_of_In.
  - destruct (IH _ i Ho Hi Hk) as [[Hin|Hin]%elem_of_app|(j & c & Hj & Hl & Hin)].
    + right. exists 0%nat. destruct st' as [|c]; [by apply elem_of_nil in Hin|]. exists c.
      split; [lia|done].
    + by left.
    + right. exists (S j), c. split; [lia|done].
Qed.

(** *** Inheritance *)

(** the table adds the class [a] with the parent [p] *)
Definition extends (ns : string) (l : list step) (a p : string) : Prop :=
  ∃ m name kw, Do (AddClass m name kw) ∈ l ∧ a = full_name ns m name kw ∧ p ∈ parents kw.

Lemma parents_looked_up m name kw p : p ∈ parents kw → p ∈ lookups (AddClass m name kw).
Proof.
  unfold parents, kw_get. destruct (List.find _ kw) as [[k v]|] eqn:E; [|by intros ?%elem_of_nil].
  apply find_some in E as [E%list_elem_of_In _]. intros Hp. apply list_elem_of_bind. by exists (k, v).
Qed.

(** in a table whose steps are placed, the parents of a class are added before it *)
Lemma parent_added_before ns l i m name kw p :
  placed looked_up ns [] l = true → l !! i = Some (Do (AddClass m name kw)) → p ∈ parents kw →
  added_before ns l i p.
Proof.
  intros Hl Hi Hp. destruct (placed_before looked_up ns [] l i _ p Hl Hi) as [Hn|?]; [|by apply elem_of_nil in Hn|done].
  by apply (parents_looked_up m name).
Qed.

Lemma added_once ns l i j c d k :
  NoDup (names ns l) → l !! i = Some (Do c) → l !! j = Some (Do d) →
  k ∈ added ns c → k ∈ added ns d → i = j.
Proof.
  intros Hnd. revert i j. induction l as [|st l IH]; [done|]. unfold names in Hnd.
  cbn [mbind list_bind] in Hnd. apply NoDup_app in Hnd as (_ & Hdis & Hnd).
  assert (Hno : ∀ j c d, st = Do c → l !! j = Some (Do d) → k ∈ added ns c → k ∈ added ns d → False).
  { intros j' c' d' -> Hj Hc Hd. apply (Hdis k Hc). apply list_elem_of_bind. exists (Do d').
    split; [exact Hd|by eapply list_elem_of_lookup_2]. }
  intros [|i] [|j] Hi Hj Hc Hd; cbn in Hi, Hj; [done|..].
  - injection Hi as ->. by destruct (Hno j c d).
  - injection Hj as ->. by destruct (Hno i d c).
  - f_equal. by apply IH.
Qed.

(** in a table whose steps are placed and that adds no name twice, a chain of parents is finite *)
Lemma extends_well_founded ns l :
  placed looked_up ns [] l = true → NoDup (names ns l) → well_founded (λ p a, extends ns l a p).
Proof.
  intros Hl Hnd.
  assert (Hacc : ∀ n i c k, (i < n)%nat → l !! i = Some (Do c) → k ∈ added ns c →
    Acc (λ p a, extends ns l a p) k).
  { induction n as [|n IH]; [lia|]. intros i c k Hi Hc Hk. constructor.
    intros p (m & name & kw & Hin & -> & Hp). apply list_elem_of_lookup_1 in Hin as [i' Hi'].
    assert (i = i') as <- by (apply (added_once ns l _ _ c _ _ Hnd Hc Hi' Hk); by left).
    destruct (parent_added_before ns l i m name kw p Hl Hi' Hp) as (j & d & Hj & Hd & Hpd).
    apply (IH j d); [lia|done|done]. }
  intros k. constructor. intros p (m & name & kw & Hin & -> & Hp).
  apply list_elem_of_lookup_1 in Hin as [i Hi].
  destruct (parent_added_before ns l i m name kw p Hl Hi Hp) as (j & d & _ & Hd & Hpd).
  by apply (Hacc (S j) j d); [lia|..].
Qed.
End PybindgenFacts.
