(* ===== verification/DceModule.v ===== *)
(** * ns3_module_dce.py: the table of the bindings of the module dce

    bindings/python/ns3_module_dce.py: the classes, containers and aliases that are registered with
    pybindgen, the constructors and methods of each class, and [main], over the interface of
    [Pybindgen]. *)
From Stdlib Require Import ZArith Lia Ascii String.
From stdpp Require Import base list strings.
From S2P Require Import Prelude PyStr ModuleGen Pybindgen.

Module DceModule.
Import Pybindgen Tables.

(** [ErrorHandler.handle_error]: an error in a wrapper becomes a warning *)
Definition handle_error (wrapper exception : string) : ModuleGen.warning * bool :=
  (ModuleGen.WarnHere ("exception " +:+ exception +:+ " in wrapper " +:+ wrapper), true).

Definition include (header : string) : call :=
  AddInclude (String "034" (header +:+ String "034" EmptyString)).
Definition includes : list call :=
  [include "ns3/dce-module.h"; include "ns3/dce-manager-helper.h";
   include "ns3/dce-application.h"; include "ns3/ipv4-dce-routing-helper.h"].
Definition module_init {R} `{Registry R} : state R :=
  (run (Do <$> includes) (mk_state (new_module "dce" "::ns3") [])).2.

(** ** Types *)
Definition import_class (name module : string) : call := AddClass [] name [import_from_module module].
Definition class (name : string) : call := AddClass [] name [].
(** [add_class(name, parent=root_module[parent])] *)
Definition add_subclass (name base : string) : call := AddClass [] name [parent base].

Definition core_types : list call :=
  [import_class "AttributeValue" "ns.core"; import_class "Object" "ns.core";
   import_class "EmptyAttributeValue" "ns.core"].
Definition network_types : list call :=
  [import_class "Application" "ns.network"; import_class "ApplicationContainer" "ns.network";
   import_class "Node" "ns.network"; import_class "NodeContainer" "ns.network";
   import_class "Ipv4RoutingProtocol" "ns.network";
   import_class "Ipv4StaticRoutingHelper" "ns.network"; import_class "Time" "ns.core"].
Definition dce_types : list call :=
  [add_subclass "DceApplication" "ns3::Application";
   AddClass [] "DceApplicationHelper" [("allow_subclassing", VBool true)];
   class "ProcStatus";
   add_subclass "DceManagerHelper" "ns3::Object";
   add_subclass "Ipv4DceRoutingHelper" "ns3::Ipv4StaticRoutingHelper";
   class "LinuxStackHelper";
   add_subclass "CcnClientHelper" "ns3::DceApplicationHelper"].
Definition basic_string : string :=
  "std::basic_string< char, std::char_traits< char >, std::allocator< char > >".
Definition containers : list call :=
  [AddContainer [] "std::vector< std::string >" ["std::string"] "vector";
   AddContainer [] "std::vector< ns3::ProcStatus >" ["ns3::ProcStatus"] "vector";
   AddContainer [] "std::vector< std::pair< std::string, std::string > >"
     ["std::pair< " +:+ basic_string +:+ ", " +:+ basic_string +:+ " >"] "vector"].
Definition aliases : list call :=
  [AddTypeAlias "unsigned int" "ns3::uid_t"; AddTypeAlias "unsigned int*" "ns3::uid_t*";
   AddTypeAlias "unsigned int&" "ns3::uid_t&"].

Definition register_types : list call :=
  core_types ++ network_types ++ dce_types ++ containers ++ aliases.

(** ** The methods of each class *)
Definition register_Ns3Application_methods (cls : string) : list call := [
  constructor cls [];
  constructor cls [param "ns3::Application const &" "arg0"]].
Definition register_Ns3ApplicationContainer_methods (cls : string) : list call := [
  constructor cls [];
  constructor cls [param "ns3::ApplicationContainer const &" "arg0"]].
Definition register_Ns3AttributeValue_methods (cls : string) : list call := [
  constructor cls [];
  constructor cls [param "ns3::AttributeValue const &" "arg0"]].
Definition register_Ns3DceApplication_methods (cls : string) : list call := [
  constructor cls [param "ns3::DceApplication const &" "arg0"];
  constructor cls [];
  method cls "GetPid" "uint16_t" [] [];
  method cls "SetArguments" "void" [param "std::vector< std::string >" "args"] [];
  method cls "SetBinary" "void" [param "std::string" "filename"] [];
  method cls "SetEgid" "void" [param "unsigned int" "i"] [];
  method cls "SetEnvironment" "void"
    [param "std::vector< std::pair< std::string, std::string > >" "envs"] [];
  method cls "SetEuid" "void" [param "unsigned int" "i"] [];
  method cls "SetGid" "void" [param "unsigned int" "i"] [];
  method cls "SetStackSize" "void" [param "uint32_t" "stackSize"] [];
  method cls "SetStdinFile" "void" [param "std::string" "filename"] [];
  method cls "SetUid" "void" [param "unsigned int" "i"] []].
Definition register_Ns3DceApplicationHelper_methods (cls : string) : list call := [
  constructor cls [param "ns3::DceApplicationHelper const &" "arg0"];
  constructor cls [];
  method cls "AddArgument" "void" [param "std::string" "arg"] [];
  method cls "AddArguments" "void" [param "std::string" "a0";
    param "std::string" "a1"] [];
  method cls "AddArguments" "void" [param "std::string" "a0";
    param "std::string" "a1"; param "std::string" "a2"] [];
  method cls "AddArguments" "void" [param "std::string" "a0";
    param "std::string" "a1"; param "std::string" "a2"; param "std::string" "a3"] [];
  method cls "AddArguments" "void" [param "std::string" "a0";
    param "std::string" "a1"; param "std::string" "a2"; param "std::string" "a3";
    param "std::string" "a4"] [];
  method cls "AddArguments" "void" [param "std::string" "a0";
    param "std::string" "a1"; param "std::string" "a2"; param "std::string" "a3";
    param "std::string" "a4"; param "std::string" "a5"] [];
  method cls "AddArguments" "void" [param "std::string" "a0";
    param "std::string" "a1"; param "std::string" "a2"; param "std::string" "a3";
    param "std::string" "a4"; param "std::string" "a5"; param "std::string" "a6"] [];
  method cls "AddArguments" "void" [param "std::string" "a0";
    param "std::string" "a1"; param "std::string" "a2"; param "std::string" "a3";
    param "std::string" "a4"; param "std::string" "a5"; param "std::string" "a6";
    param "std::string" "a7"] [];
  method cls "AddEnvironment" "void" [param "std::string" "name";
    param "std::string" "value"] [];
  method cls "Install" "ns3::ApplicationContainer" [param "ns3::NodeContainer" "c"]
    [is_virtual];
  method cls "InstallInNode" "ns3::ApplicationContainer"
    [borrowed "ns3::Node *" "node"] [("is_virtual", VBool false)];
  method cls "ParseArguments" "void" [param "std::string" "args"] [];
  method cls "ResetArguments" "void" [] [];
  method cls "ResetEnvironment" "void" [] [];
  method cls "SetBinary" "void" [param "std::string" "filename"] [];
  method cls "SetEgid" "void" [param "ns3::uid_t" "i"] [];
  method cls "SetEuid" "void" [param "ns3::uid_t" "i"] [];
  method cls "SetGid" "void" [param "ns3::uid_t" "i"] [];
  method cls "SetStackSize" "void" [param "uint32_t" "stackSize"] [];
  method cls "SetStdinFile" "void" [param "std::string" "filename"] [];
  method cls "SetUid" "void" [param "ns3::uid_t" "i"] [];
  method cls "GetPid" "uint16_t" [borrowed "ns3::Application *" "app"]
    [is_virtual]].
Definition register_Ns3Object_methods (cls : string) : list call := [
  constructor cls [];
  constructor cls [param "ns3::Object const &" "arg0"]].
Definition register_Ns3ProcStatus_methods (cls : string) : list call := [
  constructor cls [param "ns3::ProcStatus const &" "arg0"];
  constructor cls [];
  constructor cls [param "int" "n"; param "int" "e"; param "int" "p"; param "int64_t" "ns";
    param "int64_t" "ne"; param "long int" "rs"; param "long int" "re"; param "double" "nd";
    param "long int" "rd"; param "std::string" "cmd"];
  method cls "GetCmdLine" "std::string" [] [is_const];
  method cls "GetExitCode" "int" [] [is_const];
  method cls "GetNode" "int" [] [is_const];
  method cls "GetPid" "int" [] [is_const];
  method cls "GetRealDuration" "long int" [] [is_const];
  method cls "GetRealEndTime" "long int" [] [is_const];
  method cls "GetRealStartTime" "long int" [] [is_const];
  method cls "GetSimulatedDuration" "double" [] [is_const];
  method cls "GetSimulatedEndTime" "int64_t" [] [is_const];
  method cls "GetSimulatedStartTime" "int64_t" [] [is_const]].
Definition register_Ns3DceManagerHelper_methods (cls : string) : list call := [
  constructor cls [param "ns3::DceManagerHelper const &" "arg0"];
  constructor cls [];
  method cls "GetProcStatus" "std::vector< ns3::ProcStatus >" [] [is_static];
  method cls "GetVirtualPath" "std::string" [] [is_const];
  method cls "Install" "void" [param "ns3::NodeContainer" "nodes"] [];
  method cls "SetAttribute" "void" [param "std::string" "n1";
    param "ns3::AttributeValue const &" "v1"] [];
  method cls "SetLoader" "void" [param "std::string" "type"] [];
  method cls "SetVirtualPath" "void" [param "std::string" "p"] []].
Definition register_Ns3Ipv4DceRoutingHelper_methods (cls : string) : list call := [
  constructor cls [];
  constructor cls [param "ns3::Ipv4DceRoutingHelper const &" "arg0"];
  AddMethod cls "Copy" (Borrowed "ns3::Ipv4DceRoutingHelper *") [] [is_const];
  AddMethod cls "Create" (Borrowed "ns3::Ptr<ns3::Ipv4RoutingProtocol >")
    [borrowed "ns3::Node *" "node"] [is_const; is_virtual]].
Definition register_Ns3LinuxStackHelper_methods (cls : string) : list call := [
  constructor cls [param "ns3::LinuxStackHelper const &" "arg0"];
  constructor cls [];
  method cls "Install" "void" [borrowed "ns3::Node *" "node"] [];
  method cls "Install" "void" [param "ns3::NodeContainer" "c"] [];
  method cls "InstallAll" "void" [] [];
  method cls "PopulateRoutingTables" "void" [] [is_static];
  method cls "RunIp" "void" [borrowed "ns3::Node *" "node"; param "ns3::Time" "at";
    param "std::string" "str"] [is_static];
  method cls "SetRoutingHelper" "void"
    [param "ns3::Ipv4RoutingHelper const &" "routing"] [];
  method cls "SysctlGet" "void" [borrowed "ns3::Node *" "node";
    param "ns3::Time" "at"; param "std::string" "path";
    param "void ( * ) ( std::string, std::string ) *" "callback"] [is_static];
  method cls "SysctlSet" "void" [param "ns3::NodeContainer" "c";
    param "std::string" "path"; param "std::string" "value"] []].
Definition register_Ns3CcnClientHelper_methods (cls : string) : list call := [
  constructor cls [param "ns3::CcnClientHelper const &" "arg0"];
  constructor cls [];
  method cls "AddFile" "void" [param "std::string" "from";
    param "std::string" "to"] [];
  method cls "Install" "ns3::ApplicationContainer" [param "ns3::NodeContainer" "c"]
    [is_virtual];
  method cls "InstallInNode" "ns3::ApplicationContainer"
    [borrowed "ns3::Node *" "node"] [is_virtual];
  method cls "ResetEnvironment" "void" [] []].

Definition register_methods : list step :=
  register "ns3::Application" register_Ns3Application_methods ++
  register "ns3::ApplicationContainer" register_Ns3ApplicationContainer_methods ++
  register "ns3::AttributeValue" register_Ns3AttributeValue_methods ++
  register "ns3::DceApplication" register_Ns3DceApplication_methods ++
  register "ns3::DceApplicationHelper" register_Ns3DceApplicationHelper_methods ++
  register "ns3::Object" register_Ns3Object_methods ++
  register "ns3::ProcStatus" register_Ns3ProcStatus_methods ++
  register "ns3::DceManagerHelper" register_Ns3DceManagerHelper_methods ++
  register "ns3::Ipv4DceRoutingHelper" register_Ns3Ipv4DceRoutingHelper_methods ++
  register "ns3::LinuxStackHelper" register_Ns3LinuxStackHelper_methods ++
  register "ns3::CcnClientHelper" register_Ns3CcnClientHelper_methods.
Definition register_functions : list call := [].

(** what [main] does with the module that [module_init] makes *)
Definition table : list step :=
  (Do <$> register_types) ++ register_methods ++ (Do <$> register_functions) ++ [Do Generate].
Definition main {R} `{Registry R} : result unit * state R := run table module_init.
End DceModule.

(** ** Facts *)
Module DceModuleFacts.
Import Pybindgen Tables PybindgenFacts DceModule.

Lemma dce_placed : placed looked_up "::ns3" [] table = true.
Proof. by vm_compute. Qed.
(** the calls of the whole run *)
Definition steps : list step := (Do <$> includes) ++ table.
Lemma steps_needed : placed needed "::ns3" [] steps = true.
Proof. by vm_compute. Qed.

(** the constructors that a class with methods has *)
Definition has_constructors (l : list call) (c : call) : bool :=
  match c with
  | AddMethod cls _ _ _ _ =>
      bool_decide (constructor cls [] ∈ l) &&
      bool_decide (constructor cls [param (cls +:+ " const &") "arg0"] ∈ l)
  | _ => true
  end.
Lemma table_constructors : forallb (has_constructors (calls_made steps)) (calls_made steps) = true.
Proof. by vm_compute. Qed.
Lemma dce_generate : ∃ l, calls_made steps = l ++ [Generate] ∧ Generate ∉ l.
Proof.
  exists (removelast (calls_made steps)). split; [by vm_compute|].
  apply (bool_decide_eq_true (Generate ∉ removelast (calls_made steps))). by vm_compute.
Qed.

Definition known_name (k : string) : bool :=
  mem k (names "::ns3" steps) || mem k (alias_names (calls_made steps)).
(** the calls with a name that is not known, with the name *)
Definition unknown_names (l : list call) : list (call * string) :=
  l ≫= λ c, (λ k, (c, k)) <$> List.filter (λ k, negb (known_name k)) (types_of c ≫= class_names).
(** one wrapper names a class that is never registered *)
Lemma table_unknown : unknown_names (calls_made steps) =
  [(method "ns3::LinuxStackHelper" "SetRoutingHelper" "void"
      [param "ns3::Ipv4RoutingHelper const &" "routing"] [], "ns3::Ipv4RoutingHelper")].
Proof. by vm_compute. Qed.

Section registration_facts.
  Context {R : Type} `{RegistryLaws R}.

Lemma main_steps : ∃ s : state R, main (R:=R) = (Ok (), s) ∧ calls s = calls_made steps ∧
  knows s (names "::ns3" steps).
Proof.
  set (s0 := mk_state (new_module "dce" "::ns3") [] : state R).
  assert (Hns : namespace (registry s0) = "::ns3") by apply namespace_new.
  destruct (run_placed (Do <$> includes) s0 []) as (s1 & Hr & Hc & Hn & Hk).
  { intros k Hin. by apply elem_of_nil in Hin. }
  { by rewrite Hns. }
  destruct (run_placed table s1 []) as (s2 & Hr2 & Hc2 & Hn2 & Hk2).
  { intros k Hin. by apply elem_of_nil in Hin. }
  { rewrite Hn, Hns. exact dce_placed. }
  exists s2. unfold main, module_init. fold s0. rewrite Hr. cbn [snd]. split; [exact Hr2|].
  unfold steps. rewrite calls_made_app, Hc2, Hc. split; [reflexivity|].
  intros k Hin. apply Hk2. rewrite Hn, Hns, app_nil_r. exact Hin.
Qed.

(** The registration of the module dce never fails to find a class, whatever registry keeps the
    laws: every class that is extended or given a constructor or a method was added by an earlier
    call, each class with methods has its default and its copy constructor, and the code is
    generated once, at the end. *)
Theorem registration_in_order :
  ∃ s : state R, main (R:=R) = (Ok (), s) ∧ calls s = calls_made steps ∧
    (∀ i st k, steps !! i = Some st → k ∈ needed st → added_before "::ns3" steps i k) ∧
    (∀ cls name r ps kw, AddMethod cls name r ps kw ∈ calls s →
       constructor cls [] ∈ calls s ∧ constructor cls [param (cls +:+ " const &") "arg0"] ∈ calls s) ∧
    ∃ l, calls s = l ++ [Generate] ∧ Generate ∉ l.
Proof.
  destruct main_steps as (s & Hs & Hc & _). exists s. split; [exact Hs|]. rewrite Hc.
  split; [reflexivity|]. split; [|split; [|exact dce_generate]].
  - intros i st k Hi Hk.
    destruct (placed_before needed "::ns3" [] _ i _ k steps_needed Hi Hk) as [Hin|Hin]; [|exact Hin].
    destruct (proj1 (elem_of_nil _) Hin).
  - intros cls name r ps kw Hin%list_elem_of_In. pose proof table_constructors as Hall.
    rewrite forallb_forall in Hall. specialize (Hall _ Hin). cbn [has_constructors] in Hall.
    apply andb_true_iff in Hall as [H1%bool_decide_eq_true H2%bool_decide_eq_true].
    split; [exact H1|exact H2].
Qed.

(** Every class of ns-3 that the type of a parameter or of a result names is known to the
    registry when the code is generated, or is an alias that was added, but for one: the class of
    the parameter of SetRoutingHelper is never registered. *)
Theorem wrapper_types_known (c : call) (t k : string) :
  c ∈ calls (main (R:=R)).2 → t ∈ types_of c → k ∈ class_names t →
  has_class (registry (main (R:=R)).2) k = true ∨ k ∈ alias_names (calls (main (R:=R)).2) ∨
  (k = "ns3::Ipv4RoutingHelper" ∧
   c = method "ns3::LinuxStackHelper" "SetRoutingHelper" "void"
         [param "ns3::Ipv4RoutingHelper const &" "routing"] []).
Proof.
  destruct main_steps as (s & Hs & Hc & Hk). rewrite Hs. cbn [snd]. rewrite Hc. intros Hin Ht Hkt.
  destruct (known_name k) eqn:Ek.
  - unfold known_name in Ek. apply orb_true_iff in Ek as [Ek|Ek].
    + left. apply Hk, LeastRegistry.mem_spec. exact Ek.
    + right; left. apply LeastRegistry.mem_spec. exact Ek.
  - right. right. assert (Hu : (c, k) ∈ unknown_names (calls_made steps)).
    { unfold unknown_names. apply list_elem_of_bind. exists c. split; [|exact Hin].
      apply list_elem_of_fmap. exists k. split; [reflexivity|]. apply list_elem_of_In, filter_In.
      split; [|rewrite Ek; reflexivity]. apply list_elem_of_In, list_elem_of_bind.
      exists t. split; [exact Hkt|exact Ht]. }
    rewrite table_unknown in Hu. apply list_elem_of_singleton in Hu. injection Hu as Hc' Hk'.
    split; [exact Hk'|exact Hc'].
Qed.
End registration_facts.
End DceModuleFacts.

(** ** The laws hold of the least registry *)
Module DceModuleExamples.
Import Pybindgen Tables DceModule LeastRegistry DceModuleFacts.

#[local] Abbreviation least_main := ((main (R:=least)).2).
Example number_of_dce_calls : length (calls least_main) = 113%nat.
Proof. by vm_compute. Qed.

(** on the least registry *)
Lemma registration_in_order_witness :
  ∃ s, main (R:=least) = (Ok (), s) ∧ has_class (registry s) "ns3::LinuxStackHelper" = true ∧
    ∃ l, calls s = l ++ [Generate] ∧ Generate ∉ l.
Proof.
  destruct (registration_in_order (R:=least)) as (s & Hs & _ & _ & _ & Hg).
  exists s. split; [exact Hs|]. split; [|exact Hg].
  change s with ((@Ok unit tt, s).2). rewrite <- Hs. vm_compute. reflexivity.
Defined.

Definition install_in_node : call :=
  method "ns3::CcnClientHelper" "InstallInNode" "ns3::ApplicationContainer"
    [borrowed "ns3::Node *" "node"] [is_virtual].
Lemma wrapper_types_known_witness :
  install_in_node ∈ calls least_main ∧
  (has_class (registry least_main) "ns3::Node" = true ∨ "ns3::Node" ∈ alias_names (calls least_main) ∨
   ("ns3::Node" = "ns3::Ipv4RoutingHelper" ∧
    install_in_node = method "ns3::LinuxStackHelper" "SetRoutingHelper" "void"
      [param "ns3::Ipv4RoutingHelper const &" "routing"] [])).
Proof.
  assert (Hin : install_in_node ∈ calls least_main).
  { apply (bool_decide_unpack _). vm_compute. exact I. }
  assert (Ht : "ns3::Node *" ∈ types_of install_in_node).
  { apply (bool_decide_unpack _). vm_compute. exact I. }
  assert (Hk : "ns3::Node" ∈ class_names "ns3::Node *").
  { apply (bool_decide_unpack _). vm_compute. exact I. }
  split; [exact Hin|]. exact (wrapper_types_known (R:=least) _ _ _ Hin Ht Hk).
Defined.
End DceModuleExamples.
