(* ===== verification/ApiTypes.v ===== *)
(** * The table of the bindings: types

    bindings/modulegen__gcc_ILP32.py: the classes, enumerations, containers, aliases and conversions
    of the module, and the modules nested in it.  [types_Address] and the definitions behind it are the
    consecutive parts of [register_types], which is long. *)
From Stdlib Require Import ZArith Ascii String.
From stdpp Require Import base list strings.
From S2P Require Import Prelude PyStr Pybindgen.

Module ApiTypes.
Import Pybindgen.

Definition register_types_ns3_FatalImpl (module : path) : list call := [].
Definition register_types_ns3_Hash_Function (module : path) : list call := [
  AddClass module "Fnv1a" [import_from_module "ns.core"; parent "ns3::Hash::Implementation"];
  AddClass module "Hash32" [import_from_module "ns.core"; parent "ns3::Hash::Implementation"];
  AddClass module "Hash64" [import_from_module "ns.core"; parent "ns3::Hash::Implementation"];
  AddClass module "Murmur3" [import_from_module "ns.core"; parent "ns3::Hash::Implementation"]].
Definition register_types_ns3_Hash (module : path) : list call := [
  AddClass module "Implementation" [import_from_module "ns.core";
    parent "ns3::SimpleRefCount< ns3::Hash::Implementation, ns3::empty, ns3::DefaultDeleter<ns3::Hash::Implementation> >"];
  AddTypeAlias "uint32_t ( * ) ( char const *, std::size_t const )"
    "ns3::Hash::Hash32Function_ptr";
  AddTypeAlias "uint32_t ( * ) ( char const *, std::size_t const )*"
    "ns3::Hash::Hash32Function_ptr*";
  AddTypeAlias "uint32_t ( * ) ( char const *, std::size_t const )&"
    "ns3::Hash::Hash32Function_ptr&";
  AddTypeAlias "uint64_t ( * ) ( char const *, std::size_t const )"
    "ns3::Hash::Hash64Function_ptr";
  AddTypeAlias "uint64_t ( * ) ( char const *, std::size_t const )*"
    "ns3::Hash::Hash64Function_ptr*";
  AddTypeAlias "uint64_t ( * ) ( char const *, std::size_t const )&"
    "ns3::Hash::Hash64Function_ptr&"] ++
  (AddCppNamespace module "Function" ::
     register_types_ns3_Hash_Function (module ++ ["Function"])).
Definition register_types_ns3_TracedValueCallback (module : path) : list call := [
  AddTypeAlias "void ( * ) ( ns3::Time, ns3::Time )" "ns3::TracedValueCallback::Time";
  AddTypeAlias "void ( * ) ( ns3::Time, ns3::Time )*" "ns3::TracedValueCallback::Time*";
  AddTypeAlias "void ( * ) ( ns3::Time, ns3::Time )&" "ns3::TracedValueCallback::Time&"].
Definition types_Address (module : path) : list call := [
  AddEnum module "ThreadState_e" ["THREAD_RUNNING"; "THREAD_ACTIVE"; "THREAD_BLOCKED";
    "THREAD_DEAD"] [];
  AddEnum module "LogLevel" ["LOG_NONE"; "LOG_ERROR"; "LOG_LEVEL_ERROR"; "LOG_WARN";
    "LOG_LEVEL_WARN"; "LOG_DEBUG"; "LOG_LEVEL_DEBUG"; "LOG_INFO"; "LOG_LEVEL_INFO";
    "LOG_FUNCTION"; "LOG_LEVEL_FUNCTION"; "LOG_LOGIC"; "LOG_LEVEL_LOGIC"; "LOG_ALL";
    "LOG_LEVEL_ALL"; "LOG_PREFIX_FUNC"; "LOG_PREFIX_TIME"; "LOG_PREFIX_NODE"; "LOG_PREFIX_LEVEL";
    "LOG_PREFIX_ALL"] [import_from_module "ns.core"];
  AddClass module "Address" [import_from_module "ns.network"];
  AddEnum module "MaxSize_e" ["MAX_SIZE"] [outer_class "ns3::Address";
    import_from_module "ns.network"];
  AddClass module "ApplicationContainer" [import_from_module "ns.network"];
  AddTypeAlias "std::vector< ns3::Ptr< ns3::Application > > const_iterator"
    "ns3::ApplicationContainer::Iterator";
  AddTypeAlias "std::vector< ns3::Ptr< ns3::Application > > const_iterator*"
    "ns3::ApplicationContainer::Iterator*";
  AddTypeAlias "std::vector< ns3::Ptr< ns3::Application > > const_iterator&"
    "ns3::ApplicationContainer::Iterator&";
  AddClass module "AtExitHandler" [];
  AddEnum module "" ["NORMAL"; "CXA"] [outer_class "ns3::AtExitHandler"];
  AddClass module "AttributeConstructionList" [import_from_module "ns.core"];
  AddClass module "Item" [import_from_module "ns.core";
    outer_class "ns3::AttributeConstructionList"];
  AddTypeAlias "std::list< ns3::AttributeConstructionList::Item > const_iterator"
    "ns3::AttributeConstructionList::CIterator";
  AddTypeAlias "std::list< ns3::AttributeConstructionList::Item > const_iterator*"
    "ns3::AttributeConstructionList::CIterator*";
  AddTypeAlias "std::list< ns3::AttributeConstructionList::Item > const_iterator&"
    "ns3::AttributeConstructionList::CIterator&";
  AddClass module "Buffer" [import_from_module "ns.network"];
  AddClass module "Iterator" [import_from_module "ns.network"; outer_class "ns3::Buffer"];
  AddClass module "ByteTagIterator" [import_from_module "ns.network"];
  AddClass module "Item" [import_from_module "ns.network"; outer_class "ns3::ByteTagIterator"];
  AddClass module "ByteTagList" [import_from_module "ns.network"];
  AddClass module "Iterator" [import_from_module "ns.network"; outer_class "ns3::ByteTagList"];
  AddClass module "Item" [import_from_module "ns.network";
    outer_class "ns3::ByteTagList::Iterator"];
  AddClass module "CallbackBase" [import_from_module "ns.core"];
  AddClass module "Condition" [];
  AddClass module "DceApplicationHelper" [("allow_subclassing", VBool true)];
  AddClass module "DefaultDeleter" [import_from_module "ns.core";
    template_parameters ["ns3::AttributeAccessor"]];
  AddClass module "DefaultDeleter" [import_from_module "ns.core";
    template_parameters ["ns3::AttributeChecker"]];
  AddClass module "DefaultDeleter" [import_from_module "ns.core";
    template_parameters ["ns3::AttributeValue"]];
  AddClass module "DefaultDeleter" [import_from_module "ns.core";
    template_parameters ["ns3::CallbackImplBase"]];
  AddClass module "DefaultDeleter" [import_from_module "ns.core";
    template_parameters ["ns3::EventImpl"]];
  AddClass module "DefaultDeleter" [import_from_module "ns.core";
    template_parameters ["ns3::Hash::Implementation"]];
  AddClass module "DefaultDeleter" [import_from_module "ns.core";
    template_parameters ["ns3::NixVector"]];
  AddClass module "DefaultDeleter" [import_from_module "ns.core";
    template_parameters ["ns3::Packet"]];
  AddClass module "DefaultDeleter" [import_from_module "ns.core";
    template_parameters ["ns3::TraceSourceAccessor"]];
  AddClass module "EventId" [import_from_module "ns.core"];
  AddClass module "FreeBSDStackHelper" [];
  AddClass module "Hasher" [import_from_module "ns.core"];
  AddClass module "Inet6SocketAddress" [import_from_module "ns.network"];
  ImplicitlyConverts "ns3::Inet6SocketAddress" "ns3::Address";
  AddClass module "InetSocketAddress" [import_from_module "ns.network"];
  ImplicitlyConverts "ns3::InetSocketAddress" "ns3::Address";
  AddClass module "Ipv4Address" [import_from_module "ns.network"];
  ImplicitlyConverts "ns3::Ipv4Address" "ns3::Address";
  AddClass module "Ipv4AddressHash" [import_from_module "ns.network"];
  AddClass module "Ipv4InterfaceAddress" [import_from_module "ns.internet"];
  AddEnum module "InterfaceAddressScope_e" ["HOST"; "LINK"; "GLOBAL"]
    [outer_class "ns3::Ipv4InterfaceAddress"; import_from_module "ns.internet"];
  AddClass module "Ipv4Mask" [import_from_module "ns.network"];
  AddClass module "Ipv4RoutingHelper" [("allow_subclassing", VBool true);
    import_from_module "ns.internet"];
  AddClass module "Ipv4StaticRoutingHelper" [import_from_module "ns.internet";
    parent "ns3::Ipv4RoutingHelper"];
  AddClass module "Ipv6Address" [import_from_module "ns.network"];
  ImplicitlyConverts "ns3::Ipv6Address" "ns3::Address";
  AddClass module "Ipv6AddressHash" [import_from_module "ns.network"];
  AddClass module "Ipv6InterfaceAddress" [import_from_module "ns.internet"];
  AddEnum module "State_e" ["TENTATIVE"; "DEPRECATED"; "PREFERRED"; "PERMANENT"; "HOMEADDRESS";
    "TENTATIVE_OPTIMISTIC"; "INVALID"] [outer_class "ns3::Ipv6InterfaceAddress";
    import_from_module "ns.internet"];
  AddEnum module "Scope_e" ["HOST"; "LINKLOCAL"; "GLOBAL"]
    [outer_class "ns3::Ipv6InterfaceAddress"; import_from_module "ns.internet"];
  AddClass module "Ipv6Prefix" [import_from_module "ns.network"];
  AddClass module "LinuxStackHelper" [];
  AddClass module "Loader" [("allow_subclassing", VBool true)];
  AddClass module "LogComponent" [import_from_module "ns.core"];
  AddTypeAlias "std::map< std::string, ns3::LogComponent * >" "ns3::LogComponent::ComponentList";
  AddTypeAlias "std::map< std::string, ns3::LogComponent * >*" "ns3::LogComponent::ComponentList*";
  AddTypeAlias "std::map< std::string, ns3::LogComponent * >&" "ns3::LogComponent::ComponentList&";
  AddClass module "Mac48Address" [import_from_module "ns.network"];
  AddTypeAlias "void ( * ) ( ns3::Mac48Address )" "ns3::Mac48Address::TracedCallback";
  AddTypeAlias "void ( * ) ( ns3::Mac48Address )*" "ns3::Mac48Address::TracedCallback*";
  AddTypeAlias "void ( * ) ( ns3::Mac48Address )&" "ns3::Mac48Address::TracedCallback&";
  ImplicitlyConverts "ns3::Mac48Address" "ns3::Address";
  AddClass module "Mac8Address" [import_from_module "ns.network"];
  ImplicitlyConverts "ns3::Mac8Address" "ns3::Address";
  AddClass module "Mutex" [];
  AddEnum module "" ["NORMAL"; "RECURSIVE"] [outer_class "ns3::Mutex"];
  AddClass module "NetDeviceContainer" [import_from_module "ns.network"];
  AddTypeAlias "std::vector< ns3::Ptr< ns3::NetDevice > > const_iterator"
    "ns3::NetDeviceContainer::Iterator";
  AddTypeAlias "std::vector< ns3::Ptr< ns3::NetDevice > > const_iterator*"
    "ns3::NetDeviceContainer::Iterator*";
  AddTypeAlias "std::vector< ns3::Ptr< ns3::NetDevice > > const_iterator&"
    "ns3::NetDeviceContainer::Iterator&";
  AddClass module "NodeContainer" [import_from_module "ns.network"];
  AddTypeAlias "std::vector< ns3::Ptr< ns3::Node > > const_iterator"
    "ns3::NodeContainer::Iterator";
  AddTypeAlias "std::vector< ns3::Ptr< ns3::Node > > const_iterator*"
    "ns3::NodeContainer::Iterator*";
  AddTypeAlias "std::vector< ns3::Ptr< ns3::Node > > const_iterator&"
    "ns3::NodeContainer::Iterator&";
  AddClass module "ObjectBase" [("allow_subclassing", VBool true); import_from_module "ns.core"];
  AddClass module "ObjectDeleter" [import_from_module "ns.core"];
  AddClass module "ObjectFactory" [import_from_module "ns.core"]].
Definition types_PacketMetadata (module : path) : list call := [
  AddClass module "PacketMetadata" [import_from_module "ns.network"];
  AddClass module "Item" [import_from_module "ns.network"; outer_class "ns3::PacketMetadata"];
  AddEnum module "ItemType" ["PAYLOAD"; "HEADER"; "TRAILER"]
    [outer_class "ns3::PacketMetadata::Item"; import_from_module "ns.network"];
  AddClass module "ItemIterator" [import_from_module "ns.network";
    outer_class "ns3::PacketMetadata"];
  AddClass module "PacketTagIterator" [import_from_module "ns.network"];
  AddClass module "Item" [import_from_module "ns.network"; outer_class "ns3::PacketTagIterator"];
  AddClass module "PacketTagList" [import_from_module "ns.network"];
  AddClass module "TagData" [import_from_module "ns.network"; outer_class "ns3::PacketTagList"];
  AddClass module "ParameterLogger" [import_from_module "ns.core"];
  AddClass module "PollTableEntry" [("allow_subclassing", VBool true)];
  AddClass module "PollTableEntryLinux" [parent "ns3::PollTableEntry"];
  AddClass module "ProcStatus" [];
  AddClass module "Process" [];
  AddClass module "ProcessActivity" [];
  AddClass module "SearchPath" [];
  AddClass module "Semaphore" [];
  AddClass module "SignalHandler" [];
  AddClass module "SimpleRefCount" [("automatic_type_narrowing", VBool true);
    import_from_module "ns.core"; ("memory_policy", VPolicy "Ref" "Unref" "GetReferenceCount");
    parent "ns3::ObjectBase"; template_parameters ["ns3::Object"; "ns3::ObjectBase";
    "ns3::ObjectDeleter"]];
  AddClass module "Simulator" [("destructor_visibility", VStr "private");
    import_from_module "ns.core"];
  AddEnum module "" ["NO_CONTEXT"] [outer_class "ns3::Simulator"; import_from_module "ns.core"];
  AddClass module "Sleeper" [];
  AddClass module "Tag" [import_from_module "ns.network"; parent "ns3::ObjectBase"];
  AddClass module "TagBuffer" [import_from_module "ns.network"];
  AddClass module "Task" [("destructor_visibility", VStr "private")];
  AddEnum module "SwitchType" ["TO"; "FROM"] [outer_class "ns3::Task"];
  AddClass module "Thread" [];
  AddClass module "ThreadKeyValue" [];
  AddClass module "Time" [import_from_module "ns.core"];
  AddEnum module "Unit" ["Y"; "D"; "H"; "MIN"; "S"; "MS"; "US"; "NS"; "PS"; "FS"; "LAST"; "AUTO"]
    [outer_class "ns3::Time"; import_from_module "ns.core"];
  AddTypeAlias "void ( * ) ( ns3::Time )" "ns3::Time::TracedCallback";
  AddTypeAlias "void ( * ) ( ns3::Time )*" "ns3::Time::TracedCallback*";
  AddTypeAlias "void ( * ) ( ns3::Time )&" "ns3::Time::TracedCallback&";
  AddClass module "TimeWithUnit" [import_from_module "ns.core"];
  AddClass module "TypeId" [import_from_module "ns.core"];
  AddEnum module "AttributeFlag" ["ATTR_GET"; "ATTR_SET"; "ATTR_CONSTRUCT"; "ATTR_SGC"]
    [outer_class "ns3::TypeId"; import_from_module "ns.core"];
  AddEnum module "SupportLevel" ["SUPPORTED"; "DEPRECATED"; "OBSOLETE"]
    [outer_class "ns3::TypeId"; import_from_module "ns.core"];
  AddClass module "AttributeInformation" [import_from_module "ns.core"; outer_class "ns3::TypeId"];
  AddClass module "TraceSourceInformation" [import_from_module "ns.core";
    outer_class "ns3::TypeId"];
  AddTypeAlias "uint32_t" "ns3::TypeId::hash_t";
  AddTypeAlias "uint32_t*" "ns3::TypeId::hash_t*";
  AddTypeAlias "uint32_t&" "ns3::TypeId::hash_t&";
  AddClass module "WaitPoint" [];
  AddEnum module "Result" ["INTERRUPTED"; "TIMEOUT"; "OK"] [outer_class "ns3::WaitPoint"];
  AddTypeAlias "ns3::WaitPoint::Result" "ns3::WaitPoint::Result";
  AddTypeAlias "ns3::WaitPoint::Result*" "ns3::WaitPoint::Result*";
  AddTypeAlias "ns3::WaitPoint::Result&" "ns3::WaitPoint::Result&";
  AddClass module "WaitQueueEntry" [("allow_subclassing", VBool true)];
  AddClass module "WaitQueueEntryPoll" [parent "ns3::WaitQueueEntry"];
  AddClass module "WaitQueueEntryTimeout" [("parent", VClasses ["ns3::WaitQueueEntry";
    "ns3::WaitPoint"])];
  AddClass module "empty" [import_from_module "ns.core"];
  AddClass module "int64x64_t" [import_from_module "ns.core"];
  AddEnum module "impl_type" ["int128_impl"; "cairo_impl"; "ld_impl"]
    [outer_class "ns3::int64x64_t"; import_from_module "ns.core"];
  AddClass module "CcnClientHelper" [parent "ns3::DceApplicationHelper"];
  AddClass module "Chunk" [import_from_module "ns.network"; parent "ns3::ObjectBase"];
  AddClass module "Header" [import_from_module "ns.network"; parent "ns3::Chunk"];
  AddClass module "Ipv4DceRoutingHelper" [parent "ns3::Ipv4StaticRoutingHelper"];
  AddClass module "Ipv4Header" [import_from_module "ns.internet"; parent "ns3::Header"];
  AddEnum module "DscpType" ["DscpDefault"; "DSCP_CS1"; "DSCP_AF11"; "DSCP_AF12"; "DSCP_AF13";
    "DSCP_CS2"; "DSCP_AF21"; "DSCP_AF22"; "DSCP_AF23"; "DSCP_CS3"; "DSCP_AF31"; "DSCP_AF32";
    "DSCP_AF33"; "DSCP_CS4"; "DSCP_AF41"; "DSCP_AF42"; "DSCP_AF43"; "DSCP_CS5"; "DSCP_EF";
    "DSCP_CS6"; "DSCP_CS7"] [outer_class "ns3::Ipv4Header"; import_from_module "ns.internet"];
  AddEnum module "EcnType" ["ECN_NotECT"; "ECN_ECT1"; "ECN_ECT0"; "ECN_CE"]
    [outer_class "ns3::Ipv4Header"; import_from_module "ns.internet"];
  AddClass module "Ipv6Header" [import_from_module "ns.internet"; parent "ns3::Header"];
  AddEnum module "DscpType" ["DscpDefault"; "DSCP_CS1"; "DSCP_AF11"; "DSCP_AF12"; "DSCP_AF13";
    "DSCP_CS2"; "DSCP_AF21"; "DSCP_AF22"; "DSCP_AF23"; "DSCP_CS3"; "DSCP_AF31"; "DSCP_AF32";
    "DSCP_AF33"; "DSCP_CS4"; "DSCP_AF41"; "DSCP_AF42"; "DSCP_AF43"; "DSCP_CS5"; "DSCP_EF";
    "DSCP_CS6"; "DSCP_CS7"] [outer_class "ns3::Ipv6Header"; import_from_module "ns.internet"];
  AddEnum module "NextHeader_e" ["IPV6_EXT_HOP_BY_HOP"; "IPV6_IPV4"; "IPV6_TCP"; "IPV6_UDP";
    "IPV6_IPV6"; "IPV6_EXT_ROUTING"; "IPV6_EXT_FRAGMENTATION"; "IPV6_EXT_CONFIDENTIALITY";
    "IPV6_EXT_AUTHENTIFICATION"; "IPV6_ICMPV6"; "IPV6_EXT_END"; "IPV6_EXT_DESTINATION";
    "IPV6_SCTP"; "IPV6_EXT_MOBILITY"; "IPV6_UDP_LITE"] [outer_class "ns3::Ipv6Header";
    import_from_module "ns.internet"];
  AddEnum module "EcnType" ["ECN_NotECT"; "ECN_ECT1"; "ECN_ECT0"; "ECN_CE"]
    [outer_class "ns3::Ipv6Header"; import_from_module "ns.internet"];
  AddClass module "Object" [import_from_module "ns.core";
    parent "ns3::SimpleRefCount< ns3::Object, ns3::ObjectBase, ns3::ObjectDeleter >"];
  AddClass module "AggregateIterator" [import_from_module "ns.core"; outer_class "ns3::Object"];
  AddClass module "PollTable" [parent "ns3::WaitPoint"];
  AddClass module "ProcessDelayModel" [parent "ns3::Object"];
  AddClass module "RandomProcessDelayModel" [parent "ns3::ProcessDelayModel"];
  AddClass module "RandomVariableStream" [import_from_module "ns.core"; parent "ns3::Object"];
  AddClass module "SequentialRandomVariable" [import_from_module "ns.core";
    parent "ns3::RandomVariableStream"];
  AddClass module "SimpleRefCount" [("automatic_type_narrowing", VBool true);
    import_from_module "ns.core"; ("memory_policy", VPolicy "Ref" "Unref" "GetReferenceCount");
    parent "ns3::empty"; template_parameters ["ns3::AttributeAccessor"; "ns3::empty";
    "ns3::DefaultDeleter<ns3::AttributeAccessor>"]];
  AddClass module "SimpleRefCount" [("automatic_type_narrowing", VBool true);
    import_from_module "ns.core"; ("memory_policy", VPolicy "Ref" "Unref" "GetReferenceCount");
    parent "ns3::empty"; template_parameters ["ns3::AttributeChecker"; "ns3::empty";
    "ns3::DefaultDeleter<ns3::AttributeChecker>"]];
  AddClass module "SimpleRefCount" [("automatic_type_narrowing", VBool true);
    import_from_module "ns.core"; ("memory_policy", VPolicy "Ref" "Unref" "GetReferenceCount");
    parent "ns3::empty"; template_parameters ["ns3::AttributeValue"; "ns3::empty";
    "ns3::DefaultDeleter<ns3::AttributeValue>"]];
  AddClass module "SimpleRefCount" [("automatic_type_narrowing", VBool true);
    import_from_module "ns.core"; ("memory_policy", VPolicy "Ref" "Unref" "GetReferenceCount");
    parent "ns3::empty"; template_parameters ["ns3::CallbackImplBase"; "ns3::empty";
    "ns3::DefaultDeleter<ns3::CallbackImplBase>"]];
  AddClass module "SimpleRefCount" [("automatic_type_narrowing", VBool true);
    import_from_module "ns.core"; ("memory_policy", VPolicy "Ref" "Unref" "GetReferenceCount");
    parent "ns3::empty"; template_parameters ["ns3::EventImpl"; "ns3::empty";
    "ns3::DefaultDeleter<ns3::EventImpl>"]];
  AddClass module "SimpleRefCount" [("automatic_type_narrowing", VBool true);
    import_from_module "ns.core"; ("memory_policy", VPolicy "Ref" "Unref" "GetReferenceCount");
    parent "ns3::empty"; template_parameters ["ns3::Hash::Implementation"; "ns3::empty";
    "ns3::DefaultDeleter<ns3::Hash::Implementation>"]];
  AddClass module "SimpleRefCount" [("automatic_type_narrowing", VBool true);
    import_from_module "ns.core"; ("memory_policy", VPolicy "Ref" "Unref" "GetReferenceCount");
    parent "ns3::empty"; template_parameters ["ns3::Ipv4MulticastRoute"; "ns3::empty";
    "ns3::DefaultDeleter<ns3::Ipv4MulticastRoute>"]]].
Definition types_SimpleRefCount (module : path) : list call := [
  AddClass module "SimpleRefCount" [("automatic_type_narrowing", VBool true);
    import_from_module "ns.core"; ("memory_policy", VPolicy "Ref" "Unref" "GetReferenceCount");
    parent "ns3::empty"; template_parameters ["ns3::Ipv4Route"; "ns3::empty";
    "ns3::DefaultDeleter<ns3::Ipv4Route>"]];
  AddClass module "SimpleRefCount" [("automatic_type_narrowing", VBool true);
    import_from_module "ns.core"; ("memory_policy", VPolicy "Ref" "Unref" "GetReferenceCount");
    parent "ns3::empty"; template_parameters ["ns3::NixVector"; "ns3::empty";
    "ns3::DefaultDeleter<ns3::NixVector>"]];
  AddClass module "SimpleRefCount" [("automatic_type_narrowing", VBool true);
    import_from_module "ns.core"; ("memory_policy", VPolicy "Ref" "Unref" "GetReferenceCount");
    parent "ns3::empty"; template_parameters ["ns3::OutputStreamWrapper"; "ns3::empty";
    "ns3::DefaultDeleter<ns3::OutputStreamWrapper>"]];
  AddClass module "SimpleRefCount" [("automatic_type_narrowing", VBool true);
    import_from_module "ns.core"; ("memory_policy", VPolicy "Ref" "Unref" "GetReferenceCount");
    parent "ns3::empty"; template_parameters ["ns3::Packet"; "ns3::empty";
    "ns3::DefaultDeleter<ns3::Packet>"]];
  AddClass module "SimpleRefCount" [("automatic_type_narrowing", VBool true);
    import_from_module "ns.core"; ("memory_policy", VPolicy "Ref" "Unref" "GetReferenceCount");
    parent "ns3::empty"; template_parameters ["ns3::TraceSourceAccessor"; "ns3::empty";
    "ns3::DefaultDeleter<ns3::TraceSourceAccessor>"]];
  AddClass module "Socket" [import_from_module "ns.network"; parent "ns3::Object"];
  AddEnum module "SocketErrno" ["ERROR_NOTERROR"; "ERROR_ISCONN"; "ERROR_NOTCONN";
    "ERROR_MSGSIZE"; "ERROR_AGAIN"; "ERROR_SHUTDOWN"; "ERROR_OPNOTSUPP"; "ERROR_AFNOSUPPORT";
    "ERROR_INVAL"; "ERROR_BADF"; "ERROR_NOROUTETOHOST"; "ERROR_NODEV"; "ERROR_ADDRNOTAVAIL";
    "ERROR_ADDRINUSE"; "SOCKET_ERRNO_LAST"] [outer_class "ns3::Socket";
    import_from_module "ns.network"];
  AddEnum module "SocketType" ["NS3_SOCK_STREAM"; "NS3_SOCK_SEQPACKET"; "NS3_SOCK_DGRAM";
    "NS3_SOCK_RAW"] [outer_class "ns3::Socket"; import_from_module "ns.network"];
  AddEnum module "SocketPriority" ["NS3_PRIO_BESTEFFORT"; "NS3_PRIO_FILLER"; "NS3_PRIO_BULK";
    "NS3_PRIO_INTERACTIVE_BULK"; "NS3_PRIO_INTERACTIVE"; "NS3_PRIO_CONTROL"]
    [outer_class "ns3::Socket"; import_from_module "ns.network"];
  AddEnum module "Ipv6MulticastFilterMode" ["INCLUDE"; "EXCLUDE"] [outer_class "ns3::Socket";
    import_from_module "ns.network"];
  AddClass module "SocketFactory" [import_from_module "ns.network"; parent "ns3::Object"];
  AddClass module "SocketFdFactory" [parent "ns3::Object"];
  AddClass module "SocketIpTosTag" [import_from_module "ns.network"; parent "ns3::Tag"];
  AddClass module "SocketIpTtlTag" [import_from_module "ns.network"; parent "ns3::Tag"];
  AddClass module "SocketIpv6HopLimitTag" [import_from_module "ns.network"; parent "ns3::Tag"];
  AddClass module "SocketIpv6TclassTag" [import_from_module "ns.network"; parent "ns3::Tag"];
  AddClass module "SocketPriorityTag" [import_from_module "ns.network"; parent "ns3::Tag"];
  AddClass module "SocketSetDontFragmentTag" [import_from_module "ns.network"; parent "ns3::Tag"];
  AddClass module "TaskManager" [parent "ns3::Object"];
  AddClass module "TaskScheduler" [parent "ns3::Object"];
  AddClass module "TimeOfDayProcessDelayModel" [parent "ns3::ProcessDelayModel"];
  AddClass module "TraceSourceAccessor" [import_from_module "ns.core";
    parent "ns3::SimpleRefCount< ns3::TraceSourceAccessor, ns3::empty, ns3::DefaultDeleter<ns3::TraceSourceAccessor> >"];
  AddClass module "Trailer" [import_from_module "ns.network"; parent "ns3::Chunk"];
  AddClass module "TriangularRandomVariable" [import_from_module "ns.core";
    parent "ns3::RandomVariableStream"];
  AddClass module "UniformRandomVariable" [import_from_module "ns.core";
    parent "ns3::RandomVariableStream"];
  AddClass module "UnixFd" [parent "ns3::Object"];
  AddClass module "WeibullRandomVariable" [import_from_module "ns.core";
    parent "ns3::RandomVariableStream"];
  AddClass module "ZetaRandomVariable" [import_from_module "ns.core";
    parent "ns3::RandomVariableStream"];
  AddClass module "ZipfRandomVariable" [import_from_module "ns.core";
    parent "ns3::RandomVariableStream"];
  AddClass module "Application" [import_from_module "ns.network"; parent "ns3::Object"];
  AddTypeAlias "void ( * ) ( ns3::Time const &, ns3::Address const & )"
    "ns3::Application::DelayAddressCallback";
  AddTypeAlias "void ( * ) ( ns3::Time const &, ns3::Address const & )*"
    "ns3::Application::DelayAddressCallback*";
  AddTypeAlias "void ( * ) ( ns3::Time const &, ns3::Address const & )&"
    "ns3::Application::DelayAddressCallback&";
  AddTypeAlias "void ( * ) ( std::string const &, std::string const & )"
    "ns3::Application::StateTransitionCallback";
  AddTypeAlias "void ( * ) ( std::string const &, std::string const & )*"
    "ns3::Application::StateTransitionCallback*";
  AddTypeAlias "void ( * ) ( std::string const &, std::string const & )&"
    "ns3::Application::StateTransitionCallback&";
  AddClass module "AttributeAccessor" [import_from_module "ns.core";
    parent "ns3::SimpleRefCount< ns3::AttributeAccessor, ns3::empty, ns3::DefaultDeleter<ns3::AttributeAccessor> >"];
  AddClass module "AttributeChecker" [("allow_subclassing", VBool false);
    ("automatic_type_narrowing", VBool true); import_from_module "ns.core";
    parent "ns3::SimpleRefCount< ns3::AttributeChecker, ns3::empty, ns3::DefaultDeleter<ns3::AttributeChecker> >"];
  AddClass module "AttributeValue" [("allow_subclassing", VBool false);
    ("automatic_type_narrowing", VBool true); import_from_module "ns.core";
    parent "ns3::SimpleRefCount< ns3::AttributeValue, ns3::empty, ns3::DefaultDeleter<ns3::AttributeValue> >"];
  AddClass module "CallbackChecker" [import_from_module "ns.core"; parent "ns3::AttributeChecker"];
  AddClass module "CallbackImplBase" [import_from_module "ns.core";
    parent "ns3::SimpleRefCount< ns3::CallbackImplBase, ns3::empty, ns3::DefaultDeleter<ns3::CallbackImplBase> >"];
  AddClass module "CallbackValue" [import_from_module "ns.core"; parent "ns3::AttributeValue"];
  AddClass module "ConstantRandomVariable" [import_from_module "ns.core";
    parent "ns3::RandomVariableStream"];
  AddClass module "DceApplication" [parent "ns3::Application"];
  AddClass module "DceManager" [parent "ns3::Object"];
  AddEnum module "ProcessEndCause" ["PEC_EXIT"; "PEC_NS3_END"; "PEC_NS3_STOP"]
    [outer_class "ns3::DceManager"];
  AddTypeAlias
    "ns3::Callback< void, ns3::empty, ns3::empty, ns3::empty, ns3::empty, ns3::empty, ns3::empty, ns3::empty, ns3::empty, ns3::empty >"
    "ns3::DceManager::Runnable";
  AddTypeAlias
    "ns3::Callback< void, ns3::empty, ns3::empty, ns3::empty, ns3::empty, ns3::empty, ns3::empty, ns3::empty, ns3::empty, ns3::empty >*"
    "ns3::DceManager::Runnable*";
  AddTypeAlias
    "ns3::Callback< void, ns3::empty, ns3::empty, ns3::empty, ns3::empty, ns3::empty, ns3::empty, ns3::empty, ns3::empty, ns3::empty >&"
    "ns3::DceManager::Runnable&";
  AddTypeAlias "ns3::DceManager::ProcessEndCause" "ns3::DceManager::ProcessEndCause";
  AddTypeAlias "ns3::DceManager::ProcessEndCause*" "ns3::DceManager::ProcessEndCause*";
  AddTypeAlias "ns3::DceManager::ProcessEndCause&" "ns3::DceManager::ProcessEndCause&";
  AddClass module "DceManagerHelper" [parent "ns3::Object"];
  AddClass module "DeterministicRandomVariable" [import_from_module "ns.core";
    parent "ns3::RandomVariableStream"];
  AddClass module "EmpiricalRandomVariable" [import_from_module "ns.core";
    parent "ns3::RandomVariableStream"];
  AddClass module "EmptyAttributeAccessor" [import_from_module "ns.core";
    parent "ns3::AttributeAccessor"];
  AddClass module "EmptyAttributeChecker" [import_from_module "ns.core";
    parent "ns3::AttributeChecker"];
  AddClass module "EmptyAttributeValue" [import_from_module "ns.core";
    parent "ns3::AttributeValue"];
  AddClass module "ErlangRandomVariable" [import_from_module "ns.core";
    parent "ns3::RandomVariableStream"];
  AddClass module "EventImpl" [import_from_module "ns.core";
    parent "ns3::SimpleRefCount< ns3::EventImpl, ns3::empty, ns3::DefaultDeleter<ns3::EventImpl> >"];
  AddClass module "ExponentialRandomVariable" [import_from_module "ns.core";
    parent "ns3::RandomVariableStream"];
  AddClass module "GammaRandomVariable" [import_from_module "ns.core";
    parent "ns3::RandomVariableStream"];
  AddClass module "IpL4Protocol" [import_from_module "ns.internet"; parent "ns3::Object"];
  AddEnum module "RxStatus" ["RX_OK"; "RX_CSUM_FAILED"; "RX_ENDPOINT_CLOSED";
    "RX_ENDPOINT_UNREACH"] [outer_class "ns3::IpL4Protocol"; import_from_module "ns.internet"];
  AddTypeAlias
    "ns3::Callback< void, ns3::Ptr< ns3::Packet >, ns3::Ipv4Address, ns3::Ipv4Address, unsigned char, ns3::Ptr< ns3::Ipv4Route >, ns3::empty, ns3::empty, ns3::empty, ns3::empty >"
    "ns3::IpL4Protocol::DownTargetCallback";
  AddTypeAlias
    "ns3::Callback< void, ns3::Ptr< ns3::Packet >, ns3::Ipv4Address, ns3::Ipv4Address, unsigned char, ns3::Ptr< ns3::Ipv4Route >, ns3::empty, ns3::empty, ns3::empty, ns3::empty >*"
    "ns3::IpL4Protocol::DownTargetCallback*";
  AddTypeAlias
    "ns3::Callback< void, ns3::Ptr< ns3::Packet >, ns3::Ipv4Address, ns3::Ipv4Address, unsigned char, ns3::Ptr< ns3::Ipv4Route >, ns3::empty, ns3::empty, ns3::empty, ns3::empty >&"
    "ns3::IpL4Protocol::DownTargetCallback&";
  AddTypeAlias
    "ns3::Callback< void, ns3::Ptr< ns3::Packet >, ns3::Ipv6Address, ns3::Ipv6Address, unsigned char, ns3::Ptr< ns3::Ipv6Route >, ns3::empty, ns3::empty, ns3::empty, ns3::empty >"
    "ns3::IpL4Protocol::DownTargetCallback6";
  AddTypeAlias
    "ns3::Callback< void, ns3::Ptr< ns3::Packet >, ns3::Ipv6Address, ns3::Ipv6Address, unsigned char, ns3::Ptr< ns3::Ipv6Route >, ns3::empty, ns3::empty, ns3::empty, ns3::empty >*"
    "ns3::IpL4Protocol::DownTargetCallback6*";
  AddTypeAlias
    "ns3::Callback< void, ns3::Ptr< ns3::Packet >, ns3::Ipv6Address, ns3::Ipv6Address, unsigned char, ns3::Ptr< ns3::Ipv6Route >, ns3::empty, ns3::empty, ns3::empty, ns3::empty >&"
    "ns3::IpL4Protocol::DownTargetCallback6&";
  AddClass module "Ipv4" [import_from_module "ns.internet"; parent "ns3::Object"];
  AddClass module "Ipv4AddressChecker" [import_from_module "ns.network";
    parent "ns3::AttributeChecker"];
  AddClass module "Ipv4AddressValue" [import_from_module "ns.network";
    parent "ns3::AttributeValue"];
  AddClass module "Ipv4FreeBSD" [parent "ns3::Ipv4"];
  AddClass module "Ipv4Linux" [parent "ns3::Ipv4"];
  AddClass module "Ipv4MaskChecker" [import_from_module "ns.network";
    parent "ns3::AttributeChecker"];
  AddClass module "Ipv4MaskValue" [import_from_module "ns.network"; parent "ns3::AttributeValue"];
  AddClass module "Ipv4MulticastRoute" [import_from_module "ns.internet";
    parent "ns3::SimpleRefCount< ns3::Ipv4MulticastRoute, ns3::empty, ns3::DefaultDeleter<ns3::Ipv4MulticastRoute> >"];
  AddClass module "Ipv4Route" [import_from_module "ns.internet";
    parent "ns3::SimpleRefCount< ns3::Ipv4Route, ns3::empty, ns3::DefaultDeleter<ns3::Ipv4Route> >"];
  AddClass module "Ipv4RoutingProtocol" [import_from_module "ns.internet"; parent "ns3::Object"];
  AddTypeAlias
    "ns3::Callback< void, ns3::Ptr< ns3::Ipv4Route >, ns3::Ptr< ns3::Packet const >, ns3::Ipv4Header const &, ns3::empty, ns3::empty, ns3::empty, ns3::empty, ns3::empty, ns3::empty >"
    "ns3::Ipv4RoutingProtocol::UnicastForwardCallback";
  AddTypeAlias
    "ns3::Callback< void, ns3::Ptr< ns3::Ipv4Route >, ns3::Ptr< ns3::Packet const >, ns3::Ipv4Header const &, ns3::empty, ns3::empty, ns3::empty, ns3::empty, ns3::empty, ns3::empty >*"
    "ns3::Ipv4RoutingProtocol::UnicastForwardCallback*";
  AddTypeAlias
    "ns3::Callback< void, ns3::Ptr< ns3::Ipv4Route >, ns3::Ptr< ns3::Packet const >, ns3::Ipv4Header const &, ns3::empty, ns3::empty, ns3::empty, ns3::empty, ns3::empty, ns3::empty >&"
    "ns3::Ipv4RoutingProtocol::UnicastForwardCallback&";
  AddTypeAlias
    "ns3::Callback< void, ns3::Ptr< ns3::Ipv4MulticastRoute >, ns3::Ptr< ns3::Packet const >, ns3::Ipv4Header const &, ns3::empty, ns3::empty, ns3::empty, ns3::empty, ns3::empty, ns3::empty >"
    "ns3::Ipv4RoutingProtocol::MulticastForwardCallback"].
Definition types_Ipv4StaticRouting (module : path) : list call := [
  AddTypeAlias
    "ns3::Callback< void, ns3::Ptr< ns3::Ipv4MulticastRoute >, ns3::Ptr< ns3::Packet const >, ns3::Ipv4Header const &, ns3::empty, ns3::empty, ns3::empty, ns3::empty, ns3::empty, ns3::empty >*"
    "ns3::Ipv4RoutingProtocol::MulticastForwardCallback*";
  AddTypeAlias
    "ns3::Callback< void, ns3::Ptr< ns3::Ipv4MulticastRoute >, ns3::Ptr< ns3::Packet const >, ns3::Ipv4Header const &, ns3::empty, ns3::empty, ns3::empty, ns3::empty, ns3::empty, ns3::empty >&"
    "ns3::Ipv4RoutingProtocol::MulticastForwardCallback&";
  AddTypeAlias
    "ns3::Callback< void, ns3::Ptr< ns3::Packet const >, ns3::Ipv4Header const &, unsigned int, ns3::empty, ns3::empty, ns3::empty, ns3::empty, ns3::empty, ns3::empty >"
    "ns3::Ipv4RoutingProtocol::LocalDeliverCallback";
  AddTypeAlias
    "ns3::Callback< void, ns3::Ptr< ns3::Packet const >, ns3::Ipv4Header const &, unsigned int, ns3::empty, ns3::empty, ns3::empty, ns3::empty, ns3::empty, ns3::empty >*"
    "ns3::Ipv4RoutingProtocol::LocalDeliverCallback*";
  AddTypeAlias
    "ns3::Callback< void, ns3::Ptr< ns3::Packet const >, ns3::Ipv4Header const &, unsigned int, ns3::empty, ns3::empty, ns3::empty, ns3::empty, ns3::empty, ns3::empty >&"
    "ns3::Ipv4RoutingProtocol::LocalDeliverCallback&";
  AddTypeAlias
    "ns3::Callback< void, ns3::Ptr< ns3::Packet const >, ns3::Ipv4Header const &, ns3::Socket::SocketErrno, ns3::empty, ns3::empty, ns3::empty, ns3::empty, ns3::empty, ns3::empty >"
    "ns3::Ipv4RoutingProtocol::ErrorCallback";
  AddTypeAlias
    "ns3::Callback< void, ns3::Ptr< ns3::Packet const >, ns3::Ipv4Header const &, ns3::Socket::SocketErrno, ns3::empty, ns3::empty, ns3::empty, ns3::empty, ns3::empty, ns3::empty >*"
    "ns3::Ipv4RoutingProtocol::ErrorCallback*";
  AddTypeAlias
    "ns3::Callback< void, ns3::Ptr< ns3::Packet const >, ns3::Ipv4Header const &, ns3::Socket::SocketErrno, ns3::empty, ns3::empty, ns3::empty, ns3::empty, ns3::empty, ns3::empty >&"
    "ns3::Ipv4RoutingProtocol::ErrorCallback&";
  AddClass module "Ipv4StaticRouting" [import_from_module "ns.internet";
    parent "ns3::Ipv4RoutingProtocol"];
  AddClass module "Ipv6" [import_from_module "ns.internet"; parent "ns3::Object"];
  AddClass module "Ipv6AddressChecker" [import_from_module "ns.network";
    parent "ns3::AttributeChecker"];
  AddClass module "Ipv6AddressValue" [import_from_module "ns.network";
    parent "ns3::AttributeValue"];
  AddClass module "Ipv6Interface" [import_from_module "ns.internet"; parent "ns3::Object"];
  AddClass module "Ipv6Linux" [parent "ns3::Ipv6"];
  AddClass module "Ipv6PmtuCache" [import_from_module "ns.internet"; parent "ns3::Object"];
  AddClass module "Ipv6PrefixChecker" [import_from_module "ns.network";
    parent "ns3::AttributeChecker"];
  AddClass module "Ipv6PrefixValue" [import_from_module "ns.network";
    parent "ns3::AttributeValue"];
  AddClass module "Ipv6RoutingProtocol" [import_from_module "ns.internet"; parent "ns3::Object"];
  AddTypeAlias
    "ns3::Callback< void, ns3::Ptr< ns3::NetDevice const >, ns3::Ptr< ns3::Ipv6Route >, ns3::Ptr< ns3::Packet const >, ns3::Ipv6Header const &, ns3::empty, ns3::empty, ns3::empty, ns3::empty, ns3::empty >"
    "ns3::Ipv6RoutingProtocol::UnicastForwardCallback";
  AddTypeAlias
    "ns3::Callback< void, ns3::Ptr< ns3::NetDevice const >, ns3::Ptr< ns3::Ipv6Route >, ns3::Ptr< ns3::Packet const >, ns3::Ipv6Header const &, ns3::empty, ns3::empty, ns3::empty, ns3::empty, ns3::empty >*"
    "ns3::Ipv6RoutingProtocol::UnicastForwardCallback*";
  AddTypeAlias
    "ns3::Callback< void, ns3::Ptr< ns3::NetDevice const >, ns3::Ptr< ns3::Ipv6Route >, ns3::Ptr< ns3::Packet const >, ns3::Ipv6Header const &, ns3::empty, ns3::empty, ns3::empty, ns3::empty, ns3::empty >&"
    "ns3::Ipv6RoutingProtocol::UnicastForwardCallback&";
  AddTypeAlias
    "ns3::Callback< void, ns3::Ptr< ns3::NetDevice const >, ns3::Ptr< ns3::Ipv6MulticastRoute >, ns3::Ptr< ns3::Packet const >, ns3::Ipv6Header const &, ns3::empty, ns3::empty, ns3::empty, ns3::empty, ns3::empty >"
    "ns3::Ipv6RoutingProtocol::MulticastForwardCallback";
  AddTypeAlias
    "ns3::Callback< void, ns3::Ptr< ns3::NetDevice const >, ns3::Ptr< ns3::Ipv6MulticastRoute >, ns3::Ptr< ns3::Packet const >, ns3::Ipv6Header const &, ns3::empty, ns3::empty, ns3::empty, ns3::empty, ns3::empty >*"
    "ns3::Ipv6RoutingProtocol::MulticastForwardCallback*";
  AddTypeAlias
    "ns3::Callback< void, ns3::Ptr< ns3::NetDevice const >, ns3::Ptr< ns3::Ipv6MulticastRoute >, ns3::Ptr< ns3::Packet const >, ns3::Ipv6Header const &, ns3::empty, ns3::empty, ns3::empty, ns3::empty, ns3::empty >&"
    "ns3::Ipv6RoutingProtocol::MulticastForwardCallback&";
  AddTypeAlias
    "ns3::Callback< void, ns3::Ptr< ns3::Packet const >, ns3::Ipv6Header const &, unsigned int, ns3::empty, ns3::empty, ns3::empty, ns3::empty, ns3::empty, ns3::empty >"
    "ns3::Ipv6RoutingProtocol::LocalDeliverCallback";
  AddTypeAlias
    "ns3::Callback< void, ns3::Ptr< ns3::Packet const >, ns3::Ipv6Header const &, unsigned int, ns3::empty, ns3::empty, ns3::empty, ns3::empty, ns3::empty, ns3::empty >*"
    "ns3::Ipv6RoutingProtocol::LocalDeliverCallback*";
  AddTypeAlias
    "ns3::Callback< void, ns3::Ptr< ns3::Packet const >, ns3::Ipv6Header const &, unsigned int, ns3::empty, ns3::empty, ns3::empty, ns3::empty, ns3::empty, ns3::empty >&"
    "ns3::Ipv6RoutingProtocol::LocalDeliverCallback&";
  AddTypeAlias
    "ns3::Callback< void, ns3::Ptr< ns3::Packet const >, ns3::Ipv6Header const &, ns3::Socket::SocketErrno, ns3::empty, ns3::empty, ns3::empty, ns3::empty, ns3::empty, ns3::empty >"
    "ns3::Ipv6RoutingProtocol::ErrorCallback";
  AddTypeAlias
    "ns3::Callback< void, ns3::Ptr< ns3::Packet const >, ns3::Ipv6Header const &, ns3::Socket::SocketErrno, ns3::empty, ns3::empty, ns3::empty, ns3::empty, ns3::empty, ns3::empty >*"
    "ns3::Ipv6RoutingProtocol::ErrorCallback*";
  AddTypeAlias
    "ns3::Callback< void, ns3::Ptr< ns3::Packet const >, ns3::Ipv6Header const &, ns3::Socket::SocketErrno, ns3::empty, ns3::empty, ns3::empty, ns3::empty, ns3::empty, ns3::empty >&"
    "ns3::Ipv6RoutingProtocol::ErrorCallback&";
  AddClass module "KernelSocketFdFactory" [parent "ns3::SocketFdFactory"];
  AddClass module "LinuxDccp6SocketFactory" [parent "ns3::SocketFactory"];
  AddClass module "LinuxDccpSocketFactory" [parent "ns3::SocketFactory"];
  AddClass module "LinuxIpv4RawSocketFactory" [parent "ns3::SocketFactory"];
  AddClass module "LinuxIpv6RawSocketFactory" [parent "ns3::SocketFactory"];
  AddClass module "LinuxSctp6SocketFactory" [parent "ns3::SocketFactory"];
  AddClass module "LinuxSctpSocketFactory" [parent "ns3::SocketFactory"];
  AddClass module "LinuxSocketFdFactory" [parent "ns3::KernelSocketFdFactory"];
  AddClass module "LinuxSocketImpl" [parent "ns3::Socket"];
  AddTypeAlias
    "ns3::Callback< int, ns3::Address const &, sockaddr *, unsigned int *, ns3::empty, ns3::empty, ns3::empty, ns3::empty, ns3::empty, ns3::empty >"
    "ns3::LinuxSocketImpl::Ns3ToPosixConverter";
  AddTypeAlias
    "ns3::Callback< int, ns3::Address const &, sockaddr *, unsigned int *, ns3::empty, ns3::empty, ns3::empty, ns3::empty, ns3::empty, ns3::empty >*"
    "ns3::LinuxSocketImpl::Ns3ToPosixConverter*";
  AddTypeAlias
    "ns3::Callback< int, ns3::Address const &, sockaddr *, unsigned int *, ns3::empty, ns3::empty, ns3::empty, ns3::empty, ns3::empty, ns3::empty >&"
    "ns3::LinuxSocketImpl::Ns3ToPosixConverter&";
  AddTypeAlias
    "ns3::Callback< ns3::Address, sockaddr const *, unsigned int, ns3::empty, ns3::empty, ns3::empty, ns3::empty, ns3::empty, ns3::empty, ns3::empty >"
    "ns3::LinuxSocketImpl::PosixToNs3Converter";
  AddTypeAlias
    "ns3::Callback< ns3::Address, sockaddr const *, unsigned int, ns3::empty, ns3::empty, ns3::empty, ns3::empty, ns3::empty, ns3::empty, ns3::empty >*"
    "ns3::LinuxSocketImpl::PosixToNs3Converter*";
  AddTypeAlias
    "ns3::Callback< ns3::Address, sockaddr const *, unsigned int, ns3::empty, ns3::empty, ns3::empty, ns3::empty, ns3::empty, ns3::empty, ns3::empty >&"
    "ns3::LinuxSocketImpl::PosixToNs3Converter&";
  AddClass module "LinuxTcp6SocketFactory" [parent "ns3::SocketFactory"];
  AddClass module "LinuxTcpSocketFactory" [parent "ns3::SocketFactory"];
  AddClass module "LinuxUdp6SocketFactory" [parent "ns3::SocketFactory"];
  AddClass module "LinuxUdpSocketFactory" [parent "ns3::SocketFactory"];
  AddClass module "LoaderFactory" [parent "ns3::Object"];
  AddClass module "LogNormalRandomVariable" [import_from_module "ns.core";
    parent "ns3::RandomVariableStream"];
  AddClass module "Mac48AddressChecker" [import_from_module "ns.network";
    parent "ns3::AttributeChecker"];
  AddClass module "Mac48AddressValue" [import_from_module "ns.network";
    parent "ns3::AttributeValue"];
  AddClass module "NetDevice" [import_from_module "ns.network"; parent "ns3::Object"];
  AddEnum module "PacketType" ["PACKET_HOST"; "NS3_PACKET_HOST"; "PACKET_BROADCAST";
    "NS3_PACKET_BROADCAST"; "PACKET_MULTICAST"; "NS3_PACKET_MULTICAST"; "PACKET_OTHERHOST";
    "NS3_PACKET_OTHERHOST"] [outer_class "ns3::NetDevice"; import_from_module "ns.network"];
  AddTypeAlias "void ( * ) (  )" "ns3::NetDevice::LinkChangeTracedCallback";
  AddTypeAlias "void ( * ) (  )*" "ns3::NetDevice::LinkChangeTracedCallback*";
  AddTypeAlias "void ( * ) (  )&" "ns3::NetDevice::LinkChangeTracedCallback&";
  AddTypeAlias
    "ns3::Callback< bool, ns3::Ptr< ns3::NetDevice >, ns3::Ptr< ns3::Packet const >, unsigned short, ns3::Address const &, ns3::empty, ns3::empty, ns3::empty, ns3::empty, ns3::empty >"
    "ns3::NetDevice::ReceiveCallback";
  AddTypeAlias
    "ns3::Callback< bool, ns3::Ptr< ns3::NetDevice >, ns3::Ptr< ns3::Packet const >, unsigned short, ns3::Address const &, ns3::empty, ns3::empty, ns3::empty, ns3::empty, ns3::empty >*"
    "ns3::NetDevice::ReceiveCallback*";
  AddTypeAlias
    "ns3::Callback< bool, ns3::Ptr< ns3::NetDevice >, ns3::Ptr< ns3::Packet const >, unsigned short, ns3::Address const &, ns3::empty, ns3::empty, ns3::empty, ns3::empty, ns3::empty >&"
    "ns3::NetDevice::ReceiveCallback&";
  AddTypeAlias
    "ns3::Callback< bool, ns3::Ptr< ns3::NetDevice >, ns3::Ptr< ns3::Packet const >, unsigned short, ns3::Address const &, ns3::Address const &, ns3::NetDevice::PacketType, ns3::empty, ns3::empty, ns3::empty >"
    "ns3::NetDevice::PromiscReceiveCallback";
  AddTypeAlias
    "ns3::Callback< bool, ns3::Ptr< ns3::NetDevice >, ns3::Ptr< ns3::Packet const >, unsigned short, ns3::Address const &, ns3::Address const &, ns3::NetDevice::PacketType, ns3::empty, ns3::empty, ns3::empty >*"
    "ns3::NetDevice::PromiscReceiveCallback*";
  AddTypeAlias
    "ns3::Callback< bool, ns3::Ptr< ns3::NetDevice >, ns3::Ptr< ns3::Packet const >, unsigned short, ns3::Address const &, ns3::Address const &, ns3::NetDevice::PacketType, ns3::empty, ns3::empty, ns3::empty >&"
    "ns3::NetDevice::PromiscReceiveCallback&";
  AddClass module "NixVector" [import_from_module "ns.network";
    parent "ns3::SimpleRefCount< ns3::NixVector, ns3::empty, ns3::DefaultDeleter<ns3::NixVector> >"];
  AddClass module "Node" [import_from_module "ns.network"; parent "ns3::Object"];
  AddTypeAlias
    "ns3::Callback< void, ns3::Ptr< ns3::NetDevice >, ns3::Ptr< ns3::Packet const >, unsigned short, ns3::Address const &, ns3::Address const &, ns3::NetDevice::PacketType, ns3::empty, ns3::empty, ns3::empty >"
    "ns3::Node::ProtocolHandler";
  AddTypeAlias
    "ns3::Callback< void, ns3::Ptr< ns3::NetDevice >, ns3::Ptr< ns3::Packet const >, unsigned short, ns3::Address const &, ns3::Address const &, ns3::NetDevice::PacketType, ns3::empty, ns3::empty, ns3::empty >*"
    "ns3::Node::ProtocolHandler*";
  AddTypeAlias
    "ns3::Callback< void, ns3::Ptr< ns3::NetDevice >, ns3::Ptr< ns3::Packet const >, unsigned short, ns3::Address const &, ns3::Address const &, ns3::NetDevice::PacketType, ns3::empty, ns3::empty, ns3::empty >&"
    "ns3::Node::ProtocolHandler&";
  AddTypeAlias
    "ns3::Callback< void, ns3::Ptr< ns3::NetDevice >, ns3::empty, ns3::empty, ns3::empty, ns3::empty, ns3::empty, ns3::empty, ns3::empty, ns3::empty >"
    "ns3::Node::DeviceAdditionListener";
  AddTypeAlias
    "ns3::Callback< void, ns3::Ptr< ns3::NetDevice >, ns3::empty, ns3::empty, ns3::empty, ns3::empty, ns3::empty, ns3::empty, ns3::empty, ns3::empty >*"
    "ns3::Node::DeviceAdditionListener*";
  AddTypeAlias
    "ns3::Callback< void, ns3::Ptr< ns3::NetDevice >, ns3::empty, ns3::empty, ns3::empty, ns3::empty, ns3::empty, ns3::empty, ns3::empty, ns3::empty >&"
    "ns3::Node::DeviceAdditionListener&";
  AddClass module "NormalRandomVariable" [import_from_module "ns.core";
    parent "ns3::RandomVariableStream"];
  AddClass module "ObjectFactoryChecker" [import_from_module "ns.core";
    parent "ns3::AttributeChecker"];
  AddClass module "ObjectFactoryValue" [import_from_module "ns.core";
    parent "ns3::AttributeValue"];
  AddClass module "OutputStreamWrapper" [import_from_module "ns.network";
    parent "ns3::SimpleRefCount< ns3::OutputStreamWrapper, ns3::empty, ns3::DefaultDeleter<ns3::OutputStreamWrapper> >"];
  AddClass module "Packet" [import_from_module "ns.network";
    parent "ns3::SimpleRefCount< ns3::Packet, ns3::empty, ns3::DefaultDeleter<ns3::Packet> >"];
  AddTypeAlias "void ( * ) ( ns3::Ptr< ns3::Packet const > )" "ns3::Packet::TracedCallback";
  AddTypeAlias "void ( * ) ( ns3::Ptr< ns3::Packet const > )*" "ns3::Packet::TracedCallback*";
  AddTypeAlias "void ( * ) ( ns3::Ptr< ns3::Packet const > )&" "ns3::Packet::TracedCallback&";
  AddTypeAlias "void ( * ) ( ns3::Ptr< ns3::Packet const >, ns3::Address const & )"
    "ns3::Packet::AddressTracedCallback";
  AddTypeAlias "void ( * ) ( ns3::Ptr< ns3::Packet const >, ns3::Address const & )*"
    "ns3::Packet::AddressTracedCallback*";
  AddTypeAlias "void ( * ) ( ns3::Ptr< ns3::Packet const >, ns3::Address const & )&"
    "ns3::Packet::AddressTracedCallback&";
  AddTypeAlias
    "void ( * ) ( ns3::Ptr< ns3::Packet const > const, ns3::Address const &, ns3::Address const & )"
    "ns3::Packet::TwoAddressTracedCallback";
  AddTypeAlias
    "void ( * ) ( ns3::Ptr< ns3::Packet const > const, ns3::Address const &, ns3::Address const & )*"
    "ns3::Packet::TwoAddressTracedCallback*";
  AddTypeAlias
    "void ( * ) ( ns3::Ptr< ns3::Packet const > const, ns3::Address const &, ns3::Address const & )&"
    "ns3::Packet::TwoAddressTracedCallback&";
  AddTypeAlias "void ( * ) ( ns3::Ptr< ns3::Packet const >, ns3::Mac48Address )"
    "ns3::Packet::Mac48AddressTracedCallback";
  AddTypeAlias "void ( * ) ( ns3::Ptr< ns3::Packet const >, ns3::Mac48Address )*"
    "ns3::Packet::Mac48AddressTracedCallback*";
  AddTypeAlias "void ( * ) ( ns3::Ptr< ns3::Packet const >, ns3::Mac48Address )&"
    "ns3::Packet::Mac48AddressTracedCallback&";
  AddTypeAlias "void ( * ) ( uint32_t, uint32_t )" "ns3::Packet::SizeTracedCallback";
  AddTypeAlias "void ( * ) ( uint32_t, uint32_t )*" "ns3::Packet::SizeTracedCallback*";
  AddTypeAlias "void ( * ) ( uint32_t, uint32_t )&" "ns3::Packet::SizeTracedCallback&";
  AddTypeAlias "void ( * ) ( ns3::Ptr< ns3::Packet const >, double )"
    "ns3::Packet::SinrTracedCallback";
  AddTypeAlias "void ( * ) ( ns3::Ptr< ns3::Packet const >, double )*"
    "ns3::Packet::SinrTracedCallback*";
  AddTypeAlias "void ( * ) ( ns3::Ptr< ns3::Packet const >, double )&"
    "ns3::Packet::SinrTracedCallback&";
  AddClass module "ParetoRandomVariable" [import_from_module "ns.core";
    parent "ns3::RandomVariableStream"];
  AddClass module "TimeValue" [import_from_module "ns.core"; parent "ns3::AttributeValue"];
  AddClass module "TypeIdChecker" [import_from_module "ns.core"; parent "ns3::AttributeChecker"];
  AddClass module "TypeIdValue" [import_from_module "ns.core"; parent "ns3::AttributeValue"];
  AddClass module "AddressChecker" [import_from_module "ns.network";
    parent "ns3::AttributeChecker"];
  AddClass module "AddressValue" [import_from_module "ns.network"; parent "ns3::AttributeValue"];
  AddClass module "CallbackImpl" [import_from_module "ns.core"; parent "ns3::CallbackImplBase";
    template_parameters ["bool"; "ns3::Ptr<ns3::Socket>"; "const ns3::Address &"; "ns3::empty";
    "ns3::empty"; "ns3::empty"; "ns3::empty"; "ns3::empty"; "ns3::empty"; "ns3::empty"]]].
Definition types_CallbackImpl (module : path) : list call := [
  AddClass module "CallbackImpl" [import_from_module "ns.core"; parent "ns3::CallbackImplBase";
    template_parameters ["int"; "const ns3::Address &"; "sockaddr *"; "unsigned int *";
    "ns3::empty"; "ns3::empty"; "ns3::empty"; "ns3::empty"; "ns3::empty"; "ns3::empty"]];
  AddClass module "CallbackImpl" [import_from_module "ns.core"; parent "ns3::CallbackImplBase";
    template_parameters ["ns3::Address"; "const sockaddr *"; "unsigned int"; "ns3::empty";
    "ns3::empty"; "ns3::empty"; "ns3::empty"; "ns3::empty"; "ns3::empty"; "ns3::empty"]];
  AddClass module "CallbackImpl" [import_from_module "ns.core"; parent "ns3::CallbackImplBase";
    template_parameters ["ns3::ObjectBase *"; "ns3::empty"; "ns3::empty"; "ns3::empty";
    "ns3::empty"; "ns3::empty"; "ns3::empty"; "ns3::empty"; "ns3::empty"; "ns3::empty"]];
  AddClass module "CallbackImpl" [import_from_module "ns.core"; parent "ns3::CallbackImplBase";
    template_parameters ["void"; "ns3::Ptr<ns3::NetDevice>"; "ns3::Ptr<const ns3::Packet>";
    "unsigned short"; "const ns3::Address &"; "const ns3::Address &";
    "ns3::NetDevice::PacketType"; "ns3::empty"; "ns3::empty"; "ns3::empty"]];
  AddClass module "CallbackImpl" [import_from_module "ns.core"; parent "ns3::CallbackImplBase";
    template_parameters ["void"; "ns3::Ptr<ns3::NetDevice>"; "ns3::empty"; "ns3::empty";
    "ns3::empty"; "ns3::empty"; "ns3::empty"; "ns3::empty"; "ns3::empty"; "ns3::empty"]];
  AddClass module "CallbackImpl" [import_from_module "ns.core"; parent "ns3::CallbackImplBase";
    template_parameters ["void"; "ns3::Ptr<ns3::Socket>"; "const ns3::Address &"; "ns3::empty";
    "ns3::empty"; "ns3::empty"; "ns3::empty"; "ns3::empty"; "ns3::empty"; "ns3::empty"]];
  AddClass module "CallbackImpl" [import_from_module "ns.core"; parent "ns3::CallbackImplBase";
    template_parameters ["void"; "ns3::Ptr<ns3::Socket>"; "ns3::empty"; "ns3::empty";
    "ns3::empty"; "ns3::empty"; "ns3::empty"; "ns3::empty"; "ns3::empty"; "ns3::empty"]];
  AddClass module "CallbackImpl" [import_from_module "ns.core"; parent "ns3::CallbackImplBase";
    template_parameters ["void"; "ns3::Ptr<ns3::Socket>"; "unsigned int"; "ns3::empty";
    "ns3::empty"; "ns3::empty"; "ns3::empty"; "ns3::empty"; "ns3::empty"; "ns3::empty"]];
  AddClass module "CallbackImpl" [import_from_module "ns.core"; parent "ns3::CallbackImplBase";
    template_parameters ["void"; "ns3::empty"; "ns3::empty"; "ns3::empty"; "ns3::empty";
    "ns3::empty"; "ns3::empty"; "ns3::empty"; "ns3::empty"; "ns3::empty"]];
  AddClass module "CallbackImpl" [import_from_module "ns.core"; parent "ns3::CallbackImplBase";
    template_parameters ["void"; "unsigned short"; "int"; "ns3::empty"; "ns3::empty";
    "ns3::empty"; "ns3::empty"; "ns3::empty"; "ns3::empty"; "ns3::empty"]];
  AddClass module "CallbackImpl" [import_from_module "ns.core"; parent "ns3::CallbackImplBase";
    template_parameters ["void"; "unsigned short"; "ns3::empty"; "ns3::empty"; "ns3::empty";
    "ns3::empty"; "ns3::empty"; "ns3::empty"; "ns3::empty"; "ns3::empty"]];
  AddClass module "CallbackImpl" [import_from_module "ns.core"; parent "ns3::CallbackImplBase";
    template_parameters ["void"; "void *"; "ns3::empty"; "ns3::empty"; "ns3::empty"; "ns3::empty";
    "ns3::empty"; "ns3::empty"; "ns3::empty"; "ns3::empty"]];
  AddClass module "FreeBSDSocketFdFactory" [parent "ns3::KernelSocketFdFactory"];
  AddClass module "Ipv4DceRouting" [parent "ns3::Ipv4StaticRouting"];
  AddClass module "Ipv4ListRouting" [import_from_module "ns.internet";
    parent "ns3::Ipv4RoutingProtocol"]].
Definition container_types (module : path) : list call := [
  AddContainer module "std::list< std::string >" ["std::string"] "list";
  AddContainer module "std::list< ns3::Thread * >" ["ns3::Thread *"] "list";
  AddContainer module "std::map< std::string, ns3::LogComponent * >" ["std::string";
    "ns3::LogComponent *"] "map";
  AddContainer module "std::map< int, ns3::FileUsage * >" ["int"; "ns3::FileUsage *"] "map";
  AddContainer module "std::vector< _IO_FILE * >" ["_IO_FILE *"] "vector";
  AddContainer module "std::vector< __dirstream * >" ["__dirstream *"] "vector";
  AddContainer module "std::vector< ns3::SignalHandler >" ["ns3::SignalHandler"] "vector";
  AddContainer module "std::vector< ns3::Thread * >" ["ns3::Thread *"] "vector";
  AddContainer module "std::vector< ns3::Mutex * >" ["ns3::Mutex *"] "vector";
  AddContainer module "std::vector< ns3::Semaphore * >" ["ns3::Semaphore *"] "vector";
  AddContainer module "std::vector< ns3::Condition * >" ["ns3::Condition *"] "vector";
  AddContainer module "std::vector< ns3::AtExitHandler >" ["ns3::AtExitHandler"] "vector";
  AddContainer module "std::set< unsigned short >" ["short unsigned int"] "set";
  AddContainer module "std::vector< void * >" ["void *"] "vector";
  AddContainer module "std::list< ns3::ThreadKeyValue >" ["ns3::ThreadKeyValue"] "list";
  AddContainer module "std::vector< ns3::Ipv6Address >" ["ns3::Ipv6Address"] "vector";
  AddContainer module "std::vector< std::string >" ["std::string"] "vector";
  AddContainer module "std::vector< std::pair< std::string, std::string > >"
    ["std::pair< std::basic_string< char >, std::basic_string< char > >"] "vector";
  AddContainer module "std::map< unsigned short, ns3::Process * >" ["short unsigned int";
    "ns3::Process *"] "map";
  AddContainer module "std::vector< ns3::ProcStatus >" ["ns3::ProcStatus"] "vector";
  AddContainer module "std::map< unsigned int, unsigned int >" ["unsigned int"; "unsigned int"]
    "map";
  AddContainer module "std::vector< unsigned int >" ["unsigned int"] "vector";
  AddTypeAlias "void ( * ) ( std::ostream & )" "ns3::TimePrinter";
  AddTypeAlias "void ( * ) ( std::ostream & )*" "ns3::TimePrinter*";
  AddTypeAlias "void ( * ) ( std::ostream & )&" "ns3::TimePrinter&";
  AddTypeAlias "void ( * ) ( std::ostream & )" "ns3::NodePrinter";
  AddTypeAlias "void ( * ) ( std::ostream & )*" "ns3::NodePrinter*";
  AddTypeAlias "void ( * ) ( std::ostream & )&" "ns3::NodePrinter&"].
Definition register_types (module : path) : list call :=
  types_Address module ++
  types_PacketMetadata module ++
  types_SimpleRefCount module ++
  types_Ipv4StaticRouting module ++
  types_CallbackImpl module ++
  container_types module ++
  (AddCppNamespace module "FatalImpl" ::
     register_types_ns3_FatalImpl (module ++ ["FatalImpl"])) ++
  (AddCppNamespace module "Hash" ::
     register_types_ns3_Hash (module ++ ["Hash"])) ++
  (AddCppNamespace module "TracedValueCallback" ::
     register_types_ns3_TracedValueCallback (module ++ ["TracedValueCallback"])).
End ApiTypes.
