(* ===== verification/ApiMethods1.v ===== *)
(** * The table of the bindings: methods, part 1 of 5

    bindings/modulegen__gcc_ILP32.py: the constructors, methods, attributes and operators of the
    classes from ns3::Address to ns3::NetDeviceContainer, one definition for each function. *)
From Stdlib Require Import ZArith Ascii String.
From stdpp Require Import base list strings.
From S2P Require Import Prelude PyStr Pybindgen.

Module ApiMethods1.
Import Pybindgen.

Definition register_Ns3Address_methods (cls : string) : list call := [
  AddComparison cls "==";
  AddComparison cls "!=";
  AddComparison cls "<";
  AddOutputStream cls;
  constructor cls [];
  constructor cls [param "uint8_t" "type"; param "uint8_t const *" "buffer";
    param "uint8_t" "len"];
  constructor cls [param "ns3::Address const &" "address"];
  method cls "CheckCompatible" "bool" [param "uint8_t" "type"; param "uint8_t" "len"] [is_const];
  method cls "CopyAllFrom" "uint32_t" [param "uint8_t const *" "buffer"; param "uint8_t" "len"] [];
  method cls "CopyAllTo" "uint32_t" [param "uint8_t *" "buffer"; param "uint8_t" "len"] [is_const];
  method cls "CopyFrom" "uint32_t" [param "uint8_t const *" "buffer"; param "uint8_t" "len"] [];
  method cls "CopyTo" "uint32_t" [param "uint8_t *" "buffer"] [is_const];
  method cls "Deserialize" "void" [param "ns3::TagBuffer" "buffer"] [];
  method cls "GetLength" "uint8_t" [] [is_const];
  method cls "GetSerializedSize" "uint32_t" [] [is_const];
  method cls "IsInvalid" "bool" [] [is_const];
  method cls "IsMatchingType" "bool" [param "uint8_t" "type"] [is_const];
  method cls "Register" "uint8_t" [] [is_static];
  method cls "Serialize" "void" [param "ns3::TagBuffer" "buffer"] [is_const]].
Definition register_Ns3ApplicationContainer_methods (cls : string) : list call := [
  constructor cls [param "ns3::ApplicationContainer const &" "arg0"];
  constructor cls [];
  constructor cls [param "ns3::Ptr< ns3::Application >" "application"];
  constructor cls [param "std::string" "name"];
  method cls "Add" "void" [param "ns3::ApplicationContainer" "other"] [];
  method cls "Add" "void" [param "ns3::Ptr< ns3::Application >" "application"] [];
  method cls "Add" "void" [param "std::string" "name"] [];
  method cls "Begin" "ns3::ApplicationContainer::Iterator" [] [is_const];
  method cls "End" "ns3::ApplicationContainer::Iterator" [] [is_const];
  method cls "Get" "ns3::Ptr< ns3::Application >" [param "uint32_t" "i"] [is_const];
  method cls "GetN" "uint32_t" [] [is_const];
  method cls "Start" "void" [param "ns3::Time" "start"] [];
  method cls "StartWithJitter" "void" [param "ns3::Time" "start";
    param "ns3::Ptr< ns3::RandomVariableStream >" "rv"] [];
  method cls "Stop" "void" [param "ns3::Time" "stop"] []].
Definition register_Ns3AtExitHandler_methods (cls : string) : list call := [
  constructor cls [];
  constructor cls [param "ns3::AtExitHandler const &" "arg0"];
  AddInstanceAttribute cls "normal" "void ( * ) (  )" [not_const];
  constructor cls [];
  constructor cls [param "ns3::AtExitHandler const &" "arg0"]].
Definition register_Ns3AttributeConstructionList_methods (cls : string) : list call := [
  constructor cls [param "ns3::AttributeConstructionList const &" "arg0"];
  constructor cls [];
  method cls "Add" "void" [param "std::string" "name";
    param "ns3::Ptr< ns3::AttributeChecker const >" "checker";
    param "ns3::Ptr< ns3::AttributeValue >" "value"] [];
  method cls "Begin" "ns3::AttributeConstructionList::CIterator" [] [is_const];
  method cls "End" "ns3::AttributeConstructionList::CIterator" [] [is_const];
  method cls "Find" "ns3::Ptr< ns3::AttributeValue >"
    [param "ns3::Ptr< ns3::AttributeChecker const >" "checker"] [is_const]].
Definition register_Ns3AttributeConstructionListItem_methods (cls : string) : list call := [
  constructor cls [];
  constructor cls [param "ns3::AttributeConstructionList::Item const &" "arg0"];
  AddInstanceAttribute cls "checker" "ns3::Ptr< ns3::AttributeChecker const >" [not_const];
  AddInstanceAttribute cls "name" "std::string" [not_const];
  AddInstanceAttribute cls "value" "ns3::Ptr< ns3::AttributeValue >" [not_const]].
Definition register_Ns3Buffer_methods (cls : string) : list call := [
  constructor cls [param "ns3::Buffer const &" "o"];
  constructor cls [];
  constructor cls [param "uint32_t" "dataSize"];
  constructor cls [param "uint32_t" "dataSize"; param "bool" "initialize"];
  method cls "AddAtEnd" "void" [param "uint32_t" "end"] [];
  method cls "AddAtEnd" "void" [param "ns3::Buffer const &" "o"] [];
  method cls "AddAtStart" "void" [param "uint32_t" "start"] [];
  method cls "Begin" "ns3::Buffer::Iterator" [] [is_const];
  method cls "CopyData" "void" [param "std::ostream *" "os"; param "uint32_t" "size"] [is_const];
  method cls "CopyData" "uint32_t" [param "uint8_t *" "buffer"; param "uint32_t" "size"]
    [is_const];
  method cls "CreateFragment" "ns3::Buffer" [param "uint32_t" "start"; param "uint32_t" "length"]
    [is_const];
  method cls "Deserialize" "uint32_t" [param "uint8_t const *" "buffer"; param "uint32_t" "size"]
    [];
  method cls "End" "ns3::Buffer::Iterator" [] [is_const];
  method cls "GetSerializedSize" "uint32_t" [] [is_const];
  method cls "GetSize" "uint32_t" [] [is_const];
  method cls "PeekData" "uint8_t const *" [] [is_const];
  method cls "RemoveAtEnd" "void" [param "uint32_t" "end"] [];
  method cls "RemoveAtStart" "void" [param "uint32_t" "start"] [];
  method cls "Serialize" "uint32_t" [param "uint8_t *" "buffer"; param "uint32_t" "maxSize"]
    [is_const]].
Definition register_Ns3BufferIterator_methods (cls : string) : list call := [
  constructor cls [param "ns3::Buffer::Iterator const &" "arg0"];
  constructor cls [];
  method cls "CalculateIpChecksum" "uint16_t" [param "uint16_t" "size"] [];
  method cls "CalculateIpChecksum" "uint16_t" [param "uint16_t" "size";
    param "uint32_t" "initialChecksum"] [];
  method cls "GetDistanceFrom" "uint32_t" [param "ns3::Buffer::Iterator const &" "o"] [is_const];
  method cls "GetRemainingSize" "uint32_t" [] [is_const];
  method cls "GetSize" "uint32_t" [] [is_const];
  method cls "IsEnd" "bool" [] [is_const];
  method cls "IsStart" "bool" [] [is_const];
  method cls "Next" "void" [] [];
  method cls "Next" "void" [param "uint32_t" "delta"] [];
  method cls "PeekU8" "uint8_t" [] [];
  method cls "Prev" "void" [] [];
  method cls "Prev" "void" [param "uint32_t" "delta"] [];
  method cls "Read" "void" [param "uint8_t *" "buffer"; param "uint32_t" "size"] [];
  method cls "Read" "void" [param "ns3::Buffer::Iterator" "start"; param "uint32_t" "size"] [];
  method cls "ReadLsbtohU16" "uint16_t" [] [];
  method cls "ReadLsbtohU32" "uint32_t" [] [];
  method cls "ReadLsbtohU64" "uint64_t" [] [];
  method cls "ReadNtohU16" "uint16_t" [] [];
  method cls "ReadNtohU32" "uint32_t" [] [];
  method cls "ReadNtohU64" "uint64_t" [] [];
  method cls "ReadU16" "uint16_t" [] [];
  method cls "ReadU32" "uint32_t" [] [];
  method cls "ReadU64" "uint64_t" [] [];
  method cls "ReadU8" "uint8_t" [] [];
  method cls "Write" "void" [param "uint8_t const *" "buffer"; param "uint32_t" "size"] [];
  method cls "Write" "void" [param "ns3::Buffer::Iterator" "start";
    param "ns3::Buffer::Iterator" "end"] [];
  method cls "WriteHtolsbU16" "void" [param "uint16_t" "data"] [];
  method cls "WriteHtolsbU32" "void" [param "uint32_t" "data"] [];
  method cls "WriteHtolsbU64" "void" [param "uint64_t" "data"] [];
  method cls "WriteHtonU16" "void" [param "uint16_t" "data"] [];
  method cls "WriteHtonU32" "void" [param "uint32_t" "data"] [];
  method cls "WriteHtonU64" "void" [param "uint64_t" "data"] [];
  method cls "WriteU16" "void" [param "uint16_t" "data"] [];
  method cls "WriteU32" "void" [param "uint32_t" "data"] [];
  method cls "WriteU64" "void" [param "uint64_t" "data"] [];
  method cls "WriteU8" "void" [param "uint8_t" "data"] [];
  method cls "WriteU8" "void" [param "uint8_t" "data"; param "uint32_t" "len"] []].
Definition register_Ns3ByteTagIterator_methods (cls : string) : list call := [
  constructor cls [param "ns3::ByteTagIterator const &" "arg0"];
  method cls "HasNext" "bool" [] [is_const];
  method cls "Next" "ns3::ByteTagIterator::Item" [] []].
Definition register_Ns3ByteTagIteratorItem_methods (cls : string) : list call := [
  constructor cls [param "ns3::ByteTagIterator::Item const &" "arg0"];
  method cls "GetEnd" "uint32_t" [] [is_const];
  method cls "GetStart" "uint32_t" [] [is_const];
  method cls "GetTag" "void" [param "ns3::Tag &" "tag"] [is_const];
  method cls "GetTypeId" "ns3::TypeId" [] [is_const]].
Definition register_Ns3ByteTagList_methods (cls : string) : list call := [
  constructor cls [];
  constructor cls [param "ns3::ByteTagList const &" "o"];
  method cls "Add" "ns3::TagBuffer" [param "ns3::TypeId" "tid"; param "uint32_t" "bufferSize";
    param "int32_t" "start"; param "int32_t" "end"] [];
  method cls "Add" "void" [param "ns3::ByteTagList const &" "o"] [];
  method cls "AddAtEnd" "void" [param "int32_t" "appendOffset"] [];
  method cls "AddAtStart" "void" [param "int32_t" "prependOffset"] [];
  method cls "Adjust" "void" [param "int32_t" "adjustment"] [];
  method cls "Begin" "ns3::ByteTagList::Iterator" [param "int32_t" "offsetStart";
    param "int32_t" "offsetEnd"] [is_const];
  method cls "Deserialize" "uint32_t" [param "uint32_t const *" "buffer"; param "uint32_t" "size"]
    [];
  method cls "GetSerializedSize" "uint32_t" [] [is_const];
  method cls "RemoveAll" "void" [] [];
  method cls "Serialize" "uint32_t" [param "uint32_t *" "buffer"; param "uint32_t" "maxSize"]
    [is_const]].
Definition register_Ns3ByteTagListIterator_methods (cls : string) : list call := [
  constructor cls [param "ns3::ByteTagList::Iterator const &" "arg0"];
  method cls "GetOffsetStart" "uint32_t" [] [is_const];
  method cls "HasNext" "bool" [] [is_const];
  method cls "Next" "ns3::ByteTagList::Iterator::Item" [] []].
Definition register_Ns3ByteTagListIteratorItem_methods (cls : string) : list call := [
  constructor cls [param "ns3::ByteTagList::Iterator::Item const &" "arg0"];
  constructor cls [param "ns3::TagBuffer" "buf"];
  AddInstanceAttribute cls "buf" "ns3::TagBuffer" [not_const];
  AddInstanceAttribute cls "end" "int32_t" [not_const];
  AddInstanceAttribute cls "size" "uint32_t" [not_const];
  AddInstanceAttribute cls "start" "int32_t" [not_const];
  AddInstanceAttribute cls "tid" "ns3::TypeId" [not_const]].
Definition register_Ns3CallbackBase_methods (cls : string) : list call := [
  constructor cls [param "ns3::CallbackBase const &" "arg0"];
  constructor cls [];
  method cls "GetImpl" "ns3::Ptr< ns3::CallbackImplBase >" [] [is_const];
  AddConstructor cls [param "ns3::Ptr< ns3::CallbackImplBase >" "impl"] [visibility "protected"]].
Definition register_Ns3Condition_methods (cls : string) : list call := [
  constructor cls [];
  constructor cls [param "ns3::Condition const &" "arg0"];
  AddInstanceAttribute cls "cid" "uint32_t" [not_const];
  AddInstanceAttribute cls "waiting" "std::list< ns3::Thread * >" [not_const]].
Definition register_Ns3DceApplicationHelper_methods (cls : string) : list call := [
  constructor cls [param "ns3::DceApplicationHelper const &" "arg0"];
  constructor cls [];
  method cls "AddArgument" "void" [param "std::string" "arg"] [];
  method cls "AddArguments" "void" [param "std::string" "arg"] [];
  method cls "AddEnvironment" "void" [param "std::string" "name"; param "std::string" "value"] [];
  method cls "GetPid" "uint16_t" [param "ns3::Application *" "app"] [is_virtual];
  method cls "Install" "ns3::ApplicationContainer" [param "ns3::NodeContainer" "c"] [is_virtual];
  method cls "InstallInNode" "ns3::ApplicationContainer" [param "ns3::Ptr< ns3::Node >" "node"]
    [is_virtual];
  method cls "ParseArguments" "void" [param "std::string" "args"] [];
  method cls "ResetArguments" "void" [] [];
  method cls "ResetEnvironment" "void" [] [];
  method cls "SetBinary" "void" [param "std::string" "filename"] [];
  method cls "SetEgid" "void" [param "uid_t" "i"] [];
  method cls "SetEuid" "void" [param "uid_t" "i"] [];
  method cls "SetFinishedCallback" "void"
    [param "ns3::Callback< void, unsigned short, int, ns3::empty, ns3::empty, ns3::empty, ns3::empty, ns3::empty, ns3::empty, ns3::empty >" "cb"]
    [];
  method cls "SetGid" "void" [param "uid_t" "i"] [];
  method cls "SetStackSize" "void" [param "uint32_t" "stackSize"] [];
  method cls "SetStdinFile" "void" [param "std::string" "filename"] [];
  method cls "SetUid" "void" [param "uid_t" "i"] []].
Definition register_Ns3DefaultDeleter__Ns3AttributeAccessor_methods (cls : string) : list call := [
  constructor cls [];
  constructor cls [param "ns3::DefaultDeleter< ns3::AttributeAccessor > const &" "arg0"];
  method cls "Delete" "void" [param "ns3::AttributeAccessor *" "object"] [is_static]].
Definition register_Ns3DefaultDeleter__Ns3AttributeChecker_methods (cls : string) : list call := [
  constructor cls [];
  constructor cls [param "ns3::DefaultDeleter< ns3::AttributeChecker > const &" "arg0"];
  method cls "Delete" "void" [param "ns3::AttributeChecker *" "object"] [is_static]].
Definition register_Ns3DefaultDeleter__Ns3AttributeValue_methods (cls : string) : list call := [
  constructor cls [];
  constructor cls [param "ns3::DefaultDeleter< ns3::AttributeValue > const &" "arg0"];
  method cls "Delete" "void" [param "ns3::AttributeValue *" "object"] [is_static]].
Definition register_Ns3DefaultDeleter__Ns3CallbackImplBase_methods (cls : string) : list call := [
  constructor cls [];
  constructor cls [param "ns3::DefaultDeleter< ns3::CallbackImplBase > const &" "arg0"];
  method cls "Delete" "void" [param "ns3::CallbackImplBase *" "object"] [is_static]].
Definition register_Ns3DefaultDeleter__Ns3EventImpl_methods (cls : string) : list call := [
  constructor cls [];
  constructor cls [param "ns3::DefaultDeleter< ns3::EventImpl > const &" "arg0"];
  method cls "Delete" "void" [param "ns3::EventImpl *" "object"] [is_static]].
Definition register_Ns3DefaultDeleter__Ns3HashImplementation_methods (cls : string) : list call := [
  constructor cls [];
  constructor cls [param "ns3::DefaultDeleter< ns3::Hash::Implementation > const &" "arg0"];
  method cls "Delete" "void" [param "ns3::Hash::Implementation *" "object"] [is_static]].
Definition register_Ns3DefaultDeleter__Ns3NixVector_methods (cls : string) : list call := [
  constructor cls [];
  constructor cls [param "ns3::DefaultDeleter< ns3::NixVector > const &" "arg0"];
  method cls "Delete" "void" [param "ns3::NixVector *" "object"] [is_static]].
Definition register_Ns3DefaultDeleter__Ns3Packet_methods (cls : string) : list call := [
  constructor cls [];
  constructor cls [param "ns3::DefaultDeleter< ns3::Packet > const &" "arg0"];
  method cls "Delete" "void" [param "ns3::Packet *" "object"] [is_static]].
Definition register_Ns3DefaultDeleter__Ns3TraceSourceAccessor_methods (cls : string) : list call := [
  constructor cls [];
  constructor cls [param "ns3::DefaultDeleter< ns3::TraceSourceAccessor > const &" "arg0"];
  method cls "Delete" "void" [param "ns3::TraceSourceAccessor *" "object"] [is_static]].
Definition register_Ns3EventId_methods (cls : string) : list call := [
  AddComparison cls "==";
  AddComparison cls "!=";
  AddComparison cls "<";
  constructor cls [param "ns3::EventId const &" "arg0"];
  constructor cls [];
  constructor cls [param "ns3::Ptr< ns3::EventImpl > const &" "impl"; param "uint64_t" "ts";
    param "uint32_t" "context"; param "uint32_t" "uid"];
  method cls "Cancel" "void" [] [];
  method cls "GetContext" "uint32_t" [] [is_const];
  method cls "GetTs" "uint64_t" [] [is_const];
  method cls "GetUid" "uint32_t" [] [is_const];
  method cls "IsExpired" "bool" [] [is_const];
  method cls "IsRunning" "bool" [] [is_const];
  method cls "PeekEventImpl" "ns3::EventImpl *" [] [is_const];
  method cls "Remove" "void" [] []].
Definition register_Ns3FreeBSDStackHelper_methods (cls : string) : list call := [
  constructor cls [];
  constructor cls [param "ns3::FreeBSDStackHelper const &" "arg0"];
  method cls "Install" "void" [param "std::string" "nodeName"] [is_static];
  method cls "Install" "void" [param "ns3::Ptr< ns3::Node >" "node"] [is_static];
  method cls "Install" "void" [param "ns3::NodeContainer" "c"] [is_static];
  method cls "InstallAll" "void" [] [is_static];
  method cls "PopulateRoutingTables" "void" [] [is_static];
  method cls "RunIp" "void" [param "ns3::Ptr< ns3::Node >" "node"; param "ns3::Time" "at";
    param "std::string" "str"] [is_static];
  method cls "SysctlGet" "void" [param "ns3::Ptr< ns3::Node >" "node"; param "ns3::Time" "at";
    param "std::string" "path"; param "void ( * ) ( std::string, std::string )" "callback"]
    [is_static];
  method cls "SysctlSet" "void" [param "ns3::NodeContainer" "c"; param "std::string" "path";
    param "std::string" "value"] []].
Definition register_Ns3Hasher_methods (cls : string) : list call := [
  constructor cls [param "ns3::Hasher const &" "arg0"];
  constructor cls [];
  constructor cls [param "ns3::Ptr< ns3::Hash::Implementation >" "hp"];
  method cls "GetHash32" "uint32_t" [param "char const *" "buffer";
    param "std::size_t const" "size"] [];
  method cls "GetHash32" "uint32_t" [param "std::string const" "s"] [];
  method cls "GetHash64" "uint64_t" [param "char const *" "buffer";
    param "std::size_t const" "size"] [];
  method cls "GetHash64" "uint64_t" [param "std::string const" "s"] [];
  method cls "clear" "ns3::Hasher &" [] []].
Definition register_Ns3Inet6SocketAddress_methods (cls : string) : list call := [
  constructor cls [param "ns3::Inet6SocketAddress const &" "arg0"];
  constructor cls [param "ns3::Ipv6Address" "ipv6"; param "uint16_t" "port"];
  constructor cls [param "ns3::Ipv6Address" "ipv6"];
  constructor cls [param "uint16_t" "port"];
  constructor cls [param "char const *" "ipv6"; param "uint16_t" "port"];
  constructor cls [param "char const *" "ipv6"];
  method cls "ConvertFrom" "ns3::Inet6SocketAddress" [param "ns3::Address const &" "addr"]
    [is_static];
  method cls "GetIpv6" "ns3::Ipv6Address" [] [is_const];
  method cls "GetPort" "uint16_t" [] [is_const];
  method cls "IsMatchingType" "bool" [param "ns3::Address const &" "addr"] [is_static];
  method cls "SetIpv6" "void" [param "ns3::Ipv6Address" "ipv6"] [];
  method cls "SetPort" "void" [param "uint16_t" "port"] []].
Definition register_Ns3InetSocketAddress_methods (cls : string) : list call := [
  constructor cls [param "ns3::InetSocketAddress const &" "arg0"];
  constructor cls [param "ns3::Ipv4Address" "ipv4"; param "uint16_t" "port"];
  constructor cls [param "ns3::Ipv4Address" "ipv4"];
  constructor cls [param "uint16_t" "port"];
  constructor cls [param "char const *" "ipv4"; param "uint16_t" "port"];
  constructor cls [param "char const *" "ipv4"];
  method cls "ConvertFrom" "ns3::InetSocketAddress" [param "ns3::Address const &" "address"]
    [is_static];
  method cls "GetIpv4" "ns3::Ipv4Address" [] [is_const];
  method cls "GetPort" "uint16_t" [] [is_const];
  method cls "GetTos" "uint8_t" [] [is_const];
  method cls "IsMatchingType" "bool" [param "ns3::Address const &" "address"] [is_static];
  method cls "SetIpv4" "void" [param "ns3::Ipv4Address" "address"] [];
  method cls "SetPort" "void" [param "uint16_t" "port"] [];
  method cls "SetTos" "void" [param "uint8_t" "tos"] []].
Definition register_Ns3Ipv4Address_methods (cls : string) : list call := [
  AddOutputStream cls;
  AddComparison cls "==";
  AddComparison cls "!=";
  AddComparison cls "<";
  constructor cls [param "ns3::Ipv4Address const &" "arg0"];
  constructor cls [];
  constructor cls [param "uint32_t" "address"];
  constructor cls [param "char const *" "address"];
  method cls "CombineMask" "ns3::Ipv4Address" [param "ns3::Ipv4Mask const &" "mask"] [is_const];
  method cls "ConvertFrom" "ns3::Ipv4Address" [param "ns3::Address const &" "address"] [is_static];
  method cls "Deserialize" "ns3::Ipv4Address" [param "uint8_t const *" "buf"] [is_static];
  method cls "Get" "uint32_t" [] [is_const];
  method cls "GetAny" "ns3::Ipv4Address" [] [is_static];
  method cls "GetBroadcast" "ns3::Ipv4Address" [] [is_static];
  method cls "GetLoopback" "ns3::Ipv4Address" [] [is_static];
  method cls "GetSubnetDirectedBroadcast" "ns3::Ipv4Address"
    [param "ns3::Ipv4Mask const &" "mask"] [is_const];
  method cls "GetZero" "ns3::Ipv4Address" [] [is_static];
  method cls "IsAny" "bool" [] [is_const];
  method cls "IsBroadcast" "bool" [] [is_const];
  method cls "IsEqual" "bool" [param "ns3::Ipv4Address const &" "other"] [("deprecated", VBool
    true); is_const];
  method cls "IsInitialized" "bool" [] [is_const];
  method cls "IsLocalMulticast" "bool" [] [is_const];
  method cls "IsLocalhost" "bool" [] [is_const];
  method cls "IsMatchingType" "bool" [param "ns3::Address const &" "address"] [is_static];
  method cls "IsMulticast" "bool" [] [is_const];
  method cls "IsSubnetDirectedBroadcast" "bool" [param "ns3::Ipv4Mask const &" "mask"] [is_const];
  method cls "Print" "void" [param "std::ostream &" "os"] [is_const];
  method cls "Serialize" "void" [param "uint8_t *" "buf"] [is_const];
  method cls "Set" "void" [param "uint32_t" "address"] [];
  method cls "Set" "void" [param "char const *" "address"] []].
Definition register_Ns3Ipv4AddressHash_methods (cls : string) : list call := [
  constructor cls [];
  constructor cls [param "ns3::Ipv4AddressHash const &" "arg0"];
  method cls "operator()" "size_t" [param "ns3::Ipv4Address const &" "x"]
    [("custom_name", VStr "__call__"); is_const]].
Definition register_Ns3Ipv4InterfaceAddress_methods (cls : string) : list call := [
  AddOutputStream cls;
  AddComparison cls "==";
  AddComparison cls "!=";
  constructor cls [];
  constructor cls [param "ns3::Ipv4Address" "local"; param "ns3::Ipv4Mask" "mask"];
  constructor cls [param "ns3::Ipv4InterfaceAddress const &" "o"];
  method cls "GetBroadcast" "ns3::Ipv4Address" [] [is_const];
  method cls "GetLocal" "ns3::Ipv4Address" [] [is_const];
  method cls "GetMask" "ns3::Ipv4Mask" [] [is_const];
  method cls "GetScope" "ns3::Ipv4InterfaceAddress::InterfaceAddressScope_e" [] [is_const];
  method cls "IsSecondary" "bool" [] [is_const];
  method cls "SetBroadcast" "void" [param "ns3::Ipv4Address" "broadcast"] [];
  method cls "SetLocal" "void" [param "ns3::Ipv4Address" "local"] [];
  method cls "SetMask" "void" [param "ns3::Ipv4Mask" "mask"] [];
  method cls "SetPrimary" "void" [] [];
  method cls "SetScope" "void"
    [param "ns3::Ipv4InterfaceAddress::InterfaceAddressScope_e" "scope"] [];
  method cls "SetSecondary" "void" [] []].
Definition register_Ns3Ipv4Mask_methods (cls : string) : list call := [
  AddOutputStream cls;
  AddComparison cls "==";
  AddComparison cls "!=";
  constructor cls [param "ns3::Ipv4Mask const &" "arg0"];
  constructor cls [];
  constructor cls [param "uint32_t" "mask"];
  constructor cls [param "char const *" "mask"];
  method cls "Get" "uint32_t" [] [is_const];
  method cls "GetInverse" "uint32_t" [] [is_const];
  method cls "GetLoopback" "ns3::Ipv4Mask" [] [is_static];
  method cls "GetOnes" "ns3::Ipv4Mask" [] [is_static];
  method cls "GetPrefixLength" "uint16_t" [] [is_const];
  method cls "GetZero" "ns3::Ipv4Mask" [] [is_static];
  method cls "IsEqual" "bool" [param "ns3::Ipv4Mask" "other"] [("deprecated", VBool true);
    is_const];
  method cls "IsMatch" "bool" [param "ns3::Ipv4Address" "a"; param "ns3::Ipv4Address" "b"]
    [is_const];
  method cls "Print" "void" [param "std::ostream &" "os"] [is_const];
  method cls "Set" "void" [param "uint32_t" "mask"] []].
Definition register_Ns3Ipv4RoutingHelper_methods (cls : string) : list call := [
  constructor cls [];
  constructor cls [param "ns3::Ipv4RoutingHelper const &" "arg0"];
  method cls "Copy" "ns3::Ipv4RoutingHelper *" [] [is_const; is_pure_virtual; is_virtual];
  method cls "Create" "ns3::Ptr< ns3::Ipv4RoutingProtocol >"
    [param "ns3::Ptr< ns3::Node >" "node"] [is_const; is_pure_virtual; is_virtual];
  method cls "PrintNeighborCacheAllAt" "void" [param "ns3::Time" "printTime";
    param "ns3::Ptr< ns3::OutputStreamWrapper >" "stream";
    param_default "ns3::Time::Unit" "unit" "::ns3::Time::Unit::S"] [is_static];
  method cls "PrintNeighborCacheAllEvery" "void" [param "ns3::Time" "printInterval";
    param "ns3::Ptr< ns3::OutputStreamWrapper >" "stream";
    param_default "ns3::Time::Unit" "unit" "::ns3::Time::Unit::S"] [is_static];
  method cls "PrintNeighborCacheAt" "void" [param "ns3::Time" "printTime";
    param "ns3::Ptr< ns3::Node >" "node"; param "ns3::Ptr< ns3::OutputStreamWrapper >" "stream";
    param_default "ns3::Time::Unit" "unit" "::ns3::Time::Unit::S"] [is_static];
  method cls "PrintNeighborCacheEvery" "void" [param "ns3::Time" "printInterval";
    param "ns3::Ptr< ns3::Node >" "node"; param "ns3::Ptr< ns3::OutputStreamWrapper >" "stream";
    param_default "ns3::Time::Unit" "unit" "::ns3::Time::Unit::S"] [is_static];
  method cls "PrintRoutingTableAllAt" "void" [param "ns3::Time" "printTime";
    param "ns3::Ptr< ns3::OutputStreamWrapper >" "stream";
    param_default "ns3::Time::Unit" "unit" "::ns3::Time::Unit::S"] [is_static];
  method cls "PrintRoutingTableAllEvery" "void" [param "ns3::Time" "printInterval";
    param "ns3::Ptr< ns3::OutputStreamWrapper >" "stream";
    param_default "ns3::Time::Unit" "unit" "::ns3::Time::Unit::S"] [is_static];
  method cls "PrintRoutingTableAt" "void" [param "ns3::Time" "printTime";
    param "ns3::Ptr< ns3::Node >" "node"; param "ns3::Ptr< ns3::OutputStreamWrapper >" "stream";
    param_default "ns3::Time::Unit" "unit" "::ns3::Time::Unit::S"] [is_static];
  method cls "PrintRoutingTableEvery" "void" [param "ns3::Time" "printInterval";
    param "ns3::Ptr< ns3::Node >" "node"; param "ns3::Ptr< ns3::OutputStreamWrapper >" "stream";
    param_default "ns3::Time::Unit" "unit" "::ns3::Time::Unit::S"] [is_static]].
Definition register_Ns3Ipv4StaticRoutingHelper_methods (cls : string) : list call := [
  constructor cls [];
  constructor cls [param "ns3::Ipv4StaticRoutingHelper const &" "o"];
  method cls "Copy" "ns3::Ipv4StaticRoutingHelper *" [] [is_const; is_virtual];
  method cls "Create" "ns3::Ptr< ns3::Ipv4RoutingProtocol >"
    [param "ns3::Ptr< ns3::Node >" "node"] [is_const; is_virtual];
  method cls "GetStaticRouting" "ns3::Ptr< ns3::Ipv4StaticRouting >"
    [param "ns3::Ptr< ns3::Ipv4 >" "ipv4"] [is_const];
  method cls "AddMulticastRoute" "void" [param "ns3::Ptr< ns3::Node >" "n";
    param "ns3::Ipv4Address" "source"; param "ns3::Ipv4Address" "group";
    param "ns3::Ptr< ns3::NetDevice >" "input"; param "ns3::NetDeviceContainer" "output"] [];
  method cls "AddMulticastRoute" "void" [param "std::string" "n";
    param "ns3::Ipv4Address" "source"; param "ns3::Ipv4Address" "group";
    param "ns3::Ptr< ns3::NetDevice >" "input"; param "ns3::NetDeviceContainer" "output"] [];
  method cls "AddMulticastRoute" "void" [param "ns3::Ptr< ns3::Node >" "n";
    param "ns3::Ipv4Address" "source"; param "ns3::Ipv4Address" "group";
    param "std::string" "inputName"; param "ns3::NetDeviceContainer" "output"] [];
  method cls "AddMulticastRoute" "void" [param "std::string" "nName";
    param "ns3::Ipv4Address" "source"; param "ns3::Ipv4Address" "group";
    param "std::string" "inputName"; param "ns3::NetDeviceContainer" "output"] [];
  method cls "SetDefaultMulticastRoute" "void" [param "ns3::Ptr< ns3::Node >" "n";
    param "ns3::Ptr< ns3::NetDevice >" "nd"] [];
  method cls "SetDefaultMulticastRoute" "void" [param "ns3::Ptr< ns3::Node >" "n";
    param "std::string" "ndName"] [];
  method cls "SetDefaultMulticastRoute" "void" [param "std::string" "nName";
    param "ns3::Ptr< ns3::NetDevice >" "nd"] [];
  method cls "SetDefaultMulticastRoute" "void" [param "std::string" "nName";
    param "std::string" "ndName"] []].
Definition register_Ns3Ipv6Address_methods (cls : string) : list call := [
  AddOutputStream cls;
  AddComparison cls "==";
  AddComparison cls "!=";
  AddComparison cls "<";
  constructor cls [];
  constructor cls [param "char const *" "address"];
  constructor cls [param "uint8_t *" "address"];
  constructor cls [param "ns3::Ipv6Address const &" "addr"];
  constructor cls [param "ns3::Ipv6Address const *" "addr"];
  method cls "CombinePrefix" "ns3::Ipv6Address" [param "ns3::Ipv6Prefix const &" "prefix"]
    [is_const];
  method cls "ConvertFrom" "ns3::Ipv6Address" [param "ns3::Address const &" "address"] [is_static];
  method cls "Deserialize" "ns3::Ipv6Address" [param "uint8_t const *" "buf"] [is_static];
  method cls "GetAllHostsMulticast" "ns3::Ipv6Address" [] [is_static];
  method cls "GetAllNodesMulticast" "ns3::Ipv6Address" [] [is_static];
  method cls "GetAllRoutersMulticast" "ns3::Ipv6Address" [] [is_static];
  method cls "GetAny" "ns3::Ipv6Address" [] [is_static];
  method cls "GetBytes" "void" [param "uint8_t *" "buf"] [is_const];
  method cls "GetIpv4MappedAddress" "ns3::Ipv4Address" [] [is_const];
  method cls "GetLoopback" "ns3::Ipv6Address" [] [is_static];
  method cls "GetOnes" "ns3::Ipv6Address" [] [is_static];
  method cls "GetZero" "ns3::Ipv6Address" [] [is_static];
  method cls "HasPrefix" "bool" [param "ns3::Ipv6Prefix const &" "prefix"] [is_const];
  method cls "IsAllNodesMulticast" "bool" [] [is_const];
  method cls "IsAllRoutersMulticast" "bool" [] [is_const];
  method cls "IsAny" "bool" [] [is_const];
  method cls "IsDocumentation" "bool" [] [is_const];
  method cls "IsEqual" "bool" [param "ns3::Ipv6Address const &" "other"] [("deprecated", VBool
    true); is_const];
  method cls "IsInitialized" "bool" [] [is_const];
  method cls "IsIpv4MappedAddress" "bool" [] [is_const];
  method cls "IsLinkLocal" "bool" [] [is_const];
  method cls "IsLinkLocalMulticast" "bool" [] [is_const];
  method cls "IsLocalhost" "bool" [] [is_const];
  method cls "IsMatchingType" "bool" [param "ns3::Address const &" "address"] [is_static];
  method cls "IsMulticast" "bool" [] [is_const];
  method cls "IsSolicitedMulticast" "bool" [] [is_const];
  method cls "MakeAutoconfiguredAddress" "ns3::Ipv6Address" [param "ns3::Address" "addr";
    param "ns3::Ipv6Address" "prefix"] [is_static];
  method cls "MakeAutoconfiguredAddress" "ns3::Ipv6Address" [param "ns3::Address" "addr";
    param "ns3::Ipv6Prefix" "prefix"] [is_static];
  method cls "MakeAutoconfiguredAddress" "ns3::Ipv6Address" [param "ns3::Mac16Address" "addr";
    param "ns3::Ipv6Address" "prefix"] [is_static];
  method cls "MakeAutoconfiguredAddress" "ns3::Ipv6Address" [param "ns3::Mac48Address" "addr";
    param "ns3::Ipv6Address" "prefix"] [is_static];
  method cls "MakeAutoconfiguredAddress" "ns3::Ipv6Address" [param "ns3::Mac64Address" "addr";
    param "ns3::Ipv6Address" "prefix"] [is_static];
  method cls "MakeAutoconfiguredAddress" "ns3::Ipv6Address" [param "ns3::Mac8Address" "addr";
    param "ns3::Ipv6Address" "prefix"] [is_static];
  method cls "MakeAutoconfiguredLinkLocalAddress" "ns3::Ipv6Address" [param "ns3::Address" "mac"]
    [is_static];
  method cls "MakeAutoconfiguredLinkLocalAddress" "ns3::Ipv6Address"
    [param "ns3::Mac16Address" "mac"] [is_static];
  method cls "MakeAutoconfiguredLinkLocalAddress" "ns3::Ipv6Address"
    [param "ns3::Mac48Address" "mac"] [is_static];
  method cls "MakeAutoconfiguredLinkLocalAddress" "ns3::Ipv6Address"
    [param "ns3::Mac64Address" "mac"] [is_static];
  method cls "MakeAutoconfiguredLinkLocalAddress" "ns3::Ipv6Address"
    [param "ns3::Mac8Address" "mac"] [is_static];
  method cls "MakeIpv4MappedAddress" "ns3::Ipv6Address" [param "ns3::Ipv4Address" "addr"]
    [is_static];
  method cls "MakeSolicitedAddress" "ns3::Ipv6Address" [param "ns3::Ipv6Address" "addr"]
    [is_static];
  method cls "Print" "void" [param "std::ostream &" "os"] [is_const];
  method cls "Serialize" "void" [param "uint8_t *" "buf"] [is_const];
  method cls "Set" "void" [param "char const *" "address"] [];
  method cls "Set" "void" [param "uint8_t *" "address"] []].
Definition register_Ns3Ipv6AddressHash_methods (cls : string) : list call := [
  constructor cls [];
  constructor cls [param "ns3::Ipv6AddressHash const &" "arg0"];
  method cls "operator()" "size_t" [param "ns3::Ipv6Address const &" "x"]
    [("custom_name", VStr "__call__"); is_const]].
Definition register_Ns3Ipv6InterfaceAddress_methods (cls : string) : list call := [
  AddOutputStream cls;
  AddComparison cls "==";
  AddComparison cls "!=";
  constructor cls [];
  constructor cls [param "ns3::Ipv6Address" "address"];
  constructor cls [param "ns3::Ipv6Address" "address"; param "ns3::Ipv6Prefix" "prefix"];
  constructor cls [param "ns3::Ipv6Address" "address"; param "ns3::Ipv6Prefix" "prefix";
    param "bool" "onLink"];
  constructor cls [param "ns3::Ipv6InterfaceAddress const &" "o"];
  method cls "GetAddress" "ns3::Ipv6Address" [] [is_const];
  method cls "GetNsDadUid" "uint32_t" [] [is_const];
  method cls "GetOnLink" "bool" [] [is_const];
  method cls "GetPrefix" "ns3::Ipv6Prefix" [] [is_const];
  method cls "GetScope" "ns3::Ipv6InterfaceAddress::Scope_e" [] [is_const];
  method cls "GetState" "ns3::Ipv6InterfaceAddress::State_e" [] [is_const];
  method cls "IsInSameSubnet" "bool" [param "ns3::Ipv6Address" "b"] [is_const];
  method cls "SetAddress" "void" [param "ns3::Ipv6Address" "address"] [];
  method cls "SetNsDadUid" "void" [param "uint32_t" "uid"] [];
  method cls "SetOnLink" "void" [param "bool" "onLink"] [];
  method cls "SetScope" "void" [param "ns3::Ipv6InterfaceAddress::Scope_e" "scope"] [];
  method cls "SetState" "void" [param "ns3::Ipv6InterfaceAddress::State_e" "state"] []].
Definition register_Ns3Ipv6Prefix_methods (cls : string) : list call := [
  AddOutputStream cls;
  AddComparison cls "==";
  AddComparison cls "!=";
  constructor cls [];
  constructor cls [param "uint8_t *" "prefix"];
  constructor cls [param "char const *" "prefix"];
  constructor cls [param "uint8_t *" "prefix"; param "uint8_t" "prefixLength"];
  constructor cls [param "char const *" "prefix"; param "uint8_t" "prefixLength"];
  constructor cls [param "uint8_t" "prefix"];
  constructor cls [param "ns3::Ipv6Prefix const &" "prefix"];
  constructor cls [param "ns3::Ipv6Prefix const *" "prefix"];
  method cls "ConvertToIpv6Address" "ns3::Ipv6Address" [] [is_const];
  method cls "GetBytes" "void" [param "uint8_t *" "buf"] [is_const];
  method cls "GetLoopback" "ns3::Ipv6Prefix" [] [is_static];
  method cls "GetMinimumPrefixLength" "uint8_t" [] [is_const];
  method cls "GetOnes" "ns3::Ipv6Prefix" [] [is_static];
  method cls "GetPrefixLength" "uint8_t" [] [is_const];
  method cls "GetZero" "ns3::Ipv6Prefix" [] [is_static];
  method cls "IsEqual" "bool" [param "ns3::Ipv6Prefix const &" "other"] [("deprecated", VBool
    true); is_const];
  method cls "IsMatch" "bool" [param "ns3::Ipv6Address" "a"; param "ns3::Ipv6Address" "b"]
    [is_const];
  method cls "Print" "void" [param "std::ostream &" "os"] [is_const];
  method cls "SetPrefixLength" "void" [param "uint8_t" "prefixLength"] []].
Definition register_Ns3LinuxStackHelper_methods (cls : string) : list call := [
  constructor cls [param "ns3::LinuxStackHelper const &" "arg0"];
  constructor cls [];
  method cls "Install" "void" [param "std::string" "nodeName"] [];
  method cls "Install" "void" [param "ns3::Ptr< ns3::Node >" "node"] [];
  method cls "Install" "void" [param "ns3::NodeContainer" "c"] [];
  method cls "InstallAll" "void" [] [];
  method cls "PopulateRoutingTables" "void" [] [is_static];
  method cls "RunIp" "void" [param "ns3::Ptr< ns3::Node >" "node"; param "ns3::Time" "at";
    param "std::string" "str"] [is_static];
  method cls "SetRoutingHelper" "void" [param "ns3::Ipv4RoutingHelper const &" "routing"] [];
  method cls "SysctlGet" "void" [param "ns3::Ptr< ns3::Node >" "node"; param "ns3::Time" "at";
    param "std::string" "path"; param "void ( * ) ( std::string, std::string )" "callback"]
    [is_static];
  method cls "SysctlSet" "void" [param "ns3::NodeContainer" "c"; param "std::string" "path";
    param "std::string" "value"] []].
Definition register_Ns3Loader_methods (cls : string) : list call := [
  constructor cls [];
  constructor cls [param "ns3::Loader const &" "arg0"];
  method cls "Clone" "ns3::Loader *" [] [is_pure_virtual; is_virtual];
  method cls "Load" "void *" [param "std::string" "filename"; param "int" "flag";
    param_default "bool" "failsafe" "false"] [is_pure_virtual; is_virtual];
  method cls "Lookup" "void *" [param "void *" "module"; param "std::string" "symbol"]
    [is_pure_virtual; is_virtual];
  method cls "NotifyEndExecute" "void" [] [is_virtual];
  method cls "NotifyStartExecute" "void" [] [is_virtual];
  method cls "Unload" "void" [param "void *" "module"] [is_pure_virtual; is_virtual];
  method cls "UnloadAll" "void" [] [is_pure_virtual; is_virtual]].
Definition register_Ns3LogComponent_methods (cls : string) : list call := [
  constructor cls [param "ns3::LogComponent const &" "arg0"];
  constructor cls [param "std::string const &" "name"; param "std::string const &" "file";
    param_default "ns3::LogLevel const" "mask" "::ns3::LogLevel::LOG_NONE"];
  method cls "Disable" "void" [param "ns3::LogLevel const" "level"] [];
  method cls "Enable" "void" [param "ns3::LogLevel const" "level"] [];
  method cls "File" "std::string" [] [is_const];
  method cls "GetComponentList" "ns3::LogComponent::ComponentList *" [] [is_static];
  method cls "GetLevelLabel" "std::string" [param "ns3::LogLevel const" "level"] [is_static];
  method cls "IsEnabled" "bool" [param "ns3::LogLevel const" "level"] [is_const];
  method cls "IsNoneEnabled" "bool" [] [is_const];
  method cls "Name" "char const *" [] [is_const];
  method cls "SetMask" "void" [param "ns3::LogLevel const" "level"] []].
Definition register_Ns3Mac48Address_methods (cls : string) : list call := [
  AddComparison cls "==";
  AddComparison cls "!=";
  AddComparison cls "<";
  AddOutputStream cls;
  constructor cls [param "ns3::Mac48Address const &" "arg0"];
  constructor cls [];
  constructor cls [param "char const *" "str"];
  method cls "Allocate" "ns3::Mac48Address" [] [is_static];
  method cls "ConvertFrom" "ns3::Mac48Address" [param "ns3::Address const &" "address"]
    [is_static];
  method cls "CopyFrom" "void" [param "uint8_t const *" "buffer"] [];
  method cls "CopyTo" "void" [param "uint8_t *" "buffer"] [is_const];
  method cls "GetBroadcast" "ns3::Mac48Address" [] [is_static];
  method cls "GetMulticast" "ns3::Mac48Address" [param "ns3::Ipv4Address" "address"] [is_static];
  method cls "GetMulticast" "ns3::Mac48Address" [param "ns3::Ipv6Address" "address"] [is_static];
  method cls "GetMulticast6Prefix" "ns3::Mac48Address" [] [is_static];
  method cls "GetMulticastPrefix" "ns3::Mac48Address" [] [is_static];
  method cls "IsBroadcast" "bool" [] [is_const];
  method cls "IsGroup" "bool" [] [is_const];
  method cls "IsMatchingType" "bool" [param "ns3::Address const &" "address"] [is_static]].
Definition register_Ns3Mac8Address_methods (cls : string) : list call := [
  AddComparison cls "<";
  AddComparison cls "==";
  AddComparison cls "!=";
  AddOutputStream cls;
  constructor cls [param "ns3::Mac8Address const &" "arg0"];
  constructor cls [];
  constructor cls [param "uint8_t" "addr"];
  method cls "Allocate" "ns3::Mac8Address" [] [is_static];
  method cls "ConvertFrom" "ns3::Mac8Address" [param "ns3::Address const &" "address"] [is_static];
  method cls "CopyFrom" "void" [param "uint8_t const *" "pBuffer"] [];
  method cls "CopyTo" "void" [param "uint8_t *" "pBuffer"] [is_const];
  method cls "GetBroadcast" "ns3::Mac8Address" [] [is_static];
  method cls "IsMatchingType" "bool" [param "ns3::Address const &" "address"] [is_static]].
Definition register_Ns3Mutex_methods (cls : string) : list call := [
  constructor cls [];
  constructor cls [param "ns3::Mutex const &" "arg0"];
  AddInstanceAttribute cls "count" "uint32_t" [not_const];
  AddInstanceAttribute cls "current" "ns3::Thread *" [not_const];
  AddInstanceAttribute cls "mid" "uint32_t" [not_const];
  AddInstanceAttribute cls "waiting" "std::list< ns3::Thread * >" [not_const]].
Definition register_Ns3NetDeviceContainer_methods (cls : string) : list call := [
  constructor cls [param "ns3::NetDeviceContainer const &" "arg0"];
  constructor cls [];
  constructor cls [param "ns3::Ptr< ns3::NetDevice >" "dev"];
  constructor cls [param "std::string" "devName"];
  constructor cls [param "ns3::NetDeviceContainer const &" "a";
    param "ns3::NetDeviceContainer const &" "b"];
  method cls "Add" "void" [param "ns3::NetDeviceContainer" "other"] [];
  method cls "Add" "void" [param "ns3::Ptr< ns3::NetDevice >" "device"] [];
  method cls "Add" "void" [param "std::string" "deviceName"] [];
  method cls "Begin" "ns3::NetDeviceContainer::Iterator" [] [is_const];
  method cls "End" "ns3::NetDeviceContainer::Iterator" [] [is_const];
  method cls "Get" "ns3::Ptr< ns3::NetDevice >" [param "uint32_t" "i"] [is_const];
  method cls "GetN" "uint32_t" [] [is_const]].
End ApiMethods1.
