(* ===== verification/ApiMethods2.v ===== *)
(** * The table of the bindings: methods, part 2 of 5

    bindings/modulegen__gcc_ILP32.py: the constructors, methods, attributes and operators of the
    classes from ns3::NodeContainer to ns3::Ipv6Header, one definition for each function. *)
From Stdlib Require Import ZArith Ascii String.
From stdpp Require Import base list strings.
From S2P Require Import Prelude PyStr Pybindgen.

Module ApiMethods2.
Import Pybindgen.

Definition register_Ns3NodeContainer_methods (cls : string) : list call := [
  constructor cls [param "ns3::NodeContainer const &" "arg0"];
  constructor cls [];
  constructor cls [param "ns3::Ptr< ns3::Node >" "node"];
  constructor cls [param "std::string" "nodeName"];
  constructor cls [param "uint32_t" "n"; param_default "uint32_t" "systemId" "0"];
  constructor cls [param "ns3::NodeContainer const &" "a"; param "ns3::NodeContainer const &" "b"];
  constructor cls [param "ns3::NodeContainer const &" "a"; param "ns3::NodeContainer const &" "b";
    param "ns3::NodeContainer const &" "c"];
  constructor cls [param "ns3::NodeContainer const &" "a"; param "ns3::NodeContainer const &" "b";
    param "ns3::NodeContainer const &" "c"; param "ns3::NodeContainer const &" "d"];
  constructor cls [param "ns3::NodeContainer const &" "a"; param "ns3::NodeContainer const &" "b";
    param "ns3::NodeContainer const &" "c"; param "ns3::NodeContainer const &" "d";
    param "ns3::NodeContainer const &" "e"];
  method cls "Add" "void" [param "ns3::NodeContainer" "other"] [];
  method cls "Add" "void" [param "ns3::Ptr< ns3::Node >" "node"] [];
  method cls "Add" "void" [param "std::string" "nodeName"] [];
  method cls "Begin" "ns3::NodeContainer::Iterator" [] [is_const];
  method cls "Contains" "bool" [param "uint32_t" "id"] [is_const];
  method cls "Create" "void" [param "uint32_t" "n"] [];
  method cls "Create" "void" [param "uint32_t" "n"; param "uint32_t" "systemId"] [];
  method cls "End" "ns3::NodeContainer::Iterator" [] [is_const];
  method cls "Get" "ns3::Ptr< ns3::Node >" [param "uint32_t" "i"] [is_const];
  method cls "GetGlobal" "ns3::NodeContainer" [] [is_static];
  method cls "GetN" "uint32_t" [] [is_const]].
Definition register_Ns3ObjectBase_methods (cls : string) : list call := [
  constructor cls [];
  constructor cls [param "ns3::ObjectBase const &" "arg0"];
  method cls "GetAttribute" "void" [param "std::string" "name";
    param "ns3::AttributeValue &" "value"] [is_const];
  method cls "GetAttributeFailSafe" "bool" [param "std::string" "name";
    param "ns3::AttributeValue &" "value"] [is_const];
  method cls "GetInstanceTypeId" "ns3::TypeId" [] [is_const; is_pure_virtual; is_virtual];
  method cls "GetTypeId" "ns3::TypeId" [] [is_static];
  method cls "SetAttribute" "void" [param "std::string" "name";
    param "ns3::AttributeValue const &" "value"] [];
  method cls "SetAttributeFailSafe" "bool" [param "std::string" "name";
    param "ns3::AttributeValue const &" "value"] [];
  method cls "TraceConnect" "bool" [param "std::string" "name"; param "std::string" "context";
    param "ns3::CallbackBase const &" "cb"] [];
  method cls "TraceConnectWithoutContext" "bool" [param "std::string" "name";
    param "ns3::CallbackBase const &" "cb"] [];
  method cls "TraceDisconnect" "bool" [param "std::string" "name"; param "std::string" "context";
    param "ns3::CallbackBase const &" "cb"] [];
  method cls "TraceDisconnectWithoutContext" "bool" [param "std::string" "name";
    param "ns3::CallbackBase const &" "cb"] [];
  method cls "ConstructSelf" "void" [param "ns3::AttributeConstructionList const &" "attributes"]
    [visibility "protected"];
  method cls "NotifyConstructionCompleted" "void" [] [is_virtual; visibility "protected"]].
Definition register_Ns3ObjectDeleter_methods (cls : string) : list call := [
  constructor cls [];
  constructor cls [param "ns3::ObjectDeleter const &" "arg0"];
  method cls "Delete" "void" [param "ns3::Object *" "object"] [is_static]].
Definition register_Ns3ObjectFactory_methods (cls : string) : list call := [
  AddOutputStream cls;
  constructor cls [param "ns3::ObjectFactory const &" "arg0"];
  constructor cls [];
  method cls "Create" "ns3::Ptr< ns3::Object >" [] [is_const];
  method cls "GetTypeId" "ns3::TypeId" [] [is_const];
  method cls "IsTypeIdSet" "bool" [] [is_const];
  method cls "Set" "void" [] [];
  method cls "SetTypeId" "void" [param "ns3::TypeId" "tid"] [];
  method cls "SetTypeId" "void" [param "char const *" "tid"] [];
  method cls "SetTypeId" "void" [param "std::string" "tid"] []].
Definition register_Ns3PacketMetadata_methods (cls : string) : list call := [
  constructor cls [param "uint64_t" "uid"; param "uint32_t" "size"];
  constructor cls [param "ns3::PacketMetadata const &" "o"];
  method cls "AddAtEnd" "void" [param "ns3::PacketMetadata const &" "o"] [];
  method cls "AddHeader" "void" [param "ns3::Header const &" "header"; param "uint32_t" "size"] [];
  method cls "AddPaddingAtEnd" "void" [param "uint32_t" "end"] [];
  method cls "AddTrailer" "void" [param "ns3::Trailer const &" "trailer"; param "uint32_t" "size"]
    [];
  method cls "BeginItem" "ns3::PacketMetadata::ItemIterator" [param "ns3::Buffer" "buffer"]
    [is_const];
  method cls "CreateFragment" "ns3::PacketMetadata" [param "uint32_t" "start";
    param "uint32_t" "end"] [is_const];
  method cls "Deserialize" "uint32_t" [param "uint8_t const *" "buffer"; param "uint32_t" "size"]
    [];
  method cls "Enable" "void" [] [is_static];
  method cls "EnableChecking" "void" [] [is_static];
  method cls "GetSerializedSize" "uint32_t" [] [is_const];
  method cls "GetUid" "uint64_t" [] [is_const];
  method cls "RemoveAtEnd" "void" [param "uint32_t" "end"] [];
  method cls "RemoveAtStart" "void" [param "uint32_t" "start"] [];
  method cls "RemoveHeader" "void" [param "ns3::Header const &" "header"; param "uint32_t" "size"]
    [];
  method cls "RemoveTrailer" "void" [param "ns3::Trailer const &" "trailer";
    param "uint32_t" "size"] [];
  method cls "Serialize" "uint32_t" [param "uint8_t *" "buffer"; param "uint32_t" "maxSize"]
    [is_const]].
Definition register_Ns3PacketMetadataItem_methods (cls : string) : list call := [
  constructor cls [];
  constructor cls [param "ns3::PacketMetadata::Item const &" "arg0"];
  AddInstanceAttribute cls "current" "ns3::Buffer::Iterator" [not_const];
  AddInstanceAttribute cls "currentSize" "uint32_t" [not_const];
  AddInstanceAttribute cls "currentTrimedFromEnd" "uint32_t" [not_const];
  AddInstanceAttribute cls "currentTrimedFromStart" "uint32_t" [not_const];
  AddInstanceAttribute cls "isFragment" "bool" [not_const];
  AddInstanceAttribute cls "tid" "ns3::TypeId" [not_const];
  AddInstanceAttribute cls "type" "ns3::PacketMetadata::Item::ItemType" [not_const]].
Definition register_Ns3PacketMetadataItemIterator_methods (cls : string) : list call := [
  constructor cls [param "ns3::PacketMetadata::ItemIterator const &" "arg0"];
  constructor cls [param "ns3::PacketMetadata const *" "metadata"; param "ns3::Buffer" "buffer"];
  method cls "HasNext" "bool" [] [is_const];
  method cls "Next" "ns3::PacketMetadata::Item" [] []].
Definition register_Ns3PacketTagIterator_methods (cls : string) : list call := [
  constructor cls [param "ns3::PacketTagIterator const &" "arg0"];
  method cls "HasNext" "bool" [] [is_const];
  method cls "Next" "ns3::PacketTagIterator::Item" [] []].
Definition register_Ns3PacketTagIteratorItem_methods (cls : string) : list call := [
  constructor cls [param "ns3::PacketTagIterator::Item const &" "arg0"];
  method cls "GetTag" "void" [param "ns3::Tag &" "tag"] [is_const];
  method cls "GetTypeId" "ns3::TypeId" [] [is_const]].
Definition register_Ns3PacketTagList_methods (cls : string) : list call := [
  constructor cls [];
  constructor cls [param "ns3::PacketTagList const &" "o"];
  method cls "Add" "void" [param "ns3::Tag const &" "tag"] [is_const];
  method cls "Deserialize" "uint32_t" [param "uint32_t const *" "buffer"; param "uint32_t" "size"]
    [];
  method cls "GetSerializedSize" "uint32_t" [] [is_const];
  method cls "Head" "ns3::PacketTagList::TagData const *" [] [is_const];
  method cls "Peek" "bool" [param "ns3::Tag &" "tag"] [is_const];
  method cls "Remove" "bool" [param "ns3::Tag &" "tag"] [];
  method cls "RemoveAll" "void" [] [];
  method cls "Replace" "bool" [param "ns3::Tag &" "tag"] [];
  method cls "Serialize" "uint32_t" [param "uint32_t *" "buffer"; param "uint32_t" "maxSize"]
    [is_const]].
Definition register_Ns3PacketTagListTagData_methods (cls : string) : list call := [
  constructor cls [];
  constructor cls [param "ns3::PacketTagList::TagData const &" "arg0"];
  AddInstanceAttribute cls "count" "uint32_t" [not_const];
  AddInstanceAttribute cls "data" "uint8_t [ 1 ]" [not_const];
  AddInstanceAttribute cls "next" "ns3::PacketTagList::TagData *" [not_const];
  AddInstanceAttribute cls "size" "uint32_t" [not_const];
  AddInstanceAttribute cls "tid" "ns3::TypeId" [not_const]].
Definition register_Ns3ParameterLogger_methods (cls : string) : list call := [
  constructor cls [param "ns3::ParameterLogger const &" "arg0"];
  constructor cls [param "std::ostream &" "os"]].
Definition register_Ns3PollTableEntry_methods (cls : string) : list call := [
  constructor cls [];
  constructor cls [param "ns3::UnixFd *" "file"; param "ns3::WaitQueueEntryPoll *" "wait";
    param "short int" "eventMask"];
  method cls "FreeWait" "void" [] [is_virtual];
  method cls "IsEventMatch" "int" [param "short int" "e"] [is_const];
  constructor cls [param "ns3::PollTableEntry const &" "arg0"]].
Definition register_Ns3PollTableEntryLinux_methods (cls : string) : list call := [
  constructor cls [param "void *" "kernelReference";
    param "ns3::Callback< void, void *, ns3::empty, ns3::empty, ns3::empty, ns3::empty, ns3::empty, ns3::empty, ns3::empty, ns3::empty >" "cb"];
  method cls "FreeWait" "void" [] [is_virtual];
  constructor cls [param "ns3::PollTableEntryLinux const &" "arg0"]].
Definition register_Ns3ProcStatus_methods (cls : string) : list call := [
  constructor cls [param "ns3::ProcStatus const &" "arg0"];
  constructor cls [];
  constructor cls [param "int" "n"; param "int" "e"; param "int" "p"; param "int64_t" "ns";
    param "int64_t" "ne"; param "long int" "rs"; param "long int" "re"; param "double" "nd";
    param "long int" "rd"; param "std::string" "cmd"];
  method cls "GetCmdLine" "std::string" [] [is_const];
  method cls "GetExitCode" "int" [] [is_const];
  method cls "GetNode" "int" [] [is_const];
  method cls "GetPid" "int" [] [is_const];
  method cls "GetRealDuration" "long int" [] [is_const];
  method cls "GetRealEndTime" "long int" [] [is_const];
  method cls "GetRealStartTime" "long int" [] [is_const];
  method cls "GetSimulatedDuration" "double" [] [is_const];
  method cls "GetSimulatedEndTime" "int64_t" [] [is_const];
  method cls "GetSimulatedStartTime" "int64_t" [] [is_const]].
Definition register_Ns3Process_methods (cls : string) : list call := [
  constructor cls [];
  constructor cls [param "ns3::Process const &" "arg0"];
  AddInstanceAttribute cls "alloc" "KingsleyAlloc *" [not_const];
  AddInstanceAttribute cls "allocated" "std::vector< void * >" [not_const];
  AddInstanceAttribute cls "asctime_result" "char [ 114 ]" [not_const];
  AddInstanceAttribute cls "atExitHandlers" "std::vector< ns3::AtExitHandler >" [not_const];
  AddInstanceAttribute cls "children" "std::set< unsigned short >" [not_const];
  AddInstanceAttribute cls "conditions" "std::vector< ns3::Condition * >" [not_const];
  AddInstanceAttribute cls "cwd" "std::string" [not_const];
  AddInstanceAttribute cls "egid" "gid_t" [not_const];
  AddInstanceAttribute cls "euid" "uid_t" [not_const];
  AddInstanceAttribute cls "finished"
    "ns3::Callback< void, unsigned short, int, ns3::empty, ns3::empty, ns3::empty, ns3::empty, ns3::empty, ns3::empty, ns3::empty >"
    [not_const];
  AddInstanceAttribute cls "itimer" "ns3::EventId" [not_const];
  AddInstanceAttribute cls "itimerInterval" "ns3::Time" [not_const];
  AddInstanceAttribute cls "loader" "ns3::Loader *" [not_const];
  AddInstanceAttribute cls "mainHandle" "void *" [not_const];
  AddInstanceAttribute cls "manager" "ns3::DceManager *" [not_const];
  AddInstanceAttribute cls "minimizeFiles" "uint8_t" [not_const];
  AddInstanceAttribute cls "mutexes" "std::vector< ns3::Mutex * >" [not_const];
  AddInstanceAttribute cls "name" "std::string" [not_const];
  AddInstanceAttribute cls "nextCid" "uint32_t" [not_const];
  AddInstanceAttribute cls "nextMid" "uint32_t" [not_const];
  AddInstanceAttribute cls "nextSid" "uint32_t" [not_const];
  AddInstanceAttribute cls "nextThreadKey" "pthread_key_t" [not_const];
  AddInstanceAttribute cls "nodeId" "uint32_t" [not_const];
  AddInstanceAttribute cls "openDirs" "std::vector< __dirstream * >" [not_const];
  AddInstanceAttribute cls "openFiles" "std::map< int, ns3::FileUsage * >" [not_const];
  AddInstanceAttribute cls "openStreams" "std::vector< _IO_FILE * >" [not_const];
  AddInstanceAttribute cls "originalArgc" "int" [not_const];
  AddInstanceAttribute cls "originalArgv" "char * *" [not_const];
  AddInstanceAttribute cls "originalEnvp" "char * *" [not_const];
  AddInstanceAttribute cls "originalProgname" "char *" [not_const];
  AddInstanceAttribute cls "pendingSignals" "sigset_t" [not_const];
  AddInstanceAttribute cls "penvp" "char * * *" [not_const];
  AddInstanceAttribute cls "pgid" "uint16_t" [not_const];
  AddInstanceAttribute cls "pid" "uint16_t" [not_const];
  AddInstanceAttribute cls "poptarg" "char * *" [not_const];
  AddInstanceAttribute cls "popterr" "int *" [not_const];
  AddInstanceAttribute cls "poptind" "int *" [not_const];
  AddInstanceAttribute cls "poptopt" "int *" [not_const];
  AddInstanceAttribute cls "ppid" "uint16_t" [not_const];
  AddInstanceAttribute cls "pstderr" "FILE * *" [not_const];
  AddInstanceAttribute cls "pstdin" "FILE * *" [not_const];
  AddInstanceAttribute cls "pstdout" "FILE * *" [not_const];
  AddInstanceAttribute cls "rgid" "gid_t" [not_const];
  AddInstanceAttribute cls "rndVariable" "ns3::Ptr< ns3::RandomVariableStream >" [not_const];
  AddInstanceAttribute cls "ruid" "uid_t" [not_const];
  AddInstanceAttribute cls "seed48Current" "drand48_data" [not_const];
  AddInstanceAttribute cls "semaphores" "std::vector< ns3::Semaphore * >" [not_const];
  AddInstanceAttribute cls "sgid" "gid_t" [not_const];
  AddInstanceAttribute cls "signalHandlers" "std::vector< ns3::SignalHandler >" [not_const];
  AddInstanceAttribute cls "stdinFilename" "std::string" [not_const];
  AddInstanceAttribute cls "struct_tm" "tm" [not_const];
  AddInstanceAttribute cls "suid" "uid_t" [not_const];
  AddInstanceAttribute cls "syslog" "FILE *" [not_const];
  AddInstanceAttribute cls "threads" "std::vector< ns3::Thread * >" [not_const];
  AddInstanceAttribute cls "timing" "ns3::ProcessActivity" [not_const];
  AddInstanceAttribute cls "uMask" "mode_t" [not_const]].
Definition register_Ns3ProcessActivity_methods (cls : string) : list call := [
  constructor cls [];
  constructor cls [param "ns3::ProcessActivity const &" "arg0"];
  AddInstanceAttribute cls "cmdLine" "std::string" [not_const];
  AddInstanceAttribute cls "exitValue" "int" [not_const];
  AddInstanceAttribute cls "ns3End" "int64_t" [not_const];
  AddInstanceAttribute cls "ns3Start" "int64_t" [not_const];
  AddInstanceAttribute cls "realEnd" "time_t" [not_const];
  AddInstanceAttribute cls "realStart" "time_t" [not_const]].
Definition register_Ns3SearchPath_methods (cls : string) : list call := [
  constructor cls [param "ns3::SearchPath const &" "arg0"];
  constructor cls [param "std::string" "basepath"; param "std::string" "path";
    param "bool" "virt"];
  method cls "SeekFile" "std::string" [param "std::string" "file"; param "std::string" "cwd";
    param "void *" "userData"; param "bool ( * ) ( std::string, void * )" "checker"] []].
Definition register_Ns3Semaphore_methods (cls : string) : list call := [
  constructor cls [];
  constructor cls [param "ns3::Semaphore const &" "arg0"];
  AddInstanceAttribute cls "count" "uint32_t" [not_const];
  AddInstanceAttribute cls "sid" "uint32_t" [not_const];
  AddInstanceAttribute cls "waiting" "std::list< ns3::Thread * >" [not_const]].
Definition register_Ns3SignalHandler_methods (cls : string) : list call := [
  constructor cls [];
  constructor cls [param "ns3::SignalHandler const &" "arg0"];
  AddInstanceAttribute cls "flags" "int" [not_const];
  AddInstanceAttribute cls "handler" "void ( * ) ( int )" [not_const];
  AddInstanceAttribute cls "mask" "sigset_t" [not_const];
  AddInstanceAttribute cls "sigaction" "void ( * ) ( int, siginfo_t *, void * )" [not_const];
  AddInstanceAttribute cls "signal" "int" [not_const]].
Definition register_Ns3SimpleRefCount__Ns3Object_Ns3ObjectBase_Ns3ObjectDeleter_methods (cls : string) : list call := [
  constructor cls [];
  constructor cls
    [param "ns3::SimpleRefCount< ns3::Object, ns3::ObjectBase, ns3::ObjectDeleter > const &" "o"]].
Definition register_Ns3Simulator_methods (cls : string) : list call := [
  constructor cls [param "ns3::Simulator const &" "arg0"];
  method cls "Cancel" "void" [param "ns3::EventId const &" "id"] [is_static];
  method cls "Destroy" "void" [] [is_static];
  method cls "GetContext" "uint32_t" [] [is_static];
  method cls "GetDelayLeft" "ns3::Time" [param "ns3::EventId const &" "id"] [is_static];
  method cls "GetEventCount" "uint64_t" [] [is_static];
  method cls "GetImplementation" "ns3::Ptr< ns3::SimulatorImpl >" [] [is_static];
  method cls "GetMaximumSimulationTime" "ns3::Time" [] [is_static];
  method cls "GetSystemId" "uint32_t" [] [is_static];
  method cls "IsExpired" "bool" [param "ns3::EventId const &" "id"] [is_static];
  method cls "IsFinished" "bool" [] [is_static];
  method cls "Now" "ns3::Time" [] [is_static];
  method cls "Remove" "void" [param "ns3::EventId const &" "id"] [is_static];
  method cls "SetImplementation" "void" [param "ns3::Ptr< ns3::SimulatorImpl >" "impl"]
    [is_static];
  method cls "SetScheduler" "void" [param "ns3::ObjectFactory" "schedulerFactory"] [is_static];
  method cls "Stop" "void" [] [is_static];
  method cls "Stop" "void" [param "ns3::Time const &" "delay"] [is_static]].
Definition register_Ns3Sleeper_methods (cls : string) : list call := [
  constructor cls [param "ns3::Task *" "t"; param "ns3::Time" "to"];
  AddInstanceAttribute cls "m_task" "ns3::Task * const" [is_const];
  AddInstanceAttribute cls "m_timeout" "ns3::Time const" [is_const];
  constructor cls [param "ns3::Sleeper const &" "arg0"]].
Definition register_Ns3Tag_methods (cls : string) : list call := [
  constructor cls [];
  constructor cls [param "ns3::Tag const &" "arg0"];
  method cls "Deserialize" "void" [param "ns3::TagBuffer" "i"] [is_pure_virtual; is_virtual];
  method cls "GetSerializedSize" "uint32_t" [] [is_const; is_pure_virtual; is_virtual];
  method cls "GetTypeId" "ns3::TypeId" [] [is_static];
  method cls "Print" "void" [param "std::ostream &" "os"] [is_const; is_pure_virtual; is_virtual];
  method cls "Serialize" "void" [param "ns3::TagBuffer" "i"] [is_const; is_pure_virtual;
    is_virtual]].
Definition register_Ns3TagBuffer_methods (cls : string) : list call := [
  constructor cls [param "ns3::TagBuffer const &" "arg0"];
  constructor cls [param "uint8_t *" "start"; param "uint8_t *" "end"];
  method cls "CopyFrom" "void" [param "ns3::TagBuffer" "o"] [];
  method cls "Read" "void" [param "uint8_t *" "buffer"; param "uint32_t" "size"] [];
  method cls "ReadDouble" "double" [] [];
  method cls "ReadU16" "uint16_t" [] [];
  method cls "ReadU32" "uint32_t" [] [];
  method cls "ReadU64" "uint64_t" [] [];
  method cls "ReadU8" "uint8_t" [] [];
  method cls "TrimAtEnd" "void" [param "uint32_t" "trim"] [];
  method cls "Write" "void" [param "uint8_t const *" "buffer"; param "uint32_t" "size"] [];
  method cls "WriteDouble" "void" [param "double" "v"] [];
  method cls "WriteU16" "void" [param "uint16_t" "v"] [];
  method cls "WriteU32" "void" [param "uint32_t" "v"] [];
  method cls "WriteU64" "void" [param "uint64_t" "v"] [];
  method cls "WriteU8" "void" [param "uint8_t" "v"] []].
Definition register_Ns3Task_methods (cls : string) : list call := [
  constructor cls [];
  constructor cls [param "ns3::Task const &" "arg0"];
  method cls "GetContext" "void *" [] [is_const];
  method cls "GetExtraContext" "void *" [] [is_const];
  method cls "IsActive" "bool" [] [is_const];
  method cls "IsBlocked" "bool" [] [is_const];
  method cls "IsDead" "bool" [] [is_const];
  method cls "IsRunning" "bool" [] [is_const];
  method cls "SetContext" "void" [param "void *" "ctx"] [];
  method cls "SetExtraContext" "void" [param "void *" "ctx"] [];
  method cls "SetSwitchNotifier" "void"
    [param "void ( * ) ( ns3::Task::SwitchType, void * )" "fn"; param "void *" "context"] []].
Definition register_Ns3Thread_methods (cls : string) : list call := [
  constructor cls [];
  constructor cls [param "ns3::Thread const &" "arg0"];
  AddInstanceAttribute cls "childWaiter" "ns3::Waiter *" [not_const];
  AddInstanceAttribute cls "err" "int" [not_const];
  AddInstanceAttribute cls "exitValue" "void *" [not_const];
  AddInstanceAttribute cls "h_err" "int" [not_const];
  AddInstanceAttribute cls "hasExitValue" "bool" [not_const];
  AddInstanceAttribute cls "ioWait" "std::pair< ns3::UnixFd *, ns3::WaitQueueEntry * >"
    [not_const];
  AddInstanceAttribute cls "isDetached" "bool" [not_const];
  AddInstanceAttribute cls "joinWaiter" "ns3::Thread *" [not_const];
  AddInstanceAttribute cls "keyValues" "std::list< ns3::ThreadKeyValue >" [not_const];
  AddInstanceAttribute cls "lastTime" "ns3::Time" [not_const];
  AddInstanceAttribute cls "pendingSignals" "sigset_t" [not_const];
  AddInstanceAttribute cls "pollTable" "ns3::PollTable *" [not_const];
  AddInstanceAttribute cls "process" "ns3::Process *" [not_const];
  AddInstanceAttribute cls "signalMask" "sigset_t" [not_const];
  AddInstanceAttribute cls "task" "ns3::Task *" [not_const];
  AddInstanceAttribute cls "tid" "uint16_t" [not_const]].
Definition register_Ns3ThreadKeyValue_methods (cls : string) : list call := [
  constructor cls [];
  constructor cls [param "ns3::ThreadKeyValue const &" "arg0"];
  AddInstanceAttribute cls "destructor" "void ( * ) ( void * )" [not_const];
  AddInstanceAttribute cls "key" "pthread_key_t" [not_const];
  AddInstanceAttribute cls "value" "void *" [not_const]].
Definition register_Ns3Time_methods (cls : string) : list call := [
  AddComparison cls "==";
  AddComparison cls "!=";
  AddComparison cls "<=";
  AddComparison cls ">=";
  AddComparison cls "<";
  AddComparison cls ">";
  AddBinaryNumeric cls "+" "ns3::Time" "ns3::Time" (param "ns3::Time const &" "right");
  AddBinaryNumeric cls "-" "ns3::Time" "ns3::Time" (param "ns3::Time const &" "right");
  AddBinaryNumeric cls "*" "ns3::Time" "ns3::Time" (param "ns3::int64x64_t const &" "right");
  AddBinaryNumeric cls "/" "ns3::int64x64_t" "ns3::Time" (param "ns3::Time const &" "right");
  AddBinaryNumeric cls "/" "ns3::Time" "ns3::Time" (param "ns3::int64x64_t const &" "right");
  AddInplaceNumeric cls "+=" (param "ns3::Time const &" "right");
  AddInplaceNumeric cls "-=" (param "ns3::Time const &" "right");
  AddOutputStream cls;
  constructor cls [];
  constructor cls [param "ns3::Time const &" "o"];
  constructor cls [param "double" "v"];
  constructor cls [param "int" "v"];
  constructor cls [param "long int" "v"];
  constructor cls [param "long long int" "v"];
  constructor cls [param "unsigned int" "v"];
  constructor cls [param "long unsigned int" "v"];
  constructor cls [param "long long unsigned int" "v"];
  constructor cls [param "ns3::int64x64_t const &" "v"];
  constructor cls [param "std::string const &" "s"];
  method cls "As" "ns3::TimeWithUnit"
    [param_default "ns3::Time::Unit const" "unit" "::ns3::Time::Unit::AUTO"] [is_const];
  method cls "Compare" "int" [param "ns3::Time const &" "o"] [is_const];
  method cls "From" "ns3::Time" [param "ns3::int64x64_t const &" "value"] [is_static];
  method cls "From" "ns3::Time" [param "ns3::int64x64_t const &" "value";
    param "ns3::Time::Unit" "unit"] [is_static];
  method cls "FromDouble" "ns3::Time" [param "double" "value"; param "ns3::Time::Unit" "unit"]
    [is_static];
  method cls "FromInteger" "ns3::Time" [param "uint64_t" "value"; param "ns3::Time::Unit" "unit"]
    [is_static];
  method cls "GetDays" "double" [] [is_const];
  method cls "GetDouble" "double" [] [is_const];
  method cls "GetFemtoSeconds" "int64_t" [] [is_const];
  method cls "GetHours" "double" [] [is_const];
  method cls "GetInteger" "int64_t" [] [is_const];
  method cls "GetMicroSeconds" "int64_t" [] [is_const];
  method cls "GetMilliSeconds" "int64_t" [] [is_const];
  method cls "GetMinutes" "double" [] [is_const];
  method cls "GetNanoSeconds" "int64_t" [] [is_const];
  method cls "GetPicoSeconds" "int64_t" [] [is_const];
  method cls "GetResolution" "ns3::Time::Unit" [] [is_static];
  method cls "GetSeconds" "double" [] [is_const];
  method cls "GetTimeStep" "int64_t" [] [is_const];
  method cls "GetYears" "double" [] [is_const];
  method cls "IsNegative" "bool" [] [is_const];
  method cls "IsPositive" "bool" [] [is_const];
  method cls "IsStrictlyNegative" "bool" [] [is_const];
  method cls "IsStrictlyPositive" "bool" [] [is_const];
  method cls "IsZero" "bool" [] [is_const];
  method cls "Max" "ns3::Time" [] [is_static];
  method cls "Min" "ns3::Time" [] [is_static];
  method cls "RoundTo" "ns3::Time" [param "ns3::Time::Unit" "unit"] [is_const];
  method cls "SetResolution" "void" [param "ns3::Time::Unit" "resolution"] [is_static];
  method cls "StaticInit" "bool" [] [is_static];
  method cls "To" "ns3::int64x64_t" [param "ns3::Time::Unit" "unit"] [is_const];
  method cls "ToDouble" "double" [param "ns3::Time::Unit" "unit"] [is_const];
  method cls "ToInteger" "int64_t" [param "ns3::Time::Unit" "unit"] [is_const]].
Definition register_Ns3TimeWithUnit_methods (cls : string) : list call := [
  AddOutputStream cls;
  constructor cls [param "ns3::TimeWithUnit const &" "arg0"];
  constructor cls [param "ns3::Time const" "time"; param "ns3::Time::Unit const" "unit"]].
Definition register_Ns3TypeId_methods (cls : string) : list call := [
  AddComparison cls "==";
  AddComparison cls "!=";
  AddOutputStream cls;
  AddComparison cls "<";
  constructor cls [param "char const *" "name"];
  constructor cls [];
  constructor cls [param "ns3::TypeId const &" "o"];
  method cls "AddAttribute" "ns3::TypeId" [param "std::string" "name"; param "std::string" "help";
    param "ns3::AttributeValue const &" "initialValue";
    param "ns3::Ptr< ns3::AttributeAccessor const >" "accessor";
    param "ns3::Ptr< ns3::AttributeChecker const >" "checker";
    param_default "ns3::TypeId::SupportLevel" "supportLevel" "::ns3::TypeId::SupportLevel::SUPPORTED";
    param_default "std::string const &" "supportMsg" cpp_empty_string] [];
  method cls "AddAttribute" "ns3::TypeId" [param "std::string" "name"; param "std::string" "help";
    param "uint32_t" "flags"; param "ns3::AttributeValue const &" "initialValue";
    param "ns3::Ptr< ns3::AttributeAccessor const >" "accessor";
    param "ns3::Ptr< ns3::AttributeChecker const >" "checker";
    param_default "ns3::TypeId::SupportLevel" "supportLevel" "::ns3::TypeId::SupportLevel::SUPPORTED";
    param_default "std::string const &" "supportMsg" cpp_empty_string] [];
  method cls "AddTraceSource" "ns3::TypeId" [param "std::string" "name";
    param "std::string" "help"; param "ns3::Ptr< ns3::TraceSourceAccessor const >" "accessor";
    param "std::string" "callback";
    param_default "ns3::TypeId::SupportLevel" "supportLevel" "::ns3::TypeId::SupportLevel::SUPPORTED";
    param_default "std::string const &" "supportMsg" cpp_empty_string] [];
  method cls "GetAttribute" "ns3::TypeId::AttributeInformation" [param "std::size_t" "i"]
    [is_const];
  method cls "GetAttributeFullName" "std::string" [param "std::size_t" "i"] [is_const];
  method cls "GetAttributeN" "std::size_t" [] [is_const];
  method cls "GetConstructor"
    "ns3::Callback< ns3::ObjectBase *, ns3::empty, ns3::empty, ns3::empty, ns3::empty, ns3::empty, ns3::empty, ns3::empty, ns3::empty, ns3::empty >"
    [] [is_const];
  method cls "GetGroupName" "std::string" [] [is_const];
  method cls "GetHash" "ns3::TypeId::hash_t" [] [is_const];
  method cls "GetName" "std::string" [] [is_const];
  method cls "GetParent" "ns3::TypeId" [] [is_const];
  method cls "GetRegistered" "ns3::TypeId" [param "uint16_t" "i"] [is_static];
  method cls "GetRegisteredN" "uint16_t" [] [is_static];
  method cls "GetSize" "std::size_t" [] [is_const];
  method cls "GetTraceSource" "ns3::TypeId::TraceSourceInformation" [param "std::size_t" "i"]
    [is_const];
  method cls "GetTraceSourceN" "std::size_t" [] [is_const];
  method cls "GetUid" "uint16_t" [] [is_const];
  method cls "HasConstructor" "bool" [] [is_const];
  method cls "HasParent" "bool" [] [is_const];
  method cls "HideFromDocumentation" "ns3::TypeId" [] [];
  method cls "IsChildOf" "bool" [param "ns3::TypeId" "other"] [is_const];
  method cls "LookupAttributeByName" "bool" [param "std::string" "name";
    borrowed "ns3::TypeId::AttributeInformation *" "info"] [is_const];
  method cls "LookupByHash" "ns3::TypeId" [param "uint32_t" "hash"] [is_static];
  method cls "LookupByHashFailSafe" "bool" [param "uint32_t" "hash"; param "ns3::TypeId *" "tid"]
    [is_static];
  method cls "LookupByName" "ns3::TypeId" [param "std::string" "name"] [is_static];
  method cls "LookupTraceSourceByName" "ns3::Ptr< ns3::TraceSourceAccessor const >"
    [param "std::string" "name"] [is_const];
  method cls "LookupTraceSourceByName" "ns3::Ptr< ns3::TraceSourceAccessor const >"
    [param "std::string" "name"; param "ns3::TypeId::TraceSourceInformation *" "info"] [is_const];
  method cls "MustHideFromDocumentation" "bool" [] [is_const];
  method cls "SetAttributeInitialValue" "bool" [param "std::size_t" "i";
    param "ns3::Ptr< ns3::AttributeValue const >" "initialValue"] [];
  method cls "SetGroupName" "ns3::TypeId" [param "std::string" "groupName"] [];
  method cls "SetParent" "ns3::TypeId" [param "ns3::TypeId" "tid"] [];
  method cls "SetSize" "ns3::TypeId" [param "std::size_t" "size"] [];
  method cls "SetUid" "void" [param "uint16_t" "uid"] []].
Definition register_Ns3TypeIdAttributeInformation_methods (cls : string) : list call := [
  constructor cls [];
  constructor cls [param "ns3::TypeId::AttributeInformation const &" "arg0"];
  AddInstanceAttribute cls "accessor" "ns3::Ptr< ns3::AttributeAccessor const >" [not_const];
  AddInstanceAttribute cls "checker" "ns3::Ptr< ns3::AttributeChecker const >" [not_const];
  AddInstanceAttribute cls "flags" "uint32_t" [not_const];
  AddInstanceAttribute cls "help" "std::string" [not_const];
  AddInstanceAttribute cls "initialValue" "ns3::Ptr< ns3::AttributeValue const >" [not_const];
  AddInstanceAttribute cls "name" "std::string" [not_const];
  AddInstanceAttribute cls "originalInitialValue" "ns3::Ptr< ns3::AttributeValue const >"
    [not_const];
  AddInstanceAttribute cls "supportLevel" "ns3::TypeId::SupportLevel" [not_const];
  AddInstanceAttribute cls "supportMsg" "std::string" [not_const]].
Definition register_Ns3TypeIdTraceSourceInformation_methods (cls : string) : list call := [
  constructor cls [];
  constructor cls [param "ns3::TypeId::TraceSourceInformation const &" "arg0"];
  AddInstanceAttribute cls "accessor" "ns3::Ptr< ns3::TraceSourceAccessor const >" [not_const];
  AddInstanceAttribute cls "callback" "std::string" [not_const];
  AddInstanceAttribute cls "help" "std::string" [not_const];
  AddInstanceAttribute cls "name" "std::string" [not_const];
  AddInstanceAttribute cls "supportLevel" "ns3::TypeId::SupportLevel" [not_const];
  AddInstanceAttribute cls "supportMsg" "std::string" [not_const]].
Definition register_Ns3WaitPoint_methods (cls : string) : list call := [
  constructor cls [param "ns3::WaitPoint const &" "arg0"];
  constructor cls [];
  method cls "Wait" "ns3::WaitPoint::Result" [param "ns3::Time" "to"] [];
  method cls "WakeUpCallback" "void" [] []].
Definition register_Ns3WaitQueueEntry_methods (cls : string) : list call := [
  constructor cls [param "ns3::WaitQueueEntry const &" "arg0"];
  constructor cls [];
  method cls "WakeUp" "void" [param "void *" "key"] [is_pure_virtual; is_virtual]].
Definition register_Ns3WaitQueueEntryPoll_methods (cls : string) : list call := [
  constructor cls
    [param "ns3::Callback< void, ns3::empty, ns3::empty, ns3::empty, ns3::empty, ns3::empty, ns3::empty, ns3::empty, ns3::empty, ns3::empty >" "cb"];
  method cls "WakeUp" "void" [param "void *" "key"] [is_virtual];
  method cls "SetPollTableEntry" "void" [param "ns3::PollTableEntry *" "p"] [];
  constructor cls [param "ns3::WaitQueueEntryPoll const &" "arg0"]].
Definition register_Ns3WaitQueueEntryTimeout_methods (cls : string) : list call := [
  constructor cls [param "ns3::WaitQueueEntryTimeout const &" "arg0"];
  constructor cls [param "short int" "eventMask"; param "ns3::Time" "timeout"];
  method cls "Wait" "ns3::WaitPoint::Result" [] [];
  method cls "WakeUp" "void" [param "void *" "key"] [is_virtual]].
Definition register_Ns3Empty_methods (cls : string) : list call := [
  constructor cls [];
  constructor cls [param "ns3::empty const &" "arg0"]].
Definition register_Ns3Int64x64_t_methods (cls : string) : list call := [
  AddBinaryNumeric cls "*" "ns3::Time" "ns3::int64x64_t" (param "ns3::Time const &" "right");
  AddBinaryNumeric cls "+" "ns3::int64x64_t" "ns3::int64x64_t"
    (param "ns3::int64x64_t const &" "right");
  AddBinaryNumeric cls "-" "ns3::int64x64_t" "ns3::int64x64_t"
    (param "ns3::int64x64_t const &" "right");
  AddBinaryNumeric cls "*" "ns3::int64x64_t" "ns3::int64x64_t"
    (param "ns3::int64x64_t const &" "right");
  AddBinaryNumeric cls "/" "ns3::int64x64_t" "ns3::int64x64_t"
    (param "ns3::int64x64_t const &" "right");
  AddComparison cls "!=";
  AddComparison cls "<=";
  AddComparison cls ">=";
  AddOutputStream cls;
  AddComparison cls "==";
  AddComparison cls "<";
  AddComparison cls ">";
  AddInplaceNumeric cls "+=" (param "ns3::int64x64_t const &" "right");
  AddInplaceNumeric cls "-=" (param "ns3::int64x64_t const &" "right");
  AddInplaceNumeric cls "*=" (param "ns3::int64x64_t const &" "right");
  AddInplaceNumeric cls "/=" (param "ns3::int64x64_t const &" "right");
  AddUnaryNumeric cls "-";
  constructor cls [];
  constructor cls [param "double const" "value"];
  constructor cls [param "long double const" "value"];
  constructor cls [param "int const" "v"];
  constructor cls [param "long int const" "v"];
  constructor cls [param "long long int const" "v"];
  constructor cls [param "unsigned int const" "v"];
  constructor cls [param "long unsigned int const" "v"];
  constructor cls [param "long long unsigned int const" "v"];
  constructor cls [param "int64_t const" "hi"; param "uint64_t const" "lo"];
  constructor cls [param "ns3::int64x64_t const &" "o"];
  method cls "GetDouble" "double" [] [is_const];
  method cls "GetHigh" "int64_t" [] [is_const];
  method cls "GetInt" "int64_t" [] [is_const];
  method cls "GetLow" "uint64_t" [] [is_const];
  method cls "Invert" "ns3::int64x64_t" [param "uint64_t const" "v"] [is_static];
  method cls "MulByInvert" "void" [param "ns3::int64x64_t const &" "o"] [];
  method cls "Round" "int64_t" [] [is_const];
  AddStaticAttribute cls "implementation" "ns3::int64x64_t::impl_type const" [is_const]].
Definition register_Ns3CcnClientHelper_methods (cls : string) : list call := [
  constructor cls [param "ns3::CcnClientHelper const &" "arg0"];
  constructor cls [];
  method cls "AddFile" "void" [param "std::string" "from"; param "std::string" "to"] [];
  method cls "Install" "ns3::ApplicationContainer" [param "ns3::NodeContainer" "c"] [is_virtual];
  method cls "InstallInNode" "ns3::ApplicationContainer" [param "ns3::Ptr< ns3::Node >" "node"]
    [is_virtual];
  method cls "ResetEnvironment" "void" [] []].
Definition register_Ns3Chunk_methods (cls : string) : list call := [
  constructor cls [];
  constructor cls [param "ns3::Chunk const &" "arg0"];
  method cls "Deserialize" "uint32_t" [param "ns3::Buffer::Iterator" "start"] [is_pure_virtual;
    is_virtual];
  method cls "Deserialize" "uint32_t" [param "ns3::Buffer::Iterator" "start";
    param "ns3::Buffer::Iterator" "end"] [is_virtual];
  method cls "GetTypeId" "ns3::TypeId" [] [is_static];
  method cls "Print" "void" [param "std::ostream &" "os"] [is_const; is_pure_virtual; is_virtual]].
Definition register_Ns3Header_methods (cls : string) : list call := [
  AddOutputStream cls;
  constructor cls [];
  constructor cls [param "ns3::Header const &" "arg0"];
  method cls "Deserialize" "uint32_t" [param "ns3::Buffer::Iterator" "start"] [is_pure_virtual;
    is_virtual];
  method cls "GetSerializedSize" "uint32_t" [] [is_const; is_pure_virtual; is_virtual];
  method cls "GetTypeId" "ns3::TypeId" [] [is_static];
  method cls "Print" "void" [param "std::ostream &" "os"] [is_const; is_pure_virtual; is_virtual];
  method cls "Serialize" "void" [param "ns3::Buffer::Iterator" "start"] [is_const;
    is_pure_virtual; is_virtual]].
Definition register_Ns3Ipv4DceRoutingHelper_methods (cls : string) : list call := [
  constructor cls [];
  constructor cls [param "ns3::Ipv4DceRoutingHelper const &" "arg0"];
  method cls "Copy" "ns3::Ipv4DceRoutingHelper *" [] [is_const; is_virtual];
  method cls "Create" "ns3::Ptr< ns3::Ipv4RoutingProtocol >"
    [param "ns3::Ptr< ns3::Node >" "node"] [is_const; is_virtual]].
Definition register_Ns3Ipv4Header_methods (cls : string) : list call := [
  constructor cls [param "ns3::Ipv4Header const &" "arg0"];
  constructor cls [];
  method cls "Deserialize" "uint32_t" [param "ns3::Buffer::Iterator" "start"] [is_virtual];
  method cls "DscpTypeToString" "std::string" [param "ns3::Ipv4Header::DscpType" "dscp"]
    [is_const];
  method cls "EcnTypeToString" "std::string" [param "ns3::Ipv4Header::EcnType" "ecn"] [is_const];
  method cls "EnableChecksum" "void" [] [];
  method cls "GetDestination" "ns3::Ipv4Address" [] [is_const];
  method cls "GetDscp" "ns3::Ipv4Header::DscpType" [] [is_const];
  method cls "GetEcn" "ns3::Ipv4Header::EcnType" [] [is_const];
  method cls "GetFragmentOffset" "uint16_t" [] [is_const];
  method cls "GetIdentification" "uint16_t" [] [is_const];
  method cls "GetInstanceTypeId" "ns3::TypeId" [] [is_const; is_virtual];
  method cls "GetPayloadSize" "uint16_t" [] [is_const];
  method cls "GetProtocol" "uint8_t" [] [is_const];
  method cls "GetSerializedSize" "uint32_t" [] [is_const; is_virtual];
  method cls "GetSource" "ns3::Ipv4Address" [] [is_const];
  method cls "GetTos" "uint8_t" [] [is_const];
  method cls "GetTtl" "uint8_t" [] [is_const];
  method cls "GetTypeId" "ns3::TypeId" [] [is_static];
  method cls "IsChecksumOk" "bool" [] [is_const];
  method cls "IsDontFragment" "bool" [] [is_const];
  method cls "IsLastFragment" "bool" [] [is_const];
  method cls "Print" "void" [param "std::ostream &" "os"] [is_const; is_virtual];
  method cls "Serialize" "void" [param "ns3::Buffer::Iterator" "start"] [is_const; is_virtual];
  method cls "SetDestination" "void" [param "ns3::Ipv4Address" "destination"] [];
  method cls "SetDontFragment" "void" [] [];
  method cls "SetDscp" "void" [param "ns3::Ipv4Header::DscpType" "dscp"] [];
  method cls "SetEcn" "void" [param "ns3::Ipv4Header::EcnType" "ecn"] [];
  method cls "SetFragmentOffset" "void" [param "uint16_t" "offsetBytes"] [];
  method cls "SetIdentification" "void" [param "uint16_t" "identification"] [];
  method cls "SetLastFragment" "void" [] [];
  method cls "SetMayFragment" "void" [] [];
  method cls "SetMoreFragments" "void" [] [];
  method cls "SetPayloadSize" "void" [param "uint16_t" "size"] [];
  method cls "SetProtocol" "void" [param "uint8_t" "num"] [];
  method cls "SetSource" "void" [param "ns3::Ipv4Address" "source"] [];
  method cls "SetTos" "void" [param "uint8_t" "tos"] [];
  method cls "SetTtl" "void" [param "uint8_t" "ttl"] []].
Definition register_Ns3Ipv6Header_methods (cls : string) : list call := [
  constructor cls [param "ns3::Ipv6Header const &" "arg0"];
  constructor cls [];
  method cls "Deserialize" "uint32_t" [param "ns3::Buffer::Iterator" "start"] [is_virtual];
  method cls "DscpTypeToString" "std::string" [param "ns3::Ipv6Header::DscpType" "dscp"]
    [is_const];
  method cls "EcnTypeToString" "std::string" [param "ns3::Ipv6Header::EcnType" "ecn"] [is_const];
  method cls "GetDestinationAddress" "ns3::Ipv6Address" [] [is_const];
  method cls "GetDscp" "ns3::Ipv6Header::DscpType" [] [is_const];
  method cls "GetEcn" "ns3::Ipv6Header::EcnType" [] [is_const];
  method cls "GetFlowLabel" "uint32_t" [] [is_const];
  method cls "GetHopLimit" "uint8_t" [] [is_const];
  method cls "GetInstanceTypeId" "ns3::TypeId" [] [is_const; is_virtual];
  method cls "GetNextHeader" "uint8_t" [] [is_const];
  method cls "GetPayloadLength" "uint16_t" [] [is_const];
  method cls "GetSerializedSize" "uint32_t" [] [is_const; is_virtual];
  method cls "GetSourceAddress" "ns3::Ipv6Address" [] [is_const];
  method cls "GetTrafficClass" "uint8_t" [] [is_const];
  method cls "GetTypeId" "ns3::TypeId" [] [is_static];
  method cls "Print" "void" [param "std::ostream &" "os"] [is_const; is_virtual];
  method cls "Serialize" "void" [param "ns3::Buffer::Iterator" "start"] [is_const; is_virtual];
  method cls "SetDestinationAddress" "void" [param "ns3::Ipv6Address" "dst"] [];
  method cls "SetDscp" "void" [param "ns3::Ipv6Header::DscpType" "dscp"] [];
  method cls "SetEcn" "void" [param "ns3::Ipv6Header::EcnType" "ecn"] [];
  method cls "SetFlowLabel" "void" [param "uint32_t" "flow"] [];
  method cls "SetHopLimit" "void" [param "uint8_t" "limit"] [];
  method cls "SetNextHeader" "void" [param "uint8_t" "next"] [];
  method cls "SetPayloadLength" "void" [param "uint16_t" "len"] [];
  method cls "SetSourceAddress" "void" [param "ns3::Ipv6Address" "src"] [];
  method cls "SetTrafficClass" "void" [param "uint8_t" "traffic"] []].
End ApiMethods2.
