(* ===== verification/ApiMethods3.v ===== *)
(** * The table of the bindings: methods, part 3 of 5

    bindings/modulegen__gcc_ILP32.py: the constructors, methods, attributes and operators of the
    classes from ns3::Object to ns3::DceManager, one definition for each function. *)
From Stdlib Require Import ZArith Ascii String.
From stdpp Require Import base list strings.
From S2P Require Import Prelude PyStr Pybindgen.

Module ApiMethods3.
Import Pybindgen.

Definition register_Ns3Object_methods (cls : string) : list call := [
  constructor cls [];
  method cls "AggregateObject" "void" [param "ns3::Ptr< ns3::Object >" "other"] [];
  method cls "Dispose" "void" [] [];
  method cls "GetAggregateIterator" "ns3::Object::AggregateIterator" [] [is_const];
  method cls "GetInstanceTypeId" "ns3::TypeId" [] [is_const; is_virtual];
  method cls "GetObject" "ns3::Ptr< ns3::Object >" []
    [("custom_template_method_name", VStr "GetObject"); is_const;
    template_parameters ["ns3::Object"]];
  method cls "GetObject" "ns3::Ptr< ns3::Object >" [param "ns3::TypeId" "tid"]
    [("custom_template_method_name", VStr "GetObject"); is_const;
    template_parameters ["ns3::Object"]];
  method cls "GetTypeId" "ns3::TypeId" [] [is_static];
  method cls "Initialize" "void" [] [];
  method cls "IsInitialized" "bool" [] [is_const];
  AddConstructor cls [param "ns3::Object const &" "o"] [visibility "protected"];
  method cls "DoDispose" "void" [] [is_virtual; visibility "protected"];
  method cls "DoInitialize" "void" [] [is_virtual; visibility "protected"];
  method cls "NotifyNewAggregate" "void" [] [is_virtual; visibility "protected"]].
Definition register_Ns3ObjectAggregateIterator_methods (cls : string) : list call := [
  constructor cls [param "ns3::Object::AggregateIterator const &" "arg0"];
  constructor cls [];
  method cls "HasNext" "bool" [] [is_const];
  method cls "Next" "ns3::Ptr< ns3::Object const >" [] []].
Definition register_Ns3PollTable_methods (cls : string) : list call := [
  constructor cls [param "ns3::PollTable const &" "arg0"];
  constructor cls [];
  method cls "FreeWait" "void" [] [];
  method cls "GetEventMask" "short int" [] [is_const];
  method cls "PollWait" "void" [param "ns3::UnixFd *" "file"] [];
  method cls "PollWait" "void" [param "void *" "ref";
    param "ns3::Callback< void, void *, ns3::empty, ns3::empty, ns3::empty, ns3::empty, ns3::empty, ns3::empty, ns3::empty, ns3::empty >" "cb"]
    [];
  method cls "SetEventMask" "void" [param "short int" "e"] []].
Definition register_Ns3ProcessDelayModel_methods (cls : string) : list call := [
  constructor cls [];
  constructor cls [param "ns3::ProcessDelayModel const &" "arg0"];
  method cls "GetTypeId" "ns3::TypeId" [] [is_static];
  method cls "RecordEnd" "ns3::Time" [] [is_pure_virtual; is_virtual];
  method cls "RecordStart" "void" [] [is_pure_virtual; is_virtual]].
Definition register_Ns3RandomProcessDelayModel_methods (cls : string) : list call := [
  constructor cls [param "ns3::RandomProcessDelayModel const &" "arg0"];
  constructor cls [];
  method cls "GetTypeId" "ns3::TypeId" [] [is_static];
  method cls "RecordEnd" "ns3::Time" [] [is_virtual];
  method cls "RecordStart" "void" [] [is_virtual];
  method cls "SetVariable" "void" [param "ns3::Ptr< ns3::RandomVariableStream >" "variable"] []].
Definition register_Ns3RandomVariableStream_methods (cls : string) : list call := [
  method cls "GetTypeId" "ns3::TypeId" [] [is_static];
  constructor cls [];
  method cls "SetStream" "void" [param "int64_t" "stream"] [];
  method cls "GetStream" "int64_t" [] [is_const];
  method cls "SetAntithetic" "void" [param "bool" "isAntithetic"] [];
  method cls "IsAntithetic" "bool" [] [is_const];
  method cls "GetValue" "double" [] [is_pure_virtual; is_virtual];
  method cls "GetInteger" "uint32_t" [] [is_pure_virtual; is_virtual];
  method cls "Peek" "ns3::RngStream *" [] [is_const; visibility "protected"]].
Definition register_Ns3SequentialRandomVariable_methods (cls : string) : list call := [
  method cls "GetTypeId" "ns3::TypeId" [] [is_static];
  constructor cls [];
  method cls "GetMin" "double" [] [is_const];
  method cls "GetMax" "double" [] [is_const];
  method cls "GetIncrement" "ns3::Ptr< ns3::RandomVariableStream >" [] [is_const];
  method cls "GetConsecutive" "uint32_t" [] [is_const];
  method cls "GetValue" "double" [] [is_virtual];
  method cls "GetInteger" "uint32_t" [] [is_virtual]].
Definition register_Ns3SimpleRefCount__Ns3AttributeAccessor_Ns3Empty_Ns3DefaultDeleter__lt__ns3AttributeAccessor__gt___methods (cls : string) : list call := [
  constructor cls [];
  constructor cls
    [param "ns3::SimpleRefCount< ns3::AttributeAccessor, ns3::empty, ns3::DefaultDeleter< ns3::AttributeAccessor > > const &" "o"]].
Definition register_Ns3SimpleRefCount__Ns3AttributeChecker_Ns3Empty_Ns3DefaultDeleter__lt__ns3AttributeChecker__gt___methods (cls : string) : list call := [
  constructor cls [];
  constructor cls
    [param "ns3::SimpleRefCount< ns3::AttributeChecker, ns3::empty, ns3::DefaultDeleter< ns3::AttributeChecker > > const &" "o"]].
Definition register_Ns3SimpleRefCount__Ns3AttributeValue_Ns3Empty_Ns3DefaultDeleter__lt__ns3AttributeValue__gt___methods (cls : string) : list call := [
  constructor cls [];
  constructor cls
    [param "ns3::SimpleRefCount< ns3::AttributeValue, ns3::empty, ns3::DefaultDeleter< ns3::AttributeValue > > const &" "o"]].
Definition register_Ns3SimpleRefCount__Ns3CallbackImplBase_Ns3Empty_Ns3DefaultDeleter__lt__ns3CallbackImplBase__gt___methods (cls : string) : list call := [
  constructor cls [];
  constructor cls
    [param "ns3::SimpleRefCount< ns3::CallbackImplBase, ns3::empty, ns3::DefaultDeleter< ns3::CallbackImplBase > > const &" "o"]].
Definition register_Ns3SimpleRefCount__Ns3EventImpl_Ns3Empty_Ns3DefaultDeleter__lt__ns3EventImpl__gt___methods (cls : string) : list call := [
  constructor cls [];
  constructor cls
    [param "ns3::SimpleRefCount< ns3::EventImpl, ns3::empty, ns3::DefaultDeleter< ns3::EventImpl > > const &" "o"]].
Definition register_Ns3SimpleRefCount__Ns3HashImplementation_Ns3Empty_Ns3DefaultDeleter__lt__ns3HashImplementation__gt___methods (cls : string) : list call := [
  constructor cls [];
  constructor cls
    [param "ns3::SimpleRefCount< ns3::Hash::Implementation, ns3::empty, ns3::DefaultDeleter< ns3::Hash::Implementation > > const &" "o"]].
Definition register_Ns3SimpleRefCount__Ns3Ipv4MulticastRoute_Ns3Empty_Ns3DefaultDeleter__lt__ns3Ipv4MulticastRoute__gt___methods (cls : string) : list call := [
  constructor cls [];
  constructor cls
    [param "ns3::SimpleRefCount< ns3::Ipv4MulticastRoute, ns3::empty, ns3::DefaultDeleter< ns3::Ipv4MulticastRoute > > const &" "o"]].
Definition register_Ns3SimpleRefCount__Ns3Ipv4Route_Ns3Empty_Ns3DefaultDeleter__lt__ns3Ipv4Route__gt___methods (cls : string) : list call := [
  constructor cls [];
  constructor cls
    [param "ns3::SimpleRefCount< ns3::Ipv4Route, ns3::empty, ns3::DefaultDeleter< ns3::Ipv4Route > > const &" "o"]].
Definition register_Ns3SimpleRefCount__Ns3NixVector_Ns3Empty_Ns3DefaultDeleter__lt__ns3NixVector__gt___methods (cls : string) : list call := [
  constructor cls [];
  constructor cls
    [param "ns3::SimpleRefCount< ns3::NixVector, ns3::empty, ns3::DefaultDeleter< ns3::NixVector > > const &" "o"]].
Definition register_Ns3SimpleRefCount__Ns3OutputStreamWrapper_Ns3Empty_Ns3DefaultDeleter__lt__ns3OutputStreamWrapper__gt___methods (cls : string) : list call := [
  constructor cls [];
  constructor cls
    [param "ns3::SimpleRefCount< ns3::OutputStreamWrapper, ns3::empty, ns3::DefaultDeleter< ns3::OutputStreamWrapper > > const &" "o"]].
Definition register_Ns3SimpleRefCount__Ns3Packet_Ns3Empty_Ns3DefaultDeleter__lt__ns3Packet__gt___methods (cls : string) : list call := [
  constructor cls [];
  constructor cls
    [param "ns3::SimpleRefCount< ns3::Packet, ns3::empty, ns3::DefaultDeleter< ns3::Packet > > const &" "o"]].
Definition register_Ns3SimpleRefCount__Ns3TraceSourceAccessor_Ns3Empty_Ns3DefaultDeleter__lt__ns3TraceSourceAccessor__gt___methods (cls : string) : list call := [
  constructor cls [];
  constructor cls
    [param "ns3::SimpleRefCount< ns3::TraceSourceAccessor, ns3::empty, ns3::DefaultDeleter< ns3::TraceSourceAccessor > > const &" "o"]].
Definition register_Ns3Socket_methods (cls : string) : list call := [
  constructor cls [param "ns3::Socket const &" "arg0"];
  constructor cls [];
  method cls "Bind" "int" [param "ns3::Address const &" "address"] [is_pure_virtual; is_virtual];
  method cls "Bind" "int" [] [is_pure_virtual; is_virtual];
  method cls "Bind6" "int" [] [is_pure_virtual; is_virtual];
  method cls "BindToNetDevice" "void" [param "ns3::Ptr< ns3::NetDevice >" "netdevice"]
    [is_virtual];
  method cls "Close" "int" [] [is_pure_virtual; is_virtual];
  method cls "Connect" "int" [param "ns3::Address const &" "address"] [is_pure_virtual;
    is_virtual];
  method cls "CreateSocket" "ns3::Ptr< ns3::Socket >" [param "ns3::Ptr< ns3::Node >" "node";
    param "ns3::TypeId" "tid"] [is_static];
  method cls "GetAllowBroadcast" "bool" [] [is_const; is_pure_virtual; is_virtual];
  method cls "GetBoundNetDevice" "ns3::Ptr< ns3::NetDevice >" [] [];
  method cls "GetErrno" "ns3::Socket::SocketErrno" [] [is_const; is_pure_virtual; is_virtual];
  method cls "GetIpTos" "uint8_t" [] [is_const];
  method cls "GetIpTtl" "uint8_t" [] [is_const; is_virtual];
  method cls "GetIpv6HopLimit" "uint8_t" [] [is_const; is_virtual];
  method cls "GetIpv6Tclass" "uint8_t" [] [is_const];
  method cls "GetNode" "ns3::Ptr< ns3::Node >" [] [is_const; is_pure_virtual; is_virtual];
  method cls "GetPeerName" "int" [param "ns3::Address &" "address"] [is_const; is_pure_virtual;
    is_virtual];
  method cls "GetPriority" "uint8_t" [] [is_const];
  method cls "GetRxAvailable" "uint32_t" [] [is_const; is_pure_virtual; is_virtual];
  method cls "GetSockName" "int" [param "ns3::Address &" "address"] [is_const; is_pure_virtual;
    is_virtual];
  method cls "GetSocketType" "ns3::Socket::SocketType" [] [is_const; is_pure_virtual; is_virtual];
  method cls "GetTxAvailable" "uint32_t" [] [is_const; is_pure_virtual; is_virtual];
  method cls "GetTypeId" "ns3::TypeId" [] [is_static];
  method cls "IpTos2Priority" "uint8_t" [param "uint8_t" "ipTos"] [is_static];
  method cls "Ipv6JoinGroup" "void" [param "ns3::Ipv6Address" "address";
    param "ns3::Socket::Ipv6MulticastFilterMode" "filterMode";
    param "std::vector< ns3::Ipv6Address >" "sourceAddresses"] [is_virtual];
  method cls "Ipv6JoinGroup" "void" [param "ns3::Ipv6Address" "address"] [is_virtual];
  method cls "Ipv6LeaveGroup" "void" [] [is_virtual];
  method cls "IsIpRecvTos" "bool" [] [is_const];
  method cls "IsIpRecvTtl" "bool" [] [is_const];
  method cls "IsIpv6RecvHopLimit" "bool" [] [is_const];
  method cls "IsIpv6RecvTclass" "bool" [] [is_const];
  method cls "IsRecvPktInfo" "bool" [] [is_const];
  method cls "Listen" "int" [] [is_pure_virtual; is_virtual];
  method cls "Recv" "ns3::Ptr< ns3::Packet >" [param "uint32_t" "maxSize";
    param "uint32_t" "flags"] [is_pure_virtual; is_virtual];
  method cls "Recv" "ns3::Ptr< ns3::Packet >" [] [];
  method cls "Recv" "int" [param "uint8_t *" "buf"; param "uint32_t" "size";
    param "uint32_t" "flags"] [];
  method cls "RecvFrom" "ns3::Ptr< ns3::Packet >" [param "uint32_t" "maxSize";
    param "uint32_t" "flags"; param "ns3::Address &" "fromAddress"] [is_pure_virtual; is_virtual];
  method cls "RecvFrom" "ns3::Ptr< ns3::Packet >" [param "ns3::Address &" "fromAddress"] [];
  method cls "RecvFrom" "int" [param "uint8_t *" "buf"; param "uint32_t" "size";
    param "uint32_t" "flags"; param "ns3::Address &" "fromAddress"] [];
  method cls "Send" "int" [param "ns3::Ptr< ns3::Packet >" "p"; param "uint32_t" "flags"]
    [is_pure_virtual; is_virtual];
  method cls "Send" "int" [param "ns3::Ptr< ns3::Packet >" "p"] [];
  method cls "Send" "int" [param "uint8_t const *" "buf"; param "uint32_t" "size";
    param "uint32_t" "flags"] [];
  method cls "SendTo" "int" [param "ns3::Ptr< ns3::Packet >" "p"; param "uint32_t" "flags";
    param "ns3::Address const &" "toAddress"] [is_pure_virtual; is_virtual];
  method cls "SendTo" "int" [param "uint8_t const *" "buf"; param "uint32_t" "size";
    param "uint32_t" "flags"; param "ns3::Address const &" "address"] [];
  method cls "SetAcceptCallback" "void"
    [param "ns3::Callback< bool, ns3::Ptr< ns3::Socket >, ns3::Address const &, ns3::empty, ns3::empty, ns3::empty, ns3::empty, ns3::empty, ns3::empty, ns3::empty >" "connectionRequest";
    param "ns3::Callback< void, ns3::Ptr< ns3::Socket >, ns3::Address const &, ns3::empty, ns3::empty, ns3::empty, ns3::empty, ns3::empty, ns3::empty, ns3::empty >" "newConnectionCreated"]
    [];
  method cls "SetAllowBroadcast" "bool" [param "bool" "allowBroadcast"] [is_pure_virtual;
    is_virtual];
  method cls "SetCloseCallbacks" "void"
    [param "ns3::Callback< void, ns3::Ptr< ns3::Socket >, ns3::empty, ns3::empty, ns3::empty, ns3::empty, ns3::empty, ns3::empty, ns3::empty, ns3::empty >" "normalClose";
    param "ns3::Callback< void, ns3::Ptr< ns3::Socket >, ns3::empty, ns3::empty, ns3::empty, ns3::empty, ns3::empty, ns3::empty, ns3::empty, ns3::empty >" "errorClose"]
    [];
  method cls "SetConnectCallback" "void"
    [param "ns3::Callback< void, ns3::Ptr< ns3::Socket >, ns3::empty, ns3::empty, ns3::empty, ns3::empty, ns3::empty, ns3::empty, ns3::empty, ns3::empty >" "connectionSucceeded";
    param "ns3::Callback< void, ns3::Ptr< ns3::Socket >, ns3::empty, ns3::empty, ns3::empty, ns3::empty, ns3::empty, ns3::empty, ns3::empty, ns3::empty >" "connectionFailed"]
    [];
  method cls "SetDataSentCallback" "void"
    [param "ns3::Callback< void, ns3::Ptr< ns3::Socket >, unsigned int, ns3::empty, ns3::empty, ns3::empty, ns3::empty, ns3::empty, ns3::empty, ns3::empty >" "dataSent"]
    [];
  method cls "SetIpRecvTos" "void" [param "bool" "ipv4RecvTos"] [];
  method cls "SetIpRecvTtl" "void" [param "bool" "ipv4RecvTtl"] [];
  method cls "SetIpTos" "void" [param "uint8_t" "ipTos"] [];
  method cls "SetIpTtl" "void" [param "uint8_t" "ipTtl"] [is_virtual];
  method cls "SetIpv6HopLimit" "void" [param "uint8_t" "ipHopLimit"] [is_virtual];
  method cls "SetIpv6RecvHopLimit" "void" [param "bool" "ipv6RecvHopLimit"] [];
  method cls "SetIpv6RecvTclass" "void" [param "bool" "ipv6RecvTclass"] [];
  method cls "SetIpv6Tclass" "void" [param "int" "ipTclass"] [];
  method cls "SetPriority" "void" [param "uint8_t" "priority"] [];
  method cls "SetRecvCallback" "void"
    [param "ns3::Callback< void, ns3::Ptr< ns3::Socket >, ns3::empty, ns3::empty, ns3::empty, ns3::empty, ns3::empty, ns3::empty, ns3::empty, ns3::empty >" "receivedData"]
    [];
  method cls "SetRecvPktInfo" "void" [param "bool" "flag"] [];
  method cls "SetSendCallback" "void"
    [param "ns3::Callback< void, ns3::Ptr< ns3::Socket >, unsigned int, ns3::empty, ns3::empty, ns3::empty, ns3::empty, ns3::empty, ns3::empty, ns3::empty >" "sendCb"]
    [];
  method cls "ShutdownRecv" "int" [] [is_pure_virtual; is_virtual];
  method cls "ShutdownSend" "int" [] [is_pure_virtual; is_virtual];
  method cls "DoDispose" "void" [] [is_virtual; visibility "protected"];
  method cls "IsManualIpTtl" "bool" [] [is_const; visibility "protected"];
  method cls "IsManualIpv6HopLimit" "bool" [] [is_const; visibility "protected"];
  method cls "IsManualIpv6Tclass" "bool" [] [is_const; visibility "protected"];
  method cls "NotifyConnectionFailed" "void" [] [visibility "protected"];
  method cls "NotifyConnectionRequest" "bool" [param "ns3::Address const &" "from"]
    [visibility "protected"];
  method cls "NotifyConnectionSucceeded" "void" [] [visibility "protected"];
  method cls "NotifyDataRecv" "void" [] [visibility "protected"];
  method cls "NotifyDataSent" "void" [param "uint32_t" "size"] [visibility "protected"];
  method cls "NotifyErrorClose" "void" [] [visibility "protected"];
  method cls "NotifyNewConnectionCreated" "void" [param "ns3::Ptr< ns3::Socket >" "socket";
    param "ns3::Address const &" "from"] [visibility "protected"];
  method cls "NotifyNormalClose" "void" [] [visibility "protected"];
  method cls "NotifySend" "void" [param "uint32_t" "spaceAvailable"] [visibility "protected"]].
Definition register_Ns3SocketFactory_methods (cls : string) : list call := [
  constructor cls [param "ns3::SocketFactory const &" "arg0"];
  constructor cls [];
  method cls "CreateSocket" "ns3::Ptr< ns3::Socket >" [] [is_pure_virtual; is_virtual];
  method cls "GetTypeId" "ns3::TypeId" [] [is_static]].
Definition register_Ns3SocketFdFactory_methods (cls : string) : list call := [
  constructor cls [];
  constructor cls [param "ns3::SocketFdFactory const &" "arg0"];
  method cls "CreateSocket" "ns3::UnixFd *" [param "int" "domain"; param "int" "type";
    param "int" "protocol"] [is_pure_virtual; is_virtual];
  method cls "GetTypeId" "ns3::TypeId" [] [is_static];
  method cls "UnlinkNotify" "void" [param "std::string" "path"] [is_virtual]].
Definition register_Ns3SocketIpTosTag_methods (cls : string) : list call := [
  constructor cls [param "ns3::SocketIpTosTag const &" "arg0"];
  constructor cls [];
  method cls "Deserialize" "void" [param "ns3::TagBuffer" "i"] [is_virtual];
  method cls "GetInstanceTypeId" "ns3::TypeId" [] [is_const; is_virtual];
  method cls "GetSerializedSize" "uint32_t" [] [is_const; is_virtual];
  method cls "GetTos" "uint8_t" [] [is_const];
  method cls "GetTypeId" "ns3::TypeId" [] [is_static];
  method cls "Print" "void" [param "std::ostream &" "os"] [is_const; is_virtual];
  method cls "Serialize" "void" [param "ns3::TagBuffer" "i"] [is_const; is_virtual];
  method cls "SetTos" "void" [param "uint8_t" "tos"] []].
Definition register_Ns3SocketIpTtlTag_methods (cls : string) : list call := [
  constructor cls [param "ns3::SocketIpTtlTag const &" "arg0"];
  constructor cls [];
  method cls "Deserialize" "void" [param "ns3::TagBuffer" "i"] [is_virtual];
  method cls "GetInstanceTypeId" "ns3::TypeId" [] [is_const; is_virtual];
  method cls "GetSerializedSize" "uint32_t" [] [is_const; is_virtual];
  method cls "GetTtl" "uint8_t" [] [is_const];
  method cls "GetTypeId" "ns3::TypeId" [] [is_static];
  method cls "Print" "void" [param "std::ostream &" "os"] [is_const; is_virtual];
  method cls "Serialize" "void" [param "ns3::TagBuffer" "i"] [is_const; is_virtual];
  method cls "SetTtl" "void" [param "uint8_t" "ttl"] []].
Definition register_Ns3SocketIpv6HopLimitTag_methods (cls : string) : list call := [
  constructor cls [param "ns3::SocketIpv6HopLimitTag const &" "arg0"];
  constructor cls [];
  method cls "Deserialize" "void" [param "ns3::TagBuffer" "i"] [is_virtual];
  method cls "GetHopLimit" "uint8_t" [] [is_const];
  method cls "GetInstanceTypeId" "ns3::TypeId" [] [is_const; is_virtual];
  method cls "GetSerializedSize" "uint32_t" [] [is_const; is_virtual];
  method cls "GetTypeId" "ns3::TypeId" [] [is_static];
  method cls "Print" "void" [param "std::ostream &" "os"] [is_const; is_virtual];
  method cls "Serialize" "void" [param "ns3::TagBuffer" "i"] [is_const; is_virtual];
  method cls "SetHopLimit" "void" [param "uint8_t" "hopLimit"] []].
Definition register_Ns3SocketIpv6TclassTag_methods (cls : string) : list call := [
  constructor cls [param "ns3::SocketIpv6TclassTag const &" "arg0"];
  constructor cls [];
  method cls "Deserialize" "void" [param "ns3::TagBuffer" "i"] [is_virtual];
  method cls "GetInstanceTypeId" "ns3::TypeId" [] [is_const; is_virtual];
  method cls "GetSerializedSize" "uint32_t" [] [is_const; is_virtual];
  method cls "GetTclass" "uint8_t" [] [is_const];
  method cls "GetTypeId" "ns3::TypeId" [] [is_static];
  method cls "Print" "void" [param "std::ostream &" "os"] [is_const; is_virtual];
  method cls "Serialize" "void" [param "ns3::TagBuffer" "i"] [is_const; is_virtual];
  method cls "SetTclass" "void" [param "uint8_t" "tclass"] []].
Definition register_Ns3SocketPriorityTag_methods (cls : string) : list call := [
  constructor cls [param "ns3::SocketPriorityTag const &" "arg0"];
  constructor cls [];
  method cls "Deserialize" "void" [param "ns3::TagBuffer" "i"] [is_virtual];
  method cls "GetInstanceTypeId" "ns3::TypeId" [] [is_const; is_virtual];
  method cls "GetPriority" "uint8_t" [] [is_const];
  method cls "GetSerializedSize" "uint32_t" [] [is_const; is_virtual];
  method cls "GetTypeId" "ns3::TypeId" [] [is_static];
  method cls "Print" "void" [param "std::ostream &" "os"] [is_const; is_virtual];
  method cls "Serialize" "void" [param "ns3::TagBuffer" "i"] [is_const; is_virtual];
  method cls "SetPriority" "void" [param "uint8_t" "priority"] []].
Definition register_Ns3SocketSetDontFragmentTag_methods (cls : string) : list call := [
  constructor cls [param "ns3::SocketSetDontFragmentTag const &" "arg0"];
  constructor cls [];
  method cls "Deserialize" "void" [param "ns3::TagBuffer" "i"] [is_virtual];
  method cls "Disable" "void" [] [];
  method cls "Enable" "void" [] [];
  method cls "GetInstanceTypeId" "ns3::TypeId" [] [is_const; is_virtual];
  method cls "GetSerializedSize" "uint32_t" [] [is_const; is_virtual];
  method cls "GetTypeId" "ns3::TypeId" [] [is_static];
  method cls "IsEnabled" "bool" [] [is_const];
  method cls "Print" "void" [param "std::ostream &" "os"] [is_const; is_virtual];
  method cls "Serialize" "void" [param "ns3::TagBuffer" "i"] [is_const; is_virtual]].
Definition register_Ns3TaskManager_methods (cls : string) : list call := [
  constructor cls [param "ns3::TaskManager const &" "arg0"];
  constructor cls [];
  method cls "Clone" "ns3::Task *" [param "ns3::Task *" "task"] [];
  method cls "Current" "ns3::TaskManager *" [] [is_static];
  method cls "CurrentTask" "ns3::Task *" [] [];
  method cls "EnterHiTask" "void" [param "ns3::Task *" "task"] [];
  method cls "ExecOnMain" "void" [param "ns3::EventImpl *" "e"] [];
  method cls "Exit" "void" [] [];
  method cls "GetNoSignal" "bool" [] [];
  method cls "GetStackSize" "uint32_t" [param "ns3::Task *" "task"] [is_const];
  method cls "GetTypeId" "ns3::TypeId" [] [is_static];
  method cls "LeaveHiTask" "void" [param "ns3::Task *" "task"] [];
  method cls "ScheduleMain" "ns3::EventId" [param "ns3::Time const &" "time";
    param "ns3::EventImpl *" "e"] [];
  method cls "SetDelayModel" "void" [param "ns3::Ptr< ns3::ProcessDelayModel >" "model"] [];
  method cls "SetScheduler" "void" [param "ns3::Ptr< ns3::TaskScheduler >" "scheduler"] [];
  method cls "SetSwitchNotify" "void" [param "void ( * ) (  )" "fn"] [];
  method cls "Sleep" "void" [] [];
  method cls "Sleep" "ns3::Time" [param "ns3::Time" "timeout"] [];
  method cls "Start" "ns3::Task *" [param "void ( * ) ( void * )" "fn"; param "void *" "context";
    param_default "uint32_t" "stackSize" "0"] [];
  method cls "Stop" "void" [param "ns3::Task *" "task"] [];
  method cls "Wakeup" "void" [param "ns3::Task *" "task"] [];
  method cls "Yield" "void" [] [];
  method cls "DoDispose" "void" [] [is_virtual; visibility "private"]].
Definition register_Ns3TaskScheduler_methods (cls : string) : list call := [
  constructor cls [];
  constructor cls [param "ns3::TaskScheduler const &" "arg0"];
  method cls "Dequeue" "void" [param "ns3::Task *" "task"] [is_pure_virtual; is_virtual];
  method cls "DequeueNext" "void" [] [is_pure_virtual; is_virtual];
  method cls "Enqueue" "void" [param "ns3::Task *" "task"] [is_pure_virtual; is_virtual];
  method cls "GetTypeId" "ns3::TypeId" [] [is_static];
  method cls "PeekNext" "ns3::Task *" [] [is_pure_virtual; is_virtual]].
Definition register_Ns3TimeOfDayProcessDelayModel_methods (cls : string) : list call := [
  constructor cls [param "ns3::TimeOfDayProcessDelayModel const &" "arg0"];
  constructor cls [];
  method cls "GetTypeId" "ns3::TypeId" [] [is_static];
  method cls "RecordEnd" "ns3::Time" [] [is_virtual];
  method cls "RecordStart" "void" [] [is_virtual]].
Definition register_Ns3TraceSourceAccessor_methods (cls : string) : list call := [
  constructor cls [param "ns3::TraceSourceAccessor const &" "arg0"];
  constructor cls [];
  method cls "Connect" "bool" [borrowed "ns3::ObjectBase *" "obj"; param "std::string" "context";
    param "ns3::CallbackBase const &" "cb"] [is_const; is_pure_virtual; is_virtual];
  method cls "ConnectWithoutContext" "bool" [borrowed "ns3::ObjectBase *" "obj";
    param "ns3::CallbackBase const &" "cb"] [is_const; is_pure_virtual; is_virtual];
  method cls "Disconnect" "bool" [borrowed "ns3::ObjectBase *" "obj";
    param "std::string" "context"; param "ns3::CallbackBase const &" "cb"] [is_const;
    is_pure_virtual; is_virtual];
  method cls "DisconnectWithoutContext" "bool" [borrowed "ns3::ObjectBase *" "obj";
    param "ns3::CallbackBase const &" "cb"] [is_const; is_pure_virtual; is_virtual]].
Definition register_Ns3Trailer_methods (cls : string) : list call := [
  AddOutputStream cls;
  constructor cls [];
  constructor cls [param "ns3::Trailer const &" "arg0"];
  method cls "Deserialize" "uint32_t" [param "ns3::Buffer::Iterator" "end"] [is_pure_virtual;
    is_virtual];
  method cls "Deserialize" "uint32_t" [param "ns3::Buffer::Iterator" "start";
    param "ns3::Buffer::Iterator" "end"] [is_virtual];
  method cls "GetSerializedSize" "uint32_t" [] [is_const; is_pure_virtual; is_virtual];
  method cls "GetTypeId" "ns3::TypeId" [] [is_static];
  method cls "Print" "void" [param "std::ostream &" "os"] [is_const; is_pure_virtual; is_virtual];
  method cls "Serialize" "void" [param "ns3::Buffer::Iterator" "start"] [is_const;
    is_pure_virtual; is_virtual]].
Definition register_Ns3TriangularRandomVariable_methods (cls : string) : list call := [
  method cls "GetTypeId" "ns3::TypeId" [] [is_static];
  constructor cls [];
  method cls "GetMean" "double" [] [is_const];
  method cls "GetMin" "double" [] [is_const];
  method cls "GetMax" "double" [] [is_const];
  method cls "GetValue" "double" [param "double" "mean"; param "double" "min";
    param "double" "max"] [];
  method cls "GetInteger" "uint32_t" [param "uint32_t" "mean"; param "uint32_t" "min";
    param "uint32_t" "max"] [];
  method cls "GetValue" "double" [] [is_virtual];
  method cls "GetInteger" "uint32_t" [] [is_virtual]].
Definition register_Ns3UniformRandomVariable_methods (cls : string) : list call := [
  method cls "GetTypeId" "ns3::TypeId" [] [is_static];
  constructor cls [];
  method cls "GetMin" "double" [] [is_const];
  method cls "GetMax" "double" [] [is_const];
  method cls "GetValue" "double" [param "double" "min"; param "double" "max"] [];
  method cls "GetInteger" "uint32_t" [param "uint32_t" "min"; param "uint32_t" "max"] [];
  method cls "GetValue" "double" [] [is_virtual];
  method cls "GetInteger" "uint32_t" [] [is_virtual]].
Definition register_Ns3UnixFd_methods (cls : string) : list call := [
  constructor cls [param "ns3::UnixFd const &" "arg0"];
  method cls "Accept" "int" [param "sockaddr *" "my_addr"; param "socklen_t *" "addrlen"]
    [is_pure_virtual; is_virtual];
  method cls "Bind" "int" [param "sockaddr const *" "my_addr"; param "socklen_t" "addrlen"]
    [is_pure_virtual; is_virtual];
  method cls "Close" "int" [] [is_pure_virtual; is_virtual];
  method cls "Connect" "int" [param "sockaddr const *" "my_addr"; param "socklen_t" "addrlen"]
    [is_pure_virtual; is_virtual];
  method cls "DecFdCount" "void" [] [];
  method cls "Fcntl" "int" [param "int" "cmd"; param "long unsigned int" "arg"] [is_virtual];
  method cls "Fsync" "int" [] [is_pure_virtual; is_virtual];
  method cls "Ftruncate" "int" [param "off_t" "length"] [is_pure_virtual; is_virtual];
  method cls "Fxstat" "int" [param "int" "ver"; param "stat *" "buf"] [is_pure_virtual;
    is_virtual];
  method cls "Fxstat64" "int" [param "int" "ver"; param "stat64 *" "buf"] [is_pure_virtual;
    is_virtual];
  method cls "GetFdCount" "int" [] [is_const];
  method cls "GetRealFd" "int" [] [is_const; is_virtual];
  method cls "GetTypeId" "ns3::TypeId" [] [is_static];
  method cls "Getpeername" "int" [param "sockaddr *" "name"; param "socklen_t *" "namelen"]
    [is_pure_virtual; is_virtual];
  method cls "Getsockname" "int" [param "sockaddr *" "name"; param "socklen_t *" "namelen"]
    [is_pure_virtual; is_virtual];
  method cls "Getsockopt" "int" [param "int" "level"; param "int" "optname";
    param "void *" "optval"; param "socklen_t *" "optlen"] [is_pure_virtual; is_virtual];
  method cls "Gettime" "int" [param "itimerspec *" "cur_value"] [is_const; is_pure_virtual;
    is_virtual];
  method cls "HangupReceived" "bool" [] [is_const; is_pure_virtual; is_virtual];
  method cls "IncFdCount" "void" [] [];
  method cls "Ioctl" "int" [param "long unsigned int" "request"; param "char *" "argp"]
    [is_pure_virtual; is_virtual];
  method cls "Isatty" "bool" [] [is_const; is_pure_virtual; is_virtual];
  method cls "Listen" "int" [param "int" "backlog"] [is_pure_virtual; is_virtual];
  method cls "Lseek" "off64_t" [param "off64_t" "offset"; param "int" "whence"] [is_pure_virtual;
    is_virtual];
  method cls "Mmap" "void *" [param "void *" "start"; param "size_t" "length"; param "int" "prot";
    param "int" "flags"; param "off64_t" "offset"] [is_pure_virtual; is_virtual];
  method cls "Poll" "int" [param "ns3::PollTable *" "ptable"] [is_pure_virtual; is_virtual];
  method cls "Read" "ssize_t" [param "void *" "buf"; param "size_t" "count"] [is_pure_virtual;
    is_virtual];
  method cls "Recvmsg" "ssize_t" [param "msghdr *" "msg"; param "int" "flags"] [is_pure_virtual;
    is_virtual];
  method cls "Sendmsg" "ssize_t" [param "msghdr const *" "msg"; param "int" "flags"]
    [is_pure_virtual; is_virtual];
  method cls "Setsockopt" "int" [param "int" "level"; param "int" "optname";
    param "void const *" "optval"; param "socklen_t" "optlen"] [is_pure_virtual; is_virtual];
  method cls "Settime" "int" [param "int" "flags"; param "itimerspec const *" "new_value";
    param "itimerspec *" "old_value"] [is_pure_virtual; is_virtual];
  method cls "Shutdown" "int" [param "int" "how"] [is_pure_virtual; is_virtual];
  method cls "Ttyname" "char *" [] [is_virtual];
  method cls "Write" "ssize_t" [param "void const *" "buf"; param "size_t" "count"]
    [is_pure_virtual; is_virtual];
  AddConstructor cls [] [visibility "protected"];
  method cls "AddWaitQueue" "void" [param "ns3::WaitQueueEntry *" "arg0";
    param "bool" "andRegister"] [visibility "protected"];
  method cls "RemoveWaitQueue" "void" [param "ns3::WaitQueueEntry *" "arg0";
    param "bool" "andUnregister"] [visibility "protected"];
  method cls "WakeWaiters" "void" [param "void *" "key"] [visibility "protected"]].
Definition register_Ns3WeibullRandomVariable_methods (cls : string) : list call := [
  method cls "GetTypeId" "ns3::TypeId" [] [is_static];
  constructor cls [];
  method cls "GetScale" "double" [] [is_const];
  method cls "GetShape" "double" [] [is_const];
  method cls "GetBound" "double" [] [is_const];
  method cls "GetValue" "double" [param "double" "scale"; param "double" "shape";
    param "double" "bound"] [];
  method cls "GetInteger" "uint32_t" [param "uint32_t" "scale"; param "uint32_t" "shape";
    param "uint32_t" "bound"] [];
  method cls "GetValue" "double" [] [is_virtual];
  method cls "GetInteger" "uint32_t" [] [is_virtual]].
Definition register_Ns3ZetaRandomVariable_methods (cls : string) : list call := [
  method cls "GetTypeId" "ns3::TypeId" [] [is_static];
  constructor cls [];
  method cls "GetAlpha" "double" [] [is_const];
  method cls "GetValue" "double" [param "double" "alpha"] [];
  method cls "GetInteger" "uint32_t" [param "uint32_t" "alpha"] [];
  method cls "GetValue" "double" [] [is_virtual];
  method cls "GetInteger" "uint32_t" [] [is_virtual]].
Definition register_Ns3ZipfRandomVariable_methods (cls : string) : list call := [
  method cls "GetTypeId" "ns3::TypeId" [] [is_static];
  constructor cls [];
  method cls "GetN" "uint32_t" [] [is_const];
  method cls "GetAlpha" "double" [] [is_const];
  method cls "GetValue" "double" [param "uint32_t" "n"; param "double" "alpha"] [];
  method cls "GetInteger" "uint32_t" [param "uint32_t" "n"; param "uint32_t" "alpha"] [];
  method cls "GetValue" "double" [] [is_virtual];
  method cls "GetInteger" "uint32_t" [] [is_virtual]].
Definition register_Ns3Application_methods (cls : string) : list call := [
  constructor cls [param "ns3::Application const &" "arg0"];
  constructor cls [];
  method cls "GetNode" "ns3::Ptr< ns3::Node >" [] [is_const];
  method cls "GetTypeId" "ns3::TypeId" [] [is_static];
  method cls "SetNode" "void" [param "ns3::Ptr< ns3::Node >" "node"] [];
  method cls "SetStartTime" "void" [param "ns3::Time" "start"] [];
  method cls "SetStopTime" "void" [param "ns3::Time" "stop"] [];
  method cls "DoDispose" "void" [] [is_virtual; visibility "protected"];
  method cls "DoInitialize" "void" [] [is_virtual; visibility "protected"];
  method cls "StartApplication" "void" [] [is_virtual; visibility "private"];
  method cls "StopApplication" "void" [] [is_virtual; visibility "private"]].
Definition register_Ns3AttributeAccessor_methods (cls : string) : list call := [
  constructor cls [param "ns3::AttributeAccessor const &" "arg0"];
  constructor cls [];
  method cls "Get" "bool" [param "ns3::ObjectBase const *" "object";
    param "ns3::AttributeValue &" "attribute"] [is_const; is_pure_virtual; is_virtual];
  method cls "HasGetter" "bool" [] [is_const; is_pure_virtual; is_virtual];
  method cls "HasSetter" "bool" [] [is_const; is_pure_virtual; is_virtual];
  method cls "Set" "bool" [borrowed "ns3::ObjectBase *" "object";
    param "ns3::AttributeValue const &" "value"] [is_const; is_pure_virtual; is_virtual]].
Definition register_Ns3AttributeChecker_methods (cls : string) : list call := [
  constructor cls [param "ns3::AttributeChecker const &" "arg0"];
  constructor cls [];
  method cls "Check" "bool" [param "ns3::AttributeValue const &" "value"] [is_const;
    is_pure_virtual; is_virtual];
  method cls "Copy" "bool" [param "ns3::AttributeValue const &" "source";
    param "ns3::AttributeValue &" "destination"] [is_const; is_pure_virtual; is_virtual];
  method cls "Create" "ns3::Ptr< ns3::AttributeValue >" [] [is_const; is_pure_virtual; is_virtual];
  method cls "CreateValidValue" "ns3::Ptr< ns3::AttributeValue >"
    [param "ns3::AttributeValue const &" "value"] [is_const];
  method cls "GetUnderlyingTypeInformation" "std::string" [] [is_const; is_pure_virtual;
    is_virtual];
  method cls "GetValueTypeName" "std::string" [] [is_const; is_pure_virtual; is_virtual];
  method cls "HasUnderlyingTypeInformation" "bool" [] [is_const; is_pure_virtual; is_virtual]].
Definition register_Ns3AttributeValue_methods (cls : string) : list call := [
  constructor cls [param "ns3::AttributeValue const &" "arg0"];
  constructor cls [];
  method cls "Copy" "ns3::Ptr< ns3::AttributeValue >" [] [is_const; is_pure_virtual; is_virtual];
  method cls "DeserializeFromString" "bool" [param "std::string" "value";
    param "ns3::Ptr< ns3::AttributeChecker const >" "checker"] [is_pure_virtual; is_virtual];
  method cls "SerializeToString" "std::string"
    [param "ns3::Ptr< ns3::AttributeChecker const >" "checker"] [is_const; is_pure_virtual;
    is_virtual]].
Definition register_Ns3CallbackChecker_methods (cls : string) : list call := [
  constructor cls [];
  constructor cls [param "ns3::CallbackChecker const &" "arg0"]].
Definition register_Ns3CallbackImplBase_methods (cls : string) : list call := [
  constructor cls [];
  constructor cls [param "ns3::CallbackImplBase const &" "arg0"];
  method cls "GetTypeid" "std::string" [] [is_const; is_pure_virtual; is_virtual];
  method cls "IsEqual" "bool" [param "ns3::Ptr< ns3::CallbackImplBase const >" "other"] [is_const;
    is_pure_virtual; is_virtual];
  method cls "Demangle" "std::string" [param "std::string const &" "mangled"] [is_static;
    visibility "protected"];
  method cls "GetCppTypeid" "std::string" [] [is_static; template_parameters ["ns3::ObjectBase*"];
    visibility "protected"];
  method cls "GetCppTypeid" "std::string" [] [is_static; template_parameters ["void"];
    visibility "protected"];
  method cls "GetCppTypeid" "std::string" [] [is_static; template_parameters ["unsigned short"];
    visibility "protected"];
  method cls "GetCppTypeid" "std::string" [] [is_static; template_parameters ["int"];
    visibility "protected"];
  method cls "GetCppTypeid" "std::string" [] [is_static;
    template_parameters ["ns3::Ptr<ns3::NetDevice> "]; visibility "protected"];
  method cls "GetCppTypeid" "std::string" [] [is_static;
    template_parameters ["ns3::Ptr<ns3::Packet const> "]; visibility "protected"];
  method cls "GetCppTypeid" "std::string" [] [is_static;
    template_parameters ["ns3::Address const&"]; visibility "protected"];
  method cls "GetCppTypeid" "std::string" [] [is_static;
    template_parameters ["ns3::NetDevice::PacketType"]; visibility "protected"];
  method cls "GetCppTypeid" "std::string" [] [is_static;
    template_parameters ["ns3::Ptr<ns3::Socket> "]; visibility "protected"];
  method cls "GetCppTypeid" "std::string" [] [is_static; template_parameters ["bool"];
    visibility "protected"];
  method cls "GetCppTypeid" "std::string" [] [is_static; template_parameters ["unsigned int"];
    visibility "protected"];
  method cls "GetCppTypeid" "std::string" [] [is_static; template_parameters ["void*"];
    visibility "protected"];
  method cls "GetCppTypeid" "std::string" [] [is_static; template_parameters ["sockaddr*"];
    visibility "protected"];
  method cls "GetCppTypeid" "std::string" [] [is_static; template_parameters ["unsigned int*"];
    visibility "protected"];
  method cls "GetCppTypeid" "std::string" [] [is_static; template_parameters ["ns3::Address"];
    visibility "protected"];
  method cls "GetCppTypeid" "std::string" [] [is_static; template_parameters ["sockaddr const*"];
    visibility "protected"]].
Definition register_Ns3CallbackValue_methods (cls : string) : list call := [
  constructor cls [param "ns3::CallbackValue const &" "arg0"];
  constructor cls [];
  constructor cls [param "ns3::CallbackBase const &" "base"];
  method cls "Copy" "ns3::Ptr< ns3::AttributeValue >" [] [is_const; is_virtual];
  method cls "DeserializeFromString" "bool" [param "std::string" "value";
    param "ns3::Ptr< ns3::AttributeChecker const >" "checker"] [is_virtual];
  method cls "SerializeToString" "std::string"
    [param "ns3::Ptr< ns3::AttributeChecker const >" "checker"] [is_const; is_virtual];
  method cls "Set" "void" [param "ns3::CallbackBase" "base"] []].
Definition register_Ns3ConstantRandomVariable_methods (cls : string) : list call := [
  method cls "GetTypeId" "ns3::TypeId" [] [is_static];
  constructor cls [];
  method cls "GetConstant" "double" [] [is_const];
  method cls "GetValue" "double" [param "double" "constant"] [];
  method cls "GetInteger" "uint32_t" [param "uint32_t" "constant"] [];
  method cls "GetValue" "double" [] [is_virtual];
  method cls "GetInteger" "uint32_t" [] [is_virtual]].
Definition register_Ns3DceApplication_methods (cls : string) : list call := [
  constructor cls [param "ns3::DceApplication const &" "arg0"];
  constructor cls [];
  method cls "GetPid" "uint16_t" [] [];
  method cls "GetTypeId" "ns3::TypeId" [] [is_static];
  method cls "SetArguments" "void" [param "std::vector< std::string >" "args"] [];
  method cls "SetBinary" "void" [param "std::string" "filename"] [];
  method cls "SetEgid" "void" [param "uid_t" "i"] [];
  method cls "SetEnvironment" "void"
    [param "std::vector< std::pair< std::string, std::string > >" "envs"] [];
  method cls "SetEuid" "void" [param "uid_t" "i"] [];
  method cls "SetFinishedCallback" "void"
    [param "ns3::Callback< void, unsigned short, int, ns3::empty, ns3::empty, ns3::empty, ns3::empty, ns3::empty, ns3::empty, ns3::empty >" "cb"]
    [];
  method cls "SetGid" "void" [param "uid_t" "i"] [];
  method cls "SetStackSize" "void" [param "uint32_t" "stackSize"] [];
  method cls "SetStdinFile" "void" [param "std::string" "filename"] [];
  method cls "SetUid" "void" [param "uid_t" "i"] [];
  method cls "DoDispose" "void" [] [is_virtual; visibility "private"];
  method cls "StartApplication" "void" [] [is_virtual; visibility "private"];
  method cls "StopApplication" "void" [] [is_virtual; visibility "private"]].
Definition register_Ns3DceManager_methods (cls : string) : list call := [
  constructor cls [param "ns3::DceManager const &" "arg0"];
  constructor cls [];
  method cls "AppendProcFile" "void" [param "ns3::Process *" "p"] [is_static];
  method cls "AppendStatusFile" "void" [param "uint16_t" "pid"; param "uint32_t" "nodeId";
    param "std::string &" "line"] [is_static];
  method cls "Clone" "uint16_t" [param "ns3::Thread *" "thread"] [];
  method cls "CreateProcess" "ns3::Process *" [param "std::string" "name";
    param "std::string" "stdinfilename"; param "std::vector< std::string >" "args";
    param "std::vector< std::pair< std::string, std::string > >" "envs"; param "int" "pid"] [];
  method cls "CreateThread" "ns3::Thread *" [param "ns3::Process *" "process"] [];
  method cls "DeleteProcess" "void" [param "ns3::Process *" "process";
    param "ns3::DceManager::ProcessEndCause" "type"] [];
  method cls "DeleteThread" "void" [param "ns3::Thread *" "thread"] [];
  method cls "Execve" "int" [param "char const *" "path"; param "char const *" "argv0";
    param "char * const *" "argv"; param "char * const *" "envp"] [];
  method cls "Exit" "void" [] [];
  method cls "FinishChild" "void" [param "uint16_t" "pid"] [];
  method cls "GetProcs" "std::map< unsigned short, ns3::Process * >" [] [];
  method cls "GetTypeId" "ns3::TypeId" [] [is_static];
  method cls "GetVirtualPath" "std::string" [] [is_const];
  method cls "ResumeTemporaryTask" "void" [param "uint16_t" "pid"] [];
  method cls "SearchProcess" "ns3::Process *" [param "uint16_t" "pid"] [];
  method cls "SearchThread" "ns3::Thread *" [param "uint16_t" "pid"; param "uint16_t" "tid"] [];
  method cls "SetFinishedCallback" "void" [param "uint16_t" "pid";
    param "ns3::Callback< void, unsigned short, int, ns3::empty, ns3::empty, ns3::empty, ns3::empty, ns3::empty, ns3::empty, ns3::empty >" "cb"]
    [];
  method cls "SetVirtualPath" "void" [param "std::string" "p"] [];
  method cls "Start" "uint16_t" [param "std::string" "name"; param "std::string" "stdinfilename";
    param "std::vector< std::string >" "args";
    param "std::vector< std::pair< std::string, std::string > >" "envs"; param "uid_t" "uid";
    param "uid_t" "euid"; param "uid_t" "gid"; param "uid_t" "egid"] [];
  method cls "Start" "uint16_t" [param "std::string" "name"; param "std::string" "stdinfilename";
    param "uint32_t" "stackSize"; param "std::vector< std::string >" "args";
    param "std::vector< std::pair< std::string, std::string > >" "envs"; param "uid_t" "uid";
    param "uid_t" "euid"; param "uid_t" "gid"; param "uid_t" "egid"] [];
  method cls "StartInternalTask" "uint16_t" [] [];
  method cls "StartTemporaryTask" "uint16_t" [] [];
  method cls "Stop" "void" [param "uint16_t" "pid"] [];
  method cls "StopTemporaryTask" "void" [param "uint16_t" "pid"] [];
  method cls "SuspendTemporaryTask" "void" [param "uint16_t" "pid"] [];
  method cls "Wait" "void" [] [];
  method cls "Wait" "ns3::Time" [param "ns3::Time" "timeout"] [];
  method cls "Wakeup" "void" [param "ns3::Thread *" "thread"] [];
  method cls "Yield" "void" [] [];
  method cls "DoDispose" "void" [] [is_virtual; visibility "private"]].
End ApiMethods3.
