(* ===== verification/ApiMethods4.v ===== *)
(** * The table of the bindings: methods, part 4 of 5

    bindings/modulegen__gcc_ILP32.py: the constructors, methods, attributes and operators of the
    classes from ns3::DceManagerHelper to ns3::Ipv6Linux, one definition for each function. *)
From Stdlib Require Import ZArith Ascii String.
From stdpp Require Import base list strings.
From S2P Require Import Prelude PyStr Pybindgen.

Module ApiMethods4.
Import Pybindgen.

Definition register_Ns3DceManagerHelper_methods (cls : string) : list call := [
  constructor cls [param "ns3::DceManagerHelper const &" "arg0"];
  constructor cls [];
  method cls "GetInstanceTypeId" "ns3::TypeId" [] [is_const; is_virtual];
  method cls "GetProcStatus" "std::vector< ns3::ProcStatus >" [] [is_static];
  method cls "GetTypeId" "ns3::TypeId" [] [is_static];
  method cls "GetVirtualPath" "std::string" [] [is_const];
  method cls "Install" "void" [param "ns3::NodeContainer" "nodes"] [];
  method cls "Install" "void" [param "ns3::Ptr< ns3::Node >" "node"] [];
  method cls "SetAttribute" "void" [param "std::string" "n1";
    param "ns3::AttributeValue const &" "v1"] [];
  method cls "SetDelayModel" "void" [param "std::string" "type";
    param_default "std::string" "n0" cpp_empty_string;
    param_default "ns3::AttributeValue const &" "v0" "ns3::EmptyAttributeValue()";
    param_default "std::string" "n1" cpp_empty_string;
    param_default "ns3::AttributeValue const &" "v1" "ns3::EmptyAttributeValue()"] [];
  method cls "SetLoader" "void" [param "std::string" "type"] [];
  method cls "SetNetworkStack" "void" [param "std::string" "type";
    param_default "std::string" "n0" cpp_empty_string;
    param_default "ns3::AttributeValue const &" "v0" "ns3::EmptyAttributeValue()"] [];
  method cls "SetScheduler" "void" [param "std::string" "type";
    param_default "std::string" "n0" cpp_empty_string;
    param_default "ns3::AttributeValue const &" "v0" "ns3::EmptyAttributeValue()";
    param_default "std::string" "n1" cpp_empty_string;
    param_default "ns3::AttributeValue const &" "v1" "ns3::EmptyAttributeValue()"] [];
  method cls "SetTaskManagerAttribute" "void" [param "std::string" "n0";
    param "ns3::AttributeValue const &" "v0"] [];
  method cls "SetVirtualPath" "void" [param "std::string" "p"] []].
Definition register_Ns3DeterministicRandomVariable_methods (cls : string) : list call := [
  method cls "GetTypeId" "ns3::TypeId" [] [is_static];
  constructor cls [];
  method cls "SetValueArray" "void" [param "double *" "values"; param "std::size_t" "length"] [];
  method cls "GetValue" "double" [] [is_virtual];
  method cls "GetInteger" "uint32_t" [] [is_virtual]].
Definition register_Ns3EmpiricalRandomVariable_methods (cls : string) : list call := [
  constructor cls [];
  method cls "CDF" "void" [param "double" "v"; param "double" "c"] [];
  method cls "GetInteger" "uint32_t" [] [is_virtual];
  method cls "GetTypeId" "ns3::TypeId" [] [is_static];
  method cls "GetValue" "double" [] [is_virtual];
  method cls "Interpolate" "double" [] [is_virtual];
  method cls "SetInterpolate" "bool" [param "bool" "interpolate"] []].
Definition register_Ns3EmptyAttributeAccessor_methods (cls : string) : list call := [
  constructor cls [param "ns3::EmptyAttributeAccessor const &" "arg0"];
  constructor cls [];
  method cls "Get" "bool" [param "ns3::ObjectBase const *" "object";
    param "ns3::AttributeValue &" "attribute"] [is_const; is_virtual];
  method cls "HasGetter" "bool" [] [is_const; is_virtual];
  method cls "HasSetter" "bool" [] [is_const; is_virtual];
  method cls "Set" "bool" [param "ns3::ObjectBase *" "object";
    param "ns3::AttributeValue const &" "value"] [is_const; is_virtual]].
Definition register_Ns3EmptyAttributeChecker_methods (cls : string) : list call := [
  constructor cls [param "ns3::EmptyAttributeChecker const &" "arg0"];
  constructor cls [];
  method cls "Check" "bool" [param "ns3::AttributeValue const &" "value"] [is_const; is_virtual];
  method cls "Copy" "bool" [param "ns3::AttributeValue const &" "source";
    param "ns3::AttributeValue &" "destination"] [is_const; is_virtual];
  method cls "Create" "ns3::Ptr< ns3::AttributeValue >" [] [is_const; is_virtual];
  method cls "GetUnderlyingTypeInformation" "std::string" [] [is_const; is_virtual];
  method cls "GetValueTypeName" "std::string" [] [is_const; is_virtual];
  method cls "HasUnderlyingTypeInformation" "bool" [] [is_const; is_virtual]].
Definition register_Ns3EmptyAttributeValue_methods (cls : string) : list call := [
  constructor cls [param "ns3::EmptyAttributeValue const &" "arg0"];
  constructor cls [];
  method cls "Copy" "ns3::Ptr< ns3::AttributeValue >" [] [is_const; is_virtual;
    visibility "private"];
  method cls "DeserializeFromString" "bool" [param "std::string" "value";
    param "ns3::Ptr< ns3::AttributeChecker const >" "checker"] [is_virtual; visibility "private"];
  method cls "SerializeToString" "std::string"
    [param "ns3::Ptr< ns3::AttributeChecker const >" "checker"] [is_const; is_virtual;
    visibility "private"]].
Definition register_Ns3ErlangRandomVariable_methods (cls : string) : list call := [
  method cls "GetTypeId" "ns3::TypeId" [] [is_static];
  constructor cls [];
  method cls "GetK" "uint32_t" [] [is_const];
  method cls "GetLambda" "double" [] [is_const];
  method cls "GetValue" "double" [param "uint32_t" "k"; param "double" "lambda"] [];
  method cls "GetInteger" "uint32_t" [param "uint32_t" "k"; param "uint32_t" "lambda"] [];
  method cls "GetValue" "double" [] [is_virtual];
  method cls "GetInteger" "uint32_t" [] [is_virtual]].
Definition register_Ns3EventImpl_methods (cls : string) : list call := [
  constructor cls [param "ns3::EventImpl const &" "arg0"];
  constructor cls [];
  method cls "Cancel" "void" [] [];
  method cls "Invoke" "void" [] [];
  method cls "IsCancelled" "bool" [] [];
  method cls "Notify" "void" [] [is_pure_virtual; is_virtual; visibility "protected"]].
Definition register_Ns3ExponentialRandomVariable_methods (cls : string) : list call := [
  method cls "GetTypeId" "ns3::TypeId" [] [is_static];
  constructor cls [];
  method cls "GetMean" "double" [] [is_const];
  method cls "GetBound" "double" [] [is_const];
  method cls "GetValue" "double" [param "double" "mean"; param "double" "bound"] [];
  method cls "GetInteger" "uint32_t" [param "uint32_t" "mean"; param "uint32_t" "bound"] [];
  method cls "GetValue" "double" [] [is_virtual];
  method cls "GetInteger" "uint32_t" [] [is_virtual]].
Definition register_Ns3GammaRandomVariable_methods (cls : string) : list call := [
  method cls "GetTypeId" "ns3::TypeId" [] [is_static];
  constructor cls [];
  method cls "GetAlpha" "double" [] [is_const];
  method cls "GetBeta" "double" [] [is_const];
  method cls "GetValue" "double" [param "double" "alpha"; param "double" "beta"] [];
  method cls "GetInteger" "uint32_t" [param "uint32_t" "alpha"; param "uint32_t" "beta"] [];
  method cls "GetValue" "double" [] [is_virtual];
  method cls "GetInteger" "uint32_t" [] [is_virtual]].
Definition register_Ns3IpL4Protocol_methods (cls : string) : list call := [
  constructor cls [];
  constructor cls [param "ns3::IpL4Protocol const &" "arg0"];
  method cls "GetDownTarget" "ns3::IpL4Protocol::DownTargetCallback" [] [is_const;
    is_pure_virtual; is_virtual];
  method cls "GetDownTarget6" "ns3::IpL4Protocol::DownTargetCallback6" [] [is_const;
    is_pure_virtual; is_virtual];
  method cls "GetProtocolNumber" "int" [] [is_const; is_pure_virtual; is_virtual];
  method cls "GetTypeId" "ns3::TypeId" [] [is_static];
  method cls "Receive" "ns3::IpL4Protocol::RxStatus" [param "ns3::Ptr< ns3::Packet >" "p";
    param "ns3::Ipv4Header const &" "header";
    param "ns3::Ptr< ns3::Ipv4Interface >" "incomingInterface"] [is_pure_virtual; is_virtual];
  method cls "Receive" "ns3::IpL4Protocol::RxStatus" [param "ns3::Ptr< ns3::Packet >" "p";
    param "ns3::Ipv6Header const &" "header";
    param "ns3::Ptr< ns3::Ipv6Interface >" "incomingInterface"] [is_pure_virtual; is_virtual];
  method cls "ReceiveIcmp" "void" [param "ns3::Ipv4Address" "icmpSource";
    param "uint8_t" "icmpTtl"; param "uint8_t" "icmpType"; param "uint8_t" "icmpCode";
    param "uint32_t" "icmpInfo"; param "ns3::Ipv4Address" "payloadSource";
    param "ns3::Ipv4Address" "payloadDestination"; param "uint8_t const *" "payload"] [is_virtual];
  method cls "ReceiveIcmp" "void" [param "ns3::Ipv6Address" "icmpSource";
    param "uint8_t" "icmpTtl"; param "uint8_t" "icmpType"; param "uint8_t" "icmpCode";
    param "uint32_t" "icmpInfo"; param "ns3::Ipv6Address" "payloadSource";
    param "ns3::Ipv6Address" "payloadDestination"; param "uint8_t const *" "payload"] [is_virtual];
  method cls "SetDownTarget" "void"
    [param "ns3::Callback< void, ns3::Ptr< ns3::Packet >, ns3::Ipv4Address, ns3::Ipv4Address, unsigned char, ns3::Ptr< ns3::Ipv4Route >, ns3::empty, ns3::empty, ns3::empty, ns3::empty >" "cb"]
    [is_pure_virtual; is_virtual];
  method cls "SetDownTarget6" "void"
    [param "ns3::Callback< void, ns3::Ptr< ns3::Packet >, ns3::Ipv6Address, ns3::Ipv6Address, unsigned char, ns3::Ptr< ns3::Ipv6Route >, ns3::empty, ns3::empty, ns3::empty, ns3::empty >" "cb"]
    [is_pure_virtual; is_virtual]].
Definition register_Ns3Ipv4_methods (cls : string) : list call := [
  constructor cls [param "ns3::Ipv4 const &" "arg0"];
  constructor cls [];
  method cls "AddAddress" "bool" [param "uint32_t" "interface";
    param "ns3::Ipv4InterfaceAddress" "address"] [is_pure_virtual; is_virtual];
  method cls "AddInterface" "uint32_t" [param "ns3::Ptr< ns3::NetDevice >" "device"]
    [is_pure_virtual; is_virtual];
  method cls "CreateRawSocket" "ns3::Ptr< ns3::Socket >" [] [is_pure_virtual; is_virtual];
  method cls "DeleteRawSocket" "void" [param "ns3::Ptr< ns3::Socket >" "socket"] [is_pure_virtual;
    is_virtual];
  method cls "GetAddress" "ns3::Ipv4InterfaceAddress" [param "uint32_t" "interface";
    param "uint32_t" "addressIndex"] [is_const; is_pure_virtual; is_virtual];
  method cls "GetInterfaceForAddress" "int32_t" [param "ns3::Ipv4Address" "address"] [is_const;
    is_pure_virtual; is_virtual];
  method cls "GetInterfaceForDevice" "int32_t" [param "ns3::Ptr< ns3::NetDevice const >" "device"]
    [is_const; is_pure_virtual; is_virtual];
  method cls "GetInterfaceForPrefix" "int32_t" [param "ns3::Ipv4Address" "address";
    param "ns3::Ipv4Mask" "mask"] [is_const; is_pure_virtual; is_virtual];
  method cls "GetMetric" "uint16_t" [param "uint32_t" "interface"] [is_const; is_pure_virtual;
    is_virtual];
  method cls "GetMtu" "uint16_t" [param "uint32_t" "interface"] [is_const; is_pure_virtual;
    is_virtual];
  method cls "GetNAddresses" "uint32_t" [param "uint32_t" "interface"] [is_const; is_pure_virtual;
    is_virtual];
  method cls "GetNInterfaces" "uint32_t" [] [is_const; is_pure_virtual; is_virtual];
  method cls "GetNetDevice" "ns3::Ptr< ns3::NetDevice >" [param "uint32_t" "interface"]
    [is_pure_virtual; is_virtual];
  method cls "GetProtocol" "ns3::Ptr< ns3::IpL4Protocol >" [param "int" "protocolNumber"]
    [is_const; is_pure_virtual; is_virtual];
  method cls "GetProtocol" "ns3::Ptr< ns3::IpL4Protocol >" [param "int" "protocolNumber";
    param "int32_t" "interfaceIndex"] [is_const; is_pure_virtual; is_virtual];
  method cls "GetRoutingProtocol" "ns3::Ptr< ns3::Ipv4RoutingProtocol >" [] [is_const;
    is_pure_virtual; is_virtual];
  method cls "GetTypeId" "ns3::TypeId" [] [is_static];
  method cls "Insert" "void" [param "ns3::Ptr< ns3::IpL4Protocol >" "protocol"] [is_pure_virtual;
    is_virtual];
  method cls "Insert" "void" [param "ns3::Ptr< ns3::IpL4Protocol >" "protocol";
    param "uint32_t" "interfaceIndex"] [is_pure_virtual; is_virtual];
  method cls "IsDestinationAddress" "bool" [param "ns3::Ipv4Address" "address";
    param "uint32_t" "iif"] [is_const; is_pure_virtual; is_virtual];
  method cls "IsForwarding" "bool" [param "uint32_t" "interface"] [is_const; is_pure_virtual;
    is_virtual];
  method cls "IsUp" "bool" [param "uint32_t" "interface"] [is_const; is_pure_virtual; is_virtual];
  method cls "Remove" "void" [param "ns3::Ptr< ns3::IpL4Protocol >" "protocol"] [is_pure_virtual;
    is_virtual];
  method cls "Remove" "void" [param "ns3::Ptr< ns3::IpL4Protocol >" "protocol";
    param "uint32_t" "interfaceIndex"] [is_pure_virtual; is_virtual];
  method cls "RemoveAddress" "bool" [param "uint32_t" "interface";
    param "uint32_t" "addressIndex"] [is_pure_virtual; is_virtual];
  method cls "RemoveAddress" "bool" [param "uint32_t" "interface";
    param "ns3::Ipv4Address" "address"] [is_pure_virtual; is_virtual];
  method cls "SelectSourceAddress" "ns3::Ipv4Address"
    [param "ns3::Ptr< ns3::NetDevice const >" "device"; param "ns3::Ipv4Address" "dst";
    param "ns3::Ipv4InterfaceAddress::InterfaceAddressScope_e" "scope"] [is_pure_virtual;
    is_virtual];
  method cls "Send" "void" [param "ns3::Ptr< ns3::Packet >" "packet";
    param "ns3::Ipv4Address" "source"; param "ns3::Ipv4Address" "destination";
    param "uint8_t" "protocol"; param "ns3::Ptr< ns3::Ipv4Route >" "route"] [is_pure_virtual;
    is_virtual];
  method cls "SendWithHeader" "void" [param "ns3::Ptr< ns3::Packet >" "packet";
    param "ns3::Ipv4Header" "ipHeader"; param "ns3::Ptr< ns3::Ipv4Route >" "route"]
    [is_pure_virtual; is_virtual];
  method cls "SetDown" "void" [param "uint32_t" "interface"] [is_pure_virtual; is_virtual];
  method cls "SetForwarding" "void" [param "uint32_t" "interface"; param "bool" "val"]
    [is_pure_virtual; is_virtual];
  method cls "SetMetric" "void" [param "uint32_t" "interface"; param "uint16_t" "metric"]
    [is_pure_virtual; is_virtual];
  method cls "SetRoutingProtocol" "void"
    [param "ns3::Ptr< ns3::Ipv4RoutingProtocol >" "routingProtocol"] [is_pure_virtual; is_virtual];
  method cls "SetUp" "void" [param "uint32_t" "interface"] [is_pure_virtual; is_virtual];
  method cls "SourceAddressSelection" "ns3::Ipv4Address" [param "uint32_t" "interface";
    param "ns3::Ipv4Address" "dest"] [is_pure_virtual; is_virtual];
  AddStaticAttribute cls "IF_ANY" "uint32_t const" [is_const];
  method cls "GetIpForward" "bool" [] [is_const; is_pure_virtual; is_virtual;
    visibility "private"];
  method cls "GetWeakEsModel" "bool" [] [is_const; is_pure_virtual; is_virtual;
    visibility "private"];
  method cls "SetIpForward" "void" [param "bool" "forward"] [is_pure_virtual; is_virtual;
    visibility "private"];
  method cls "SetWeakEsModel" "void" [param "bool" "model"] [is_pure_virtual; is_virtual;
    visibility "private"]].
Definition register_Ns3Ipv4AddressChecker_methods (cls : string) : list call := [
  constructor cls [];
  constructor cls [param "ns3::Ipv4AddressChecker const &" "arg0"]].
Definition register_Ns3Ipv4AddressValue_methods (cls : string) : list call := [
  constructor cls [];
  constructor cls [param "ns3::Ipv4Address const &" "value"];
  constructor cls [param "ns3::Ipv4AddressValue const &" "arg0"];
  method cls "Copy" "ns3::Ptr< ns3::AttributeValue >" [] [is_const; is_virtual];
  method cls "DeserializeFromString" "bool" [param "std::string" "value";
    param "ns3::Ptr< ns3::AttributeChecker const >" "checker"] [is_virtual];
  method cls "Get" "ns3::Ipv4Address" [] [is_const];
  method cls "SerializeToString" "std::string"
    [param "ns3::Ptr< ns3::AttributeChecker const >" "checker"] [is_const; is_virtual];
  method cls "Set" "void" [param "ns3::Ipv4Address const &" "value"] []].
Definition register_Ns3Ipv4FreeBSD_methods (cls : string) : list call := [
  method cls "GetTypeId" "ns3::TypeId" [] [is_static];
  constructor cls [];
  method cls "SetRoutingProtocol" "void"
    [param "ns3::Ptr< ns3::Ipv4RoutingProtocol >" "routingProtocol"] [is_virtual];
  method cls "GetRoutingProtocol" "ns3::Ptr< ns3::Ipv4RoutingProtocol >" [] [is_const; is_virtual];
  method cls "AddInterface" "uint32_t" [param "ns3::Ptr< ns3::NetDevice >" "device"] [is_virtual];
  method cls "GetNInterfaces" "uint32_t" [] [is_const; is_virtual];
  method cls "GetInterfaceForAddress" "int32_t" [param "ns3::Ipv4Address" "address"] [is_const;
    is_virtual];
  method cls "Send" "void" [param "ns3::Ptr< ns3::Packet >" "packet";
    param "ns3::Ipv4Address" "source"; param "ns3::Ipv4Address" "destination";
    param "uint8_t" "protocol"; param "ns3::Ptr< ns3::Ipv4Route >" "route"] [is_virtual];
  method cls "SendWithHeader" "void" [param "ns3::Ptr< ns3::Packet >" "packet";
    param "ns3::Ipv4Header" "ipHeader"; param "ns3::Ptr< ns3::Ipv4Route >" "route"] [is_virtual];
  method cls "Insert" "void" [param "ns3::Ptr< ns3::IpL4Protocol >" "protocol"] [is_virtual];
  method cls "Insert" "void" [param "ns3::Ptr< ns3::IpL4Protocol >" "protocol";
    param "uint32_t" "interfaceIndex"] [is_virtual];
  method cls "Remove" "void" [param "ns3::Ptr< ns3::IpL4Protocol >" "protocol"] [is_virtual];
  method cls "Remove" "void" [param "ns3::Ptr< ns3::IpL4Protocol >" "protocol";
    param "uint32_t" "interfaceIndex"] [is_virtual];
  method cls "IsDestinationAddress" "bool" [param "ns3::Ipv4Address" "address";
    param "uint32_t" "iif"] [is_const; is_virtual];
  method cls "GetInterfaceForPrefix" "int32_t" [param "ns3::Ipv4Address" "address";
    param "ns3::Ipv4Mask" "mask"] [is_const; is_virtual];
  method cls "GetNetDevice" "ns3::Ptr< ns3::NetDevice >" [param "uint32_t" "interface"]
    [is_virtual];
  method cls "GetInterfaceForDevice" "int32_t" [param "ns3::Ptr< ns3::NetDevice const >" "device"]
    [is_const; is_virtual];
  method cls "AddAddress" "bool" [param "uint32_t" "interface";
    param "ns3::Ipv4InterfaceAddress" "address"] [is_virtual];
  method cls "GetNAddresses" "uint32_t" [param "uint32_t" "interface"] [is_const; is_virtual];
  method cls "GetAddress" "ns3::Ipv4InterfaceAddress" [param "uint32_t" "interface";
    param "uint32_t" "addressIndex"] [is_const; is_virtual];
  method cls "RemoveAddress" "bool" [param "uint32_t" "interface";
    param "uint32_t" "addressIndex"] [is_virtual];
  method cls "RemoveAddress" "bool" [param "uint32_t" "interface";
    param "ns3::Ipv4Address" "address"] [is_virtual];
  method cls "SelectSourceAddress" "ns3::Ipv4Address"
    [param "ns3::Ptr< ns3::NetDevice const >" "device"; param "ns3::Ipv4Address" "dst";
    param "ns3::Ipv4InterfaceAddress::InterfaceAddressScope_e" "scope"] [is_virtual];
  method cls "SetMetric" "void" [param "uint32_t" "interface"; param "uint16_t" "metric"]
    [is_virtual];
  method cls "GetMetric" "uint16_t" [param "uint32_t" "interface"] [is_const; is_virtual];
  method cls "GetMtu" "uint16_t" [param "uint32_t" "interface"] [is_const; is_virtual];
  method cls "IsUp" "bool" [param "uint32_t" "interface"] [is_const; is_virtual];
  method cls "SetUp" "void" [param "uint32_t" "interface"] [is_virtual];
  method cls "SetDown" "void" [param "uint32_t" "interface"] [is_virtual];
  method cls "IsForwarding" "bool" [param "uint32_t" "interface"] [is_const; is_virtual];
  method cls "SetForwarding" "void" [param "uint32_t" "interface"; param "bool" "val"]
    [is_virtual];
  method cls "SourceAddressSelection" "ns3::Ipv4Address" [param "uint32_t" "interface";
    param "ns3::Ipv4Address" "dest"] [is_virtual];
  method cls "GetProtocol" "ns3::Ptr< ns3::IpL4Protocol >" [param "int" "protocolNumber"]
    [is_const; is_virtual];
  method cls "GetProtocol" "ns3::Ptr< ns3::IpL4Protocol >" [param "int" "protocolNumber";
    param "int32_t" "interfaceIndex"] [is_const; is_virtual];
  method cls "CreateRawSocket" "ns3::Ptr< ns3::Socket >" [] [is_virtual];
  method cls "DeleteRawSocket" "void" [param "ns3::Ptr< ns3::Socket >" "socket"] [is_virtual];
  method cls "InstallNode" "void" [param "ns3::Ptr< ns3::Node >" "node"] [is_static];
  method cls "PopulateRoutingTable" "void" [] [];
  method cls "SetIpForward" "void" [param "bool" "forward"] [is_virtual; visibility "private"];
  method cls "GetIpForward" "bool" [] [is_const; is_virtual; visibility "private"];
  method cls "SetWeakEsModel" "void" [param "bool" "model"] [is_virtual; visibility "private"];
  method cls "GetWeakEsModel" "bool" [] [is_const; is_virtual; visibility "private"]].
Definition register_Ns3Ipv4Linux_methods (cls : string) : list call := [
  method cls "GetTypeId" "ns3::TypeId" [] [is_static];
  constructor cls [];
  method cls "SetRoutingProtocol" "void"
    [param "ns3::Ptr< ns3::Ipv4RoutingProtocol >" "routingProtocol"] [is_virtual];
  method cls "GetRoutingProtocol" "ns3::Ptr< ns3::Ipv4RoutingProtocol >" [] [is_const; is_virtual];
  method cls "AddInterface" "uint32_t" [param "ns3::Ptr< ns3::NetDevice >" "device"] [is_virtual];
  method cls "GetNInterfaces" "uint32_t" [] [is_const; is_virtual];
  method cls "GetInterfaceForAddress" "int32_t" [param "ns3::Ipv4Address" "address"] [is_const;
    is_virtual];
  method cls "Send" "void" [param "ns3::Ptr< ns3::Packet >" "packet";
    param "ns3::Ipv4Address" "source"; param "ns3::Ipv4Address" "destination";
    param "uint8_t" "protocol"; param "ns3::Ptr< ns3::Ipv4Route >" "route"] [is_virtual];
  method cls "SendWithHeader" "void" [param "ns3::Ptr< ns3::Packet >" "packet";
    param "ns3::Ipv4Header" "ipHeader"; param "ns3::Ptr< ns3::Ipv4Route >" "route"] [is_virtual];
  method cls "Insert" "void" [param "ns3::Ptr< ns3::IpL4Protocol >" "protocol"] [is_virtual];
  method cls "Insert" "void" [param "ns3::Ptr< ns3::IpL4Protocol >" "protocol";
    param "uint32_t" "interfaceIndex"] [is_virtual];
  method cls "Remove" "void" [param "ns3::Ptr< ns3::IpL4Protocol >" "protocol"] [is_virtual];
  method cls "Remove" "void" [param "ns3::Ptr< ns3::IpL4Protocol >" "protocol";
    param "uint32_t" "interfaceIndex"] [is_virtual];
  method cls "IsDestinationAddress" "bool" [param "ns3::Ipv4Address" "address";
    param "uint32_t" "iif"] [is_const; is_virtual];
  method cls "GetInterfaceForPrefix" "int32_t" [param "ns3::Ipv4Address" "address";
    param "ns3::Ipv4Mask" "mask"] [is_const; is_virtual];
  method cls "GetNetDevice" "ns3::Ptr< ns3::NetDevice >" [param "uint32_t" "interface"]
    [is_virtual];
  method cls "GetInterfaceForDevice" "int32_t" [param "ns3::Ptr< ns3::NetDevice const >" "device"]
    [is_const; is_virtual];
  method cls "AddAddress" "bool" [param "uint32_t" "interface";
    param "ns3::Ipv4InterfaceAddress" "address"] [is_virtual];
  method cls "GetNAddresses" "uint32_t" [param "uint32_t" "interface"] [is_const; is_virtual];
  method cls "GetAddress" "ns3::Ipv4InterfaceAddress" [param "uint32_t" "interface";
    param "uint32_t" "addressIndex"] [is_const; is_virtual];
  method cls "RemoveAddress" "bool" [param "uint32_t" "interface";
    param "uint32_t" "addressIndex"] [is_virtual];
  method cls "RemoveAddress" "bool" [param "uint32_t" "interface";
    param "ns3::Ipv4Address" "address"] [is_virtual];
  method cls "SelectSourceAddress" "ns3::Ipv4Address"
    [param "ns3::Ptr< ns3::NetDevice const >" "device"; param "ns3::Ipv4Address" "dst";
    param "ns3::Ipv4InterfaceAddress::InterfaceAddressScope_e" "scope"] [is_virtual];
  method cls "SetMetric" "void" [param "uint32_t" "interface"; param "uint16_t" "metric"]
    [is_virtual];
  method cls "GetMetric" "uint16_t" [param "uint32_t" "interface"] [is_const; is_virtual];
  method cls "GetMtu" "uint16_t" [param "uint32_t" "interface"] [is_const; is_virtual];
  method cls "IsUp" "bool" [param "uint32_t" "interface"] [is_const; is_virtual];
  method cls "SetUp" "void" [param "uint32_t" "interface"] [is_virtual];
  method cls "SetDown" "void" [param "uint32_t" "interface"] [is_virtual];
  method cls "IsForwarding" "bool" [param "uint32_t" "interface"] [is_const; is_virtual];
  method cls "SetForwarding" "void" [param "uint32_t" "interface"; param "bool" "val"]
    [is_virtual];
  method cls "SourceAddressSelection" "ns3::Ipv4Address" [param "uint32_t" "interface";
    param "ns3::Ipv4Address" "dest"] [is_virtual];
  method cls "GetProtocol" "ns3::Ptr< ns3::IpL4Protocol >" [param "int" "protocolNumber"]
    [is_const; is_virtual];
  method cls "GetProtocol" "ns3::Ptr< ns3::IpL4Protocol >" [param "int" "protocolNumber";
    param "int32_t" "interfaceIndex"] [is_const; is_virtual];
  method cls "CreateRawSocket" "ns3::Ptr< ns3::Socket >" [] [is_virtual];
  method cls "DeleteRawSocket" "void" [param "ns3::Ptr< ns3::Socket >" "socket"] [is_virtual];
  method cls "InstallNode" "void" [param "ns3::Ptr< ns3::Node >" "node"] [is_static];
  method cls "PopulateRoutingTable" "void" [] [];
  method cls "SetIpForward" "void" [param "bool" "forward"] [is_virtual; visibility "private"];
  method cls "GetIpForward" "bool" [] [is_const; is_virtual; visibility "private"];
  method cls "SetWeakEsModel" "void" [param "bool" "model"] [is_virtual; visibility "private"];
  method cls "GetWeakEsModel" "bool" [] [is_const; is_virtual; visibility "private"]].
Definition register_Ns3Ipv4MaskChecker_methods (cls : string) : list call := [
  constructor cls [];
  constructor cls [param "ns3::Ipv4MaskChecker const &" "arg0"]].
Definition register_Ns3Ipv4MaskValue_methods (cls : string) : list call := [
  constructor cls [];
  constructor cls [param "ns3::Ipv4Mask const &" "value"];
  constructor cls [param "ns3::Ipv4MaskValue const &" "arg0"];
  method cls "Copy" "ns3::Ptr< ns3::AttributeValue >" [] [is_const; is_virtual];
  method cls "DeserializeFromString" "bool" [param "std::string" "value";
    param "ns3::Ptr< ns3::AttributeChecker const >" "checker"] [is_virtual];
  method cls "Get" "ns3::Ipv4Mask" [] [is_const];
  method cls "SerializeToString" "std::string"
    [param "ns3::Ptr< ns3::AttributeChecker const >" "checker"] [is_const; is_virtual];
  method cls "Set" "void" [param "ns3::Ipv4Mask const &" "value"] []].
Definition register_Ns3Ipv4MulticastRoute_methods (cls : string) : list call := [
  constructor cls [param "ns3::Ipv4MulticastRoute const &" "arg0"];
  constructor cls [];
  method cls "GetGroup" "ns3::Ipv4Address" [] [is_const];
  method cls "GetOrigin" "ns3::Ipv4Address" [] [is_const];
  method cls "GetOutputTtlMap" "std::map< unsigned int, unsigned int >" [] [is_const];
  method cls "GetParent" "uint32_t" [] [is_const];
  method cls "SetGroup" "void" [param "ns3::Ipv4Address const" "group"] [];
  method cls "SetOrigin" "void" [param "ns3::Ipv4Address const" "origin"] [];
  method cls "SetOutputTtl" "void" [param "uint32_t" "oif"; param "uint32_t" "ttl"] [];
  method cls "SetParent" "void" [param "uint32_t" "iif"] [];
  AddStaticAttribute cls "MAX_INTERFACES" "uint32_t const" [is_const];
  AddStaticAttribute cls "MAX_TTL" "uint32_t const" [is_const]].
Definition register_Ns3Ipv4Route_methods (cls : string) : list call := [
  AddOutputStream cls;
  constructor cls [param "ns3::Ipv4Route const &" "arg0"];
  constructor cls [];
  method cls "GetDestination" "ns3::Ipv4Address" [] [is_const];
  method cls "GetGateway" "ns3::Ipv4Address" [] [is_const];
  method cls "GetOutputDevice" "ns3::Ptr< ns3::NetDevice >" [] [is_const];
  method cls "GetSource" "ns3::Ipv4Address" [] [is_const];
  method cls "SetDestination" "void" [param "ns3::Ipv4Address" "dest"] [];
  method cls "SetGateway" "void" [param "ns3::Ipv4Address" "gw"] [];
  method cls "SetOutputDevice" "void" [param "ns3::Ptr< ns3::NetDevice >" "outputDevice"] [];
  method cls "SetSource" "void" [param "ns3::Ipv4Address" "src"] []].
Definition register_Ns3Ipv4RoutingProtocol_methods (cls : string) : list call := [
  constructor cls [];
  constructor cls [param "ns3::Ipv4RoutingProtocol const &" "arg0"];
  method cls "GetTypeId" "ns3::TypeId" [] [is_static];
  method cls "NotifyAddAddress" "void" [param "uint32_t" "interface";
    param "ns3::Ipv4InterfaceAddress" "address"] [is_pure_virtual; is_virtual];
  method cls "NotifyInterfaceDown" "void" [param "uint32_t" "interface"] [is_pure_virtual;
    is_virtual];
  method cls "NotifyInterfaceUp" "void" [param "uint32_t" "interface"] [is_pure_virtual;
    is_virtual];
  method cls "NotifyRemoveAddress" "void" [param "uint32_t" "interface";
    param "ns3::Ipv4InterfaceAddress" "address"] [is_pure_virtual; is_virtual];
  method cls "PrintRoutingTable" "void" [param "ns3::Ptr< ns3::OutputStreamWrapper >" "stream";
    param_default "ns3::Time::Unit" "unit" "::ns3::Time::Unit::S"] [is_const; is_pure_virtual;
    is_virtual];
  method cls "RouteInput" "bool" [param "ns3::Ptr< ns3::Packet const >" "p";
    param "ns3::Ipv4Header const &" "header"; param "ns3::Ptr< ns3::NetDevice const >" "idev";
    param "ns3::Callback< void, ns3::Ptr< ns3::Ipv4Route >, ns3::Ptr< ns3::Packet const >, ns3::Ipv4Header const &, ns3::empty, ns3::empty, ns3::empty, ns3::empty, ns3::empty, ns3::empty >" "ucb";
    param "ns3::Callback< void, ns3::Ptr< ns3::Ipv4MulticastRoute >, ns3::Ptr< ns3::Packet const >, ns3::Ipv4Header const &, ns3::empty, ns3::empty, ns3::empty, ns3::empty, ns3::empty, ns3::empty >" "mcb";
    param "ns3::Callback< void, ns3::Ptr< ns3::Packet const >, ns3::Ipv4Header const &, unsigned int, ns3::empty, ns3::empty, ns3::empty, ns3::empty, ns3::empty, ns3::empty >" "lcb";
    param "ns3::Callback< void, ns3::Ptr< ns3::Packet const >, ns3::Ipv4Header const &, ns3::Socket::SocketErrno, ns3::empty, ns3::empty, ns3::empty, ns3::empty, ns3::empty, ns3::empty >" "ecb"]
    [is_pure_virtual; is_virtual];
  method cls "RouteOutput" "ns3::Ptr< ns3::Ipv4Route >" [param "ns3::Ptr< ns3::Packet >" "p";
    param "ns3::Ipv4Header const &" "header"; param "ns3::Ptr< ns3::NetDevice >" "oif";
    param "ns3::Socket::SocketErrno &" "sockerr"] [is_pure_virtual; is_virtual];
  method cls "SetIpv4" "void" [param "ns3::Ptr< ns3::Ipv4 >" "ipv4"] [is_pure_virtual; is_virtual]].
Definition register_Ns3Ipv4StaticRouting_methods (cls : string) : list call := [
  constructor cls [param "ns3::Ipv4StaticRouting const &" "arg0"];
  constructor cls [];
  method cls "AddHostRouteTo" "void" [param "ns3::Ipv4Address" "dest";
    param "ns3::Ipv4Address" "nextHop"; param "uint32_t" "interface";
    param_default "uint32_t" "metric" "0"] [];
  method cls "AddHostRouteTo" "void" [param "ns3::Ipv4Address" "dest";
    param "uint32_t" "interface"; param_default "uint32_t" "metric" "0"] [];
  method cls "AddMulticastRoute" "void" [param "ns3::Ipv4Address" "origin";
    param "ns3::Ipv4Address" "group"; param "uint32_t" "inputInterface";
    param "std::vector< unsigned int >" "outputInterfaces"] [];
  method cls "AddNetworkRouteTo" "void" [param "ns3::Ipv4Address" "network";
    param "ns3::Ipv4Mask" "networkMask"; param "ns3::Ipv4Address" "nextHop";
    param "uint32_t" "interface"; param_default "uint32_t" "metric" "0"] [];
  method cls "AddNetworkRouteTo" "void" [param "ns3::Ipv4Address" "network";
    param "ns3::Ipv4Mask" "networkMask"; param "uint32_t" "interface";
    param_default "uint32_t" "metric" "0"] [];
  method cls "GetDefaultRoute" "ns3::Ipv4RoutingTableEntry" [] [];
  method cls "GetMetric" "uint32_t" [param "uint32_t" "index"] [is_const];
  method cls "GetMulticastRoute" "ns3::Ipv4MulticastRoutingTableEntry" [param "uint32_t" "i"]
    [is_const];
  method cls "GetNMulticastRoutes" "uint32_t" [] [is_const];
  method cls "GetNRoutes" "uint32_t" [] [is_const];
  method cls "GetRoute" "ns3::Ipv4RoutingTableEntry" [param "uint32_t" "i"] [is_const];
  method cls "GetTypeId" "ns3::TypeId" [] [is_static];
  method cls "NotifyAddAddress" "void" [param "uint32_t" "interface";
    param "ns3::Ipv4InterfaceAddress" "address"] [is_virtual];
  method cls "NotifyInterfaceDown" "void" [param "uint32_t" "interface"] [is_virtual];
  method cls "NotifyInterfaceUp" "void" [param "uint32_t" "interface"] [is_virtual];
  method cls "NotifyRemoveAddress" "void" [param "uint32_t" "interface";
    param "ns3::Ipv4InterfaceAddress" "address"] [is_virtual];
  method cls "PrintRoutingTable" "void" [param "ns3::Ptr< ns3::OutputStreamWrapper >" "stream";
    param_default "ns3::Time::Unit" "unit" "::ns3::Time::Unit::S"] [is_const; is_virtual];
  method cls "RemoveMulticastRoute" "bool" [param "ns3::Ipv4Address" "origin";
    param "ns3::Ipv4Address" "group"; param "uint32_t" "inputInterface"] [];
  method cls "RemoveMulticastRoute" "void" [param "uint32_t" "index"] [];
  method cls "RemoveRoute" "void" [param "uint32_t" "i"] [];
  method cls "RouteInput" "bool" [param "ns3::Ptr< ns3::Packet const >" "p";
    param "ns3::Ipv4Header const &" "header"; param "ns3::Ptr< ns3::NetDevice const >" "idev";
    param "ns3::Callback< void, ns3::Ptr< ns3::Ipv4Route >, ns3::Ptr< ns3::Packet const >, ns3::Ipv4Header const &, ns3::empty, ns3::empty, ns3::empty, ns3::empty, ns3::empty, ns3::empty >" "ucb";
    param "ns3::Callback< void, ns3::Ptr< ns3::Ipv4MulticastRoute >, ns3::Ptr< ns3::Packet const >, ns3::Ipv4Header const &, ns3::empty, ns3::empty, ns3::empty, ns3::empty, ns3::empty, ns3::empty >" "mcb";
    param "ns3::Callback< void, ns3::Ptr< ns3::Packet const >, ns3::Ipv4Header const &, unsigned int, ns3::empty, ns3::empty, ns3::empty, ns3::empty, ns3::empty, ns3::empty >" "lcb";
    param "ns3::Callback< void, ns3::Ptr< ns3::Packet const >, ns3::Ipv4Header const &, ns3::Socket::SocketErrno, ns3::empty, ns3::empty, ns3::empty, ns3::empty, ns3::empty, ns3::empty >" "ecb"]
    [is_virtual];
  method cls "RouteOutput" "ns3::Ptr< ns3::Ipv4Route >" [param "ns3::Ptr< ns3::Packet >" "p";
    param "ns3::Ipv4Header const &" "header"; param "ns3::Ptr< ns3::NetDevice >" "oif";
    param "ns3::Socket::SocketErrno &" "sockerr"] [is_virtual];
  method cls "SetDefaultMulticastRoute" "void" [param "uint32_t" "outputInterface"] [];
  method cls "SetDefaultRoute" "void" [param "ns3::Ipv4Address" "nextHop";
    param "uint32_t" "interface"; param_default "uint32_t" "metric" "0"] [];
  method cls "SetIpv4" "void" [param "ns3::Ptr< ns3::Ipv4 >" "ipv4"] [is_virtual];
  method cls "DoDispose" "void" [] [is_virtual; visibility "protected"]].
Definition register_Ns3Ipv6_methods (cls : string) : list call := [
  constructor cls [param "ns3::Ipv6 const &" "arg0"];
  constructor cls [];
  method cls "AddAddress" "bool" [param "uint32_t" "interface";
    param "ns3::Ipv6InterfaceAddress" "address"; param_default "bool" "addOnLinkRoute" "true"]
    [is_pure_virtual; is_virtual];
  method cls "AddInterface" "uint32_t" [param "ns3::Ptr< ns3::NetDevice >" "device"]
    [is_pure_virtual; is_virtual];
  method cls "GetAddress" "ns3::Ipv6InterfaceAddress" [param "uint32_t" "interface";
    param "uint32_t" "addressIndex"] [is_const; is_pure_virtual; is_virtual];
  method cls "GetInterfaceForAddress" "int32_t" [param "ns3::Ipv6Address" "address"] [is_const;
    is_pure_virtual; is_virtual];
  method cls "GetInterfaceForDevice" "int32_t" [param "ns3::Ptr< ns3::NetDevice const >" "device"]
    [is_const; is_pure_virtual; is_virtual];
  method cls "GetInterfaceForPrefix" "int32_t" [param "ns3::Ipv6Address" "address";
    param "ns3::Ipv6Prefix" "mask"] [is_const; is_pure_virtual; is_virtual];
  method cls "GetMetric" "uint16_t" [param "uint32_t" "interface"] [is_const; is_pure_virtual;
    is_virtual];
  method cls "GetMtu" "uint16_t" [param "uint32_t" "interface"] [is_const; is_pure_virtual;
    is_virtual];
  method cls "GetNAddresses" "uint32_t" [param "uint32_t" "interface"] [is_const; is_pure_virtual;
    is_virtual];
  method cls "GetNInterfaces" "uint32_t" [] [is_const; is_pure_virtual; is_virtual];
  method cls "GetNetDevice" "ns3::Ptr< ns3::NetDevice >" [param "uint32_t" "interface"]
    [is_pure_virtual; is_virtual];
  method cls "GetProtocol" "ns3::Ptr< ns3::IpL4Protocol >" [param "int" "protocolNumber"]
    [is_const; is_pure_virtual; is_virtual];
  method cls "GetProtocol" "ns3::Ptr< ns3::IpL4Protocol >" [param "int" "protocolNumber";
    param "int32_t" "interfaceIndex"] [is_const; is_pure_virtual; is_virtual];
  method cls "GetRoutingProtocol" "ns3::Ptr< ns3::Ipv6RoutingProtocol >" [] [is_const;
    is_pure_virtual; is_virtual];
  method cls "GetTypeId" "ns3::TypeId" [] [is_static];
  method cls "Insert" "void" [param "ns3::Ptr< ns3::IpL4Protocol >" "protocol"] [is_pure_virtual;
    is_virtual];
  method cls "Insert" "void" [param "ns3::Ptr< ns3::IpL4Protocol >" "protocol";
    param "uint32_t" "interfaceIndex"] [is_pure_virtual; is_virtual];
  method cls "IsForwarding" "bool" [param "uint32_t" "interface"] [is_const; is_pure_virtual;
    is_virtual];
  method cls "IsUp" "bool" [param "uint32_t" "interface"] [is_const; is_pure_virtual; is_virtual];
  method cls "RegisterExtensions" "void" [] [is_pure_virtual; is_virtual];
  method cls "RegisterOptions" "void" [] [is_pure_virtual; is_virtual];
  method cls "Remove" "void" [param "ns3::Ptr< ns3::IpL4Protocol >" "protocol"] [is_pure_virtual;
    is_virtual];
  method cls "Remove" "void" [param "ns3::Ptr< ns3::IpL4Protocol >" "protocol";
    param "uint32_t" "interfaceIndex"] [is_pure_virtual; is_virtual];
  method cls "RemoveAddress" "bool" [param "uint32_t" "interface";
    param "uint32_t" "addressIndex"] [is_pure_virtual; is_virtual];
  method cls "RemoveAddress" "bool" [param "uint32_t" "interface";
    param "ns3::Ipv6Address" "address"] [is_pure_virtual; is_virtual];
  method cls "Send" "void" [param "ns3::Ptr< ns3::Packet >" "packet";
    param "ns3::Ipv6Address" "source"; param "ns3::Ipv6Address" "destination";
    param "uint8_t" "protocol"; param "ns3::Ptr< ns3::Ipv6Route >" "route"] [is_pure_virtual;
    is_virtual];
  method cls "SetDown" "void" [param "uint32_t" "interface"] [is_pure_virtual; is_virtual];
  method cls "SetForwarding" "void" [param "uint32_t" "interface"; param "bool" "val"]
    [is_pure_virtual; is_virtual];
  method cls "SetMetric" "void" [param "uint32_t" "interface"; param "uint16_t" "metric"]
    [is_pure_virtual; is_virtual];
  method cls "SetPmtu" "void" [param "ns3::Ipv6Address" "dst"; param "uint32_t" "pmtu"]
    [is_pure_virtual; is_virtual];
  method cls "SetRoutingProtocol" "void"
    [param "ns3::Ptr< ns3::Ipv6RoutingProtocol >" "routingProtocol"] [is_pure_virtual; is_virtual];
  method cls "SetUp" "void" [param "uint32_t" "interface"] [is_pure_virtual; is_virtual];
  method cls "SourceAddressSelection" "ns3::Ipv6Address" [param "uint32_t" "interface";
    param "ns3::Ipv6Address" "dest"] [is_pure_virtual; is_virtual];
  AddStaticAttribute cls "IF_ANY" "uint32_t const" [is_const];
  method cls "GetIpForward" "bool" [] [is_const; is_pure_virtual; is_virtual;
    visibility "private"];
  method cls "GetMtuDiscover" "bool" [] [is_const; is_pure_virtual; is_virtual;
    visibility "private"];
  method cls "SetIpForward" "void" [param "bool" "forward"] [is_pure_virtual; is_virtual;
    visibility "private"];
  method cls "SetMtuDiscover" "void" [param "bool" "mtuDiscover"] [is_pure_virtual; is_virtual;
    visibility "private"]].
Definition register_Ns3Ipv6AddressChecker_methods (cls : string) : list call := [
  constructor cls [];
  constructor cls [param "ns3::Ipv6AddressChecker const &" "arg0"]].
Definition register_Ns3Ipv6AddressValue_methods (cls : string) : list call := [
  constructor cls [];
  constructor cls [param "ns3::Ipv6Address const &" "value"];
  constructor cls [param "ns3::Ipv6AddressValue const &" "arg0"];
  method cls "Copy" "ns3::Ptr< ns3::AttributeValue >" [] [is_const; is_virtual];
  method cls "DeserializeFromString" "bool" [param "std::string" "value";
    param "ns3::Ptr< ns3::AttributeChecker const >" "checker"] [is_virtual];
  method cls "Get" "ns3::Ipv6Address" [] [is_const];
  method cls "SerializeToString" "std::string"
    [param "ns3::Ptr< ns3::AttributeChecker const >" "checker"] [is_const; is_virtual];
  method cls "Set" "void" [param "ns3::Ipv6Address const &" "value"] []].
Definition register_Ns3Ipv6Interface_methods (cls : string) : list call := [
  method cls "GetTypeId" "ns3::TypeId" [] [is_static];
  constructor cls [];
  method cls "SetNode" "void" [param "ns3::Ptr< ns3::Node >" "node"] [];
  method cls "SetDevice" "void" [param "ns3::Ptr< ns3::NetDevice >" "device"] [];
  method cls "SetTrafficControl" "void" [param "ns3::Ptr< ns3::TrafficControlLayer >" "tc"] [];
  method cls "GetDevice" "ns3::Ptr< ns3::NetDevice >" [] [is_const; is_virtual];
  method cls "SetMetric" "void" [param "uint16_t" "metric"] [];
  method cls "GetMetric" "uint16_t" [] [is_const];
  method cls "IsUp" "bool" [] [is_const];
  method cls "IsDown" "bool" [] [is_const];
  method cls "SetUp" "void" [] [];
  method cls "SetDown" "void" [] [];
  method cls "IsForwarding" "bool" [] [is_const];
  method cls "SetForwarding" "void" [param "bool" "forward"] [];
  method cls "SetCurHopLimit" "void" [param "uint8_t" "curHopLimit"] [];
  method cls "GetCurHopLimit" "uint8_t" [] [is_const];
  method cls "SetBaseReachableTime" "void" [param "uint16_t" "baseReachableTime"] [];
  method cls "GetBaseReachableTime" "uint16_t" [] [is_const];
  method cls "SetReachableTime" "void" [param "uint16_t" "reachableTime"] [];
  method cls "GetReachableTime" "uint16_t" [] [is_const];
  method cls "SetRetransTimer" "void" [param "uint16_t" "retransTimer"] [];
  method cls "GetRetransTimer" "uint16_t" [] [is_const];
  method cls "Send" "void" [param "ns3::Ptr< ns3::Packet >" "p";
    param "ns3::Ipv6Header const &" "hdr"; param "ns3::Ipv6Address" "dest"] [];
  method cls "AddAddress" "bool" [param "ns3::Ipv6InterfaceAddress" "iface"] [];
  method cls "GetLinkLocalAddress" "ns3::Ipv6InterfaceAddress" [] [is_const];
  method cls "IsSolicitedMulticastAddress" "bool" [param "ns3::Ipv6Address" "address"] [is_const];
  method cls "GetAddress" "ns3::Ipv6InterfaceAddress" [param "uint32_t" "index"] [is_const];
  method cls "GetAddressMatchingDestination" "ns3::Ipv6InterfaceAddress"
    [param "ns3::Ipv6Address" "dst"] [];
  method cls "GetNAddresses" "uint32_t" [] [is_const];
  method cls "RemoveAddress" "ns3::Ipv6InterfaceAddress" [param "uint32_t" "index"] [];
  method cls "RemoveAddress" "ns3::Ipv6InterfaceAddress" [param "ns3::Ipv6Address" "address"] [];
  method cls "SetState" "void" [param "ns3::Ipv6Address" "address";
    param "ns3::Ipv6InterfaceAddress::State_e" "state"] [];
  method cls "SetNsDadUid" "void" [param "ns3::Ipv6Address" "address"; param "uint32_t" "uid"] [];
  method cls "GetNdiscCache" "ns3::Ptr< ns3::NdiscCache >" [] [is_const];
  method cls "DoDispose" "void" [] [is_virtual; visibility "protected"]].
Definition register_Ns3Ipv6Linux_methods (cls : string) : list call := [
  constructor cls [param "ns3::Ipv6Linux const &" "arg0"];
  constructor cls [];
  method cls "AddAddress" "bool" [param "uint32_t" "interface";
    param "ns3::Ipv6InterfaceAddress" "address"; param_default "bool" "addOnLinkRoute" "true"]
    [is_virtual];
  method cls "AddInterface" "uint32_t" [param "ns3::Ptr< ns3::NetDevice >" "device"] [is_virtual];
  method cls "CreateRawSocket" "ns3::Ptr< ns3::Socket >" [] [is_virtual];
  method cls "DeleteRawSocket" "void" [param "ns3::Ptr< ns3::Socket >" "socket"] [is_virtual];
  method cls "GetAddress" "ns3::Ipv6InterfaceAddress" [param "uint32_t" "interface";
    param "uint32_t" "addressIndex"] [is_const; is_virtual];
  method cls "GetInterfaceForAddress" "int32_t" [param "ns3::Ipv6Address" "address"] [is_const;
    is_virtual];
  method cls "GetInterfaceForDevice" "int32_t" [param "ns3::Ptr< ns3::NetDevice const >" "device"]
    [is_const; is_virtual];
  method cls "GetInterfaceForPrefix" "int32_t" [param "ns3::Ipv6Address" "address";
    param "ns3::Ipv6Prefix" "mask"] [is_const; is_virtual];
  method cls "GetMetric" "uint16_t" [param "uint32_t" "interface"] [is_const; is_virtual];
  method cls "GetMtu" "uint16_t" [param "uint32_t" "interface"] [is_const; is_virtual];
  method cls "GetNAddresses" "uint32_t" [param "uint32_t" "interface"] [is_const; is_virtual];
  method cls "GetNInterfaces" "uint32_t" [] [is_const; is_virtual];
  method cls "GetNetDevice" "ns3::Ptr< ns3::NetDevice >" [param "uint32_t" "interface"]
    [is_virtual];
  method cls "GetProtocol" "ns3::Ptr< ns3::IpL4Protocol >" [param "int" "protocolNumber"]
    [is_const; is_virtual];
  method cls "GetProtocol" "ns3::Ptr< ns3::IpL4Protocol >" [param "int" "protocolNumber";
    param "int32_t" "interfaceIndex"] [is_const; is_virtual];
  method cls "GetRoutingProtocol" "ns3::Ptr< ns3::Ipv6RoutingProtocol >" [] [is_const; is_virtual];
  method cls "GetTypeId" "ns3::TypeId" [] [is_static];
  method cls "Insert" "void" [param "ns3::Ptr< ns3::IpL4Protocol >" "protocol"] [is_virtual];
  method cls "Insert" "void" [param "ns3::Ptr< ns3::IpL4Protocol >" "protocol";
    param "uint32_t" "interfaceIndex"] [is_virtual];
  method cls "InstallNode" "void" [param "ns3::Ptr< ns3::Node >" "node"] [is_static];
  method cls "IsForwarding" "bool" [param "uint32_t" "interface"] [is_const; is_virtual];
  method cls "IsUp" "bool" [param "uint32_t" "interface"] [is_const; is_virtual];
  method cls "RegisterExtensions" "void" [] [is_virtual];
  method cls "RegisterOptions" "void" [] [is_virtual];
  method cls "Remove" "void" [param "ns3::Ptr< ns3::IpL4Protocol >" "protocol"] [is_virtual];
  method cls "Remove" "void" [param "ns3::Ptr< ns3::IpL4Protocol >" "protocol";
    param "uint32_t" "interfaceIndex"] [is_virtual];
  method cls "RemoveAddress" "bool" [param "uint32_t" "interface";
    param "uint32_t" "addressIndex"] [is_virtual];
  method cls "RemoveAddress" "bool" [param "uint32_t" "interface";
    param "ns3::Ipv6Address" "address"] [is_virtual];
  method cls "Send" "void" [param "ns3::Ptr< ns3::Packet >" "packet";
    param "ns3::Ipv6Address" "source"; param "ns3::Ipv6Address" "destination";
    param "uint8_t" "protocol"; param "ns3::Ptr< ns3::Ipv6Route >" "route"] [is_virtual];
  method cls "SendWithHeader" "void" [param "ns3::Ptr< ns3::Packet >" "packet";
    param "ns3::Ipv6Header" "ipHeader"; param "ns3::Ptr< ns3::Ipv6Route >" "route"] [is_virtual];
  method cls "SetDown" "void" [param "uint32_t" "interface"] [is_virtual];
  method cls "SetForwarding" "void" [param "uint32_t" "interface"; param "bool" "val"]
    [is_virtual];
  method cls "SetMetric" "void" [param "uint32_t" "interface"; param "uint16_t" "metric"]
    [is_virtual];
  method cls "SetPmtu" "void" [param "ns3::Ipv6Address" "dst"; param "uint32_t" "pmtu"]
    [is_virtual];
  method cls "SetRoutingProtocol" "void"
    [param "ns3::Ptr< ns3::Ipv6RoutingProtocol >" "routingProtocol"] [is_virtual];
  method cls "SetUp" "void" [param "uint32_t" "interface"] [is_virtual];
  method cls "SourceAddressSelection" "ns3::Ipv6Address" [param "uint32_t" "interface";
    param "ns3::Ipv6Address" "dest"] [is_virtual];
  method cls "GetIpForward" "bool" [] [is_const; is_virtual; visibility "private"];
  method cls "GetMtuDiscover" "bool" [] [is_const; is_virtual; visibility "private"];
  method cls "GetWeakEsModel" "bool" [] [is_const; is_virtual; visibility "private"];
  method cls "SetIpForward" "void" [param "bool" "forward"] [is_virtual; visibility "private"];
  method cls "SetMtuDiscover" "void" [param "bool" "mtuDiscover"] [is_virtual;
    visibility "private"];
  method cls "SetWeakEsModel" "void" [param "bool" "model"] [is_virtual; visibility "private"]].
End ApiMethods4.
