(* ===== verification/ApiMethods5.v ===== *)
(** * The table of the bindings: methods, part 5 of 5

    bindings/modulegen__gcc_ILP32.py: the constructors, methods, attributes and operators of the
    classes from ns3::Ipv6PmtuCache to ns3::Hash::Function::Murmur3, one definition for each function. *)
From Stdlib Require Import ZArith Ascii String.
From stdpp Require Import base list strings.
From S2P Require Import Prelude PyStr Pybindgen.

Module ApiMethods5.
Import Pybindgen.

Definition register_Ns3Ipv6PmtuCache_methods (cls : string) : list call := [
  constructor cls [param "ns3::Ipv6PmtuCache const &" "arg0"];
  constructor cls [];
  method cls "DoDispose" "void" [] [is_virtual];
  method cls "GetPmtu" "uint32_t" [param "ns3::Ipv6Address" "dst"] [];
  method cls "GetPmtuValidityTime" "ns3::Time" [] [is_const];
  method cls "GetTypeId" "ns3::TypeId" [] [is_static];
  method cls "SetPmtu" "void" [param "ns3::Ipv6Address" "dst"; param "uint32_t" "pmtu"] [];
  method cls "SetPmtuValidityTime" "bool" [param "ns3::Time" "validity"] []].
Definition register_Ns3Ipv6PrefixChecker_methods (cls : string) : list call := [
  constructor cls [];
  constructor cls [param "ns3::Ipv6PrefixChecker const &" "arg0"]].
Definition register_Ns3Ipv6PrefixValue_methods (cls : string) : list call := [
  constructor cls [];
  constructor cls [param "ns3::Ipv6Prefix const &" "value"];
  constructor cls [param "ns3::Ipv6PrefixValue const &" "arg0"];
  method cls "Copy" "ns3::Ptr< ns3::AttributeValue >" [] [is_const; is_virtual];
  method cls "DeserializeFromString" "bool" [param "std::string" "value";
    param "ns3::Ptr< ns3::AttributeChecker const >" "checker"] [is_virtual];
  method cls "Get" "ns3::Ipv6Prefix" [] [is_const];
  method cls "SerializeToString" "std::string"
    [param "ns3::Ptr< ns3::AttributeChecker const >" "checker"] [is_const; is_virtual];
  method cls "Set" "void" [param "ns3::Ipv6Prefix const &" "value"] []].
Definition register_Ns3Ipv6RoutingProtocol_methods (cls : string) : list call := [
  constructor cls [];
  constructor cls [param "ns3::Ipv6RoutingProtocol const &" "arg0"];
  method cls "GetTypeId" "ns3::TypeId" [] [is_static];
  method cls "NotifyAddAddress" "void" [param "uint32_t" "interface";
    param "ns3::Ipv6InterfaceAddress" "address"] [is_pure_virtual; is_virtual];
  method cls "NotifyAddRoute" "void" [param "ns3::Ipv6Address" "dst";
    param "ns3::Ipv6Prefix" "mask"; param "ns3::Ipv6Address" "nextHop";
    param "uint32_t" "interface";
    param_default "ns3::Ipv6Address" "prefixToUse" "ns3::Ipv6Address::GetZero()"]
    [is_pure_virtual; is_virtual];
  method cls "NotifyInterfaceDown" "void" [param "uint32_t" "interface"] [is_pure_virtual;
    is_virtual];
  method cls "NotifyInterfaceUp" "void" [param "uint32_t" "interface"] [is_pure_virtual;
    is_virtual];
  method cls "NotifyRemoveAddress" "void" [param "uint32_t" "interface";
    param "ns3::Ipv6InterfaceAddress" "address"] [is_pure_virtual; is_virtual];
  method cls "NotifyRemoveRoute" "void" [param "ns3::Ipv6Address" "dst";
    param "ns3::Ipv6Prefix" "mask"; param "ns3::Ipv6Address" "nextHop";
    param "uint32_t" "interface";
    param_default "ns3::Ipv6Address" "prefixToUse" "ns3::Ipv6Address::GetZero()"]
    [is_pure_virtual; is_virtual];
  method cls "PrintRoutingTable" "void" [param "ns3::Ptr< ns3::OutputStreamWrapper >" "stream";
    param_default "ns3::Time::Unit" "unit" "::ns3::Time::Unit::S"] [is_const; is_pure_virtual;
    is_virtual];
  method cls "RouteInput" "bool" [param "ns3::Ptr< ns3::Packet const >" "p";
    param "ns3::Ipv6Header const &" "header"; param "ns3::Ptr< ns3::NetDevice const >" "idev";
    param "ns3::Callback< void, ns3::Ptr< ns3::NetDevice const >, ns3::Ptr< ns3::Ipv6Route >, ns3::Ptr< ns3::Packet const >, ns3::Ipv6Header const &, ns3::empty, ns3::empty, ns3::empty, ns3::empty, ns3::empty >" "ucb";
    param "ns3::Callback< void, ns3::Ptr< ns3::NetDevice const >, ns3::Ptr< ns3::Ipv6MulticastRoute >, ns3::Ptr< ns3::Packet const >, ns3::Ipv6Header const &, ns3::empty, ns3::empty, ns3::empty, ns3::empty, ns3::empty >" "mcb";
    param "ns3::Callback< void, ns3::Ptr< ns3::Packet const >, ns3::Ipv6Header const &, unsigned int, ns3::empty, ns3::empty, ns3::empty, ns3::empty, ns3::empty, ns3::empty >" "lcb";
    param "ns3::Callback< void, ns3::Ptr< ns3::Packet const >, ns3::Ipv6Header const &, ns3::Socket::SocketErrno, ns3::empty, ns3::empty, ns3::empty, ns3::empty, ns3::empty, ns3::empty >" "ecb"]
    [is_pure_virtual; is_virtual];
  method cls "RouteOutput" "ns3::Ptr< ns3::Ipv6Route >" [param "ns3::Ptr< ns3::Packet >" "p";
    param "ns3::Ipv6Header const &" "header"; param "ns3::Ptr< ns3::NetDevice >" "oif";
    param "ns3::Socket::SocketErrno &" "sockerr"] [is_pure_virtual; is_virtual];
  method cls "SetIpv6" "void" [param "ns3::Ptr< ns3::Ipv6 >" "ipv6"] [is_pure_virtual; is_virtual]].
Definition register_Ns3KernelSocketFdFactory_methods (cls : string) : list call := [
  constructor cls [];
  method cls "CreateSocket" "ns3::UnixFd *" [param "int" "domain"; param "int" "type";
    param "int" "protocol"] [is_virtual];
  method cls "GetTypeId" "ns3::TypeId" [] [is_static];
  method cls "ScheduleTask" "void" [param "ns3::EventImpl *" "event"] [];
  AddInstanceAttribute cls "m_library" "std::string" [not_const];
  method cls "InitializeStack" "void" [] [visibility "protected"];
  method cls "DoDispose" "void" [] [is_virtual; visibility "private"]].
Definition register_Ns3LinuxDccp6SocketFactory_methods (cls : string) : list call := [
  constructor cls [];
  constructor cls [param "ns3::LinuxDccp6SocketFactory const &" "arg0"];
  method cls "GetTypeId" "ns3::TypeId" [] [is_static]].
Definition register_Ns3LinuxDccpSocketFactory_methods (cls : string) : list call := [
  constructor cls [];
  constructor cls [param "ns3::LinuxDccpSocketFactory const &" "arg0"];
  method cls "GetTypeId" "ns3::TypeId" [] [is_static]].
Definition register_Ns3LinuxIpv4RawSocketFactory_methods (cls : string) : list call := [
  constructor cls [];
  constructor cls [param "ns3::LinuxIpv4RawSocketFactory const &" "arg0"];
  method cls "GetTypeId" "ns3::TypeId" [] [is_static]].
Definition register_Ns3LinuxIpv6RawSocketFactory_methods (cls : string) : list call := [
  constructor cls [];
  constructor cls [param "ns3::LinuxIpv6RawSocketFactory const &" "arg0"];
  method cls "GetTypeId" "ns3::TypeId" [] [is_static]].
Definition register_Ns3LinuxSctp6SocketFactory_methods (cls : string) : list call := [
  constructor cls [];
  constructor cls [param "ns3::LinuxSctp6SocketFactory const &" "arg0"];
  method cls "GetTypeId" "ns3::TypeId" [] [is_static]].
Definition register_Ns3LinuxSctpSocketFactory_methods (cls : string) : list call := [
  constructor cls [];
  constructor cls [param "ns3::LinuxSctpSocketFactory const &" "arg0"];
  method cls "GetTypeId" "ns3::TypeId" [] [is_static]].
Definition register_Ns3LinuxSocketFdFactory_methods (cls : string) : list call := [
  method cls "GetTypeId" "ns3::TypeId" [] [is_static];
  constructor cls [];
  method cls "Set" "void" [param "std::string" "path"; param "std::string" "value"] [];
  method cls "Get" "std::string" [param "std::string" "path"] [];
  method cls "NotifyNewAggregate" "void" [] [is_virtual; visibility "private"]].
Definition register_Ns3LinuxSocketImpl_methods (cls : string) : list call := [
  constructor cls [param "ns3::LinuxSocketImpl const &" "arg0"];
  constructor cls [];
  method cls "Bind" "int" [] [is_virtual];
  method cls "Bind" "int" [param "ns3::Address const &" "address"] [is_virtual];
  method cls "Bind6" "int" [] [is_virtual];
  method cls "BindToNetDevice" "void" [param "ns3::Ptr< ns3::NetDevice >" "netdevice"]
    [is_virtual];
  method cls "Close" "int" [] [is_virtual];
  method cls "Connect" "int" [param "ns3::Address const &" "address"] [is_virtual];
  method cls "CreateSocket" "void" [] [];
  method cls "GetAllowBroadcast" "bool" [] [is_const; is_virtual];
  method cls "GetErrno" "ns3::Socket::SocketErrno" [] [is_const; is_virtual];
  method cls "GetNode" "ns3::Ptr< ns3::Node >" [] [is_const; is_virtual];
  method cls "GetPeerName" "int" [param "ns3::Address &" "address"] [is_const; is_virtual];
  method cls "GetRxAvailable" "uint32_t" [] [is_const; is_virtual];
  method cls "GetSockName" "int" [param "ns3::Address &" "address"] [is_const; is_virtual];
  method cls "GetSocketType" "ns3::Socket::SocketType" [] [is_const; is_virtual];
  method cls "GetTxAvailable" "uint32_t" [] [is_const; is_virtual];
  method cls "GetTypeId" "ns3::TypeId" [] [is_static];
  method cls "Getsockopt" "int" [param "int" "level"; param "int" "optname";
    param "void *" "optval"; param "socklen_t *" "optlen"] [];
  method cls "Ioctl" "int" [param "long unsigned int" "request"; param "char *" "result_buffer"]
    [];
  method cls "Listen" "int" [] [is_virtual];
  method cls "MulticastJoinGroup" "int" [param "uint32_t" "interfaceIndex";
    param "ns3::Address const &" "groupAddress"] [is_virtual];
  method cls "MulticastLeaveGroup" "int" [param "uint32_t" "interfaceIndex";
    param "ns3::Address const &" "groupAddress"] [is_virtual];
  method cls "Ns3AddressToPosixAddress" "int" [param "ns3::Address const &" "nsaddr";
    param "sockaddr *" "addr"; param "socklen_t *" "addrlen"] [];
  method cls "Poll" "void" [] [];
  method cls "PosixAddressToNs3Address" "ns3::Address" [param "sockaddr const *" "my_addr";
    param "socklen_t" "addrlen"] [];
  method cls "Recv" "ns3::Ptr< ns3::Packet >" [param "uint32_t" "maxSize";
    param "uint32_t" "flags"] [is_virtual];
  method cls "RecvFrom" "ns3::Ptr< ns3::Packet >" [param "uint32_t" "maxSize";
    param "uint32_t" "flags"; param "ns3::Address &" "fromAddress"] [is_virtual];
  method cls "Send" "int" [param "ns3::Ptr< ns3::Packet >" "p"; param "uint32_t" "flags"]
    [is_virtual];
  method cls "SendTo" "int" [param "ns3::Ptr< ns3::Packet >" "p"; param "uint32_t" "flags";
    param "ns3::Address const &" "address"] [is_virtual];
  method cls "SetAllowBroadcast" "bool" [param "bool" "allowBroadcast"] [is_virtual];
  method cls "SetNode" "void" [param "ns3::Ptr< ns3::Node >" "node"] [is_virtual];
  method cls "SetNs3ToPosixConverter" "void"
    [param "ns3::Callback< int, ns3::Address const &, sockaddr *, unsigned int *, ns3::empty, ns3::empty, ns3::empty, ns3::empty, ns3::empty, ns3::empty >" "cb"]
    [];
  method cls "SetPosixToNs3Converter" "void"
    [param "ns3::Callback< ns3::Address, sockaddr const *, unsigned int, ns3::empty, ns3::empty, ns3::empty, ns3::empty, ns3::empty, ns3::empty, ns3::empty >" "cb"]
    [];
  method cls "Setsockopt" "void" [param "int" "level"; param "int" "optname";
    param "void const *" "optval"; param "socklen_t" "optlen"] [];
  method cls "ShutdownRecv" "int" [] [is_virtual];
  method cls "ShutdownSend" "int" [] [is_virtual];
  AddInstanceAttribute cls "m_kernsock" "ns3::KernelSocketFd *" [not_const];
  AddInstanceAttribute cls "m_ns3toposix" "ns3::LinuxSocketImpl::Ns3ToPosixConverter" [not_const];
  AddInstanceAttribute cls "m_posixtons3" "ns3::LinuxSocketImpl::PosixToNs3Converter" [not_const];
  AddInstanceAttribute cls "m_task" "ns3::Task *" [not_const];
  method cls "GetIpMulticastIf" "int32_t" [] [is_const; is_virtual; visibility "private"];
  method cls "GetIpMulticastLoop" "bool" [] [is_const; is_virtual; visibility "private"];
  method cls "GetIpMulticastTtl" "uint8_t" [] [is_const; is_virtual; visibility "private"];
  method cls "GetIpTtl" "uint8_t" [] [is_const; is_virtual; visibility "private"];
  method cls "GetMtuDiscover" "bool" [] [is_const; is_virtual; visibility "private"];
  method cls "GetRcvBufSize" "uint32_t" [] [is_const; is_virtual; visibility "private"];
  method cls "SetIpMulticastIf" "void" [param "int32_t" "ipIf"] [is_virtual; visibility "private"];
  method cls "SetIpMulticastLoop" "void" [param "bool" "loop"] [is_virtual; visibility "private"];
  method cls "SetIpMulticastTtl" "void" [param "uint8_t" "ipTtl"] [is_virtual;
    visibility "private"];
  method cls "SetIpTtl" "void" [param "uint8_t" "ipTtl"] [is_virtual; visibility "private"];
  method cls "SetMtuDiscover" "void" [param "bool" "discover"] [is_virtual; visibility "private"];
  method cls "SetRcvBufSize" "void" [param "uint32_t" "size"] [is_virtual; visibility "private"]].
Definition register_Ns3LinuxTcp6SocketFactory_methods (cls : string) : list call := [
  constructor cls [];
  constructor cls [param "ns3::LinuxTcp6SocketFactory const &" "arg0"];
  method cls "GetTypeId" "ns3::TypeId" [] [is_static]].
Definition register_Ns3LinuxTcpSocketFactory_methods (cls : string) : list call := [
  constructor cls [];
  constructor cls [param "ns3::LinuxTcpSocketFactory const &" "arg0"];
  method cls "GetTypeId" "ns3::TypeId" [] [is_static]].
Definition register_Ns3LinuxUdp6SocketFactory_methods (cls : string) : list call := [
  constructor cls [];
  constructor cls [param "ns3::LinuxUdp6SocketFactory const &" "arg0"];
  method cls "GetTypeId" "ns3::TypeId" [] [is_static]].
Definition register_Ns3LinuxUdpSocketFactory_methods (cls : string) : list call := [
  constructor cls [];
  constructor cls [param "ns3::LinuxUdpSocketFactory const &" "arg0"];
  method cls "GetTypeId" "ns3::TypeId" [] [is_static]].
Definition register_Ns3LoaderFactory_methods (cls : string) : list call := [
  constructor cls [];
  constructor cls [param "ns3::LoaderFactory const &" "arg0"];
  method cls "Create" "ns3::Loader *" [param "int" "argc"; param "char * *" "argv";
    param "char * *" "envp"] [is_pure_virtual; is_virtual];
  method cls "GetTypeId" "ns3::TypeId" [] [is_static]].
Definition register_Ns3LogNormalRandomVariable_methods (cls : string) : list call := [
  method cls "GetTypeId" "ns3::TypeId" [] [is_static];
  constructor cls [];
  method cls "GetMu" "double" [] [is_const];
  method cls "GetSigma" "double" [] [is_const];
  method cls "GetValue" "double" [param "double" "mu"; param "double" "sigma"] [];
  method cls "GetInteger" "uint32_t" [param "uint32_t" "mu"; param "uint32_t" "sigma"] [];
  method cls "GetValue" "double" [] [is_virtual];
  method cls "GetInteger" "uint32_t" [] [is_virtual]].
Definition register_Ns3Mac48AddressChecker_methods (cls : string) : list call := [
  constructor cls [];
  constructor cls [param "ns3::Mac48AddressChecker const &" "arg0"]].
Definition register_Ns3Mac48AddressValue_methods (cls : string) : list call := [
  constructor cls [];
  constructor cls [param "ns3::Mac48Address const &" "value"];
  constructor cls [param "ns3::Mac48AddressValue const &" "arg0"];
  method cls "Copy" "ns3::Ptr< ns3::AttributeValue >" [] [is_const; is_virtual];
  method cls "DeserializeFromString" "bool" [param "std::string" "value";
    param "ns3::Ptr< ns3::AttributeChecker const >" "checker"] [is_virtual];
  method cls "Get" "ns3::Mac48Address" [] [is_const];
  method cls "SerializeToString" "std::string"
    [param "ns3::Ptr< ns3::AttributeChecker const >" "checker"] [is_const; is_virtual];
  method cls "Set" "void" [param "ns3::Mac48Address const &" "value"] []].
Definition register_Ns3NetDevice_methods (cls : string) : list call := [
  constructor cls [];
  constructor cls [param "ns3::NetDevice const &" "arg0"];
  method cls "AddLinkChangeCallback" "void"
    [param "ns3::Callback< void, ns3::empty, ns3::empty, ns3::empty, ns3::empty, ns3::empty, ns3::empty, ns3::empty, ns3::empty, ns3::empty >" "callback"]
    [is_pure_virtual; is_virtual];
  method cls "GetAddress" "ns3::Address" [] [is_const; is_pure_virtual; is_virtual];
  method cls "GetBroadcast" "ns3::Address" [] [is_const; is_pure_virtual; is_virtual];
  method cls "GetChannel" "ns3::Ptr< ns3::Channel >" [] [is_const; is_pure_virtual; is_virtual];
  method cls "GetIfIndex" "uint32_t" [] [is_const; is_pure_virtual; is_virtual];
  method cls "GetMtu" "uint16_t" [] [is_const; is_pure_virtual; is_virtual];
  method cls "GetMulticast" "ns3::Address" [param "ns3::Ipv4Address" "multicastGroup"] [is_const;
    is_pure_virtual; is_virtual];
  method cls "GetMulticast" "ns3::Address" [param "ns3::Ipv6Address" "addr"] [is_const;
    is_pure_virtual; is_virtual];
  method cls "GetNode" "ns3::Ptr< ns3::Node >" [] [is_const; is_pure_virtual; is_virtual];
  method cls "GetTypeId" "ns3::TypeId" [] [is_static];
  method cls "IsBridge" "bool" [] [is_const; is_pure_virtual; is_virtual];
  method cls "IsBroadcast" "bool" [] [is_const; is_pure_virtual; is_virtual];
  method cls "IsLinkUp" "bool" [] [is_const; is_pure_virtual; is_virtual];
  method cls "IsMulticast" "bool" [] [is_const; is_pure_virtual; is_virtual];
  method cls "IsPointToPoint" "bool" [] [is_const; is_pure_virtual; is_virtual];
  method cls "NeedsArp" "bool" [] [is_const; is_pure_virtual; is_virtual];
  method cls "Send" "bool" [param "ns3::Ptr< ns3::Packet >" "packet";
    param "ns3::Address const &" "dest"; param "uint16_t" "protocolNumber"] [is_pure_virtual;
    is_virtual];
  method cls "SendFrom" "bool" [param "ns3::Ptr< ns3::Packet >" "packet";
    param "ns3::Address const &" "source"; param "ns3::Address const &" "dest";
    param "uint16_t" "protocolNumber"] [is_pure_virtual; is_virtual];
  method cls "SetAddress" "void" [param "ns3::Address" "address"] [is_pure_virtual; is_virtual];
  method cls "SetIfIndex" "void" [param "uint32_t const" "index"] [is_pure_virtual; is_virtual];
  method cls "SetMtu" "bool" [param "uint16_t const" "mtu"] [is_pure_virtual; is_virtual];
  method cls "SetNode" "void" [param "ns3::Ptr< ns3::Node >" "node"] [is_pure_virtual; is_virtual];
  method cls "SetPromiscReceiveCallback" "void"
    [param "ns3::Callback< bool, ns3::Ptr< ns3::NetDevice >, ns3::Ptr< ns3::Packet const >, unsigned short, ns3::Address const &, ns3::Address const &, ns3::NetDevice::PacketType, ns3::empty, ns3::empty, ns3::empty >" "cb"]
    [is_pure_virtual; is_virtual];
  method cls "SetReceiveCallback" "void"
    [param "ns3::Callback< bool, ns3::Ptr< ns3::NetDevice >, ns3::Ptr< ns3::Packet const >, unsigned short, ns3::Address const &, ns3::empty, ns3::empty, ns3::empty, ns3::empty, ns3::empty >" "cb"]
    [is_pure_virtual; is_virtual];
  method cls "SupportsSendFrom" "bool" [] [is_const; is_pure_virtual; is_virtual]].
Definition register_Ns3NixVector_methods (cls : string) : list call := [
  AddOutputStream cls;
  constructor cls [];
  constructor cls [param "ns3::NixVector const &" "o"];
  method cls "AddNeighborIndex" "void" [param "uint32_t" "newBits";
    param "uint32_t" "numberOfBits"] [];
  method cls "BitCount" "uint32_t" [param "uint32_t" "numberOfNeighbors"] [is_const];
  method cls "Copy" "ns3::Ptr< ns3::NixVector >" [] [is_const];
  method cls "Deserialize" "uint32_t" [param "uint32_t const *" "buffer"; param "uint32_t" "size"]
    [];
  method cls "ExtractNeighborIndex" "uint32_t" [param "uint32_t" "numberOfBits"] [];
  method cls "GetRemainingBits" "uint32_t" [] [];
  method cls "GetSerializedSize" "uint32_t" [] [is_const];
  method cls "Serialize" "uint32_t" [param "uint32_t *" "buffer"; param "uint32_t" "maxSize"]
    [is_const]].
Definition register_Ns3Node_methods (cls : string) : list call := [
  constructor cls [param "ns3::Node const &" "arg0"];
  constructor cls [];
  constructor cls [param "uint32_t" "systemId"];
  method cls "AddApplication" "uint32_t" [param "ns3::Ptr< ns3::Application >" "application"] [];
  method cls "AddDevice" "uint32_t" [param "ns3::Ptr< ns3::NetDevice >" "device"] [];
  method cls "ChecksumEnabled" "bool" [] [is_static];
  method cls "GetApplication" "ns3::Ptr< ns3::Application >" [param "uint32_t" "index"] [is_const];
  method cls "GetDevice" "ns3::Ptr< ns3::NetDevice >" [param "uint32_t" "index"] [is_const];
  method cls "GetId" "uint32_t" [] [is_const];
  method cls "GetLocalTime" "ns3::Time" [] [is_const];
  method cls "GetNApplications" "uint32_t" [] [is_const];
  method cls "GetNDevices" "uint32_t" [] [is_const];
  method cls "GetSystemId" "uint32_t" [] [is_const];
  method cls "GetTypeId" "ns3::TypeId" [] [is_static];
  method cls "RegisterDeviceAdditionListener" "void"
    [param "ns3::Callback< void, ns3::Ptr< ns3::NetDevice >, ns3::empty, ns3::empty, ns3::empty, ns3::empty, ns3::empty, ns3::empty, ns3::empty, ns3::empty >" "listener"]
    [];
  method cls "RegisterProtocolHandler" "void"
    [param "ns3::Callback< void, ns3::Ptr< ns3::NetDevice >, ns3::Ptr< ns3::Packet const >, unsigned short, ns3::Address const &, ns3::Address const &, ns3::NetDevice::PacketType, ns3::empty, ns3::empty, ns3::empty >" "handler";
    param "uint16_t" "protocolType"; param "ns3::Ptr< ns3::NetDevice >" "device";
    param_default "bool" "promiscuous" "false"] [];
  method cls "UnregisterDeviceAdditionListener" "void"
    [param "ns3::Callback< void, ns3::Ptr< ns3::NetDevice >, ns3::empty, ns3::empty, ns3::empty, ns3::empty, ns3::empty, ns3::empty, ns3::empty, ns3::empty >" "listener"]
    [];
  method cls "UnregisterProtocolHandler" "void"
    [param "ns3::Callback< void, ns3::Ptr< ns3::NetDevice >, ns3::Ptr< ns3::Packet const >, unsigned short, ns3::Address const &, ns3::Address const &, ns3::NetDevice::PacketType, ns3::empty, ns3::empty, ns3::empty >" "handler"]
    [];
  method cls "DoDispose" "void" [] [is_virtual; visibility "protected"];
  method cls "DoInitialize" "void" [] [is_virtual; visibility "protected"]].
Definition register_Ns3NormalRandomVariable_methods (cls : string) : list call := [
  AddStaticAttribute cls "INFINITE_VALUE" "double const" [is_const];
  method cls "GetTypeId" "ns3::TypeId" [] [is_static];
  constructor cls [];
  method cls "GetMean" "double" [] [is_const];
  method cls "GetVariance" "double" [] [is_const];
  method cls "GetBound" "double" [] [is_const];
  method cls "GetValue" "double" [param "double" "mean"; param "double" "variance";
    param_default "double" "bound" "ns3::NormalRandomVariable::INFINITE_VALUE"] [];
  method cls "GetInteger" "uint32_t" [param "uint32_t" "mean"; param "uint32_t" "variance";
    param "uint32_t" "bound"] [];
  method cls "GetValue" "double" [] [is_virtual];
  method cls "GetInteger" "uint32_t" [] [is_virtual]].
Definition register_Ns3ObjectFactoryChecker_methods (cls : string) : list call := [
  constructor cls [];
  constructor cls [param "ns3::ObjectFactoryChecker const &" "arg0"]].
Definition register_Ns3ObjectFactoryValue_methods (cls : string) : list call := [
  constructor cls [];
  constructor cls [param "ns3::ObjectFactory const &" "value"];
  constructor cls [param "ns3::ObjectFactoryValue const &" "arg0"];
  method cls "Copy" "ns3::Ptr< ns3::AttributeValue >" [] [is_const; is_virtual];
  method cls "DeserializeFromString" "bool" [param "std::string" "value";
    param "ns3::Ptr< ns3::AttributeChecker const >" "checker"] [is_virtual];
  method cls "Get" "ns3::ObjectFactory" [] [is_const];
  method cls "SerializeToString" "std::string"
    [param "ns3::Ptr< ns3::AttributeChecker const >" "checker"] [is_const; is_virtual];
  method cls "Set" "void" [param "ns3::ObjectFactory const &" "value"] []].
Definition register_Ns3OutputStreamWrapper_methods (cls : string) : list call := [
  constructor cls [param "ns3::OutputStreamWrapper const &" "arg0"];
  constructor cls [param "std::string" "filename"; param "std::ios_base::openmode" "filemode"];
  constructor cls [param "std::ostream *" "os"];
  method cls "GetStream" "std::ostream *" [] []].
Definition register_Ns3Packet_methods (cls : string) : list call := [
  AddOutputStream cls;
  constructor cls [];
  constructor cls [param "ns3::Packet const &" "o"];
  constructor cls [param "uint32_t" "size"];
  constructor cls [param "uint8_t const *" "buffer"; param "uint32_t" "size";
    param "bool" "magic"];
  constructor cls [param "uint8_t const *" "buffer"; param "uint32_t" "size"];
  method cls "AddAtEnd" "void" [param "ns3::Ptr< ns3::Packet const >" "packet"] [];
  method cls "AddByteTag" "void" [param "ns3::Tag const &" "tag"] [is_const];
  method cls "AddByteTag" "void" [param "ns3::Tag const &" "tag"; param "uint32_t" "start";
    param "uint32_t" "end"] [is_const];
  method cls "AddHeader" "void" [param "ns3::Header const &" "header"] [];
  method cls "AddPacketTag" "void" [param "ns3::Tag const &" "tag"] [is_const];
  method cls "AddPaddingAtEnd" "void" [param "uint32_t" "size"] [];
  method cls "AddTrailer" "void" [param "ns3::Trailer const &" "trailer"] [];
  method cls "BeginItem" "ns3::PacketMetadata::ItemIterator" [] [is_const];
  method cls "Copy" "ns3::Ptr< ns3::Packet >" [] [is_const];
  method cls "CopyData" "uint32_t" [param "uint8_t *" "buffer"; param "uint32_t" "size"]
    [is_const];
  method cls "CopyData" "void" [param "std::ostream *" "os"; param "uint32_t" "size"] [is_const];
  method cls "CreateFragment" "ns3::Ptr< ns3::Packet >" [param "uint32_t" "start";
    param "uint32_t" "length"] [is_const];
  method cls "EnableChecking" "void" [] [is_static];
  method cls "EnablePrinting" "void" [] [is_static];
  method cls "FindFirstMatchingByteTag" "bool" [param "ns3::Tag &" "tag"] [is_const];
  method cls "GetByteTagIterator" "ns3::ByteTagIterator" [] [is_const];
  method cls "GetNixVector" "ns3::Ptr< ns3::NixVector >" [] [is_const];
  method cls "GetPacketTagIterator" "ns3::PacketTagIterator" [] [is_const];
  method cls "GetSerializedSize" "uint32_t" [] [is_const];
  method cls "GetSize" "uint32_t" [] [is_const];
  method cls "GetUid" "uint64_t" [] [is_const];
  method cls "PeekHeader" "uint32_t" [param "ns3::Header &" "header"] [is_const];
  method cls "PeekHeader" "uint32_t" [param "ns3::Header &" "header"; param "uint32_t" "size"]
    [is_const];
  method cls "PeekPacketTag" "bool" [param "ns3::Tag &" "tag"] [is_const];
  method cls "PeekTrailer" "uint32_t" [param "ns3::Trailer &" "trailer"] [];
  method cls "Print" "void" [param "std::ostream &" "os"] [is_const];
  method cls "PrintByteTags" "void" [param "std::ostream &" "os"] [is_const];
  method cls "PrintPacketTags" "void" [param "std::ostream &" "os"] [is_const];
  method cls "RemoveAllByteTags" "void" [] [];
  method cls "RemoveAllPacketTags" "void" [] [];
  method cls "RemoveAtEnd" "void" [param "uint32_t" "size"] [];
  method cls "RemoveAtStart" "void" [param "uint32_t" "size"] [];
  method cls "RemoveHeader" "uint32_t" [param "ns3::Header &" "header"] [];
  method cls "RemoveHeader" "uint32_t" [param "ns3::Header &" "header"; param "uint32_t" "size"]
    [];
  method cls "RemovePacketTag" "bool" [param "ns3::Tag &" "tag"] [];
  method cls "RemoveTrailer" "uint32_t" [param "ns3::Trailer &" "trailer"] [];
  method cls "ReplacePacketTag" "bool" [param "ns3::Tag &" "tag"] [];
  method cls "Serialize" "uint32_t" [param "uint8_t *" "buffer"; param "uint32_t" "maxSize"]
    [is_const];
  method cls "SetNixVector" "void" [param "ns3::Ptr< ns3::NixVector >" "nixVector"] [];
  method cls "ToString" "std::string" [] [is_const]].
Definition register_Ns3ParetoRandomVariable_methods (cls : string) : list call := [
  method cls "GetTypeId" "ns3::TypeId" [] [is_static];
  constructor cls [];
  method cls "GetScale" "double" [] [is_const];
  method cls "GetShape" "double" [] [is_const];
  method cls "GetBound" "double" [] [is_const];
  method cls "GetValue" "double" [param "double" "scale"; param "double" "shape";
    param "double" "bound"] [];
  method cls "GetInteger" "uint32_t" [param "uint32_t" "scale"; param "uint32_t" "shape";
    param "uint32_t" "bound"] [];
  method cls "GetValue" "double" [] [is_virtual];
  method cls "GetInteger" "uint32_t" [] [is_virtual]].
Definition register_Ns3TimeValue_methods (cls : string) : list call := [
  constructor cls [];
  constructor cls [param "ns3::Time const &" "value"];
  constructor cls [param "ns3::TimeValue const &" "arg0"];
  method cls "Copy" "ns3::Ptr< ns3::AttributeValue >" [] [is_const; is_virtual];
  method cls "DeserializeFromString" "bool" [param "std::string" "value";
    param "ns3::Ptr< ns3::AttributeChecker const >" "checker"] [is_virtual];
  method cls "Get" "ns3::Time" [] [is_const];
  method cls "SerializeToString" "std::string"
    [param "ns3::Ptr< ns3::AttributeChecker const >" "checker"] [is_const; is_virtual];
  method cls "Set" "void" [param "ns3::Time const &" "value"] []].
Definition register_Ns3TypeIdChecker_methods (cls : string) : list call := [
  constructor cls [];
  constructor cls [param "ns3::TypeIdChecker const &" "arg0"]].
Definition register_Ns3TypeIdValue_methods (cls : string) : list call := [
  constructor cls [];
  constructor cls [param "ns3::TypeId const &" "value"];
  constructor cls [param "ns3::TypeIdValue const &" "arg0"];
  method cls "Copy" "ns3::Ptr< ns3::AttributeValue >" [] [is_const; is_virtual];
  method cls "DeserializeFromString" "bool" [param "std::string" "value";
    param "ns3::Ptr< ns3::AttributeChecker const >" "checker"] [is_virtual];
  method cls "Get" "ns3::TypeId" [] [is_const];
  method cls "SerializeToString" "std::string"
    [param "ns3::Ptr< ns3::AttributeChecker const >" "checker"] [is_const; is_virtual];
  method cls "Set" "void" [param "ns3::TypeId const &" "value"] []].
Definition register_Ns3AddressChecker_methods (cls : string) : list call := [
  constructor cls [];
  constructor cls [param "ns3::AddressChecker const &" "arg0"]].
Definition register_Ns3AddressValue_methods (cls : string) : list call := [
  constructor cls [];
  constructor cls [param "ns3::Address const &" "value"];
  constructor cls [param "ns3::AddressValue const &" "arg0"];
  method cls "Copy" "ns3::Ptr< ns3::AttributeValue >" [] [is_const; is_virtual];
  method cls "DeserializeFromString" "bool" [param "std::string" "value";
    param "ns3::Ptr< ns3::AttributeChecker const >" "checker"] [is_virtual];
  method cls "Get" "ns3::Address" [] [is_const];
  method cls "SerializeToString" "std::string"
    [param "ns3::Ptr< ns3::AttributeChecker const >" "checker"] [is_const; is_virtual];
  method cls "Set" "void" [param "ns3::Address const &" "value"] []].
Definition register_Ns3CallbackImpl__Bool_Ns3Ptr__lt__ns3Socket__gt___Const_ns3Address___amp___Ns3Empty_Ns3Empty_Ns3Empty_Ns3Empty_Ns3Empty_Ns3Empty_Ns3Empty_methods (cls : string) : list call := [
  constructor cls [];
  constructor cls
    [param "ns3::CallbackImpl< bool, ns3::Ptr< ns3::Socket >, ns3::Address const &, ns3::empty, ns3::empty, ns3::empty, ns3::empty, ns3::empty, ns3::empty, ns3::empty > const &" "arg0"];
  method cls "DoGetTypeid" "std::string" [] [is_static];
  method cls "GetTypeid" "std::string" [] [is_const; is_virtual];
  method cls "operator()" "bool" [param "ns3::Ptr< ns3::Socket >" "arg0";
    param "ns3::Address const &" "arg1"] [("custom_name", VStr "__call__"); is_pure_virtual;
    is_virtual]].
Definition register_Ns3CallbackImpl__Int_Const_ns3Address___amp___Sockaddr___star___Unsigned_int___star___Ns3Empty_Ns3Empty_Ns3Empty_Ns3Empty_Ns3Empty_Ns3Empty_methods (cls : string) : list call := [
  constructor cls [];
  constructor cls
    [param "ns3::CallbackImpl< int, ns3::Address const &, sockaddr *, unsigned int *, ns3::empty, ns3::empty, ns3::empty, ns3::empty, ns3::empty, ns3::empty > const &" "arg0"];
  method cls "DoGetTypeid" "std::string" [] [is_static];
  method cls "GetTypeid" "std::string" [] [is_const; is_virtual];
  method cls "operator()" "int" [param "ns3::Address const &" "arg0"; param "sockaddr *" "arg1";
    param "unsigned int *" "arg2"] [("custom_name", VStr "__call__"); is_pure_virtual; is_virtual]].
Definition register_Ns3CallbackImpl__Ns3Address_Const_sockaddr___star___Unsigned_int_Ns3Empty_Ns3Empty_Ns3Empty_Ns3Empty_Ns3Empty_Ns3Empty_Ns3Empty_methods (cls : string) : list call := [
  constructor cls [];
  constructor cls
    [param "ns3::CallbackImpl< ns3::Address, sockaddr const *, unsigned int, ns3::empty, ns3::empty, ns3::empty, ns3::empty, ns3::empty, ns3::empty, ns3::empty > const &" "arg0"];
  method cls "DoGetTypeid" "std::string" [] [is_static];
  method cls "GetTypeid" "std::string" [] [is_const; is_virtual];
  method cls "operator()" "ns3::Address" [param "sockaddr const *" "arg0";
    param "unsigned int" "arg1"] [("custom_name", VStr "__call__"); is_pure_virtual; is_virtual]].
Definition register_Ns3CallbackImpl__Ns3ObjectBase___star___Ns3Empty_Ns3Empty_Ns3Empty_Ns3Empty_Ns3Empty_Ns3Empty_Ns3Empty_Ns3Empty_Ns3Empty_methods (cls : string) : list call := [
  constructor cls [];
  constructor cls
    [param "ns3::CallbackImpl< ns3::ObjectBase *, ns3::empty, ns3::empty, ns3::empty, ns3::empty, ns3::empty, ns3::empty, ns3::empty, ns3::empty, ns3::empty > const &" "arg0"];
  method cls "DoGetTypeid" "std::string" [] [is_static];
  method cls "GetTypeid" "std::string" [] [is_const; is_virtual];
  method cls "operator()" "ns3::ObjectBase *" [] [("custom_name", VStr "__call__");
    is_pure_virtual; is_virtual]].
(** in the code the name goes on with the other types of the callback *)
Definition register_Ns3CallbackImpl__Void_Ns3Ptr__lt__ns3NetDevice__gt___Ns3Ptr__lt__const_ns3Packet__gt___methods (cls : string) : list call := [
  constructor cls [];
  constructor cls
    [param "ns3::CallbackImpl< void, ns3::Ptr< ns3::NetDevice >, ns3::Ptr< ns3::Packet const >, unsigned short, ns3::Address const &, ns3::Address const &, ns3::NetDevice::PacketType, ns3::empty, ns3::empty, ns3::empty > const &" "arg0"];
  method cls "DoGetTypeid" "std::string" [] [is_static];
  method cls "GetTypeid" "std::string" [] [is_const; is_virtual];
  method cls "operator()" "void" [param "ns3::Ptr< ns3::NetDevice >" "arg0";
    param "ns3::Ptr< ns3::Packet const >" "arg1"; param "short unsigned int" "arg2";
    param "ns3::Address const &" "arg3"; param "ns3::Address const &" "arg4";
    param "ns3::NetDevice::PacketType" "arg5"] [("custom_name", VStr "__call__"); is_pure_virtual;
    is_virtual]].
Definition register_Ns3CallbackImpl__Void_Ns3Ptr__lt__ns3NetDevice__gt___Ns3Empty_Ns3Empty_Ns3Empty_Ns3Empty_Ns3Empty_Ns3Empty_Ns3Empty_Ns3Empty_methods (cls : string) : list call := [
  constructor cls [];
  constructor cls
    [param "ns3::CallbackImpl< void, ns3::Ptr< ns3::NetDevice >, ns3::empty, ns3::empty, ns3::empty, ns3::empty, ns3::empty, ns3::empty, ns3::empty, ns3::empty > const &" "arg0"];
  method cls "DoGetTypeid" "std::string" [] [is_static];
  method cls "GetTypeid" "std::string" [] [is_const; is_virtual];
  method cls "operator()" "void" [param "ns3::Ptr< ns3::NetDevice >" "arg0"]
    [("custom_name", VStr "__call__"); is_pure_virtual; is_virtual]].
Definition register_Ns3CallbackImpl__Void_Ns3Ptr__lt__ns3Socket__gt___Const_ns3Address___amp___Ns3Empty_Ns3Empty_Ns3Empty_Ns3Empty_Ns3Empty_Ns3Empty_Ns3Empty_methods (cls : string) : list call := [
  constructor cls [];
  constructor cls
    [param "ns3::CallbackImpl< void, ns3::Ptr< ns3::Socket >, ns3::Address const &, ns3::empty, ns3::empty, ns3::empty, ns3::empty, ns3::empty, ns3::empty, ns3::empty > const &" "arg0"];
  method cls "DoGetTypeid" "std::string" [] [is_static];
  method cls "GetTypeid" "std::string" [] [is_const; is_virtual];
  method cls "operator()" "void" [param "ns3::Ptr< ns3::Socket >" "arg0";
    param "ns3::Address const &" "arg1"] [("custom_name", VStr "__call__"); is_pure_virtual;
    is_virtual]].
Definition register_Ns3CallbackImpl__Void_Ns3Ptr__lt__ns3Socket__gt___Ns3Empty_Ns3Empty_Ns3Empty_Ns3Empty_Ns3Empty_Ns3Empty_Ns3Empty_Ns3Empty_methods (cls : string) : list call := [
  constructor cls [];
  constructor cls
    [param "ns3::CallbackImpl< void, ns3::Ptr< ns3::Socket >, ns3::empty, ns3::empty, ns3::empty, ns3::empty, ns3::empty, ns3::empty, ns3::empty, ns3::empty > const &" "arg0"];
  method cls "DoGetTypeid" "std::string" [] [is_static];
  method cls "GetTypeid" "std::string" [] [is_const; is_virtual];
  method cls "operator()" "void" [param "ns3::Ptr< ns3::Socket >" "arg0"]
    [("custom_name", VStr "__call__"); is_pure_virtual; is_virtual]].
Definition register_Ns3CallbackImpl__Void_Ns3Ptr__lt__ns3Socket__gt___Unsigned_int_Ns3Empty_Ns3Empty_Ns3Empty_Ns3Empty_Ns3Empty_Ns3Empty_Ns3Empty_methods (cls : string) : list call := [
  constructor cls [];
  constructor cls
    [param "ns3::CallbackImpl< void, ns3::Ptr< ns3::Socket >, unsigned int, ns3::empty, ns3::empty, ns3::empty, ns3::empty, ns3::empty, ns3::empty, ns3::empty > const &" "arg0"];
  method cls "DoGetTypeid" "std::string" [] [is_static];
  method cls "GetTypeid" "std::string" [] [is_const; is_virtual];
  method cls "operator()" "void" [param "ns3::Ptr< ns3::Socket >" "arg0";
    param "unsigned int" "arg1"] [("custom_name", VStr "__call__"); is_pure_virtual; is_virtual]].
Definition register_Ns3CallbackImpl__Void_Ns3Empty_Ns3Empty_Ns3Empty_Ns3Empty_Ns3Empty_Ns3Empty_Ns3Empty_Ns3Empty_Ns3Empty_methods (cls : string) : list call := [
  constructor cls [];
  constructor cls
    [param "ns3::CallbackImpl< void, ns3::empty, ns3::empty, ns3::empty, ns3::empty, ns3::empty, ns3::empty, ns3::empty, ns3::empty, ns3::empty > const &" "arg0"];
  method cls "DoGetTypeid" "std::string" [] [is_static];
  method cls "GetTypeid" "std::string" [] [is_const; is_virtual];
  method cls "operator()" "void" [] [("custom_name", VStr "__call__"); is_pure_virtual;
    is_virtual]].
Definition register_Ns3CallbackImpl__Void_Unsigned_short_Int_Ns3Empty_Ns3Empty_Ns3Empty_Ns3Empty_Ns3Empty_Ns3Empty_Ns3Empty_methods (cls : string) : list call := [
  constructor cls [];
  constructor cls
    [param "ns3::CallbackImpl< void, unsigned short, int, ns3::empty, ns3::empty, ns3::empty, ns3::empty, ns3::empty, ns3::empty, ns3::empty > const &" "arg0"];
  method cls "DoGetTypeid" "std::string" [] [is_static];
  method cls "GetTypeid" "std::string" [] [is_const; is_virtual];
  method cls "operator()" "void" [param "short unsigned int" "arg0"; param "int" "arg1"]
    [("custom_name", VStr "__call__"); is_pure_virtual; is_virtual]].
Definition register_Ns3CallbackImpl__Void_Unsigned_short_Ns3Empty_Ns3Empty_Ns3Empty_Ns3Empty_Ns3Empty_Ns3Empty_Ns3Empty_Ns3Empty_methods (cls : string) : list call := [
  constructor cls [];
  constructor cls
    [param "ns3::CallbackImpl< void, unsigned short, ns3::empty, ns3::empty, ns3::empty, ns3::empty, ns3::empty, ns3::empty, ns3::empty, ns3::empty > const &" "arg0"];
  method cls "DoGetTypeid" "std::string" [] [is_static];
  method cls "GetTypeid" "std::string" [] [is_const; is_virtual];
  method cls "operator()" "void" [param "short unsigned int" "arg0"]
    [("custom_name", VStr "__call__"); is_pure_virtual; is_virtual]].
Definition register_Ns3CallbackImpl__Void_Void___star___Ns3Empty_Ns3Empty_Ns3Empty_Ns3Empty_Ns3Empty_Ns3Empty_Ns3Empty_Ns3Empty_methods (cls : string) : list call := [
  constructor cls [];
  constructor cls
    [param "ns3::CallbackImpl< void, void *, ns3::empty, ns3::empty, ns3::empty, ns3::empty, ns3::empty, ns3::empty, ns3::empty, ns3::empty > const &" "arg0"];
  method cls "DoGetTypeid" "std::string" [] [is_static];
  method cls "GetTypeid" "std::string" [] [is_const; is_virtual];
  method cls "operator()" "void" [param "void *" "arg0"] [("custom_name", VStr "__call__");
    is_pure_virtual; is_virtual]].
Definition register_Ns3FreeBSDSocketFdFactory_methods (cls : string) : list call := [
  method cls "GetTypeId" "ns3::TypeId" [] [is_static];
  constructor cls [];
  method cls "Set" "void" [param "std::string" "path"; param "std::string" "value"] [];
  method cls "Get" "std::string" [param "std::string" "path"] [];
  method cls "NotifyNewAggregate" "void" [] [is_virtual; visibility "private"]].
Definition register_Ns3Ipv4DceRouting_methods (cls : string) : list call := [
  method cls "GetTypeId" "ns3::TypeId" [] [is_static];
  constructor cls [];
  method cls "NotifyInterfaceUp" "void" [param "uint32_t" "interface"] [is_virtual];
  method cls "NotifyInterfaceDown" "void" [param "uint32_t" "interface"] [is_virtual];
  method cls "NotifyAddAddress" "void" [param "uint32_t" "interface";
    param "ns3::Ipv4InterfaceAddress" "address"] [is_virtual];
  method cls "NotifyRemoveAddress" "void" [param "uint32_t" "interface";
    param "ns3::Ipv4InterfaceAddress" "address"] [is_virtual];
  method cls "PrintRoutingTable" "void" [param "ns3::Ptr< ns3::OutputStreamWrapper >" "stream"]
    [is_const; is_virtual];
  method cls "SetIpv4" "void" [param "ns3::Ptr< ns3::Ipv4 >" "ipv4"] [is_virtual]].
Definition register_Ns3Ipv4ListRouting_methods (cls : string) : list call := [
  constructor cls [param "ns3::Ipv4ListRouting const &" "arg0"];
  constructor cls [];
  method cls "AddRoutingProtocol" "void"
    [param "ns3::Ptr< ns3::Ipv4RoutingProtocol >" "routingProtocol"; param "int16_t" "priority"]
    [is_virtual];
  method cls "GetNRoutingProtocols" "uint32_t" [] [is_const; is_virtual];
  method cls "GetRoutingProtocol" "ns3::Ptr< ns3::Ipv4RoutingProtocol >"
    [param "uint32_t" "index"; mk_param "int16_t &" "priority" [("direction", VInt 2)]] [is_const;
    is_virtual];
  method cls "GetTypeId" "ns3::TypeId" [] [is_static];
  method cls "NotifyAddAddress" "void" [param "uint32_t" "interface";
    param "ns3::Ipv4InterfaceAddress" "address"] [is_virtual];
  method cls "NotifyInterfaceDown" "void" [param "uint32_t" "interface"] [is_virtual];
  method cls "NotifyInterfaceUp" "void" [param "uint32_t" "interface"] [is_virtual];
  method cls "NotifyRemoveAddress" "void" [param "uint32_t" "interface";
    param "ns3::Ipv4InterfaceAddress" "address"] [is_virtual];
  method cls "PrintRoutingTable" "void" [param "ns3::Ptr< ns3::OutputStreamWrapper >" "stream";
    param_default "ns3::Time::Unit" "unit" "::ns3::Time::Unit::S"] [is_const; is_virtual];
  method cls "RouteInput" "bool" [param "ns3::Ptr< ns3::Packet const >" "p";
    param "ns3::Ipv4Header const &" "header"; param "ns3::Ptr< ns3::NetDevice const >" "idev";
    param "ns3::Callback< void, ns3::Ptr< ns3::Ipv4Route >, ns3::Ptr< ns3::Packet const >, ns3::Ipv4Header const &, ns3::empty, ns3::empty, ns3::empty, ns3::empty, ns3::empty, ns3::empty >" "ucb";
    param "ns3::Callback< void, ns3::Ptr< ns3::Ipv4MulticastRoute >, ns3::Ptr< ns3::Packet const >, ns3::Ipv4Header const &, ns3::empty, ns3::empty, ns3::empty, ns3::empty, ns3::empty, ns3::empty >" "mcb";
    param "ns3::Callback< void, ns3::Ptr< ns3::Packet const >, ns3::Ipv4Header const &, unsigned int, ns3::empty, ns3::empty, ns3::empty, ns3::empty, ns3::empty, ns3::empty >" "lcb";
    param "ns3::Callback< void, ns3::Ptr< ns3::Packet const >, ns3::Ipv4Header const &, ns3::Socket::SocketErrno, ns3::empty, ns3::empty, ns3::empty, ns3::empty, ns3::empty, ns3::empty >" "ecb"]
    [is_virtual];
  method cls "RouteOutput" "ns3::Ptr< ns3::Ipv4Route >" [param "ns3::Ptr< ns3::Packet >" "p";
    param "ns3::Ipv4Header const &" "header"; param "ns3::Ptr< ns3::NetDevice >" "oif";
    param "ns3::Socket::SocketErrno &" "sockerr"] [is_virtual];
  method cls "SetIpv4" "void" [param "ns3::Ptr< ns3::Ipv4 >" "ipv4"] [is_virtual];
  method cls "DoDispose" "void" [] [is_virtual; visibility "protected"];
  method cls "DoInitialize" "void" [] [is_virtual; visibility "protected"]].
Definition register_Ns3HashImplementation_methods (cls : string) : list call := [
  constructor cls [param "ns3::Hash::Implementation const &" "arg0"];
  constructor cls [];
  method cls "GetHash32" "uint32_t" [param "char const *" "buffer";
    param "std::size_t const" "size"] [is_pure_virtual; is_virtual];
  method cls "GetHash64" "uint64_t" [param "char const *" "buffer";
    param "std::size_t const" "size"] [is_virtual];
  method cls "clear" "void" [] [is_pure_virtual; is_virtual]].
Definition register_Ns3HashFunctionFnv1a_methods (cls : string) : list call := [
  constructor cls [param "ns3::Hash::Function::Fnv1a const &" "arg0"];
  constructor cls [];
  method cls "GetHash32" "uint32_t" [param "char const *" "buffer"; param "size_t const" "size"]
    [is_virtual];
  method cls "GetHash64" "uint64_t" [param "char const *" "buffer"; param "size_t const" "size"]
    [is_virtual];
  method cls "clear" "void" [] [is_virtual]].
Definition register_Ns3HashFunctionHash32_methods (cls : string) : list call := [
  constructor cls [param "ns3::Hash::Function::Hash32 const &" "arg0"];
  constructor cls [param "ns3::Hash::Hash32Function_ptr" "hp"];
  method cls "GetHash32" "uint32_t" [param "char const *" "buffer";
    param "std::size_t const" "size"] [is_virtual];
  method cls "clear" "void" [] [is_virtual]].
Definition register_Ns3HashFunctionHash64_methods (cls : string) : list call := [
  constructor cls [param "ns3::Hash::Function::Hash64 const &" "arg0"];
  constructor cls [param "ns3::Hash::Hash64Function_ptr" "hp"];
  method cls "GetHash32" "uint32_t" [param "char const *" "buffer";
    param "std::size_t const" "size"] [is_virtual];
  method cls "GetHash64" "uint64_t" [param "char const *" "buffer";
    param "std::size_t const" "size"] [is_virtual];
  method cls "clear" "void" [] [is_virtual]].
Definition register_Ns3HashFunctionMurmur3_methods (cls : string) : list call := [
  constructor cls [param "ns3::Hash::Function::Murmur3 const &" "arg0"];
  constructor cls [];
  method cls "GetHash32" "uint32_t" [param "char const *" "buffer";
    param "std::size_t const" "size"] [is_virtual];
  method cls "GetHash64" "uint64_t" [param "char const *" "buffer";
    param "std::size_t const" "size"] [is_virtual];
  method cls "clear" "void" [] [is_virtual]].
End ApiMethods5.
