(* ===== verification/ApiTable.v ===== *)
(** * The table of the bindings

    bindings/modulegen__gcc_ILP32.py, the table that the scan of the library wrote: the module, the
    methods of all classes, the functions and [main]; bindings/modulegen__gcc_LP64.py is the same
    text.  The theorems say that the table can be registered on every registry that keeps the laws of
    [Pybindgen], and how its parts agree with each other. *)
From Stdlib Require Import ZArith Lia Ascii String.
From stdpp Require Import base list strings.
From S2P Require Import Prelude PyStr Pybindgen ApiTypes ApiMethods1 ApiMethods2 ApiMethods3 ApiMethods4 ApiMethods5.

Module ApiTable.
Import Pybindgen Tables.
Export ApiTypes.ApiTypes ApiMethods1.ApiMethods1 ApiMethods2.ApiMethods2 ApiMethods3.ApiMethods3.
Export ApiMethods4.ApiMethods4 ApiMethods5.ApiMethods5.

Definition module_init {R} `{Registry R} : state R := mk_state (new_module "ns.dce" "::ns3") [].

Definition register_methods : list step :=
  register "ns3::Address" register_Ns3Address_methods ++
  register "ns3::ApplicationContainer" register_Ns3ApplicationContainer_methods ++
  register "ns3::AtExitHandler" register_Ns3AtExitHandler_methods ++
  register "ns3::AttributeConstructionList" register_Ns3AttributeConstructionList_methods ++
  register "ns3::AttributeConstructionList::Item" register_Ns3AttributeConstructionListItem_methods ++
  register "ns3::Buffer" register_Ns3Buffer_methods ++
  register "ns3::Buffer::Iterator" register_Ns3BufferIterator_methods ++
  register "ns3::ByteTagIterator" register_Ns3ByteTagIterator_methods ++
  register "ns3::ByteTagIterator::Item" register_Ns3ByteTagIteratorItem_methods ++
  register "ns3::ByteTagList" register_Ns3ByteTagList_methods ++
  register "ns3::ByteTagList::Iterator" register_Ns3ByteTagListIterator_methods ++
  register "ns3::ByteTagList::Iterator::Item" register_Ns3ByteTagListIteratorItem_methods ++
  register "ns3::CallbackBase" register_Ns3CallbackBase_methods ++
  register "ns3::Condition" register_Ns3Condition_methods ++
  register "ns3::DceApplicationHelper" register_Ns3DceApplicationHelper_methods ++
  register "ns3::DefaultDeleter< ns3::AttributeAccessor >" register_Ns3DefaultDeleter__Ns3AttributeAccessor_methods ++
  register "ns3::DefaultDeleter< ns3::AttributeChecker >" register_Ns3DefaultDeleter__Ns3AttributeChecker_methods ++
  register "ns3::DefaultDeleter< ns3::AttributeValue >" register_Ns3DefaultDeleter__Ns3AttributeValue_methods ++
  register "ns3::DefaultDeleter< ns3::CallbackImplBase >" register_Ns3DefaultDeleter__Ns3CallbackImplBase_methods ++
  register "ns3::DefaultDeleter< ns3::EventImpl >" register_Ns3DefaultDeleter__Ns3EventImpl_methods ++
  register "ns3::DefaultDeleter< ns3::Hash::Implementation >" register_Ns3DefaultDeleter__Ns3HashImplementation_methods ++
  register "ns3::DefaultDeleter< ns3::NixVector >" register_Ns3DefaultDeleter__Ns3NixVector_methods ++
  register "ns3::DefaultDeleter< ns3::Packet >" register_Ns3DefaultDeleter__Ns3Packet_methods ++
  register "ns3::DefaultDeleter< ns3::TraceSourceAccessor >" register_Ns3DefaultDeleter__Ns3TraceSourceAccessor_methods ++
  register "ns3::EventId" register_Ns3EventId_methods ++
  register "ns3::FreeBSDStackHelper" register_Ns3FreeBSDStackHelper_methods ++
  register "ns3::Hasher" register_Ns3Hasher_methods ++
  register "ns3::Inet6SocketAddress" register_Ns3Inet6SocketAddress_methods ++
  register "ns3::InetSocketAddress" register_Ns3InetSocketAddress_methods ++
  register "ns3::Ipv4Address" register_Ns3Ipv4Address_methods ++
  register "ns3::Ipv4AddressHash" register_Ns3Ipv4AddressHash_methods ++
  register "ns3::Ipv4InterfaceAddress" register_Ns3Ipv4InterfaceAddress_methods ++
  register "ns3::Ipv4Mask" register_Ns3Ipv4Mask_methods ++
  register "ns3::Ipv4RoutingHelper" register_Ns3Ipv4RoutingHelper_methods ++
  register "ns3::Ipv4StaticRoutingHelper" register_Ns3Ipv4StaticRoutingHelper_methods ++
  register "ns3::Ipv6Address" register_Ns3Ipv6Address_methods ++
  register "ns3::Ipv6AddressHash" register_Ns3Ipv6AddressHash_methods ++
  register "ns3::Ipv6InterfaceAddress" register_Ns3Ipv6InterfaceAddress_methods ++
  register "ns3::Ipv6Prefix" register_Ns3Ipv6Prefix_methods ++
  register "ns3::LinuxStackHelper" register_Ns3LinuxStackHelper_methods ++
  register "ns3::Loader" register_Ns3Loader_methods ++
  register "ns3::LogComponent" register_Ns3LogComponent_methods ++
  register "ns3::Mac48Address" register_Ns3Mac48Address_methods ++
  register "ns3::Mac8Address" register_Ns3Mac8Address_methods ++
  register "ns3::Mutex" register_Ns3Mutex_methods ++
  register "ns3::NetDeviceContainer" register_Ns3NetDeviceContainer_methods ++
  register "ns3::NodeContainer" register_Ns3NodeContainer_methods ++
  register "ns3::ObjectBase" register_Ns3ObjectBase_methods ++
  register "ns3::ObjectDeleter" register_Ns3ObjectDeleter_methods ++
  register "ns3::ObjectFactory" register_Ns3ObjectFactory_methods ++
  register "ns3::PacketMetadata" register_Ns3PacketMetadata_methods ++
  register "ns3::PacketMetadata::Item" register_Ns3PacketMetadataItem_methods ++
  register "ns3::PacketMetadata::ItemIterator" register_Ns3PacketMetadataItemIterator_methods ++
  register "ns3::PacketTagIterator" register_Ns3PacketTagIterator_methods ++
  register "ns3::PacketTagIterator::Item" register_Ns3PacketTagIteratorItem_methods ++
  register "ns3::PacketTagList" register_Ns3PacketTagList_methods ++
  register "ns3::PacketTagList::TagData" register_Ns3PacketTagListTagData_methods ++
  register "ns3::ParameterLogger" register_Ns3ParameterLogger_methods ++
  register "ns3::PollTableEntry" register_Ns3PollTableEntry_methods ++
  register "ns3::PollTableEntryLinux" register_Ns3PollTableEntryLinux_methods ++
  register "ns3::ProcStatus" register_Ns3ProcStatus_methods ++
  register "ns3::Process" register_Ns3Process_methods ++
  register "ns3::ProcessActivity" register_Ns3ProcessActivity_methods ++
  register "ns3::SearchPath" register_Ns3SearchPath_methods ++
  register "ns3::Semaphore" register_Ns3Semaphore_methods ++
  register "ns3::SignalHandler" register_Ns3SignalHandler_methods ++
  register "ns3::SimpleRefCount< ns3::Object, ns3::ObjectBase, ns3::ObjectDeleter >" register_Ns3SimpleRefCount__Ns3Object_Ns3ObjectBase_Ns3ObjectDeleter_methods ++
  register "ns3::Simulator" register_Ns3Simulator_methods ++
  register "ns3::Sleeper" register_Ns3Sleeper_methods ++
  register "ns3::Tag" register_Ns3Tag_methods ++
  register "ns3::TagBuffer" register_Ns3TagBuffer_methods ++
  register "ns3::Task" register_Ns3Task_methods ++
  register "ns3::Thread" register_Ns3Thread_methods ++
  register "ns3::ThreadKeyValue" register_Ns3ThreadKeyValue_methods ++
  register "ns3::Time" register_Ns3Time_methods ++
  register "ns3::TimeWithUnit" register_Ns3TimeWithUnit_methods ++
  register "ns3::TypeId" register_Ns3TypeId_methods ++
  register "ns3::TypeId::AttributeInformation" register_Ns3TypeIdAttributeInformation_methods ++
  register "ns3::TypeId::TraceSourceInformation" register_Ns3TypeIdTraceSourceInformation_methods ++
  register "ns3::WaitPoint" register_Ns3WaitPoint_methods ++
  register "ns3::WaitQueueEntry" register_Ns3WaitQueueEntry_methods ++
  register "ns3::WaitQueueEntryPoll" register_Ns3WaitQueueEntryPoll_methods ++
  register "ns3::WaitQueueEntryTimeout" register_Ns3WaitQueueEntryTimeout_methods ++
  register "ns3::empty" register_Ns3Empty_methods ++
  register "ns3::int64x64_t" register_Ns3Int64x64_t_methods ++
  register "ns3::CcnClientHelper" register_Ns3CcnClientHelper_methods ++
  register "ns3::Chunk" register_Ns3Chunk_methods ++
  register "ns3::Header" register_Ns3Header_methods ++
  register "ns3::Ipv4DceRoutingHelper" register_Ns3Ipv4DceRoutingHelper_methods ++
  register "ns3::Ipv4Header" register_Ns3Ipv4Header_methods ++
  register "ns3::Ipv6Header" register_Ns3Ipv6Header_methods ++
  register "ns3::Object" register_Ns3Object_methods ++
  register "ns3::Object::AggregateIterator" register_Ns3ObjectAggregateIterator_methods ++
  register "ns3::PollTable" register_Ns3PollTable_methods ++
  register "ns3::ProcessDelayModel" register_Ns3ProcessDelayModel_methods ++
  register "ns3::RandomProcessDelayModel" register_Ns3RandomProcessDelayModel_methods ++
  register "ns3::RandomVariableStream" register_Ns3RandomVariableStream_methods ++
  register "ns3::SequentialRandomVariable" register_Ns3SequentialRandomVariable_methods ++
  register "ns3::SimpleRefCount< ns3::AttributeAccessor, ns3::empty, ns3::DefaultDeleter<ns3::AttributeAccessor> >" register_Ns3SimpleRefCount__Ns3AttributeAccessor_Ns3Empty_Ns3DefaultDeleter__lt__ns3AttributeAccessor__gt___methods ++
  register "ns3::SimpleRefCount< ns3::AttributeChecker, ns3::empty, ns3::DefaultDeleter<ns3::AttributeChecker> >" register_Ns3SimpleRefCount__Ns3AttributeChecker_Ns3Empty_Ns3DefaultDeleter__lt__ns3AttributeChecker__gt___methods ++
  register "ns3::SimpleRefCount< ns3::AttributeValue, ns3::empty, ns3::DefaultDeleter<ns3::AttributeValue> >" register_Ns3SimpleRefCount__Ns3AttributeValue_Ns3Empty_Ns3DefaultDeleter__lt__ns3AttributeValue__gt___methods ++
  register "ns3::SimpleRefCount< ns3::CallbackImplBase, ns3::empty, ns3::DefaultDeleter<ns3::CallbackImplBase> >" register_Ns3SimpleRefCount__Ns3CallbackImplBase_Ns3Empty_Ns3DefaultDeleter__lt__ns3CallbackImplBase__gt___methods ++
  register "ns3::SimpleRefCount< ns3::EventImpl, ns3::empty, ns3::DefaultDeleter<ns3::EventImpl> >" register_Ns3SimpleRefCount__Ns3EventImpl_Ns3Empty_Ns3DefaultDeleter__lt__ns3EventImpl__gt___methods ++
  register "ns3::SimpleRefCount< ns3::Hash::Implementation, ns3::empty, ns3::DefaultDeleter<ns3::Hash::Implementation> >" register_Ns3SimpleRefCount__Ns3HashImplementation_Ns3Empty_Ns3DefaultDeleter__lt__ns3HashImplementation__gt___methods ++
  register "ns3::SimpleRefCount< ns3::Ipv4MulticastRoute, ns3::empty, ns3::DefaultDeleter<ns3::Ipv4MulticastRoute> >" register_Ns3SimpleRefCount__Ns3Ipv4MulticastRoute_Ns3Empty_Ns3DefaultDeleter__lt__ns3Ipv4MulticastRoute__gt___methods ++
  register "ns3::SimpleRefCount< ns3::Ipv4Route, ns3::empty, ns3::DefaultDeleter<ns3::Ipv4Route> >" register_Ns3SimpleRefCount__Ns3Ipv4Route_Ns3Empty_Ns3DefaultDeleter__lt__ns3Ipv4Route__gt___methods ++
  register "ns3::SimpleRefCount< ns3::NixVector, ns3::empty, ns3::DefaultDeleter<ns3::NixVector> >" register_Ns3SimpleRefCount__Ns3NixVector_Ns3Empty_Ns3DefaultDeleter__lt__ns3NixVector__gt___methods ++
  register "ns3::SimpleRefCount< ns3::OutputStreamWrapper, ns3::empty, ns3::DefaultDeleter<ns3::OutputStreamWrapper> >" register_Ns3SimpleRefCount__Ns3OutputStreamWrapper_Ns3Empty_Ns3DefaultDeleter__lt__ns3OutputStreamWrapper__gt___methods ++
  register "ns3::SimpleRefCount< ns3::Packet, ns3::empty, ns3::DefaultDeleter<ns3::Packet> >" register_Ns3SimpleRefCount__Ns3Packet_Ns3Empty_Ns3DefaultDeleter__lt__ns3Packet__gt___methods ++
  register "ns3::SimpleRefCount< ns3::TraceSourceAccessor, ns3::empty, ns3::DefaultDeleter<ns3::TraceSourceAccessor> >" register_Ns3SimpleRefCount__Ns3TraceSourceAccessor_Ns3Empty_Ns3DefaultDeleter__lt__ns3TraceSourceAccessor__gt___methods ++
  register "ns3::Socket" register_Ns3Socket_methods ++
  register "ns3::SocketFactory" register_Ns3SocketFactory_methods ++
  register "ns3::SocketFdFactory" register_Ns3SocketFdFactory_methods ++
  register "ns3::SocketIpTosTag" register_Ns3SocketIpTosTag_methods ++
  register "ns3::SocketIpTtlTag" register_Ns3SocketIpTtlTag_methods ++
  register "ns3::SocketIpv6HopLimitTag" register_Ns3SocketIpv6HopLimitTag_methods ++
  register "ns3::SocketIpv6TclassTag" register_Ns3SocketIpv6TclassTag_methods ++
  register "ns3::SocketPriorityTag" register_Ns3SocketPriorityTag_methods ++
  register "ns3::SocketSetDontFragmentTag" register_Ns3SocketSetDontFragmentTag_methods ++
  register "ns3::TaskManager" register_Ns3TaskManager_methods ++
  register "ns3::TaskScheduler" register_Ns3TaskScheduler_methods ++
  register "ns3::TimeOfDayProcessDelayModel" register_Ns3TimeOfDayProcessDelayModel_methods ++
  register "ns3::TraceSourceAccessor" register_Ns3TraceSourceAccessor_methods ++
  register "ns3::Trailer" register_Ns3Trailer_methods ++
  register "ns3::TriangularRandomVariable" register_Ns3TriangularRandomVariable_methods ++
  register "ns3::UniformRandomVariable" register_Ns3UniformRandomVariable_methods ++
  register "ns3::UnixFd" register_Ns3UnixFd_methods ++
  register "ns3::WeibullRandomVariable" register_Ns3WeibullRandomVariable_methods ++
  register "ns3::ZetaRandomVariable" register_Ns3ZetaRandomVariable_methods ++
  register "ns3::ZipfRandomVariable" register_Ns3ZipfRandomVariable_methods ++
  register "ns3::Application" register_Ns3Application_methods ++
  register "ns3::AttributeAccessor" register_Ns3AttributeAccessor_methods ++
  register "ns3::AttributeChecker" register_Ns3AttributeChecker_methods ++
  register "ns3::AttributeValue" register_Ns3AttributeValue_methods ++
  register "ns3::CallbackChecker" register_Ns3CallbackChecker_methods ++
  register "ns3::CallbackImplBase" register_Ns3CallbackImplBase_methods ++
  register "ns3::CallbackValue" register_Ns3CallbackValue_methods ++
  register "ns3::ConstantRandomVariable" register_Ns3ConstantRandomVariable_methods ++
  register "ns3::DceApplication" register_Ns3DceApplication_methods ++
  register "ns3::DceManager" register_Ns3DceManager_methods ++
  register "ns3::DceManagerHelper" register_Ns3DceManagerHelper_methods ++
  register "ns3::DeterministicRandomVariable" register_Ns3DeterministicRandomVariable_methods ++
  register "ns3::EmpiricalRandomVariable" register_Ns3EmpiricalRandomVariable_methods ++
  register "ns3::EmptyAttributeAccessor" register_Ns3EmptyAttributeAccessor_methods ++
  register "ns3::EmptyAttributeChecker" register_Ns3EmptyAttributeChecker_methods ++
  register "ns3::EmptyAttributeValue" register_Ns3EmptyAttributeValue_methods ++
  register "ns3::ErlangRandomVariable" register_Ns3ErlangRandomVariable_methods ++
  register "ns3::EventImpl" register_Ns3EventImpl_methods ++
  register "ns3::ExponentialRandomVariable" register_Ns3ExponentialRandomVariable_methods ++
  register "ns3::GammaRandomVariable" register_Ns3GammaRandomVariable_methods ++
  register "ns3::IpL4Protocol" register_Ns3IpL4Protocol_methods ++
  register "ns3::Ipv4" register_Ns3Ipv4_methods ++
  register "ns3::Ipv4AddressChecker" register_Ns3Ipv4AddressChecker_methods ++
  register "ns3::Ipv4AddressValue" register_Ns3Ipv4AddressValue_methods ++
  register "ns3::Ipv4FreeBSD" register_Ns3Ipv4FreeBSD_methods ++
  register "ns3::Ipv4Linux" register_Ns3Ipv4Linux_methods ++
  register "ns3::Ipv4MaskChecker" register_Ns3Ipv4MaskChecker_methods ++
  register "ns3::Ipv4MaskValue" register_Ns3Ipv4MaskValue_methods ++
  register "ns3::Ipv4MulticastRoute" register_Ns3Ipv4MulticastRoute_methods ++
  register "ns3::Ipv4Route" register_Ns3Ipv4Route_methods ++
  register "ns3::Ipv4RoutingProtocol" register_Ns3Ipv4RoutingProtocol_methods ++
  register "ns3::Ipv4StaticRouting" register_Ns3Ipv4StaticRouting_methods ++
  register "ns3::Ipv6" register_Ns3Ipv6_methods ++
  register "ns3::Ipv6AddressChecker" register_Ns3Ipv6AddressChecker_methods ++
  register "ns3::Ipv6AddressValue" register_Ns3Ipv6AddressValue_methods ++
  register "ns3::Ipv6Interface" register_Ns3Ipv6Interface_methods ++
  register "ns3::Ipv6Linux" register_Ns3Ipv6Linux_methods ++
  register "ns3::Ipv6PmtuCache" register_Ns3Ipv6PmtuCache_methods ++
  register "ns3::Ipv6PrefixChecker" register_Ns3Ipv6PrefixChecker_methods ++
  register "ns3::Ipv6PrefixValue" register_Ns3Ipv6PrefixValue_methods ++
  register "ns3::Ipv6RoutingProtocol" register_Ns3Ipv6RoutingProtocol_methods ++
  register "ns3::KernelSocketFdFactory" register_Ns3KernelSocketFdFactory_methods ++
  register "ns3::LinuxDccp6SocketFactory" register_Ns3LinuxDccp6SocketFactory_methods ++
  register "ns3::LinuxDccpSocketFactory" register_Ns3LinuxDccpSocketFactory_methods ++
  register "ns3::LinuxIpv4RawSocketFactory" register_Ns3LinuxIpv4RawSocketFactory_methods ++
  register "ns3::LinuxIpv6RawSocketFactory" register_Ns3LinuxIpv6RawSocketFactory_methods ++
  register "ns3::LinuxSctp6SocketFactory" register_Ns3LinuxSctp6SocketFactory_methods ++
  register "ns3::LinuxSctpSocketFactory" register_Ns3LinuxSctpSocketFactory_methods ++
  register "ns3::LinuxSocketFdFactory" register_Ns3LinuxSocketFdFactory_methods ++
  register "ns3::LinuxSocketImpl" register_Ns3LinuxSocketImpl_methods ++
  register "ns3::LinuxTcp6SocketFactory" register_Ns3LinuxTcp6SocketFactory_methods ++
  register "ns3::LinuxTcpSocketFactory" register_Ns3LinuxTcpSocketFactory_methods ++
  register "ns3::LinuxUdp6SocketFactory" register_Ns3LinuxUdp6SocketFactory_methods ++
  register "ns3::LinuxUdpSocketFactory" register_Ns3LinuxUdpSocketFactory_methods ++
  register "ns3::LoaderFactory" register_Ns3LoaderFactory_methods ++
  register "ns3::LogNormalRandomVariable" register_Ns3LogNormalRandomVariable_methods ++
  register "ns3::Mac48AddressChecker" register_Ns3Mac48AddressChecker_methods ++
  register "ns3::Mac48AddressValue" register_Ns3Mac48AddressValue_methods ++
  register "ns3::NetDevice" register_Ns3NetDevice_methods ++
  register "ns3::NixVector" register_Ns3NixVector_methods ++
  register "ns3::Node" register_Ns3Node_methods ++
  register "ns3::NormalRandomVariable" register_Ns3NormalRandomVariable_methods ++
  register "ns3::ObjectFactoryChecker" register_Ns3ObjectFactoryChecker_methods ++
  register "ns3::ObjectFactoryValue" register_Ns3ObjectFactoryValue_methods ++
  register "ns3::OutputStreamWrapper" register_Ns3OutputStreamWrapper_methods ++
  register "ns3::Packet" register_Ns3Packet_methods ++
  register "ns3::ParetoRandomVariable" register_Ns3ParetoRandomVariable_methods ++
  register "ns3::TimeValue" register_Ns3TimeValue_methods ++
  register "ns3::TypeIdChecker" register_Ns3TypeIdChecker_methods ++
  register "ns3::TypeIdValue" register_Ns3TypeIdValue_methods ++
  register "ns3::AddressChecker" register_Ns3AddressChecker_methods ++
  register "ns3::AddressValue" register_Ns3AddressValue_methods ++
  register "ns3::CallbackImpl< bool, ns3::Ptr<ns3::Socket>, const ns3::Address &, ns3::empty, ns3::empty, ns3::empty, ns3::empty, ns3::empty, ns3::empty, ns3::empty >" register_Ns3CallbackImpl__Bool_Ns3Ptr__lt__ns3Socket__gt___Const_ns3Address___amp___Ns3Empty_Ns3Empty_Ns3Empty_Ns3Empty_Ns3Empty_Ns3Empty_Ns3Empty_methods ++
  register "ns3::CallbackImpl< int, const ns3::Address &, sockaddr *, unsigned int *, ns3::empty, ns3::empty, ns3::empty, ns3::empty, ns3::empty, ns3::empty >" register_Ns3CallbackImpl__Int_Const_ns3Address___amp___Sockaddr___star___Unsigned_int___star___Ns3Empty_Ns3Empty_Ns3Empty_Ns3Empty_Ns3Empty_Ns3Empty_methods ++
  register "ns3::CallbackImpl< ns3::Address, const sockaddr *, unsigned int, ns3::empty, ns3::empty, ns3::empty, ns3::empty, ns3::empty, ns3::empty, ns3::empty >" register_Ns3CallbackImpl__Ns3Address_Const_sockaddr___star___Unsigned_int_Ns3Empty_Ns3Empty_Ns3Empty_Ns3Empty_Ns3Empty_Ns3Empty_Ns3Empty_methods ++
  register "ns3::CallbackImpl< ns3::ObjectBase *, ns3::empty, ns3::empty, ns3::empty, ns3::empty, ns3::empty, ns3::empty, ns3::empty, ns3::empty, ns3::empty >" register_Ns3CallbackImpl__Ns3ObjectBase___star___Ns3Empty_Ns3Empty_Ns3Empty_Ns3Empty_Ns3Empty_Ns3Empty_Ns3Empty_Ns3Empty_Ns3Empty_methods ++
  register "ns3::CallbackImpl< void, ns3::Ptr<ns3::NetDevice>, ns3::Ptr<const ns3::Packet>, unsigned short, const ns3::Address &, const ns3::Address &, ns3::NetDevice::PacketType, ns3::empty, ns3::empty, ns3::empty >" register_Ns3CallbackImpl__Void_Ns3Ptr__lt__ns3NetDevice__gt___Ns3Ptr__lt__const_ns3Packet__gt___methods ++
  register "ns3::CallbackImpl< void, ns3::Ptr<ns3::NetDevice>, ns3::empty, ns3::empty, ns3::empty, ns3::empty, ns3::empty, ns3::empty, ns3::empty, ns3::empty >" register_Ns3CallbackImpl__Void_Ns3Ptr__lt__ns3NetDevice__gt___Ns3Empty_Ns3Empty_Ns3Empty_Ns3Empty_Ns3Empty_Ns3Empty_Ns3Empty_Ns3Empty_methods ++
  register "ns3::CallbackImpl< void, ns3::Ptr<ns3::Socket>, const ns3::Address &, ns3::empty, ns3::empty, ns3::empty, ns3::empty, ns3::empty, ns3::empty, ns3::empty >" register_Ns3CallbackImpl__Void_Ns3Ptr__lt__ns3Socket__gt___Const_ns3Address___amp___Ns3Empty_Ns3Empty_Ns3Empty_Ns3Empty_Ns3Empty_Ns3Empty_Ns3Empty_methods ++
  register "ns3::CallbackImpl< void, ns3::Ptr<ns3::Socket>, ns3::empty, ns3::empty, ns3::empty, ns3::empty, ns3::empty, ns3::empty, ns3::empty, ns3::empty >" register_Ns3CallbackImpl__Void_Ns3Ptr__lt__ns3Socket__gt___Ns3Empty_Ns3Empty_Ns3Empty_Ns3Empty_Ns3Empty_Ns3Empty_Ns3Empty_Ns3Empty_methods ++
  register "ns3::CallbackImpl< void, ns3::Ptr<ns3::Socket>, unsigned int, ns3::empty, ns3::empty, ns3::empty, ns3::empty, ns3::empty, ns3::empty, ns3::empty >" register_Ns3CallbackImpl__Void_Ns3Ptr__lt__ns3Socket__gt___Unsigned_int_Ns3Empty_Ns3Empty_Ns3Empty_Ns3Empty_Ns3Empty_Ns3Empty_Ns3Empty_methods ++
  register "ns3::CallbackImpl< void, ns3::empty, ns3::empty, ns3::empty, ns3::empty, ns3::empty, ns3::empty, ns3::empty, ns3::empty, ns3::empty >" register_Ns3CallbackImpl__Void_Ns3Empty_Ns3Empty_Ns3Empty_Ns3Empty_Ns3Empty_Ns3Empty_Ns3Empty_Ns3Empty_Ns3Empty_methods ++
  register "ns3::CallbackImpl< void, unsigned short, int, ns3::empty, ns3::empty, ns3::empty, ns3::empty, ns3::empty, ns3::empty, ns3::empty >" register_Ns3CallbackImpl__Void_Unsigned_short_Int_Ns3Empty_Ns3Empty_Ns3Empty_Ns3Empty_Ns3Empty_Ns3Empty_Ns3Empty_methods ++
  register "ns3::CallbackImpl< void, unsigned short, ns3::empty, ns3::empty, ns3::empty, ns3::empty, ns3::empty, ns3::empty, ns3::empty, ns3::empty >" register_Ns3CallbackImpl__Void_Unsigned_short_Ns3Empty_Ns3Empty_Ns3Empty_Ns3Empty_Ns3Empty_Ns3Empty_Ns3Empty_Ns3Empty_methods ++
  register "ns3::CallbackImpl< void, void *, ns3::empty, ns3::empty, ns3::empty, ns3::empty, ns3::empty, ns3::empty, ns3::empty, ns3::empty >" register_Ns3CallbackImpl__Void_Void___star___Ns3Empty_Ns3Empty_Ns3Empty_Ns3Empty_Ns3Empty_Ns3Empty_Ns3Empty_Ns3Empty_methods ++
  register "ns3::FreeBSDSocketFdFactory" register_Ns3FreeBSDSocketFdFactory_methods ++
  register "ns3::Ipv4DceRouting" register_Ns3Ipv4DceRouting_methods ++
  register "ns3::Ipv4ListRouting" register_Ns3Ipv4ListRouting_methods ++
  register "ns3::Hash::Implementation" register_Ns3HashImplementation_methods ++
  register "ns3::Hash::Function::Fnv1a" register_Ns3HashFunctionFnv1a_methods ++
  register "ns3::Hash::Function::Hash32" register_Ns3HashFunctionHash32_methods ++
  register "ns3::Hash::Function::Hash64" register_Ns3HashFunctionHash64_methods ++
  register "ns3::Hash::Function::Murmur3" register_Ns3HashFunctionMurmur3_methods.
Definition register_functions_ns3_FatalImpl (module : path) : list call := [].
Definition register_functions_ns3_Hash_Function (module : path) : list call := [].
Definition register_functions_ns3_Hash (module : path) : list call := 
  (AddCppNamespace module "Function" :: register_functions_ns3_Hash_Function (module ++ ["Function"])).
Definition register_functions_ns3_TracedValueCallback (module : path) : list call := [].
Definition register_functions (module : path) : list call := [
  AddFunction module "CanonizePath" "bool" [param "std::string" "path";
    param "bool" "ChRootProtected"; param "std::ostringstream &" "result"];
  AddFunction module "CheckExeMode" "bool" [param "stat *" "st"; param "uid_t" "uid";
    param "gid_t" "gid"];
  AddFunction module "CheckFdExists" "bool" [param "ns3::Process * const" "p";
    param "int const" "fd"; param "bool const" "opened"];
  AddFunction module "CheckFileExe" "bool" [param "std::string" "file"; param "void *" "userData"];
  AddFunction module "CheckShellScript" "bool" [param "std::string" "fileName";
    param "std::ostringstream &" "shellName"; param "std::ostringstream &" "optionalArg"];
  AddFunction module "Current" "ns3::Thread *" [];
  AddFunction module "FdDecUsage" "void" [param "int" "fd"];
  AddFunction module "FindExecFile" "std::string" [param "std::string" "root";
    param "std::string" "envPath"; param "std::string" "fileName"; param "uid_t" "uid";
    param "gid_t" "gid"; param "int *" "errNo"];
  AddFunction module "GetTimeStamp" "std::string" [];
  AddFunction module "HasPendingSignal" "bool" [];
  AddFunction module "PathOfFd" "std::string" [param "int" "fd"];
  AddFunction module "SearchExecFile" "std::string" [param "std::string" "file";
    param "std::string" "vpath"; param "uid_t" "uid"; param "gid_t" "gid"; param "int *" "errNo"];
  AddFunction module "SearchExecFile" "std::string" [param "std::string" "env";
    param "std::string" "file"; param "int *" "errNo"];
  AddFunction module "SearchExecFile" "std::string" [param "std::string" "file";
    param "uid_t" "uid"; param "gid_t" "gid"; param "int *" "errNo"];
  AddFunction module "SearchFile" "std::string" [param "std::string" "file";
    param "std::string" "vroot"; param "std::string" "vpath"; param "std::string" "dcepath";
    param "std::string" "cwd"; param "std::string" "altRoots"; param "void *" "userData";
    param "bool ( * ) ( std::string, void * )" "checker"];
  AddFunction module "SearchFile" "std::string" [param "std::string" "file";
    param "std::string" "vroot"; param "std::string" "cwd"; param "std::string" "altRoots";
    param "void *" "userData"; param "bool ( * ) ( std::string, void * )" "checker"];
  AddFunction module "Split" "std::list< std::string >" [param "std::string" "input";
    param "std::string" "sep"];
  AddFunction module "UtilsAdvanceTime" "void" [param "ns3::Thread *" "current"];
  AddFunction module "UtilsAllocateFd" "int" [];
  AddFunction module "UtilsDoSignal" "void" [];
  AddFunction module "UtilsEnsureAllDirectoriesExist" "void" [param "std::string" "realPath"];
  AddFunction module "UtilsEnsureDirectoryExists" "void" [param "std::string" "realPath"];
  AddFunction module "UtilsGenerateIfNameFromIndex" "std::string" [param "uint32_t" "i"];
  AddFunction module "UtilsGetAbsRealFilePath" "std::string" [param "uint32_t" "node";
    param "std::string" "path"];
  AddFunction module "UtilsGetCurrentDirName" "std::string" [];
  AddFunction module "UtilsGetNodeId" "uint32_t" [];
  AddFunction module "UtilsGetRealFilePath" "std::string" [param "std::string" "path"];
  AddFunction module "UtilsGetVirtualFilePath" "std::string" [param "std::string" "path"];
  AddFunction module "UtilsSendSignal" "void" [param "ns3::Process *" "process";
    param "int" "signum"];
  AddFunction module "UtilsSimulationTimeToTime" "ns3::Time" [param "ns3::Time" "time"];
  AddFunction module "UtilsTimeToSimulationTime" "ns3::Time" [param "ns3::Time" "time"];
  AddFunction module "UtilsTimeToTimespec" "timespec" [param "ns3::Time" "time"];
  AddFunction module "UtilsTimeToTimeval" "timeval" [param "ns3::Time" "time"];
  AddFunction module "UtilsTimespecToTime" "ns3::Time" [param "timespec" "tm"];
  AddFunction module "UtilsTimevalToTime" "ns3::Time" [param "timeval" "tv"];
  AddFunction module "UtilsTimevalToTime" "ns3::Time" [param "timeval const *" "tv"];
  AddFunction module "getRealFd" "int" [param "int" "fd"; param "ns3::Thread *" "current"];
  AddFunction module "seek_env" "char *" [param "char const *" "name"; param "char * *" "array"]] ++
  (AddCppNamespace module "FatalImpl" :: register_functions_ns3_FatalImpl (module ++ ["FatalImpl"])) ++
  (AddCppNamespace module "Hash" :: register_functions_ns3_Hash (module ++ ["Hash"])) ++
  (AddCppNamespace module "TracedValueCallback" :: register_functions_ns3_TracedValueCallback (module ++ ["TracedValueCallback"])).

(** what [main] does with the module that [module_init] makes *)
Definition table : list step :=
  (Do <$> register_types []) ++ register_methods ++ (Do <$> register_functions []) ++ [Do Generate].
Definition main {R} `{Registry R} : result unit * state R := run table module_init.

(** the full names of the classes of the table, in order *)
Definition class_list : list string := names "::ns3" table.
(** the classes that methods are registered for *)
Definition classes_with_methods : list string :=
  register_methods ≫= λ st, match st with Use k => [k] | Do _ => [] end.
End ApiTable.

(** ** Facts *)
Module ApiTableFacts.
Import Pybindgen Tables PybindgenFacts ApiTable.

#[local] Abbreviation ns := "::ns3".

(** *** The order of the registration *)
Lemma table_looked_up : placed looked_up ns [] table = true.
Proof. by vm_compute. Qed.
Lemma table_placed : placed needed ns [] table = true.
Proof. by vm_compute. Qed.
Lemma table_generate : ∃ l, calls_made table = l ++ [Generate] ∧ Generate ∉ l.
Proof.
  exists (removelast (calls_made table)). split; [by vm_compute|].
  apply (bool_decide_eq_true (Generate ∉ removelast (calls_made table))). by vm_compute.
Qed.
Lemma class_list_NoDup : NoDup class_list.
Proof. apply (bool_decide_unpack _). vm_compute. exact I. Qed.

Section registration.
  Context {R : Type} `{RegistryLaws R}.

Lemma main_table : ∃ s : state R, main = (Ok (), s) ∧ calls s = calls_made table ∧
  knows s class_list.
Proof.
  destruct (run_placed table (module_init (R:=R)) []) as (s & Hr & Hc & _ & Hk).
  - intros k Hin. by apply elem_of_nil in Hin.
  - cbn [module_init registry]. rewrite namespace_new. exact table_looked_up.
  - exists s. split; [exact Hr|]. split; [exact Hc|]. intros k Hin. apply Hk. rewrite app_nil_r.
    cbn [module_init registry]. rewrite namespace_new. exact Hin.
Qed.

(** C32. The table can be registered: on every registry that keeps the laws, [main] runs to its end
    and makes the calls of the table in order.  Every class that is extended, contains another, is
    converted or gets a member was added by an earlier call, all 223 classes are known at the end,
    and the code is generated once, by the last call. *)
Theorem table_registered :
  ∃ s : state R, main = (Ok (), s) ∧ calls s = calls_made table ∧
    (∀ i st k, table !! i = Some st → k ∈ needed st → added_before ns table i k) ∧
    length class_list = 223%nat ∧ (∀ k, k ∈ class_list → has_class (registry s) k = true) ∧
    ∃ l, calls s = l ++ [Generate] ∧ Generate ∉ l.
Proof.
  destruct main_table as (s & Hs & Hc & Hk). exists s. rewrite Hc.
  split; [exact Hs|]. split; [reflexivity|]. split; [|split; [by vm_compute|split; [exact Hk|exact table_generate]]].
  intros i st k Hi Hin.
  destruct (placed_before needed ns [] table i st k table_placed Hi Hin) as [Hn|Hb]; [|exact Hb].
  destruct (proj1 (elem_of_nil _) Hn).
Qed.
End registration.

(** *** The classes *)

(** C34. The classes of the table form a hierarchy: no full name is added twice, a chain of parents
    always ends, and the registered methods fit the classes one to one: every class that is added is
    given its methods by just one function, and no other name is. *)
Theorem class_hierarchy :
  NoDup class_list ∧ well_founded (λ p a, extends ns table a p) ∧
  Permutation classes_with_methods class_list.
Proof.
  split; [exact class_list_NoDup|].
  split; [exact (extends_well_founded ns table table_looked_up class_list_NoDup)|].
  apply NoDup_Permutation; [apply (bool_decide_unpack _); vm_compute; exact I|exact class_list_NoDup|].
  assert (H : forallb (λ k, mem k class_list) classes_with_methods &&
              forallb (λ k, mem k classes_with_methods) class_list = true) by by vm_compute.
  apply andb_true_iff in H as [H1 H2]. rewrite forallb_forall in H1, H2.
  intros k. split; intros Hk%list_elem_of_In; apply LeastRegistry.mem_spec; auto.
Qed.
End ApiTableFacts.

(** ** The laws hold of the least registry *)
Module ApiTableExamples.
Import Pybindgen Tables LeastRegistry PybindgenFacts ApiTable ApiTableFacts.

Example number_of_calls : length (calls_made table) = 2845%nat.
Proof. by vm_compute. Qed.

Lemma table_registered_witness :
  ∃ s : state least, main = (Ok (), s) ∧
    has_class (registry s) "ns3::SimpleRefCount< ns3::Object, ns3::ObjectBase, ns3::ObjectDeleter >" = true ∧
    ∃ l, calls s = l ++ [Generate] ∧ Generate ∉ l.
Proof.
  destruct (table_registered (R:=least)) as (s & Hs & _ & _ & _ & Hk & Hg).
  exists s. split; [exact Hs|]. split; [|exact Hg].
  apply Hk, mem_spec. vm_compute. reflexivity.
Defined.
End ApiTableExamples.
