(* ===== verification/ApiCheck.v ===== *)
(** * What the parts of the table of the bindings have to do with each other

    [CallbacksList] is bindings/callbacks_list.py.  The theorems compare the table of [ApiTable] with
    the list of callbacks and with the classes that the customizations take out of the module; they
    say which types of the wrappers are known and that the overloads of a method can be told apart. *)
From Stdlib Require Import ZArith Lia Ascii String.
From stdpp Require Import base list strings.
From S2P Require Import Prelude PyStr Customizations Pybindgen DceModule ApiTable.

Module CallbacksList.
Definition callback_classes : list (list string) :=
  [["ns3::ObjectBase *"; "ns3::empty"; "ns3::empty"; "ns3::empty"; "ns3::empty"; "ns3::empty";
    "ns3::empty"; "ns3::empty"; "ns3::empty"; "ns3::empty"];
   ["void"; "ns3::empty"; "ns3::empty"; "ns3::empty"; "ns3::empty"; "ns3::empty"; "ns3::empty";
    "ns3::empty"; "ns3::empty"; "ns3::empty"];
   ["void"; "unsigned short"; "int"; "ns3::empty"; "ns3::empty"; "ns3::empty"; "ns3::empty";
    "ns3::empty"; "ns3::empty"; "ns3::empty"];
   ["void"; "ns3::Ptr<ns3::NetDevice>"; "ns3::Ptr<const ns3::Packet>"; "unsigned short";
    "const ns3::Address &"; "const ns3::Address &"; "ns3::NetDevice::PacketType"; "ns3::empty";
    "ns3::empty"; "ns3::empty"];
   ["void"; "ns3::Ptr<ns3::NetDevice>"; "ns3::empty"; "ns3::empty"; "ns3::empty"; "ns3::empty";
    "ns3::empty"; "ns3::empty"; "ns3::empty"; "ns3::empty"];
   ["void"; "unsigned short"; "ns3::empty"; "ns3::empty"; "ns3::empty"; "ns3::empty";
    "ns3::empty"; "ns3::empty"; "ns3::empty"; "ns3::empty"];
   ["void"; "ns3::Ptr<ns3::Socket>"; "ns3::empty"; "ns3::empty"; "ns3::empty"; "ns3::empty";
    "ns3::empty"; "ns3::empty"; "ns3::empty"; "ns3::empty"];
   ["bool"; "ns3::Ptr<ns3::Socket>"; "const ns3::Address &"; "ns3::empty"; "ns3::empty";
    "ns3::empty"; "ns3::empty"; "ns3::empty"; "ns3::empty"; "ns3::empty"];
   ["void"; "ns3::Ptr<ns3::Socket>"; "const ns3::Address &"; "ns3::empty"; "ns3::empty";
    "ns3::empty"; "ns3::empty"; "ns3::empty"; "ns3::empty"; "ns3::empty"];
   ["void"; "ns3::Ptr<ns3::Socket>"; "unsigned int"; "ns3::empty"; "ns3::empty"; "ns3::empty";
    "ns3::empty"; "ns3::empty"; "ns3::empty"; "ns3::empty"];
   ["void"; "void *"; "ns3::empty"; "ns3::empty"; "ns3::empty"; "ns3::empty"; "ns3::empty";
    "ns3::empty"; "ns3::empty"; "ns3::empty"];
   ["int"; "const ns3::Address &"; "sockaddr *"; "unsigned int *"; "ns3::empty"; "ns3::empty";
    "ns3::empty"; "ns3::empty"; "ns3::empty"; "ns3::empty"];
   ["ns3::Address"; "const sockaddr *"; "unsigned int"; "ns3::empty"; "ns3::empty";
    "ns3::empty"; "ns3::empty"; "ns3::empty"; "ns3::empty"; "ns3::empty"]].
End CallbacksList.

Module ApiCheck.
Import Pybindgen Tables ApiTable ApiTableFacts CallbacksList.
#[local] Abbreviation ns := "::ns3".

(** the calls of the whole table *)
Definition table_calls : list call := calls_made table.

(** *** Callbacks *)

(** the template arguments of the implementations of callbacks that the table wraps *)
Definition callback_impl (c : call) : option (list string) :=
  match c with
  | AddClass _ name kw =>
      if (name =? "CallbackImpl")%string
      then match kw_get "template_parameters" kw with Some (VList ts) => Some ts | _ => None end
      else None
  | _ => None
  end.
Definition callback_impls : list (list string) := omap callback_impl table_calls.

(** *** Types *)

(** the beginnings of the full names of templates *)
Definition template_head (k : string) : bool := existsb (λ n, startswith n (k +:+ "<")) class_list.
(** the classes of ns-3 that are named in the table and never registered *)
Definition unknown_classes : list string :=
  ["ns3::FileUsage"; "ns3::SimulatorImpl"; "ns3::Waiter"; "ns3::RngStream";
   "ns3::Ipv4RoutingTableEntry"; "ns3::Ipv4MulticastRoutingTableEntry"; "ns3::NdiscCache";
   "ns3::Ipv6Route"; "ns3::KernelSocketFd"; "ns3::Channel"; "ns3::Mac16Address";
   "ns3::Mac64Address"; "ns3::Ipv4Interface"; "ns3::TrafficControlLayer";
   "ns3::Ipv6MulticastRoute"].
Definition known_name (k : string) : bool :=
  mem k class_list || template_head k || mem k (alias_names table_calls) ||
  mem k (enum_names ns table_calls) || (k =? "ns3::Callback")%string.
Definition call_names (c : call) : list string := types_of c ≫= class_names.

(** *** Overloads *)

(** what tells wrappers apart: the name (empty for a constructor), the types of the parameters,
    whether it is const, with the arguments of a template, and the class *)
Definition signature : Type := string * list string * list (option value) * string.
Definition overload (kw : kwargs) : list (option value) :=
  [kw_get "is_const" kw; kw_get "template_parameters" kw].
Definition signature_of (c : call) : option signature :=
  match c with
  | AddConstructor k ps kw => Some (EmptyString, p_type <$> ps, [], k)
  | AddMethod k name _ ps kw => Some (name, p_type <$> ps, overload kw, k)
  | _ => None
  end.
(** the one class that has its constructors twice *)
Definition repeated_class : string := "ns3::AtExitHandler".
Definition other_signatures (l : list call) : list signature :=
  omap (λ c, match receiver c with
             | Some k => if (k =? repeated_class)%string then None else signature_of c
             | None => None
             end) l.

(** *** The classes of the kernel stack *)

(** the classes that the customizations take out of the module *)
Definition removed_names : list string := (λ n, "ns3::" +:+ n) <$> Custom.remove_classes.
(** the position of a class in the list of the classes of the module *)
Definition index_of (l : list string) (k : string) : option nat := fst <$> list_find (λ x, x = k) l.
(** the classes that stay, by their positions *)
Definition kept_classes (kernel_stack : bool) (l : list string) : list nat :=
  Custom.post_register_types kernel_stack (index_of l) (seq 0 (length l)).
(** the names a call of the table depends on *)
Definition depends_on (c : call) : list string := lookups c ++ call_names c.
(** the class that a call adds or gives a member *)
Definition owner (c : call) : option string :=
  match c with AddClass m name kw => Some (full_name ns m name kw) | _ => receiver c end.
End ApiCheck.

(** ** Facts *)
Module ApiCheckFacts.
Import Pybindgen Tables PybindgenFacts ApiTable ApiTableFacts CallbacksList ApiCheck.
#[local] Abbreviation ns := "::ns3".

(** The list of callbacks fits the table: it has no callback twice, and it has just the ones for
    which the table wraps an implementation, the base of the class that is generated for it. *)
Theorem callbacks_fit_table :
  NoDup callback_classes ∧ Forall (λ ts, length ts = 10%nat) callback_classes ∧
  ∀ ts, ts ∈ callback_classes ↔
    ∃ m kw, AddClass m "CallbackImpl" kw ∈ table_calls ∧
            kw_get "template_parameters" kw = Some (VList ts).
Proof.
  split; [apply (bool_decide_unpack _); vm_compute; exact I|].
  split; [apply (bool_decide_unpack _); vm_compute; exact I|].
  assert (H : forallb (λ ts, bool_decide (ts ∈ callback_impls)) callback_classes &&
              forallb (λ ts, bool_decide (ts ∈ callback_classes)) callback_impls = true) by by vm_compute.
  apply andb_true_iff in H as [H1 H2]. rewrite forallb_forall in H1, H2. intros ts. split.
  - intros Hts%list_elem_of_In%H1%bool_decide_eq_true. unfold callback_impls in Hts.
    apply list_elem_of_omap in Hts as (c & Hc & E). destruct c; try discriminate. cbn in E.
    destruct (String.eqb_spec name "CallbackImpl") as [->|]; [|discriminate].
    exists module, kw. split; [exact Hc|].
    destruct (kw_get _ kw) as [[]|]; try discriminate. congruence.
  - intros (m & kw & Hin & E). apply (bool_decide_eq_true (ts ∈ callback_classes)), H2, list_elem_of_In.
    unfold callback_impls. apply list_elem_of_omap. exists (AddClass m "CallbackImpl" kw).
    split; [exact Hin|]. cbn. by rewrite E.
Qed.

(** *** Types *)
Lemma known_names : forallb (λ c, forallb (λ k, known_name k || mem k unknown_classes) (call_names c))
  table_calls = true.
Proof. vm_cast_no_check (eq_refl true). Qed.
Lemma known_name_cases k : known_name k = true →
  k ∈ class_list ∨ (∃ n, n ∈ class_list ∧ startswith n (k +:+ "<") = true) ∨
  k ∈ alias_names table_calls ∨ k ∈ enum_names ns table_calls ∨ k = "ns3::Callback".
Proof.
  unfold known_name. rewrite !orb_true_iff, !LeastRegistry.mem_spec, String.eqb_eq.
  unfold template_head. rewrite existsb_exists. setoid_rewrite <- list_elem_of_In. tauto.
Qed.

Section registration.
  Context {R : Type} `{RegistryLaws R}.

(** C35. Every name of ns-3 in the type of a wrapper is known when the code is generated: the registry
    knows the class, or it begins the name of a template the registry knows, or it is an alias, an
    enumeration or the type of callbacks, which the customizations handle.  The exceptions are
    fifteen classes, which the registration never adds. *)
Theorem table_types_known (c : call) (t k : string)
    (Hc : c ∈ calls (main (R:=R)).2) (Ht : t ∈ types_of c) (Hk : k ∈ class_names t) :
  let s := (main (R:=R)).2 in
  has_class (registry s) k = true ∨
  (∃ n, has_class (registry s) n = true ∧ startswith n (k +:+ "<") = true) ∨
  k ∈ alias_names (calls s) ∨ k ∈ enum_names ns (calls s) ∨ k = "ns3::Callback" ∨
  (k ∈ unknown_classes ∧ k ∉ class_list).
Proof.
  destruct main_table as (s & Hs & Hcs & Hks). cbv zeta. rewrite Hs in Hc |- *. cbn [snd] in Hc |- *.
  rewrite Hcs in Hc |- *.
  pose proof known_names as H1. rewrite forallb_forall in H1.
  specialize (H1 c (proj1 (list_elem_of_In _ _) Hc)). rewrite forallb_forall in H1.
  assert (Hin : k ∈ call_names c) by (apply list_elem_of_bind; exists t; split; [exact Hk|exact Ht]).
  specialize (H1 k (proj1 (list_elem_of_In _ _) Hin)). apply orb_true_iff in H1 as [H1|H1].
  - apply known_name_cases in H1 as [Hn|[(n & Hn & Hp)|Hn]].
    + left. exact (Hks k Hn).
    + right; left. exists n. split; [exact (Hks n Hn)|exact Hp].
    + right; right. tauto.
  - right. right. right. right. right. split; [apply LeastRegistry.mem_spec; exact H1|].
    assert (Hun : forallb (λ n, negb (mem n class_list)) unknown_classes = true) by by vm_compute.
    rewrite forallb_forall in Hun. specialize (Hun k).
    rewrite <- LeastRegistry.mem_spec. rewrite LeastRegistry.mem_spec, list_elem_of_In in H1.
    specialize (Hun H1). destruct (mem k class_list); [discriminate|]. discriminate.
Qed.
End registration.

(** *** Overloads *)
Lemma NoDup_omap_lookup {A B} (f : A → option B) (l : list A) i j x y z :
  NoDup (omap f l) → l !! i = Some x → l !! j = Some y → f x = Some z → f y = Some z → i = j.
Proof.
  revert i j. induction l as [|a l IH]; intros i j; [done|].
  change (omap f (a :: l)) with (match f a with Some b => b :: omap f l | None => omap f l end).
  assert (Hno : ∀ j a y, f a = Some z → NoDup (z :: omap f l) → l !! j = Some y → f y = Some z → False).
  { intros j' a' y' _ [Hn _]%NoDup_cons Hj Hy. apply Hn, list_elem_of_omap.
    exists y'. split; [by eapply list_elem_of_lookup_2|done]. }
  intros Hnd Hi Hj Hx Hy. destruct i as [|i], j as [|j]; cbn in Hi, Hj; [done|..].
  - injection Hi as ->. rewrite Hx in Hnd. by destruct (Hno j x y).
  - injection Hj as ->. rewrite Hy in Hnd. by destruct (Hno i y x).
  - f_equal. apply IH; try done. destruct (f a); [by apply NoDup_cons in Hnd as [_ ?]|done].
Qed.

(** a list in runs of the same key *)
Fixpoint runs {A} (key : A → string) (l : list A) : list (string * list A) :=
  match l with
  | [] => []
  | a :: l =>
      match runs key l with
      | (k, g) :: gs => if (k =? key a)%string then (k, a :: g) :: gs else (key a, [a]) :: (k, g) :: gs
      | [] => [(key a, [a])]
      end
  end.
Lemma runs_concat {A} (key : A → string) l : mjoin (snd <$> runs key l) = l.
Proof.
  induction l as [|a l IH]; [done|]. cbn [runs]. destruct (runs key l) as [|[k g] gs]; cbn in *.
  - by rewrite <- IH.
  - destruct (k =? key a)%string; cbn; by rewrite <- IH.
Qed.
Lemma runs_key {A} (key : A → string) l k g a : (k, g) ∈ runs key l → a ∈ g → key a = k.
Proof.
  revert k g. induction l as [|b l IH]; intros k g; cbn [runs]; [by intros ?%elem_of_nil|].
  destruct (runs key l) as [|[k' g'] gs].
  - intros [= -> ->]%list_elem_of_singleton ->%list_elem_of_singleton. done.
  - destruct (String.eqb_spec k' (key b)) as [->|Hne].
    + intros [[= -> ->]|Hin]%elem_of_cons; [|intros Ha; apply (IH k g); [by right|done]].
      intros [->|Ha]%elem_of_cons; [done|]. apply (IH _ g'); [by left|done].
    + intros [[= -> ->]|Hin]%elem_of_cons; [by intros ->%list_elem_of_singleton|].
      intros Ha. by apply (IH k g).
Qed.
(** when no key has two runs, a list without duplicates in each run has none *)
Lemma runs_NoDup {A} (key : A → string) l :
  NoDup (fst <$> runs key l) → Forall (λ r, NoDup r.2) (runs key l) → NoDup l.
Proof.
  intros Hk Hg. rewrite <- (runs_concat key l).
  assert (Hkey : ∀ r a, r ∈ runs key l → a ∈ r.2 → key a = r.1) by (intros [k g] a; apply runs_key).
  induction (runs key l) as [|[k g] gs IH]; [constructor|]. cbn in Hk |- *.
  apply NoDup_cons in Hk as [Hn Hk]. apply Forall_cons in Hg as [Hgk Hg]. apply NoDup_app.
  split; [exact Hgk|]. split; [|apply IH; [done..|intros r a Hr; apply Hkey; by right]].
  intros a Ha (g' & Ha' & Hin)%list_elem_of_join. apply list_elem_of_fmap in Hin as (r & -> & Hr).
  apply Hn, list_elem_of_fmap. exists r. split; [|done].
  pose proof (Hkey (k, g) a (list_elem_of_here _ _) Ha) as Hka. cbn in Hka.
  rewrite <- Hka. apply Hkey; [by right|done].
Qed.

Lemma signatures_NoDup : NoDup (other_signatures table_calls).
Proof.
  apply (runs_NoDup snd); [apply (bool_decide_unpack _); vm_cast_no_check I|].
  apply (bool_decide_unpack _). vm_cast_no_check I.
Qed.
Lemma signature_receiver c sg : signature_of c = Some sg → receiver c = Some sg.2.
Proof. destruct c; try discriminate; cbn; by intros [= <-]. Qed.

(** The overloads of a method can be told apart: no two wrappers of the table have the same class
    and name, the same types of parameters, constness and template arguments, but for the class
    AtExitHandler, whose two constructors are each added twice. *)
Theorem overloads_distinct i j c d sg
    (Hi : table_calls !! i = Some c) (Hj : table_calls !! j = Some d)
    (Hc : signature_of c = Some sg) (Hd : signature_of d = Some sg) :
  i = j ∨ (receiver c = Some repeated_class ∧
           (c = constructor repeated_class [] ∨
            c = constructor repeated_class [param "ns3::AtExitHandler const &" "arg0"])).
Proof.
  pose proof (signature_receiver c sg Hc) as Hrc. pose proof (signature_receiver d sg Hd) as Hrd.
  destruct (String.eqb_spec sg.2 repeated_class) as [E|E].
  - right. rewrite E in Hrc. split; [exact Hrc|].
    assert (H : forallb (λ c, match receiver c, signature_of c with
                              | Some k, Some _ => negb (k =? repeated_class)%string ||
                                  bool_decide (c ∈ [constructor repeated_class [];
                                    constructor repeated_class [param "ns3::AtExitHandler const &" "arg0"]])
                              | _, _ => true
                              end) table_calls = true) by by vm_compute.
    rewrite forallb_forall in H. specialize (H c (proj1 (list_elem_of_In _ _) (list_elem_of_lookup_2 _ _ _ Hi))).
    rewrite Hrc, Hc, String.eqb_refl in H. cbn [negb orb] in H. apply bool_decide_eq_true in H.
    apply elem_of_cons in H as [H|H%list_elem_of_singleton]; [left; exact H|right; exact H].
  - left. refine (NoDup_omap_lookup _ table_calls i j c d sg signatures_NoDup Hi Hj _ _).
    + rewrite Hrc. apply String.eqb_neq in E. rewrite E. exact Hc.
    + rewrite Hrd. apply String.eqb_neq in E. rewrite E. exact Hd.
Qed.

(** *** The classes of the kernel stack *)
Lemma removed_independent :
  forallb (λ c, match owner c with
                | Some k => mem k removed_names || forallb (λ n, negb (mem n removed_names)) (depends_on c)
                | None => true
                end) table_calls = true.
Proof. by vm_compute. Qed.

Lemma index_of_NoDup l k i : NoDup l → index_of l k = Some i ↔ l !! i = Some k.
Proof.
  intros Hnd. unfold index_of. split.
  - intros ([j x] & E & ->)%fmap_Some. by apply list_find_Some in E as (E & -> & _).
  - intros Hi. destruct (list_find (λ x, x = k) l) as [[j x]|] eqn:E; cbn.
    + apply list_find_Some in E as (E & -> & _). f_equal. by apply (NoDup_lookup l j i k).
    + apply list_find_None in E. rewrite Forall_forall in E. by destruct (E k (list_elem_of_lookup_2 _ _ _ Hi)).
Qed.

(** C33. What the customizations take out of the module of a build without the kernel stack: just the
    classes with one of five names (one of which the table does not have), and nothing of what stays
    depends on them: no class that stays extends or contains one, and no wrapper of a class that
    stays has one of them in its types.  A build with the kernel stack keeps all classes. *)
Theorem kernel_removal_closed :
  (∀ i k, class_list !! i = Some k →
     (i ∈ kept_classes false class_list ↔ k ∉ removed_names) ∧ i ∈ kept_classes true class_list) ∧
  (∀ k, k ∈ removed_names → k ∈ class_list ∨ k = "ns3::KernelSocketFd") ∧
  (∀ c k n, c ∈ table_calls → owner c = Some k → k ∉ removed_names → n ∈ depends_on c →
     n ∉ removed_names).
Proof.
  split; [|split].
  - intros i k Hi. assert (Hs : i ∈ seq 0 (length class_list)).
    { apply elem_of_seq. pose proof (lookup_lt_Some _ _ _ Hi). lia. }
    split; [|exact Hs]. unfold kept_classes, removed_names.
    rewrite CustomFacts.kernel_classes_removed by apply NoDup_seq. rewrite list_elem_of_fmap. split.
    + intros [_ [?|Hn]] (n & -> & Hin); [discriminate|]. apply (Hn n Hin).
      apply index_of_NoDup; [exact class_list_NoDup|exact Hi].
    + intros Hk. split; [exact Hs|right]. intros n Hin E. apply Hk. exists n. split; [|exact Hin].
      apply index_of_NoDup in E; [congruence|exact class_list_NoDup].
  - assert (H : forallb (λ k, mem k class_list || (k =? "ns3::KernelSocketFd")%string) removed_names = true)
      by by vm_compute.
    rewrite forallb_forall in H. intros k Hk%list_elem_of_In%H.
    apply orb_true_iff in Hk as [Hk%LeastRegistry.mem_spec|Hk%String.eqb_eq]; [left|right]; exact Hk.
  - intros c k n Hc Ho Hk Hn Hin. pose proof removed_independent as H. rewrite forallb_forall in H.
    specialize (H c (proj1 (list_elem_of_In _ _) Hc)). rewrite Ho in H.
    apply orb_true_iff in H as [H%LeastRegistry.mem_spec|H]; [exact (Hk H)|].
    rewrite forallb_forall in H. specialize (H n (proj1 (list_elem_of_In _ _) Hn)).
    apply LeastRegistry.mem_spec in Hin. rewrite Hin in H. discriminate.
Qed.

(** *** The hand-written table *)

(** The table that was written by hand for the module dce names nothing that the scan did not find:
    its classes are classes of the scanned table, with a wrapper of the same name for each of its
    methods. *)
Theorem hand_written_table_agrees :
  (∀ k, k ∈ names ns DceModuleFacts.steps → k ∈ class_list) ∧
  (∀ k name r ps kw, AddMethod k name r ps kw ∈ calls_made DceModuleFacts.steps →
     ∃ r' ps' kw', AddMethod k name r' ps' kw' ∈ table_calls).
Proof.
  assert (H : forallb (λ k, mem k class_list) (names ns DceModuleFacts.steps) &&
    forallb (λ c, match c with
                  | AddMethod k n _ _ _ => existsb (λ d, match d with
                      | AddMethod k' n' _ _ _ => (n' =? n)%string && (k' =? k)%string
                      | _ => false end) table_calls
                  | _ => true
                  end) (calls_made DceModuleFacts.steps) = true) by by vm_compute.
  apply andb_true_iff in H as [H1 H2]. rewrite forallb_forall in H1, H2. split.
  - intros k Hk%list_elem_of_In%H1. apply LeastRegistry.mem_spec. exact Hk.
  - intros k name r ps kw Hin%list_elem_of_In%H2. apply existsb_exists in Hin as (d & Hd & E).
    destruct d; try discriminate. apply andb_true_iff in E as [->%String.eqb_eq ->%String.eqb_eq].
    exists ret, params, kw0. apply list_elem_of_In. exact Hd.
Qed.
End ApiCheckFacts.

(** ** The theorems at single entries of the table *)
Module ApiCheckExamples.
Import Pybindgen Tables LeastRegistry ApiTable ApiTableFacts ApiCheck ApiCheckFacts.

Definition child_waiter : call :=
  AddInstanceAttribute "ns3::Thread" "childWaiter" "ns3::Waiter *" [not_const].

(** a type of an attribute that is not known *)
Lemma table_types_known_witness :
  child_waiter ∈ calls (main (R:=least)).2 ∧
  (has_class (registry (main (R:=least)).2) "ns3::Waiter" = true ∨
   (∃ n, has_class (registry (main (R:=least)).2) n = true ∧ startswith n "ns3::Waiter<" = true) ∨
   "ns3::Waiter" ∈ alias_names (calls (main (R:=least)).2) ∨
   "ns3::Waiter" ∈ enum_names "::ns3" (calls (main (R:=least)).2) ∨ "ns3::Waiter" = "ns3::Callback" ∨
   ("ns3::Waiter" ∈ unknown_classes ∧ "ns3::Waiter" ∉ class_list)).
Proof.
  assert (Hc : child_waiter ∈ calls (main (R:=least)).2).
  { destruct (main_table (R:=least)) as (s & Hs & Hcs & _). rewrite Hs. cbn [snd]. rewrite Hcs.
    apply (bool_decide_unpack _). vm_compute. exact I. }
  assert (Ht : "ns3::Waiter *" ∈ types_of child_waiter).
  { apply (bool_decide_unpack _). vm_compute. exact I. }
  assert (Hk : "ns3::Waiter" ∈ class_names "ns3::Waiter *").
  { apply (bool_decide_unpack _). vm_compute. exact I. }
  split; [exact Hc|]. exact (table_types_known (R:=least) child_waiter "ns3::Waiter *" "ns3::Waiter" Hc Ht Hk).
Defined.

(** the constructors that are added twice *)
Definition at_exit_handler : call := constructor repeated_class [].
Lemma overloads_distinct_witness :
  ∃ i j, i ≠ j ∧ table_calls !! i = Some at_exit_handler ∧ table_calls !! j = Some at_exit_handler ∧
    (i = j ∨ (receiver at_exit_handler = Some repeated_class ∧
       (at_exit_handler = constructor repeated_class [] ∨
        at_exit_handler = constructor repeated_class [param "ns3::AtExitHandler const &" "arg0"]))).
Proof.
  assert (H : bool_decide (table_calls !! 439%nat = Some at_exit_handler ∧ table_calls !! 442%nat = Some at_exit_handler) = true)
    by (vm_compute; reflexivity).
  apply bool_decide_eq_true in H as [Hi Hj]. exists 439%nat, 442%nat.
  split; [lia|]. split; [exact Hi|]. split; [exact Hj|].
  exact (overloads_distinct 439 442 at_exit_handler at_exit_handler (EmptyString, [], [], repeated_class)
    Hi Hj eq_refl eq_refl).
Defined.
End ApiCheckExamples.
