(* ===== verification/ApiGenerate.v ===== *)
(** * Generating the bindings of the module dce

    The composition of [ModuleGen] (bindings/python/ns3modulegen-modular.py), [Customizations]
    (ns3modulegen_core_customizations.py), [ApiTable] (modulegen__gcc_ILP32.py) and [CallbacksList]:
    what the events of a run of the generator do to the module when the tables are these. *)
From Stdlib Require Import ZArith Lia Ascii String.
From stdpp Require Import base list strings.
From S2P Require Import Prelude PyStr Customizations ModuleGen Pybindgen ApiTable ApiCheck.

Module ApiGenerate.
Import Tables ApiTable ApiCheck.
Export CallbacksList.

Section generation.
  (** the registry of pybindgen, its handlers of return values and parameters *)
  Context {R Rv Pv : Type} `{Registry R}.
  Variable kernel_stack : bool.
  Variable normalize : string → string.
  Variable parse_type : string → string * bool.
  Variable return_new : string → bool → Rv + string.
  Variable param_new : string → string → bool → Pv + string.
  Variable helper_unconstructible : Pv → bool.
  Variable return_lookup param_lookup : string → bool.
  (** pybindgen's [get_all_methods] of a class by its position, behind the calls that were made: the
      parameters of each method; and the name of the class of a parameter that is a reference to one *)
  Variable get_all_methods : list Pybindgen.call → nat → list (list Pybindgen.Param).
  Variable class_ref : Pybindgen.Param → option string.

(** the module with the calls on it, the customizations, the classes that stay by their positions,
    the parameters of their methods once the default values are customized, the handlers of callbacks
    and what is generated for these *)
Record gstate := mk_gstate {
  module : state R;
  customs : list Custom.event;
  classes : list nat;
  attributes : list (list (list Custom.parameter));
  handlers : list Callbacks.PythonCallbackParameter;
  generated : list (@Callbacks.gen_event Rv Pv)
}.
Definition on_module {A} (m : py (state R) A) : py gstate A := λ g,
  let '(r, s) := m (module g) in
  (r, mk_gstate s (customs g) (classes g) (attributes g) (handlers g) (generated g)).
Definition on_customs {A} (m : py (list Custom.event) A) : py gstate A := λ g,
  let '(r, l) := m (customs g) in
  (r, mk_gstate (module g) l (classes g) (attributes g) (handlers g) (generated g)).
Definition on_generated {A} (m : py (list Callbacks.gen_event) A) : py gstate A := λ g,
  let '(r, l) := m (generated g) in
  (r, mk_gstate (module g) (customs g) (classes g) (attributes g) (handlers g) l).
Definition set_classes (l : list nat) : py gstate unit := py_modify (λ g,
  mk_gstate (module g) (customs g) l (attributes g) (handlers g) (generated g)).
Definition set_handlers (l : list Callbacks.PythonCallbackParameter) : py gstate unit :=
  py_modify (λ g, mk_gstate (module g) (customs g) (classes g) (attributes g) l (generated g)).

Definition set_attributes (l : list (list (list Custom.parameter))) : py gstate unit :=
  py_modify (λ g, mk_gstate (module g) (customs g) (classes g) l (handlers g) (generated g)).

(** the parameters of the methods of some classes, as the customization of attributes reads them *)
Definition kw_text (k : string) (kw : Pybindgen.kwargs) : option string :=
  match Pybindgen.kw_get k kw with Some (Pybindgen.VStr v) => Some v | _ => None end.
Definition custom_param (p : Pybindgen.Param) : Custom.parameter :=
  Custom.mk_param (class_ref p) (kw_text "default_value" (Pybindgen.p_kw p))
    (kw_text "default_value_type" (Pybindgen.p_kw p)).
Definition class_methods (made : list Pybindgen.call) (l : list nat)
    : list (list (list Custom.parameter)) :=
  (λ i, (λ ps : list Pybindgen.Param, custom_param <$> ps) <$> get_all_methods made i) <$> l.

(** the classes that were added, by their full names *)
Definition added_classes (s : state R) : list string := names (namespace (registry s)) (Pybindgen.Do <$> calls s).

(** what an event of the generator does; files, imports, lines of output, the handler of errors and
    the name do nothing to what is registered, and the repository has no hooks of its own *)
Definition interpret (e : ModuleGen.event) : py gstate unit :=
  match e with
  | ModuleGen.ModuleInit => on_module (λ _, (Ok (), module_init))
  | ModuleGen.AddInclude file => on_module (emit (Pybindgen.AddInclude file))
  | ModuleGen.AddIosOpenmode => on_customs Custom.add_std_ios_openmode
  | ModuleGen.RegisterTypes => on_module (run (Pybindgen.Do <$> register_types []))
  | ModuleGen.CorePostRegisterTypes =>
      g ← py_get; set_classes (kept_classes kernel_stack (added_classes (module g)))
  | ModuleGen.RegisterCallbacks l =>
      set_handlers (Callbacks.register_callback_classes normalize l).1
  | ModuleGen.RegisterMethods => on_module (run register_methods)
  | ModuleGen.ObjectCustomizations =>
      g ← py_get; on_customs (Custom.Object_customizations (has_class (registry (module g))))
  | ModuleGen.AttributeCustomizations =>
      g ← py_get;
      set_attributes (Custom.Attribute_customizations
        (class_methods (calls (module g)) (classes g)))
  | ModuleGen.GenerateCallbacks l =>
      on_generated (Callbacks.generate_callback_classes parse_type return_new param_new
        helper_unconstructible return_lookup param_lookup l)
  | ModuleGen.RegisterFunctions => on_module (run (Pybindgen.Do <$> register_functions []))
  | ModuleGen.Generate => on_module (emit Pybindgen.Generate)
  | ModuleGen.OpenSink _ | ModuleGen.Import _ | ModuleGen.Unload _ | ModuleGen.PrintErr _
  | ModuleGen.SetErrorHandler _ | ModuleGen.SetName _ | ModuleGen.CustomHook _ => mret ()
  end.
Definition interpret_all (l : list ModuleGen.event) : py gstate unit := py_for l interpret.
Definition start : gstate := mk_gstate module_init [] [] [] [] [].
End generation.
Arguments gstate : clear implicits.

(** a run of the generator in this repository, which has no customizations of its own *)
Definition generator_run (import_apidefs : string → result string) (argv : list string)
    : result unit * ModuleGen.state :=
  ModuleGen.main import_apidefs (Raise (PyException "ImportError")) (Ok callback_classes) argv
    (ModuleGen.mk_state [] []).
End ApiGenerate.

(** ** Facts *)
Module ApiGenerateFacts.
Import Tables PybindgenFacts ApiTable ApiTableFacts ApiCheck ApiGenerate.
#[local] Abbreviation ns := "::ns3".

Lemma run_events import_apidefs prog src target ext out file :
  import_apidefs target = Ok file →
  generator_run import_apidefs [prog; src; target; ext; out] =
    (Ok (), ModuleGen.mk_state []
      [ModuleGen.OpenSink out; ModuleGen.OpenSink (path_join (dirname out) "ns3module.h");
       ModuleGen.Import ("modulegen__" +:+ target); ModuleGen.Unload ("modulegen__" +:+ target);
       ModuleGen.Import "modulegen_customizations"; ModuleGen.Import "callbacks_list";
       ModuleGen.PrintErr (">>>>>>>>>>>>>>>> " +:+ ModuleGen.show_callbacks callback_classes);
       ModuleGen.SetErrorHandler (ModuleGen.splitext_root file +:+ ".py"); ModuleGen.ModuleInit;
       ModuleGen.SetName ext;
       ModuleGen.AddInclude (String "034" ("ns3/" +:+ ext +:+ "-module.h" +:+ String "034" EmptyString));
       ModuleGen.AddIosOpenmode; ModuleGen.RegisterTypes; ModuleGen.CorePostRegisterTypes;
       ModuleGen.RegisterCallbacks callback_classes; ModuleGen.RegisterMethods;
       ModuleGen.ObjectCustomizations; ModuleGen.AttributeCustomizations;
       ModuleGen.GenerateCallbacks callback_classes; ModuleGen.RegisterFunctions;
       ModuleGen.Generate]).
Proof.
  intros Hfile. unfold generator_run, ModuleGen.main, ModuleGen.import_all,
    ModuleGen.import_customization, ModuleGen.import_callback_list, ModuleGen.import_once,
    ModuleGen.generate.
  cbv [mbind py_bind ModuleGen.emit ModuleGen.path_insert py_modify ModuleGen.finally_pop py_lift
       mret py_ret ModuleGen.path_pop].
  rewrite Hfile. reflexivity.
Qed.

(** the three parts of the table *)
Lemma types_placed : placed looked_up ns [] (Pybindgen.Do <$> register_types []) = true.
Proof. by vm_compute. Qed.
Lemma methods_placed : placed looked_up ns class_list register_methods = true.
Proof. by vm_compute. Qed.
Lemma functions_placed : placed looked_up ns class_list (Pybindgen.Do <$> register_functions []) = true.
Proof. by vm_compute. Qed.
Lemma types_names : names ns (Pybindgen.Do <$> register_types []) = class_list.
Proof. by vm_compute. Qed.
Lemma calls_made_Do l : Pybindgen.calls_made (Pybindgen.Do <$> l) = l.
Proof. induction l as [|c l IH]; [done|]. cbn. by f_equal. Qed.

(** what the customizations do to [ns3::Object] *)
Definition object_hooks : list Custom.event :=
  [Custom.HelperClassHook "ns3::Object"; Custom.InstanceCreation "ns3::Object";
   Custom.PostInstanceCreation "ns3::Object"].

Section generation.
  Context {R Rv Pv : Type} `{RegistryLaws R}.
  Context (kernel_stack : bool) (normalize : string → string) (parse_type : string → string * bool)
          (return_new : string → bool → Rv + string)
          (param_new : string → string → bool → Pv + string)
          (helper_unconstructible : Pv → bool) (return_lookup param_lookup : string → bool)
          (get_all_methods : list Pybindgen.call → nat → list (list Pybindgen.Param))
          (class_ref : Pybindgen.Param → option string).
#[local] Abbreviation gstate := (gstate R Rv Pv).
#[local] Abbreviation interpret := (interpret kernel_stack normalize parse_type return_new param_new
  helper_unconstructible return_lookup param_lookup get_all_methods class_ref).
#[local] Abbreviation interpret_all := (interpret_all kernel_stack normalize parse_type return_new
  param_new helper_unconstructible return_lookup param_lookup get_all_methods class_ref).
#[local] Abbreviation outcome := (CallbackFacts.outcome parse_type return_new param_new return_lookup
  param_lookup).

Lemma interpret_step e l (g g' : gstate) r :
  interpret e g = (Ok (), g') → interpret_all l g' = r → interpret_all (e :: l) g = r.
Proof. intros He Hl. unfold ApiGenerate.interpret_all. cbn [py_for]. cbv [mbind py_bind]. by rewrite He. Qed.

Lemma on_module_ok (m : py (state R) unit) (g : gstate) s : m (module g) = (Ok (), s) →
  on_module m g = (Ok (), mk_gstate s (customs g) (classes g) (attributes g) (handlers g) (generated g)).
Proof. intros E. unfold on_module. by rewrite E. Qed.

Lemma on_generated_ok (m : py (list Callbacks.gen_event) unit) (g : gstate) l :
  m (generated g) = (Ok (), l) →
  on_generated m g = (Ok (), mk_gstate (module g) (customs g) (classes g) (attributes g) (handlers g) l).
Proof. intros E. unfold on_generated. by rewrite E. Qed.

Lemma interpret_header file (g : gstate) :
  interpret (ModuleGen.AddInclude file) g =
    (Ok (), mk_gstate (emit (Pybindgen.AddInclude file) (module g)).2 (customs g) (classes g) (attributes g) (handlers g)
      (generated g)).
Proof. done. Qed.
Lemma interpret_openmode (g : gstate) :
  customs g = [] →
  interpret ModuleGen.AddIosOpenmode g =
    (Ok (), mk_gstate (module g) (Custom.add_std_ios_openmode []).2 (classes g) (attributes g) (handlers g) (generated g)).
Proof. intros E. cbn [ApiGenerate.interpret]. unfold on_customs. by rewrite E. Qed.
Lemma interpret_removal (g : gstate) l :
  added_classes (module g) = l →
  interpret ModuleGen.CorePostRegisterTypes g =
    (Ok (), mk_gstate (module g) (customs g) (kept_classes kernel_stack l) (attributes g) (handlers g) (generated g)).
Proof. intros <-. done. Qed.
Lemma interpret_handlers l (g : gstate) :
  interpret (ModuleGen.RegisterCallbacks l) g =
    (Ok (), mk_gstate (module g) (customs g) (classes g) (attributes g)
      (Callbacks.register_callback_classes normalize l).1
      (generated g)).
Proof. done. Qed.
Lemma interpret_object (g : gstate) :
  has_class (registry (module g)) "ns3::Object" = true →
  interpret ModuleGen.ObjectCustomizations g =
    (Ok (), mk_gstate (module g) (customs g ++ object_hooks) (classes g) (attributes g) (handlers g) (generated g)).
Proof.
  intros E. cbn [ApiGenerate.interpret]. cbv [mbind py_bind py_get]. unfold on_customs, Custom.Object_customizations.
  rewrite E. cbv [Custom.emit mbind py_bind py_modify]. unfold object_hooks. by rewrite <- !app_assoc.
Qed.
(** what the customization of attributes makes of the classes that stay *)
Definition attributes_after (made : list Pybindgen.call) (l : list nat)
    : list (list (list Custom.parameter)) :=
  Custom.Attribute_customizations (class_methods get_all_methods class_ref made l).
Lemma interpret_attributes (g : gstate) :
  interpret ModuleGen.AttributeCustomizations g =
    (Ok (), mk_gstate (module g) (customs g) (classes g)
      (attributes_after (calls (module g)) (classes g)) (handlers g) (generated g)).
Proof. done. Qed.
Lemma interpret_generate (g : gstate) :
  interpret ModuleGen.Generate g =
    (Ok (), mk_gstate (emit Pybindgen.Generate (module g)).2 (customs g) (classes g) (attributes g) (handlers g) (generated g)).
Proof. done. Qed.
Lemma interpret_end (g : gstate) : interpret_all [] g = (Ok (), g).
Proof. done. Qed.

(** the calls that were made when the attributes are customized: the types and the methods *)
Definition calls_before (include : string) : list Pybindgen.call :=
  Pybindgen.AddInclude include :: register_types [] ++ Pybindgen.calls_made register_methods.

(** the registration of the parts of the table, one after the other *)
Lemma parts_registered include : ∃ s1 s2 s3 : state R,
  run (Pybindgen.Do <$> register_types []) (emit (Pybindgen.AddInclude include) module_init).2 = (Ok (), s1) ∧
  added_classes s1 = class_list ∧ knows s1 class_list ∧
  run register_methods s1 = (Ok (), s2) ∧ knows s2 class_list ∧ calls s2 = calls_before include ∧
  run (Pybindgen.Do <$> register_functions []) s2 = (Ok (), s3) ∧ knows s3 class_list ∧
  calls s3 ++ [Pybindgen.Generate] = Pybindgen.AddInclude include :: table_calls.
Proof.
  set (s0 := (emit (Pybindgen.AddInclude include) module_init).2 : state R).
  assert (N0 : namespace (registry s0) = ns) by (cbn; rewrite namespace_apply; apply namespace_new).
  destruct (run_placed (Pybindgen.Do <$> register_types []) s0 []) as (s1 & R1 & C1 & N1 & K1).
  { intros k Hk. by apply elem_of_nil in Hk. }
  { rewrite N0. exact types_placed. }
  rewrite N0, types_names, app_nil_r in K1. rewrite N0 in N1. rewrite calls_made_Do in C1.
  destruct (run_placed register_methods s1 class_list K1) as (s2 & R2 & C2 & N2 & K2).
  { rewrite N1. exact methods_placed. }
  rewrite N1 in N2, K2. destruct (run_placed (Pybindgen.Do <$> register_functions []) s2 class_list)
    as (s3 & R3 & C3 & _ & K3).
  { intros k Hk. apply K2, elem_of_app. by right. }
  { rewrite N2. exact functions_placed. }
  exists s1, s2, s3. split; [exact R1|]. split; [|split; [exact K1|split; [exact R2|split; [|split; [|split; [exact R3|split]]]]]].
  - unfold added_classes. rewrite N1, C1. exact types_names.
  - intros k Hk. apply K2, elem_of_app. by right.
  - rewrite C2, C1. unfold calls_before. by rewrite <- app_assoc.
  - intros k Hk. apply K3, elem_of_app. by right.
  - rewrite C3, C2, C1, calls_made_Do. unfold table_calls, table. rewrite !calls_made_app, !calls_made_Do.
    cbn [s0 emit py_modify snd calls module_init app]. by rewrite <- !app_assoc.
Qed.

End generation.
End ApiGenerateFacts.

(** ** On the least registry, where every type can be handled but those of packets *)
Module ApiGenerateExamples.
Import Tables LeastRegistry ApiTable ApiCheck ApiGenerate ApiGenerateFacts PybindgenFacts.

Definition can_handle (t : string) : string + string :=
  if (t =? "ns3::Ptr<const ns3::Packet>")%string then inr "TypeLookupError" else inl t.

(** the methods that were added to a class, and the references to attribute values *)
Definition added_methods (made : list Pybindgen.call) (i : nat) : list (list Pybindgen.Param) :=
  match class_list !! i with
  | Some k => omap (λ c, match c with
                         | Pybindgen.AddMethod cls _ _ ps _ => if (cls =? k)%string then Some ps else None
                         | _ => None
                         end) made
  | None => []
  end.
Definition attribute_ref (p : Pybindgen.Param) : option string :=
  if py_in "ns3::AttributeValue const &" (Pybindgen.p_type p) then Some "AttributeValue" else None.

(** a default value that is an attribute gets its type *)
Example attribute_gets_its_type :
  attributes_after (λ _ _, [[Pybindgen.param_default "ns3::AttributeValue const &" "v" "Empty ()"];
                            [Pybindgen.param "ns3::AttributeValue const &" "v"]]) attribute_ref [] [0%nat] =
  [[[Custom.mk_param (Some "AttributeValue") (Some "Empty ()") (Some "ns3::EmptyAttributeValue")];
    [Custom.mk_param (Some "AttributeValue") None None]]].
Proof. by vm_compute. Qed.

End ApiGenerateExamples.
