(* ===== verification/ApiScripts.v ===== *)
(** * The examples in Python against the table of the bindings

    example/dce-udp-perf.py and myscripts/sleep/dce-sleep.py.  A call of a script on an object whose
    class the table of the module dce defines needs a wrapper of the class or of one it extends that
    takes the values.  The classes of the other modules have their wrappers in the tables of these,
    which are not here: where this table has a wrapper that fits it tells what the call returns, and
    otherwise the call gives an unknown object.  What is printed is kept; [show] is [str] of an object. *)
From Stdlib Require Import ZArith Lia Ascii String.
From stdpp Require Import base list strings.
From S2P Require Import Prelude PyStr Pybindgen ApiTable ApiCheck.

Module ApiScripts.
Import Pybindgen Tables ApiTable ApiCheck.

(** ** Objects and calls *)

(** an object of a class, constants (a float with no fraction), and what is not known *)
Inductive pyvalue :=
  | Obj (cls : string) | Str (s : string) | Int (n : Z) | Float (n : Z) | Unknown.

(** the classes that a class of the table extends, and those that these extend *)
Definition class_keywords : list (string * kwargs) :=
  table_calls ≫= λ c, match c with
    | AddClass m name kw => [(full_name "::ns3" m name kw, kw)]
    | _ => []
    end.
Definition keywords (k : string) : option kwargs :=
  snd <$> List.find (λ a, (a.1 =? k)%string) class_keywords.
Definition class_parents (k : string) : list string :=
  match keywords k with Some kw => parents kw | None => [] end.
Fixpoint lineage (fuel : nat) (k : string) : list string :=
  match fuel with O => [k] | S fuel => k :: (class_parents k ≫= lineage fuel) end.
(** no chain of parents of the table is longer ([lineage_complete]) *)
Definition depth : nat := 8.

Definition int_types : list string := ["uint32_t"; "int"; "unsigned int"; "uint16_t"; "uint8_t"].
Definition accepts (type : string) (v : pyvalue) : bool :=
  match v with
  | Obj k => existsb (λ n, mem n (lineage depth k)) (class_names type)
  | Str _ => mem type ["std::string"; "char const *"]
  | Int _ => mem type int_types
  | Float _ => mem type ["double"; "float"]
  | Unknown => true
  end.
(** whether the values fit the parameters; a parameter with a default value may be left out *)
Fixpoint fits (ps : list Param) (vs : list pyvalue) : bool :=
  match ps, vs with
  | [], [] => true
  | p :: ps, v :: vs => accepts (p_type p) v && fits ps vs
  | p :: ps, [] => match kw_get "default_value" (p_kw p) with Some _ => fits ps [] | None => false end
  | [], _ :: _ => false
  end.
Definition public (kw : kwargs) : bool :=
  match kw_get "visibility" kw with Some _ => false | None => true end.
Definition static (kw : kwargs) : bool := bool_decide (kw_get "is_static" kw = Some (VBool true)).
(** the object that a wrapper returns *)
Definition returned (type : string) : pyvalue :=
  match class_names type with [k] => Obj k | _ => Unknown end.

(** the members of the name, and the wrappers that take the values *)
Definition members (k name : string) (st : bool) : list (Ret * list Param) :=
  let ks := lineage depth k in
  omap (λ c, match c with
             | AddMethod k' n r ps kw =>
                 if (n =? name)%string && mem k' ks && public kw && (negb st || static kw)
                 then Some (r, ps) else None
             | _ => None
             end) table_calls.
Definition has_constructor (k : string) (vs : list pyvalue) : bool :=
  existsb (λ c, match c with
                | AddConstructor k' ps kw => (k' =? k)%string && public kw && fits ps vs
                | _ => false
                end) table_calls.
(** the module of python a class of the table is found in *)
Definition module_of (k : string) : option string :=
  (λ kw, match kw_get "import_from_module" kw with Some (VStr s) => s | _ => "ns.dce" end)
    <$> keywords k.
(** the wrappers of the class are in this table *)
Definition own_class (k : string) : bool := bool_decide (module_of k = Some "ns.dce").

(** what a script did: what it printed, the objects it made, its calls and where these were found *)
Inductive event :=
  | Print (s : string)
  | Made (cls : string) (vs : list pyvalue)
  | Called (cls name : string) (vs : list pyvalue)
  | Other (name : string) (vs : list pyvalue).
#[export] Instance pyvalue_eq_dec : EqDecision pyvalue.
Proof. solve_decision. Defined.
#[export] Instance event_eq_dec : EqDecision event.
Proof. solve_decision. Defined.
Definition script : Type → Type := py (list event).
Definition log (e : event) : script unit := py_modify (λ l, l ++ [e]).

Section scripts.
  (** [str] of an object, the attributes that [dir] lists *)
  Variable show : pyvalue → string.
  Variable dir : pyvalue → list string.

Definition print (s : string) : script unit := log (Print s).

(** the submodules of [ns] that both scripts import *)
Definition imported : list string :=
  ["dce"; "applications"; "core"; "internet"; "network"; "point_to_point"].
(** [ns.m] *)
Definition get_module (m : string) : script string :=
  if mem m imported then mret ("ns." +:+ m) else py_raise AttributeError.

Definition other (name : string) (vs : list pyvalue) (r : pyvalue) : script pyvalue :=
  log (Other name vs) ;; mret r.

(** [ns.m.name(vs)], a class *)
Definition make (m name : string) (vs : list pyvalue) : script pyvalue :=
  md ← get_module m;
  let k := "ns3::" +:+ name in
  if (md =? "ns.dce")%string then
    if negb (own_class k) then py_raise AttributeError
    else if has_constructor k vs then log (Made k vs) ;; mret (Obj k)
    else py_raise TypeError
  else other name vs (if bool_decide (module_of k = Some md) then Obj k else Unknown).
(** a call of the method of an object, or with [st] of a static method of a class *)
Definition call_member (st : bool) (k name : string) (vs : list pyvalue) : script pyvalue :=
  let ms := members k name st in
  match List.find (λ m, fits m.2 vs) ms with
  | Some m => log (Called k name vs) ;; mret (returned (ret_type m.1))
  | None =>
      if own_class k then py_raise (match ms with [] => AttributeError | _ => TypeError end)
      else other name vs Unknown
  end.
(** [o.name(vs)] *)
Definition invoke (o : pyvalue) (name : string) (vs : list pyvalue) : script pyvalue :=
  match o with
  | Obj k => call_member false k name vs
  | _ => other name vs Unknown
  end.
(** [ns.m.name.member(vs)] *)
Definition invoke_static (m name member : string) (vs : list pyvalue) : script pyvalue :=
  md ← get_module m;
  let k := "ns3::" +:+ name in
  if (md =? "ns.dce")%string && negb (own_class k) then py_raise AttributeError
  else call_member true k member vs.
(** [ns.m.name(vs)], a function of another module *)
Definition call_function (m name : string) (vs : list pyvalue) (r : pyvalue) : script pyvalue :=
  _ ← get_module m; other name vs r.
Definition seconds (n : Z) : script pyvalue :=
  call_function "core" "Seconds" [Float n] (Obj "ns3::Time").

(** ** dce-udp-perf.py *)
Definition run_simulation : script unit :=
  t ← seconds 220;
  invoke_static "core" "Simulator" "Stop" [t] ;;
  invoke_static "core" "Simulator" "Run" [] ;;
  invoke_static "core" "Simulator" "Destroy" [] ;;
  print "<------------------------------------------------------------------------------" ;;
  print " - Done".

Definition string_value (s : string) : script pyvalue := make "core" "StringValue" [Str s].

(** the network: two nodes with a link between them, and the addresses *)
Definition udp_network : script (pyvalue * pyvalue) :=
  nodes ← make "network" "NodeContainer" [];
  invoke nodes "Create" [Int 2] ;;
  pointToPoint ← make "point_to_point" "PointToPointHelper" [];
  rate ← string_value "5Mbps"; invoke pointToPoint "SetDeviceAttribute" [Str "DataRate"; rate] ;;
  delay ← string_value "2ms"; invoke pointToPoint "SetChannelAttribute" [Str "Delay"; delay] ;;
  devices ← invoke pointToPoint "Install" [nodes];
  stack ← make "internet" "InternetStackHelper" [];
  invoke stack "Install" [nodes] ;;
  address ← make "internet" "Ipv4AddressHelper" [];
  base ← make "network" "Ipv4Address" [Str "10.1.1.0"];
  mask ← make "network" "Ipv4Mask" [Str "255.255.255.0"];
  invoke address "SetBase" [base; mask] ;;
  interfaces ← invoke address "Assign" [devices];
  mret (nodes, interfaces).

Definition start_at (apps : pyvalue) (n : Z) : script unit :=
  t ← seconds n; invoke apps "Start" [t] ;; mret ().

Definition udp_applications (nodes interfaces : pyvalue) : script unit :=
  dceManager ← make "dce" "DceManagerHelper" [];
  invoke dceManager "Install" [nodes] ;;
  dce ← make "dce" "DceApplicationHelper" [];
  invoke dce "SetBinary" [Str "udp-perf"] ;;
  invoke dce "SetStackSize" [Int (Z.shiftl 1 20)] ;;
  invoke dce "AddArgument" [Str "--duration=10"] ;;
  invoke dce "AddArgument" [Str "--nodes=2"] ;;
  server ← invoke nodes "Get" [Int 0];
  apps ← invoke dce "InstallInNode" [server];
  start_at apps 1 ;;
  srvAddress ← invoke interfaces "GetAddress" [Int 0];
  invoke dce "SetBinary" [Str "udp-perf"] ;;
  invoke dce "ResetArguments" [] ;;
  invoke dce "AddArgument" [Str "--client"] ;;
  invoke dce "AddArgument" [Str "--nodes=2"] ;;
  invoke dce "AddArgument" [Str ("--host=" +:+ show srvAddress)] ;;
  invoke dce "AddArgument" [Str "--duration=10"] ;;
  client ← invoke nodes "Get" [Int 1];
  apps ← invoke dce "InstallInNode" [client];
  start_at apps 2.

Definition udp_perf : script unit :=
  print "Basic Test Python Bindings" ;;
  print " - Configure network" ;;
  '(nodes, interfaces) ← udp_network;
  a0 ← invoke interfaces "GetAddress" [Int 0];
  print ("******** Server: " +:+ show a0) ;;
  a1 ← invoke interfaces "GetAddress" [Int 1];
  print ("******** Client: " +:+ show a1) ;;
  print " - Configure DCE" ;;
  udp_applications nodes interfaces ;;
  print "------------------------------------------------------------------------------>" ;;
  print " - Run Simulation" ;;
  run_simulation.

(** ** dce-sleep.py *)
Definition log_enable (component level : string) : script unit :=
  _ ← call_function "core" "LogComponentEnable" [Str component; Unknown] Unknown; mret ().
Definition sleep_applications (nodes : pyvalue) : script unit :=
  dceManager ← make "DCE" "DceManagerHelper" [];
  invoke dceManager "Install" [nodes] ;;
  dce ← make "DCE" "DceApplicationHelper" [];
  invoke dce "SetBinary" [Str "tenseconds"] ;;
  invoke dce "SetStackSize" [Int (Z.shiftl 1 20)] ;;
  print " **************************************" ;;
  print (" ** [dce]:" +:+ show dce) ;;
  print (join (nl +:+ "   - ") (dir dce)) ;;
  print " **************************************" ;;
  apps ← invoke dce "Install" [nodes];
  start_at apps 4.
Definition sleep : script unit :=
  print "Basic Test Python Bindings" ;;
  print " - Configure network" ;;
  log_enable "Node" "LOG_LEVEL_INFO" ;;
  log_enable "NodeList" "LOG_LEVEL_INFO" ;;
  log_enable "Dce" "LOG_LEVEL_INFO" ;;
  log_enable "DceManager" "LOG_LEVEL_ALL" ;;
  log_enable "DceApplication" "LOG_LEVEL_INFO" ;;
  log_enable "DceApplicationHelper" "LOG_LEVEL_INFO" ;;
  nodes ← make "network" "NodeContainer" [];
  invoke nodes "Create" [Int 1] ;;
  print " - Configure DCE" ;;
  sleep_applications nodes ;;
  print " - Run Simulation" ;;
  print "------------------------------------------------------------------------------>" ;;
  run_simulation.
End scripts.
End ApiScripts.

(** ** Facts *)
Module ApiScriptsFacts.
Import Pybindgen Tables ApiTable ApiCheck ApiScripts.

Lemma lineage_stable k : lineage (S depth) k = lineage depth k.
Proof.
  assert (H : forallb (λ a, bool_decide (lineage (S depth) a.1 = lineage depth a.1)) class_keywords = true)
    by by vm_compute.
  destruct (keywords k) as [kw|] eqn:E.
  - unfold keywords in E. apply fmap_Some in E as ([k' kw'] & E & _).
    apply find_some in E as [Hin Ek%String.eqb_eq]. cbn in Ek. subst k'.
    rewrite forallb_forall in H. specialize (H _ Hin). by apply bool_decide_eq_true in H.
  - unfold depth. cbn [lineage]. unfold class_parents. by rewrite E.
Qed.
(** no class has more ancestors than are looked at *)
Lemma lineage_complete k n : (depth ≤ n)%nat → lineage n k = lineage depth k.
Proof.
  intros Hn. revert k. induction Hn as [|n Hn IH]; intros k; [done|].
  rewrite <- (lineage_stable k). cbn [lineage]. f_equal. apply list_bind_ext; [|done]. intros p. apply IH.
Qed.

(** the calls on objects of the module dce *)
Definition on_dce (e : event) : bool :=
  match e with Made k _ | Called k _ _ => own_class k | _ => false end.

(** The example dce-udp-perf.py agrees with the table: every call on a class of the module dce has
    a public wrapper that takes its values, and the script runs to its end with the calls it means
    to make.  The example dce-sleep.py names the module ns.DCE, which is not there: it stops before
    any call on a class of dce. *)
Theorem scripts_against_table show dir :
  (∃ evs, udp_perf show [] = (Ok (), evs) ∧ List.filter on_dce evs =
     let helper := Called "ns3::DceApplicationHelper" in
     [Made "ns3::DceManagerHelper" [];
      Called "ns3::DceManagerHelper" "Install" [Obj "ns3::NodeContainer"];
      Made "ns3::DceApplicationHelper" [];
      helper "SetBinary" [Str "udp-perf"]; helper "SetStackSize" [Int 1048576];
      helper "AddArgument" [Str "--duration=10"]; helper "AddArgument" [Str "--nodes=2"];
      helper "InstallInNode" [Obj "ns3::Node"];
      helper "SetBinary" [Str "udp-perf"]; helper "ResetArguments" [];
      helper "AddArgument" [Str "--client"]; helper "AddArgument" [Str "--nodes=2"];
      helper "AddArgument" [Str ("--host=" +:+ show Unknown)];
      helper "AddArgument" [Str "--duration=10"]; helper "InstallInNode" [Obj "ns3::Node"]]) ∧
  ∃ evs, sleep show dir [] = (Raise AttributeError, evs) ∧ List.filter on_dce evs = [].
Proof.
  split; eexists; (split; [vm_compute; reflexivity|]); vm_compute; reflexivity.
Qed.
End ApiScriptsFacts.
