(* ===== verification/OptParse.v ===== *)
(** * optparse: parsing a command line

    The command lines of test.py and of the build are parsed by the class [OptionParser] of the
    language library.  [OptParse] has what the programs use of it: options that store a text or a
    truth value, their declaration with its check for conflicts, abbreviated long options, clusters
    of short ones, interspersed positional arguments.  [OptParseFacts] has the grammar of the
    accepted command lines and shows that the parser accepts exactly those, with their meaning. *)
From Stdlib Require Import ZArith Lia Ascii String.
From stdpp Require Import base list strings sorting.
From S2P Require Import Prelude PyStr.
#[local] Open Scope nat_scope.

Module OptParse.

Inductive action := Store | StoreTrue | StoreFalse | Help.
#[export] Instance action_eq_dec : EqDecision action.
Proof. solve_decision. Defined.
Inductive value := VNone | VText (s : string) | VFlag (b : bool).
#[export] Instance value_eq_dec : EqDecision value.
Proof. solve_decision. Defined.

(** one call of [add_option]; the help option has no destination *)
Record opt_spec := mk_opt {
  opt_strings : list string; act : action; dest : string; default_value : value
}.
Definition values : Type := list (string * value).

(** parsing ends with a value, by the option that asks for help, or with a message *)
Inductive outcome (A : Type) := Parsed (a : A) | HelpAsked | UsageError (msg : string).
Arguments Parsed {A} a. Arguments HelpAsked {A}. Arguments UsageError {A} msg.
#[export] Instance outcome_ret : MRet outcome := λ A a, Parsed a.
#[export] Instance outcome_bind : MBind outcome := λ A B f m,
  match m with Parsed a => f a | HelpAsked => HelpAsked | UsageError m => UsageError m end.

(** ** Declaring options *)
Definition is_long (s : string) : bool := startswith s "--".
Definition help_option : opt_spec :=
  {| opt_strings := ["-h"; "--help"]; act := Help; dest := EmptyString; default_value := VNone |}.
Definition strings_of (table : list opt_spec) : list string := table ≫= opt_strings.

Definition add_option (table : list opt_spec) (o : opt_spec) : result (list opt_spec) :=
  if existsb (λ s, bool_decide (s ∈ strings_of table)) (opt_strings o) then
    Raise (PyException "OptionConflictError")
  else Ok (table ++ [o]).
Fixpoint add_options (table : list opt_spec) (l : list opt_spec) : result (list opt_spec) :=
  match l with
  | [] => Ok table
  | o :: l => table ← add_option table o; add_options table l
  end.
(** [OptionParser()] and the calls of [add_option] *)
Definition new_parser (l : list opt_spec) : result (list opt_spec) := add_options [help_option] l.

Definition has_dest (o : opt_spec) : bool := match act o with Help => false | _ => true end.
Definition get_default_values (table : list opt_spec) : values :=
  foldl (λ v o, dict_set v (dest o) (default_value o)) [] (List.filter has_dest table).

(** ** Parsing *)
Section parse.
  Variable table : list opt_spec.

(** the dictionary of the option strings *)
Definition string_table : list (string * opt_spec) :=
  table ≫= (λ o, (λ s, (s, o)) <$> opt_strings o).
Definition long_table : list (string * opt_spec) :=
  List.filter (λ p, is_long p.1) string_table.

Definition takes_value (o : opt_spec) : bool := match act o with Store => true | _ => false end.
Definition store (o : opt_spec) (s : string) (v : values) : values :=
  dict_set v (dest o) (VText s).
(** [option.process] of an option without a value *)
Definition take_action (o : opt_spec) (v : values) : outcome values :=
  match act o with
  | StoreTrue => Parsed (dict_set v (dest o) (VFlag true))
  | StoreFalse => Parsed (dict_set v (dest o) (VFlag false))
  | Help => HelpAsked
  | Store => Parsed v
  end.

(** [_match_long_opt] and the option it names *)
Definition match_long_opt (s : string) : outcome (string * opt_spec) :=
  match dict_get long_table s with
  | Some o => Parsed (s, o)
  | None =>
      match List.filter (λ p, startswith p.1 s) long_table with
      | [p] => Parsed p
      | [] => UsageError ("no such option: " +:+ s)
      | l => UsageError ("ambiguous option: " +:+ s +:+ " (" +:+
                         join ", " (merge_sort string_le l.*1) +:+ "?)")
      end
  end.

Definition short_string (c : ascii) : string := String "-" (String c EmptyString).

(** the characters of a cluster; an option at its end that still wants its value is returned *)
Fixpoint process_short (s : string) (v : values)
    : outcome (values * option (string * opt_spec)) :=
  match s with
  | EmptyString => Parsed (v, None)
  | String c s =>
      match dict_get string_table (short_string c) with
      | None => UsageError ("no such option: " +:+ short_string c)
      | Some o =>
          if takes_value o then
            if truthy s then Parsed (store o s v, None) else Parsed (v, Some (short_string c, o))
          else v ← take_action o v; process_short s v
      end
  end.

Definition wants_value (s : string) : string := s +:+ " option requires 1 argument".
(** ["="] splits a long option from its value *)
Definition split_value (arg : string) : string * option string :=
  match split_once "="%char arg with Some (a, b) => (a, Some b) | None => (arg, None) end.
Definition is_cluster (arg : string) : bool := startswith arg "-" && (1 <? String.length arg).

(** [_process_args]: the words that are no options are collected in [largs] *)
Fixpoint process_args (args largs : list string) (v : values) : outcome (values * list string) :=
  match args with
  | [] => Parsed (v, largs)
  | arg :: rest =>
      if (arg =? "--")%string then Parsed (v, largs ++ rest)
      else if startswith arg "--" then
        let '(name, explicit) := split_value arg in
        '(s, o) ← match_long_opt name;
        if takes_value o then
          match explicit, rest with
          | Some x, _ => process_args rest largs (store o x v)
          | None, x :: rest => process_args rest largs (store o x v)
          | None, [] => UsageError (wants_value s)
          end
        else
          match explicit with
          | Some _ => UsageError (s +:+ " option does not take a value")
          | None => v ← take_action o v; process_args rest largs v
          end
      else if is_cluster arg then
        '(v, pending) ← process_short (str_drop 1 arg) v;
        match pending, rest with
        | None, _ => process_args rest largs v
        | Some (_, o), x :: rest => process_args rest largs (store o x v)
        | Some (s, _), [] => UsageError (wants_value s)
        end
      else process_args rest (largs ++ [arg]) v
  end.

(** [parse_args]: the values and the positional arguments *)
Definition parse_args (args : list string) : outcome (values * list string) :=
  process_args args [] (get_default_values table).
End parse.

(** ** Reading an attribute of the parsed values: a text, a text or None, a flag *)
Definition text_of (v : values) (k : string) : result string :=
  match dict_get v k with
  | Some (VText s) => Ok s
  | Some _ => Raise TypeError
  | None => Raise AttributeError
  end.
Definition opt_text_of (v : values) (k : string) : result (option string) :=
  match dict_get v k with
  | Some (VText s) => Ok (Some s)
  | Some VNone => Ok None
  | Some (VFlag _) => Raise TypeError
  | None => Raise AttributeError
  end.
Definition flag_of (v : values) (k : string) : result bool :=
  match dict_get v k with
  | Some (VFlag b) => Ok b
  | Some _ => Raise TypeError
  | None => Raise AttributeError
  end.
End OptParse.

(** ** The grammar of command lines *)
Module CommandLine.
Import OptParse.

(** one group of arguments: a word; a long option alone, with its value behind the equals sign or
    in the next argument; a cluster of short options, without a value, with the value in the same
    or in the next argument *)
Inductive item :=
  | Word (w : string)
  | Long (written : string) (value : option string)
  | LongNext (written v : string)
  | Short (flags : string)
  | ShortValue (flags : string) (c : ascii) (v : string)
  | ShortNext (flags : string) (c : ascii) (v : string).

Definition render (i : item) : list string :=
  match i with
  | Word w => [w]
  | Long w None => [w]
  | Long w (Some v) => [w +:+ "=" +:+ v]
  | LongNext w v => [w; v]
  | Short f => ["-" +:+ f]
  | ShortValue f c v => ["-" +:+ f +:+ String c v]
  | ShortNext f c v => ["-" +:+ f +:+ String c EmptyString; v]
  end.
Definition words_of (i : item) : list string := match i with Word w => [w] | _ => [] end.

Section grammar.
  Variable table : list opt_spec.

(** the option that a long name, whole or abbreviated, or a character stands for *)
Definition long_opt (written : string) : option opt_spec :=
  match match_long_opt table written with Parsed (_, o) => Some o | _ => None end.
Definition short_opt (c : ascii) : option opt_spec :=
  dict_get (string_table table) (short_string c).

Definition is_flag (o : opt_spec) : bool :=
  match act o with StoreTrue | StoreFalse => true | _ => false end.
Definition found_flag (o : option opt_spec) : bool :=
  match o with Some o => is_flag o | None => false end.
Definition found_store (o : option opt_spec) : bool :=
  match o with Some o => takes_value o | None => false end.

Definition is_word (w : string) : bool := negb (startswith w "-") || (w =? "-")%string.
Definition long_name (w : string) : bool :=
  startswith w "--" && negb (w =? "--")%string && negb (has_char "=" w).
(** a cluster does not begin with a second dash *)
Definition no_dash (s : string) : bool := negb (startswith s "-").

Definition valid (i : item) : bool :=
  match i with
  | Word w => is_word w
  | Long w None => long_name w && found_flag (long_opt w)
  | Long w (Some _) => startswith w "--" && negb (has_char "=" w) && found_store (long_opt w)
  | LongNext w _ => long_name w && found_store (long_opt w)
  | Short f => truthy f && no_dash f && str_all (λ c, found_flag (short_opt c)) f
  | ShortValue f c v =>
      truthy v && no_dash (f +:+ String c v) &&
      str_all (λ c, found_flag (short_opt c)) f && found_store (short_opt c)
  | ShortNext f c _ =>
      no_dash (f +:+ String c EmptyString) &&
      str_all (λ c, found_flag (short_opt c)) f && found_store (short_opt c)
  end.

(** what an item assigns *)
Definition set_flag (o : option opt_spec) (v : values) : values :=
  match o with
  | Some o => dict_set v (dest o) (VFlag (match act o with StoreTrue => true | _ => false end))
  | None => v
  end.
Definition set_text (o : option opt_spec) (s : string) (v : values) : values :=
  match o with Some o => store o s v | None => v end.
Fixpoint set_flags (f : string) (v : values) : values :=
  match f with EmptyString => v | String c f => set_flags f (set_flag (short_opt c) v) end.
Definition meaning (i : item) (v : values) : values :=
  match i with
  | Word _ => v
  | Long w None => set_flag (long_opt w) v
  | Long w (Some x) => set_text (long_opt w) x v
  | LongNext w x => set_text (long_opt w) x v
  | Short f => set_flags f v
  | ShortValue f c x | ShortNext f c x => set_text (short_opt c) x (set_flags f v)
  end.
Definition meanings (l : list item) (v : values) : values := foldl (λ v i, meaning i v) v l.

(** a command line: items, and perhaps two dashes with words behind them *)
Definition command_line (l : list item) (tail : option (list string)) : list string :=
  (l ≫= render) ++ match tail with Some ws => "--" :: ws | None => [] end.
Definition positional (l : list item) (tail : option (list string)) : list string :=
  (l ≫= words_of) ++ default [] tail.
End grammar.
End CommandLine.

(** ** Facts *)
Module OptParseFacts.
Import OptParse CommandLine.

Section facts.
  Context (table : list opt_spec).
  #[local] Abbreviation process := (process_args table).

Lemma take_flag o v : is_flag o = true → take_action o v = Parsed (set_flag (Some o) v).
Proof. unfold is_flag, take_action, set_flag. by destruct (act o). Qed.
Lemma flag_no_value o : is_flag o = true → takes_value o = false.
Proof. unfold is_flag, takes_value. by destruct (act o). Qed.
Lemma take_action_flag o v v' : takes_value o = false → take_action o v = Parsed v' → is_flag o = true.
Proof. unfold is_flag, takes_value, take_action. by destruct (act o). Qed.

(** *** Clusters *)
Definition all_flags (f : string) : bool := str_all (λ c, found_flag (short_opt table c)) f.

Lemma process_short_flags f s v :
  all_flags f = true → process_short table (f +:+ s) v = process_short table s (set_flags table f v).
Proof.
  revert v. induction f as [|c f IH]; intros v Hf; [done|]. unfold all_flags in Hf.
  cbn [str_all] in Hf. apply andb_true_iff in Hf as [Hc Hf]. rewrite sapp_cons.
  cbn [process_short set_flags]. fold (short_opt table c).
  destruct (short_opt table c) as [o|]; [|done]. cbn [found_flag] in Hc.
  rewrite flag_no_value, take_flag by done. by apply IH.
Qed.

(** a cluster that is accepted is a row of flags, perhaps with an option that takes a value *)
Lemma process_short_inv s v v' pending :
  process_short table s v = Parsed (v', pending) →
  ∃ f, all_flags f = true ∧
    (s = f ∧ pending = None ∨
     ∃ c o x, s = f +:+ String c x ∧ short_opt table c = Some o ∧ takes_value o = true ∧
              pending = if truthy x then None else Some (short_string c, o)).
Proof.
  revert v. induction s as [|c s IH]; intros v H.
  { injection H as <- <-. exists EmptyString. by split; [|left]. }
  cbn [process_short] in H. fold (short_opt table c) in H.
  destruct (short_opt table c) as [o|] eqn:Eo; [|done].
  destruct (takes_value o) eqn:Et.
  { exists EmptyString. split; [done|]. right. exists c, o, s. rewrite sapp_nil_l.
    split_and!; [done..|]. destruct (truthy s); by injection H as _ <-. }
  destruct (take_action o v) as [v1| |] eqn:Ea; try done.
  assert (Hflag : found_flag (short_opt table c) = true).
  { rewrite Eo. by eapply take_action_flag. }
  destruct (IH v1 H) as (f & Hf & Hcase). exists (String c f). split.
  { unfold all_flags. cbn [str_all]. by rewrite Hflag. }
  destruct Hcase as [[-> ->]|(c' & o' & x & -> & H1 & H2 & H3)]; [by left|right].
  by exists c', o', x.
Qed.

Lemma process_short_value f c o x v :
  all_flags f = true → short_opt table c = Some o → takes_value o = true →
  process_short table (f +:+ String c x) v =
    if truthy x then Parsed (store o x (set_flags table f v), None)
    else Parsed (set_flags table f v, Some (short_string c, o)).
Proof.
  intros Hf Hc Ho. rewrite process_short_flags by done. cbn [process_short].
  fold (short_opt table c). by rewrite Hc, Ho.
Qed.

(** *** One item *)
Lemma long_opt_match w o :
  long_opt table w = Some o → ∃ s, match_long_opt table w = Parsed (s, o).
Proof.
  unfold long_opt. destruct (match_long_opt table w) as [[s o']| |]; [|done..].
  intros [= <-]. by exists s.
Qed.
Lemma found_flag_opt x : found_flag x = true → ∃ o, x = Some o ∧ is_flag o = true.
Proof. destruct x as [o|]; [|done]. by exists o. Qed.
Lemma found_store_opt x : found_store x = true → ∃ o, x = Some o ∧ takes_value o = true.
Proof. destruct x as [o|]; [|done]. by exists o. Qed.

Definition attached (e : option string) : string :=
  match e with Some x => String "=" x | None => EmptyString end.
(** the parser on an argument that begins with two dashes *)
Lemma process_long w e rest largs v s o :
  ((w +:+ attached e) =? "--")%string = false →
  startswith w "--" = true → has_char "=" w = false → match_long_opt table w = Parsed (s, o) →
  process ((w +:+ attached e) :: rest) largs v =
    if takes_value o then
      match e, rest with
      | Some x, _ => process rest largs (store o x v)
      | None, x :: rest => process rest largs (store o x v)
      | None, [] => UsageError (wants_value s)
      end
    else
      match e with
      | Some _ => UsageError (s +:+ " option does not take a value")
      | None => v ← take_action o v; process rest largs v
      end.
Proof.
  intros Hne Hw Heq Hm. cbn [process_args]. rewrite Hne.
  assert (startswith (w +:+ attached e) "--" = true)
    as ->.
  { apply startswith_spec in Hw as [r ->]. rewrite sapp_assoc. apply startswith_app. }
  apply has_char_no_char in Heq. unfold split_value, attached.
  destruct e as [x|].
  - rewrite split_once_app by done. cbn [mbind outcome_bind]. by rewrite Hm.
  - rewrite sapp_nil_r, split_once_None by done. cbn [mbind outcome_bind]. by rewrite Hm.
Qed.

(** the parser on a cluster *)
Lemma process_cluster s rest largs v :
  truthy s = true → no_dash s = true →
  process (("-" +:+ s) :: rest) largs v =
    ('(v, pending) ← process_short table s v;
     match pending, rest with
     | None, _ => process rest largs v
     | Some (_, o), x :: rest => process rest largs (store o x v)
     | Some (w, _), [] => UsageError (wants_value w)
     end).
Proof.
  intros Hs Hd. destruct s as [|c s]; [done|]. cbn [process_args].
  unfold no_dash in Hd. apply negb_true_iff in Hd. cbn [startswith] in Hd.
  assert (Hc : Ascii.eqb "-" c = false) by (destruct s; by rewrite andb_true_r in Hd).
  change ("-" +:+ String c s) with (String "-" (String c s)).
  assert ((String "-" (String c s) =? "--") = false)%string as ->.
  { apply String.eqb_neq. intros [= -> _]. by rewrite Ascii.eqb_refl in Hc. }
  assert (startswith (String "-" (String c s)) "--" = false) as ->.
  { cbn [startswith]. rewrite Ascii.eqb_refl, Hc. done. }
  reflexivity.
Qed.

Lemma is_word_process w rest largs v :
  is_word w = true → process (w :: rest) largs v = process rest (largs ++ [w]) v.
Proof.
  unfold is_word. intros Hw. cbn [process_args]. apply orb_true_iff in Hw as [Hw|Hw].
  - apply negb_true_iff in Hw. unfold is_cluster. rewrite Hw.
    destruct w as [|c w]; [done|]. cbn [startswith] in Hw.
    assert (Hc : Ascii.eqb "-" c = false) by (destruct w; by rewrite andb_true_r in Hw).
    assert ((String c w =? "--") = false)%string as ->.
    { apply String.eqb_neq. intros [= -> _]. by rewrite Ascii.eqb_refl in Hc. }
    cbn [startswith]. by rewrite Hc.
  - by apply String.eqb_eq in Hw as ->.
Qed.

Lemma long_name_app w : long_name w = true →
  startswith w "--" = true ∧ (w =? "--")%string = false ∧ has_char "=" w = false.
Proof.
  unfold long_name. rewrite !andb_true_iff, !negb_true_iff. tauto.
Qed.

Lemma attached_not_dashes w x : has_char "=" w = false → (w +:+ String "=" x =? "--")%string = false.
Proof.
  intros _. apply String.eqb_neq. intros H.
  assert (Hn : no_char "=" "--") by done. rewrite <- H in Hn. apply no_char_app in Hn as [_ Hn].
  by apply no_char_cons in Hn as [? _].
Qed.

(** the parser takes a valid item and goes on behind it *)
Lemma process_item i rest largs v :
  valid table i = true →
  process (render i ++ rest) largs v = process rest (largs ++ words_of i) (meaning table i v).
Proof.
  destruct i as [w|w [x|]|w x|f|f c x|f c x]; cbn [valid render words_of meaning app];
    rewrite ?andb_true_iff; intros Hv; rewrite ?app_nil_r.
  - by apply is_word_process.
  - destruct Hv as [[Hw Heq] (o & Ho & Ht)%found_store_opt]. rewrite Ho. cbn [set_text].
    apply long_opt_match in Ho as [s Ho]. apply negb_true_iff in Heq.
    change ("=" +:+ x) with (attached (Some x)).
    rewrite (process_long w (Some x) rest largs v s o) by eauto using attached_not_dashes.
    by rewrite Ht.
  - destruct Hv as [(Hw & Hne & Heq)%long_name_app (o & Ho & Hf)%found_flag_opt]. rewrite Ho.
    apply long_opt_match in Ho as [s Ho].
    pose proof (process_long w None rest largs v s o) as Hp.
    cbn [attached] in Hp. rewrite sapp_nil_r in Hp.
    rewrite Hp by done. by rewrite flag_no_value, take_flag by done.
  - destruct Hv as [(Hw & Hne & Heq)%long_name_app (o & Ho & Ht)%found_store_opt]. rewrite Ho.
    apply long_opt_match in Ho as [s Ho].
    pose proof (process_long w None (x :: rest) largs v s o) as Hp.
    cbn [attached] in Hp. rewrite sapp_nil_r in Hp.
    rewrite Hp by done. by rewrite Ht.
  - destruct Hv as [[Ht Hd] Hf]. rewrite process_cluster by done.
    rewrite <- (sapp_nil_r f) at 1. by rewrite process_short_flags.
  - destruct Hv as [[[Hx Hd] Hf] (o & Ho & Ht)%found_store_opt].
    rewrite process_cluster; [|by destruct f|done].
    rewrite (process_short_value f c o) by done. by rewrite Hx, Ho.
  - destruct Hv as [[Hd Hf] (o & Ho & Ht)%found_store_opt].
    rewrite process_cluster; [|by destruct f|done].
    rewrite (process_short_value f c o) by done. by rewrite Ho.
Qed.

Lemma process_items l rest largs v :
  forallb (valid table) l = true →
  process ((l ≫= render) ++ rest) largs v =
    process rest (largs ++ (l ≫= words_of)) (meanings table l v).
Proof.
  revert largs v. induction l as [|i l IH]; intros largs v Hl.
  { cbn. by rewrite app_nil_r. }
  cbn [forallb] in Hl. apply andb_true_iff in Hl as [Hi Hl].
  cbn [mbind list_bind]. rewrite <- app_assoc, process_item by done. fold (mbind render l).
  rewrite IH by done. by rewrite <- app_assoc.
Qed.

(** *** What is accepted begins with an item *)
Lemma first_item arg rest largs v r :
  (arg =? "--")%string = false → process (arg :: rest) largs v = Parsed r →
  ∃ i rest', valid table i = true ∧ arg :: rest = render i ++ rest' ∧
             (length rest' < length (arg :: rest))%nat.
Proof.
  intros Hne H. destruct (startswith arg "--") eqn:El.
  { unfold split_value in *. cbn [process_args] in H. rewrite Hne, El in H. unfold split_value in H.
    destruct (split_once "=" arg) as [[w x]|] eqn:Es.
    - apply split_once_inv in Es as [-> Hno].
      destruct (match_long_opt table w) as [[s o]| |] eqn:Em; try done. cbn [mbind outcome_bind] in H.
      destruct (takes_value o) eqn:Et; [|done].
      exists (Long w (Some x)), rest. split; [|split; [done|cbn; lia]]. cbn [valid].
      rewrite !andb_true_iff, negb_true_iff. split_and!.
      + destruct w as [|a [|b w]]; [done| |].
        * cbn [startswith] in El. by destruct (Ascii.eqb "-" a).
        * cbn [startswith] in *. by destruct w.
      + by apply has_char_no_char.
      + unfold long_opt. by rewrite Em.
    - apply split_once_none_inv in Es.
      destruct (match_long_opt table arg) as [[s o]| |] eqn:Em; try done.
      cbn [mbind outcome_bind] in H.
      assert (Hl : long_name arg = true).
      { unfold long_name. rewrite El, Hne. by apply has_char_no_char in Es as ->. }
      destruct (takes_value o) eqn:Et.
      + destruct rest as [|x rest]; [done|]. exists (LongNext arg x), rest.
        split; [|split; [done|cbn; lia]]. cbn [valid]. unfold long_opt. rewrite Em, Hl. done.
      + destruct (take_action o v) as [v1| |] eqn:Ea; try done. exists (Long arg None), rest.
        split; [|split; [done|cbn; lia]]. cbn [valid]. unfold long_opt. rewrite Em, Hl.
        cbn [found_flag andb]. by eapply take_action_flag. }
  destruct (is_cluster arg) eqn:Ec.
  2:{ exists (Word arg), rest. split; [|split; [done|cbn; lia]]. cbn [valid]. unfold is_word.
      unfold is_cluster in Ec. destruct (startswith arg "-") eqn:Ed; [|done].
      cbn [andb negb] in *. apply startswith_spec in Ed as [s ->]. by destruct s. }
  unfold is_cluster in Ec. apply andb_true_iff in Ec as [Ed Ec].
  apply startswith_spec in Ed as [s ->].
  assert (Ht : truthy s = true) by by destruct s.
  assert (Hd : no_dash s = true).
  { unfold no_dash. destruct s as [|a s]; [done|]. cbn [startswith] in El |- *.
    change ("-" +:+ String a s) with (String "-" (String a s)) in El. cbn [startswith] in El.
    by rewrite Ascii.eqb_refl in El; cbn [andb] in El; rewrite El. }
  rewrite process_cluster in H by done.
  destruct (process_short table s v) as [[v1 pending]| |] eqn:Es; try done.
  cbn [mbind outcome_bind] in H.
  apply process_short_inv in Es as (f & Hf & [[-> ->]|(c & o & x & -> & Ho & Hv & ->)]).
  - exists (Short f), rest. split; [|split; [done|cbn; lia]]. cbn [valid].
    fold (all_flags f). by rewrite Ht, Hd, Hf.
  - destruct x as [|a x].
    + destruct rest as [|y rest]; [done|]. exists (ShortNext f c y), rest.
      split; [|split; [done|cbn; lia]]. cbn [valid]. fold (all_flags f).
      by rewrite Hd, Hf, Ho.
    + exists (ShortValue f c (String a x)), rest.
      split; [|split; [done|cbn; lia]]. cbn [valid]. fold (all_flags f).
      by rewrite Hd, Hf, Ho.
Qed.

Lemma process_inv n : ∀ args largs v v' pos, (length args < n)%nat →
  process args largs v = Parsed (v', pos) →
  ∃ l tail, forallb (valid table) l = true ∧ args = command_line l tail ∧
    v' = meanings table l v ∧ pos = largs ++ positional l tail.
Proof.
  induction n as [|n IH]; intros args largs v v' pos Hn H; [lia|].
  destruct args as [|arg rest].
  { injection H as <- <-. exists [], None. cbn. by rewrite app_nil_r. }
  destruct (String.eqb_spec arg "--") as [->|Hne].
  { injection H as <- <-. by exists [], (Some rest). }
  apply String.eqb_neq in Hne.
  destruct (first_item arg rest largs v _ Hne H) as (i & rest' & Hi & Ei & Hlen).
  rewrite Ei, process_item in H by done.
  destruct (IH rest' _ _ _ _ ltac:(lia) H) as (l & tail & Hl & -> & -> & ->).
  exists (i :: l), tail. split; [cbn [forallb]; by rewrite Hi|].
  rewrite Ei. unfold command_line, positional. cbn [mbind list_bind].
  by rewrite <- !app_assoc.
Qed.

Lemma process_line l tail largs v :
  forallb (valid table) l = true →
  process (command_line l tail) largs v = Parsed (meanings table l v, largs ++ positional l tail).
Proof.
  intros Hl. unfold command_line, positional. rewrite process_items by done.
  destruct tail as [ws|]; cbn [process_args default].
  - by rewrite String.eqb_refl, <- app_assoc.
  - by rewrite app_nil_r.
Qed.

(** C37. The parser accepts exactly the command lines of the grammar, whatever the table of options:
    words, flags, options with a value attached or in the next argument, abbreviated long names and
    clusters, in any order, perhaps with two dashes and more words behind them; the values are the
    defaults with the assignments of the items in order, the positional arguments the words. *)
Theorem parse_args_grammar (args : list string) (v : values) (pos : list string) :
  parse_args table args = Parsed (v, pos) ↔
  ∃ l tail, forallb (valid table) l = true ∧ args = command_line l tail ∧
    v = meanings table l (get_default_values table) ∧ pos = positional l tail.
Proof.
  unfold parse_args. split.
  - intros H. exact (process_inv _ args [] _ v pos (Nat.lt_succ_diag_r _) H).
  - intros (l & tail & Hl & -> & -> & ->). by apply process_line.
Qed.
End facts.
End OptParseFacts.

(** ** Declared tables, and what items assign *)
Module OptTables.
Import OptParse CommandLine OptParseFacts.

Lemma add_options_app l t t' : add_options t l = Ok t' → t' = t ++ l.
Proof.
  revert t. induction l as [|o l IH]; intros t; cbn [add_options].
  { intros [= <-]. by rewrite app_nil_r. }
  unfold add_option. destruct (existsb _ _); [done|]. cbn [mbind result_bind].
  intros ->%IH. by rewrite <- app_assoc.
Qed.

Section tables.
  Variable table : list opt_spec.

(** the entries of the tables of strings *)
Lemma string_table_elem s o :
  (s, o) ∈ string_table table ↔ o ∈ table ∧ s ∈ opt_strings o.
Proof.
  unfold string_table. rewrite list_elem_of_bind. split.
  - intros (o' & Hp & Ho). apply list_elem_of_fmap in Hp as (s' & [= -> ->] & Hs). done.
  - intros [Ho Hs]. exists o. split; [|done]. apply list_elem_of_fmap. by exists s.
Qed.
Lemma long_table_elem s o :
  (s, o) ∈ long_table table ↔ (o ∈ table ∧ s ∈ opt_strings o) ∧ is_long s = true.
Proof. unfold long_table. by rewrite list_elem_of_In, filter_In, <- list_elem_of_In, string_table_elem. Qed.
(** a long name is an option string, or the beginning of just one entry *)
Lemma match_long_inv w s o :
  match_long_opt table w = Parsed (s, o) →
  (s, o) ∈ long_table table ∧
  (s = w ∨ (startswith s w = true ∧
            ∀ p, p ∈ long_table table → startswith p.1 w = true → p = (s, o))).
Proof.
  unfold match_long_opt. destruct (dict_get (long_table table) w) as [o'|] eqn:Eg.
  { intros [= <- <-]. split; [by apply dict_get_elem|by left]. }
  destruct (List.filter _ _) as [|p [|? ?]] eqn:Ef; try done. intros [= ->].
  assert (Hall : ∀ q, q ∈ long_table table → startswith q.1 w = true → q = (s, o)).
  { intros q Hq Hs. apply list_elem_of_singleton. rewrite <- Ef.
    apply list_elem_of_In, filter_In. split; [by apply list_elem_of_In|done]. }
  assert (Hin : In (s, o) [(s, o)]) by by left.
  rewrite <- Ef in Hin. apply filter_In in Hin as [Hin%list_elem_of_In Hs].
  split; [done|]. by right.
Qed.

(** the options that an item names *)
Definition short_opts (f : string) : list opt_spec :=
  list_ascii_of_string f ≫= λ c, option_list (short_opt table c).
Definition options_in (i : item) : list opt_spec :=
  match i with
  | Word _ => []
  | Long w _ | LongNext w _ => option_list (long_opt table w)
  | Short f => short_opts f
  | ShortValue f c _ | ShortNext f c _ => short_opts f ++ option_list (short_opt table c)
  end.
Lemma set_flag_other x v k :
  (∀ o, x = Some o → dest o ≠ k) → dict_get (set_flag x v) k = dict_get v k.
Proof. destruct x as [o|]; [|done]. intros Ho. by apply dict_get_set_ne, not_eq_sym, Ho. Qed.
Lemma set_text_other x s v k :
  (∀ o, x = Some o → dest o ≠ k) → dict_get (set_text x s v) k = dict_get v k.
Proof. destruct x as [o|]; [|done]. intros Ho. by apply dict_get_set_ne, not_eq_sym, Ho. Qed.
Lemma set_flags_other f v k :
  (∀ o, o ∈ short_opts f → dest o ≠ k) → dict_get (set_flags table f v) k = dict_get v k.
Proof.
  revert v. induction f as [|c f IH]; intros v Hf; [done|]. cbn [set_flags].
  unfold short_opts in *. cbn [list_ascii_of_string mbind list_bind] in Hf.
  rewrite IH by set_solver. apply set_flag_other. intros o Ho. apply Hf. rewrite Ho. set_solver.
Qed.
Lemma meanings_other l v k :
  (∀ i o, i ∈ l → o ∈ options_in i → dest o ≠ k) → dict_get (meanings table l v) k = dict_get v k.
Proof.
  revert v. induction l as [|i l IH]; intros v Hl; [done|]. cbn [meanings foldl].
  etransitivity; [apply IH; intros j o Hj; apply Hl; by right|].
  assert (Hi : ∀ o, o ∈ options_in i → dest o ≠ k) by (intros o; apply Hl; by left).
  destruct i as [w|w [x|]|w x|f|f c x|f c x]; cbn [meaning options_in] in *; try done.
  - apply set_text_other. intros o Ho. apply Hi. rewrite Ho. set_solver.
  - apply set_flag_other. intros o Ho. apply Hi. rewrite Ho. set_solver.
  - apply set_text_other. intros o Ho. apply Hi. rewrite Ho. set_solver.
  - by apply set_flags_other.
  - rewrite set_text_other by (intros o Ho; apply Hi; rewrite Ho; set_solver).
    apply set_flags_other. set_solver.
  - rewrite set_text_other by (intros o Ho; apply Hi; rewrite Ho; set_solver).
    apply set_flags_other. set_solver.
Qed.
End tables.
End OptTables.

(** ** The types of the parsed values *)
Module OptTyping.
Import OptParse CommandLine OptParseFacts OptTables.

(** a value that an option may have: its default, or of the kind that it stores *)
Definition kind_ok (o : opt_spec) (x : value) : bool :=
  bool_decide (x = default_value o) ||
  match act o, x with
  | Store, VText _ | StoreTrue, VFlag _ | StoreFalse, VFlag _ => true
  | _, _ => false
  end.
(** options with one destination have one action and one default *)
Definition agree (o o' : opt_spec) : bool :=
  negb (has_dest o && has_dest o' && (dest o =? dest o')%string) ||
  (bool_decide (act o = act o') && bool_decide (default_value o = default_value o')).
Definition consistent (table : list opt_spec) : bool :=
  forallb (λ o, forallb (agree o) table) table.

Section typing.
  Variable table : list opt_spec.
  Hypothesis table_consistent : consistent table = true.

(** every destination has a value its options may have *)
Definition typed (v : values) : Prop := ∀ o, o ∈ table → has_dest o = true →
  ∃ x, dict_get v (dest o) = Some x ∧ kind_ok o x = true.

Lemma same_dest o o' : o ∈ table → o' ∈ table → has_dest o = true → has_dest o' = true →
  dest o = dest o' → act o = act o' ∧ default_value o = default_value o'.
Proof using table_consistent.
  intros Ho%list_elem_of_In Ho'%list_elem_of_In Hd Hd' He. unfold consistent in table_consistent.
  rewrite forallb_forall in table_consistent. specialize (table_consistent _ Ho).
  rewrite forallb_forall in table_consistent. specialize (table_consistent _ Ho').
  unfold agree in table_consistent. rewrite Hd, Hd', He, String.eqb_refl in table_consistent.
  by apply andb_true_iff in table_consistent as [?%bool_decide_eq_true ?%bool_decide_eq_true].
Qed.
Lemma typed_set o x v :
  o ∈ table → has_dest o = true → kind_ok o x = true → typed v → typed (dict_set v (dest o) x).
Proof using table_consistent.
  intros Ho Hd Hx Hv o' Ho' Hd'. rewrite dict_get_set. case_decide as He; [|by apply Hv].
  exists x. split; [done|]. destruct (same_dest o' o) as [Ha Hdef]; try done.
  unfold kind_ok in *. by rewrite Ha, Hdef.
Qed.

(** the options that the parser finds are options of the table *)
Lemma short_in_table c o : short_opt table c = Some o → o ∈ table.
Proof. intros Hget%dict_get_elem. by apply string_table_elem in Hget as [? _]. Qed.
Lemma long_in_table w o : long_opt table w = Some o → o ∈ table.
Proof.
  unfold long_opt. destruct (match_long_opt table w) as [[s o']| |] eqn:Em; [|done..].
  intros [= <-]. apply match_long_inv in Em as [Em _]. by apply long_table_elem in Em as [[? _] _].
Qed.

(** every item keeps the values typed *)
Lemma typed_flag x v :
  (∀ o, x = Some o → o ∈ table) → found_flag x = true → typed v → typed (set_flag x v).
Proof using table_consistent.
  intros Hin (o & -> & Hf)%found_flag_opt Hv. cbn [set_flag]. unfold is_flag in Hf.
  assert (Ha : act o = StoreTrue ∨ act o = StoreFalse) by (destruct (act o); auto; done).
  apply typed_set; [by apply Hin|by unfold has_dest; destruct Ha as [-> | ->]| |done].
  unfold kind_ok. destruct Ha as [-> | ->]; apply orb_true_r.
Qed.
Lemma typed_text x s v :
  (∀ o, x = Some o → o ∈ table) → found_store x = true → typed v → typed (set_text x s v).
Proof using table_consistent.
  intros Hin (o & -> & Hf)%found_store_opt Hv. cbn [set_text]. unfold takes_value in Hf.
  assert (Ha : act o = Store) by by destruct (act o).
  apply typed_set; [by apply Hin|by unfold has_dest; rewrite Ha| |done].
  unfold kind_ok. rewrite Ha. apply orb_true_r.
Qed.
Lemma typed_flags f v : all_flags table f = true → typed v → typed (set_flags table f v).
Proof using table_consistent.
  revert v. induction f as [|c f IH]; intros v Hf Hv; [done|]. unfold all_flags in Hf.
  cbn [str_all] in Hf. apply andb_true_iff in Hf as [Hc Hf]. cbn [set_flags].
  apply IH; [done|]. by apply typed_flag; [apply short_in_table| |].
Qed.
#[local] Hint Resolve typed_flag typed_text typed_flags short_in_table long_in_table : pydb.

Lemma typed_item i v : valid table i = true → typed v → typed (meaning table i v).
Proof using table_consistent.
  destruct i as [w|w [x|]|w x|f|f c x|f c x]; cbn [valid meaning];
    rewrite ?andb_true_iff; try done; intros; destruct_and?; eauto with pydb.
Qed.
Lemma typed_meanings l v : forallb (valid table) l = true → typed v → typed (meanings table l v).
Proof using table_consistent.
  revert v. induction l as [|i l IH]; intros v Hl Hv; [done|]. cbn [forallb] in Hl.
  apply andb_true_iff in Hl as [Hi Hl]. apply IH; [done|]. by apply typed_item.
Qed.

(** the default of a destination is that of one of its options *)
Lemma defaults_get l v k :
  (∃ o, o ∈ l ∧ dest o = k ∧
     dict_get (foldl (λ v o, dict_set v (dest o) (default_value o)) v l) k = Some (default_value o)) ∨
  ((∀ o, o ∈ l → dest o ≠ k) ∧
     dict_get (foldl (λ v o, dict_set v (dest o) (default_value o)) v l) k = dict_get v k).
Proof.
  revert v. induction l as [|o l IH]; intros v.
  { right. split; [|done]. intros o Ho. by apply elem_of_nil in Ho. }
  cbn [foldl]. destruct (IH (dict_set v (dest o) (default_value o))) as [(o' & Ho' & Hk & Hg)|[Hno Hg]].
  - left. exists o'. split; [by right|done].
  - rewrite Hg, dict_get_set. case_decide as Hd.
    + left. exists o. split; [by left|done].
    + right. split; [|done]. intros o' [->|Ho']%elem_of_cons; [congruence|by apply Hno].
Qed.
Lemma default_value_of o :
  o ∈ table → has_dest o = true → dict_get (get_default_values table) (dest o) = Some (default_value o).
Proof using table_consistent.
  intros Ho Hd. unfold get_default_values.
  assert (Hin : o ∈ List.filter has_dest table).
  { apply list_elem_of_In, filter_In. split; [by apply list_elem_of_In|done]. }
  destruct (defaults_get (List.filter has_dest table) [] (dest o)) as [(o' & Ho' & Hk & Hg)|[Hno _]].
  - rewrite Hg. f_equal. apply list_elem_of_In, filter_In in Ho' as [Ho' Hd'].
    apply list_elem_of_In in Ho'. by destruct (same_dest o' o).
  - by destruct (Hno o Hin).
Qed.
Lemma typed_defaults : typed (get_default_values table).
Proof using table_consistent.
  intros o Ho Hd. exists (default_value o). split; [by apply default_value_of|].
  unfold kind_ok. by rewrite bool_decide_eq_true_2.
Qed.
Lemma parsed_typed args v pos : parse_args table args = Parsed (v, pos) → typed v.
Proof using table_consistent.
  intros Hp. destruct (process_inv table _ args [] _ v pos (Nat.lt_succ_diag_r _) Hp)
    as (l & tail & Hl & _ & -> & _). apply typed_meanings; [done|apply typed_defaults].
Qed.

(** an attribute of typed values is there and of its kind *)
Lemma text_of_typed v o d :
  typed v → o ∈ table → act o = Store → default_value o = VText d →
  ∃ s, text_of v (dest o) = Ok s.
Proof using Type.
  intros Hv Ho Ha Hd. destruct (Hv o Ho) as (x & Hx & Hk); [by unfold has_dest; rewrite Ha|].
  unfold text_of. rewrite Hx. unfold kind_ok in Hk. rewrite Ha, Hd in Hk.
  destruct x; try done. by eexists.
Qed.
Lemma opt_text_of_typed v o :
  typed v → o ∈ table → act o = Store → default_value o = VNone →
  ∃ s, opt_text_of v (dest o) = Ok s.
Proof using Type.
  intros Hv Ho Ha Hd. destruct (Hv o Ho) as (x & Hx & Hk); [by unfold has_dest; rewrite Ha|].
  unfold opt_text_of. rewrite Hx. unfold kind_ok in Hk. rewrite Ha, Hd in Hk.
  destruct x; try done; by eexists.
Qed.
Lemma flag_of_typed v o d :
  typed v → o ∈ table → act o = StoreTrue ∨ act o = StoreFalse → default_value o = VFlag d →
  ∃ b, flag_of v (dest o) = Ok b.
Proof using Type.
  intros Hv Ho Ha Hd.
  destruct (Hv o Ho) as (x & Hx & Hk); [by unfold has_dest; destruct Ha as [-> | ->]|].
  unfold flag_of. rewrite Hx. unfold kind_ok in Hk. rewrite Hd in Hk.
  destruct Ha as [Ha|Ha]; rewrite Ha in Hk; destruct x; try done; by eexists.
Qed.
End typing.
End OptTyping.
