(* ===== verification/TestMain.v ===== *)
(** * test.py: the command line and main

    [Cli] has the options that [main] declares, the record [Config.options] that the rest of the
    driver reads, filled from the parsed values, and [main] itself.  The parser is [OptParse]. *)
From Stdlib Require Import ZArith Lia Ascii String.
From stdpp Require Import base list strings.
From S2P Require Import Prelude PyStr OptParse TestReport TestConfig TestJobs TestRun.
#[local] Open Scope Z_scope.

Module Cli.
Import OptParse Driver Config Jobs RunJob Examples Run Main.

(** [add_option] with action store, and with action store_true *)
Definition text_opt (strings : list string) (dest default : string) : opt_spec :=
  {| opt_strings := strings; act := Store; dest := dest; default_value := VText default |}.
Definition flag_opt (strings : list string) (dest : string) : opt_spec :=
  {| opt_strings := strings; act := StoreTrue; dest := dest; default_value := VFlag false |}.

Definition main_options : list opt_spec :=
  [text_opt ["-b"; "--buildpath"] "buildpath" EmptyString;
   text_opt ["-c"; "--constrain"] "constrain" EmptyString;
   flag_opt ["-d"; "--duration"] "duration";
   text_opt ["-e"; "--example"] "example" EmptyString;
   flag_opt ["-u"; "--update-data"] "update_data";
   text_opt ["-f"; "--fullness"] "fullness" "QUICK";
   flag_opt ["-g"; "--grind"] "valgrind";
   flag_opt ["-i"; "--grind-xml"] "valgrind_xml";
   flag_opt ["-k"; "--kinds"] "kinds";
   flag_opt ["-l"; "--list"] "list";
   flag_opt ["-m"; "--multiple"] "multiple";
   flag_opt ["-n"; "--nowaf"] "nowaf";
   text_opt ["-p"; "--pyexample"] "pyexample" EmptyString;
   flag_opt ["-r"; "--retain"] "retain";
   text_opt ["-s"; "--suite"] "suite" EmptyString;
   text_opt ["-t"; "--text"] "text" EmptyString;
   flag_opt ["-v"; "--verbose"] "verbose";
   text_opt ["-w"; "--web"; "--html"] "html" EmptyString;
   text_opt ["-x"; "--xml"] "xml" EmptyString;
   flag_opt ["-z"; "--dlm"] "dlm_test_runner"].

(** the values as the record that the driver reads *)
Definition options_of (v : values) : result options :=
  buildpath ← text_of v "buildpath";
  constrain ← text_of v "constrain";
  duration ← flag_of v "duration";
  example ← text_of v "example";
  update_data ← flag_of v "update_data";
  fullness ← text_of v "fullness";
  valgrind ← flag_of v "valgrind";
  valgrind_xml ← flag_of v "valgrind_xml";
  kinds ← flag_of v "kinds";
  list_tests ← flag_of v "list";
  multiple ← flag_of v "multiple";
  nowaf ← flag_of v "nowaf";
  pyexample ← text_of v "pyexample";
  retain ← flag_of v "retain";
  suite ← text_of v "suite";
  text ← text_of v "text";
  verbose ← flag_of v "verbose";
  html ← text_of v "html";
  xml ← text_of v "xml";
  dlm_test_runner ← flag_of v "dlm_test_runner";
  Ok {| buildpath := buildpath; constrain := constrain; duration := duration; example := example;
        update_data := update_data; fullness := fullness; valgrind := valgrind;
        valgrind_xml := valgrind_xml; kinds := kinds; list_tests := list_tests;
        multiple := multiple; nowaf := nowaf; pyexample := pyexample; retain := retain;
        suite := suite; text := text; verbose := verbose; html := html; xml := xml;
        dlm_test_runner := dlm_test_runner |}.

Section main.
  (** the parameters of [run_tests] *)
  Variables (platform workdir script_dir date_and_time : string).
  Variables (eval_str with_ns3 : string → result string).
  Variable eval_strings : string → result (list string).
  Variable eval_cpp : string → result (list cpp_example).
  Variable eval_python : string → result (list python_example).
  Variable eval_cond : globals → string → result bool.
  Variable exec_line : string → globals → result globals.
  Variable show_item : globals → string → result string.
  Variable popen : nat → string → string → process.
  Variable parse_xml : string → option Etree.element.
  Variable interrupted_after : list Job → nat.
  (** the arguments behind the name of the program, the texts of the usage line and of the help *)
  Variables (usage help : string).

(** [parser.error(msg)] *)
Definition usage_error (msg : string) : py world (option Z) :=
  eprint usage ;; eprint ("test.py: error: " +:+ msg) ;; py_raise (SystemExit 2).

Definition main (args : list string) (g : globals) : py world (option Z) :=
  table ← py_lift (new_parser main_options);
  match parse_args table args with
  | HelpAsked => print help ;; py_raise (SystemExit 0)
  | UsageError msg => usage_error msg
  | Parsed (v, _) =>
      o ← py_lift (options_of v);
      run_tests platform workdir script_dir date_and_time eval_str with_ns3 eval_strings eval_cpp
        eval_python eval_cond exec_line show_item popen parse_xml interrupted_after o g
  end.
End main.
End Cli.

(** ** Facts *)
Module CliFacts.
Import OptParse CommandLine OptParseFacts OptTyping Driver Config Jobs RunJob Examples Run Main Cli.

Definition table : list opt_spec := help_option :: main_options.
Lemma parser_declared : new_parser main_options = Ok table.
Proof. by vm_compute. Qed.

(** *** The parsed values are always a record of options *)

Lemma table_consistent : consistent table = true.
Proof. by vm_compute. Qed.

Lemma typed_options v : typed table v → ∃ o, options_of v = Ok o.
Proof.
  intros Hv.
  assert (Ht : ∀ k d ss, text_opt ss k d ∈ main_options → ∃ s, text_of v k = Ok s).
  { intros k d ss Hin. eapply (text_of_typed table v (text_opt ss k d) d); [done|by right|done..]. }
  assert (Hf : ∀ k ss, flag_opt ss k ∈ main_options → ∃ b, flag_of v k = Ok b).
  { intros k ss Hin. eapply (flag_of_typed table v (flag_opt ss k) false); [done|by right|by left|done]. }
  unfold options_of.
  repeat match goal with
  | |- context [text_of v ?k] =>
      let s := fresh "s" in let E := fresh "E" in
      assert (∃ s, text_of v k = Ok s) as [s E] by (eapply Ht; repeat constructor);
      rewrite E; clear E; cbn [mbind result_bind]
  | |- context [flag_of v ?k] =>
      let s := fresh "s" in let E := fresh "E" in
      assert (∃ s, flag_of v k = Ok s) as [s E] by (eapply Hf; repeat constructor);
      rewrite E; clear E; cbn [mbind result_bind]
  end.
  by eexists.
Qed.

(** *** A command line for given options *)
Definition text_item (long value : string) : list item := [Long long (Some value)].
Definition flag_item (short : string) (b : bool) : list item := if b then [Short short] else [].
(** the items that ask for the options, one list for each option *)
Definition option_items (o : options) : list (list item) :=
  [text_item "--buildpath" (buildpath o); text_item "--constrain" (constrain o);
   flag_item "d" (duration o); text_item "--example" (example o); flag_item "u" (update_data o);
   text_item "--fullness" (fullness o); flag_item "g" (valgrind o); flag_item "i" (valgrind_xml o);
   flag_item "k" (kinds o); flag_item "l" (list_tests o); flag_item "m" (multiple o);
   flag_item "n" (nowaf o); text_item "--pyexample" (pyexample o); flag_item "r" (retain o);
   text_item "--suite" (suite o); text_item "--text" (text o); flag_item "v" (verbose o);
   text_item "--web" (html o); text_item "--xml" (xml o); flag_item "z" (dlm_test_runner o)].
Definition show_options (o : options) : list item := concat (option_items o).

(** the values after the options of the first items *)
Definition values_list (o : options) : list value :=
  [VText (buildpath o); VText (constrain o); VFlag (duration o); VText (example o);
   VFlag (update_data o); VText (fullness o); VFlag (valgrind o); VFlag (valgrind_xml o);
   VFlag (kinds o); VFlag (list_tests o); VFlag (multiple o); VFlag (nowaf o);
   VText (pyexample o); VFlag (retain o); VText (suite o); VText (text o); VFlag (verbose o);
   VText (html o); VText (xml o); VFlag (dlm_test_runner o)].
Definition values_upto (o : options) (k : nat) : values :=
  zip (dest <$> main_options) (take k (values_list o) ++ drop k (default_value <$> main_options)).

Ltac option_cases k Hk tac :=
  do 20 (destruct k as [|k];
    [cbn in Hk; injection Hk as <-;
     first [match goal with |- context [flag_item _ ?b] => destruct b; tac end | tac]|]);
  discriminate Hk.
Lemma item_valid o k l : option_items o !! k = Some l → forallb (valid table) l = true.
Proof. intros Hk. destruct o. option_cases k Hk ltac:(vm_compute; reflexivity). Qed.
Lemma item_step o k l : option_items o !! k = Some l →
  meanings table l (values_upto o k) = values_upto o (S k).
Proof. intros Hk. destruct o. option_cases k Hk ltac:(vm_compute; reflexivity). Qed.

Lemma items_meaning o ls k : (∀ i l, ls !! i = Some l → option_items o !! (k + i)%nat = Some l) →
  forallb (valid table) (concat ls) = true ∧
  meanings table (concat ls) (values_upto o k) = values_upto o (k + length ls).
Proof.
  revert k. induction ls as [|l ls IH]; intros k Hls; [by rewrite Nat.add_0_r|].
  assert (Hl : option_items o !! k = Some l) by (rewrite <- (Nat.add_0_r k); by apply Hls).
  destruct (IH (S k)) as [Hv Hm].
  { intros i l' Hi. rewrite Nat.add_succ_l, <- Nat.add_succ_r. by apply (Hls (S i)). }
  cbn [concat]. rewrite forallb_app, Hv, (item_valid o k l Hl). split; [done|].
  unfold meanings in *. rewrite foldl_app. fold (meanings table l (values_upto o k)).
  rewrite (item_step o k l Hl), Hm. cbn [length]. by rewrite Nat.add_succ_r.
Qed.

Lemma show_options_parsed o :
  forallb (valid table) (show_options o) = true ∧
  options_of (meanings table (show_options o) (get_default_values table)) = Ok o.
Proof.
  destruct (items_meaning o (option_items o) 0 (λ i l H, H)) as [Hv Hm]. split; [done|].
  change (get_default_values table) with (values_upto o 0). unfold show_options. rewrite Hm.
  by destruct o.
Qed.

(** positional arguments among the options *)
Definition option_item (i : item) : bool := match i with Word _ => false | _ => true end.
Lemma meanings_options l v :
  meanings table l v = meanings table (List.filter option_item l) v.
Proof. revert v. induction l as [|i l IH]; intros v; [done|]. destruct i; apply IH. Qed.
Lemma valid_options l :
  forallb (valid table) (List.filter option_item l) = true →
  Forall (λ p, is_word p = true) (l ≫= words_of) → forallb (valid table) l = true.
Proof.
  induction l as [|i l IH]; [done|]. intros Hv Hw.
  change ((i :: l) ≫= words_of) with (words_of i ++ (l ≫= words_of)) in Hw.
  apply Forall_app in Hw as [Hi Hw]. cbn [List.filter] in Hv. cbn [forallb].
  destruct i; cbn [option_item] in Hv;
    [apply Forall_cons in Hi as [Hi _]; rewrite IH by done; by rewrite andb_true_r|..];
    apply andb_true_iff in Hv as [Hv1 Hv]; rewrite Hv1; by apply IH.
Qed.

(** *** main *)
Section main_facts.
  Variables (platform workdir script_dir date_and_time : string).
  Variables (eval_str with_ns3 : string → result string).
  Variable eval_strings : string → result (list string).
  Variable eval_cpp : string → result (list cpp_example).
  Variable eval_python : string → result (list python_example).
  Variable eval_cond : globals → string → result bool.
  Variable exec_line : string → globals → result globals.
  Variable show_item : globals → string → result string.
  Variable popen : nat → string → string → process.
  Variable parse_xml : string → option Etree.element.
  Variable interrupted_after : list Job → nat.
  Variables (usage help : string).

#[local] Abbreviation run_main := (main platform workdir script_dir date_and_time eval_str with_ns3
  eval_strings eval_cpp eval_python eval_cond exec_line show_item popen parse_xml
  interrupted_after usage help).
#[local] Abbreviation run_with := (run_tests platform workdir script_dir date_and_time eval_str
  with_ns3 eval_strings eval_cpp eval_python eval_cond exec_line show_item popen parse_xml
  interrupted_after).

Lemma main_parsed l tail g w o :
  forallb (valid table) l = true →
  options_of (meanings table l (get_default_values table)) = Ok o →
  run_main (CommandLine.command_line l tail) g w = run_with o g w.
Proof.
  intros Hl Ho. unfold main. rewrite parser_declared.
  cbv [mbind py_bind py_lift]. unfold parse_args. rewrite process_line by done. by rewrite Ho.
Qed.

(** what a run leaves alone that only prints *)
Definition same_system (w w' : world) : Prop :=
  environ w' = environ w ∧ files w' = files w ∧ dirs w' = dirs w ∧ commands w' = commands w.

(** C14. On a command line of the grammar, [main] runs the tests with a record of options: the
    attributes it reads are always there and of the right kind.  On any other command line it ends
    with status 0, when help is asked for, or 2, without a process and without a change to the
    files or to the environment. *)
Theorem main_outcomes (args : list string) (g : globals) (w : world) :
  (∀ l tail, forallb (valid table) l = true → args = CommandLine.command_line l tail →
     ∃ o, options_of (meanings table l (get_default_values table)) = Ok o ∧
          run_main args g w = run_with o g w) ∧
  ((∀ l tail, forallb (valid table) l = true → args ≠ CommandLine.command_line l tail) →
     ∃ code w', (code = 0 ∨ code = 2) ∧ run_main args g w = (Raise (SystemExit code), w') ∧
       same_system w w').
Proof.
  split.
  - intros l tail Hl ->. destruct (typed_options (meanings table l (get_default_values table)))
      as [o Ho]; 
      [by apply typed_meanings, typed_defaults|].
    exists o. split; [done|]. by apply main_parsed.
  - intros Hno. unfold main. rewrite parser_declared. cbv [mbind py_bind py_lift].
    destruct (parse_args table args) as [[v pos]| |msg] eqn:Ep.
    + exfalso. unfold parse_args in Ep.
      destruct (process_inv table _ args [] _ v pos (Nat.lt_succ_diag_r _) Ep)
        as (l & tail & Hl & -> & _). by apply (Hno l tail).
    + exists 0. eexists. split; [by left|]. split; [reflexivity|]. by repeat split.
    + exists 2. eexists. split; [by right|]. split; [reflexivity|]. by repeat split.
Qed.

(** C15. Every record of options can be asked for: [main] on a command line that writes the options
    out, with any positional arguments before, between and behind them, also behind two dashes, runs
    the tests with just these options, whatever texts they have; the arguments are ignored. *)
Theorem options_command_line (o : options) (l : list item) (tail : option (list string))
    (g : globals) (w : world) (Hoptions : List.filter option_item l = show_options o)
    (Hwords : Forall (λ p, is_word p = true) (l ≫= words_of)) :
  run_main (CommandLine.command_line l tail) g w = run_with o g w.
Proof.
  destruct (show_options_parsed o) as [Hv Ho]. rewrite <- Hoptions in Hv, Ho.
  rewrite <- meanings_options in Ho. apply main_parsed; [by apply valid_options|done].
Qed.
End main_facts.
End CliFacts.

(** ** A concrete command line *)
Module CliExamples.
Import OptParse CommandLine Driver Config Jobs RunJob Examples Run Main Cli CliFacts RunExamples.

Definition sample_run {A} (f : (string → string → string → string → (string → result string) →
    (string → result string) → (string → result (list string)) →
    (string → result (list cpp_example)) → (string → result (list python_example)) →
    (globals → string → result bool) → (string → globals → result globals) →
    (globals → string → result string) → (nat → string → string → process) →
    (string → option Etree.element) → (list Job → nat) → A)) : A :=
  f "linux" "/src" "/src" "now" (λ s, Ok s) (λ s, Ok s) (λ _, Ok []) (λ _, Ok []) (λ _, Ok [])
    (λ _ _, Ok true) (λ _ g, Ok g) (λ _ s, Ok s) listing_popen (λ _, None) (λ js, length js).

(** words before and behind the options, and two dashes with a word that looks like an option *)
Definition sample_line : list string :=
  CommandLine.command_line
    ([Word "first"; Word "-"] ++ show_options (suite_options "tcp") ++ [Word "last"])
    (Some ["--verbose"]).
Example sample_line_texts :
  sample_line = ["first"; "-"; "--buildpath="; "--constrain="; "--example="; "--fullness=QUICK"; "-n";
                 "--pyexample="; "-r"; "--suite=tcp"; "--text="; "--web="; "--xml="; "last"; "--";
                 "--verbose"].
Proof. by vm_compute. Qed.
Lemma options_command_line_witness :
  sample_run main "usage" "help" sample_line sample_globals results_world =
  sample_run run_tests (suite_options "tcp") sample_globals results_world.
Proof.
  apply (options_command_line "linux" "/src" "/src" "now" (λ s, Ok s) (λ s, Ok s) (λ _, Ok [])
           (λ _, Ok []) (λ _, Ok []) (λ _ _, Ok true) (λ _ g, Ok g) (λ _ s, Ok s) listing_popen
           (λ _, None) (λ js, length js) "usage" "help" (suite_options "tcp")
           ([Word "first"; Word "-"] ++ show_options (suite_options "tcp") ++ [Word "last"])
           (Some ["--verbose"]) sample_globals results_world).
  - reflexivity.
  - repeat constructor.
Defined.
End CliExamples.
