(* ===== verification/WafScript.v ===== *)
(** * The build descriptions: wscript and the scripts below myscripts

    [Rules] has the helpers of src/wscript ([dce_kw], [build_a_script], [add_myscripts]) and the
    descriptions of the directories below src/myscripts; [Dce] has the libraries, tests and
    examples of DCE; [Top] the whole [build], with the status file it writes, and [shutdown].  They
    are actions on the build of [Ns3Module]; the listing of directories, the platform and the task
    generators of waf are parameters. *)
From Stdlib Require Import ZArith Lia Ascii String.
From stdpp Require Import base list strings gmap.
From S2P Require Import Prelude PyStr Utils TestReport TestConfig TestJobs TestRun.
From S2P Require Import ShellCmd WUtils Ns3Check Ns3Module ModuleGen.

Module Rules.
Import Env Build Modules.

(** a call with a target, a list of sources, and more keywords *)
Definition target_kw (target : string) (source : list string) (more : kwargs) : kwargs :=
  ("target", Some (VStr target)) :: ("source", Some (VList source)) :: more.
Definition list_kw (k : string) (l : list string) : string * option val := (k, Some (VList l)).
Definition str_kw (k s : string) : string * option val := (k, Some (VStr s)).

(** [search_file]: the first path that is a file *)
Definition search_file (isfile : string → bool) (files : list string) : option string :=
  List.find isfile files.

(** the keywords of a program that runs inside of DCE: a position independent executable *)
Definition dce_kw (machine : string) (kw : kwargs) : result kwargs :=
  let mcmodel := if (machine =? "x86_64")%string then ["-mcmodel=large"] else [] in
  let nofortify := ["-U_FORTIFY_SOURCE"] in
  kw ← kw_extend kw "cxxflags"
         (["-fpie"] ++ mcmodel ++ nofortify ++ ["-Wno-deprecated-declarations"]);
  kw ← kw_extend kw "cflags" (["-fpie"] ++ mcmodel ++ nofortify);
  kw_extend kw "linkflags" ["-pie"; "-lrt"; "-rdynamic"].

Section rules.
  Context {E : Type} `{WafEnv E}.
  (** [os.listdir], [os.path.isdir], the working directory *)
  Variable listdir : string → list string.
  Variable isdir : string → bool.
  Variable cwd : string.

Definition append_list (k : string) (l : list string) : py (mstate E) unit := py_modify (λ s,
  {| env := env_append (env s) k l; events := events s; logged := logged s |}).

(** a keyword that is a text, empty when it is something else *)
Definition kw_text (kw : kwargs) (k : string) : string :=
  match kw_get kw k with Some (VStr s) => s | _ => EmptyString end.

Definition build_a_script (name : string) (needed : list string) (kw : kwargs)
    : py (mstate E) unit :=
  let external := List.filter (λ i, negb (i =? name)%string) needed in
  ok ← modules_found external;
  if negb (ok : bool) then mret ()
  else
    kw ← py_lift (kw_extend kw "use" (modules_uselib needed));
    let kw := with_features kw in
    static ← get "NS3_ENABLE_STATIC";
    uses ← py_lift (kw_list kw "use");
    kw ← (if val_true static then static_linkflags uses kw else mret kw);
    emit (Generator kw) ;;
    emit (IsProgram (kw_text kw "target")) ;;
    append "NS3_RUNNABLE_PROGRAMS" name.

(** ** The directories below myscripts *)

(** ["ns3.35-" + lib + "-" + bld.env["LIB_SUFFIX"]] *)
Definition ns3_lib (lib : string) : py (mstate E) string :=
  v ← get "LIB_SUFFIX"; suffix ← py_lift (as_str v);
  mret ("ns3.35-" +:+ lib +:+ "-" +:+ suffix).

Definition script (needed : list string) (target : string) (source : list string) (more : kwargs)
    : py (mstate E) unit := build_a_script "dce" needed (target_kw target source more).
Definition when_set (k : string) (m : py (mstate E) unit) : py (mstate E) unit :=
  v ← get k; if val_true v then m else mret ().
Definition pie_program (flags : string) (source target : string) : py (mstate E) unit :=
  emit (Program [str_kw "source" source; str_kw "target" target; list_kw flags ["-fPIC"];
                 list_kw "linkflags" ["-pie"; "-rdynamic"]]).

Definition base_needed : list string := ["core"; "internet"; "dce"; "point-to-point"].
Definition rate_dual : list string :=
  ["../app-test/rate-dual-helper.cc"; "../app-test/rate-dual-application.cc"].

Definition build_120_demo : py (mstate E) unit :=
  nr_lib ← ns3_lib "nr";
  script ["core"; "network"; "internet"; "internet-apps"; "point-to-point"; "csma"; "mobility";
          "applications"; "dce"; "lte"; "wifi"; "spectrum"] "bin/120-demo"
    ("120-demo.cc" :: rate_dual) [list_kw "lib" [nr_lib]] ;;
  script ["core"; "network"; "internet"; "point-to-point"; "csma"; "mobility"; "applications";
          "wifi"; "spectrum"] "bin/link-info-wifi-only"
    ["link-info/wifi-only/link-info-wifi-only.cc"] [] ;;
  script ["core"; "network"; "internet"; "internet-apps"; "point-to-point"; "mobility";
          "applications"; "flow-monitor"; "lte"] "bin/link-info-nr-only"
    ["link-info/nr-only/link-info-nr-only.cc"] [list_kw "lib" [nr_lib]].
Definition build_app_test : py (mstate E) unit :=
  flow_monitor_lib ← ns3_lib "flow-monitor";
  script ["core"; "network"; "internet"; "point-to-point"; "mobility"; "applications"; "dce";
          "lte"; "wifi"] "bin/app-test1"
    ["app-test1.cc"; "rate-dual-helper.cc"; "rate-dual-application.cc"]
    [list_kw "lib" [flow_monitor_lib]].
Definition build_btorrent1 : py (mstate E) unit :=
  when_set "KERNEL_STACK" (script base_needed "bin/dce-bt1" ["dce-bt1.cc"] []).
Definition build_ccn_common : py (mstate E) unit :=
  pie_program "cflags" "my-client.c" "../../bin_dce/my-client" ;;
  pie_program "cflags" "my-serveur.c" "../../bin_dce/my-serveur" ;;
  pie_program "cflags" "lanceur.c" "../../bin_dce/lanceur" ;;
  pie_program "cxxflags" "bug1167.cc" "../../bin_dce/bug1167".
Definition build_ccn_exp1 : py (mstate E) unit :=
  script (base_needed ++ ["netanim"; "flow-monitor"]) "bin/dce-ccn-exp1" ["dce-ccn-exp1.cc"] [].
Definition build_ccn_mt1 : py (mstate E) unit :=
  script (base_needed ++ ["applications"]) "bin/dce-ccn-mt1" ["ccn-mt1.cc"] [].
Definition build_ccn_tap_vlc : py (mstate E) unit :=
  script ["core"; "internet"; "dce"; "tap-bridge"; "point-to-point"; "csma"] "bin/dce-ccn-vlc"
    ["dce-ccn-vlc.cc"] [].
Definition build_dce_emu_ping : py (mstate E) unit :=
  script ["core"; "internet"; "point-to-point"; "fd-net-device"; "dce"; "netanim"]
    "bin/dce-emu-ping" ["dce-emu-ping.cc"; "misc-tools.cc"] [].
Definition build_dce_mpi_udp : py (mstate E) unit :=
  when_set "MPI" (script (base_needed ++ ["mpi"]) "bin/dce-mpi-udp" ["dce-mpi-udp.cc"] []).
Definition build_dce_wifi_ofdma : py (mstate E) unit :=
  script ["core"; "network"; "internet"; "mobility"; "dce"; "wifi"; "spectrum"]
    "bin/dce-wifi-ofdma" ["dce-wifi-ofdma.cc"] [].
Definition build_dce_wifi : py (mstate E) unit :=
  nr_lib ← ns3_lib "nr"; flow_monitor_lib ← ns3_lib "flow-monitor";
  script ["core"; "network"; "internet"; "internet-apps"; "point-to-point"; "mobility";
          "applications"; "dce"; "lte"; "wifi"] "bin/dce-wifi" ["dce-wifi.cc"]
    [list_kw "lib" [nr_lib; flow_monitor_lib]].
Definition build_iperf_multi : py (mstate E) unit :=
  when_set "KERNEL_STACK"
    (script (base_needed ++ ["csma"]) "bin/dce-iperf-multi" ["dce-iperf-multi.cc"] []).
Definition build_loaders_test : py (mstate E) unit :=
  let linkerpath := abspath cwd (path_joins ".." ["elf-loader"; "ldso"]) in
  script base_needed "bin/dce-twin" ["dce-twin.cc"] [] ;;
  script base_needed "bin/vdl-dce-twin" ["dce-twin.cc"]
    [list_kw "linkflags" ["-Wl,--dynamic-linker=" +:+ linkerpath]] ;;
  emit (Program [str_kw "source" "mytest.cc"; str_kw "target" "../../bin_dce/mytest";
                 str_kw "use" "../../lib/mylib"; list_kw "cxxflags" ["-fPIC"];
                 list_kw "linkflags" ["-L" +:+ abspath cwd "build/lib/"; "-lmylib"; "-lstdc++";
                                      "-pie"; "-rdynamic"]]) ;;
  emit (Shlib [list_kw "source" ["mylib.cc"]; str_kw "target" "../../lib/mylib";
               list_kw "cflags" ["-g"]; list_kw "linkflags" ["-shared"; "-Wl,-soname=libmylib.so"]]).
Definition build_mini_debug : py (mstate E) unit :=
  nr_lib ← ns3_lib "nr";
  script ["core"; "network"; "internet"; "internet-apps"; "point-to-point"; "mobility";
          "applications"; "dce"; "lte"; "wifi"] "bin/dce-mini-debug"
    ("dce-mini-debug.cc" :: rate_dual) [list_kw "lib" [nr_lib]].
Definition build_mt2 : py (mstate E) unit :=
  script base_needed "bin/dce-mt2" ["dce-mt2.cc"] [] ;;
  pie_program "cflags" "mcreceive.c" "../../bin_dce/mcreceive" ;;
  pie_program "cflags" "mcsend.c" "../../bin_dce/mcsend".
Definition build_mt3 : py (mstate E) unit :=
  script (base_needed ++ ["netanim"; "mobility"]) "bin/dce-mt3" ["dce-mt3.cc"] [].
Definition build_nr_dce : py (mstate E) unit :=
  nr_lib ← ns3_lib "nr"; flow_monitor_lib ← ns3_lib "flow-monitor";
  script ["core"; "network"; "internet"; "internet-apps"; "point-to-point"; "mobility";
          "applications"; "dce"; "lte"] "bin/nr-dce" ["nr-dce.cc"]
    [list_kw "lib" [nr_lib; flow_monitor_lib]].
Definition pamptcp_needed : list string :=
  ["core"; "network"; "internet"; "internet-apps"; "point-to-point"; "csma"; "mobility";
   "applications"; "dce"; "lte"; "wifi"; "spectrum"].
Definition build_link_characteristics : py (mstate E) unit :=
  nr_lib ← ns3_lib "nr";
  script pamptcp_needed "bin/link-characteristics"
    (["link-characteristics.cc"; "pamptcp-profile.cc"; "link-characteristics-report.cc"] ++ rate_dual)
    [list_kw "lib" [nr_lib]].
Definition build_pamptcp : py (mstate E) unit :=
  nr_lib ← ns3_lib "nr";
  script pamptcp_needed "bin/pamptcp"
    (["pamptcp.cc"; "pamptcp-profile.cc"; "pamptcp-report.cc"] ++ rate_dual)
    [list_kw "lib" [nr_lib]].
Definition build_ping_mt1 : py (mstate E) unit :=
  script base_needed "bin/dce-ping-mt1" ["ping-mt1.cc"] [].
Definition build_ping : py (mstate E) unit :=
  script (base_needed ++ ["netanim"]) "bin/dce-ping" ["dce-ping.cc"; "misc-tools.cc"] [].
Definition build_sleep : py (mstate E) unit :=
  pie_program "cflags" "tenseconds.c" "../../bin_dce/tenseconds" ;;
  script ["core"; "dce"] "bin/dce-sleep" ["dce-sleep.cc"] [].
Definition build_tuto1 : py (mstate E) unit :=
  script base_needed "bin/dce-tuto1" ["dce-tuto1.cc"] [].
Definition build_tuto2 : py (mstate E) unit :=
  script base_needed "bin/dce-tuto2" ["dce-tuto2.cc"] [].
Definition build_tuto3 : py (mstate E) unit :=
  script base_needed "bin/dce-tuto3" ["dce-tuto3.cc"] [].

(** the descriptions of the repository, by directory *)
Definition script_builds : list (string * py (mstate E) unit) :=
  [("120-demo", build_120_demo); ("app-test", build_app_test); ("btorrent1", build_btorrent1);
   ("ccn-common", build_ccn_common); ("ccn-exp1", build_ccn_exp1); ("ccn-mt1", build_ccn_mt1);
   ("ccn-tap-vlc", build_ccn_tap_vlc); ("dce-emu-ping", build_dce_emu_ping);
   ("dce-mpi-udp", build_dce_mpi_udp); ("dce-wifi-ofdma", build_dce_wifi_ofdma);
   ("dce-wifi", build_dce_wifi); ("iperf-multi", build_iperf_multi);
   ("loaders-test", build_loaders_test); ("mini-debug", build_mini_debug); ("mt2", build_mt2);
   ("mt3", build_mt3); ("nr-dce", build_nr_dce);
   ("pamptcp-link-characteristics", build_link_characteristics); ("pamptcp", build_pamptcp);
   ("ping-mt1", build_ping_mt1); ("ping", build_ping); ("sleep", build_sleep);
   ("tuto1", build_tuto1); ("tuto2", build_tuto2); ("tuto3", build_tuto3)].

(** [bld.recurse] of a directory below myscripts; other directories are submodules, whose
    descriptions are outside of the repository *)
Variable submodule_build : string → py (mstate E) unit.
Definition recurse_script (dir : string) : py (mstate E) unit :=
  emit (Recurse (path_join "myscripts" dir)) ;;
  match dict_get script_builds dir with
  | Some m => m
  | None => submodule_build dir
  end.

(** ** add_myscripts *)
Definition hidden (dir : string) : bool := startswith dir "." || (dir =? "CVS")%string.
Definition is_dir (dir : string) : bool := isdir (path_join "myscripts" dir).
Definition is_submodule (dir : string) : bool := is_dir dir && startswith dir "ns-3-dce-".

(** the first loop: the submodules and the other entries *)
Fixpoint classify (dirs submodules scratches : list string) : list string * list string :=
  match dirs with
  | [] => (submodules, scratches)
  | dir :: dirs =>
      if hidden dir then classify dirs submodules scratches
      else if is_submodule dir then classify dirs (submodules ++ [dir]) scratches
      else classify dirs submodules (scratches ++ [dir])
  end.

(** an entry that is no submodule *)
Definition add_scratch (dir : string) : py (mstate E) unit :=
  if is_dir dir then recurse_script dir
  else if endswith dir ".cc" then
    found ← get_list "NS3_MODULES_FOUND";
    build_a_script "dce" (found ++ ["dce"])
      (target_kw ("bin/" +:+ ModuleGen.splitext_root dir) [path_join "myscripts" dir] [])
  else mret ().

Definition add_myscripts : py (mstate E) unit :=
  let '(submodules, scratches) := classify (listdir "myscripts") [] [] in
  py_for submodules recurse_script ;;
  py_for scratches add_scratch.
End rules.
End Rules.

(** ** The libraries, tests and examples of DCE *)
Module Dce.
Import Env Build Modules Rules.

(** needed modules, target and sources of an example *)
Definition example : Type := list string * string * list string.

Section dce.
  Context {E : Type} `{WafEnv E}.
  Variable out_dir path_from cwd machine : string.
  Variable sniff_features : list string → string → val.
  Variable listdir : string → list string.

Definition build_netlink : py (mstate E) unit :=
  create_module out_dir path_from cwd machine sniff_features "netlink"
    [list_kw "needed" ["internet"; "core"];
     list_kw "source" ["netlink/netlink-socket.cc"; "netlink/netlink-socket-address.cc";
                       "netlink/netlink-socket-factory.cc"; "netlink/netlink-attribute.cc";
                       "netlink/netlink-message.cc"; "netlink/netlink-message-route.cc"];
     list_kw "headers" ["netlink/netlink-socket-factory.h"; "netlink/netlink-socket-address.h"]] ;;
  mret ().

(** ** Tests *)
Definition O755 : Z := 493.

(** the test programs that are linked with the threads library *)
Definition pthread_tests : list string :=
  ["test-pthread"; "test-mutex"; "test-once"; "test-pthread-key"; "test-sem"; "test-cond";
   "test-select"; "test-local-socket"; "test-poll"; "test-tcp-socket"].
Definition tests : list string :=
  ["test-empty"; "test-sleep"; "test-nanosleep"; "test-pthread"; "test-mutex"; "test-once";
   "test-pthread-key"; "test-sem"; "test-malloc"; "test-malloc-2"; "test-fd-simple";
   "test-strerror"; "test-stdio"; "test-string"; "test-netdb"; "test-env"; "test-cond";
   "test-timer-fd"; "test-stdlib"; "test-select"; "test-random"; "test-ioctl"; "test-fork";
   "test-local-socket"; "test-poll"; "test-tcp-socket"; "test-exec"; "test-exec-target-1";
   "test-raw-socket"; "test-fork-fd"; "test-iperf"; "test-name"; "test-pipe"; "test-dirent";
   "test-socket"; "test-bug-multi-select"; "test-tsearch"; "test-signal"; "test-clock-gettime";
   "test-gcc-builtin-apply"].
Definition uselib_of (name : string) : list string :=
  if bool_decide (name ∈ pthread_tests) then ["PTHREAD"] else [].

Definition addon_tests : list string :=
  (λ subdir, "test/addons/" +:+ subdir) <$>
  List.filter (λ subdir, negb (hidden subdir) && endswith subdir ".cc") (listdir "test/addons").

Definition add_dce_test (module : ns3_module) (name : string) : py (mstate E) unit :=
  kw ← py_lift (dce_kw machine (target_kw ("bin_dce/" +:+ name) ["test/" +:+ name +:+ ".cc"]
                  [list_kw "use" (uselib_of name ++ ["lib/test"])]));
  add_test path_from module [] kw ;;
  emit (InstallMode "${PREFIX}/bin_dce" ("build/bin_dce/" +:+ name) O755).

Definition build_dce_tests (module : ns3_module) : py (mstate E) unit :=
  kernel ← get "KERNEL_STACK";
  add_runner_test out_dir path_from cwd machine sniff_features module
    ["core"; "dce"; "internet"; "applications"] None
    [list_kw "source"
       (["test/dce-manager-test.cc"] ++
        (if val_true kernel then ["test/dce-cradle-test.cc"; "test/dce-mptcp-test.cc"] else []) ++
        addon_tests)] ;;
  add_test path_from module []
    [str_kw "features" "cxx cxxshlib"; list_kw "source" ["test/test-macros.cc"];
     str_kw "target" "lib/test"; list_kw "linkflags" ["-Wl,-soname=libtest.so"]] ;;
  emit (InstallMode "${PREFIX}/lib" "lib/libtest.so" O755) ;;
  py_for tests (add_dce_test module).

(** ** Examples *)

(** the programs that run inside of DCE, with their libraries *)
Definition dce_examples : list (string * list string) :=
  [("udp-server", []); ("udp-client", []); ("udp-perf", ["m"]); ("tcp-server", []);
   ("tcp-client", []); ("tcp-loopback", []); ("unix-server", []); ("unix-client", []);
   ("udp-echo-server", []); ("udp-echo-client", []); ("dccp-server", []); ("dccp-client", []);
   ("freebsd-iproute", [])].
Definition sctp_examples : list (string * list string) :=
  [("sctp-server", ["sctp"]); ("sctp-client", ["sctp"])].
Definition simulations : list example :=
  [(["core"; "internet"; "dce"], "bin/dce-tcp-simple", ["example/dce-tcp-simple.cc"]);
   (["core"; "internet"; "dce"], "bin/dce-udp-simple", ["example/dce-udp-simple.cc"]);
   (["core"; "internet"; "dce"], "bin/dce-ccnd-simple", ["example/ccnx/dce-ccnd-simple.cc"]);
   (["core"; "internet"; "dce"], "bin/dce-ccnd-short-stuff",
    ["example/ccnx/dce-ccnd-short-stuff.cc"]);
   (["core"; "internet"; "dce"; "tap-bridge"; "point-to-point"; "csma"], "bin/dce-tap-udp-echo",
    ["example/ccnx/dce-tap-udp-echo.cc"]);
   (["core"; "internet"; "dce"; "tap-bridge"; "csma"], "bin/dce-tap-ccnd",
    ["example/ccnx/dce-tap-ccnd.cc"]);
   (["core"; "internet"; "dce"; "tap-bridge"; "csma"], "bin/dce-tap-vlc",
    ["example/ccnx/dce-tap-vlc.cc"]);
   (["core"; "internet"; "dce"], "bin/dce-bash-simple", ["example/bash/dce-bash-simple.cc"]);
   (["core"; "internet"; "dce"; "point-to-point"; "netanim"], "bin/dce-ccn-cache",
    ["example/ccnx/dce-ccn-cache.cc"; "example/ccnx/misc-tools.cc"]);
   (["core"; "internet"; "dce"; "point-to-point"; "netanim"; "csma"], "bin/dce-iperf",
    ["example/dce-iperf.cc"; "example/ccnx/misc-tools.cc"]);
   (["core"; "internet"; "dce"; "point-to-point"; "netanim"; "csma"; "fd-net-device"],
    "bin/dce-iperf-emulation", ["example/dce-iperf-emulation.cc"; "example/ccnx/misc-tools.cc"]);
   (["core"; "network"; "internet"; "dce"; "point-to-point"; "csma"; "applications"],
    "bin/linear-udp-perf", ["example/linear-udp-perf.cc"])].
Definition kernel_simulations : list example :=
  [(["core"; "internet"; "dce"; "point-to-point"], "bin/dce-udp-perf",
    ["example/dce-udp-perf.cc"]);
   (["core"; "network"; "dce"], "bin/dce-linux-simple", ["example/dce-linux-simple.cc"]);
   (["core"; "network"; "dce"; "wifi"; "point-to-point"; "csma"; "mobility"], "bin/dce-linux",
    ["example/dce-linux.cc"]);
   (["core"; "network"; "dce"; "csma"], "bin/dce-dccp", ["example/dce-dccp.cc"]);
   (["core"; "internet"; "dce"; "point-to-point"; "netanim"], "bin/dce-ccnd-udp-2-nodes",
    ["example/ccnx/dce-ccnd-udp-2-nodes.cc"; "example/ccnx/misc-tools.cc"]);
   (["core"; "internet"; "dce"; "point-to-point"; "netanim"], "bin/dce-ccnd-linear-multiple",
    ["example/ccnx/dce-ccnd-linear-multiple.cc"; "example/ccnx/misc-tools.cc"]);
   (["core"; "network"; "dce"; "point-to-point"], "bin/dce-xfrm", ["example/dce-xfrm.cc"]);
   (["core"; "network"; "dce"; "wifi"; "point-to-point"; "csma"; "mobility"], "bin/dce-ltp",
    ["example/dce-ltp.cc"]);
   (["core"; "network"; "dce"; "point-to-point"; "mobility"], "bin/dce-iperf-mptcp",
    ["example/dce-iperf-mptcp.cc"]);
   (["core"; "internet"; "network"; "dce"; "point-to-point"; "mobility"],
    "bin/dce-iperf-heterogeneous-multihop", ["example/dce-iperf-heterogeneous-multihop.cc"]);
   (["core"; "network"; "dce"; "point-to-point"; "mobility"; "applications"],
    "bin/dce-cradle-mptcp", ["example/dce-cradle-mptcp.cc"]);
   (["core"; "network"; "dce"; "point-to-point"; "mobility"; "wifi"; "dce-quagga"],
    "bin/dce-mptcp-handoff-v6", ["example/dce-mptcp-handoff-v6.cc"]);
   (["core"; "network"; "dce"; "point-to-point"; "mobility"; "wifi"; "dce-quagga"],
    "bin/dce-mptcp-handoff-v4v6", ["example/dce-mptcp-handoff-v4v6.cc"]);
   (["core"; "network"; "dce"; "point-to-point"; "mobility"; "wifi"; "lte"],
    "bin/dce-mptcp-lte-wifi", ["example/dce-mptcp-lte-wifi.cc"]);
   (["core"; "network"; "dce"; "point-to-point"; "mobility"; "wifi"; "lte"; "dce-quagga"],
    "bin/dce-mptcp-lte-wifi-v6", ["example/dce-mptcp-lte-wifi-v6.cc"]);
   (["core"; "network"; "dce"; "point-to-point"; "applications"], "bin/dce-cradle-simple",
    ["example/dce-cradle-simple.cc"]);
   (["core"; "network"; "dce"; "point-to-point"; "applications"; "internet"],
    "bin/dce-tcp-ns3-nsc-comparison", ["example/dce-tcp-ns3-nsc-comparison.cc"]);
   (["core"; "internet"; "dce"; "point-to-point"], "bin/dce-httpd", ["example/dce-httpd.cc"]);
   (["core"; "internet"; "dce"; "point-to-point"; "netanim"; "mobility"; "wifi"; "network"],
    "bin/dce-wifi-ccnx", ["example/ccnx/dce-wifi-ccnx.cc"])].

Definition add_dce_example (module : ns3_module) (x : string * list string) : py (mstate E) unit :=
  kw ← py_lift (dce_kw machine (target_kw ("bin_dce/" +:+ x.1) ["example/" +:+ x.1 +:+ ".cc"]
                  [list_kw "lib" x.2]));
  add_example module [] kw ;;
  emit (InstallMode "${PREFIX}/bin_dce" ("bin_dce/" +:+ x.1) O755).
Definition add_simulation (module : ns3_module) (x : example) : py (mstate E) unit :=
  let '(needed, target, source) := x in add_example module needed (target_kw target source []).

Definition build_dce_examples (module : ns3_module) : py (mstate E) unit :=
  sctp ← get "SCTP_TOOLS_FOUND";
  py_for (dce_examples ++ if val_true sctp then sctp_examples else []) (add_dce_example module) ;;
  py_for simulations (add_simulation module) ;;
  aspect ← get "LIB_ASPECT_PATH";
  if val_true aspect then
    add_example module
      ["core"; "network"; "internet"; "dce"; "point-to-point"; "csma"; "applications"]
      (target_kw "bin/dce-debug-aspect" ["example/dce-debug-aspect.cc"] [list_kw "use" ["ASPECT"]])
  else mret ().

Definition build_dce_kernel_examples (module : ns3_module) : py (mstate E) unit :=
  py_for kernel_simulations (add_simulation module) ;;
  sctp ← get "SCTP_TOOLS_FOUND";
  (if val_true sctp then
     add_simulation module
       (["core"; "network"; "dce"; "point-to-point"], "bin/dce-sctp-simple",
        ["example/dce-sctp-simple.cc"])
   else mret ()) ;;
  add_simulation module
    (["core"; "network"; "dce"; "wifi"; "point-to-point"; "csma"; "mobility"], "bin/dce-freebsd",
     ["example/dce-freebsd.cc"]).

(** ** The module dce *)
Definition kernel_source : list string :=
  ["model/kernel-socket-fd-factory.cc"; "model/kernel-socket-fd.cc";
   "model/linux-socket-fd-factory.cc"; "model/freebsd-socket-fd-factory.cc";
   "model/linux/linux-socket-impl.cc"].
Definition kernel_headers : list string :=
  ["model/kernel-socket-fd-factory.h"; "model/linux-socket-fd-factory.h";
   "model/freebsd-socket-fd-factory.h"; "model/linux/linux-socket-impl.h"].
Definition module_source : list string :=
  ["model/dce-manager.cc"; "model/dce-application.cc"; "model/dce.cc"; "model/dce-signal.cc";
   "model/libc-dce.cc"; "model/utils.cc"; "model/unix-fd.cc"; "model/unix-file-fd.cc";
   "model/unix-socket-fd.cc"; "model/unix-datagram-socket-fd.cc"; "model/unix-stream-socket-fd.cc";
   "model/unix-timer-fd.cc"; "model/dce-fd.cc"; "model/dce-stdio.cc"; "model/dce-pthread.cc";
   "model/dce-stdlib.cc"; "model/dce-debug.cc"; "model/dce-semaphore.cc";
   "model/dce-pthread-mutex.cc"; "model/dce-cxa.cc"; "model/dce-netdb.cc"; "model/dce-string.cc";
   "model/dce-env.cc"; "model/dce-pthread-cond.cc"; "model/dce-timerfd.cc"; "model/dce-time.cc";
   "model/dce-stat.cc"; "model/dce-syslog.cc"; "model/dce-dl.cc"; "model/dce-global-variables.cc";
   "model/cmsg.cc"; "model/waiter.cc"; "model/kingsley-alloc.cc"; "model/dce-alloc.cc";
   "model/fiber-manager.cc"; "model/ucontext-fiber-manager.cc"; "model/pthread-fiber-manager.cc";
   "model/task-manager.cc"; "model/task-scheduler.cc"; "model/rr-task-scheduler.cc";
   "model/loader-factory.cc"; "model/elf-dependencies.cc"; "model/elf-cache.cc";
   "model/cooja-loader-factory.cc"; "model/dlm-loader-factory.cc"; "model/socket-fd-factory.cc";
   "model/ns3-socket-fd-factory.cc"; "model/local-socket-fd.cc"; "model/local-stream-socket-fd.cc";
   "model/local-datagram-socket-fd.cc"; "model/local-socket-fd-factory.cc"; "model/dce-umask.cc";
   "model/dce-misc.cc"; "model/dce-node-context.cc"; "model/dce-wait.cc"; "model/wait-queue.cc";
   "model/file-usage.cc"; "model/dce-poll.cc"; "model/ipv4-dce-routing.cc";
   "model/dce-credentials.cc"; "model/dce-pwd.cc"; "model/pipe-fd.cc"; "model/fifo-buffer.cc";
   "model/dce-dirent.cc"; "model/dce-at.cc"; "model/exec-utils.cc"; "model/linux/ipv4-linux.cc";
   "model/linux/ipv6-linux.cc"; "model/freebsd/ipv4-freebsd.cc"; "model/dce-vfs.cc";
   "model/elf-ldd.cc"; "model/dce-termio.cc"; "model/process-delay-model.cc";
   "model/linux/linux-ipv4-raw-socket-factory.cc";
   "model/linux/linux-ipv4-raw-socket-factory-impl.cc";
   "model/linux/linux-ipv6-raw-socket-factory.cc";
   "model/linux/linux-ipv6-raw-socket-factory-impl.cc"; "model/linux/linux-udp-socket-factory.cc";
   "model/linux/linux-udp-socket-factory-impl.cc"; "model/linux/linux-udp6-socket-factory.cc";
   "model/linux/linux-udp6-socket-factory-impl.cc"; "model/linux/linux-tcp-socket-factory.cc";
   "model/linux/linux-tcp-socket-factory-impl.cc"; "model/linux/linux-tcp6-socket-factory.cc";
   "model/linux/linux-tcp6-socket-factory-impl.cc"; "model/linux/linux-dccp-socket-factory.cc";
   "model/linux/linux-dccp-socket-factory-impl.cc"; "model/linux/linux-dccp6-socket-factory.cc";
   "model/linux/linux-dccp6-socket-factory-impl.cc"; "model/linux/linux-sctp-socket-factory.cc";
   "model/linux/linux-sctp-socket-factory-impl.cc"; "model/linux/linux-sctp6-socket-factory.cc";
   "model/linux/linux-sctp6-socket-factory-impl.cc"; "helper/ipv4-dce-routing-helper.cc";
   "helper/dce-manager-helper.cc"; "helper/dce-application-helper.cc";
   "helper/ccn-client-helper.cc"; "helper/linux-stack-helper.cc"; "helper/freebsd-stack-helper.cc"].
Definition module_headers : list string :=
  ["model/dce-manager.h"; "model/task-scheduler.h"; "model/task-manager.h";
   "model/socket-fd-factory.h"; "model/loader-factory.h"; "model/dce-application.h";
   "model/ipv4-dce-routing.h"; "model/linux/ipv4-linux.h"; "model/linux/ipv6-linux.h";
   "model/freebsd/ipv4-freebsd.h"; "model/process-delay-model.h"; "model/exec-utils.h";
   "model/utils.h"; "model/unix-fd.h"; "model/wait-queue.h"; "model/process.h";
   "model/linux/linux-ipv4-raw-socket-factory.h"; "model/linux/linux-ipv6-raw-socket-factory.h";
   "model/linux/linux-udp-socket-factory.h"; "model/linux/linux-udp6-socket-factory.h";
   "model/linux/linux-tcp-socket-factory.h"; "model/linux/linux-tcp6-socket-factory.h";
   "model/linux/linux-dccp-socket-factory.h"; "model/linux/linux-dccp6-socket-factory.h";
   "model/linux/linux-sctp-socket-factory.h"; "model/linux/linux-sctp6-socket-factory.h";
   "helper/dce-manager-helper.h"; "helper/dce-application-helper.h"; "helper/ccn-client-helper.h";
   "helper/ipv4-dce-routing-helper.h"; "helper/linux-stack-helper.h";
   "helper/freebsd-stack-helper.h"].

(** the flags that select the C library in the directory [root] *)
Definition extra_cflags_root (root : string) : list string :=
  ["-L" +:+ root +:+ "/usr/lib64"; "-I" +:+ root +:+ "/include"; "--sysroot=" +:+ root;
   "-Wl,--start-group"; "-Wl,-rpath=" +:+ root +:+ "/lib64";
   "-Wl,-rpath-link=/usr/lib/x86_64-linux-gnu";
   "-Wl,--dynamic-linker=" +:+ root +:+ "/lib64/ld-2.31.so"].
Definition wl_end_group : list string := ["-Wl,--end-group"].

Definition dce_uselib : list string := modules_uselib ["core"; "network"; "internet"; "netlink"].

(** the first part of [build]: the flags, and the module *)
Definition build_dce_module (flags : list string) : py (mstate E) ns3_module :=
  kernel ← get "KERNEL_STACK";
  includes ← (if val_true kernel then k ← py_lift (as_str kernel); mret [k] else mret []);
  let k {A} (l : list A) := if val_true kernel then l else [] in
  append_list "LINKFLAGS" (flags ++ wl_end_group) ;;
  create_module out_dir path_from cwd machine sniff_features "dce"
    [list_kw "source" (module_source ++ k kernel_source);
     list_kw "headers" (module_headers ++ k kernel_headers);
     list_kw "use" dce_uselib; list_kw "includes" includes;
     list_kw "cxxflags" (flags ++ ["-Wno-deprecated-declarations"] ++ wl_end_group);
     list_kw "lib" ["dl"]].

(** ** The libraries that replace those of the C library *)
Definition dce_shlib (flags sources : list string) (target setup version soname : string)
    : py (mstate E) unit :=
  emit (Shlib [list_kw "source" sources; str_kw "target" target;
    list_kw "cxxflags" (flags ++ ["-g"; "-fno-profile-arcs"; "-fno-test-coverage";
                                  "-Wno-builtin-declaration-mismatch"] ++ wl_end_group);
    list_kw "defines" ["LIBSETUP=" +:+ setup];
    list_kw "linkflags" ["-nostdlib"; "-fno-profile-arcs";
                         "-Wl,--version-script=" +:+ path_join "model" version;
                         "-Wl,-soname=" +:+ soname]]).
Definition build_dce_libraries (flags : list string) : py (mstate E) unit :=
  let two := ["model/libc.cc"; "model/libc-setup.cc"] in
  emit (AddGroup "dce_version_files") ;;
  emit (Program [str_kw "source" "utils/dcemakeversion.c"; str_kw "name" "dcemakeversion";
                 str_kw "target" "dcemakeversion"; list_kw "cflags" ["-g"];
                 list_kw "linkflags" ["-lpthread"; "-lrt"; "-lm"; "-ldl"]]) ;;
  emit (Generator
    [list_kw "source" ["dcemakeversion"; "model/libc-ns3.version"; "model/libpthread-ns3.version";
                       "model/librt-ns3.version"; "model/libm-ns3.version";
                       "model/libdl-ns3.version"];
     list_kw "target" ["model/libc.version"; "model/libpthread.version"; "model/librt.version";
                       "model/libm.version"; "model/libdl.version"];
     str_kw "rule" "${SRC[0].abspath()} ${SRC[1].abspath()}  ${SRC[2].abspath()}  ${SRC[3].abspath()} ${SRC[4].abspath()}  ${SRC[5].abspath()}"]) ;;
  emit (AddGroup "dce_use_version_files") ;;
  dce_shlib flags ["model/libc.cc"; "model/libc-setup.cc"; "model/libc-global-variables.cc"]
    "lib/c-ns3" "libc_setup" "libc.version" "libc.so.6" ;;
  dce_shlib flags two "lib/pthread-ns3" "libpthread_setup" "libpthread.version" "libpthread.so.0" ;;
  dce_shlib flags two "lib/rt-ns3" "librt_setup" "librt.version" "librt.so.1" ;;
  dce_shlib flags two "lib/m-ns3" "libm_setup" "libm.version" "libm.so.6" ;;
  dce_shlib flags two "lib/dl-ns3" "libdl_setup" "libdl.version" "libdl.so.2".
End dce.
End Dce.

(** ** The whole build *)
Module Top.
Import Env Build Modules Rules Dce.

(** the file that the build leaves for the driver of the tests *)
Definition status_text (programs scripts : string) : string :=
  "#! /usr/bin/env python" +:+ nl +:+ nl +:+
  "# Programs that are runnable." +:+ nl +:+
  "ns3_runnable_programs = " +:+ programs +:+ nl +:+ nl +:+
  "# Scripts that are runnable." +:+ nl +:+
  "ns3_runnable_scripts = " +:+ scripts +:+ nl +:+ nl.

Section top.
  Context {E : Type} `{WafEnv E}.
  Variable out_dir path_from cwd machine : string.
  Variable sniff_features : list string → string → val.
  Variable listdir : string → list string.
  Variable isdir : string → bool.
  Variable submodule_build : string → py (mstate E) unit.
  (** the build of bindings/python *)
  Variable build_bindings : py (mstate E) unit.
  (** the task generators at the end, the options, the program to run and whether to visualize *)
  Variable all_task_gen : list Programs.task_gen.
  Variable opts : RunCmd.options.
  Variable run : string.
  Variable visualize : bool.

(** src/utils/wscript *)
Definition build_utils : py (mstate E) unit :=
  elf ← get "ELF_LOADER_PATH";
  if val_true elf then
    path ← py_lift (as_str elf);
    let target := "../bin/dce-runner" in
    emit (Program [str_kw "source" "dce-runner.c"; str_kw "target" target;
                   list_kw "cflags" ["-fPIC"];
                   list_kw "linkflags" ["-pie"; "-ldl"; "-Wl,--dynamic-linker=" +:+
                                        abspath cwd (path +:+ "/ldso")];
                   ("is_ns3_program", Some (VBool true))]) ;;
    emit (InstallMode (path_join "${PREFIX}" "bin") target O755) ;;
    append "NS3_RUNNABLE_PROGRAMS" "dce-runner"
  else mret ().

Definition reset_lists : py (mstate E) unit :=
  py_for ["NS3_MODULES_WITH_TEST_LIBRARIES"; "NS3_ENABLED_MODULE_TEST_LIBRARIES";
          "NS3_SCRIPT_DEPENDENCIES"; "NS3_RUNNABLE_PROGRAMS"; "NS3_RUNNABLE_SCRIPTS"]
    (λ k, put k (VList [])).

(** the test runner, and the one that is run with the loader *)
Definition build_test_runner (module : ns3_module) : py (mstate E) unit :=
  libs ← get_list "NS3_ENABLED_MODULE_TEST_LIBRARIES";
  found ← get_list "NS3_MODULES_FOUND";
  add_example module (found ++ ["dce"])
    (target_kw "bin/test-runner" ["utils/test-runner.cc"] [list_kw "use" libs; list_kw "linkflags" []]) ;;
  append "NS3_RUNNABLE_PROGRAMS" "bin/test-runner" ;;
  elf ← get "ELF_LOADER_PATH";
  if val_true elf then
    path ← py_lift (as_str elf);
    libs ← get_list "NS3_ENABLED_MODULE_TEST_LIBRARIES";
    found ← get_list "NS3_MODULES_FOUND";
    add_example module (found ++ ["dce"])
      (target_kw "bin/test-runner-vdl" ["utils/test-runner.cc"]
         [list_kw "use" libs;
          list_kw "linkflags" ["-Wl,--dynamic-linker=" +:+ abspath cwd (path +:+ "/ldso")]])
  else mret ().

Definition write_status : py (mstate E) unit :=
  programs ← get "NS3_RUNNABLE_PROGRAMS";
  scripts ← get "NS3_RUNNABLE_SCRIPTS";
  emit (WriteFile (path_join out_dir "build-status.py")
          (status_text (format_val programs) (format_val scripts))).

(** with --run only the program asked for is built *)
Definition select_target : py (mstate E) unit :=
  if truthy run then
    '(program_name, _) ← py_lift (RunCmd.get_run_program cwd all_task_gen opts run
       (Some (Template.get_command_template (RunCmd.command_template opts) [])));
    emit (AddTarget (basename program_name)) ;;
    (if visualize then
       obj ← py_lift (Programs.find_program cwd (RunCmd.cwd_launch opts) all_task_gen program_name);
       emit (AppendUse (Programs.name obj) "NS3_VISUALIZER")
     else mret ()) ;;
    emit PostAll ;;
    put "PRINT_BUILT_MODULES_AT_END" (VBool false)
  else mret ().

(** everything up to the status file *)
Definition build_all : py (mstate E) unit :=
  reset_lists ;;
  emit (AddGroup "ns3moduleheader") ;;
  emit (AddGroup "ns3modulebuild") ;;
  build_netlink out_dir path_from cwd machine sniff_features ;;
  root ← get "GLIBC_INSTALL_DIR"; root ← py_lift (as_str root);
  let flags := extra_cflags_root root in
  module ← build_dce_module out_dir path_from cwd machine sniff_features flags;
  add_myscripts listdir isdir cwd submodule_build ;;
  build_dce_tests out_dir path_from cwd machine sniff_features listdir module ;;
  build_dce_examples machine module ;;
  add_runner_test out_dir path_from cwd machine sniff_features module
    ["internet"; "point-to-point"; "core"; "dce"] (Some "netlink")
    [list_kw "use" dce_uselib; list_kw "includes" ["netlink"];
     list_kw "source" ["test/netlink-socket-test.cc"]] ;;
  when_set "KERNEL_STACK" (build_dce_kernel_examples module) ;;
  build_test_runner module ;;
  build_dce_libraries flags ;;
  emit (Recurse "utils") ;; build_utils ;;
  emit (Recurse "bindings/python") ;; build_bindings.

Definition build : py (mstate E) unit := build_all ;; write_status ;; select_target.
End top.

(** ** shutdown: running the program after the build *)
Section shutdown.
  Variable popen : RunCmd.spawn → RunCmd.outcome.
  Variable signal_vars : list (string * Z).
  Variable windows : bool.
  Variable pathsep platform cwd0 : string.
  Variable glob : string → list string.
  Variable environ : list (string * string).
  Variable bld : ProcEnv.build.
  Variable all_task_gen : list Programs.task_gen.
  Variable opts : RunCmd.options.
  Variable env : RunCmd.tools.
  (** whether a build was made, and the options run, pyrun and visualize *)
  Variable has_build : bool.
  Variable run pyrun : string.
  Variable visualize : bool.

Definition shutdown : py RunCmd.world unit :=
  if negb has_build then mret ()
  else if truthy run then
    RunCmd.run_program popen signal_vars windows pathsep platform cwd0 glob environ bld
      all_task_gen opts run env
      (Some (Template.get_command_template (RunCmd.command_template opts) [])) None visualize ;;
    py_raise (SystemExit 0)
  else if truthy pyrun then
    RunCmd.run_python_program popen signal_vars windows pathsep platform glob environ bld opts
      pyrun env visualize ;;
    py_raise (SystemExit 0)
  else mret ().
End shutdown.
End Top.

(** ** Facts *)
Module WafScriptFacts.
Import Env Build Modules ModuleFacts Rules Dce Top ReaderFacts.

Section rules_facts.
  Context {E : Type} `{WafEnvLaws E}.

(** the modules a script needs besides itself *)
Definition script_external (name : string) (needed : list string) : list string :=
  List.filter (λ i, negb (i =? name)%string) needed.

(** A script below myscripts is given to the build, as one generator that uses the modules it
    needs and is marked as a program, exactly when all the modules it needs were found; what is
    recorded as runnable is then the name of the module it was declared for, not its own target. *)
Lemma build_a_script_spec (name : string) (needed : list string) (kw : kwargs) (s s' : mstate E)
    (u : unit) (found : list string) (target : string) :
  env_get (env s) "NS3_MODULES_FOUND" = VList found →
  dict_get kw "target" = Some (Some (VStr target)) →
  build_a_script name needed kw s = (Ok u, s') →
  if all_in (script_external name needed) found then
    ∃ kw' uses, kw_list kw "use" = Ok uses ∧
      dict_get kw' "use" = Some (Some (VList (uses ++ modules_uselib needed))) ∧
      dict_get kw' "target" = Some (Some (VStr target)) ∧
      events s' = events s ++ [Generator kw'; IsProgram target] ∧
      env s' = env_append (env s) "NS3_RUNNABLE_PROGRAMS" [name]
  else s' = s.
Proof.
  intros Hfound Htarget Hrun. unfold build_a_script in Hrun.
  apply py_bind_Ok in Hrun as (ok & s1 & Hok & Hrun).
  rewrite (modules_found_spec _ found s Hfound) in Hok. injection Hok as <- <-.
  fold (script_external name needed) in Hrun.
  destruct (all_in (script_external name needed) found); cbn [negb] in *; [|by injection Hrun as _ <-].
  apply py_bind_Ok in Hrun as (kw1 & s1 & Hk & Hrun). injection Hk as Hk <-.
  apply py_bind_Ok in Hrun as (st & s1 & [= <- <-] & Hrun).
  apply py_bind_Ok in Hrun as (us & s1 & Hus & Hrun). injection Hus as _ <-.
  apply py_bind_Ok in Hrun as (kw2 & s1 & Hk2 & Hrun).
  assert (s1 = s ∧ ∀ k, k ≠ "linkflags" → dict_get kw2 k = dict_get (with_features kw1) k) as [-> Hd].
  { destruct (val_true _); [by eapply static_linkflags_spec|by injection Hk2 as <- <-]. }
  destruct (kw_extend_same _ _ _ _ Hk) as (uses & Huses & Hu).
  assert (Ht : dict_get kw2 "target" = Some (Some (VStr target))).
  { rewrite Hd, with_features_other by done. by rewrite (kw_extend_other _ _ _ _ _ Hk). }
  exists kw2, uses. split; [done|]. split; [by rewrite Hd, with_features_other|]. split; [done|].
  cbv [mbind py_bind emit append py_modify] in Hrun. injection Hrun as _ <-. cbn.
  unfold kw_text, kw_get. rewrite Ht. by rewrite <- app_assoc.
Qed.

(** *** The directories below myscripts *)
Lemma classify_spec isdir dirs subs scr :
  classify isdir dirs subs scr =
    (subs ++ List.filter (λ d, negb (hidden d) && is_submodule isdir d) dirs,
     scr ++ List.filter (λ d, negb (hidden d) && negb (is_submodule isdir d)) dirs).
Proof.
  revert subs scr. induction dirs as [|d dirs IH]; intros subs scr; cbn [classify List.filter].
  { by rewrite !app_nil_r. }
  rewrite !IH. destruct (hidden d); [done|]. cbn [negb andb].
  destruct (is_submodule isdir d); cbn [negb]; by rewrite <- app_assoc.
Qed.

(** every entry that is not hidden is either recursed as a submodule or handled as a script,
    submodules first, each group in the order of the listing *)
Lemma add_myscripts_order listdir isdir cwd (sub : string → py (mstate E) unit) s :
  let visible := List.filter (λ d, negb (hidden d)) (listdir "myscripts") in
  ∃ submodules scratches, submodules ++ scratches ≡ₚ visible ∧
    Forall (λ d, is_submodule isdir d = true) submodules ∧
    Forall (λ d, is_submodule isdir d = false) scratches ∧
    add_myscripts listdir isdir cwd sub s =
      (py_for submodules (recurse_script cwd sub) ;;
       py_for scratches (add_scratch isdir cwd sub)) s.
Proof.
  cbv zeta. unfold add_myscripts. rewrite classify_spec. cbn [app].
  eexists _, _. split; [|split; [|split; [|reflexivity]]].
  - induction (listdir "myscripts") as [|d l IH]; [done|]. cbn [List.filter].
    destruct (hidden d); [done|]. cbn [negb andb]. destruct (is_submodule isdir d); cbn [negb].
    + by constructor.
    + by rewrite <- Permutation_middle, IH.
  - apply Forall_forall. intros d [_ Hd]%list_elem_of_In%filter_In. by apply andb_true_iff in Hd as [_ ?].
  - apply Forall_forall. intros d [_ Hd]%list_elem_of_In%filter_In.
    apply andb_true_iff in Hd as [_ Hd]. by apply negb_true_iff.
Qed.
End rules_facts.

(** *** The status file *)
Lemma hex_digit_newline n : (0 ≤ n < 16)%Z → Repr.hex_digit n ≠ newline.
Proof.
  intros Hn He. apply (f_equal ord) in He. unfold Repr.hex_digit in He.
  change (ord newline) with 10%Z in He. destruct (Z.ltb_spec n 10); rewrite ord_chr in He; lia.
Qed.
Lemma ord_bounds c : (0 ≤ ord c < 256)%Z.
Proof. unfold ord. pose proof (N_ascii_bounded c). lia. Qed.

Lemma repr_char_line quote c : quote ≠ newline → no_char newline (Repr.repr_char quote c).
Proof.
  intros Hq. unfold Repr.repr_char.
  destruct (Ascii.eqb c quote) eqn:Ec; cbn [orb].
  { apply Ascii.eqb_eq in Ec as ->. rewrite !no_char_cons. by repeat split. }
  destruct (Ascii.eqb c "092") eqn:Eb; [by apply Ascii.eqb_eq in Eb as ->|].
  destruct (Ascii.eqb c "009"); [done|]. destruct (Ascii.eqb c "010") eqn:En; [done|].
  destruct (Ascii.eqb c "013"); [done|]. apply Ascii.eqb_neq in En. pose proof (ord_bounds c).
  destruct (_ || _).
  - change ("\x" +:+ ?a) with (String "\" (String "x" a)). rewrite !no_char_cons.
    repeat split; try done; apply hex_digit_newline; [|apply Z.mod_pos_bound; lia].
    split; [apply Z.div_pos; lia|apply Z.div_lt_upper_bound; lia].
  - rewrite no_char_cons. by split.
Qed.
Lemma py_repr_line s : no_char newline (Repr.py_repr s).
Proof.
  unfold Repr.py_repr.
  assert (Hgo : ∀ quote, quote ≠ newline →
    no_char newline (String quote (Repr.repr_chars quote s +:+ String quote EmptyString))).
  { intros quote Hq. rewrite no_char_cons. split; [done|]. induction s as [|c s IH]; [by rewrite sapp_nil_l, no_char_cons|].
    cbn [Repr.repr_chars]. rewrite sapp_assoc, no_char_app. split; [by apply repr_char_line|done]. }
  by destruct (_ && _); apply Hgo.
Qed.
Lemma join_line sep l : no_char newline sep → Forall (no_char newline) l → no_char newline (join sep l).
Proof.
  intros Hs. induction 1 as [|x [|y l] Hx _ IH]; [done|done|].
  change (join sep (x :: y :: l)) with (x +:+ sep +:+ join sep (y :: l)).
  by rewrite !no_char_app.
Qed.
Lemma repr_list_line l : no_char newline (Repr.repr_list l).
Proof.
  unfold Repr.repr_list. rewrite !no_char_app. split; [done|]. split; [|done].
  apply join_line; [done|]. apply Forall_fmap, Forall_forall. intros s _. apply py_repr_line.
Qed.
Lemma repr_list_tight l : tight (Repr.repr_list l).
Proof.
  exists "["%char, (join ", " (Repr.py_repr <$> l)), "]"%char. split; [by right|done].
Qed.

(** the lines of the file *)
Definition programs_line (value : string) : string := "ns3_runnable_programs" +:+ " = " +:+ value.
Definition scripts_line (value : string) : string := "ns3_runnable_scripts" +:+ " = " +:+ value.
Definition end_line (l : string) : string := l +:+ nl.

Lemma status_lines programs scripts :
  no_char newline programs → no_char newline scripts →
  lines_keep (status_text programs scripts) =
    end_line <$> ["#! /usr/bin/env python"; EmptyString; "# Programs that are runnable.";
                  programs_line programs; EmptyString; "# Scripts that are runnable.";
                  scripts_line scripts; EmptyString].
Proof.
  intros Hp Hs.
  assert (Ht : status_text programs scripts =
    "#! /usr/bin/env python" +:+ nl +:+ EmptyString +:+ nl +:+ "# Programs that are runnable." +:+ nl +:+
    programs_line programs +:+ nl +:+ EmptyString +:+ nl +:+ "# Scripts that are runnable." +:+ nl +:+
    scripts_line scripts +:+ nl +:+ EmptyString +:+ nl +:+ EmptyString).
  { unfold status_text, programs_line, scripts_line. by rewrite !sapp_assoc. }
  rewrite Ht. rewrite !lines_keep_line; try done; unfold scripts_line, programs_line;
    by rewrite no_char_app.
Qed.

Lemma remove_comment_line l : no_char "#" l → Reader.remove_comment (end_line l) = end_line l.
Proof.
  intros H. unfold Reader.remove_comment, end_line. rewrite split_once_None; [done|].
  by rewrite no_char_app.
Qed.

(** the value behind the name of a line *)
Lemma right_hand_side_line name value :
  no_char "=" name → tight value →
  Reader.right_hand_side (end_line (name +:+ " = " +:+ value)) = Ok value.
Proof.
  intros Hn Hv. unfold Reader.right_hand_side, end_line.
  assert ((name +:+ " = " +:+ value) +:+ nl = (name +:+ " ") +:+ String "=" (" " +:+ value +:+ nl))
    as -> by by rewrite !sapp_assoc.
  rewrite split_once_app by by rewrite no_char_app. by rewrite strip_pad.
Qed.

Lemma repr_list_bracket l s : has_char "]" (s +:+ end_line (Repr.repr_list l)) = true.
Proof.
  unfold end_line, Repr.repr_list. rewrite !has_char_app. cbn [has_char]. by rewrite !orb_true_r.
Qed.

Section status_file.
  (** the text of a list evaluates to the list *)
  Variable eval : string → result (list string).
  Variables (programs scripts : list string).
  Hypothesis eval_programs : eval (Repr.repr_list programs) = Ok programs.
  Hypothesis eval_scripts : eval (Repr.repr_list scripts) = Ok scripts.
  (** no name has a number sign, and the first line does not mention the second name *)
  Hypothesis no_comment : no_char "#" (Repr.repr_list programs) ∧ no_char "#" (Repr.repr_list scripts).
  Hypothesis other_name :
    py_in "ns3_runnable_scripts" (end_line (programs_line (Repr.repr_list programs))) = false.

#[local] Abbreviation file := (status_text (Repr.repr_list programs) (Repr.repr_list scripts)).

Lemma read_programs : Reader.get_list_from_file eval (Some file) "ns3_runnable_programs" = Ok programs.
Proof using eval_programs no_comment.
  destruct no_comment as [Hp _].
  rewrite (get_list_first_match eval _ _
    (end_line <$> ["#! /usr/bin/env python"; EmptyString; "# Programs that are runnable."]) []
    (end_line <$> [EmptyString; "# Scripts that are runnable."; scripts_line (Repr.repr_list scripts);
                   EmptyString]) (end_line (programs_line (Repr.repr_list programs)))).
  - cbn [joined app]. rewrite remove_comment_line, sapp_nil_r by (unfold programs_line; by rewrite no_char_app).
    unfold programs_line. by rewrite right_hand_side_line by (done || apply repr_list_tight).
  - by rewrite status_lines by apply repr_list_line.
  - by repeat constructor.
  - cbn [hd]. rewrite remove_comment_line by (unfold programs_line; by rewrite no_char_app).
    done.
  - done.
  - rewrite remove_comment_line by (unfold programs_line; by rewrite no_char_app).
    unfold end_line, programs_line. rewrite <- (sapp_assoc _ " = "), sapp_assoc. apply repr_list_bracket.
Qed.
Lemma read_scripts : Reader.get_list_from_file eval (Some file) "ns3_runnable_scripts" = Ok scripts.
Proof using eval_scripts no_comment other_name.
  destruct no_comment as [Hp Hs].
  rewrite (get_list_first_match eval _ _
    (end_line <$> ["#! /usr/bin/env python"; EmptyString; "# Programs that are runnable.";
                   programs_line (Repr.repr_list programs); EmptyString; "# Scripts that are runnable."]) []
    (end_line <$> [EmptyString]) (end_line (scripts_line (Repr.repr_list scripts)))).
  - cbn [joined app]. rewrite remove_comment_line, sapp_nil_r by (unfold scripts_line; by rewrite no_char_app).
    unfold scripts_line. by rewrite right_hand_side_line by (done || apply repr_list_tight).
  - by rewrite status_lines by apply repr_list_line.
  - repeat constructor; try done. rewrite remove_comment_line; [done|].
    unfold programs_line. by rewrite no_char_app.
  - cbn [hd]. rewrite remove_comment_line by (unfold scripts_line; by rewrite no_char_app).
    done.
  - done.
  - rewrite remove_comment_line by (unfold scripts_line; by rewrite no_char_app).
    unfold end_line, scripts_line. rewrite <- (sapp_assoc _ " = "), sapp_assoc. apply repr_list_bracket.
Qed.
End status_file.

Section composition.
  Context {E : Type} `{WafEnvLaws E}.

(** C18. What the build writes into its status file is what the driver of the tests reads back: the
    programs and the scripts that were recorded, in order, when evaluation gives back a list from
    its representation, no name contains a number sign and no program is named like the list of
    the scripts. *)
Theorem status_file_read_back (eval : string → result (list string)) (programs scripts : list string)
    (out_dir : string) (s s' : mstate E) (u : unit)
    (Hprograms : eval (Repr.repr_list programs) = Ok programs)
    (Hscripts : eval (Repr.repr_list scripts) = Ok scripts)
    (Hcomment : no_char "#" (Repr.repr_list programs) ∧ no_char "#" (Repr.repr_list scripts))
    (Hother : py_in "ns3_runnable_scripts" (end_line (programs_line (Repr.repr_list programs)))
              = false)
    (Hp : env_get (env s) "NS3_RUNNABLE_PROGRAMS" = VList programs)
    (Hs : env_get (env s) "NS3_RUNNABLE_SCRIPTS" = VList scripts)
    (Hrun : write_status out_dir s = (Ok u, s')) :
  ∃ text, events s' = events s ++ [WriteFile (path_join out_dir "build-status.py") text] ∧
    ∀ (g : Config.globals) (w : Driver.world), Config.NS3_BUILDDIR g = out_dir →
      dict_get (Driver.files w) (path_join out_dir "build-status.py") = Some text →
      Main.build_status eval g w = (Ok (programs, scripts), w).
Proof.
  unfold write_status in Hrun. cbv [mbind py_bind get emit py_modify] in Hrun.
  rewrite Hp, Hs in Hrun. injection Hrun as _ <-. cbn [events]. eexists. split; [done|].
  intros g w Hg Hf. unfold Main.build_status. rewrite Hg.
  cbv [mbind py_bind Main.file_text py_lift]. rewrite Hf. cbn [format_val].
  by rewrite read_programs, read_scripts.
Qed.

(** the examples whose program is not the name [n] are queued the same with [n] recorded or not *)
Lemma queue_examples_other o workdir tmp runner eval_cond runnable n tests w :
  Forall (λ t : Examples.cpp_example, Run.test_program t.1.1 ≠ n) tests →
  Run.queue_examples o workdir tmp runner eval_cond (runnable ++ [n]) tests w =
  Run.queue_examples o workdir tmp runner eval_cond runnable tests w.
Proof.
  intros Ht. revert w. induction Ht as [|[[t r] v] tests Hn _ IH]; intros w; [done|].
  cbn [Run.queue_examples]. cbn [fst] in Hn.
  assert (bool_decide (Run.test_program t ∈ runnable ++ [n]) = bool_decide (Run.test_program t ∈ runnable))
    as ->.
  { apply bool_decide_ext. rewrite elem_of_app, list_elem_of_singleton. naive_solver. }
  case_bool_decide; [|done]. cbv [mbind py_bind]. destruct (py_lift (eval_cond r) w) as [[[|]|e] w1]; [|done..].
  destruct (if Config.valgrind o then _ else _) as [[b|e] w2]; [|done].
  destruct (Run.queued o t w2) as [[u|e] w3]; [|done]. by rewrite IH.
Qed.

(** C19. A script below myscripts that is given to the build never becomes a job of the driver: the
    build records the name dce and not the program, so that the examples the driver queues are the
    same as without the script, whatever list of examples it has been given. *)
Theorem script_never_a_job (needed source : list string) (target : string) (more : kwargs)
    (s s' : mstate E) (u : unit) (found programs : list string)
    (Hfound : env_get (env s) "NS3_MODULES_FOUND" = VList found)
    (Hneeded : all_in (script_external "dce" needed) found = true)
    (Hprograms : env_get (env s) "NS3_RUNNABLE_PROGRAMS" = VList programs)
    (Hrun : script needed target source more s = (Ok u, s')) :
  (∃ kw, events s' = events s ++ [Generator kw; IsProgram target] ∧
         dict_get kw "target" = Some (Some (VStr target))) ∧
  ∃ programs', env_get (env s') "NS3_RUNNABLE_PROGRAMS" = VList programs' ∧
    ∀ o workdir tmp runner eval_cond tests w,
      Forall (λ t : Examples.cpp_example, Run.test_program t.1.1 ≠ "dce") tests →
      Run.queue_examples o workdir tmp runner eval_cond programs' tests w =
      Run.queue_examples o workdir tmp runner eval_cond programs tests w.
Proof.
  unfold script in Hrun. apply (build_a_script_spec _ _ _ _ _ _ found target) in Hrun; [|done..].
  rewrite Hneeded in Hrun. destruct Hrun as (kw' & uses & _ & _ & Ht & Hev & Hen).
  split; [by exists kw'|]. exists (programs ++ ["dce"]). split.
  - rewrite Hen. by rewrite (env_get_append _ _ programs), decide_True.
  - intros. by apply queue_examples_other.
Qed.
End composition.
End WafScriptFacts.

(** ** Concrete builds *)
Module WafScriptExamples.
Import Env Build Modules ModuleFacts Rules Dce Top WafScriptFacts CheckExamples.

Definition script_env : gmap string val :=
  <["NS3_MODULES_FOUND" := VList ["core"; "internet"; "point-to-point"; "dce"]]>
    (<["LIB_SUFFIX" := VStr "debug"]>
      (<["NS3_RUNNABLE_PROGRAMS" := VList ["dce-tcp-simple"]]>
        (<["NS3_RUNNABLE_SCRIPTS" := VList []]> ∅))).
Definition script_state : mstate (gmap string val) :=
  {| env := script_env; events := []; logged := [] |}.
Definition mt2_build : result unit * mstate (gmap string val) :=
  script base_needed "bin/dce-mt2" ["dce-mt2.cc"] [] script_state.

Lemma script_never_a_job_witness :
  ∃ s' programs', mt2_build = (Ok (), s') ∧
    env_get (env s') "NS3_RUNNABLE_PROGRAMS" = VList programs' ∧ "dce-mt2" ∉ programs' ∧
    (Run.queue_examples Config.default_options "/src" "/tmp" EmptyString (λ _, Ok true) programs'
       [("build/bin/dce-mt2 --kernel=1", "True", "True")]
       (Driver.mk_world [] [] [] [] [] [])).1 = Ok [].
Proof.
  destruct mt2_build as [r s'] eqn:Er.
  assert (Hr : r = Ok ()) by (change r with ((r, s').1); rewrite <- Er; by vm_compute).
  subst r. exists s'.
  destruct (script_never_a_job base_needed ["dce-mt2.cc"] "bin/dce-mt2" [] script_state s' ()
              ["core"; "internet"; "point-to-point"; "dce"] ["dce-tcp-simple"])
    as (_ & programs' & Hp & Hq); [by vm_compute|by vm_compute|by vm_compute|exact Er|].
  exists programs'. split; [done|]. split; [done|].
  assert (programs' = ["dce-tcp-simple"; "dce"]) as Heq.
  { assert (Hs : env_get (env s') "NS3_RUNNABLE_PROGRAMS" = VList ["dce-tcp-simple"; "dce"]).
    { change s' with ((@Ok unit tt, s').2). rewrite <- Er. by vm_compute. }
    rewrite Hs in Hp. by injection Hp. }
  split; [rewrite Heq; intros Hin; by repeat (apply elem_of_cons in Hin as [Hin|Hin]); inversion Hin|].
  rewrite Hq by by repeat constructor. by vm_compute.
Defined.

(** evaluation of the two lists of this state *)
Definition list_eval (s : string) : result (list string) :=
  if (s =? "['dce-tcp-simple']")%string then Ok ["dce-tcp-simple"]
  else if (s =? "[]")%string then Ok [] else Raise (PyException "SyntaxError").

Definition sample_build_globals : Config.globals := RunExamples.sample_globals.
Definition sample_out : string := Config.NS3_BUILDDIR sample_build_globals.
Lemma status_file_read_back_witness :
  ∃ s' text, write_status sample_out script_state = (Ok (), s') ∧
    events s' = [WriteFile (path_join sample_out "build-status.py") text] ∧
    (Main.build_status list_eval
       sample_build_globals
       (Driver.mk_world [] [] [] [((path_join sample_out "build-status.py"), text)] [] [])).1
    = Ok (["dce-tcp-simple"], []).
Proof.
  destruct (write_status sample_out script_state) as [r s'] eqn:Er.
  assert (Hr : r = Ok ()) by (change r with ((r, s').1); rewrite <- Er; by vm_compute).
  subst r. exists s'.
  destruct (status_file_read_back list_eval ["dce-tcp-simple"] [] sample_out script_state s' ())
    as (text & Hev & Hread); [by vm_compute|by vm_compute|by split; vm_compute|by vm_compute..|exact Er|].
  exists text. split; [done|]. split; [exact Hev|].
  by rewrite Hread by by vm_compute.
Defined.
End WafScriptExamples.
