(* ===== verification/WafBindings.v ===== *)
(** * bindings/python/wscript: configuring and building the Python bindings

    [Conf] is the state of a configuration: that of the checks of [Ns3Check] and the environment of
    the process.  [BindConf] is the configuration of the bindings on every branch, [BindBuild] what
    the build asks for: the maps of headers and modules, the tasks of the scan, the command that
    generates the bindings and the library they become.  waf's checks, the interpreter and the
    processes are parameters. *)
From Stdlib Require Import ZArith Lia Ascii String.
From stdpp Require Import base list strings gmap.
From S2P Require Import Prelude PyStr ShellCmd WUtils Ns3Check Ns3Module.

(** ** The state of a configuration *)
Module Conf.
Import Env Check.

Record cstate (E : Type) := mk_cstate {
  base : bstate E; environ : list (string * string); warned : list string
}.
Arguments mk_cstate {E}. Arguments base {E}. Arguments environ {E}. Arguments warned {E}.

Section conf.
  Context {E : Type} `{WafEnv E}.

(** an action of the checks *)
Definition lift {A} (m : py (bstate E) A) : py (cstate E) A := λ s,
  let '(r, b) := m (base s) in (r, {| base := b; environ := environ s; warned := warned s |}).
Definition get_environ (k : string) : py (cstate E) (option string) :=
  λ s, (Ok (dict_get (environ s) k), s).
Definition set_environ (k v : string) : py (cstate E) unit := py_modify (λ s,
  {| base := base s; environ := dict_set (environ s) k v; warned := warned s |}).
(** [Logs.warn] *)
Definition warn (m : string) : py (cstate E) unit := py_modify (λ s,
  {| base := base s; environ := environ s; warned := warned s ++ [m] |}).

Definition cget (k : string) : py (cstate E) val := lift (get k).
Definition cput (k : string) (v : val) : py (cstate E) unit := lift (put k v).
Definition cappend (k v : string) : py (cstate E) unit := lift (append k v).
(** [conf.msg], [Logs.error] *)
Definition msg (m : string) : py (cstate E) unit := lift (print m).
Definition error (m : string) : py (cstate E) unit := lift (log_error m).
(** a check of waf, which may change the environment of the build *)
Definition waf {A} (f : E → result A * E) : py (cstate E) A := lift (call_waf f).
(** [try: m except ...]: [None] when the exception is one of those caught *)
Definition try_except {A} (caught : exn → bool) (m : py (cstate E) A) : py (cstate E) (option A) :=
  λ s, match m s with
       | (Ok a, s) => (Ok (Some a), s)
       | (Raise e, s) => (if caught e then Ok None else Raise e, s)
       end.
Definition is_configuration_error (e : exn) : bool :=
  match e with ConfigurationError _ => true | _ => false end.
Definition is_waf_error (e : exn) : bool :=
  match e with WafError _ | ConfigurationError _ => true | _ => false end.
(** [except Errors.ConfigurationError], [except WafError] *)
Definition try_conf {A} : py (cstate E) A → py (cstate E) (option A) :=
  try_except is_configuration_error.
Definition try_waf {A} : py (cstate E) A → py (cstate E) (option A) := try_except is_waf_error.
Definition report (name caption : string) (enabled : bool) (reason : string) : py (cstate E) unit :=
  lift (_report_optional_feature name caption enabled (Some reason)).
(** the report of a feature that is there, with None for the reason *)
Definition report_enabled (name caption : string) : py (cstate E) unit :=
  lift (_report_optional_feature name caption true None).
(** [report_optional_feature] of src/wscript, a method of the configuration: [append_value] *)
Definition report_optional_feature (name caption : string) (enabled : bool) (reason : string)
    : py (cstate E) unit :=
  v ← cget "NS3_OPTIONAL_FEATURES";
  match v with
  | VFeatures l => cput "NS3_OPTIONAL_FEATURES" (VFeatures (l ++ [(name, caption, enabled, Some reason)]))
  | VList [] => cput "NS3_OPTIONAL_FEATURES" (VFeatures [(name, caption, enabled, Some reason)])
  | _ => py_raise AttributeError
  end.
End conf.
End Conf.

(** ** The configuration of the bindings *)
Module BindConf.
Import Env Check Conf.

Definition REQUIRED_PYBINDGEN_VERSION : string := "0.17.0.post41+ngd10fa60".
Definition REQUIRED_PYGCCXML_VERSION : list Z := [0; 9; 5]%Z.

(** [a >= b] of tuples and of lists of integers *)
Fixpoint version_ge (a b : list Z) : bool :=
  match a, b with
  | _, [] => true
  | [], _ :: _ => false
  | x :: a, y :: b => if (x =? y)%Z then version_ge a b else (y <? x)%Z
  end.
(** [[int(x) for x in version.split('.')]] *)
Fixpoint py_ints (l : list string) : result (list Z) :=
  match l with
  | [] => Ok []
  | x :: l => n ← py_int x; r ← py_ints l; Ok (n :: r)
  end.
Definition parse_version (version : string) : result (list Z) := py_ints (split_char "." version).

(** whether the bytes are UTF-8, which [bytes.decode] accepts *)
Definition between (lo hi : Z) (c : ascii) : bool := (lo <=? ord c)%Z && (ord c <=? hi)%Z.
Definition continues : ascii → bool := between 128 191.
(** the bytes that may come behind the first of two, of three and of four *)
Definition second_of_three (c1 c2 : ascii) : bool :=
  if (ord c1 =? 224)%Z then between 160 191 c2
  else if (ord c1 =? 237)%Z then between 128 159 c2 else continues c2.
Definition second_of_four (c1 c2 : ascii) : bool :=
  if (ord c1 =? 240)%Z then between 144 191 c2
  else if (ord c1 =? 244)%Z then between 128 143 c2 else continues c2.
Fixpoint valid_utf8 (s : string) : bool :=
  match s with
  | EmptyString => true
  | String a s1 =>
      if between 0 127 a then valid_utf8 s1
      else match s1 with
      | EmptyString => false
      | String b s2 =>
          if between 194 223 a then continues b && valid_utf8 s2
          else match s2 with
          | EmptyString => false
          | String c s3 =>
              if between 224 239 a then second_of_three a b && continues c && valid_utf8 s3
              else match s3 with
              | EmptyString => false
              | String d s4 => between 240 244 a && second_of_four a b && continues c &&
                               continues d && valid_utf8 s4
              end
          end
      end
  end.
(** [maybe_decode]: [sys.exc_clear], called for bytes that are no UTF-8, is gone from Python 3 *)
Definition maybe_decode (python3 : bool) (input : string) : result string :=
  if negb python3 || valid_utf8 input then Ok input else Raise AttributeError.

(** ['.'.join([str(x) for x in version])]: the characters of the text *)
Definition dotted_characters (version : string) : string :=
  join "." ((λ c, String c EmptyString) <$> list_ascii_of_string version).

(** the option -arch and its value are removed; a last -arch without a value raises *)
Fixpoint strip_arch (flags : list string) : result (list string) :=
  match flags with
  | [] => Ok []
  | f :: rest =>
      if (f =? "-arch")%string then
        match rest with
        | [] => Raise IndexError
        | _ :: rest => strip_arch rest
        end
      else r ← strip_arch rest; Ok (f :: r)
  end.

Definition flags_vars : list string :=
  ["CFLAGS_PYEXT"; "CFLAGS_PYEMBED"; "CXXFLAGS_PYEMBED"; "CXXFLAGS_PYEXT"; "LINKFLAGS_PYEMBED";
   "LINKFLAGS_PYEXT"].

(** the program whose compilation tells whether two types are the same *)
Definition test_program (type1 type2 : string) : string :=
  nl +:+ "#include <stdint.h>" +:+ nl +:+ "#include <vector>" +:+ nl +:+ nl +:+
  "int main ()" +:+ nl +:+ "{" +:+ nl +:+
  "   std::vector< " +:+ type1 +:+ " > t = std::vector< " +:+ type2 +:+ " > ();" +:+ nl +:+
  "   return 0;" +:+ nl +:+ "}" +:+ nl.

(** the program whose compilation tells whether the run time types of gcc are complete *)
Definition cxxabi_program : string :=
  nl +:+ "# include <cxxabi.h>" +:+ nl +:+ "int main ()" +:+ nl +:+ "{" +:+ nl +:+
  "   const abi::__si_class_type_info *_typeinfo  __attribute__((unused)) = NULL;" +:+ nl +:+
  "   return 0;" +:+ nl +:+ "}" +:+ nl.

(** the groups of [^GCC-XML version (\d\.\d(\.\d)?)$]: the version *)
Definition match_gccxml (line : string) : option string :=
  if startswith line "GCC-XML version " then
    let v := str_drop 16 line in
    match v with
    | String a (String "." (String b EmptyString)) =>
        if is_digit a && is_digit b then Some v else None
    | String a (String "." (String b (String "." (String c EmptyString)))) =>
        if is_digit a && is_digit b && is_digit c then Some v else None
    | _ => None
    end
  else None.

Record options := mk_options {
  python_disable : bool; with_python : option string; with_pybindgen : option string
}.

Section bind_conf.
  Context {E : Type} `{WafEnv E}.
  (** [sys.platform], the working directory, [os.path.isdir], [os.pathsep] *)
  Variable platform cwd : string.
  Variable isdir : string → bool.
  Variable pathsep : string.
  Variable opts : options.
  (** [conf.load], [conf.check_python_version], [conf.check_python_headers],
      [conf.check_python_module], [conf.check] of a program for a compiler and without one,
      [conf.find_program] with its variable: their exceptions, the new environment *)
  Variable load : string → E → result unit * E.
  Variable check_python_version check_python_headers : E → result unit * E.
  Variable check_python_module : string → E → result unit * E.
  Variable check_fragment check_abi : string → E → result bool * E.
  Variable find_program : string → string → E → result (list string) * E.
  (** the major version of the interpreter, the standard output of a process, the first line that a
      command writes, [platform.system()] and [platform.platform()], the version of pygccxml *)
  Variable python3 : bool.
  Variable popen : list string → result string.
  Variable popen_line : string → result string.
  Variable system_name platform_name : string.
  Variable pygccxml_import : result string.

Definition add_to_python_path (path : string) : py (cstate E) unit :=
  old ← get_environ "PYTHONPATH";
  match old with
  | Some p => if truthy p then set_environ "PYTHONPATH" (path +:+ pathsep +:+ p)
              else set_environ "PYTHONPATH" path
  | None => set_environ "PYTHONPATH" path
  end.

Definition set_pybindgen_pythonpath : py (cstate E) unit :=
  v ← cget "WITH_PYBINDGEN";
  if val_true v then p ← py_lift (as_str v); add_to_python_path p else mret ().

Definition refuse (reason : string) : py (cstate E) unit :=
  report "python" "Python Bindings" false reason.

Definition strip_all : py (cstate E) unit :=
  py_for flags_vars (λ k,
    v ← cget k; l ← py_lift (as_list v); r ← py_lift (strip_arch l); cput k (VList r)).

Definition find_pybindgen : py (cstate E) unit :=
  match with_pybindgen opts with
  | Some p =>
      if isdir p then
        msg ("Checking for pybindgen location: " +:+ p +:+ " (given)") ;;
        cput "WITH_PYBINDGEN" (VStr (abspath cwd p))
      else mret ()
  | None =>
      let pybindgen_dir := path_join ".." "pybindgen" in
      let pybindgen_release_dir :=
        path_join ".." ("pybindgen-" +:+ dotted_characters REQUIRED_PYBINDGEN_VERSION) in
      if isdir pybindgen_dir then
        msg ("Checking for pybindgen location: " +:+ pybindgen_dir +:+ " (guessed)") ;;
        cput "WITH_PYBINDGEN" (VStr (abspath cwd pybindgen_dir))
      else if isdir pybindgen_release_dir then
        msg ("Checking for pybindgen location: " +:+ pybindgen_release_dir +:+ " (guessed)") ;;
        cput "WITH_PYBINDGEN" (VStr (abspath cwd pybindgen_release_dir))
      else mret ()
  end.

(** [test]: whether a vector of one type is a vector of the other *)
Definition test (t1 t2 : string) : py (cstate E) bool :=
  r ← try_conf (waf (check_fragment (test_program t1 t2)));
  let ret := match r with Some b => b | None => false end in
  msg ("Checking for types " +:+ t1 +:+ " and " +:+ t2 +:+ " equivalence: " +:+
       (if ret then "no" else "yes")) ;;
  mret ret.

(** the tables of types that fit the platform *)
Definition find_apidefs : py (cstate E) (option string) :=
  is_long ← test "uint64_t" "unsigned long";
  is_long_long ← test "uint64_t" "unsigned long long";
  mret (if (is_long : bool) then Some "gcc-LP64"
        else if (is_long_long : bool) then Some "gcc-ILP32" else None).

(** [_check_nonfatal] of the program that needs the run time types *)
Definition check_cxxabi : py (cstate E) unit :=
  r ← try_conf (waf (check_abi cxxabi_program));
  let complete := match r with Some b => b | None => false end in
  cput "GCC_RTTI_ABI_COMPLETE" (VStr (if complete then "True" else "False")).

(** *** The checks of the scan of the API *)
Definition report_scanning (enabled : bool) (reason : string) : py (cstate E) unit :=
  report "pygccxml" "Python API Scanning Support" enabled reason.

(** whether gccxml goes by the name that it has in one release of Ubuntu: the parts of the name of
    the platform are taken by their place *)
Definition is_ubuntu_16_04 : result bool :=
  let parts := split_char "-" platform_name in
  if negb (system_name =? "Linux")%string then Ok false
  else
    match parts !! 6%nat with
    | None => Raise IndexError
    | Some d =>
        if negb (d =? "Ubuntu")%string then Ok false
        else match parts !! 7%nat with
             | None => Raise IndexError
             | Some r => Ok (r =? "16.04")%string
             end
    end.

(** the last check: the version of gccxml *)
Definition check_gccxml_version (gccxml : string) : py (cstate E) unit :=
  line ← py_lift (popen_line (gccxml +:+ " --version"));
  match match_gccxml (strip line) with
  | None => py_raise AttributeError
  | Some gccxml_version =>
      v ← py_lift (parse_version gccxml_version);
      msg ("Checking for gccxml version: " +:+ gccxml_version) ;;
      if version_ge v [0; 9]%Z then
        cput "ENABLE_PYTHON_SCANNING" (VBool true) ;;
        report_enabled "pygccxml" "Python API Scanning Support"
      else
        warn "gccxml too old, need version >= 0.9; automatic scanning of API definitions will not be possible" ;;
        report_scanning false "gccxml too old"
  end.

Definition check_gccxml : py (cstate E) unit :=
  r ← try_waf (u ← py_lift is_ubuntu_16_04;
               waf (find_program (if (u : bool) then "gccxml.real" else "gccxml") "GCCXML"));
  match r with
  | None | Some [] =>
      warn "gccxml missing; automatic scanning of API definitions will not be possible" ;;
      report_scanning false "gccxml missing"
  | Some (gccxml :: _) => check_gccxml_version gccxml
  end.

Definition is_import_error (e : exn) : bool :=
  bool_decide (e = AttributeError ∨ e = PyException "ImportError").
Definition check_scanning : py (cstate E) unit :=
  r ← try_conf (waf (check_python_module "pygccxml"));
  match r with
  | None => report_scanning false "Missing 'pygccxml' Python module"
  | Some _ =>
      version ← try_except is_import_error (py_lift pygccxml_import);
      match version with
      | None =>
          warn "pygccxml version cannot be determined" ;;
          report_optional_feature "castxml" "Python API Scanning Support" false
            "pygccxml Python module version is unknown"
      | Some v =>
          let version_str := lstrip_by (λ c, Ascii.eqb c "v") v in
          pygccxml_version ← py_lift (parse_version version_str);
          msg ("Checking for pygccxml version: " +:+ version_str) ;;
          if version_ge pygccxml_version REQUIRED_PYGCCXML_VERSION then check_gccxml
          else
            warn ("pygccxml (found " +:+ version_str +:+ ") is too old (need " +:+
                  join "." (show_Z <$> REQUIRED_PYGCCXML_VERSION) +:+
                  ") => automatic scanning of API definitions will not be possible") ;;
            report_scanning false "pygccxml too old"
      end
  end.

(** the call of the report without its first argument *)
Definition report_without_conf : py (cstate E) unit := py_raise TypeError.

(** the end of the configuration: with tables for the platform the bindings are enabled, and what
    the scan needs is checked; without them the report is called without the configuration *)
Definition enable_bindings : py (cstate E) unit :=
  apidefs ← find_apidefs;
  cput "PYTHON_BINDINGS_APIDEFS" (match apidefs with Some a => VStr a | None => VNone end) ;;
  msg ("Checking for the apidefs that can be used for Python bindings: " +:+
       default "none available" apidefs) ;;
  match apidefs with
  | None => report_without_conf
  | Some _ =>
      cput "ENABLE_PYTHON_BINDINGS" (VBool true) ;;
      report_enabled "python" "Python Bindings" ;;
      check_cxxabi ;;
      check_scanning
  end.

(** [conf.env['PYTHON'][0]] *)
Definition python_program : py (cstate E) string :=
  v ← cget "PYTHON"; l ← py_lift (as_iter v);
  match l with [] => py_raise IndexError | p :: _ => mret p end.

Definition check_pybindgen : py (cstate E) unit :=
  find_pybindgen ;;
  v ← cget "WITH_PYBINDGEN";
  (if val_true v then mret () else msg "Checking for pybindgen location: False") ;;
  set_pybindgen_pythonpath ;;
  r ← try_conf (waf (check_python_module "pybindgen"));
  match r with
  | None => warn "pybindgen missing => no python bindings"
  | Some _ =>
      python ← python_program;
      out ← py_lift (popen [python; "-c"; "import pybindgen.version; print(pybindgen.__version__)"]);
      version ← py_lift (maybe_decode python3 (strip out));
      msg ("Checking for pybindgen version: " +:+ version) ;;
      if bool_decide (string_le REQUIRED_PYBINDGEN_VERSION version) then
        msg "PyBindGen: True" ;; enable_bindings
      else
        warn ("pybindgen (found " +:+ Repr.py_repr version +:+ "), (need " +:+
              Repr.py_repr REQUIRED_PYBINDGEN_VERSION +:+ ")") ;;
        warn ("pybindgen (found " +:+ version +:+ "), (need " +:+
              dotted_characters REQUIRED_PYBINDGEN_VERSION +:+ ")") ;;
        refuse "PyBindGen version not correct and newer version could not be retrieved"
  end.

(** the checks of the interpreter, one after the other; the first that fails ends the configuration *)
Definition check_python : py (cstate E) unit :=
  (match with_python opts with Some p => cput "PYTHON" (VStr p) | None => mret () end) ;;
  r ← try_conf (waf (load "python"));
  match r with
  | None => refuse "The python interpreter was not found"
  | Some _ =>
      r ← try_conf (waf check_python_version);
      match r with
      | None => refuse "The python found version is too low (2.3 required)"
      | Some _ =>
          r ← try_conf (waf check_python_headers);
          match r with
          | None => refuse "Python library or headers missing"
          | Some _ => strip_all ;; check_pybindgen
          end
      end
  end.

(** [list(conf.env[k])]; the comparison of the two sorted lists is read by nothing *)
Definition iterate (k : string) : py (cstate E) unit :=
  v ← cget k;
  match v with VNone | VBool _ => py_raise TypeError | _ => mret () end.

Definition configure : py (cstate E) unit :=
  cput "ENABLE_PYTHON_BINDINGS" (VBool false) ;;
  if python_disable opts then refuse "disabled by user request"
  else
    a ← cget "ENABLE_STATIC_NS3"; b ← cget "NS3_ENABLE_STATIC";
    c ← cget "ENABLE_SHARED_AND_STATIC_NS3";
    if val_true a || val_true b || val_true c then
      refuse "bindings incompatible with static build"
    else
      iterate "NS3_ENABLED_MODULES" ;; iterate "NS3_MODULES" ;;
      if (platform =? "cygwin")%string then
        refuse "unsupported platform 'cygwin'" ;;
        warn "Python is not supported in CygWin environment."
      else check_python.
End bind_conf.
End BindConf.

(** ** The build of the bindings *)
Module BindBuild.
Import Env Build Modules.

(** what the code reads of a task generator; [tg_features] is empty when there is no attribute *)
Record taskgen := mk_taskgen {
  tg_name : string; tg_features : list string; tg_module : string; tg_headers : list string;
  tg_path : string; tg_deps : list string
}.
Definition is_headers (t : taskgen) : bool := bool_decide ("ns3header" ∈ tg_features t).

(** header => module *)
Definition get_headers_map (all_task_gen : list taskgen) : list (string * string) :=
  foldl (λ m t, foldl (λ m h, dict_set m (basename h) (tg_module t)) m (tg_headers t)) []
    (List.filter (λ t, is_headers t && negb (endswith (tg_module t) "-test")) all_task_gen).

Definition get_module_path (all_task_gen : list taskgen) (module : string) : result string :=
  match List.find (λ t, is_headers t && (tg_module t =? module)%string) all_task_gen with
  | Some t => Ok (tg_path t)
  | None => Raise (ValueError ("Module " +:+ Repr.py_repr module +:+ " not found"))
  end.

(** module => (dependencies, headers) *)
Definition module_headers (all_task_gen : list taskgen) (module : string) : list string :=
  List.filter (λ t, is_headers t && (tg_module t =? module)%string) all_task_gen
    ≫= λ t, basename <$> tg_headers t.
Definition is_library (t : taskgen) : bool :=
  startswith (tg_name t) "ns3-" && negb (endswith (tg_name t) "-test").
Definition get_modules_and_headers (all_task_gen : list taskgen)
    : list (string * (list string * list string)) :=
  foldl (λ m t, let name := str_drop 4 (tg_name t) in
                dict_set m name (tg_deps t, module_headers all_task_gen name)) []
    (List.filter is_library all_task_gen).

(** ** The tasks of the scan *)

(** [repr] of a dictionary of texts *)
Definition repr_dict (d : list (string * string)) : string :=
  "{" +:+ join ", " ((λ kv, Repr.py_repr kv.1 +:+ ": " +:+ Repr.py_repr kv.2) <$> d) +:+ "}".

Record apiscan_task := mk_apiscan {
  a_curdir : string; a_python : list string; a_target : string; a_cflags : string; a_module : string
}.
Definition apiscan_display (t : apiscan_task) : string := "api-scan-" +:+ a_target t +:+ nl.

Section scan.
  (** [os.path.exists], a process and its status, the directory of the build *)
  Variable exists_file : string → bool.
  Variable popen : list string → Z.
  Variable top_builddir : string.
  Variable all_task_gen : list taskgen.

(** the processes started and the errors logged *)
Definition scan_state : Type := list (list string) * list string.

Definition apiscan_run (t : apiscan_task) : py scan_state Z :=
  module_path ← py_lift (get_module_path all_task_gen (a_module t));
  let headers_map := get_headers_map all_task_gen in
  let scan_header := path_joins top_builddir ["ns3"; a_module t +:+ "-module.h"] in
  if negb (exists_file scan_header) then
    py_modify (λ s, (s.1, s.2 ++ ["Cannot apiscan module " +:+ Repr.py_repr (a_module t) +:+ ": " +:+
                                  scan_header +:+ " does not exist"])) ;;
    mret 0%Z
  else
    match a_python t with
    | [] => py_raise IndexError
    | python :: _ =>
        let argv := [python; path_join (a_curdir t) "ns3modulescan-modular.py"; top_builddir;
                     a_module t; repr_dict headers_map;
                     path_joins module_path ["bindings"; "modulegen__" +:+ a_target t +:+ ".py"];
                     a_cflags t] in
        py_modify (λ s, (s.1 ++ [argv], s.2)) ;;
        mret (popen argv)
    end.
End scan.

(** the collector stops the producer of the build and succeeds *)
Definition collector_display : string := "python-scan-collector" +:+ nl.
Definition collector_run (stop : Z) : Z * Z := (0%Z, 1%Z).

(** the compatibility module; [file] is no builtin under Python 3 *)
Definition compat_text (modules : list string) : string :=
  "import warnings" +:+ nl +:+
  "warnings.warn(" +:+ String "034" ("the ns3 module is a compatibility layer and should not be used in newly written code" +:+
    String "034" ", DeprecationWarning, stacklevel=2)") +:+ nl +:+ nl +:+
  sconcat ((λ m, "from ns." +:+ py_replace "-" "_" m +:+ " import *" +:+ nl) <$> modules).
Definition compat_run (python3 : bool) (outputs modules : list string)
    : result (string * string) :=
  match outputs with
  | [out] => if python3 then Raise (PyException "NameError") else Ok (out, compat_text modules)
  | _ => Raise AssertionError
  end.

(** ** The generation *)

(** the elements in the order of their first occurrence *)
Fixpoint removedup_go (seen seq : list string) : list string :=
  match seq with
  | [] => []
  | x :: seq => if bool_decide (x ∈ seen) then removedup_go seen seq
                else x :: removedup_go (x :: seen) seq
  end.
Definition removedup (seq : list string) : list string := removedup_go [] seq.

(** the command that generates the bindings of the module dce *)
Definition bindgen_argv (module_abs_src_path apidefs : string) : list string :=
  ["NS3_ENABLED_FEATURES=${FEATURES}"; "GCC_RTTI_ABI_COMPLETE=${GCC_RTTI_ABI_COMPLETE}"; "${PYTHON}";
   "${SRC[0]}"; module_abs_src_path; apidefs; "dce"; "${TGT[0]}"; "2>"; "${TGT[2]}"].

Section generation.
  Context {E : Type} `{WafEnv E}.
  (** [bld.srcnode.abspath()], the working directory, the options *)
  Variable srcnode cwd pathsep : string.
  Variable python_disable : bool.

Fixpoint all_libs (deps acc : list string) : py (mstate E) (list string) :=
  match deps with
  | [] => mret acc
  | d :: deps => l ← _lib d; all_libs deps (acc ++ l)
  end.
Definition enabled_features : py (mstate E) (list string) :=
  v ← get "NS3_OPTIONAL_FEATURES";
  match v with
  | VFeatures l => mret ((λ f, f.1.1.1) <$> List.filter (λ f, f.1.2) l)
  | VList [] => mret []
  | VList _ | VStr _ => py_raise (ValueError "not enough values to unpack")
  | VBool _ | VNone => py_raise TypeError
  end.
Definition first_of (k : string) : py (mstate E) string :=
  l ← get_iter k;
  match l with x :: _ => mret x | [] => py_raise IndexError end.

(** what is set on the generator behind the call is given as more keywords *)
Definition dce_generate_python_bindings : py (mstate E) unit :=
  ns3inc ← first_of "INCLUDES_NS3_CORE";
  let dceinc := abspath cwd "build/include" in
  needed ← get_list "NS3_MODULES_FOUND";
  libs ← all_libs (modules_uselib needed)
           ["-shared"; "-Wl,--no-as-needed"; "-o dce"; "-L" +:+ cwd +:+ "/build/lib"];
  let lnklibs := removedup (libs ++ ["-lns3-dce"]) in
  v ← get "PYTHON_BINDINGS_APIDEFS"; a ← py_lift (as_str v);
  let apidefs := py_replace "-" "_" a in
  features ← enabled_features;
  emit (Generator
    [("features", Some (VStr "command"));
     ("source", Some (VList ["bindings/python/ns3modulegen-modular.py";
                             "bindings/modulegen__" +:+ apidefs +:+ ".py"]));
     ("target", Some (VList ["ns3module.cc"; "ns3module.h"; "ns3modulegen.log"]));
     ("command", Some (VList (bindgen_argv srcnode apidefs)));
     ("env.FEATURES", Some (VStr (join "," features)));
     ("dep_vars", Some (VList ["FEATURES"; "GCC_RTTI_ABI_COMPLETE"]));
     ("name", Some (VStr "pybindgen(ns3 module dce)"));
     ("module", Some (VStr "dce")); ("install_path", None)]) ;;
  emit (Program
    [("source", Some (VStr "ns3module.cc")); ("target", Some (VStr "ns/dce"));
     ("includes", Some (VList ["."; ns3inc; dceinc]));
     ("features", Some (VStr "cxx cxxshlib pyext")); ("linkflags", Some (VList lnklibs));
     ("install_path", Some (VStr "${PYTHONARCHDIR}/ns"));
     ("cxxflags", Some (VList ["-O0"; "-Wall"; "-fPIC"])); ("dflags", Some (VList ["-g"]))]).

(** [build]; the variables of the process that it sets come back with the events *)
Definition build (environ : list (string * string)) : py (mstate E) (list (string * string)) :=
  if python_disable then mret environ
  else
    v ← get "WITH_PYBINDGEN";
    environ ← (if val_true v then
                 p ← py_lift (as_str v);
                 let old := default EmptyString (dict_get environ "PYTHONPATH") in
                 mret (dict_set environ "PYTHONPATH"
                         (if truthy old then p +:+ pathsep +:+ old else p))
               else mret environ);
    enabled ← get "ENABLE_PYTHON_BINDINGS";
    if negb (val_true enabled) then mret environ
    else
      k ← get "KERNEL_STACK";
      environ ← (if val_true k then p ← py_lift (as_str k);
                   mret (dict_set environ "KERNEL_STACK" p) else mret environ);
      dce_generate_python_bindings ;;
      mret environ.
End generation.
End BindBuild.

(** ** Facts *)
Module WafBindingsFacts.
Import Env Check Conf BindConf.

(** *** Lists *)

(** flags, some of them -arch with its value *)
Inductive flag := Plain (f : string) | Arch (value : string).
Definition render_flag (f : flag) : list string :=
  match f with Plain f => [f] | Arch v => ["-arch"; v] end.
Definition plain_flag (f : flag) : bool :=
  match f with Plain f => negb (f =? "-arch")%string | Arch _ => true end.
Definition kept (f : flag) : list string := match f with Plain f => [f] | Arch _ => [] end.

(** Exactly the options -arch and their values are taken out, and a last one without a value is an
    IndexError. *)
Lemma strip_arch_spec (l : list flag) :
  forallb plain_flag l = true →
  strip_arch (l ≫= render_flag) = Ok (l ≫= kept) ∧
  strip_arch ((l ≫= render_flag) ++ ["-arch"]) = Raise IndexError.
Proof.
  induction l as [|[f|v] l IH]; cbn [forallb plain_flag]; [done| |]; intros Hl.
  - apply andb_true_iff in Hl as [Hf%negb_true_iff Hl]. destruct (IH Hl) as [H1 H2].
    cbn. rewrite Hf. cbn in H1, H2. by rewrite H1, H2.
  - destruct (IH Hl) as [H1 H2]. cbn in *. by rewrite H1, H2.
Qed.

Lemma removedup_elem seen l x :
  x ∈ BindBuild.removedup_go seen l ↔ x ∈ l ∧ x ∉ seen.
Proof.
  revert seen. induction l as [|y l IH]; intros seen; cbn [BindBuild.removedup_go].
  { rewrite elem_of_nil. naive_solver. }
  case_bool_decide; rewrite ?elem_of_cons, !IH, ?elem_of_cons; [naive_solver|].
  destruct (decide (x = y)); naive_solver.
Qed.
Lemma removedup_nodup seen l : NoDup (BindBuild.removedup_go seen l).
Proof.
  revert seen. induction l as [|y l IH]; intros seen; cbn [BindBuild.removedup_go]; [constructor|].
  case_bool_decide; [done|]. constructor; [|done]. rewrite removedup_elem, elem_of_cons. naive_solver.
Qed.
Lemma removedup_snoc seen l x :
  BindBuild.removedup_go seen (l ++ [x]) =
    BindBuild.removedup_go seen l ++ (if decide (x ∈ l ∨ x ∈ seen) then [] else [x]).
Proof.
  revert seen. induction l as [|y l IH]; intros seen; cbn [BindBuild.removedup_go app].
  { case_bool_decide; case_decide as Hd; rewrite ?elem_of_nil in Hd; naive_solver. }
  case_bool_decide as Hy; rewrite IH; cbn [app].
  - f_equal. apply decide_ext. rewrite elem_of_cons. naive_solver.
  - do 2 f_equal. apply decide_ext. rewrite !elem_of_cons. naive_solver.
Qed.

(** [removedup] keeps each element once, in the order of the first occurrences. *)
Lemma removedup_spec l :
  NoDup (BindBuild.removedup l) ∧ (∀ x, x ∈ BindBuild.removedup l ↔ x ∈ l) ∧
  ∀ x, BindBuild.removedup (l ++ [x]) =
       BindBuild.removedup l ++ if decide (x ∈ l) then [] else [x].
Proof.
  unfold BindBuild.removedup. split; [apply removedup_nodup|]. split.
  - intros x. rewrite removedup_elem, elem_of_nil. naive_solver.
  - intros x. rewrite removedup_snoc. f_equal. apply decide_ext. rewrite elem_of_nil. naive_solver.
Qed.

(** *** What a configuration leaves in the environment *)

(** what is watched of a state: whether the bindings and the scan are enabled, the tables of types,
    whether the run time types are complete, the features reported *)
Record view := mk_view {
  v_enabled : val; v_scanning : val; v_apidefs : val; v_rtti : val; v_features : list feature
}.
Definition watched : list string :=
  ["ENABLE_PYTHON_BINDINGS"; "ENABLE_PYTHON_SCANNING"; "PYTHON_BINDINGS_APIDEFS";
   "GCC_RTTI_ABI_COMPLETE"; "NS3_OPTIONAL_FEATURES"].

(** the feature reported by the last check, and by a configuration without the bindings *)
Definition bindings_feature : feature := ("python", "Python Bindings", true, None).
Definition scanning_feature : feature := ("pygccxml", "Python API Scanning Support", true, None).
Definition not_enabled (f : feature) : Prop := f.1.2 = false.

Section conf_facts.
  Context {E : Type} `{WafEnvLaws E}.
  Variable platform cwd : string.
  Variable isdir : string → bool.
  Variable pathsep : string.
  Variable opts : options.
  Variable load : string → E → result unit * E.
  Variable check_python_version check_python_headers : E → result unit * E.
  Variable check_python_module : string → E → result unit * E.
  Variable check_fragment check_abi : string → E → result bool * E.
  Variable find_program : string → string → E → result (list string) * E.
  Variable python3 : bool.
  Variable popen : list string → result string.
  Variable popen_line : string → result string.
  Variable system_name platform_name : string.
  Variable pygccxml_import : result string.

(** the features reported so far: none when the variable is not set *)
Definition reported (e : E) (l : list feature) : Prop :=
  if env_has e "NS3_OPTIONAL_FEATURES" then env_get e "NS3_OPTIONAL_FEATURES" = VFeatures l
  else l = [].
Definition sees (s : cstate E) (v : view) : Prop :=
  let e := env (base s) in
  env_get e "ENABLE_PYTHON_BINDINGS" = v_enabled v ∧
  env_get e "ENABLE_PYTHON_SCANNING" = v_scanning v ∧
  env_get e "PYTHON_BINDINGS_APIDEFS" = v_apidefs v ∧
  env_get e "GCC_RTTI_ABI_COMPLETE" = v_rtti v ∧ reported e (v_features v).

(** waf's own checks do not set the variables that are watched *)
Definition quiet {A} (f : E → result A * E) : Prop :=
  ∀ e k, k ∈ watched → env_get (f e).2 k = env_get e k ∧ env_has (f e).2 k = env_has e k.

(** an action from a view to a view: when it returns, the second is seen, with its value *)
Definition ends {A} (m : py (cstate E) A) (v : view) (Q : A → view → Prop) : Prop :=
  ∀ s, sees s v → ∀ a s', m s = (Ok a, s') → ∃ v', sees s' v' ∧ Q a v'.
(** an action that leaves the view alone, whether it returns or raises *)
Definition keeps {A} (m : py (cstate E) A) : Prop :=
  ∀ s r s', m s = (r, s') → ∀ v, sees s v → sees s' v.

Lemma sees_env (s s' : cstate E) v :
  (∀ k, k ∈ watched → env_get (env (base s')) k = env_get (env (base s)) k ∧
                      env_has (env (base s')) k = env_has (env (base s)) k) →
  sees s v → sees s' v.
Proof.
  intros Hk (H1 & H2 & H3 & H4 & H5). unfold sees, reported in *.
  assert (Hg : ∀ k, k ∈ watched → env_get (env (base s')) k = env_get (env (base s)) k)
    by (intros k Hw; by apply Hk).
  rewrite !Hg by (unfold watched; set_solver).
  destruct (Hk "NS3_OPTIONAL_FEATURES") as [_ ->]; [unfold watched; set_solver|]. done.
Qed.
Lemma still_env {A} (m : py (cstate E) A) :
  (∀ s, env (base (m s).2) = env (base s)) → keeps m.
Proof.
  intros Hm s r s' Hr v. apply sees_env. intros k _. specialize (Hm s). rewrite Hr in Hm. cbn in Hm.
  by rewrite Hm.
Qed.
Lemma still_bind {A B} (m : py (cstate E) A) (f : A → py (cstate E) B) :
  keeps m → (∀ a, keeps (f a)) → keeps (m ≫= f).
Proof.
  intros Hm Hf s r s'. cbv [mbind py_bind]. destruct (m s) as [[a|e] s1] eqn:Em.
  - intros Hr v Hv. eapply Hf; [exact Hr|]. by eapply Hm.
  - intros [= <- <-]. by eapply Hm.
Qed.
Lemma still_ret {A} (a : A) : keeps (mret a).
Proof. by apply still_env. Qed.
Lemma still_result {A} (r : result A) : keeps (py_lift r).
Proof. by apply still_env. Qed.
Lemma still_raise {A} e : keeps (py_raise e : py (cstate E) A).
Proof. by apply still_env. Qed.
Lemma still_get k : keeps (cget k).
Proof. by apply still_env. Qed.
Lemma still_msg m : keeps (msg m).
Proof. by apply still_env. Qed.
Lemma still_warn m : keeps (warn m).
Proof. by apply still_env. Qed.
Lemma still_environ k v : keeps (set_environ k v).
Proof. by apply still_env. Qed.
Lemma still_get_environ k : keeps (get_environ k).
Proof. by apply still_env. Qed.
Lemma still_put k x : k ∉ watched → keeps (cput k x).
Proof.
  intros Hk s r s' [= <- <-] v. apply sees_env. intros k' Hk'. cbn.
  rewrite env_get_set, env_has_set, decide_False, bool_decide_false by (intros ->; done). done.
Qed.
Lemma still_waf {A} (f : E → result A * E) : quiet f → keeps (waf f).
Proof.
  intros Hf s r s'. unfold waf, lift, call_waf. specialize (Hf (env (base s))).
  destruct (f (env (base s))) as [r0 e0]. intros [= <- <-] v. by apply sees_env.
Qed.
Lemma still_try {A} caught (m : py (cstate E) A) : keeps m → keeps (try_except caught m).
Proof.
  intros Hm s r s'. unfold try_except. destruct (m s) as [[a|e] s1] eqn:Em; intros [= <- <-];
    by eapply Hm.
Qed.
Lemma still_for {A} (l : list A) (f : A → py (cstate E) unit) :
  (∀ x, x ∈ l → keeps (f x)) → keeps (py_for l f).
Proof.
  induction l as [|x l IH]; intros Hf; [apply still_ret|]. cbn [py_for].
  apply still_bind; [apply Hf; by left|]. intros _. apply IH. intros y Hy. apply Hf. by right.
Qed.

Lemma ends_keeps {A} (m : py (cstate E) A) v (Q : A → view → Prop) :
  keeps m → (∀ a, Q a v) → ends m v Q.
Proof. intros Hm HQ s Hs a s' Ha. exists v. split; [by eapply Hm|done]. Qed.
Lemma ends_bind {A B} (m : py (cstate E) A) (f : A → py (cstate E) B) v P Q :
  ends m v P → (∀ a v1, P a v1 → ends (f a) v1 Q) → ends (m ≫= f) v Q.
Proof.
  intros Hm Hf s Hs b s' (a & s1 & Ha & Hb)%py_bind_Ok.
  destruct (Hm s Hs a s1 Ha) as (v1 & Hv1 & HP). by eapply Hf.
Qed.
Lemma ends_step {A B} (m : py (cstate E) A) (f : A → py (cstate E) B) v Q :
  keeps m → (∀ a, ends (f a) v Q) → ends (m ≫= f) v Q.
Proof.
  intros Hm Hf. apply (ends_bind m f v (λ _ v1, v1 = v)); [by apply ends_keeps|].
  intros a v1 ->. apply Hf.
Qed.
(** a report adds its feature *)
Lemma ends_report n c b r v (Q : unit → view → Prop) :
  Q () (mk_view (v_enabled v) (v_scanning v) (v_apidefs v) (v_rtti v)
          (v_features v ++ [(n, c, b, r)])) →
  ends (lift (_report_optional_feature n c b r)) v Q.
Proof.
  intros HQ s (H1 & H2 & H3 & H4 & H5) a s'. unfold lift, _report_optional_feature.
  cbv [mbind py_bind has get put py_modify mret py_ret py_raise]. unfold reported in H5.
  destruct (env_has (env (base s)) "NS3_OPTIONAL_FEATURES") eqn:Eh.
  - rewrite H5. intros [= <- <-]. eexists. split; [|exact HQ]. unfold sees, reported. cbn.
    rewrite !env_get_set, !env_has_set, !decide_False, decide_True by done. done.
  - cbn. rewrite env_get_set, decide_True by done. intros [= <- <-].
    eexists. split; [|exact HQ]. unfold sees, reported. cbn.
    rewrite !env_get_set, !env_has_set, !decide_False, decide_True by done. by rewrite H5.
Qed.
(** *** The phases of the configuration *)

(** the answers that the scan needs: a pygccxml and a gccxml that are new enough *)
Definition scan_ready : Prop :=
  (∃ v l, pygccxml_import = Ok v ∧ parse_version (lstrip_by (λ c, Ascii.eqb c "v") v) = Ok l ∧
          version_ge l REQUIRED_PYGCCXML_VERSION = true) ∧
  ∃ gccxml line v l, popen_line (gccxml +:+ " --version") = Ok line ∧
    match_gccxml (strip line) = Some v ∧ parse_version v = Ok l ∧ version_ge l [0; 9]%Z = true.
(** the answer that the bindings need: a pybindgen whose version is not below the required one, in
    the order of the texts *)
Definition pybindgen_ready : Prop :=
  ∃ python out version,
    popen [python; "-c"; "import pybindgen.version; print(pybindgen.__version__)"] = Ok out ∧
    maybe_decode python3 (strip out) = Ok version ∧ string_le REQUIRED_PYBINDGEN_VERSION version.

(** the checks of the scan report one feature, and enable the scan exactly when it is there *)
Definition scanned (v v' : view) : Prop :=
  v_enabled v' = v_enabled v ∧ v_apidefs v' = v_apidefs v ∧ v_rtti v' = v_rtti v ∧
  ((v_scanning v' = VBool true ∧ v_features v' = v_features v ++ [scanning_feature] ∧ scan_ready) ∨
   (v_scanning v' = v_scanning v ∧
    ∃ f, not_enabled f ∧ v_features v' = v_features v ++ [f])).
(** the bindings refused, with at most one report *)
Definition refused (v v' : view) : Prop :=
  v_enabled v' = v_enabled v ∧ v_scanning v' = v_scanning v ∧
  (v_features v' = v_features v ∨
   ∃ reason, v_features v' = v_features v ++ [("python", "Python Bindings", false, Some reason)]).
(** the bindings enabled *)
Definition enabled (v v' : view) : Prop :=
  v_enabled v' = VBool true ∧ v_apidefs v' ∈ [VStr "gcc-LP64"; VStr "gcc-ILP32"] ∧
  v_rtti v' ∈ [VStr "True"; VStr "False"] ∧ pybindgen_ready ∧
  ((v_scanning v' = VBool true ∧ scan_ready ∧
    v_features v' = v_features v ++ [bindings_feature; scanning_feature]) ∨
   (v_scanning v' = v_scanning v ∧
    ∃ f, not_enabled f ∧ v_features v' = v_features v ++ [bindings_feature; f])).

#[local] Hint Resolve still_ret still_result still_raise still_get still_msg still_warn
  still_environ still_get_environ still_waf : keepsdb.
Ltac still_tac :=
  repeat first
    [ progress auto with keepsdb
    | apply still_put; unfold watched; set_solver
    | apply still_bind; [|intros ?]
    | match goal with |- keeps (match ?x with _ => _ end) => destruct x end ].

Lemma ends_result {A} (r : result A) v : ends (py_lift r) v (λ a v1, v1 = v ∧ r = Ok a).
Proof. intros s Hs a s' [= -> <-]. by exists v. Qed.
Lemma ends_raise {A} e v (Q : A → view → Prop) : ends (py_raise e) v Q.
Proof. by intros s Hs a s' ?. Qed.
(** a variable that is watched is set *)
Lemma ends_put k x v v' (Q : unit → view → Prop) :
  (∀ e, env_get e "ENABLE_PYTHON_BINDINGS" = v_enabled v →
        env_get e "ENABLE_PYTHON_SCANNING" = v_scanning v →
        env_get e "PYTHON_BINDINGS_APIDEFS" = v_apidefs v →
        env_get e "GCC_RTTI_ABI_COMPLETE" = v_rtti v →
        env_get (env_set e k x) "ENABLE_PYTHON_BINDINGS" = v_enabled v' ∧
        env_get (env_set e k x) "ENABLE_PYTHON_SCANNING" = v_scanning v' ∧
        env_get (env_set e k x) "PYTHON_BINDINGS_APIDEFS" = v_apidefs v' ∧
        env_get (env_set e k x) "GCC_RTTI_ABI_COMPLETE" = v_rtti v') →
  k ≠ "NS3_OPTIONAL_FEATURES" → v_features v' = v_features v → Q () v' → ends (cput k x) v Q.
Proof.
  intros Hk Hne Hf HQ s (H1 & H2 & H3 & H4 & H5) [] s' [= <-]. exists v'. split; [|done].
  destruct (Hk _ H1 H2 H3 H4) as (G1 & G2 & G3 & G4). unfold sees, reported in *. cbn.
  repeat (split; [done|]). rewrite env_has_set, env_get_set, decide_False, bool_decide_false by done.
  by rewrite Hf.
Qed.
Ltac put_tac :=
  intros e E1 E2 E3 E4; rewrite !env_get_set;
  repeat split; first [rewrite decide_False by done; assumption | by rewrite decide_True].

Lemma put_enabled x v :
  ends (cput "ENABLE_PYTHON_BINDINGS" x) v (λ _ v1, v1 = mk_view x (v_scanning v) (v_apidefs v) (v_rtti v) (v_features v)).
Proof. eapply (ends_put _ _ v (mk_view x (v_scanning v) (v_apidefs v) (v_rtti v) (v_features v))); [put_tac|done|reflexivity..]. Qed.
Lemma put_scanning x v :
  ends (cput "ENABLE_PYTHON_SCANNING" x) v (λ _ v1, v1 = mk_view (v_enabled v) x (v_apidefs v) (v_rtti v) (v_features v)).
Proof. eapply (ends_put _ _ v (mk_view (v_enabled v) x (v_apidefs v) (v_rtti v) (v_features v))); [put_tac|done|reflexivity..]. Qed.
Lemma put_apidefs x v :
  ends (cput "PYTHON_BINDINGS_APIDEFS" x) v (λ _ v1, v1 = mk_view (v_enabled v) (v_scanning v) x (v_rtti v) (v_features v)).
Proof. eapply (ends_put _ _ v (mk_view (v_enabled v) (v_scanning v) x (v_rtti v) (v_features v))); [put_tac|done|reflexivity..]. Qed.
Lemma put_rtti x v :
  ends (cput "GCC_RTTI_ABI_COMPLETE" x) v (λ _ v1, v1 = mk_view (v_enabled v) (v_scanning v) (v_apidefs v) x (v_features v)).
Proof. eapply (ends_put _ _ v (mk_view (v_enabled v) (v_scanning v) (v_apidefs v) x (v_features v))); [put_tac|done|reflexivity..]. Qed.

  Hypothesis load_quiet : ∀ n, quiet (load n).
  Hypothesis version_quiet : quiet check_python_version.
  Hypothesis headers_quiet : quiet check_python_headers.
  Hypothesis module_quiet : ∀ n, quiet (check_python_module n).
  Hypothesis fragment_quiet : ∀ p, quiet (check_fragment p).
  Hypothesis abi_quiet : ∀ p, quiet (check_abi p).
  Hypothesis program_quiet : ∀ n k, quiet (find_program n k).

Lemma ends_report_scanning v b reason :
  b = false → ends (report_scanning b reason) v (λ _ v', scanned v v').
Proof.
  intros ->. apply ends_report. unfold scanned. cbn. repeat (split; [done|]). right.
  split; [done|]. by eexists (_, _, _, _).
Qed.

Lemma gccxml_version_ends gccxml v :
  (∃ pv l, pygccxml_import = Ok pv ∧ parse_version (lstrip_by (λ c, Ascii.eqb c "v") pv) = Ok l ∧
           version_ge l REQUIRED_PYGCCXML_VERSION = true) →
  ends (check_gccxml_version popen_line gccxml) v (λ _ v', scanned v v').
Proof.
  intros Hpy. unfold check_gccxml_version.
  eapply ends_bind; [apply ends_result|]. intros line v1 [-> Hline].
  destruct (match_gccxml (strip line)) as [ver|] eqn:Ever; [|apply ends_raise].
  eapply ends_bind; [apply ends_result|]. intros l v1 [-> Hl].
  apply ends_step; [still_tac|intros _]. destruct (version_ge l [0; 9]%Z) eqn:Ege.
  - eapply ends_bind; [apply put_scanning|].
    intros _ v1 ->. apply ends_report. unfold scanned. cbn. repeat (split; [done|]). left.
    split; [done|]. split; [done|]. split; [done|]. by exists gccxml, line, ver, l.
  - apply ends_step; [still_tac|intros _]. by apply ends_report_scanning.
Qed.

Lemma gccxml_ends v :
  (∃ pv l, pygccxml_import = Ok pv ∧ parse_version (lstrip_by (λ c, Ascii.eqb c "v") pv) = Ok l ∧
           version_ge l REQUIRED_PYGCCXML_VERSION = true) →
  ends (check_gccxml find_program popen_line system_name platform_name) v (λ _ v', scanned v v').
Proof.
  intros Hpy. unfold check_gccxml. apply ends_step; [apply still_try; still_tac|].
  assert (Hmissing : ends (warn "gccxml missing; automatic scanning of API definitions will not be possible" ;;
                           report_scanning false "gccxml missing") v (λ _ v', scanned v v')).
  { apply ends_step; [still_tac|intros _]. by apply ends_report_scanning. }
  intros [[|g l]|]; [exact Hmissing|by apply gccxml_version_ends|exact Hmissing].
Qed.

Lemma castxml_ends v n c reason :
  ends (report_optional_feature n c false reason) v (λ _ v', scanned v v').
Proof.
  intros s (H1 & H2 & H3 & H4 & H5) a s'. unfold report_optional_feature. cbv [mbind py_bind].
  unfold cget, cput, lift, get, put, py_modify.
  assert (Hput : ∀ l0, env_get (env (base s)) "NS3_OPTIONAL_FEATURES" = VFeatures l0 ∨
                       env_get (env (base s)) "NS3_OPTIONAL_FEATURES" = VList [] ∧ l0 = [] →
                       l0 = v_features v).
  { unfold reported in H5. intros l0. destruct (env_has _ _) eqn:Eh.
    - rewrite H5. intros [[= ->]|[? _]]; done.
    - rewrite (env_get_unset _ _ Eh). intros [?|[_ ->]]; done. }
  destruct (env_get (env (base s)) "NS3_OPTIONAL_FEATURES") as [ | | |[|] |l0] eqn:Eg;
    intros [= <- <-].
  - exists (mk_view (v_enabled v) (v_scanning v) (v_apidefs v) (v_rtti v)
              (v_features v ++ [(n, c, false, Some reason)])).
    rewrite <- (Hput [] (or_intror (conj eq_refl eq_refl))). split.
    + unfold sees, reported. cbn. by rewrite !env_get_set, env_has_set, !decide_False by done.
    + unfold scanned. cbn. repeat (split; [done|]). right. split; [done|].
      rewrite <- (Hput [] (or_intror (conj eq_refl eq_refl))). by eexists (_, _, _, _).
  - exists (mk_view (v_enabled v) (v_scanning v) (v_apidefs v) (v_rtti v)
              (v_features v ++ [(n, c, false, Some reason)])).
    rewrite <- (Hput l0 (or_introl eq_refl)). split.
    + unfold sees, reported. cbn. by rewrite !env_get_set, env_has_set, !decide_False by done.
    + unfold scanned. cbn. repeat (split; [done|]). right. split; [done|].
      rewrite <- (Hput l0 (or_introl eq_refl)). by eexists (_, _, _, _).
Qed.

Lemma scanning_ends v :
  ends (check_scanning check_python_module find_program popen_line system_name platform_name
          pygccxml_import) v (λ _ v', scanned v v').
Proof.
  unfold check_scanning. apply ends_step; [apply still_try; still_tac|].
  intros [_|]; [|by apply ends_report_scanning].
  apply (ends_bind _ _ v (λ a v1, v1 = v ∧ ∀ pv, a = Some pv → pygccxml_import = Ok pv)).
  { intros s Hs a s'. unfold try_except, py_lift. destruct pygccxml_import as [pv|e].
    - intros [= <- <-]. exists v. split; [done|]. split; [done|]. by intros ? [= ->].
    - destruct (is_import_error e); intros [= <- <-]. by exists v. }
  intros [pv|] v1 [-> Hpv].
  - eapply ends_bind; [apply ends_result|]. intros l v1 [-> Hl].
    apply ends_step; [still_tac|intros _].
    destruct (version_ge l REQUIRED_PYGCCXML_VERSION) eqn:Ege.
    + apply gccxml_ends. exists pv, l. split; [by apply Hpv|done].
    + apply ends_step; [still_tac|intros _]. by apply ends_report_scanning.
  - apply ends_step; [still_tac|intros _]. apply castxml_ends.
Qed.

(** the check of two types keeps the view *)
Lemma still_test t1 t2 : keeps (test check_fragment t1 t2).
Proof. unfold test, try_conf. apply still_bind; [apply still_try; still_tac|intros r]. still_tac. Qed.

Lemma enable_ends v :
  pybindgen_ready →
  ends (enable_bindings check_python_module check_fragment check_abi find_program popen_line
          system_name platform_name pygccxml_import) v (λ _ v', enabled v v').
Proof.
  intros Hready. unfold enable_bindings, find_apidefs. apply (ends_bind _ _ v (λ a v1, v1 = v ∧
    ∀ d, a = Some d → VStr d ∈ [VStr "gcc-LP64"; VStr "gcc-ILP32"])).
  { apply ends_step; [apply still_test|intros b1]. apply ends_step; [apply still_test|intros b2].
    intros s Hs a s' [= <- <-]. exists v. split; [done|]. split; [done|].
    destruct b1, b2; intros d [= <-]; solve [apply list_elem_of_here | apply list_elem_of_further, list_elem_of_here]. }
  intros apidefs v1 [-> Hd].
  eapply ends_bind; [apply put_apidefs|]. intros _ v1 ->. apply ends_step; [still_tac|intros _].
  destruct apidefs as [d|]; [|apply ends_raise].
  eapply ends_bind; [apply put_enabled|]. intros _ v1 ->.
  apply (ends_bind _ _ _ (λ _ v1, v1 = mk_view (VBool true) (v_scanning v) (VStr d) (v_rtti v)
                                         (v_features v ++ [bindings_feature]))).
  { by apply ends_report. }
  intros _ v1 ->. unfold check_cxxabi, try_conf.
  apply (ends_bind _ _ _ (λ _ v1, ∃ y, y ∈ [VStr "True"; VStr "False"] ∧
    v1 = mk_view (VBool true) (v_scanning v) (VStr d) y (v_features v ++ [bindings_feature]))).
  { apply ends_step; [apply still_try; still_tac|]. intros r s Hs a s' Hput.
    destruct (put_rtti _ _ s Hs a s' Hput) as (v' & Hv' & ->). eexists. split; [exact Hv'|].
    eexists. split; [|reflexivity]. destruct r as [[]|]; cbn;
      solve [apply list_elem_of_here | apply list_elem_of_further, list_elem_of_here]. }
  intros _ v1 (y & Hy & ->) s Hs a s' Hrun.
  destruct (scanning_ends _ s Hs a s' Hrun) as (v' & Hv' & He & Ha & Hr & Hf).
  exists v'. split; [done|]. unfold enabled. rewrite He, Ha, Hr. cbn in Hf |- *.
  split; [done|]. split; [by apply Hd|]. split; [done|]. split; [done|].
  destruct Hf as [(Hsc & Hf & Hsr)|(Hsc & f & Hn & Hf)]; [left|right].
  - rewrite Hf, <- app_assoc. done.
  - split; [done|]. exists f. rewrite Hf, <- app_assoc. done.
Qed.

(** the verdict of the configuration *)
Definition settled (v v' : view) : Prop := refused v v' ∨ enabled v v'.

Lemma settled_refuse reason v : ends (refuse reason) v (λ _ v', settled v v').
Proof.
  apply ends_report. left. unfold refused. cbn. repeat (split; [done|]). right. by exists reason.
Qed.
Lemma settled_keeps {A} (m : py (cstate E) A) v : keeps m → ends m v (λ _ v', settled v v').
Proof. intros Hm. apply ends_keeps; [done|]. intros _. left. split; [done|]. split; [done|by left]. Qed.

Lemma pybindgen_ends v :
  ends (check_pybindgen cwd isdir pathsep opts check_python_module check_fragment check_abi
          find_program python3 popen popen_line system_name platform_name pygccxml_import)
    v (λ _ v', settled v v').
Proof.
  unfold check_pybindgen. apply ends_step; [unfold find_pybindgen; still_tac|intros _].
  apply ends_step; [still_tac|intros w]. apply ends_step; [still_tac|intros _].
  apply ends_step; [unfold set_pybindgen_pythonpath, add_to_python_path; still_tac|intros _].
  apply ends_step; [apply still_try; still_tac|]. intros [_|]; [|apply settled_keeps; still_tac].
  apply ends_step; [unfold python_program; still_tac|intros python].
  eapply ends_bind; [apply ends_result|]. intros out v1 [-> Hout].
  eapply ends_bind; [apply ends_result|]. intros version v1 [-> Hver].
  apply ends_step; [still_tac|intros _]. case_bool_decide as Hle.
  - apply ends_step; [still_tac|intros _]. intros s Hs a s' Hrun.
    assert (Hready : pybindgen_ready) by (exists python, out, version; done).
    destruct (enable_ends v Hready s Hs a s' Hrun) as (v' & Hv' & He).
    exists v'. split; [done|]. by right.
  - do 2 (apply ends_step; [still_tac|intros _]). apply settled_refuse.
Qed.

Lemma python_ends v :
  ends (check_python cwd isdir pathsep opts load check_python_version check_python_headers
          check_python_module check_fragment check_abi find_program python3 popen popen_line
          system_name platform_name pygccxml_import) v (λ _ v', settled v v').
Proof.
  unfold check_python. apply ends_step; [still_tac|intros _].
  apply ends_step; [apply still_try; still_tac|intros [_|]]; [|apply settled_refuse].
  apply ends_step; [apply still_try; still_tac|intros [_|]]; [|apply settled_refuse].
  apply ends_step; [apply still_try; still_tac|intros [_|]]; [|apply settled_refuse].
  apply ends_step; [|intros _; apply pybindgen_ends].
  apply still_for. intros k Hk. still_tac.
Qed.

(** the configuration starts with the bindings disabled *)
Definition started (v : view) : view :=
  mk_view (VBool false) (v_scanning v) (v_apidefs v) (v_rtti v) (v_features v).
(** the three variables of a static build *)
Definition static_keys : list string :=
  ["ENABLE_STATIC_NS3"; "NS3_ENABLE_STATIC"; "ENABLE_SHARED_AND_STATIC_NS3"].

#[local] Abbreviation run := (configure platform cwd isdir pathsep opts load check_python_version
  check_python_headers check_python_module check_fragment check_abi find_program python3 popen
  popen_line system_name platform_name pygccxml_import).

Lemma started_settles (m : py (cstate E) unit) (s s' : cstate E) v u (P : Prop) :
  ends m (started v) (λ _ v', settled (started v) v') → P → sees s (started v) → m s = (Ok u, s') →
  ∃ v', sees s' v' ∧ (refused (started v) v' ∨ enabled (started v) v' ∧ P).
Proof.
  intros Hm HP Hs Hrun. destruct (Hm s Hs u s' Hrun) as (v' & Hv' & [Hr|He]); exists v'; tauto.
Qed.
Lemma started_refuses (m : py (cstate E) unit) (s s' : cstate E) v u (P : Prop) reason :
  keeps m → sees s (started v) → (refuse reason ;; m) s = (Ok u, s') →
  ∃ v', sees s' v' ∧ (refused (started v) v' ∨ enabled (started v) v' ∧ P).
Proof.
  intros Hm Hs (u1 & s1 & Hr & Hrun)%py_bind_Ok.
  destruct (ends_report _ _ _ _ (started v) (λ _ v', refused (started v) v')
              ltac:(unfold refused; cbn; repeat (split; [done|]); right; by exists reason)
              s Hs u1 s1 Hr) as (v' & Hv' & Href).
  exists v'. split; [by eapply Hm|by left].
Qed.

Lemma configure_ends (s s' : cstate E) v u :
  sees s v → run s = (Ok u, s') →
  ∃ v', sees s' v' ∧
    (refused (started v) v' ∨
     enabled (started v) v' ∧ python_disable opts = false ∧ platform ≠ "cygwin" ∧
     ∀ k, k ∈ static_keys → val_true (env_get (env (base s)) k) = false).
Proof.
  intros Hs Hrun. unfold configure in Hrun. apply py_bind_Ok in Hrun as (u1 & s1 & Hput & Hrun).
  assert (H1 : sees s1 (started v)) by (by destruct (put_enabled _ _ s Hs u1 s1 Hput) as (? & ? & ->)).
  assert (Hg : ∀ k, k ∈ static_keys → env_get (env (base s1)) k = env_get (env (base s)) k).
  { intros k Hk. injection Hput as _ <-. cbn. rewrite env_get_set, decide_False; [done|].
    intros ->. unfold static_keys in Hk. rewrite !elem_of_cons, elem_of_nil in Hk.
    by destruct Hk as [?|[?|[?|[]]]]. }
  clear Hput. destruct s1 as [b1 env1 w1]. destruct (python_disable opts) eqn:Edis.
  { eapply (started_refuses (mret ()) _ s' v u _ "disabled by user request"); [apply still_ret|done|].
    cbv [mbind py_bind]. rewrite Hrun. by destruct u. }
  apply py_bind_Ok in Hrun as (a & s2 & [= <- <-] & Hrun).
  apply py_bind_Ok in Hrun as (b & s2 & [= <- <-] & Hrun).
  apply py_bind_Ok in Hrun as (c & s2 & [= <- <-] & Hrun).
  destruct (_ || _) eqn:Estatic.
  { eapply (started_refuses (mret ()) _ s' v u _ "bindings incompatible with static build");
      [apply still_ret|done|]. cbv [mbind py_bind]. rewrite Hrun. by destruct u. }
  assert (Hst : ∀ k, k ∈ static_keys → val_true (env_get (env (base s)) k) = false).
  { apply orb_false_iff in Estatic as [[E1 E2]%orb_false_iff E3]. intros k Hk. rewrite <- Hg by done.
    unfold static_keys in Hk. rewrite !elem_of_cons, elem_of_nil in Hk.
    destruct Hk as [-> |[-> |[-> |[]]]]; done. }
  apply py_bind_Ok in Hrun as (a & s2 & Hi1 & Hrun). apply py_bind_Ok in Hrun as (b & s3 & Hi2 & Hrun).
  assert (H3 : sees s3 (started v)).
  { eapply (still_bind (iterate _) (λ _, iterate _)); [unfold iterate; still_tac| |
      |exact H1]; [intros ?; unfold iterate; still_tac|].
    cbv [mbind py_bind] in Hi1, Hi2 |- *. rewrite Hi1. exact Hi2. }
  destruct (platform =? "cygwin")%string eqn:Ecyg.
  { eapply started_refuses; [|exact H3|exact Hrun]. still_tac. }
  apply (started_settles _ _ _ _ _ _ (python_ends _)
           (conj eq_refl (conj (proj1 (String.eqb_neq _ _) Ecyg) Hst)) H3 Hrun).
Qed.

(** C20. When the configuration of the bindings returns, either the bindings stay disabled and at
    most one report says why, the scan as before; or they are enabled with the tables of types of
    one of the two data models and the completeness of the run time types, which takes an option, a
    platform and a build that allow them and a pybindgen whose version is not below the required
    one as a text, and exactly two features are reported: the bindings, enabled, and the scan of the
    API, which is enabled only with a pygccxml and a gccxml that are new enough.  When no tables fit
    the platform the report lacks its first argument: it raises TypeError, the bindings disabled.
    A build with the bindings disabled generates nothing. *)
Theorem bindings_configured (s : cstate E) (v : view) (Hs : sees s v) :
  (∀ u s', run s = (Ok u, s') →
     ∃ v', sees s' v' ∧
       (v_enabled v' = VBool false ∧ refused (started v) v' ∨
        enabled (started v) v' ∧ python_disable opts = false ∧ platform ≠ "cygwin" ∧
        ∀ k, k ∈ static_keys → val_true (env_get (env (base s)) k) = false)) ∧
  (∀ s1, find_apidefs check_fragment s = (Ok None, s1) →
     ∃ s2, enable_bindings check_python_module check_fragment check_abi find_program popen_line
             system_name platform_name pygccxml_import s = (Raise TypeError, s2) ∧
       env_get (env (base s2)) "ENABLE_PYTHON_BINDINGS" = v_enabled v) ∧
  ∀ srcnode cwd' disable environ (b : Build.mstate E) r b',
    env_get (Build.env b) "ENABLE_PYTHON_BINDINGS" = VBool false →
    BindBuild.build srcnode cwd' pathsep disable environ b = (r, b') → b' = b.
Proof.
  split; [|split].
  - intros u s' Hrun. destruct (configure_ends s s' v u Hs Hrun) as (v' & Hv' & [Hr|He]);
      exists v'; (split; [done|]); [left|by right]. split; [apply Hr|done].
  - intros s1 Hfind. unfold enable_bindings.
    assert (Hk : sees s1 v).
    { eapply (still_bind (test check_fragment _ _)); [apply still_test| |exact Hfind|exact Hs].
      intros b1. apply still_bind; [apply still_test|intros b2; apply still_ret]. }
    cbv [mbind py_bind]. rewrite Hfind. eexists. split; [reflexivity|]. cbn.
    rewrite env_get_set, decide_False by done. apply Hk.
  - intros srcnode cwd' disable environ b r b' Hb. unfold BindBuild.build.
    destruct disable; [by intros [= _ <-]|]. cbv [mbind py_bind Build.get py_lift].
    destruct (val_true (env_get (Build.env b) "WITH_PYBINDGEN")).
    + destruct (as_str _) as [p|e]; [|by intros [= _ <-]]. cbv [mret py_ret]. rewrite Hb.
      by intros [= _ <-].
    + cbv [mret py_ret]. rewrite Hb. by intros [= _ <-].
Qed.
End conf_facts.

(** *** The command that generates the bindings *)

(** The command of the generation is parsed by the pipelines of shellcmd as one command: the
    interpreter with the script, the directory of the sources, the tables and the module, two
    variables of its environment, and its errors in the log file. *)
Theorem bindgen_pipeline (path apidefs : string) (Hpath : startswith path "/" = true)
    (Hapidefs : apidefs = "gcc_LP64" ∨ apidefs = "gcc_ILP32") :
  Parse.parse_tokens (BindBuild.bindgen_argv path apidefs) = Ok [Nodes.NCommand
    {| Nodes.name := "${PYTHON}";
       Nodes.argv := ["${PYTHON}"; "${SRC[0]}"; path; apidefs; "dce"; "${TGT[0]}"];
       Nodes.stdin := None; Nodes.stdout := None; Nodes.stderr := Some (Nodes.File "${TGT[2]}");
       Nodes.env_vars := Some [("NS3_ENABLED_FEATURES", "${FEATURES}");
                               ("GCC_RTTI_ABI_COMPLETE", "${GCC_RTTI_ABI_COMPLETE}")] |}].
Proof.
  destruct path as [|a path]; [done|]. cbn [startswith] in Hpath.
  apply andb_true_iff in Hpath as [<-%Ascii.eqb_eq _]. by destruct Hapidefs as [-> | ->]; vm_compute.
Qed.
End WafBindingsFacts.

(** ** Concrete configurations *)
Module WafBindingsExamples.
Import Env Check Conf BindConf WafBindingsFacts CheckExamples.

Definition start : cstate (gmap string val) :=
  {| base := {| env := {["PYTHON" := VList ["/usr/bin/python3"]]}; logged := []; printed := [] |};
     environ := []; warned := [] |}.
Definition passes (e : gmap string val) : result unit * gmap string val := (Ok (), e).
Definition finds_gccxml (name var : string) (e : gmap string val)
    : result (list string) * gmap string val := (Ok ["/usr/bin/" +:+ name], e).
Definition long_platform : string := "Linux-5.4.0-42-generic-x86_64-with-glibc2.29".
(** waf's checks pass; the answers of the other programs are given *)
Definition configure_with (disable fits : bool) (version line platform_name : string)
    (pygccxml : result string) :=
  configure "linux" "/src" (λ _, false) ":" (mk_options disable None None) (λ _, passes) passes
    passes (λ _, passes) (λ _ e, (Ok fits, e)) (λ _ e, (Ok true, e)) finds_gccxml true
    (λ _, Ok version) (λ _, Ok line) "Linux" platform_name pygccxml start.
(** the outcome, whether the bindings and the scan are enabled, and the features reported *)
Definition verdict (r : result unit * cstate (gmap string val)) :=
  let e := env (base r.2) in
  (r.1, val_true (env_get e "ENABLE_PYTHON_BINDINGS"), val_true (env_get e "ENABLE_PYTHON_SCANNING"),
   env_get e "NS3_OPTIONAL_FEATURES").

Example all_checks_passed :
  verdict (configure_with false true (REQUIRED_PYBINDGEN_VERSION +:+ nl) "GCC-XML version 0.9.0"
             long_platform (Ok "v1.7.2")) =
    (Ok (), true, true, VFeatures [bindings_feature; scanning_feature]).
Proof. by vm_compute. Qed.
(** without the module that scans; with an old one; with an old gccxml *)
Example bindings_without_scan :
  (λ p, (verdict (configure_with false true REQUIRED_PYBINDGEN_VERSION p.1 long_platform p.2)).1)
    <$> [("GCC-XML version 0.9.0", Raise AttributeError); ("GCC-XML version 0.9.0", Ok "0.9.4");
         ("GCC-XML version 0.8", Ok "1.0")] =
  [(Ok (), true, false); (Ok (), true, false); (Ok (), true, false)].
Proof. by vm_compute. Qed.
(** a name of the platform with fewer than seven parts, a line that is no version and a version that
    is no list of numbers end the configuration with an exception, the bindings enabled *)
Example scan_raises :
  (verdict (configure_with false true REQUIRED_PYBINDGEN_VERSION "GCC-XML version 0.9.0"
              "Linux-6.1.0-x86_64-with-glibc2.36" (Ok "1.0"))).1 = (Raise IndexError, true, false) ∧
  (verdict (configure_with false true REQUIRED_PYBINDGEN_VERSION "command not found" long_platform
              (Ok "1.0"))).1 = (Raise AttributeError, true, false) ∧
  (verdict (configure_with false true REQUIRED_PYBINDGEN_VERSION EmptyString long_platform
              (Ok "1.0.rc1"))).1 =
    (Raise (ValueError "invalid literal for int()"), true, false).
Proof. by vm_compute. Qed.
(** an old version of pybindgen is taken for a new one, and without tables the report raises *)
Example older_version_accepted :
  (verdict (configure_with false true "0.9.0" "GCC-XML version 0.9.0" long_platform (Ok "1.0"))).1 =
    (Ok (), true, true).
Proof. by vm_compute. Qed.
Example no_apidefs :
  (verdict (configure_with false false REQUIRED_PYBINDGEN_VERSION "GCC-XML version 0.9.0"
              long_platform (Ok "1.0"))).1 = (Raise TypeError, false, false).
Proof. by vm_compute. Qed.
Example utf8_examples :
  maybe_decode true (String "195" (String "169" EmptyString)) =
    Ok (String "195" (String "169" EmptyString)) ∧
  maybe_decode true (String "195" EmptyString) = Raise AttributeError ∧
  maybe_decode true (String "237" (String "160" (String "128" EmptyString))) = Raise AttributeError ∧
  maybe_decode false (String "195" EmptyString) = Ok (String "195" EmptyString).
Proof. by vm_compute. Qed.
Example release_directory :
  path_join ".." ("pybindgen-" +:+ dotted_characters "0.17") = "../pybindgen-0...1.7".
Proof. by vm_compute. Qed.

Definition start_view : view := mk_view (VList []) (VList []) (VList []) (VList []) [].
Lemma bindings_configured_witness :
  ∃ s' v', configure_with false true REQUIRED_PYBINDGEN_VERSION "GCC-XML version 0.9.0" long_platform
             (Ok "1.0") = (Ok (), s') ∧
    sees s' v' ∧ v_features v' ∈ [[bindings_feature; scanning_feature]] ∧
    env_get (env (base s')) "PYTHON_BINDINGS_APIDEFS" = VStr "gcc-LP64".
Proof.
  pose (sample := configure_with false true REQUIRED_PYBINDGEN_VERSION "GCC-XML version 0.9.0"
                    long_platform (Ok "1.0")).
  assert (Hr : sample.1 = Ok ()) by (vm_compute; reflexivity).
  assert (Hf : env_get (env (base sample.2)) "NS3_OPTIONAL_FEATURES" =
                 VFeatures [bindings_feature; scanning_feature]) by (vm_compute; reflexivity).
  assert (Ha : env_get (env (base sample.2)) "PYTHON_BINDINGS_APIDEFS" = VStr "gcc-LP64")
    by (vm_compute; reflexivity).
  assert (Hh : env_has (env (base sample.2)) "NS3_OPTIONAL_FEATURES" = true)
    by (vm_compute; reflexivity).
  unfold sample in *. clear sample.
  destruct (configure_with _ _ _ _ _ _) as [r s'] eqn:Er. cbn [fst snd] in Hr, Hf, Ha, Hh. subst r.
  assert (Hstart : sees start start_view) by (vm_compute; repeat split; reflexivity).
  destruct (bindings_configured "linux" "/src" (λ _, false) ":" (mk_options false None None)
              (λ _, passes) passes passes (λ _, passes) (λ _ e, (Ok true, e)) (λ _ e, (Ok true, e))
              finds_gccxml true (λ _, Ok REQUIRED_PYBINDGEN_VERSION) (λ _, Ok "GCC-XML version 0.9.0")
              "Linux" long_platform (Ok "1.0") (λ _ _ _ _, conj eq_refl eq_refl)
              (λ _ _ _, conj eq_refl eq_refl) (λ _ _ _, conj eq_refl eq_refl)
              (λ _ _ _ _, conj eq_refl eq_refl) (λ _ _ _ _, conj eq_refl eq_refl)
              (λ _ _ _ _, conj eq_refl eq_refl) (λ _ _ _ _ _, conj eq_refl eq_refl)
              start start_view Hstart) as (Hrun & _ & _).
  destruct (Hrun () s' Er) as (v' & Hv' & Hcases).
  exists s', v'. split; [reflexivity|]. split; [exact Hv'|]. split; [|exact Ha].
  destruct Hv' as (He & _ & _ & _ & Hrep). unfold reported in Hrep. rewrite Hh, Hf in Hrep.
  injection Hrep as <-. apply list_elem_of_singleton. reflexivity.
Defined.

Lemma bindgen_pipeline_witness :
  ∃ c, Parse.parse_tokens (BindBuild.bindgen_argv "/src" "gcc_LP64") = Ok [Nodes.NCommand c] ∧
    Nodes.stderr c = Some (Nodes.File "${TGT[2]}").
Proof.
  eexists. split; [apply bindgen_pipeline; [reflexivity|by left]|reflexivity].
Defined.
End WafBindingsExamples.
