(* ===== verification/WafConfigure.v ===== *)
(** * wscript: the configuration

    [configure] of src/wscript and of the descriptions below src/myscripts, on the state [Conf] of
    the configuration of the bindings, with the checks of [Ns3Check].  The other checks of waf, the
    files and the platform are parameters. *)
From Stdlib Require Import ZArith Lia Ascii String.
From stdpp Require Import base list strings gmap.
From S2P Require Import Prelude PyStr ShellCmd WUtils Ns3Check Ns3Module ModuleGen WafScript WafBindings.

Module Configure.
Import Env Check Conf Rules.

(** the options that are read; the two records are those of the checks and of the bindings *)
Record options := mk_options {
  with_glibc : option string; with_ns3 : option string; enable_mpi : bool;
  kernel_stack : option string; with_elf_loader : option string; with_libaspect : option string;
  check_opts : Check.options; bind_opts : BindConf.options
}.

(** one call of [conf.check] or [conf.check_cc], with its keywords *)
Inductive check_call :=
  | Header (header_name : string) (define_name includes : option string)
  | Library (lib : string)
  | Fragment (fragment define_name : string)
  | Aspect (includes libpath : string).

Section configure.
  Context {E : Type} `{WafEnv E}.
  Variable platform machine cwd pathsep : string.
  Variable exists_path isdir : string → bool.
  Variable listdir : string → list string.
  (** the parameters of [Check.check_modules] *)
  Variable glob : string → list string.
  Variable check_compiler : bool → string → bool.
  Variable libstdcxx_output : string → string.
  Variable check_cfg : cfg_check → E → result bool * E.
  Variable check_pkg_config : E → result unit * E.
  Variable logs_errors : string → result unit.
  (** [conf.load]; [conf.check]: whether it gives something, with the third argument mandatory;
      [conf.find_program] *)
  Variable load : string → E → result unit * E.
  Variable check : check_call → bool → E → result bool * E.
  Variable find_program : string → string → E → result (list string) * E.
  (** the parameters of the configuration of the bindings *)
  Variable check_python_version check_python_headers : E → result unit * E.
  Variable check_python_module : string → E → result unit * E.
  Variable check_fragment check_abi : string → E → result bool * E.
  Variable python3 : bool.
  Variable popen : list string → result string.
  Variable popen_line : string → result string.
  Variable system_name platform_name : string.
  Variable pygccxml_import : result string.
  (** the configuration of a submodule, outside of the repository *)
  Variable submodule_configure : string → py (cstate E) unit.
  Variable opts : options.

(** [ns3waf.check_modules] with the environment of the moment *)
Definition cmodules (modules : list string) (mandatory : bool) : py (cstate E) unit :=
  pkg ← get_environ "PKG_CONFIG_PATH";
  lift (check_modules platform machine pkg glob check_compiler libstdcxx_output check_cfg
          check_pkg_config logs_errors (check_opts opts) modules mandatory).
Definition conf_check (c : check_call) (mandatory : bool) : py (cstate E) bool :=
  waf (check c mandatory).

(** ** The directories below myscripts *)
Definition load_compilers : py (cstate E) unit :=
  waf (load "compiler_c") ;; waf (load "compiler_cxx").
Definition script_configures : list (string * py (cstate E) unit) :=
  let needs l := cmodules l true in
  [("120-demo", mret ()); ("app-test", mret ());
   ("btorrent1", needs ["core"; "internet"; "point-to-point"]); ("ccn-common", load_compilers);
   ("ccn-exp1", needs ["core"; "internet"; "point-to-point"; "netanim"; "flow-monitor"]);
   ("ccn-mt1", needs ["core"; "internet"; "point-to-point"; "applications"]);
   ("ccn-tap-vlc", needs ["core"; "internet"; "tap-bridge"; "point-to-point"; "csma"]);
   ("dce-emu-ping", needs ["core"; "internet"; "point-to-point"; "fd-net-device"]);
   ("dce-mpi-udp", mret ()); ("dce-wifi-ofdma", mret ()); ("dce-wifi", mret ());
   ("iperf-multi", needs ["core"; "internet"; "point-to-point"; "csma"]);
   ("loaders-test", needs ["core"; "internet"; "point-to-point"]); ("mini-debug", mret ());
   ("mt2", needs ["core"; "internet"; "point-to-point"]);
   ("mt3", needs ["core"; "internet"; "point-to-point"; "netanim"; "mobility"]);
   ("nr-dce", mret ()); ("pamptcp-link-characteristics", mret ()); ("pamptcp", mret ());
   ("ping-mt1", needs ["core"; "internet"; "point-to-point"]);
   ("ping", needs ["core"; "internet"; "point-to-point"; "netanim"]);
   ("sleep", load_compilers ;; needs ["core"]);
   ("tuto1", needs ["core"; "internet"; "point-to-point"]);
   ("tuto2", needs ["core"; "internet"; "point-to-point"]);
   ("tuto3", needs ["core"; "internet"; "point-to-point"])].
Definition configure_script (folder : string) : py (cstate E) unit :=
  match dict_get script_configures folder with
  | Some m => m
  | None => submodule_configure folder
  end.
Definition conf_myscripts : py (cstate E) unit :=
  py_for (List.filter (λ folder, negb (hidden folder) && is_dir isdir folder) (listdir "myscripts"))
    configure_script.

(** ** The parts of configure *)

(** the directory of the C library: [os.path.abspath] of None raises *)
Definition configure_glibc : py (cstate E) unit :=
  match with_glibc opts with
  | None => py_raise TypeError
  | Some g =>
      let dir := abspath cwd g in
      cput "GLIBC_INSTALL_DIR" (VStr dir) ;;
      if exists_path dir then mret ()
      else
        error "Custom glibc install directory does not exist ! Please pass a valid directory in --with-glibc argument" ;;
        py_raise (SystemExit 1)
  end.

Definition load_tools : py (cstate E) unit :=
  waf (load "relocation") ;;
  waf (load "compiler_c") ;;
  v ← cget "CC_VERSION"; l ← py_lift (as_iter v);
  msg ("Checking for cc version: " +:+ join "." l) ;;
  waf (load "compiler_cxx") ;;
  waf (load "clang_compilation_database") ;;
  waf (load "command").

(** the directory where ns-3 is installed: its files for pkg-config are searched as well *)
Definition configure_ns3_dir : py (cstate E) unit :=
  match with_ns3 opts with
  | Some dir =>
      if isdir dir then
        cput "NS3_DIR" (VStr (abspath cwd dir)) ;;
        let lib := path_joins dir ["lib"; "pkgconfig"] in
        let lib64 := path_joins dir ["lib64"; "pkgconfig"] in
        old ← get_environ "PKG_CONFIG_PATH";
        set_environ "PKG_CONFIG_PATH"
          (match old with
           | None => lib +:+ ":" +:+ lib64
           | Some p => p +:+ ":" +:+ lib +:+ ":" +:+ lib64
           end) ;;
        v ← cget "NS3_DIR"; d ← py_lift (as_str v);
        cappend "NS3_EXECUTABLE_PATH" (path_join d "bin")
      else mret ()
  | None => mret ()
  end.

Definition configure_modules : py (cstate E) unit :=
  cmodules ["core"; "network"; "internet"] true ;;
  cmodules ["point-to-point"; "tap-bridge"; "netanim"] false ;;
  cmodules ["wifi"; "point-to-point"; "csma"; "mobility"; "spectrum"] false ;;
  cmodules ["point-to-point-layout"] false ;;
  cmodules ["mpi"; "lte"] false ;;
  cmodules ["visualizer"] false ;;
  cmodules ["applications"; "internet-apps"] false ;;
  cmodules ["fd-net-device"] false.

Definition optional_header (h d : string) : py (cstate E) unit :=
  conf_check (Header h (Some d) None) false ;; mret ().
Definition configure_headers : py (cstate E) unit :=
  optional_header "stdint.h" "HAVE_STDINT_H" ;;
  optional_header "inttypes.h" "HAVE_INTTYPES_H" ;;
  optional_header "sys/inttypes.h" "HAVE_SYS_INT_TYPES_H" ;;
  optional_header "sys/types.h" "HAVE_SYS_TYPES_H" ;;
  optional_header "sys/stat.h" "HAVE_SYS_STAT_H" ;;
  optional_header "dirent.h" "HAVE_DIRENT_H".

(** [env.prepend_value] of a list *)
Definition prepend (k v : string) : py (cstate E) unit :=
  x ← cget k; l ← py_lift (as_list x); cput k (VList (v :: l)).

Definition optional_function (code define : string) : py (cstate E) unit :=
  conf_check (Fragment ("int main() {" +:+ code +:+ ";}" +:+ nl) define) false ;; mret ().
Definition configure_flags : py (cstate E) unit :=
  (if enable_mpi opts then cappend "DEFINES" "DCE_MPI=1" ;; cput "MPI" (VStr "1") else mret ()) ;;
  prepend "LINKFLAGS" "-Wl,--no-as-needed" ;;
  cappend "LINKFLAGS" "-pthread" ;;
  conf_check (Library "dl") true ;;
  optional_function "__get_cpu_features()" "HAVE_GETCPUFEATURES" ;;
  optional_function ("secure_getenv(" +:+ String "034" ("test" +:+ String "034" ")")) "HAVE_SECURE_GETENV" ;;
  optional_function ("explicit_bzero(" +:+ String "034" ("test" +:+ String "034" ", 1, 1)"))
    "HAVE___EXPLICIT_BZERO" ;;
  vg ← conf_check (Header "valgrind/valgrind.h" None None) false;
  memcheck ← conf_check (Header "valgrind/memcheck.h" None None) false;
  (if (vg : bool) && (memcheck : bool) then cappend "CXXDEFINES" "HAVE_VALGRIND_H" else mret ()) ;;
  cappend "CXXFLAGS" "-std=c++11".

(** the directory of the kernel: sim before lib *)
Definition kernel_dirs (stack : string) : list string :=
  [path_join stack "sim"; path_join stack "lib"].
Definition configure_kernel : py (cstate E) unit :=
  match kernel_stack opts with
  | Some stack =>
      if negb (truthy stack) then mret ()
      else if negb (isdir stack) then
        error (String "034" (stack +:+ String "034" " is not a directory: please fix your --enable-kernel-stack parameter.")) ;;
        py_raise (SystemExit 1)
      else
        match List.find isdir (kernel_dirs stack) with
        | None =>
            error "Could not find any of the [sim,lib] architecture. Make sure you use the net-next-sim kernel or fix your --enabled-kernel-stack parameter" ;;
            py_raise (SystemExit 1)
        | Some dir =>
            conf_check (Header "sim.h" None (Some (path_join dir "include"))) true ;;
            cput "KERNEL_STACK" (VStr dir) ;;
            cappend "DEFINES" "KERNEL_STACK=Y"
        end
  | None => mret ()
  end.

Definition configure_elf_loader : py (cstate E) unit :=
  (match with_elf_loader opts with
   | Some dir =>
       if isdir dir then
         if exists_path (dir +:+ "/ldso") then cput "ELF_LOADER_PATH" (VStr dir)
         else warn "elf-loader does not exist"
       else mret ()
   | None => mret ()
   end) ;;
  v ← cget "ELF_LOADER_PATH";
  report "elf-loader" "ELF magic loader" (val_true v) "elf-loader not found".

(** without the library the path becomes None *)
Definition configure_aspect : py (cstate E) unit :=
  v ← cget "PREFIX"; cput "LIB_ASPECT_PATH" v ;;
  (match with_libaspect opts with
   | Some dir =>
       if isdir dir then
         if exists_path dir then cput "LIB_ASPECT_PATH" (VStr (abspath cwd dir))
         else warn "libaspect does not exist"
       else mret ()
   | None => mret ()
   end) ;;
  v ← cget "LIB_ASPECT_PATH"; path ← py_lift (as_str v);
  have_aspect ← conf_check (Aspect (path_join path "include") (path_join path "lib")) false;
  (if (have_aspect : bool) then mret () else cput "LIB_ASPECT_PATH" VNone) ;;
  report "libaspect" "Aspect-based tracing" have_aspect "libaspect not found".

Definition configure_programs : py (cstate E) unit :=
  cput "VALGRIND_FOUND" (VBool false) ;;
  r ← try_waf (waf (find_program "valgrind" "VALGRIND"));
  (match r with Some _ => cput "VALGRIND_FOUND" (VBool true) | None => mret () end) ;;
  try_waf (waf (find_program "doxygen" "DOXYGEN")) ;;
  have_sctp_tools ← conf_check (Header "netinet/sctp.h" (Some "HAVE_SCTP_H") None) false;
  cput "SCTP_TOOLS_FOUND" (VBool have_sctp_tools) ;;
  report "sctp" "sctp-tools-dev" have_sctp_tools "sctp-tools (netinet/sctp.h) not found".

Definition configure : py (cstate E) unit :=
  configure_glibc ;;
  load_tools ;;
  configure_ns3_dir ;;
  configure_modules ;;
  configure_headers ;;
  configure_flags ;;
  configure_kernel ;;
  cput "ENABLE_PYTHON_BINDINGS" (VBool false) ;;
  cput "EXAMPLE_DIRECTORIES" (VStr ".") ;;
  cput "NS3_ENABLED_MODULES" (VList []) ;;
  conf_myscripts ;;
  configure_elf_loader ;;
  configure_aspect ;;
  configure_programs ;;
  load_compilers ;;                       (* src/utils/wscript *)
  BindConf.configure platform cwd isdir pathsep (bind_opts opts) load check_python_version
    check_python_headers check_python_module check_fragment check_abi find_program python3 popen
    popen_line system_name platform_name pygccxml_import ;;
  lift print_feature_summary.
End configure.
End Configure.

(** ** Facts *)
Module ConfigureFacts.
Import Env Check Conf Rules Configure.

Section facts.
  Context {E : Type} `{WafEnvLaws E}.
  Variable platform machine cwd pathsep : string.
  Variable exists_path isdir : string → bool.
  Variable listdir : string → list string.
  Variable glob : string → list string.
  Variable check_compiler : bool → string → bool.
  Variable libstdcxx_output : string → string.
  Variable check_cfg : cfg_check → E → result bool * E.
  Variable check_pkg_config : E → result unit * E.
  Variable logs_errors : string → result unit.
  Variable load : string → E → result unit * E.
  Variable check : check_call → bool → E → result bool * E.
  Variable find_program : string → string → E → result (list string) * E.
  Variable check_python_version check_python_headers : E → result unit * E.
  Variable check_python_module : string → E → result unit * E.
  Variable check_fragment check_abi : string → E → result bool * E.
  Variable python3 : bool.
  Variable popen : list string → result string.
  Variable popen_line : string → result string.
  Variable system_name platform_name : string.
  Variable pygccxml_import : result string.
  Variable submodule_configure : string → py (cstate E) unit.
  Variable opts : options.

#[local] Abbreviation run := (configure platform machine cwd pathsep exists_path isdir listdir glob
  check_compiler libstdcxx_output check_cfg check_pkg_config logs_errors load check find_program
  check_python_version check_python_headers check_python_module check_fragment check_abi python3 popen
  popen_line system_name platform_name pygccxml_import submodule_configure opts).

(** the directory that is taken of a kernel stack *)
Definition kernel_dir (stack : string) : option string :=
  if isdir (path_join stack "sim") then Some (path_join stack "sim")
  else if isdir (path_join stack "lib") then Some (path_join stack "lib") else None.

(** the part of the kernel sets the variable to the first directory there is, and nothing without
    the option; it exits when there is none *)
Lemma configure_kernel_ok (s s' : cstate E) u :
  configure_kernel isdir check opts s = (Ok u, s') →
  ∀ stack, kernel_stack opts = Some stack → stack ≠ EmptyString →
    isdir stack = true ∧ ∃ dir, kernel_dir stack = Some dir.
Proof.
  unfold configure_kernel. intros Hrun stack Hk Hne. rewrite Hk in Hrun.
  destruct stack as [|a st]; [done|]. cbn [truthy negb] in Hrun.
  destruct (isdir (String a st)); cbn [negb] in Hrun.
  2:{ apply py_bind_Ok in Hrun as (? & ? & _ & Hrun). done. }
  split; [done|]. unfold kernel_dir, kernel_dirs in *. cbn [List.find] in Hrun.
  destruct (isdir (path_join (String a st) "sim")); [by eexists|].
  destruct (isdir (path_join (String a st) "lib")); [by eexists|].
  apply py_bind_Ok in Hrun as (? & ? & _ & Hrun). done.
Qed.

(** C21. Without the option --with-glibc the configuration raises TypeError before anything is
    checked; with a directory that does not exist it exits with status 1; and when it returns, the
    directory exists and a kernel stack that was given has one of the two directories it may have. *)
Theorem configure_preconditions (s : cstate E) :
  (with_glibc opts = None → run s = (Raise TypeError, s)) ∧
  (∀ g, with_glibc opts = Some g → exists_path (abspath cwd g) = false →
     ∃ s', run s = (Raise (SystemExit 1), s') ∧ printed (base s') = printed (base s) ∧
       env_get (env (base s')) "GLIBC_INSTALL_DIR" = VStr (abspath cwd g)) ∧
  (∀ u s', run s = (Ok u, s') →
     (∃ g, with_glibc opts = Some g ∧ exists_path (abspath cwd g) = true) ∧
     ∀ stack, kernel_stack opts = Some stack → stack ≠ EmptyString →
       isdir stack = true ∧ ∃ dir, kernel_dir stack = Some dir).
Proof.
  unfold configure. split; [|split].
  - intros Hg. cbv [mbind py_bind]. unfold configure_glibc. by rewrite Hg.
  - intros g Hg He. cbv [mbind py_bind]. unfold configure_glibc. rewrite Hg, He.
    eexists. split; [reflexivity|]. split; [done|]. cbn. by rewrite env_get_set, decide_True.
  - intros u s' Hrun. apply py_bind_Ok in Hrun as (u1 & s1 & Hglibc & Hrun). split.
    + unfold configure_glibc in Hglibc. destruct (with_glibc opts) as [g|]; [|done].
      exists g. split; [done|]. apply py_bind_Ok in Hglibc as (? & s2 & _ & Hglibc).
      destruct (exists_path (abspath cwd g)); [done|].
      apply py_bind_Ok in Hglibc as (? & ? & _ & Hglibc). done.
    + do 5 apply py_bind_Ok in Hrun as (? & ? & _ & Hrun).
      apply py_bind_Ok in Hrun as (u2 & s2 & Hkernel & _). by eapply configure_kernel_ok.
Qed.
End facts.
End ConfigureFacts.

(** ** A concrete configuration *)
Module ConfigureExamples.
Import Env Check Conf Rules Configure ConfigureFacts CheckExamples WafBindingsExamples.

Definition sample_options (glibc kernel : option string) : options :=
  {| with_glibc := glibc; with_ns3 := Some "/ns3"; enable_mpi := false; kernel_stack := kernel;
     with_elf_loader := None; with_libaspect := None;
     check_opts := Check.mk_options false false true true false true true true;
     bind_opts := BindConf.mk_options true None None |}.
Definition sample_start : cstate (gmap string val) :=
  {| base := {| env := <["PREFIX" := VStr "/usr"]> (<["CC_VERSION" := VList ["9"; "3"]]>
                         (<["CXX_NAME" := VStr "clang"]> ∅));
                logged := []; printed := [] |}; environ := []; warned := [] |}.
Definition sample_configure (glibc kernel : option string) :=
  configure "linux" "x86_64" "/src" ":" (λ p, (p =? "/opt/glibc")%string)
    (λ p, bool_decide (p ∈ ["/ns3"; "/k"; "/k/lib"; "myscripts/mt2"])) (λ _, ["mt2"; "copy.sh"; ".git"])
    (λ _, ["/ns3/lib/pkgconfig/libns3.35-core-debug.pc"]) (λ _ _, true) (λ _, EmptyString)
    (λ _ e, (Ok true, e)) passes (λ _, Ok ()) (λ _, passes) (λ _ _ e, (Ok true, e)) finds_gccxml
    passes passes (λ _, passes) (λ _ e, (Ok true, e)) (λ _ e, (Ok true, e)) true
    (λ _, Ok "0.17.0.post41+ngd10fa60") (λ _, Ok "GCC-XML version 0.9.0") "Linux" long_platform
    (Ok "1.0") (λ _, mret ())
    (sample_options glibc kernel) sample_start.

(** a configuration with the bindings disabled goes through *)
Definition sample_result := sample_configure (Some "/opt/glibc") (Some "/k").
Example sample_configured :
  sample_result.1 = Ok () ∧
  env_get (env (base sample_result.2)) "KERNEL_STACK" = VStr "/k/lib" ∧
  env_get (env (base sample_result.2)) "NS3_VERSION" = VStr "ns3.35" ∧
  length (printed (base sample_result.2)) = 13%nat.
Proof. by vm_compute. Qed.
(** without the option; with a directory that does not exist; and what the one above shows *)
Lemma configure_preconditions_witness :
  sample_configure None None = (Raise TypeError, sample_start) ∧
  (∃ s', sample_configure (Some "/nowhere") None = (Raise (SystemExit 1), s')) ∧
  ∃ g, Some "/opt/glibc" = Some g ∧ (abspath "/src" g =? "/opt/glibc")%string = true.
Proof.
  split; [|split].
  - refine (proj1 (configure_preconditions _ _ _ _ _ _ _ _ _ _ _ _ _ _ _ _ _ _ _ _ _ _ _ _ _ _ _ _ _ _) _).
    reflexivity.
  - destruct (proj1 (proj2 (configure_preconditions "linux" "x86_64" "/src" ":"
      (λ p, (p =? "/opt/glibc")%string)
      (λ p, bool_decide (p ∈ ["/ns3"; "/k"; "/k/lib"; "myscripts/mt2"]))
      (λ _, ["mt2"; "copy.sh"; ".git"]) (λ _, ["/ns3/lib/pkgconfig/libns3.35-core-debug.pc"])
      (λ _ _, true) (λ _, EmptyString) (λ _ e, (Ok true, e)) passes (λ _, Ok ()) (λ _, passes)
      (λ _ _ e, (Ok true, e)) finds_gccxml passes passes (λ _, passes) (λ _ e, (Ok true, e))
      (λ _ e, (Ok true, e)) true (λ _, Ok "0.17.0.post41+ngd10fa60") (λ _, Ok "GCC-XML version 0.9.0")
      "Linux" long_platform (Ok "1.0") (λ _, mret ()) (sample_options (Some "/nowhere") None) sample_start))
      "/nowhere" eq_refl eq_refl) as (s' & Hs & _).
    exists s'. exact Hs.
  - by exists "/opt/glibc".
Defined.
End ConfigureExamples.
