(* ===== verification/WafOptions.v ===== *)
(** * The options of the build description

    [options] of src/wscript, of src/ns3waf/__init__.py and of src/bindings/python/wscript, declared
    with the parser of [OptParse], and the records of options that [WafConfigure] and [WUtils] read.
    waf's own options and those of its tools are parameters. *)
From Stdlib Require Import ZArith Lia Ascii String.
From stdpp Require Import base list strings gmap.
From S2P Require Import Prelude PyStr OptParse WUtils Ns3Check WafBindings WafConfigure.

Module WafOptions.
Import OptParse.

(** [add_option] with a text and no default, with an empty default, with action store_true and
    store_false *)
Definition text_option (s dest : string) : opt_spec := mk_opt [s] Store dest VNone.
Definition empty_option (s dest : string) : opt_spec := mk_opt [s] Store dest (VText EmptyString).
Definition flag_option (s dest : string) : opt_spec := mk_opt [s] StoreTrue dest (VFlag false).
Definition disable_option (s dest : string) : opt_spec := mk_opt [s] StoreFalse dest (VFlag true).

(** src/ns3waf/__init__.py *)
Definition ns3waf_options : list opt_spec :=
  [flag_option "--enable-static" "enable_static"; disable_option "--disable-log" "enable_log";
   disable_option "--disable-assert" "enable_assert"; flag_option "--enable-gcov" "enable_gcov";
   disable_option "--disable-examples" "enable_examples";
   disable_option "--disable-tests" "enable_tests"; disable_option "--disable-debug" "enable_debug"].
(** src/wscript *)
Definition wscript_options : list opt_spec :=
  [text_option "--enable-kernel-stack" "kernel_stack"; flag_option "--enable-mpi" "enable_mpi";
   flag_option "--enable-opt" "enable_opt"; text_option "--with-ns3" "with_ns3";
   text_option "--with-elf-loader" "with_elf_loader"; text_option "--with-glibc" "with_glibc";
   text_option "--with-libaspect" "with_libaspect"; text_option "--cwd" "cwd_launch";
   text_option "--command-template" "command_template"; empty_option "--run" "run";
   empty_option "--pyrun" "pyrun"; flag_option "--dlmloader" "dlm";
   flag_option "--visualize" "visualize"; flag_option "--valgrind" "valgrind"].
(** src/bindings/python/wscript *)
Definition bindings_options : list opt_spec :=
  [flag_option "--disable-python" "python_disable"; flag_option "--apiscan" "genbind";
   flag_option "--cpppybind" "cpppybind"; text_option "--with-pybindgen" "with_pybindgen";
   text_option "--with-python" "with_python"].

Section options.
  (** the options of waf, and those that the tool of a name adds *)
  Variable waf_options : list opt_spec.
  Variable load : string → list opt_spec.

(** in the order of the calls *)
Definition all_options : list opt_spec :=
  waf_options ++ load "compiler_c" ++ load "compiler_cxx" ++ ns3waf_options ++ wscript_options ++
  load "python" ++ bindings_options.
(** the options that are declared elsewhere *)
Definition foreign : list opt_spec :=
  waf_options ++ load "compiler_c" ++ load "compiler_cxx" ++ load "python".
End options.

(** what the configuration reads *)
Definition check_options (v : values) : result Check.options :=
  enable_opt ← flag_of v "enable_opt"; enable_static ← flag_of v "enable_static";
  enable_log ← flag_of v "enable_log"; enable_assert ← flag_of v "enable_assert";
  enable_gcov ← flag_of v "enable_gcov"; enable_examples ← flag_of v "enable_examples";
  enable_tests ← flag_of v "enable_tests"; enable_debug ← flag_of v "enable_debug";
  Ok {| Check.enable_opt := enable_opt; Check.enable_static := enable_static;
        Check.enable_log := enable_log; Check.enable_assert := enable_assert;
        Check.enable_gcov := enable_gcov; Check.enable_examples := enable_examples;
        Check.enable_tests := enable_tests; Check.enable_debug := enable_debug |}.
Definition bind_options (v : values) : result BindConf.options :=
  python_disable ← flag_of v "python_disable"; with_python ← opt_text_of v "with_python";
  with_pybindgen ← opt_text_of v "with_pybindgen";
  Ok {| BindConf.python_disable := python_disable; BindConf.with_python := with_python;
        BindConf.with_pybindgen := with_pybindgen |}.
Definition configure_options (v : values) : result Configure.options :=
  with_glibc ← opt_text_of v "with_glibc"; with_ns3 ← opt_text_of v "with_ns3";
  enable_mpi ← flag_of v "enable_mpi"; kernel_stack ← opt_text_of v "kernel_stack";
  with_elf_loader ← opt_text_of v "with_elf_loader";
  with_libaspect ← opt_text_of v "with_libaspect";
  check_opts ← check_options v; bind_opts ← bind_options v;
  Ok {| Configure.with_glibc := with_glibc; Configure.with_ns3 := with_ns3;
        Configure.enable_mpi := enable_mpi; Configure.kernel_stack := kernel_stack;
        Configure.with_elf_loader := with_elf_loader; Configure.with_libaspect := with_libaspect;
        Configure.check_opts := check_opts; Configure.bind_opts := bind_opts |}.
(** what running a program reads: the options of [RunCmd], --run, --pyrun and --visualize *)
Definition run_options (launch : string) (v : values)
    : result (RunCmd.options * string * string * bool) :=
  command_template ← opt_text_of v "command_template"; valgrind ← flag_of v "valgrind";
  dlm ← flag_of v "dlm"; cwd_launch ← opt_text_of v "cwd_launch"; run ← text_of v "run";
  pyrun ← text_of v "pyrun"; visualize ← flag_of v "visualize";
  Ok ({| RunCmd.command_template := command_template; RunCmd.valgrind := valgrind;
         RunCmd.dlm := dlm; RunCmd.options_cwd_launch := cwd_launch; RunCmd.cwd_launch := launch |},
      run, pyrun, visualize).
End WafOptions.

(** ** Facts *)
Module WafOptionsFacts.
Import OptParse CommandLine OptParseFacts OptTables OptTyping WafOptions.

Definition ours : list opt_spec := ns3waf_options ++ wscript_options ++ bindings_options.
(** the option of the repository with a destination *)
Definition find_dest (k : string) : option opt_spec := List.find (λ o, (dest o =? k)%string) ours.

Section facts.
  Variable waf_options : list opt_spec.
  Variable load : string → list opt_spec.
  Variable table : list opt_spec.
  Hypothesis declared : new_parser (all_options waf_options load) = Ok table.
  Hypothesis table_consistent : consistent table = true.

Lemma table_eq : table = help_option :: all_options waf_options load.
Proof using declared. by apply (add_options_app _ [help_option]). Qed.
Lemma ours_in_table o : o ∈ ours → o ∈ table.
Proof using declared.
  rewrite table_eq. unfold ours, all_options. rewrite elem_of_cons, !elem_of_app. tauto.
Qed.

(** the attributes of typed values *)
Lemma find_dest_in k o : find_dest k = Some o → o ∈ table ∧ dest o = k.
Proof using declared.
  intros [Hin Hk]%find_some. split; [by apply ours_in_table, list_elem_of_In|by apply String.eqb_eq].
Qed.
Lemma flag_there v k o d : typed table v →
  find_dest k = Some o → bool_decide (act o = StoreTrue ∨ act o = StoreFalse) = true →
  default_value o = VFlag d → ∃ b, flag_of v k = Ok b.
Proof using declared.
  intros Hv [Ho <-]%find_dest_in Ha%bool_decide_eq_true Hd. by apply (flag_of_typed table v o d Hv).
Qed.
Lemma text_there v k o : typed table v →
  find_dest k = Some o → act o = Store → default_value o = VNone → ∃ x, opt_text_of v k = Ok x.
Proof using declared.
  intros Hv [Ho <-]%find_dest_in Ha Hd. by apply (opt_text_of_typed table v o Hv).
Qed.
Lemma empty_there v k o d : typed table v →
  find_dest k = Some o → act o = Store → default_value o = VText d → ∃ x, text_of v k = Ok x.
Proof using declared.
  intros Hv [Ho <-]%find_dest_in Ha Hd. by apply (text_of_typed table v o d Hv).
Qed.

(** reading the attributes one after the other *)
Ltac one Hv e lem :=
  let E := fresh "E" in
  assert (∃ b, e = Ok b) as [? E] by (eapply lem; [exact Hv|reflexivity|reflexivity|reflexivity]);
  rewrite E; clear E; cbn [mbind result_bind].
Ltac there Hv :=
  repeat match goal with
  | |- context [flag_of ?v ?k] => one Hv (flag_of v k) flag_there
  | |- context [opt_text_of ?v ?k] => one Hv (opt_text_of v k) text_there
  | |- context [text_of ?v ?k] => one Hv (text_of v k) empty_there
  end.

Lemma check_options_there v : typed table v → ∃ o, check_options v = Ok o.
Proof using declared. intros Hv. unfold check_options. there Hv. by eexists. Qed.
Lemma bind_options_there v : typed table v → ∃ o, bind_options v = Ok o.
Proof using declared. intros Hv. unfold bind_options. there Hv. by eexists. Qed.
Lemma configure_options_there v : typed table v →
  ∃ o, configure_options v = Ok o ∧ opt_text_of v "with_glibc" = Ok (Configure.with_glibc o).
Proof using declared.
  intros Hv. destruct (check_options_there v Hv) as [co Hc].
  destruct (bind_options_there v Hv) as [bo Hb].
  destruct (text_there v "with_glibc" _ Hv eq_refl eq_refl eq_refl) as [g Hg].
  unfold configure_options. rewrite Hg. cbn [mbind result_bind]. there Hv. rewrite Hc. cbn [mbind result_bind].
  rewrite Hb. by eexists.
Qed.
Lemma run_options_there launch v : typed table v → ∃ r, run_options launch v = Ok r.
Proof using declared. intros Hv. unfold run_options. there Hv. by eexists. Qed.

(** *** The option --with-glibc *)
Hypothesis foreign_dests :
  forallb (λ o, negb (dest o =? "with_glibc")%string) (foreign waf_options load) = true.

(** only the option itself stores in its attribute *)
Lemma glibc_option o : o ∈ table → dest o = "with_glibc" → o = text_option "--with-glibc" "with_glibc".
Proof using declared foreign_dests.
  intros Ho Hd. assert (Hall : ∀ l, forallb (λ o, negb (dest o =? "with_glibc")%string) l = true → o ∉ l).
  { intros l Hl Hin%list_elem_of_In. rewrite forallb_forall in Hl. specialize (Hl _ Hin).
    by rewrite Hd in Hl. }
  pose proof (Hall _ foreign_dests) as Hf. unfold foreign in Hf. rewrite !elem_of_app in Hf.
  assert (H1 : o ∉ ns3waf_options ++ bindings_options) by by apply Hall.
  rewrite elem_of_app in H1. rewrite table_eq in Ho. unfold all_options in Ho.
  rewrite elem_of_cons, !elem_of_app in Ho.
  assert (Hw : o ∈ wscript_options).
  { destruct Ho as [->|Ho]; [done|]. tauto. }
  clear -Hw Hd. unfold wscript_options in Hw. rewrite !elem_of_cons, elem_of_nil in Hw.
  by destruct_or? Hw; try subst o.
Qed.

(** what begins the name of this option only *)
Lemma glibc_prefix w :
  startswith "--with-glibc" w = true → startswith "--with-ns3" w = false →
  startswith w "--with-g" = true.
Proof using Type.
  intros H1 H2.
  do 8 (destruct w as [|? w];
    [cbn [startswith] in H1, H2; rewrite ?andb_true_iff, ?Ascii.eqb_eq in H1; destruct_and?;
     subst; vm_compute in H2; discriminate H2|]).
  cbn [startswith] in H1, H2. rewrite ?andb_true_iff, ?Ascii.eqb_eq in H1. destruct_and?. subst.
  by destruct w.
Qed.
Lemma long_glibc w o :
  long_opt table w = Some o → dest o = "with_glibc" → startswith w "--with-g" = true.
Proof using declared foreign_dests.
  unfold long_opt. destruct (match_long_opt table w) as [[s o']| |] eqn:Em; [|done..].
  intros [= ->] Hd. apply match_long_inv in Em as [[[Ho Hs] Hl]%long_table_elem Hm].
  apply glibc_option in Ho; [|done]. subst o. apply list_elem_of_singleton in Hs as ->.
  destruct Hm as [<-|[Hs Huniq]]; [done|]. apply glibc_prefix; [done|].
  apply not_true_is_false. intros Hw.
  enough (("--with-ns3", text_option "--with-ns3" "with_ns3") =
          ("--with-glibc", text_option "--with-glibc" "with_glibc")) by done.
  apply Huniq; [|done]. apply long_table_elem. split; [|done]. split; [|by left].
  apply ours_in_table. unfold ours. apply elem_of_app. right. apply elem_of_app. left.
  unfold wscript_options. by repeat constructor.
Qed.
Lemma short_glibc c o : short_opt table c = Some o → dest o ≠ "with_glibc".
Proof using declared foreign_dests.
  intros [Ho Hs]%dict_get_elem%string_table_elem Hd. apply glibc_option in Ho; [|done]. subst o.
  by apply list_elem_of_singleton in Hs.
Qed.
Lemma short_opts_glibc f o : o ∈ short_opts table f → dest o ≠ "with_glibc".
Proof using declared foreign_dests.
  unfold short_opts. intros (c & Hc & _)%list_elem_of_bind.
  destruct (short_opt table c) eqn:Ec; [|by apply elem_of_nil in Hc].
  apply list_elem_of_singleton in Hc as ->. by eapply short_glibc.
Qed.
(** an item that stores in it begins like its name *)
Lemma item_glibc i o :
  o ∈ options_in table i → dest o = "with_glibc" →
  ∃ w, w ∈ render i ∧ startswith w "--with-g" = true.
Proof using declared foreign_dests.
  assert (Hlong : ∀ w, o ∈ option_list (long_opt table w) → dest o = "with_glibc" →
                    startswith w "--with-g" = true).
  { intros w Ho Hd. destruct (long_opt table w) eqn:Ew; [|by apply elem_of_nil in Ho].
    apply list_elem_of_singleton in Ho as ->. by eapply long_glibc. }
  assert (Hshort : ∀ c, o ∈ option_list (short_opt table c) → dest o ≠ "with_glibc").
  { intros c Ho. destruct (short_opt table c) eqn:Ec; [|by apply elem_of_nil in Ho].
    apply list_elem_of_singleton in Ho as ->. by eapply short_glibc. }
  destruct i as [w|w [x|]|w x|f|f c x|f c x]; cbn [options_in render]; intros Ho Hd.
  - by apply elem_of_nil in Ho.
  - eexists. split; [by left|]. apply Hlong in Ho; [|done].
    apply startswith_spec in Ho as [r ->]. rewrite sapp_assoc. apply startswith_app.
  - exists w. split; [by left|by apply Hlong].
  - exists w. split; [by left|by apply Hlong].
  - by apply short_opts_glibc in Ho.
  - apply elem_of_app in Ho as [Ho%short_opts_glibc|Ho%Hshort]; done.
  - apply elem_of_app in Ho as [Ho%short_opts_glibc|Ho%Hshort]; done.
Qed.
Lemma glibc_unset args v pos :
  parse_args table args = Parsed (v, pos) →
  forallb (λ w, negb (startswith w "--with-g")) args = true →
  opt_text_of v "with_glibc" = Ok None.
Proof using declared foreign_dests table_consistent.
  intros Hp Hargs. rewrite forallb_forall in Hargs.
  destruct (process_inv table _ args [] _ v pos (Nat.lt_succ_diag_r _) Hp)
    as (l & tail & Hl & -> & -> & _).
  unfold opt_text_of. rewrite meanings_other.
  - change "with_glibc" with (dest (text_option "--with-glibc" "with_glibc")).
    rewrite default_value_of; [done|done| |done].
    apply ours_in_table. unfold ours. apply elem_of_app. right. apply elem_of_app. left.
    unfold wscript_options. by repeat constructor.
  - intros i o Hi Ho Hd. destruct (item_glibc i o Ho Hd) as (w & Hw & Hs).
    specialize (Hargs w). rewrite Hs in Hargs. apply diff_false_true. apply Hargs.
    apply list_elem_of_In. unfold command_line. apply elem_of_app. left.
    apply list_elem_of_bind. by exists i.
Qed.

Section commands.
  Context {E : Type} `{WafEnv E}.
  Variable platform machine cwd pathsep : string.
  Variable exists_path isdir : string → bool.
  Variable listdir glob : string → list string.
  Variable check_compiler : bool → string → bool.
  Variable libstdcxx_output : string → string.
  Variable check_cfg : Check.cfg_check → E → result bool * E.
  Variable check_pkg_config : E → result unit * E.
  Variable logs_errors : string → result unit.
  Variable load_tool : string → E → result unit * E.
  Variable check : Configure.check_call → bool → E → result bool * E.
  Variable find_program : string → string → E → result (list string) * E.
  Variable check_python_version check_python_headers : E → result unit * E.
  Variable check_python_module : string → E → result unit * E.
  Variable check_fragment check_abi : string → E → result bool * E.
  Variable python3 : bool.
  Variable popen : list string → result string.
  Variable popen_line : string → result string.
  Variable system_name platform_name : string.
  Variable pygccxml_import : result string.
  Variable submodule_configure : string → py (Conf.cstate E) unit.

#[local] Abbreviation configure_with := (Configure.configure platform machine cwd pathsep exists_path
  isdir listdir glob check_compiler libstdcxx_output check_cfg check_pkg_config logs_errors load_tool
  check find_program check_python_version check_python_headers check_python_module check_fragment
  check_abi python3 popen popen_line system_name platform_name pygccxml_import submodule_configure).

(** With the options declared in the order of the build descriptions, among those of waf and its
    tools, every command line that the parser accepts gives complete records of options: no
    attribute that the configuration or the running of a program reads is missing or of another
    kind.  Unless some argument begins with --with-g, the configuration then raises TypeError and
    does nothing else. *)
Theorem configuration_command_line (args : list string) (v : values) (pos : list string)
    (Hparsed : parse_args table args = Parsed (v, pos)) :
  (∀ launch, ∃ r, run_options launch v = Ok r) ∧
  ∃ o, configure_options v = Ok o ∧
    (forallb (λ w, negb (startswith w "--with-g")) args = true →
     ∀ s : Conf.cstate E, configure_with o s = (Raise TypeError, s)).
Proof using Type*.
  pose proof (parsed_typed table table_consistent args v pos Hparsed) as Hv.
  split; [intros launch; by apply run_options_there|].
  destruct (configure_options_there v Hv) as (o & Ho & Hg). exists o. split; [done|].
  intros Hargs s. rewrite (glibc_unset args v pos Hparsed Hargs) in Hg. injection Hg as Hg.
  unfold Configure.configure, Configure.configure_glibc. cbv [mbind py_bind]. by rewrite <- Hg.
Qed.
End commands.
End facts.
End WafOptionsFacts.

(** ** A concrete table and command line *)
Module WafOptionsExamples.
Import OptParse OptTyping WafOptions WafOptionsFacts Conf Check CheckExamples WafBindingsExamples.

Definition sample_waf_options : list opt_spec :=
  [mk_opt ["-j"; "--jobs"] Store "jobs" (VText "1"); mk_opt ["-k"; "--keep"] StoreTrue "keep" (VFlag false);
   mk_opt ["-v"; "--verbose"] StoreTrue "verbose" (VFlag false);
   mk_opt ["--prefix"] Store "prefix" (VText "/usr/local")].
Definition sample_load (tool : string) : list opt_spec :=
  if (tool =? "python")%string then [mk_opt ["--nopyc"] StoreFalse "pyc" (VFlag true)]
  else [mk_opt ["--check-" +:+ tool] Store ("check_" +:+ tool) VNone].
Definition sample_table : list opt_spec :=
  help_option :: all_options sample_waf_options sample_load.
Definition sample_args : list string := ["configure"; "--with-ns3=/ns3"; "--enable-k"; "/k"; "-kj4"].
Definition sample_values : outcome (values * list string) := parse_args sample_table sample_args.

(** abbreviations and clusters work, and --with alone is ambiguous *)
Example sample_parsed :
  match sample_values with
  | Parsed (v, pos) => (pos, opt_text_of v "with_ns3", opt_text_of v "kernel_stack", text_of v "jobs")
  | _ => ([], Raise TypeError, Raise TypeError, Raise TypeError)
  end = (["configure"], Ok (Some "/ns3"), Ok (Some "/k"), Ok "4").
Proof. by vm_compute. Qed.
Example ambiguous_option :
  match parse_args sample_table ["--with"; "x"] with UsageError _ => true | _ => false end = true.
Proof. by vm_compute. Qed.

Definition sample_run :=
  Configure.configure (E:=gmap.gmap string val) "linux" "x86_64" "/src" ":" (λ _, true) (λ _, true)
    (λ _, []) (λ _, []) (λ _ _, true) (λ _, EmptyString) (λ _ e, (Ok true, e)) passes
    (λ _, Ok ()) (λ _, passes) (λ _ _ e, (Ok true, e)) finds_gccxml passes passes (λ _, passes)
    (λ _ e, (Ok true, e)) (λ _ e, (Ok true, e)) true (λ _, Ok "0.17") (λ _, Ok "GCC-XML version 0.9.0")
    "Linux" long_platform (Ok "1.0") (λ _, mret ()).
Lemma configuration_command_line_witness :
  ∃ v o, sample_values = Parsed (v, ["configure"]) ∧ configure_options v = Ok o ∧
    Configure.with_ns3 o = Some "/ns3" ∧ sample_run o start = (Raise TypeError, start).
Proof.
  destruct sample_values as [[v pos]| |] eqn:Ev; [|discriminate Ev..].
  assert (Hpos : pos = ["configure"]) by (vm_compute in Ev; congruence).
  subst pos.
  assert (Hd : new_parser (all_options sample_waf_options sample_load) = Ok sample_table)
    by (vm_compute; reflexivity).
  assert (Hc : consistent sample_table = true) by (vm_compute; reflexivity).
  destruct (configuration_command_line sample_waf_options sample_load sample_table Hd Hc eq_refl
              "linux" "x86_64" "/src" ":" (λ _, true) (λ _, true) (λ _, []) (λ _, [])
              (λ _ _, true) (λ _, EmptyString) (λ _ e, (Ok true, e)) passes (λ _, Ok ())
              (λ _, passes) (λ _ _ e, (Ok true, e)) finds_gccxml passes passes (λ _, passes)
              (λ _ e, (Ok true, e)) (λ _ e, (Ok true, e)) true (λ _, Ok "0.17")
              (λ _, Ok "GCC-XML version 0.9.0") "Linux" long_platform (Ok "1.0") (λ _, mret ())
              sample_args v ["configure"] Ev)
    as (_ & o & Ho & Hrun).
  exists v, o. split; [reflexivity|]. split; [exact Ho|]. split.
  - vm_compute in Ev. injection Ev as <-. vm_compute in Ho. injection Ho as <-. reflexivity.
  - apply Hrun. vm_compute. reflexivity.
Defined.
End WafOptionsExamples.
