(* ===== verification/WafContexts.v ===== *)
(** * wscript: the commands for the documentation and the shell

    [_doxygen] and the contexts [Ns3ShellContext], [Ns3DoxygenContext], [Ns3SphinxContext] and
    [Ns3DocContext] of src/wscript.  The build they begin with, processes and [glob] are
    parameters. *)
From Stdlib Require Import ZArith Lia Ascii String.
From stdpp Require Import base list strings.
From S2P Require Import Prelude PyStr WUtils Ns3Check.

Module Contexts.
Import Env RunCmd ProcEnv.

(** the processes of [wutils] with its warnings, the commands of these contexts with their
    directory, the errors logged, the lines printed, waf's list of commands *)
Record state := mk_state {
  runs : RunCmd.world; made : list (list string * string); errors : list string;
  printed : list string; commands : list string
}.
Definition upd_runs (w : RunCmd.world) (s : state) : state :=
  mk_state w (made s) (errors s) (printed s) (commands s).
Definition error (m : string) : py state unit := py_modify (λ s,
  mk_state (runs s) (made s) (errors s ++ [m]) (printed s) (commands s)).
Definition print (m : string) : py state unit := py_modify (λ s,
  mk_state (runs s) (made s) (errors s) (printed s ++ [m]) (commands s)).
(** an action of [wutils] *)
Definition in_runs {A} (m : py RunCmd.world A) : py state A := λ s,
  let '(r, w) := m (runs s) in (r, upd_runs w s).

Section contexts.
  (** the status of a command in a directory; the working directory *)
  Variable popen : list string → string → Z.
  Variable getcwd : string.
  Variable glob : string → list string.
  (** the build that a context begins with *)
  Variable execute_build : py state unit.
  (** the parameters of [RunCmd] *)
  Variable popen_env : spawn → outcome.
  Variable signal_vars : list (string * Z).
  Variable windows : bool.
  Variable pathsep platform : string.
  Variable environ : list (string * string).
  Variable bld : ProcEnv.build.
  Variable opts : RunCmd.options.
  Variable env : tools.
  (** [env['DOXYGEN']] *)
  Variable DOXYGEN : val.

Definition start (argv : list string) (cwd : string) : py state Z := λ s,
  (Ok (popen argv cwd),
   mk_state (runs s) (made s ++ [(argv, cwd)]) (errors s) (printed s) (commands s)).

(** [_doxygen]; a path that is a list is no argument of a process *)
Definition doxygen : py state unit :=
  in_runs (py_modify (log_warnings (get_proc_env pathsep glob bld platform environ None).2)) ;;
  if negb (val_true DOXYGEN) then
    error "waf configure did not detect doxygen in the system -> cannot build api docs." ;;
    py_raise (SystemExit 1)
  else
    program ← py_lift (as_str DOXYGEN);
    status ← start [program; path_join "doc" "doxygen.conf"] getcwd;
    if (status =? 0)%Z then mret ()
    else error "Doxygen build returned an error." ;; py_raise (SystemExit 1).
Definition doxygen_execute : py state unit := execute_build ;; doxygen.

(** [Ns3ShellContext.execute] *)
Definition shell_program : string :=
  if (platform =? "win32")%string then default "cmd.exe" (dict_get environ "COMSPEC")
  else default "/bin/sh" (dict_get environ "SHELL").
Definition shell_execute : py state unit :=
  execute_build ;;
  in_runs (run_argv popen_env signal_vars windows pathsep platform glob environ bld opts
    [shell_program] env
    (Some [("NS3_MODULE_PATH", join pathsep (NS3_MODULE_PATH bld));
           ("NS3_EXECUTABLE_PATH", join pathsep (NS3_EXECUTABLE_PATH bld))]) None false) ;;
  mret ().

(** [Ns3SphinxContext] *)
Definition builddir (path : string) : string :=
  if (path =? "./doc")%string then "BUILDDIR=" +:+ getcwd +:+ "/doc/build/"
  else "BUILDDIR=" +:+ getcwd +:+ "/doc/build-" +:+
       py_replace "ns-3-dce-" EmptyString (basename (py_replace "/doc" EmptyString path)).
Definition make_argv (path : string) : list string :=
  ["make"; "SPHINXOPTS=-N"; "-k"; builddir path; "html"; "singlehtml"; "latexpdf"].
Definition sphinx_build (path : string) : py state unit :=
  print EmptyString ;; print ("[waf] Building sphinx docs for " +:+ path) ;;
  status ← start (make_argv path) path;
  if (status =? 0)%Z then mret ()
  else error ("Sphinx build of " +:+ path +:+ " returned an error.") ;; py_raise (SystemExit 1).
Definition sphinx_dirs : list string := "./doc" :: glob "myscripts/*/doc".
Definition sphinx_execute : py state unit := py_for sphinx_dirs sphinx_build.

(** [Ns3DocContext.execute]: the two commands are put in front *)
Definition docs_execute : py state unit := py_modify (λ s,
  mk_state (runs s) (made s) (errors s) (printed s) (["doxygen"; "sphinx"] ++ commands s)).
End contexts.
End Contexts.

(** ** Facts *)
Module ContextsFacts.
Import Contexts.

Section facts.
  Variable popen : list string → string → Z.
  Variable getcwd : string.

Definition succeeds (d : string) : bool := (popen (make_argv getcwd d) d =? 0)%Z.
(** the directories up to the first one whose command fails, that one included *)
Fixpoint until_failure (dirs : list string) : list string :=
  match dirs with
  | [] => []
  | d :: dirs => if succeeds d then d :: until_failure dirs else [d]
  end.

Lemma sphinx_build_spec d s :
  ∃ s', sphinx_build popen getcwd d s = (if succeeds d then Ok () else Raise (SystemExit 1), s') ∧
    made s' = made s ++ [(make_argv getcwd d, d)] ∧ commands s' = commands s ∧ runs s' = runs s.
Proof.
  unfold sphinx_build, succeeds. cbv [mbind py_bind print start py_modify error py_raise].
  destruct (popen (make_argv getcwd d) d =? 0)%Z; by eexists.
Qed.
(** The documentation is made directory by directory, up to the first one that fails, with which the
    command ends with status 1; it returns exactly when all of them succeed. *)
Lemma sphinx_in_order (dirs : list string) (s : state) :
  ∃ s', py_for dirs (sphinx_build popen getcwd) s
        = (if forallb succeeds dirs then Ok () else Raise (SystemExit 1), s') ∧
    made s' = made s ++ ((λ d, (make_argv getcwd d, d)) <$> until_failure dirs) ∧
    commands s' = commands s ∧ runs s' = runs s.
Proof.
  revert s. induction dirs as [|d dirs IH]; intros s; cbn [py_for forallb until_failure].
  { exists s. by rewrite app_nil_r. }
  destruct (sphinx_build_spec d s) as (s1 & H1 & Hm & Hc & Hr). cbv [mbind py_bind]. rewrite H1.
  destruct (succeeds d); [|by exists s1].
  destruct (IH s1) as (s2 & H2 & Hm2 & Hc2 & Hr2). exists s2. split; [exact H2|].
  rewrite Hm2, Hm, Hc2, Hr2. cbn. by rewrite <- app_assoc.
Qed.
End facts.

(** Doxygen is only run when its path is a text; the list that a search of waf gives raises. *)
Lemma doxygen_list popen getcwd glob pathsep platform environ bld (p : string) (l : list string) s :
  ∃ s', doxygen popen getcwd glob pathsep platform environ bld (VList (p :: l)) s
        = (Raise TypeError, s') ∧ made s' = made s.
Proof. by eexists. Qed.
End ContextsFacts.
