(* ===== verification/RepoExamples.v ===== *)
(** * examples-to-run.py: the examples of the repository

    example/examples-to-run.py, the data that the driver of the tests reads, and what becomes of it
    when the build of [WafScript] has left its status file: which examples are queued. *)
From Stdlib Require Import ZArith Lia Ascii String.
From stdpp Require Import base list strings gmap.
From S2P Require Import Prelude PyStr TestReport TestConfig TestJobs TestRun.
From S2P Require Import WUtils Ns3Check Ns3Module WafScript.

Module ExamplesToRun.
Import Examples.

(** an example that always runs *)
Definition run (name : string) : cpp_example := (name, "True", "True").
Definition cpp_examples : list cpp_example :=
  [run "dce-tcp-simple"; run "dce-udp-simple"; run "dce-udp-perf"; run "dce-bash-simple";
   run "dce-linux-simple"; run "dce-linux"; run "dce-dccp"; run "dce-iperf";
   run "dce-cradle-simple"; run "dce-cradle-simple --rate=10kbps --proto=icmp";
   run "dce-cradle-simple --rate=10kbps --proto=udp";
   run "dce-cradle-simple --rate=10kbps --proto=tcp";
   run "dce-cradle-simple --rate=10kbps --proto=dccp";
   run "dce-cradle-simple --rate=10kbps --proto=dccp -ccid=3";
   run "dce-cradle-simple --rate=10kbps --proto=sctp";
   run "dce-cradle-simple --bulk=1 --rate=10kbps --proto=tcp";
   run "dce-cradle-simple --bulk=1 --rate=10kbps --proto=dccp";
   run "dce-cradle-simple --bulk=1 --rate=10kbps --proto=dccp -ccid=3";
   run "dce-cradle-simple --bulk=1 --rate=10kbps --proto=sctp";
   run "dce-cradle-simple --rate=10kbps --proto=icmp6";
   run "dce-cradle-simple --rate=10kbps --proto=udp6";
   run "dce-cradle-simple --rate=10kbps --proto=tcp6";
   run "dce-cradle-simple --rate=10kbps --proto=dccp6";
   run "dce-cradle-simple --rate=10kbps --proto=dccp6 -ccid=3";
   run "dce-cradle-simple --rate=10kbps --proto=sctp6";
   run "dce-cradle-simple --bulk=1 --rate=10kbps --proto=tcp6";
   run "dce-cradle-simple --bulk=1 --rate=10kbps --proto=dccp6";
   run "dce-cradle-simple --bulk=1 --rate=10kbps --proto=dccp6 -ccid=3";
   run "dce-cradle-simple --bulk=1 --rate=10kbps --proto=sctp6";
   run "dce-tcp-ns3-nsc-comparison"; run "dce-tcp-ns3-nsc-comparison --stack=dce";
   run "dce-tcp-ns3-nsc-comparison --bulk=1";
   run "dce-tcp-ns3-nsc-comparison --stack=dce --bulk=1";
   run "dce-tcp-ns3-nsc-comparison --stack=dce-dccp";
   run "dce-tcp-ns3-nsc-comparison --stack=dce-dccp --bulk=1"; run "dce-ping-mt1 --kernel=1";
   run "dce-mt2 --kernel=1"; run "dce-mt3 --kernel=1"; ("dce-xfrm", "False", "False");
   run "dce-cradle-mptcp"; run "dce-iperf-mptcp"; run "dce-iperf-heterogeneous-multihop";
   run "dce-mptcp-handoff-v6"; run "dce-mptcp-handoff-v6 --errRate=0.05";
   run "dce-mptcp-handoff-v6 --errRate=0.1"; run "dce-mptcp-handoff-v6 --errRate=0.2";
   run "dce-mptcp-handoff-v6 --errRate=0.3"; run "dce-mptcp-handoff-v6 --errRate=0.4";
   run "dce-mptcp-handoff-v6 --errRate=0.5"; run "dce-mptcp-handoff-v6 --errRate=0.8";
   run "dce-mptcp-handoff-v4v6"; run "dce-mptcp-handoff-v4v6 --errRate=0.05";
   run "dce-mptcp-handoff-v4v6 --errRate=0.1"; run "dce-mptcp-handoff-v4v6 --errRate=0.2";
   run "dce-mptcp-handoff-v4v6 --errRate=0.3"; run "dce-mptcp-handoff-v4v6 --errRate=0.4";
   run "dce-mptcp-handoff-v4v6 --errRate=0.5"; run "dce-mptcp-handoff-v4v6 --errRate=0.8";
   run "dce-mptcp-handoff-v4v6 --v6Primary=1";
   run "dce-mptcp-handoff-v4v6 --v6Primary=1 --errRate=0.05";
   run "dce-mptcp-handoff-v4v6 --v6Primary=1 --errRate=0.1";
   run "dce-mptcp-handoff-v4v6 --v6Primary=1 --errRate=0.2";
   run "dce-mptcp-handoff-v4v6 --v6Primary=1 --errRate=0.3";
   run "dce-mptcp-handoff-v4v6 --v6Primary=1 --errRate=0.4";
   run "dce-mptcp-handoff-v4v6 --v6Primary=1 --errRate=0.5";
   run "dce-mptcp-handoff-v4v6 --v6Primary=1 --errRate=0.8"; run "dce-httpd";
   run "dce-sctp-simple"; run "dce-freebsd"].
Definition python_examples : list python_example := [].
End ExamplesToRun.

Module RepoBuild.
Import Env Build Modules Rules Dce Top Examples ExamplesToRun CheckExamples.

(** the environment of a configuration that found everything there is to find, with the module of
    the submodule quagga or without it *)
Definition ns3_modules : list string :=
  ["core"; "network"; "internet"; "internet-apps"; "point-to-point"; "point-to-point-layout"; "tap-bridge";
   "netanim"; "wifi"; "csma"; "mobility"; "spectrum"; "mpi"; "lte"; "visualizer"; "applications";
   "fd-net-device"; "flow-monitor"].
Definition full_env (quagga : bool) : gmap string val :=
  foldr (λ kv m, <[kv.1 := kv.2]> m) ∅
    [("NS3_MODULES_FOUND", VList (ns3_modules ++ if quagga then ["dce-quagga"] else [])); ("NS3_ENABLE_EXAMPLES", VBool true);
     ("NS3_ENABLE_TESTS", VBool true); ("KERNEL_STACK", VStr "/k/lib");
     ("SCTP_TOOLS_FOUND", VBool true); ("LIB_ASPECT_PATH", VStr "/usr"); ("MPI", VStr "1");
     ("GLIBC_INSTALL_DIR", VStr "/glibc"); ("LIB_SUFFIX", VStr "debug")].
Definition full_start (quagga : bool) : mstate (gmap string val) :=
  {| env := full_env quagga; events := []; logged := [] |}.
(** the descriptions below the directory myscripts *)
Definition repo_listdir (dir : string) : list string :=
  if (dir =? "myscripts")%string then
    ["120-demo"; "app-test"; "btorrent1"; "ccn-common"; "ccn-exp1"; "ccn-mt1"; "ccn-tap-vlc";
     "dce-emu-ping"; "dce-mpi-udp"; "dce-wifi"; "dce-wifi-ofdma"; "iperf-multi"; "loaders-test";
     "mini-debug"; "mt2"; "mt3"; "nr-dce"; "pamptcp"; "pamptcp-link-characteristics"; "ping";
     "ping-mt1"; "sleep"; "tuto1"; "tuto2"; "tuto3"]
  else [].
Definition full_build (quagga : bool) : result unit * mstate (gmap string val) :=
  build_all "/src/build" "/src" "/src" "x86_64" (λ _ _, VStr EmptyString) repo_listdir (λ _, true)
    (λ _, mret ()) (mret ()) (full_start quagga).
(** what the status file then lists *)
Definition programs (quagga : bool) : list string :=
  match env_get (env (full_build quagga).2) "NS3_RUNNABLE_PROGRAMS" with VList l => l | _ => [] end.
End RepoBuild.

(** ** Facts *)
Module RepoExamplesFacts.
Import Driver Config Jobs Examples ConfigFacts ExamplesToRun RepoBuild.

(** names and conditions that the driver handles without surprise *)
Definition plain_example (x : cpp_example) : bool :=
  negb (has_char "/" x.1.1) && bool_decide (x.1.2 ∈ ["True"; "False"]) &&
  bool_decide (x.2 ∈ ["True"; "False"]).
Definition queued_example (runnable : list string) (x : cpp_example) : bool :=
  bool_decide (program x.1.1 ∈ runnable) && (x.1.2 =? "True")%string.

Lemma program_no_slash s : no_char "/" s → no_char "/" (program s).
Proof.
  unfold program, split_command. intros Hs. destruct (split_once space s) as [[p q]|] eqn:E; [|done].
  apply split_once_inv in E as [-> _]. cbn [fst]. by apply no_char_app in Hs as [? _].
Qed.
Lemma path_join_no_char c d b :
  c ≠ "/"%char → no_char c d → no_char c b → no_char c (path_join d b).
Proof.
  intros Hc Hd Hb. unfold path_join. repeat case_match; [done| |];
    rewrite ?no_char_app, ?no_char_cons; repeat split; auto; by apply not_eq_sym.
Qed.
Lemma program_join dir s :
  no_char " " dir → program (path_join dir s) = path_join dir (program s).
Proof.
  intros Hd. unfold program, split_command. destruct (split_once space s) as [[p q]|] eqn:E; cbn [fst].
  - apply split_once_inv in E as [-> Hp]. rewrite path_join_app by done.
    by rewrite split_once_app by by apply path_join_no_char.
  - apply split_once_none_inv in E. by rewrite split_once_None by by apply path_join_no_char.
Qed.
Lemma test_program_join dir s :
  no_char " " dir → no_char "/" s → Run.test_program (path_join dir s) = program s.
Proof.
  intros Hd Hs. change (Run.test_program (path_join dir s)) with (basename (program (path_join dir s))).
  rewrite program_join by done. by apply basename_join, program_no_slash.
Qed.

Section queueing.
  Variable o : options.
  Variables workdir tmp runner : string.
  Variable eval_cond : string → result bool.
  Hypothesis eval_true : eval_cond "True" = Ok true.
  Hypothesis eval_false : eval_cond "False" = Ok false.

(** the examples of a list in a directory, all of whose programs are there: a job for each one whose
    program was recorded and whose condition is true, in order *)
Lemma queue_plain dir runnable l w :
  no_char " " dir → forallb plain_example l = true →
  ∃ jobs w', Run.queue_examples o workdir tmp runner eval_cond runnable
    ((λ x, (path_join dir x.1.1, x.1.2, x.2)) <$> l) w = (Ok jobs, w') ∧
  display_name <$> jobs = (λ x, x.1.1) <$> List.filter (queued_example runnable) l.
Proof using eval_true eval_false.
  intros Hd. revert w. induction l as [|[[s r] v] l IH]; intros w Hl; [by exists [], w|].
  cbn [forallb] in Hl. apply andb_true_iff in Hl as [Hx Hl]. unfold plain_example in Hx. cbn in Hx.
  apply andb_true_iff in Hx as [[Hs Hr%bool_decide_eq_true]%andb_true_iff Hv%bool_decide_eq_true].
  apply negb_true_iff, has_char_no_char in Hs.
  assert (Hr' : eval_cond r = Ok (r =? "True")%string).
  { apply elem_of_cons in Hr as [->|[->|[]%elem_of_nil]%elem_of_cons]; [by rewrite eval_true|by rewrite eval_false]. }
  assert (Hv' : eval_cond v = Ok (v =? "True")%string).
  { apply elem_of_cons in Hv as [->|[->|[]%elem_of_nil]%elem_of_cons]; [by rewrite eval_true|by rewrite eval_false]. }
  cbn [fmap list_fmap Run.queue_examples List.filter fst snd]. unfold queued_example at 1. cbn [fst snd].
  rewrite test_program_join by done.
  case_bool_decide; cbn [andb]; [|by apply IH]. cbv [mbind py_bind py_lift]. rewrite Hr'.
  destruct (r =? "True")%string; [|by apply IH].
  assert (∃ b, (if valgrind o then (b ← py_lift (eval_cond v); mret (negb b)) else mret false) w
               = (@Ok bool b, w)) as [b Hb].
  { destruct (valgrind o); [|by eexists]. cbv [mbind py_bind py_lift]. rewrite Hv'. by eexists. }
  cbv [mbind py_bind py_lift] in Hb. rewrite Hb.
  assert (∃ w1, Run.queued o (path_join dir s) w = (Ok (), w1)) as [w1 Hw].
  { unfold Run.queued, when. destruct (verbose o); by eexists. }
  rewrite Hw. destruct (IH w1 Hl) as (jobs & w2 & Hj & Hn). rewrite Hj.
  eexists _, w2. split; [reflexivity|]. cbn [fmap list_fmap display_name Run.example_job fst].
  f_equal; [by apply basename_join|exact Hn].
Qed.

(** the programs of descriptions below myscripts, those that need the submodule quagga, and what the
    list says is not to be run *)
Definition script_programs : list string := ["dce-ping-mt1"; "dce-mt2"; "dce-mt3"].
Definition quagga_programs : list string := ["dce-mptcp-handoff-v6"; "dce-mptcp-handoff-v4v6"].
Definition left_out (quagga : bool) (x : cpp_example) : bool :=
  bool_decide (program x.1.1 ∈ script_programs ++ if quagga then [] else quagga_programs) ||
  negb (x.1.2 =? "True")%string.

Lemma repository_plain : forallb plain_example cpp_examples = true.
Proof using Type. by vm_compute. Qed.
Lemma repository_filter quagga :
  List.filter (queued_example (programs quagga)) cpp_examples =
  List.filter (λ x, negb (left_out quagga x)) cpp_examples.
Proof using Type. by destruct quagga; vm_compute. Qed.

(** C3. After the build of the whole repository, with everything found, the driver queues a job for
    each example of examples-to-run.py in order, except for those that are switched off, for those
    of the submodule quagga when it is not there, and always for the examples of descriptions below
    myscripts: these are built, and the list asks for them, but they are never run. *)
Theorem repository_examples_queued (quagga : bool) (dir : string) (w : world)
    (Hdir : no_char " " dir) :
  (full_build quagga).1 = Ok () ∧
  ∃ jobs w', Run.queue_examples o workdir tmp runner eval_cond (programs quagga)
      (example_tests (add_cpp (λ _, true) dir cpp_examples no_examples)) w = (Ok jobs, w') ∧
    display_name <$> jobs =
      (λ x, x.1.1) <$> List.filter (λ x, negb (left_out quagga x)) cpp_examples.
Proof using eval_true eval_false.
  split; [by destruct quagga; vm_compute|]. rewrite add_cpp_spec. cbn [example_tests no_examples app].
  assert (List.filter (runnable_cpp (λ _, true) dir) cpp_examples = cpp_examples) as -> by reflexivity.
  destruct (queue_plain dir (programs quagga) cpp_examples w Hdir repository_plain) as (jobs & w' & Hj & Hn).
  exists jobs, w'. split; [exact Hj|]. rewrite Hn. by rewrite repository_filter.
Qed.
End queueing.
End RepoExamplesFacts.

Module RepoExamplesWitness.
Import Driver Config Jobs Examples ExamplesToRun RepoBuild RepoExamplesFacts.

Definition literal_cond (s : string) : result bool := Ok (s =? "True")%string.
Lemma repository_examples_queued_witness :
  ∃ jobs w', Run.queue_examples default_options "/src" "/tmp" EmptyString literal_cond (programs true)
      (example_tests (add_cpp (λ _, true) "build/bin" cpp_examples no_examples))
      (mk_world [] [] [] [] [] []) = (Ok jobs, w') ∧
    length jobs = 65%nat ∧ length cpp_examples = 69%nat.
Proof.
  destruct (repository_examples_queued default_options "/src" "/tmp" EmptyString literal_cond eq_refl
              eq_refl true "build/bin" (mk_world [] [] [] [] [] []) eq_refl)
    as (_ & jobs & w' & Hj & Hn).
  exists jobs, w'. split; [exact Hj|]. split; [|reflexivity].
  rewrite <- (length_fmap display_name), Hn. vm_compute. reflexivity.
Defined.
End RepoExamplesWitness.
